(* ===== verification/_CoqProject ===== *)
-Q . S2P
Prelude.v
JsString.v
JsNumber.v
Cron.v
CronSpec.v
Utils.v
Types.v
JsJson.v
JsonText.v
Api.v
Routes.v
Stores.v
HttpClient.v
Sse.v
Shortcuts.v
Ui.v
Shell.v
DeviceComponents.v
Pages.v
FleetPages.v
AdminPages.v
InventoryPage.v
SetupPages.v
ReportPages.v
SettingsPage.v
DeviceDetail.v
MobileScreens.v
PageRoutes.v
ServerModels.v
ServerRuntime.v
ServerAuth.v
ServerOrgs.v
ServerConnections.v
ServerAlerts.v
ServerCommands.v
ServerNotify.v
ServerMessages.v
ServerLink.v
ServerDevices.v
ServerSystem.v
EndToEnd.v
