(* ===== verification/Prelude.v ===== *)
(** * Verification of DTSYS

    DTSYS manages a fleet of devices: a Go agent on each device ([client/]), a
    FastAPI server ([server/]), a React web client ([frontend/]) and a React
    Native mobile client ([mobile/]).  This library models the TypeScript of the
    two clients and the Python of the server (accounts, organizations, devices,
    commands, alerts, connections, agent messages and background tasks), proves
    what makes their parts correct, and composes the parts: the server as one
    transition system, and its alert stream with the store of the browser.

    ** The program and its models

    The web client is layered, and the files follow the layers.

    - Language: [JsString] (UTF-16 strings and their methods,
      [encodeURIComponent]), [JsNumber] (numbers with NaN and infinities,
      [Number(text)], [Array.from]), [JsJson] ([JSON.parse]) and [JsonText]
      ([JSON.stringify] and its round trip).
    - Utilities ([frontend/src/utils]): [Cron] models [cron.ts], [CronSpec] gives
      schedules an abstract syntax and a denotation and proves that the code
      implements it; [Utils] models [export.ts], [tags.ts] and [time.ts].
    - Data and requests: [Types] holds the records of [types/index.ts]; [Api] has
      one definition per function of [api/*.ts], giving the request it sends;
      [Routes] is the table declared by the routers of [server/app/api/v1].
    - State: [Stores] models [store/*.ts] over a model of [localStorage];
      [HttpClient] models the axios interceptors of [api/client.ts] (module
      [WebClient]) and of the mobile [api/client.ts] with [useAuth.ts] and the
      gate of the mobile [App.tsx] (module [MobileClient]).
    - Streams and keys: [Sse] models [useSSE.ts] and [useActivityStream.ts],
      [Shortcuts] models [useKeyboardShortcuts.ts] and the behaviour of
      [GlobalSearch.tsx].
    - Components: [Ui] has the element trees and [components/ui], [Shell] has
      [components/layout], the rendering of the search and the routing of
      [App.tsx], [DeviceComponents] has [components/device] and the query hooks,
      [Pages] has the login, dashboard, alerts and software update pages.
    - Other pages: [FleetPages] has DeviceCompare, CustomDashboard, NetworkMap and
      Status; [AdminPages] has ScheduledCommands, Users, Organizations and
      CommandLibrary; [InventoryPage] has Inventory with the CSV writer of the
      server; [SetupPages] has Downloads and Onboarding; [ReportPages] has
      AuditLog, Compliance and Reports; [SettingsPage] and [DeviceDetail] have
      the pages of these names.  [PageRoutes] joins pages and routes: the class
      [ServedPage] states that the requests of a page's handlers are served, the
      pages are its instances.
    - Mobile: [MobileScreens] has the screens, the command output and the
      navigator of [mobile/src]; their session is in [HttpClient].

    The server's files are in the order of its imports ([server/app]).

    - [ServerModels] has the tables of [models/] as lists of rows, with their
      keys; [ServerRuntime] the state of a server process (the session and what
      is committed, Redis with expirations, connections, queues, tasks, the
      effects on the outside) and [proc], the monad of handlers that read and
      change it and may raise, with [core/], [config.py] and [db/session.py].
    - [ServerAuth]: [dependencies.py], [services/auth_service.py],
      [api/v1/auth.py], the accounts of [api/v1/admin.py]; hashing and tokens are
      the class [Crypto] with its laws.  [ServerOrgs]: [api/v1/organizations.py].
    - [ServerConnections]: [websocket/manager.py] and the event streams with
      their endpoints.  [ServerAlerts]: the alert and notification services, the
      alert endpoints and the offline check of the worker.  [ServerCommands]: the
      command service, its endpoints (single, bulk, software updates, schedules),
      the scheduler and the cleanup of the worker.  [ServerNotify]: notification
      rules and push tokens.
    - [ServerMessages]: the handler of agent messages ([websocket/handler.py]).
      [ServerLink]: the life of a device's connection ([websocket/router.py]).
      [ServerDevices]: enrollment and the device endpoints.
    - [ServerSystem] composes them: an [event] is any request, message,
      connection, stream or task; [system_step] is one event, on success or on
      failure.  [EndToEnd] composes the server's stream with [Sse] and [Stores].

    How the server's code becomes definitions:
    - a handler is a [proc] with the steps of the source; [with_db] is the
      session of a request, which commits on success and rolls back on an
      exception; a statement of SQLAlchemy is a function on the list of rows;
    - identifiers, salts and the time are arguments of the handler that draws
      them; the clock is read once per handler;
    - the steps of two requests do not interleave except where the source waits
      for an outside event: the messages of a connection, the elements of a
      stream and the delay before a device is marked offline are events of
      their own.  The worker has the tables and Redis of the server, and none of
      its connections ([worker]);
    - the columns' widths, keys, uniqueness and the foreign keys that a handler
      can violate are checked where rows are written, as exceptions.

    How the clients' code becomes definitions:
    - a pure function is a function; a call that may throw returns an [option];
    - a store, a hook or a component is a record of its state with one definition
      per action, returning the new state and the list of effects it asks for
      (requests, navigations, timers, notifications), and a [view] that renders
      the state to a tree of elements.  Trees keep tags, texts, form values,
      disabled flags and handlers; style classes and icons' drawings are left
      out except where the code computes them;
    - concurrency is the order of inputs: responses, timers, stream pieces and
      clicks are constructors of an input or action type, and theorems quantify
      over all sequences of them (or over an inductive [reachable] predicate);
    - the server, the browser's answers and third-party libraries are parameters
      or inputs: the [Server] class of [HttpClient] answers from the history of
      messages, [decode] stands for the parsing of an event, [localeCompare],
      date and number formatting and [jwtDecode] are section variables.  The
      cache of the query library is not modelled: the data of a query is part of
      the state and may change at any time.

    ** What is proved

    - The server as a whole: from tables in order, every sequence of events keeps
      an owner and distinct members of every organization, one open alert per
      device and type, at most a hundred waiting commands per device, and the
      registration of every open socket, and, without a directory, an active
      administrator ([system_invariant]; a directory can take the role from the
      last one, [directory_demotes_last_admin]); a revoked device never connects
      again ([revoked_stays_out]).  Each invariant is proved by the events on the
      tables it looks at; the class [Frame] discharges the rest.
    - From end to end: what the browsers of an organization get from an open
      stream are alerts [create_alert] stored for it, in order, once and as their
      rows have them, however the network cuts the stream, and all of them if the
      queue of 100 never overflows and is emptied ([alerts_reach_the_browser]);
      the alerts of the offline check are stored past it and never streamed
      ([offline_alerts_not_streamed]).
    - Isolation: commands, device requests and organization requests change and
      reach only what belongs to their organization; an agent message changes
      the rows of its device, the command it names and the push tokens of the
      organization's members ([agent_message_is_local]).
    - Enrollment, sessions and links: what becomes of a registration with a token,
      on every branch of the fingerprint; of a connection with a key, from another
      host, beyond the limit of attempts and from the same host; of a dispatched
      command, by each of the four ways; logins by password or directory,
      refreshes and logouts; a device is online when it connects, and when its
      endpoint ends, however it ends, a delay marks it offline unless it is
      connected again; a network report replaces the interfaces by those it
      lists; streams are bounded.
    - Where the server does not do what it means to, a theorem of the component
      shows an input (e.g. [loopback_never_connects],
      [reconnect_loses_new_connection], [fleet_schedule_crosses_orgs]).
    - Cron: on well-formed schedules the matcher decides whether all five fields
      contain the minute ([meets]); compared with standard cron ([fires]), where
      either of two restricted day fields makes a run and 7 is Sunday, it is sound
      and, with one day field at most, exact ([cron_matches_refines]; the
      difference is [both_day_fields_required]).  The preview has the first such
      minutes after now within the loop's bound ([next_runs_first_matches]), is
      complete for daily schedules and empty for schedules further away than the
      bound; the description agrees with the matcher.
    - Round trips: a CSV export read by an RFC 4180 reader gives the rows back; an
      uptime reads back; tag colours are total and their hash is exact.
    - Requests: every request of the web API is served by a server route; the
      mobile command requests are not.
    - Sessions: the alert store refines an ordered set; a reload restores the
      session in memory, but for an organisation of an earlier session that a
      login without one leaves stored ([auth_session_survives_reload]); the web
      client refreshes and retries with the new token on every 401, until another
      answer comes or a refresh is refused, which ends the session
      ([web_renews_until_answered]), and so may resend for ever when 401 answers
      persist; the mobile client always settles.
    - Streams: both consumers are independent of how the network cuts the stream;
      reconnection delays double up to a minute; nothing happens after the
      unmount; one connection at most.
    - Shell: without a session only the login and status pages are seen; every
      navigation target exists; shortcuts and their prefix timer; the search
      selection is always valid.
    - Components and pages: the pager, the process table, bulk commands in flight,
      the dashboard's selection, the grouping of alerts, the targets of software
      updates, and the behaviours of the search boxes that lose results or
      debounce nothing.
    - Fleet pages: the layouts of the custom dashboard stay valid and survive
      their storage; the network map shows every visible device once.
    - Administration: the guards of the users page; the slug made of a name is
      one the server accepts; what the schedule form sends; an inventory
      exported and imported again is unchanged, unless a cell needs quotes; the
      steps of the first-run wizard; the downloads are served.
    - Reports: one event source at most feeds the audit page, which shows the
      newest entries; policies have known rules with values; the pending
      updates and the uptimes of the reports are exact and bounded, and the
      requests of that page that the server refuses; the settings page is closed
      to others than administrators and saves what its preview shows.
    - Device page: versions compare lexicographically; a screenshot capture ends
      with a screenshot taken since its request or after thirty seconds, and with
      nothing else; the uptime bar sums the outages of each of its thirty dates,
      which are the last thirty days but around a clock change
      ([clock_change_repeats_day]); every request of
      the administration, inventory, compliance, settings, device, audit and
      reports pages is served.
    - Mobile screens: alerts in order of severity and time; dangerous commands are
      sent by their confirmation only.

    ** Bounds and fuel

    The preview loop of [Cron] runs for the 100000 attempts of the source.  The
    retry recursion of [HttpClient] is bounded by fuel: two sends are enough for
    the mobile client ([mobile_client_settles]); a web request needs one unit more
    than the renewals it goes through ([web_renews_until_answered]), and no fuel
    is enough in [web_client_never_settles].  Redirections of the router settle within three
    steps.  [JSON_parse] has two units of fuel per character.  Integers that
    count things are unbounded: the code only adds small constants to them; the
    32-bit hash of [tags.ts] is modelled with its wrap-around.

    On the server the only loops are over rows and over the elements of a
    message; a request has no fuel.  Integers of a message are checked against
    the width of their column ([in_width]).  Identifiers are 128-bit numbers
    where their text is read back ([uuid_ok]).

    ** Not modelled

    The Go agent, build and deployment files.  Of the server: the endpoints that
    only read (statistics, audit log, metrics, software and pending-update lists,
    uptime history, downloads), device groups, saved commands and compliance
    policies, which share no table with the rest; the delivery of e-mails and
    webhooks (their start is an effect); the request limiter of [slowapi]; and
    the interleaving of two requests inside a handler.  The directory, the push
    service, the cron library, e-mail validation, hashing, tokens, and the texts
    of floats and other values are parameters.  Of the clients: the zustand
    [persist] middleware, the query library's caching and retries, the chart and
    navigation libraries, style sheets, and the texts that dates, decimal numbers
    and locale comparisons give, which are parameters.  Time zones are behind the
    parameters that parse dates, a parameter of the uptime bar, and a constant
    offset in [Cron].  The order in which a sort with an inconsistent
    comparison leaves its elements (dates that do not parse) is that of an
    insertion sort here.

    This file is the prelude: the scope of the development, its tactics, its hint
    database, and the facts on lists, sorting and duplicates that the
    components share. *)
From Stdlib Require Export ZArith Lia List Sorting.Permutation Sorting.Sorted.
From stdpp Require Export base tactics decidable option list gmap sets.
Export ListNotations.

(** ** Scope of the development *)

Declare Scope js_scope.
Delimit Scope js_scope with js.

(** ** Automation *)

Create HintDb dtsys.

(** Case analysis on every [match]/[if]/[decide] of the goal, then the
    closing tactic [t]. *)
Ltac split_cases t :=
  repeat case_match; simplify_eq/=; t.

(** [bool_decide] facts of the context turned into propositions. *)
Ltac reflect_bools :=
  repeat match goal with
  | H : bool_decide _ = true |- _ => apply bool_decide_eq_true in H
  | H : bool_decide _ = false |- _ => apply bool_decide_eq_false in H
  | H : (_ && _) = true |- _ => apply andb_true_iff in H as [? ?]
  | H : (_ || _) = false |- _ => apply orb_false_iff in H as [? ?]
  | H : negb _ = true |- _ => apply negb_true_iff in H
  | H : negb _ = false |- _ => apply negb_false_iff in H
  end.

(** Comparisons stay folded, so that their [_spec] lemmas apply. *)
#[global] Arguments Z.eqb : simpl never.
#[global] Arguments Z.leb : simpl never.
#[global] Arguments Z.ltb : simpl never.

(** Linear arithmetic with division and remainder. *)
Ltac zdiv := Z.div_mod_to_equations; lia.

(** ** Lists *)

Section lists.
Context {A B : Type}.
Implicit Types (l : list A).

(** [List.filter] with a boolean test, as JavaScript's [filter] takes a
    callback. *)
Definition bfilter (f : A → bool) l : list A := List.filter f l.

Lemma bfilter_In f l x : In x (bfilter f l) ↔ In x l ∧ f x = true.
Proof. apply filter_In. Qed.

Lemma bfilter_app f l1 l2 : bfilter f (l1 ++ l2) = bfilter f l1 ++ bfilter f l2.
Proof. apply List.filter_app. Qed.

Lemma bfilter_all f l : (∀ x, In x l → f x = true) → bfilter f l = l.
Proof.
  induction l as [|x l IH]; intros H; [done|]. simpl.
  rewrite (H x) by (by left). f_equal. apply IH. intros y Hy. apply H. by right.
Qed.

Lemma bfilter_none f l : (∀ x, In x l → f x = false) → bfilter f l = [].
Proof.
  induction l as [|x l IH]; intros H; [done|]. simpl.
  rewrite (H x) by (by left). apply IH. intros y Hy. apply H. by right.
Qed.

Lemma bfilter_length f l : (length (bfilter f l) ≤ length l)%nat.
Proof. induction l; simpl; [lia|]. case_match; simpl; lia. Qed.

Lemma map_bfilter_sublist (g : A → B) f l :
  map g (bfilter f l) `sublist_of` map g l.
Proof.
  induction l as [|x l IH]; simpl; [constructor|].
  destruct (f x); simpl; by constructor.
Qed.

Lemma NoDup_map_bfilter (g : A → B) f l :
  NoDup (map g l) → NoDup (map g (bfilter f l)).
Proof. intros H. eapply sublist_NoDup; [exact H|apply map_bfilter_sublist]. Qed.

(** Strict order survives dropping elements. *)
Lemma StronglySorted_sublist (R : A → A → Prop) l1 l2 :
  l1 `sublist_of` l2 → StronglySorted R l2 → StronglySorted R l1.
Proof.
  induction 1 as [|x l1 l2 Hs IH|x l1 l2 Hs IH]; intros H; [constructor| |].
  - inversion H as [|? ? H1 H2]; subst. constructor; [by apply IH|].
    rewrite List.Forall_forall in H2 |- *. intros y Hy. apply H2.
    apply list_elem_of_In. eapply elem_of_sublist; [|done]. by apply list_elem_of_In.
  - inversion H; subst. by apply IH.
Qed.

Lemma bfilter_sublist f l : bfilter f l `sublist_of` l.
Proof. induction l as [|x l IH]; simpl; [constructor|]. destruct (f x); by constructor. Qed.

(** A selection is not affected by what happens to elements outside of it. *)
Lemma bfilter_map_other f g (h : A → A) l :
  (∀ x, In x l → g x = true → f x = false ∧ f (h x) = false) →
  bfilter f (map (λ x, if g x then h x else x) l) = bfilter f l.
Proof.
  induction l as [|x l IH]; intros H; [done|]. simpl. rewrite IH by (intros y Hy; apply H; by right).
  destruct (g x) eqn:E; [|done]. by destruct (H x (or_introl eq_refl) E) as [-> ->].
Qed.
Lemma bfilter_drop_other f g l :
  (∀ x, In x l → g x = true → f x = false) → bfilter f (bfilter (λ x, negb (g x)) l) = bfilter f l.
Proof.
  induction l as [|x l IH]; intros H; [done|]. simpl. rewrite <-IH by (intros y Hy; apply H; by right).
  destruct (g x) eqn:E; simpl; [|done]. by rewrite (H x (or_introl eq_refl) E).
Qed.

Lemma NoDup_bfilter f l : NoDup l → NoDup (bfilter f l).
Proof. intros H. eapply sublist_NoDup; [exact H|apply bfilter_sublist]. Qed.

End lists.

(** An increasing function enumerates an increasing list. *)
Lemma StronglySorted_map_seq (f : nat → Z) a n :
  (∀ i j, (i < j)%nat → (f i < f j)%Z) → StronglySorted Z.lt (map f (seq a n)).
Proof.
  intros Hf. revert a. induction n as [|n IH]; intros a; simpl; constructor; [apply IH|].
  rewrite List.Forall_forall. intros z (j & <- & Hj)%in_map_iff.
  apply in_seq in Hj. apply Hf. lia.
Qed.

#[export] Hint Resolve bfilter_length NoDup_map_bfilter NoDup_bfilter : dtsys.

(** ** Stable sorting

    [Array.prototype.sort] is stable: elements the comparator does not order
    keep their order.  [before x y] says that [x] may stay before [y], that is,
    that the comparator returns at most 0 on them. *)

Section sorting.
Context {A : Type} (before : A → A → bool).

Fixpoint insert_sorted (x : A) (l : list A) : list A :=
  match l with
  | [] => [x]
  | y :: l' => if before x y then x :: l else y :: insert_sorted x l'
  end.
Definition stable_sort (l : list A) : list A := fold_right insert_sorted [] l.

Lemma insert_sorted_perm x l : Permutation (insert_sorted x l) (x :: l).
Proof.
  induction l as [|y l IH]; [done|]. simpl. destruct (before x y); [done|].
  rewrite IH. constructor.
Qed.

Lemma stable_sort_perm l : Permutation (stable_sort l) l.
Proof. induction l as [|x l IH]; [done|]. simpl. by rewrite insert_sorted_perm, IH. Qed.

Lemma stable_sort_In l x : In x (stable_sort l) ↔ In x l.
Proof. split; apply Permutation_in; [|symmetry]; apply stable_sort_perm. Qed.

Lemma stable_sort_length l : length (stable_sort l) = length l.
Proof. apply Permutation_length, stable_sort_perm. Qed.

Context (before_total : ∀ x y, before x y = true ∨ before y x = true).
Context (before_trans : ∀ x y z, before x y = true → before y z = true → before x z = true).

Lemma insert_sorted_sorted x l :
  StronglySorted (λ a b, before a b = true) l →
  StronglySorted (λ a b, before a b = true) (insert_sorted x l).
Proof.
  induction 1 as [|y l Hl IH Hy]; simpl; [by repeat constructor|].
  destruct (before x y) eqn:E.
  - constructor; [by constructor|]. constructor; [done|].
    rewrite List.Forall_forall in Hy |- *. eauto.
  - constructor; [done|]. rewrite List.Forall_forall in Hy |- *. intros z Hz.
    apply (Permutation_in _ (insert_sorted_perm x l)) in Hz as [<-|Hz]; [|auto].
    destruct (before_total x y) as [?|?]; [congruence|done].
Qed.

Lemma stable_sort_sorted l : StronglySorted (λ a b, before a b = true) (stable_sort l).
Proof. induction l; simpl; [constructor|by apply insert_sorted_sorted]. Qed.

End sorting.

(** The sort depends on the comparisons of the elements only. *)
Lemma insert_sorted_ext {A} (f g : A → A → bool) x l :
  (∀ y, In y l → f x y = g x y) → insert_sorted f x l = insert_sorted g x l.
Proof.
  induction l as [|y l IH]; intros H; [done|]. simpl. rewrite (H y) by (by left).
  destruct (g x y); [done|]. f_equal. apply IH. intros z Hz. apply H. by right.
Qed.
Lemma stable_sort_ext {A} (f g : A → A → bool) l :
  (∀ x y, In x l → In y l → f x y = g x y) → stable_sort f l = stable_sort g l.
Proof.
  induction l as [|x l IH]; intros H; [done|]. simpl. rewrite IH by (intros y z Hy Hz; apply H; by right).
  apply insert_sorted_ext. intros y Hy. apply H; [by left|]. right. by apply stable_sort_In in Hy.
Qed.

Lemma StronglySorted_weaken {A} (R S : A → A → Prop) l :
  (∀ x y, R x y → S x y) → StronglySorted R l → StronglySorted S l.
Proof.
  intros H. induction 1 as [|x l Hl IH Hx]; constructor; [done|].
  rewrite List.Forall_forall in Hx |- *. auto.
Qed.

(** A duplicate-free sorted list of integers is strictly increasing. *)
Lemma sorted_nodup_lt l :
  StronglySorted (λ a b, (a <=? b)%Z = true) l → List.NoDup l → StronglySorted Z.lt l.
Proof.
  induction 1 as [|x l Hl IH Hx]; intros Hn; [constructor|].
  inversion Hn as [|? ? Hnin Hn']; subst. constructor; [by apply IH|].
  rewrite List.Forall_forall in Hx |- *. intros y Hy. specialize (Hx _ Hy). apply Z.leb_le in Hx.
  assert (x ≠ y) by (by intros ->). lia.
Qed.

(** Removal of duplicates, keeping first occurrences: [Array.from(new Set(l))]. *)
Section dedup.
Context {A : Type} (eqb : A → A → bool) (eqb_spec : ∀ x y, eqb x y = true ↔ x = y).

Fixpoint dedup (l : list A) : list A :=
  match l with
  | [] => []
  | x :: l' => x :: bfilter (λ y, negb (eqb y x)) (dedup l')
  end.

Lemma dedup_In x l : In x (dedup l) ↔ In x l.
Proof.
  induction l as [|y l IH]; [done|]. simpl. rewrite bfilter_In, IH, negb_true_iff. split.
  - naive_solver.
  - intros [->|Hx]; [by left|]. destruct (eqb x y) eqn:E; [left; symmetry; by apply eqb_spec|by right].
Qed.

Lemma dedup_NoDup l : List.NoDup (dedup l).
Proof.
  induction l as [|y l IH]; simpl; constructor.
  - rewrite bfilter_In, negb_true_iff. intros [_ E].
    assert (eqb y y = true) by (by apply eqb_spec). congruence.
  - by apply List.NoDup_filter.
Qed.
End dedup.

(** Truthiness of the guards [x ?? d] and [x || d] on a nullable value. *)
Definition from_null {A} (d : A) (o : option A) : A :=
  match o with Some x => x | None => d end.
Notation "o ?? d" := (from_null d o) (at level 60, right associativity) : js_scope.

(** ** Runs

    A component's history is a fold of its update over the actions. *)
Lemma fold_left_invariant {S A : Type} (P : S → Prop) (f : S → A → S) l s :
  P s → (∀ s a, P s → In a l → P (f s a)) → P (fold_left f l s).
Proof.
  revert s. induction l as [|a l IH]; intros s Hs Hstep; [done|]. simpl. apply IH.
  - apply Hstep; [done|by left].
  - intros s' b Hs' Hb. apply Hstep; [done|by right].
Qed.

(** ** Maps in insertion order

    A JavaScript [Map] (or an object used as one) filled by a loop: an
    association list whose keys keep the order of their first insertion. *)
Section ordered_map.
Context {K V A : Type} (eqb : K → K → bool) (eqb_spec : ∀ x y, eqb x y = true ↔ x = y).

(** [m.set(k, g(m.get(k)))] *)
Fixpoint upsert (k : K) (g : option V → V) (m : list (K * V)) : list (K * V) :=
  match m with
  | [] => [(k, g None)]
  | (k', v) :: m' => if eqb k' k then (k', g (Some v)) :: m' else (k', v) :: upsert k g m'
  end.

(** [m.get(k)] *)
Fixpoint assoc (k : K) (m : list (K * V)) : option V :=
  match m with
  | [] => None
  | (k', v) :: m' => if eqb k' k then Some v else assoc k m'
  end.

Context (key : A → K) (put : A → option V → V).

(** The loop [for (const x of l) m.set(key(x), put(x, m.get(key(x))))]. *)
Definition collect (l : list A) : list (K * V) :=
  fold_left (λ m x, upsert (key x) (put x) m) l [].

Lemma eqb_same x : eqb x x = true.
Proof. by apply eqb_spec. Qed.
Lemma eqb_other x y : x ≠ y → eqb x y = false.
Proof. intros H. destruct (eqb x y) eqn:E; [apply eqb_spec in E; done|done]. Qed.

Lemma assoc_upsert k k' g m :
  assoc k' (upsert k g m) = if eqb k k' then Some (g (assoc k m)) else assoc k' m.
Proof.
  induction m as [|[k1 v] m IH]; simpl; [done|].
  destruct (eqb k1 k) eqn:E; simpl.
  - apply eqb_spec in E as ->. by destruct (eqb k k').
  - rewrite IH. destruct (eqb k1 k') eqn:E1; [|done].
    apply eqb_spec in E1 as ->. destruct (eqb k k') eqn:E2; [|done].
    apply eqb_spec in E2 as ->. by rewrite eqb_same in E.
Qed.

Lemma upsert_keys k g m :
  map fst (upsert k g m) = if existsb (λ k', eqb k' k) (map fst m) then map fst m else map fst m ++ [k].
Proof.
  induction m as [|[k1 v] m IH]; simpl; [done|]. destruct (eqb k1 k); simpl; [done|].
  rewrite IH. by destruct (existsb _ _).
Qed.

Lemma dedup_snoc l x :
  dedup eqb (l ++ [x]) = if existsb (λ y, eqb y x) l then dedup eqb l else dedup eqb l ++ [x].
Proof.
  induction l as [|y l IH]; simpl; [done|]. rewrite IH. destruct (eqb y x) eqn:E; simpl.
  - apply eqb_spec in E as ->. destruct (existsb _ l); [done|].
    rewrite bfilter_app. simpl. rewrite eqb_same. simpl. by rewrite app_nil_r.
  - destruct (existsb _ l); [done|]. rewrite bfilter_app. simpl.
    rewrite (eqb_other x y); [done|]. intros ->. by rewrite eqb_same in E.
Qed.

Lemma dedup_id l : List.NoDup l → dedup eqb l = l.
Proof.
  induction l as [|x l IH] using rev_ind; [done|]. intros H. rewrite dedup_snoc.
  apply NoDup_ListNoDup, NoDup_app in H as (H1 & H2 & _). rewrite IH by (by apply NoDup_ListNoDup).
  destruct (existsb (λ y, eqb y x) l) eqn:E; [|done]. apply existsb_exists in E as (y & Hy & E). apply eqb_spec in E. subst.
  exfalso. apply (H2 x); [by apply list_elem_of_In|by apply list_elem_of_singleton].
Qed.

Lemma existsb_dedup x l : existsb (λ y, eqb y x) (dedup eqb l) = existsb (λ y, eqb y x) l.
Proof.
  apply eq_iff_eq_true. rewrite !existsb_exists.
  split; intros (y & Hy & E); exists y; (split; [|done]); by apply (dedup_In eqb eqb_spec).
Qed.

(** The keys are those of the list, in order of first occurrence. *)
Lemma collect_keys l : map fst (collect l) = dedup eqb (map key l).
Proof.
  unfold collect. induction l as [|x l IH] using rev_ind; [done|].
  rewrite fold_left_app, map_app. simpl. rewrite upsert_keys, dedup_snoc, IH, existsb_dedup. done.
Qed.

(** The value of a key is put together from the elements with that key. *)
Lemma collect_assoc l k :
  assoc k (collect l) =
  fold_left (λ o x, Some (put x o)) (bfilter (λ x, eqb (key x) k) l) None.
Proof.
  unfold collect. induction l as [|x l IH] using rev_ind; [done|].
  rewrite fold_left_app, bfilter_app, fold_left_app. simpl. rewrite assoc_upsert.
  destruct (eqb (key x) k) eqn:E; [|done].
  apply eqb_spec in E. subst k. simpl. by rewrite IH.
Qed.

Lemma assoc_In k v m : NoDup (map fst m) → In (k, v) m ↔ assoc k m = Some v.
Proof.
  induction m as [|[k1 v1] m IH]; simpl; intros Hn; [naive_solver|].
  apply NoDup_cons in Hn as [Hk Hn]. rewrite list_elem_of_In in Hk.
  destruct (eqb k1 k) eqn:E.
  - apply eqb_spec in E as ->. split; [|naive_solver]. intros [[= ->]|H]; [done|].
    by apply (in_map fst) in H.
  - rewrite <-IH by done. split; [|naive_solver]. intros [[= -> ->]|H]; [by rewrite eqb_same in E|done].
Qed.

Lemma collect_NoDup l : NoDup (map fst (collect l)).
Proof. rewrite collect_keys. apply NoDup_ListNoDup, dedup_NoDup, eqb_spec. Qed.

End ordered_map.

(** Grouping: the value of a key is the list of its elements. *)
Section grouping.
Context {K A : Type} (eqb : K → K → bool) (eqb_spec : ∀ x y, eqb x y = true ↔ x = y) (key : A → K).

Definition push_to (x : A) (o : option (list A)) : list A := from_null [] o ++ [x].
Definition group_by (l : list A) : list (K * list A) := collect eqb key push_to l.

Lemma fold_push_to l o :
  fold_left (λ o x, Some (push_to x o)) l o =
  match l with [] => o | _ => Some (from_null [] o ++ l) end.
Proof.
  revert o. induction l as [|x l IH]; intros o; [done|]. simpl. rewrite IH.
  destruct l; [done|]. simpl. unfold push_to. by rewrite <-app_assoc.
Qed.

Lemma group_by_In l k g :
  In (k, g) (group_by l) ↔ g = bfilter (λ x, eqb (key x) k) l ∧ g ≠ [].
Proof.
  unfold group_by. rewrite (assoc_In eqb eqb_spec) by (by apply collect_NoDup).
  rewrite collect_assoc, fold_push_to by done.
  destruct (bfilter _ l); [naive_solver|]. simpl. naive_solver.
Qed.

Lemma group_by_keys l : map fst (group_by l) = dedup eqb (map key l).
Proof. by apply collect_keys. Qed.

Lemma group_by_covers l x : In x l → In (key x, bfilter (λ y, eqb (key y) (key x)) l) (group_by l).
Proof.
  intros Hx. apply group_by_In. split; [done|]. intros E.
  assert (In x (bfilter (λ y, eqb (key y) (key x)) l)) as H by (apply bfilter_In; split; [done|by apply eqb_spec]).
  by rewrite E in H.
Qed.

Lemma upsert_push_perm k x (m : list (K * list A)) :
  Permutation (concat (map snd (upsert eqb k (push_to x) m))) (concat (map snd m) ++ [x]).
Proof.
  induction m as [|[k1 v] m IH]; simpl; [done|]. destruct (eqb k1 k); simpl.
  - unfold push_to. simpl. rewrite <-!app_assoc. apply Permutation_app_head, Permutation_app_comm.
  - rewrite IH. by rewrite app_assoc.
Qed.

(** No element is lost or repeated. *)
Lemma group_by_perm l : Permutation (concat (map snd (group_by l))) l.
Proof.
  unfold group_by, collect. induction l as [|x l IH] using rev_ind; [done|].
  rewrite fold_left_app. simpl. rewrite upsert_push_perm. by apply Permutation_app_tail.
Qed.

End grouping.
