(* ===== verification/JsString.v ===== *)
(** JavaScript strings: sequences of UTF-16 code units, with the methods of
    [String.prototype] the front end calls (each definition follows the
    method's own algorithm in the ECMAScript standard).

    A string is a [list Z]; a literal ["..."%js] is decoded from UTF-8 into
    UTF-16 code units.  [toLowerCase]/[toUpperCase] are the simple case
    mappings of ASCII and Latin-1; other code units are left alone. *)
From S2P Require Import Prelude.
From Stdlib Require Import Strings.Byte.
Local Open Scope Z_scope.

Abbreviation jstr := (list Z).

(** ** Literals *)

Module Literal.

Inductive units := UNil | UCons (c : Z) (r : units).

Definition byte_val (b : Byte.byte) : Z := Z.of_N (Byte.to_N b).

(** One UTF-16 unit, or the surrogate pair of a supplementary code point. *)
Definition push (cp : Z) (r : units) : units :=
  if cp <? 65536 then UCons cp r
  else UCons (55296 + (cp - 65536) / 1024) (UCons (56320 + (cp - 65536) mod 1024) r).

Fixpoint parse (bs : list Byte.byte) : units :=
  match bs with
  | [] => UNil
  | b :: r =>
      let v := byte_val b in
      if v <? 128 then UCons v (parse r)
      else match r with
      | b1 :: r1 =>
          if v <? 224 then push ((v - 192) * 64 + (byte_val b1 - 128)) (parse r1)
          else match r1 with
          | b2 :: r2 =>
              if v <? 240 then
                push ((v - 224) * 4096 + (byte_val b1 - 128) * 64 + (byte_val b2 - 128)) (parse r2)
              else match r2 with
              | b3 :: r3 =>
                  push ((v - 240) * 262144 + (byte_val b1 - 128) * 4096
                        + (byte_val b2 - 128) * 64 + (byte_val b3 - 128)) (parse r3)
              | [] => UNil
              end
          | [] => UNil
          end
      | [] => UNil
      end
  end.

(** Printing is left to the default list notation. *)
Definition print (u : units) : option (list Byte.byte) := None.

End Literal.

#[warning="-via-type-mismatch"]
String Notation list Literal.parse Literal.print
  (via Literal.units mapping [[nil] => Literal.UNil, [cons] => Literal.UCons]) : js_scope.
Local Open Scope js_scope.

(** ** Methods *)

(** [s === t] *)
Definition seqb (s t : jstr) : bool := bool_decide (s = t).
Infix "=s" := seqb (at level 70, no associativity) : js_scope.

Lemma seqb_true s t : (s =s t) = true ↔ s = t.
Proof. unfold seqb. by rewrite bool_decide_eq_true. Qed.

Lemma seqb_false s t : (s =s t) = false ↔ s ≠ t.
Proof. unfold seqb. by rewrite bool_decide_eq_false. Qed.

Lemma seqb_refl s : (s =s s) = true.
Proof. by apply seqb_true. Qed.

(** Truthiness of a string: [''] is falsy. *)
Definition truthy (s : jstr) : bool := match s with [] => false | _ => true end.

(** Truthiness of a nullable string. *)
Definition otruthy (s : option jstr) : bool :=
  match s with Some s => truthy s | None => false end.

(** [s.startsWith(p)] *)
Fixpoint startsWith (s p : jstr) {struct p} : bool :=
  match p, s with
  | [], _ => true
  | c :: p', d :: s' => (c =? d) && startsWith s' p'
  | _ :: _, [] => false
  end.

(** [s.includes(p)] *)
Fixpoint includes (s p : jstr) : bool :=
  startsWith s p || match s with [] => false | _ :: s' => includes s' p end.

(** [s.slice(n)] for [n >= 0], and [s.slice(0, n)] *)
Definition slice_from (n : nat) (s : jstr) : jstr := drop n s.
Definition slice_to (n : nat) (s : jstr) : jstr := take n s.

(** [l.join(sep)] *)
Fixpoint join (sep : jstr) (l : list jstr) : jstr :=
  match l with
  | [] => []
  | [x] => x
  | x :: l' => x ++ sep ++ join sep l'
  end.

Definition cons_head (c : Z) (l : list jstr) : list jstr :=
  match l with h :: t => (c :: h) :: t | [] => [[c]] end.

(** [s.split(sep)] for a non-empty separator: scan left to right; after a
    match the [length sep - 1] remaining units of the separator are skipped. *)
Fixpoint split_at (sep : jstr) (skip : nat) (s : jstr) : list jstr :=
  match s with
  | [] => [[]]
  | c :: r =>
      match skip with
      | S k => split_at sep k r
      | O => if startsWith s sep then [] :: split_at sep (pred (length sep)) r
             else cons_head c (split_at sep 0 r)
      end
  end.
Definition split (sep s : jstr) : list jstr := split_at sep 0 s.

(** White space and line terminators (the set of [trim] and of [\s]). *)
Definition is_ws (c : Z) : bool :=
  ((9 <=? c) && (c <=? 13)) || (c =? 32) || (c =? 160) || (c =? 5760)
  || ((8192 <=? c) && (c <=? 8202)) || (c =? 8232) || (c =? 8233)
  || (c =? 8239) || (c =? 8287) || (c =? 12288) || (c =? 65279).

Fixpoint trim_start (s : jstr) : jstr :=
  match s with c :: r => if is_ws c then trim_start r else s | [] => [] end.
Definition trim_end (s : jstr) : jstr := rev (trim_start (rev s)).
(** [s.trim()] *)
Definition trim (s : jstr) : jstr := trim_end (trim_start s).

(** [s.split(/\s+/)] *)
Fixpoint split_ws_at (in_run : bool) (s : jstr) : list jstr :=
  match s with
  | [] => [[]]
  | c :: r =>
      if is_ws c then (if in_run then split_ws_at true r else [] :: split_ws_at true r)
      else cons_head c (split_ws_at false r)
  end.
Definition split_ws (s : jstr) : list jstr := split_ws_at false s.

(** [s.replace(/c/g, t)] for a one-unit pattern. *)
Definition replace_all (c : Z) (t s : jstr) : jstr :=
  flat_map (λ d, if d =? c then t else [d]) s.

Definition lower_unit (c : Z) : Z :=
  if ((65 <=? c) && (c <=? 90)) || ((192 <=? c) && (c <=? 222) && negb (c =? 215))
  then c + 32 else c.
Definition upper_unit (c : Z) : Z :=
  if ((97 <=? c) && (c <=? 122)) || ((224 <=? c) && (c <=? 254) && negb (c =? 247))
  then c - 32 else c.
Definition toLowerCase (s : jstr) : jstr := map lower_unit s.
Definition toUpperCase (s : jstr) : jstr := map upper_unit s.

(** [s.padStart(n, c)] for a one-unit filler. *)
Definition padStart (n : nat) (c : Z) (s : jstr) : jstr :=
  replicate (n - length s) c ++ s.

(** ** Decimal representation of an integer, [String(n)] / [`${n}`] *)

Fixpoint digits_aux (fuel : nat) (n : Z) : jstr :=
  match fuel with
  | O => []
  | S k => if n <? 10 then [48 + n] else digits_aux k (n / 10) ++ [48 + n mod 10]
  end.
(** Base 10 digits: the bit length bounds the number of decimal digits. *)
Definition digits (n : Z) : jstr := digits_aux (S (Z.to_nat (Z.log2 n))) n.
Definition string_of_Z (n : Z) : jstr :=
  if n <? 0 then 45 :: digits (- n) else digits n.

(** A number with leading zeros. *)
Definition pad0 (n : nat) (z : Z) : jstr := padStart n 48 (string_of_Z z).

(** ** [encodeURIComponent] *)

(** Letters, digits and [-_.!~*'()] are kept. *)
Definition uri_unescaped (c : Z) : bool :=
  ((48 <=? c) && (c <=? 57)) || ((65 <=? c) && (c <=? 90)) || ((97 <=? c) && (c <=? 122))
  || existsb (Z.eqb c) [45; 95; 46; 33; 126; 42; 39; 40; 41].

Definition hex_digit (n : Z) : Z := if n <? 10 then 48 + n else 55 + n.
Definition percent (b : Z) : jstr := [37; hex_digit (b / 16); hex_digit (b mod 16)].

(** The UTF-8 bytes of a code point. *)
Definition utf8 (cp : Z) : list Z :=
  if cp <? 128 then [cp]
  else if cp <? 2048 then [192 + cp / 64; 128 + cp mod 64]
  else if cp <? 65536 then [224 + cp / 4096; 128 + cp / 64 mod 64; 128 + cp mod 64]
  else [240 + cp / 262144; 128 + cp / 4096 mod 64; 128 + cp / 64 mod 64; 128 + cp mod 64].

Definition is_high (c : Z) : bool := (55296 <=? c) && (c <=? 56319).
Definition is_low (c : Z) : bool := (56320 <=? c) && (c <=? 57343).

(** [None]: a lone surrogate, for which the function throws. *)
Fixpoint encodeURIComponent (s : jstr) : option jstr :=
  match s with
  | [] => Some []
  | c :: r =>
      if uri_unescaped c then cons c <$> encodeURIComponent r
      else if is_low c then None
      else if is_high c then
        match r with
        | d :: r' =>
            if is_low d then
              app (flat_map percent (utf8 (65536 + (c - 55296) * 1024 + (d - 56320))))
                <$> encodeURIComponent r'
            else None
        | [] => None
        end
      else app (flat_map percent (utf8 c)) <$> encodeURIComponent r
  end.

(** ** Lemmas *)

Lemma startsWith_spec s p : startsWith s p = true ↔ ∃ r, s = p ++ r.
Proof.
  revert s. induction p as [|c p IH]; intros s; simpl.
  - split; [by exists s|by destruct s].
  - destruct s as [|d s]; [split; [done|by intros [r ?]]|].
    simpl.     rewrite andb_true_iff, Z.eqb_eq, IH. split.
    + intros [-> [r ->]]. by exists r.
    + intros [r [= -> ->]]. split; [done|by exists r].
Qed.

Lemma startsWith_app s p t : startsWith s p = true → startsWith (s ++ t) p = true.
Proof.
  rewrite !startsWith_spec. intros [r ->]. exists (r ++ t). by rewrite <-app_assoc.
Qed.

Lemma includes_unfold s p :
  includes s p = startsWith s p || match s with [] => false | _ :: s' => includes s' p end.
Proof. by destruct s. Qed.

Lemma includes_spec s p : includes s p = true ↔ ∃ a b, s = a ++ p ++ b.
Proof.
  induction s as [|c s IH]; rewrite includes_unfold, orb_true_iff, startsWith_spec.
  - split.
    + intros [[r Hr]|?]; [|done]. by exists [], r.
    + intros (a & b & Hab). left. destruct a, p, b; try done. by exists [].
  - rewrite IH. split.
    + intros [[r Hr]|(a & b & ->)]; [by exists [], r|by exists (c :: a), b].
    + intros ([|x a] & b & Hab); simpl in Hab.
      * left. by exists b.
      * right. injection Hab as -> ->. by exists a, b.
Qed.

Lemma cons_head_nonnil c l : cons_head c l ≠ [].
Proof. by destruct l. Qed.

Lemma split_at_nonnil sep k s : split_at sep k s ≠ [].
Proof.
  revert k. induction s as [|c s IH]; intros k; simpl; [done|].
  destruct k; [|apply IH]. case_match; [done|apply cons_head_nonnil].
Qed.

(** A string without a given unit is not cut by it. *)
Lemma split1_none c s : (∀ d, In d s → d ≠ c) → split [c] s = [s].
Proof.
  unfold split. induction s as [|d s IH]; intros H; [done|].
  simpl. destruct (Z.eqb_spec c d) as [->|Hne]; simpl.
  - exfalso. exact (H _ (or_introl eq_refl) eq_refl).
  - rewrite IH; [done|]. intros e He. apply H. by right.
Qed.

Lemma split1_app c s t :
  (∀ d, In d s → d ≠ c) → split [c] (s ++ c :: t) = s :: split [c] t.
Proof.
  unfold split. induction s as [|d s IH]; intros H.
  - simpl. rewrite Z.eqb_refl. done.
  - simpl. destruct (Z.eqb_spec c d) as [->|Hne]; simpl.
    + exfalso. exact (H _ (or_introl eq_refl) eq_refl).
    + rewrite IH; [done|]. intros e He. apply H. by right.
Qed.

(** Joining pieces that do not contain the separator and splitting again
    gives the pieces back. *)
Lemma split_join c l :
  l ≠ [] → (∀ s, In s l → ∀ d, In d s → d ≠ c) → split [c] (join [c] l) = l.
Proof.
  induction l as [|s l IH]; intros Hnn H; [done|].
  destruct l as [|s' l].
  - simpl. apply split1_none. apply H. by left.
  - change (join [c] (s :: s' :: l)) with (s ++ c :: join [c] (s' :: l)).
    rewrite split1_app by (apply H; by left). f_equal. apply IH; [done|].
    intros t Ht. apply H. by right.
Qed.

(** A cut needs the whole separator. *)
Lemma split_at_long sep k s x y l :
  split_at sep k s = x :: y :: l → (length sep ≤ length s)%nat.
Proof.
  revert k x y l. induction s as [|c s IH]; intros k x y l; simpl; [done|].
  destruct k as [|k].
  - destruct (startsWith (c :: s) sep) eqn:E.
    + intros _. apply startsWith_spec in E as [r Hr]. apply (f_equal length) in Hr.
      rewrite length_app in Hr. simpl in Hr. lia.
    + destruct (split_at sep 0 s) as [|z [|w l']] eqn:Es; simpl; try done.
      intros _. specialize (IH _ _ _ _ Es). lia.
  - intros H. specialize (IH _ _ _ _ H). lia.
Qed.

Lemma split_at_single sep s x : split_at sep 0 s = [x] → x = s.
Proof.
  revert x. induction s as [|c s IH]; intros x; simpl; [by intros [= <-]|].
  case_match.
  - pose proof (split_at_nonnil sep (pred (length sep)) s).
    by destruct (split_at sep (pred (length sep)) s).
  - destruct (split_at sep 0 s) as [|z l] eqn:Es; simpl.
    + by apply split_at_nonnil in Es.
    + intros [= <- ->]. f_equal. by apply IH.
Qed.

(** The last piece of a split is unfinished: continuing the scan with more
    input only changes that piece. *)
Lemma split_at_app sep k s t :
  (k ≤ length s)%nat →
  split_at sep k (s ++ t) =
  removelast (split_at sep k s) ++ split_at sep 0 (List.last (split_at sep k s) [] ++ t).
Proof.
  revert k. induction s as [|c s IH]; intros k Hk.
  { simpl in Hk. assert (k = O) as -> by lia. done. }
  simpl. destruct k as [|k]; [|apply IH; simpl in Hk; lia].
  destruct (startsWith (c :: s) sep) eqn:E.
  - rewrite (startsWith_app (c :: s) sep t E : startsWith (c :: s ++ t) sep = true).
    assert (pred (length sep) ≤ length s)%nat as Hlen.
    { apply startsWith_spec in E as [r Hr]. apply (f_equal length) in Hr.
      rewrite length_app in Hr. simpl in Hr. lia. }
    rewrite (IH _ Hlen).
    pose proof (split_at_nonnil sep (pred (length sep)) s) as Hnn.
    by destruct (split_at sep (pred (length sep)) s) as [|x l].
  - pose proof (IH 0%nat (Nat.le_0_l _)) as IH0.
    destruct (split_at sep 0 s) as [|x [|y l]] eqn:Es; [by apply split_at_nonnil in Es| |].
    + apply split_at_single in Es as ->. simpl. done.
    + simpl in IH0 |- *.
      destruct (startsWith (c :: s ++ t) sep) eqn:E2; [exfalso|by rewrite IH0].
      apply split_at_long in Es. apply not_true_iff_false in E. apply E.
      apply startsWith_spec in E2 as [r Hr]. apply startsWith_spec.
      exists (drop (length sep) (c :: s)).
      rewrite <-(take_drop (length sep) (c :: s)) at 1. f_equal.
      rewrite <-(take_app_le _ t) by (simpl; lia).
      change ((c :: s) ++ t) with (c :: s ++ t). by rewrite Hr, take_app_length.
Qed.

Lemma split_app sep s t :
  split sep (s ++ t) =
  removelast (split sep s) ++ split sep (List.last (split sep s) [] ++ t).
Proof. apply split_at_app. lia. Qed.

Lemma join_In sep l c : In c (join sep l) → In c sep ∨ ∃ s, In s l ∧ In c s.
Proof.
  induction l as [|s [|s' l] IH]; [done| |].
  - intros H. right. exists s. split; [by left|done].
  - change (join sep (s :: s' :: l)) with (s ++ sep ++ join sep (s' :: l)).
    rewrite !in_app_iff. intros [H|[H|H]]; [right; exists s; split; [by left|done]|by left|].
    destruct (IH H) as [?|(t & Ht & ?)]; [by left|]. right. exists t. split; [by right|done].
Qed.
