(* ===== verification/JsNumber.v ===== *)
(** JavaScript numbers: [Number(s)] on strings, the arithmetic the front end
    uses, and array lengths.

    A finite number is an exact rational ([Q]); every binary64 value is one.
    Rounding to binary64 is not modelled: results of [+], [-], [*] and [%] are
    exact, which agrees with the program on integers below 2^53 and on the
    fractions it compares.  Overflow to infinity is modelled. *)
From S2P Require Import Prelude JsString.
From Stdlib Require Import QArith Qabs Qround.
Local Open Scope Z_scope.
Local Open Scope js_scope.

Inductive num := Fin (q : Q) | NaN | PInf | NInf.

Definition of_Z (z : Z) : num := Fin (inject_Z z).

(** ** Arithmetic *)

Definition num_neg (a : num) : num :=
  match a with Fin q => Fin (- q) | NaN => NaN | PInf => NInf | NInf => PInf end.

Definition num_add (a b : num) : num :=
  match a, b with
  | NaN, _ | _, NaN | PInf, NInf | NInf, PInf => NaN
  | PInf, _ | _, PInf => PInf
  | NInf, _ | _, NInf => NInf
  | Fin x, Fin y => Fin (x + y)
  end.

Definition num_sub (a b : num) : num := num_add a (num_neg b).

(** Rounding towards zero. *)
Definition Qtrunc (q : Q) : Z := Z.quot (Qnum q) (Zpos (Qden q)).

(** The remainder operator [%]: the sign is that of the dividend. *)
Definition num_rem (n d : num) : num :=
  match n, d with
  | NaN, _ | _, NaN | PInf, _ | NInf, _ => NaN
  | Fin x, PInf | Fin x, NInf => Fin x
  | Fin x, Fin y =>
      if Qeq_bool y 0 then NaN else Fin (x - y * inject_Z (Qtrunc (x / y)))
  end.

(** [a === 0] *)
Definition is_zero (a : num) : bool :=
  match a with Fin q => Qeq_bool q 0 | _ => false end.

(** SameValueZero, the equality of [Array.prototype.includes]. *)
Definition same_value_zero (a b : num) : bool :=
  match a, b with
  | Fin x, Fin y => Qeq_bool x y
  | NaN, NaN | PInf, PInf | NInf, NInf => true
  | _, _ => false
  end.

Definition num_includes (l : list num) (x : num) : bool := existsb (same_value_zero x) l.

(** ** [Number(s)] *)

Definition is_digit (c : Z) : bool := (48 <=? c) && (c <=? 57).

(** The longest prefix of decimal digits: its value continuing from [acc],
    the number of digits read so far, and the rest. *)
Fixpoint take_digits (acc : Z) (n : nat) (s : jstr) : Z * nat * jstr :=
  match s with
  | c :: r => if is_digit c then take_digits (acc * 10 + (c - 48)) (S n) r else (acc, n, s)
  | [] => (acc, n, [])
  end.

(** [m * 10^k], infinite from the overflow threshold of binary64 on. *)
Definition scale10 (m k : Z) : num :=
  let q := if 0 <=? k then inject_Z (m * 10 ^ k) else Qmake m (Z.to_pos (10 ^ (- k))) in
  if Qle_bool (inject_Z (2 ^ 1024 - 2 ^ 970)) q then PInf else Fin q.

(** The exponent part, after [e] or [E]. *)
Definition exponent (s : jstr) : option Z :=
  let '(sg, r) := match s with
    | c :: r => if c =? 45 then (-1, r) else if c =? 43 then (1, r) else (1, s)
    | [] => (1, []) end in
  match take_digits 0 0 r with (e, S _, []) => Some (sg * e) | _ => None end.

(** StrUnsignedDecimalLiteral *)
Definition unsigned_decimal (s : jstr) : num :=
  if s =s "Infinity" then PInf else
  let '(ip, ni, r) := take_digits 0 0 s in
  let '(m, nf, r2) := match r with
    | c :: r' => if c =? 46 then take_digits ip 0 r' else (ip, O, r)
    | [] => (ip, O, []) end in
  if (ni + nf =? 0)%nat then NaN else
  match r2 with
  | [] => scale10 m (- Z.of_nat nf)
  | c :: r3 =>
      if (c =? 101) || (c =? 69) then
        match exponent r3 with Some e => scale10 m (e - Z.of_nat nf) | None => NaN end
      else NaN
  end.

(** Value of a digit in radix 2, 8 or 16. *)
Definition radix_digit (radix c : Z) : option Z :=
  let v := if is_digit c then c - 48
           else if (97 <=? c) && (c <=? 102) then c - 87
           else if (65 <=? c) && (c <=? 70) then c - 55 else 99 in
  if v <? radix then Some v else None.
Fixpoint radix_value (radix acc : Z) (s : jstr) : num :=
  match s with
  | [] => scale10 acc 0
  | c :: r => match radix_digit radix c with
              | Some v => radix_value radix (acc * radix + v) r
              | None => NaN end
  end.
Definition radix_literal (radix : Z) (s : jstr) : num :=
  match s with [] => NaN | _ => radix_value radix 0 s end.

(** The conversion of a string by [Number]. *)
Definition Number (s : jstr) : num :=
  match trim s with
  | [] => of_Z 0
  | c :: r =>
      if c =? 45 then num_neg (unsigned_decimal r)
      else if c =? 43 then unsigned_decimal r
      else match r with
      | x :: h =>
          if (c =? 48) && ((x =? 120) || (x =? 88)) then radix_literal 16 h
          else if (c =? 48) && ((x =? 111) || (x =? 79)) then radix_literal 8 h
          else if (c =? 48) && ((x =? 98) || (x =? 66)) then radix_literal 2 h
          else unsigned_decimal (c :: r)
      | [] => unsigned_decimal (c :: r)
      end
  end.

(** ** Arrays from lengths *)

(** [Array.from({ length: n }, (_, index) => start + index)]: a length that is
    NaN or negative gives no element, a fractional one is truncated, and one
    above 2^32 - 1 throws a RangeError ([None]). *)
Definition array_length (n : num) : option Z :=
  match n with
  | NaN | NInf => Some 0
  | PInf => None
  | Fin q => if Qtrunc q <=? 0 then Some 0
             else if Qtrunc q <=? 4294967295 then Some (Qtrunc q) else None
  end.
Definition zrange (len : Z) : list Z := map Z.of_nat (seq 0 (Z.to_nat len)).
Definition array_from (start len : num) : option (list num) :=
  match array_length len with
  | Some n => Some (map (λ i, num_add start (of_Z i)) (zrange n))
  | None => None
  end.

(** ** Lemmas *)

(** Integers strictly inside the binary64 range. *)
Definition in_range (n : Z) : Prop := 0 <= n < 2 ^ 53.

Definition digit_value (acc : Z) (s : jstr) : Z :=
  fold_left (λ a c, a * 10 + (c - 48)) s acc.

Lemma take_digits_all acc k s :
  forallb is_digit s = true →
  take_digits acc k s = (digit_value acc s, (k + length s)%nat, []).
Proof.
  revert acc k. induction s as [|c s IH]; intros acc k H; simpl in *.
  - by rewrite Nat.add_0_r.
  - apply andb_true_iff in H as [-> H]. rewrite (IH _ _ H).
    unfold digit_value. simpl. do 2 f_equal. lia.
Qed.

Lemma digits_aux_spec fuel n :
  0 <= n < 2 ^ Z.of_nat fuel →
  forallb is_digit (digits_aux fuel n) = true ∧ digit_value 0 (digits_aux fuel n) = n
  ∧ digits_aux fuel n ≠ [] ∨ fuel = O.
Proof.
  revert n. induction fuel as [|f IH]; intros n Hn; [by right|left].
  rewrite Nat2Z.inj_succ, Z.pow_succ_r in Hn by lia. simpl.
  destruct (Z.ltb_spec n 10).
  - unfold is_digit, digit_value. simpl. repeat split; [|lia|done].
    rewrite andb_true_r. apply andb_true_iff. split; apply Z.leb_le; lia.
  - assert (0 <= n / 10 < 2 ^ Z.of_nat f) as Hq by zdiv.
    destruct (IH _ Hq) as [(Hd & Hv & Hnn)| ->].
    + rewrite forallb_app, Hd. unfold digit_value in *. rewrite fold_left_app, Hv. simpl.
      repeat split; [|zdiv|by destruct (digits_aux f (n / 10))].
      unfold is_digit. rewrite andb_true_r. apply andb_true_iff. split; apply Z.leb_le; zdiv.
    + exfalso. zdiv.
Qed.

Lemma digits_spec n :
  0 <= n → forallb is_digit (digits n) = true ∧ digit_value 0 (digits n) = n ∧ digits n ≠ [].
Proof.
  intros Hn. destruct (digits_aux_spec (S (Z.to_nat (Z.log2 n))) n) as [H|?]; [|done|done].
  rewrite Nat2Z.inj_succ, Z2Nat.id by apply Z.log2_nonneg.
  destruct (Z.eq_dec n 0) as [->|]; [simpl; lia|].
  pose proof (Z.log2_spec n). lia.
Qed.

Lemma is_digit_not_ws c : is_digit c = true → is_ws c = false.
Proof.
  unfold is_digit, is_ws. intros H. apply andb_true_iff in H as [?%Z.leb_le ?%Z.leb_le].
  repeat match goal with |- context [?a <=? ?b] => destruct (Z.leb_spec a b); try lia end;
  repeat match goal with |- context [?a =? ?b] => destruct (Z.eqb_spec a b); try lia end; done.
Qed.

Lemma trim_start_id s : (∀ c, In c s → is_ws c = false) → trim_start s = s.
Proof. destruct s as [|c s]; intros H; [done|]. simpl. rewrite H by (by left). done. Qed.

Lemma trim_id s : (∀ c, In c s → is_ws c = false) → trim s = s.
Proof.
  intros H. unfold trim, trim_end. rewrite (trim_start_id s) by done.
  rewrite trim_start_id by (intros c Hc; apply H; by apply in_rev).
  apply rev_involutive.
Qed.

Lemma scale10_small m : 0 <= m < 2 ^ 53 → scale10 m 0 = of_Z m.
Proof.
  intros H. unfold scale10, of_Z. change (0 <=? 0) with true. cbn iota.
  change (10 ^ 0) with 1. rewrite Z.mul_1_r.
  case_match eqn:E; [exfalso|done].
  apply Qle_bool_iff in E. rewrite <-Zle_Qle in E.
  assert (2 ^ 53 < 2 ^ 1024 - 2 ^ 970) by (vm_compute; done). lia.
Qed.

Lemma unsigned_decimal_digits s n :
  forallb is_digit s = true → s ≠ [] → digit_value 0 s = n → 0 <= n < 2 ^ 53 →
  unsigned_decimal s = of_Z n.
Proof.
  intros Hd Hnn Hv Hn. unfold unsigned_decimal.
  destruct (s =s "Infinity") eqn:E; [apply seqb_true in E; subst s; done|].
  rewrite take_digits_all, Hv by done. simpl.
  destruct s; [done|]. simpl. by apply scale10_small.
Qed.

(** [Number(String(n))] is [n]. *)
Lemma Number_digits n : in_range n → Number (digits n) = of_Z n.
Proof.
  intros Hn. destruct (digits_spec n) as (Hd & Hv & Hnn); [apply Hn|].
  unfold Number. rewrite trim_id.
  2: { intros c Hc. apply is_digit_not_ws. rewrite forallb_forall in Hd. by apply Hd. }
  pose proof (unsigned_decimal_digits _ n Hd Hnn Hv Hn) as Hu.
  destruct (digits n) as [|c r]; [done|]. simpl in Hd.
  apply andb_true_iff in Hd as [Hc Hr].
  assert (48 <= c <= 57) as Hcr.
  { unfold is_digit in Hc. apply andb_true_iff in Hc as [?%Z.leb_le ?%Z.leb_le]. lia. }
  destruct (Z.eqb_spec c 45); [lia|]. destruct (Z.eqb_spec c 43); [lia|].
  destruct r as [|x h]; [done|]. simpl in Hr. apply andb_true_iff in Hr as [Hx _].
  unfold is_digit in Hx. apply andb_true_iff in Hx as [?%Z.leb_le ?%Z.leb_le].
  repeat match goal with |- context [x =? ?b] => destruct (Z.eqb_spec x b); [lia|] end.
  by rewrite !andb_false_r.
Qed.

Lemma digits_In n c : 0 <= n → In c (digits n) → 48 <= c <= 57.
Proof.
  intros Hn Hc. destruct (digits_spec n Hn) as (Hd & _).
  rewrite forallb_forall in Hd. specialize (Hd c Hc). unfold is_digit in Hd.
  apply andb_true_iff in Hd as [?%Z.leb_le ?%Z.leb_le]. lia.
Qed.

Lemma num_add_Z a b : num_add (of_Z a) (of_Z b) = of_Z (a + b).
Proof. unfold of_Z, num_add. f_equal. unfold Qplus, inject_Z. simpl. f_equal. lia. Qed.

Lemma num_sub_Z a b : num_sub (of_Z a) (of_Z b) = of_Z (a - b).
Proof. unfold num_sub, of_Z, num_add, num_neg, Qopp, Qplus, inject_Z. simpl. do 2 f_equal. lia. Qed.

(** On integers, the remainder test of the cron filters is divisibility. *)
Lemma rem_zero_Z a k : k ≠ 0 → is_zero (num_rem (of_Z a) (of_Z k)) = (a mod k =? 0).
Proof.
  intros Hk. unfold num_rem, of_Z.
  destruct (Qeq_bool (inject_Z k) 0) eqn:E.
  { apply Qeq_bool_iff in E. unfold Qeq in E. simpl in E. lia. }
  simpl is_zero. set (t := Qtrunc (inject_Z a / inject_Z k)).
  assert (t = Z.quot a k) as ->.
  { unfold t, Qtrunc, Qdiv, Qmult, Qinv, inject_Z. simpl.
    destruct k as [|p|p]; simpl; [done| |].
    - by rewrite Z.mul_1_r.
    - change (Z.neg 1) with (- (1)). rewrite Z.mul_opp_r, Z.mul_1_r.
      change (Z.neg p) with (- Z.pos p).
      rewrite Z.quot_opp_l, Z.quot_opp_r by lia. done. }
  apply eq_true_iff_eq. rewrite Qeq_bool_iff, Z.eqb_eq.
  assert ((inject_Z a - inject_Z k * inject_Z (a ÷ k) == 0)%Q ↔ a - k * (a ÷ k) = 0) as ->.
  { unfold Qeq, Qminus, Qplus, Qopp, Qmult, inject_Z. simpl. lia. }
  pose proof (Z.quot_rem' a k) as Hqr.
  split; intros H.
  - apply Z.mod_divide; [done|]. exists (a ÷ k). lia.
  - apply Z.mod_divide in H; [|done]. apply Z.rem_divide in H; [|done]. lia.
Qed.

Lemma includes_Z l z : num_includes (map of_Z l) (of_Z z) = existsb (Z.eqb z) l.
Proof.
  unfold num_includes. induction l as [|x l IH]; [done|]. simpl. rewrite IH. f_equal.
  apply eq_true_iff_eq. rewrite Qeq_bool_iff, Z.eqb_eq. unfold Qeq. simpl. lia.
Qed.

Lemma Qtrunc_Z z : Qtrunc (inject_Z z) = z.
Proof. unfold Qtrunc. simpl. apply Z.quot_1_r. Qed.

(** The integers from [a] to [b]. *)
Definition Zrange (a b : Z) : list Z := map (λ i, a + i) (zrange (b - a + 1)).

Lemma array_from_Z a b :
  b - a + 1 <= 4294967295 →
  array_from (of_Z a) (of_Z (b - a + 1)) = Some (map of_Z (Zrange a b)).
Proof.
  intros H. unfold array_from. change (of_Z (b - a + 1)) with (Fin (inject_Z (b - a + 1))).
  unfold array_length. rewrite Qtrunc_Z.
  unfold Zrange. rewrite map_map. destruct (Z.leb_spec (b - a + 1) 0).
  - unfold zrange. replace (Z.to_nat (b - a + 1)) with O by lia. done.
  - destruct (Z.leb_spec (b - a + 1) 4294967295); [|lia].
    f_equal. apply map_ext. intros i. apply num_add_Z.
Qed.

Lemma Zrange_In a b z : In z (Zrange a b) ↔ a <= z <= b.
Proof.
  unfold Zrange, zrange. rewrite in_map_iff. setoid_rewrite in_map_iff.
  setoid_rewrite in_seq. split.
  - intros (i & <- & n & <- & Hn). lia.
  - intros H. exists (z - a). split; [lia|]. exists (Z.to_nat (z - a)). lia.
Qed.

#[global] Arguments of_Z : simpl never.
#[global] Arguments num_add : simpl never.
#[global] Arguments num_sub : simpl never.
#[global] Arguments num_rem : simpl never.
#[global] Arguments is_zero : simpl never.
#[global] Arguments Number : simpl never.
#[global] Arguments array_from : simpl never.
