(* ===== verification/Cron.v ===== *)
(** The cron utility of the web front end ([frontend/src/utils/cron.ts]):
    field parsing, matching of a date, the human-readable description and the
    preview of the next runs.

    A [Date] is represented by its local time value, in milliseconds since the
    epoch; the offset of the time zone is constant over the search horizon of
    [nextRuns].  An exception (the RangeError of an over-long array) is
    [None]. *)
From S2P Require Import Prelude JsString JsNumber.
Local Open Scope Z_scope.
Local Open Scope js_scope.

(** ** Date accessors (local time) *)

Module Date.

Definition ms_per_minute : Z := 60000.
Definition ms_per_day : Z := 86400000.

Definition getMinutes (t : Z) : Z := t / 60000 mod 60.
Definition getHours (t : Z) : Z := t / 3600000 mod 24.
(** 1970-01-01 was a Thursday. *)
Definition getDay (t : Z) : Z := (t / ms_per_day + 4) mod 7.

(** Month (1-12) and day of the month of a day number, by 400-year eras that
    start on 1 March of year 0. *)
Definition day_of_era (d : Z) : Z := (d + 719468) mod 146097.
Definition year_of_era (doe : Z) : Z := (doe - doe / 1460 + doe / 36524 - doe / 146096) / 365.
Definition day_of_year (doe : Z) : Z :=
  let yoe := year_of_era doe in doe - (365 * yoe + yoe / 4 - yoe / 100).
Definition month_index (doy : Z) : Z := (5 * doy + 2) / 153.
Definition civil (d : Z) : Z * Z :=
  let doy := day_of_year (day_of_era d) in
  let mp := month_index doy in
  (if mp <? 10 then mp + 3 else mp - 9, doy - (153 * mp + 2) / 5 + 1).

Definition year_of (d : Z) : Z :=
  (d + 719468) / 146097 * 400 + year_of_era (day_of_era d) + (if (civil d).1 <=? 2 then 1 else 0).

Definition getDate (t : Z) : Z := (civil (t / ms_per_day)).2.
(** [getMonth() + 1] *)
Definition month1 (t : Z) : Z := (civil (t / ms_per_day)).1.

(** [setSeconds(0, 0)] and [setMinutes(getMinutes() + 1)] *)
Definition setSeconds0 (t : Z) : Z := t - t mod ms_per_minute.
Definition nextMinute (t : Z) : Z := t + ms_per_minute.

Lemma day_of_year_bounds doe : 0 <= doe < 146097 → 0 <= day_of_year doe <= 365.
Proof.
  intros H. unfold day_of_year, year_of_era.
  set (y := (doe - doe / 1460 + doe / 36524 - doe / 146096) / 365).
  assert (0 <= y <= 399) by (subst y; zdiv).
  subst y. zdiv.
Qed.

Lemma civil_bounds d : 1 <= (civil d).1 <= 12 ∧ 1 <= (civil d).2 <= 31.
Proof.
  unfold civil, month_index. simpl.
  pose proof (day_of_year_bounds (day_of_era d)) as H.
  destruct H as [H1 H2]; [unfold day_of_era; apply Z.mod_pos_bound; lia|].
  set (doy := day_of_year (day_of_era d)) in *. clearbody doy.
  case_match eqn:E; [apply Z.ltb_lt in E|apply Z.ltb_ge in E]; zdiv.
Qed.

(** The calendar date tells the day. *)
Lemma date_inj d d' : year_of d = year_of d' → civil d = civil d' → d = d'.
Proof.
  intros Hy Hc. unfold year_of in Hy. rewrite Hc in Hy. unfold civil in Hc. injection Hc as Hm Hd.
  assert (∀ d, 0 <= day_of_era d < 146097) as Hera by (intros x; unfold day_of_era; apply Z.mod_pos_bound; lia).
  pose proof (day_of_year_bounds _ (Hera d)) as Hb. pose proof (day_of_year_bounds _ (Hera d')) as Hb'.
  assert (∀ doe, 0 <= doe < 146097 → 0 <= year_of_era doe <= 399) as Hyoe by (intros doe H; unfold year_of_era; zdiv).
  pose proof (Hyoe _ (Hera d)) as Hy1. pose proof (Hyoe _ (Hera d')) as Hy2.
  assert (month_index (day_of_year (day_of_era d)) = month_index (day_of_year (day_of_era d'))) as Hmp.
  { revert Hm. unfold month_index. clear -Hb Hb'. intros Hm. do 2 case_match; zdiv. }
  rewrite Hmp in Hd. assert (day_of_year (day_of_era d) = day_of_year (day_of_era d')) as Hdoy by lia.
  assert (year_of_era (day_of_era d) = year_of_era (day_of_era d') ∧ (d + 719468) / 146097 = (d' + 719468) / 146097) as [Hye Hq] by lia.
  unfold day_of_year in Hdoy. rewrite Hye in Hdoy. unfold day_of_era in *.
  pose proof (Z.div_mod (d + 719468) 146097). pose proof (Z.div_mod (d' + 719468) 146097). lia.
Qed.

Example civil_examples :
  civil 0 = (1, 1) ∧ civil 59 = (3, 1) ∧ civil 19782 = (2, 29) ∧ civil 20454 = (1, 1).
Proof. repeat split. Qed.

End Date.
Import Date.

(** ** The parser *)

(** The array of consecutive numbers both wildcard forms start from. *)
Definition all_values (min max : Z) : option (list num) :=
  array_from (of_Z min) (of_Z (max - min + 1)).

(** [values.filter((value) => (value - from) % step === 0)] *)
Definition step_filter (from step : num) (l : list num) : list num :=
  bfilter (λ v, is_zero (num_rem (num_sub v from) step)) l.

(** One comma-separated part.  A missing array component is [undefined], which
    arithmetic turns into NaN. *)
Definition parsePart (min max : Z) (part : jstr) : option (list num) :=
  if includes part "/" then
    let pieces := split "/" part in
    let rangePart := nth 0 pieces [] in
    let step := Number (nth 1 pieces []) in
    let bounds := if rangePart =s "*" then [of_Z min; of_Z max]
                  else map Number (split "-" rangePart) in
    let rangeStart := nth 0 bounds NaN in
    let rangeEnd := nth 1 bounds NaN in
    step_filter rangeStart step <$>
      array_from rangeStart (num_add (num_sub rangeEnd rangeStart) (of_Z 1))
  else if includes part "-" then
    let bounds := map Number (split "-" part) in
    let start := nth 0 bounds NaN in
    let end_ := nth 1 bounds NaN in
    array_from start (num_add (num_sub end_ start) (of_Z 1))
  else Some [Number part].

Definition parseField (field : jstr) (min max : Z) : option (list num) :=
  if field =s "*" then all_values min max
  else if startsWith field "*/" then
    step_filter (of_Z min) (Number (slice_from 2 field)) <$> all_values min max
  else @List.concat num <$> mapM (parsePart min max) (split "," field).

(** All five fields are parsed before the conjunction is taken; fields after
    the fifth are ignored. *)
Definition matches (expr : jstr) (date : Z) : option bool :=
  match split_ws (trim expr) with
  | minute :: hour :: day :: month :: weekday :: _ =>
      if truthy weekday then
        mi ← parseField minute 0 59;
        ho ← parseField hour 0 23;
        da ← parseField day 1 31;
        mo ← parseField month 1 12;
        wd ← parseField weekday 0 6;
        Some (num_includes mi (of_Z (getMinutes date))
              && num_includes ho (of_Z (getHours date))
              && num_includes da (of_Z (getDate date))
              && num_includes mo (of_Z (month1 date))
              && num_includes wd (of_Z (getDay date)))
      else Some false
  | _ => Some false
  end.

Definition parseCron (expr : jstr) : jstr :=
  match split_ws (trim expr) with
  | [minute; hour; day; month; weekday] =>
      if expr =s "0 3 * * *" then "Every day at 03:00"
      else if startsWith minute "*/" && (hour =s "*") && (day =s "*") && (month =s "*") && (weekday =s "*")
      then "Every " ++ slice_from 2 minute ++ " minutes"
      else if (minute =s "0") && (hour =s "*") && (day =s "*") && (month =s "*") && (weekday =s "*")
      then "Every hour"
      else if (day =s "*") && (month =s "*") && (weekday =s "*")
      then "Every day at " ++ padStart 2 48 hour ++ ":" ++ padStart 2 48 minute
      else "Runs on cron schedule: " ++ expr
  | _ => "Invalid cron expression"
  end.

(** The search loop: [left] attempts remain, so it stops after the 100000 of
    the source; [runs] is kept in order of discovery. *)
Fixpoint nextRuns_loop (expr : jstr) (count : Z) (left : nat) (cursor : Z) (runs : list Z)
  : option (list Z) :=
  match left with
  | O => Some runs
  | S left' =>
      if Z.of_nat (length runs) <? count then
        let cursor' := nextMinute cursor in
        m ← matches expr cursor';
        nextRuns_loop expr count left' cursor' (if m : bool then runs ++ [cursor'] else runs)
      else Some runs
  end.

Definition max_attempts : nat := Z.to_nat 100000.

(** [now] is the value of [new Date()]. *)
Definition nextRuns (expr : jstr) (count now : Z) : option (list Z) :=
  nextRuns_loop expr count max_attempts (setSeconds0 now) [].

Lemma max_attempts_Z : Z.of_nat max_attempts = 100000.
Proof. unfold max_attempts. by rewrite Z2Nat.id. Qed.

(** The bound is only ever compared, never unfolded by tactics. *)
#[global] Opaque max_attempts.
