(* ===== verification/CronSpec.v ===== *)
(** What the cron utility promises: an abstract syntax of schedules with its
    denotation, the refinement of that denotation by the parser and the
    matcher of [Cron], and the specification of the preview loop. *)
From S2P Require Import Prelude JsString JsNumber Cron.
Import Date.
Local Open Scope Z_scope.
Local Open Scope js_scope.

(** ** Abstract schedules *)

Inductive part :=
| PNum (n : Z)
| PRange (a b : Z)
| PStep (a b k : Z)
| PEvery (k : Z).

Inductive field :=
| FAll
| FEvery (k : Z)
| FParts (p : part) (ps : list part).

Record schedule := Schedule {
  s_minute : field; s_hour : field; s_day : field; s_month : field; s_weekday : field }.

(** Numbers small enough to be exact, positive steps, and ranges that fit in
    an array; a list of parts does not begin with a [*/k] part. *)
Definition part_ok (p : part) : Prop :=
  match p with
  | PNum n => in_range n
  | PRange a b => in_range a ∧ in_range b ∧ b - a + 1 <= 4294967295
  | PStep a b k => in_range a ∧ in_range b ∧ b - a + 1 <= 4294967295 ∧ in_range k ∧ k ≠ 0
  | PEvery k => in_range k ∧ k ≠ 0
  end.
Definition field_ok (f : field) : Prop :=
  match f with
  | FAll => True
  | FEvery k => in_range k ∧ k ≠ 0
  | FParts p ps => (∀ k, p ≠ PEvery k) ∧ Forall part_ok (p :: ps)
  end.
Definition schedule_ok (s : schedule) : Prop :=
  field_ok (s_minute s) ∧ field_ok (s_hour s) ∧ field_ok (s_day s)
  ∧ field_ok (s_month s) ∧ field_ok (s_weekday s).

Definition print_part (p : part) : jstr :=
  match p with
  | PNum n => digits n
  | PRange a b => digits a ++ "-" ++ digits b
  | PStep a b k => digits a ++ "-" ++ digits b ++ "/" ++ digits k
  | PEvery k => "*/" ++ digits k
  end.
Definition print_field (f : field) : jstr :=
  match f with
  | FAll => "*"
  | FEvery k => "*/" ++ digits k
  | FParts p ps => join "," (map print_part (p :: ps))
  end.
Definition print_schedule (s : schedule) : jstr :=
  join " " (map print_field [s_minute s; s_hour s; s_day s; s_month s; s_weekday s]).

(** The values a field stands for, when it ranges over [min..max]. *)
Definition steps (from to k : Z) : list Z :=
  bfilter (λ v, (v - from) mod k =? 0) (Zrange from to).
Definition denote_part (min max : Z) (p : part) : list Z :=
  match p with
  | PNum n => [n]
  | PRange a b => Zrange a b
  | PStep a b k => steps a b k
  | PEvery k => steps min max k
  end.
Definition denote (min max : Z) (f : field) : list Z :=
  match f with
  | FAll => Zrange min max
  | FEvery k => steps min max k
  | FParts p ps => flat_map (denote_part min max) (p :: ps)
  end.

Definition mem (z : Z) (l : list Z) : bool := existsb (Z.eqb z) l.

(** All five fields contain the minute: what the code asks for. *)
Definition meets (s : schedule) (t : Z) : bool :=
  mem (getMinutes t) (denote 0 59 (s_minute s))
  && mem (getHours t) (denote 0 23 (s_hour s))
  && mem (getDate t) (denote 1 31 (s_day s))
  && mem (month1 t) (denote 1 12 (s_month s))
  && mem (getDay t) (denote 0 6 (s_weekday s)).

(** The rule of standard cron, which the documentation names and the server's
    scheduler follows: when both day fields are restricted, either is enough;
    and 7 is Sunday too. *)
Definition restricted (f : field) : bool := match f with FAll => false | _ => true end.
Definition sunday (v : Z) : Z := if v =? 7 then 0 else v.
Definition day_fits (s : schedule) (t : Z) : bool :=
  let day := mem (getDate t) (denote 1 31 (s_day s)) in
  let weekday := mem (getDay t) (map sunday (denote 0 6 (s_weekday s))) in
  if restricted (s_day s) && restricted (s_weekday s) then day || weekday else day && weekday.
Definition fires (s : schedule) (t : Z) : bool :=
  mem (getMinutes t) (denote 0 59 (s_minute s))
  && mem (getHours t) (denote 0 23 (s_hour s))
  && mem (month1 t) (denote 1 12 (s_month s))
  && day_fits s t.

(** Schedules on which the two rules agree: at most one day field is
    restricted, and Sunday is written 0. *)
Definition one_day_field (s : schedule) : Prop :=
  (s_day s = FAll ∨ s_weekday s = FAll) ∧ ¬ In 7 (denote 0 6 (s_weekday s)).

(** The minutes the preview examines. *)
Definition candidate (now : Z) (i : nat) : Z := setSeconds0 now + 60000 * Z.of_nat i.
Definition candidates (now : Z) : list Z := map (candidate now) (seq 1 max_attempts).

(** ** The parser computes the denotation *)

Lemma mem_In z l : mem z l = true ↔ In z l.
Proof.
  unfold mem. rewrite existsb_exists. setoid_rewrite Z.eqb_eq. split.
  - by intros (x & Hx & <-).
  - intros H. by exists z.
Qed.

Lemma digits_no n c : 0 <= n → ¬ (48 <= c <= 57) → ∀ d, In d (digits n) → d ≠ c.
Proof. intros Hn Hc d Hd ->. apply (digits_In n c) in Hd; [done|done]. Qed.

Lemma no_slash_includes s c : (∀ d, In d s → d ≠ c) → includes s [c] = false.
Proof.
  intros H. apply not_true_iff_false. rewrite includes_spec. intros (a & b & ->).
  apply (H c); [|done]. apply in_or_app. right. by left.
Qed.

Lemma step_filter_Z from k l :
  k ≠ 0 → step_filter (of_Z from) (of_Z k) (map of_Z l)
          = map of_Z (bfilter (λ v, (v - from) mod k =? 0) l).
Proof.
  intros Hk. unfold step_filter. induction l as [|v l IH]; [done|]. simpl.
  rewrite num_sub_Z, rem_zero_Z by done. case_match; simpl; by rewrite IH.
Qed.

Lemma array_from_bounds a b :
  b - a + 1 <= 4294967295 →
  array_from (of_Z a) (num_add (num_sub (of_Z b) (of_Z a)) (of_Z 1))
  = Some (map of_Z (Zrange a b)).
Proof. intros H. rewrite num_sub_Z, num_add_Z. by apply array_from_Z. Qed.

Lemma split_pair c s t :
  (∀ d, In d s → d ≠ c) → (∀ d, In d t → d ≠ c) → split [c] (s ++ [c] ++ t) = [s; t].
Proof. intros Hs Ht. simpl. rewrite split1_app by done. f_equal. by apply split1_none. Qed.

Lemma includes_mid c s t : includes (s ++ [c] ++ t) [c] = true.
Proof. apply includes_spec. by exists s, t. Qed.

Lemma no_unit_app (c : Z) s t :
  (∀ d, In d s → d ≠ c) → (∀ d, In d t → d ≠ c) → ∀ d, In d (s ++ t) → d ≠ c.
Proof. intros Hs Ht d [?|?]%in_app_or; auto. Qed.

Ltac solve_units :=
  repeat (apply no_unit_app; try (by apply digits_no; [unfold in_range in *; lia|lia]));
  try (let d := fresh in let H := fresh in intros d H; simpl in H; lia);
  try (by apply digits_no; [unfold in_range in *; lia|lia]).

Lemma parsePart_num min max n :
  in_range n → parsePart min max (digits n) = Some (map of_Z [n]).
Proof.
  intros Hn. unfold parsePart.
  rewrite !no_slash_includes by solve_units. by rewrite Number_digits.
Qed.

Lemma parsePart_range min max a b :
  part_ok (PRange a b) →
  parsePart min max (print_part (PRange a b)) = Some (map of_Z (Zrange a b)).
Proof.
  intros (Ha & Hb & Hlen). unfold parsePart, print_part.
  rewrite no_slash_includes by solve_units.
  rewrite includes_mid, split_pair by solve_units. simpl map. simpl nth.
  rewrite !Number_digits by done. by apply array_from_bounds.
Qed.

Lemma parsePart_step min max a b k :
  part_ok (PStep a b k) →
  parsePart min max (print_part (PStep a b k)) = Some (map of_Z (steps a b k)).
Proof.
  intros (Ha & Hb & Hlen & Hk & Hk0). unfold parsePart, print_part.
  replace (digits a ++ "-" ++ digits b ++ "/" ++ digits k)
    with ((digits a ++ "-" ++ digits b) ++ "/" ++ digits k) by (by rewrite <-!app_assoc).
  rewrite includes_mid, split_pair by solve_units. simpl nth.
  destruct ((digits a ++ 45 :: digits b) =s "*") eqn:E.
  { apply seqb_true in E. exfalso.
    assert (In 45 "*") as H by (rewrite <-E; apply in_or_app; right; by left).
    simpl in H. lia. }
  change (digits a ++ 45 :: digits b) with (digits a ++ "-" ++ digits b).
  rewrite split_pair by solve_units. simpl map. simpl nth.
  rewrite !Number_digits, array_from_bounds by done. simpl.
  by rewrite step_filter_Z.
Qed.

Lemma parsePart_every min max k :
  max - min + 1 <= 4294967295 → part_ok (PEvery k) →
  parsePart min max (print_part (PEvery k)) = Some (map of_Z (steps min max k)).
Proof.
  intros Hlen (Hk & Hk0). unfold parsePart, print_part.
  change ("*/" ++ digits k) with ("*" ++ "/" ++ digits k).
  rewrite includes_mid, split_pair by solve_units. simpl nth.
  change ([42] =s "*") with true. simpl nth.
  rewrite Number_digits, array_from_bounds by done. simpl.
  by rewrite step_filter_Z.
Qed.

Lemma parsePart_print min max p :
  max - min + 1 <= 4294967295 → part_ok p →
  parsePart min max (print_part p) = Some (map of_Z (denote_part min max p)).
Proof.
  intros Hlen. destruct p; intros H.
  - by apply parsePart_num.
  - by apply parsePart_range.
  - by apply parsePart_step.
  - by apply parsePart_every.
Qed.

Lemma print_part_units p d :
  part_ok p → In d (print_part p) → (48 <= d <= 57) ∨ d = 45 ∨ d = 47 ∨ d = 42.
Proof.
  destruct p; simpl; intros Hok Hd;
  repeat (rewrite in_app_iff in Hd; simpl in Hd); destruct_and?;
  repeat destruct Hd as [Hd|Hd]; try done; try lia;
  left; (eapply digits_In; [|exact Hd]); unfold in_range in *; lia.
Qed.

Lemma concat_denote min max qs :
  List.concat (map (λ p, map of_Z (denote_part min max p)) qs)
  = map of_Z (flat_map (denote_part min max) qs).
Proof. induction qs as [|q qs IH]; [done|]. simpl. by rewrite map_app, IH. Qed.

Lemma mapM_parts min max ps :
  max - min + 1 <= 4294967295 → Forall part_ok ps →
  mapM (parsePart min max) (map print_part ps)
  = Some (map (λ p, map of_Z (denote_part min max p)) ps).
Proof.
  intros Hlen. induction 1 as [|p ps Hp _ IH]; [done|]. simpl.
  rewrite parsePart_print by done. simpl. by rewrite IH.
Qed.

Lemma print_part_nonempty p : part_ok p → print_part p ≠ [].
Proof.
  destruct p; simpl; intros H.
  - apply digits_spec. apply H.
  - by destruct (digits a).
  - by destruct (digits a).
  - done.
Qed.

(** The first unit of a list of parts is a digit. *)
Lemma print_part_head p :
  part_ok p → (∀ k, p ≠ PEvery k) → ∃ c r, print_part p = c :: r ∧ 48 <= c <= 57.
Proof.
  assert (∀ n (r : jstr), 0 <= n → ∃ c r', digits n ++ r = c :: r' ∧ 48 <= c <= 57) as Hd.
  { intros n r Hn. destruct (digits_spec n Hn) as (_ & _ & Hnn).
    destruct (digits n) as [|c l] eqn:E; [done|]. exists c, (l ++ r). split; [done|].
    apply (digits_In n); [done|]. rewrite E. by left. }
  destruct p as [n|a b|a b k|k]; simpl; intros Hok Hk.
  - rewrite <-(app_nil_r (digits n)). apply Hd, Hok.
  - apply Hd, Hok.
  - apply Hd, Hok.
  - by destruct (Hk k).
Qed.

Lemma parseField_spec f min max :
  max - min + 1 <= 4294967295 → field_ok f →
  parseField (print_field f) min max = Some (map of_Z (denote min max f)).
Proof.
  intros Hlen. destruct f as [|k|p ps]; intros Hok; unfold parseField, print_field.
  - rewrite seqb_refl. by apply array_from_Z.
  - destruct Hok as [Hk Hk0].
    destruct ("*/" ++ digits k =s "*") eqn:E; [by apply seqb_true in E|].
    change (startsWith ("*/" ++ digits k) "*/") with true. cbn iota.
    change (slice_from 2 ("*/" ++ digits k)) with (digits k).
    rewrite Number_digits by done. unfold all_values. rewrite array_from_Z by done.
    simpl. by rewrite step_filter_Z.
  - destruct Hok as [Hp Hps].
    destruct (print_part_head p) as (c & r & Hcr & Hc); [by inversion Hps|done|].
    assert (∃ r', join "," (map print_part (p :: ps)) = c :: r') as [r' Hr'].
    { simpl. rewrite Hcr. destruct ps; simpl; eauto. }
    rewrite Hr'.
    destruct (c :: r' =s "*") eqn:E; [apply seqb_true in E; injection E; lia|].
    simpl startsWith. rewrite (proj2 (Z.eqb_neq 42 c)) by lia. simpl andb. cbn iota.
    rewrite <-Hr', split_join, mapM_parts; [|done|done|done|].
    + unfold denote. by rewrite <-concat_denote.
    + intros s (q & <- & Hq)%in_map_iff d Hd ->.
      rewrite Forall_forall in Hps. apply (print_part_units q) in Hd; [lia|].
      apply Hps. by apply list_elem_of_In.
Qed.

(** ** The matcher decides [meets] *)

Definition no_ws (s : jstr) : Prop := ∀ c, In c s → is_ws c = false.

Lemma split_ws_word s : no_ws s → split_ws s = [s].
Proof.
  unfold split_ws. induction s as [|c s IH]; intros H; [done|]. simpl.
  rewrite H by (by left). rewrite IH; [done|]. intros d Hd. apply H. by right.
Qed.

Lemma split_ws_true_false s : no_ws s → s ≠ [] → ∀ r,
  split_ws_at true (s ++ r) = split_ws_at false (s ++ r).
Proof. destruct s as [|c s]; intros H Hnn r; [done|]. simpl. by rewrite H by (by left). Qed.

Lemma split_ws_cons s t :
  no_ws s → no_ws t → t ≠ [] → ∀ r,
  split_ws (s ++ 32 :: t ++ r) = s :: split_ws (t ++ r).
Proof.
  intros Hs Ht Hnn r. unfold split_ws. induction s as [|c s IH]; simpl.
  - change (is_ws 32) with true. cbn iota. f_equal. by apply split_ws_true_false.
  - rewrite Hs by (by left). rewrite IH; [done|]. intros d Hd. apply Hs. by right.
Qed.

Lemma split_ws_join ws :
  ws ≠ [] → Forall (λ s, no_ws s ∧ s ≠ []) ws → split_ws (join " " ws) = ws.
Proof.
  intros Hnn H. induction H as [|s ws [Hs Hs0] H IH]; [done|].
  destruct ws as [|t ws]; [by apply split_ws_word|].
  change (join " " (s :: t :: ws)) with (s ++ 32 :: join " " (t :: ws)).
  inversion H as [|? ? [Ht Ht0] _]; subst.
  assert (∃ r, join " " (t :: ws) = t ++ r) as [r Hr].
  { destruct ws; simpl; [exists []; by rewrite app_nil_r|eauto]. }
  rewrite Hr, split_ws_cons, <-Hr by done. f_equal. by apply IH.
Qed.

(** Trimming does nothing to a string with solid ends. *)
Lemma trim_ends s r d c t :
  s = c :: t → is_ws c = false → s = r ++ [d] → is_ws d = false → trim s = s.
Proof.
  intros Hc Hwc Hd Hwd. unfold trim, trim_end.
  assert (trim_start s = s) as -> by (rewrite Hc; simpl; by rewrite Hwc).
  rewrite Hd, rev_app_distr. simpl. rewrite Hwd. simpl. by rewrite rev_involutive.
Qed.

Lemma join_last (sep : jstr) ws w :
  ∃ r, join sep (ws ++ [w]) = r ++ w.
Proof.
  induction ws as [|x ws [r IH]]; [by exists []|].
  destruct ws as [|y ws]; simpl in *; [by exists (x ++ sep); rewrite <-app_assoc|].
  exists (x ++ sep ++ r). rewrite IH. by rewrite <-!app_assoc.
Qed.

(** Trimming does nothing to words joined by single spaces. *)
Lemma trim_join v ws w :
  no_ws v → v ≠ [] → no_ws w → w ≠ [] →
  trim (join " " (v :: ws ++ [w])) = join " " (v :: ws ++ [w]).
Proof.
  intros Hv Hv0 Hw Hw0.
  destruct (join_last " " (v :: ws) w) as [r Hr].
  destruct (exists_last Hw0) as (w' & d & ->). destruct v as [|c v]; [done|].
  assert (∃ t, join " " ((c :: v) :: ws ++ [w' ++ [d]]) = c :: t) as [t Ht].
  { simpl. destruct (ws ++ [w' ++ [d]]); eauto. }
  apply (trim_ends _ (r ++ w') d c t); [done| | |].
  - apply Hv. by left.
  - rewrite <-app_assoc. exact Hr.
  - apply Hw, in_or_app. right. by left.
Qed.

Lemma join_parts_units qs d :
  Forall part_ok qs → In d (join "," (map print_part qs)) →
  (48 <= d <= 57) ∨ d = 45 ∨ d = 47 ∨ d = 42 ∨ d = 44.
Proof.
  induction 1 as [|q qs Hq Hqs IH]; [done|]. intros Hd. destruct qs as [|q' qs].
  - apply (print_part_units q) in Hd; [lia|done].
  - simpl in Hd. apply in_app_or in Hd as [Hd|[<-|Hd]]; [|lia|by apply IH].
    apply (print_part_units q) in Hd; [lia|done].
Qed.

Lemma print_field_word f : field_ok f → no_ws (print_field f) ∧ print_field f ≠ [].
Proof.
  assert (∀ c, (48 <= c <= 57) ∨ c = 45 ∨ c = 47 ∨ c = 42 ∨ c = 44 → is_ws c = false) as Hu.
  { intros c [Hc|[->|[->|[->| ->]]]]; try done. apply is_digit_not_ws.
    unfold is_digit. apply andb_true_iff. split; apply Z.leb_le; lia. }
  destruct f as [|k|p ps]; simpl print_field.
  - intros _. split; [|done]. intros c [<-|[]]. done.
  - intros [Hk _]. split; [|done]. intros c Hc. apply Hu.
    destruct Hc as [<-|[<-|Hc]]; [lia|lia|]. left. by apply (digits_In k); [apply Hk|].
  - intros [_ Hps]. split.
    + intros c Hc. apply Hu. apply (join_parts_units _ _ Hps) in Hc. lia.
    + inversion Hps as [|? ? Hp _]; subst. pose proof (print_part_nonempty p Hp).
      destruct (print_part p); [done|]. by destruct ps.
Qed.

Lemma matches_spec s t : schedule_ok s → matches (print_schedule s) t = Some (meets s t).
Proof.
  intros (Hmi & Hho & Hda & Hmo & Hwd). unfold matches, print_schedule.
  assert (∀ f, field_ok f → no_ws (print_field f) ∧ print_field f ≠ []) as HW
    by apply print_field_word.
  cbn [map]. pose proof (trim_join (print_field (s_minute s))
    [print_field (s_hour s); print_field (s_day s); print_field (s_month s)]
    (print_field (s_weekday s))) as Ht.
  cbn [app] in Ht. rewrite Ht by (by apply HW).
  rewrite split_ws_join; [|done|repeat constructor; by apply HW].
  assert (truthy (print_field (s_weekday s)) = true) as ->.
  { destruct (print_field (s_weekday s)) eqn:E; [by apply HW in E|done]. }
  rewrite !parseField_spec by (done || lia). simpl. by rewrite !includes_Z.
Qed.

(** ** The matcher and standard cron *)

Lemma getDay_sunday t l : mem (getDay t) l = true → mem (getDay t) (map sunday l) = true.
Proof.
  rewrite !mem_In. intros H. apply in_map_iff. exists (getDay t). split; [|done].
  unfold sunday, getDay. destruct (Z.eqb_spec ((t / ms_per_day + 4) mod 7) 7); [zdiv|done].
Qed.
Lemma no_seven l : ¬ In 7 l → map sunday l = l.
Proof.
  intros H. rewrite <-(map_id l) at 2. apply map_ext_in. intros v Hv. unfold sunday.
  destruct (Z.eqb_spec v 7) as [->|]; [done|done].
Qed.

(** What the code asks for is enough for standard cron. *)
Lemma meets_fires s t : meets s t = true → fires s t = true.
Proof.
  unfold meets, fires, day_fits. rewrite !andb_true_iff. intros [[[[-> ->] Hd] ->] Hw]. apply getDay_sunday in Hw.
  rewrite Hd, Hw. by destruct (_ && _).
Qed.
Lemma one_day_field_agrees s t : one_day_field s → meets s t = fires s t.
Proof.
  intros [Hday H7]. unfold meets, fires, day_fits. rewrite no_seven by done.
  assert (restricted (s_day s) && restricted (s_weekday s) = false) as ->.
  { destruct Hday as [-> | ->]; [done|apply andb_false_r]. }
  rewrite <-!andb_assoc. do 2 f_equal. rewrite !andb_assoc. f_equal. apply andb_comm.
Qed.

(** ** The preview loop *)

(** With a matcher that answers [p], the loop appends the first matches among
    the remaining candidates, up to [count]. *)
Lemma nextRuns_loop_spec expr count p :
  (∀ t, matches expr t = Some (p t)) →
  ∀ left cursor runs,
  nextRuns_loop expr count left cursor runs =
  Some (runs ++ take (Z.to_nat (count - Z.of_nat (length runs)))
                     (bfilter p (map (λ i, cursor + 60000 * Z.of_nat i) (seq 1 left)))).
Proof.
  intros Hp. induction left as [|n IH]; intros cursor runs; simpl.
  { by rewrite take_nil, app_nil_r. }
  destruct (Z.ltb_spec (Z.of_nat (length runs)) count) as [Hlt|Hge].
  - rewrite Hp. simpl. rewrite IH.
    assert (map (λ i, cursor + 60000 * Z.of_nat i) (seq 2 n)
            = map (λ i, nextMinute cursor + 60000 * Z.of_nat i) (seq 1 n)) as Heq.
    { rewrite <-seq_shift, map_map. apply map_ext. intros i.
      unfold nextMinute, ms_per_minute. lia. }
    assert (cursor + 60000 * Z.of_nat 1 = nextMinute cursor) as Hnext.
    { unfold nextMinute, ms_per_minute. lia. }
    unfold bfilter. simpl in *. rewrite Hnext, Heq. destruct (p (nextMinute cursor)).
    + rewrite length_app. simpl.
      replace (Z.to_nat (count - Z.of_nat (length runs)))
        with (S (Z.to_nat (count - Z.of_nat (length runs + 1)))) by lia.
      simpl. by rewrite <-app_assoc.
    + done.
  - replace (Z.to_nat (count - Z.of_nat (length runs))) with O by lia.
    by rewrite take_0, app_nil_r.
Qed.

(** The preview is the first [count] minutes of the horizon that meet the fields. *)
Lemma nextRuns_eq s count now :
  schedule_ok s →
  nextRuns (print_schedule s) count now
  = Some (take (Z.to_nat count) (bfilter (meets s) (candidates now))).
Proof.
  intros Hs. unfold nextRuns.
  rewrite (nextRuns_loop_spec _ count (meets s)) by (intros t; by apply matches_spec).
  cbn [length app]. by rewrite Z.sub_0_r.
Qed.

(** ** Helper facts about the horizon *)

Lemma candidates_sorted now : StronglySorted Z.lt (candidates now).
Proof. apply StronglySorted_map_seq. intros i j H. unfold candidate. lia. Qed.

Lemma candidates_In now t :
  In t (candidates now) ↔
  ∃ i, t = setSeconds0 now + 60000 * i ∧ 1 <= i <= 100000.
Proof.
  unfold candidates, candidate. rewrite in_map_iff. setoid_rewrite in_seq.
  pose proof max_attempts_Z as Hm. split.
  - intros (i & <- & Hi). exists (Z.of_nat i). lia.
  - intros (i & -> & Hi). exists (Z.to_nat i). lia.
Qed.

Lemma setSeconds0_bounds now : setSeconds0 now <= now < setSeconds0 now + 60000.
Proof. unfold setSeconds0, ms_per_minute. zdiv. Qed.

Lemma mem_Zrange z a b : a <= z <= b → mem z (Zrange a b) = true.
Proof. intros H. by apply mem_In, Zrange_In. Qed.

Lemma getDay_bounds t : 0 <= getDay t <= 6.
Proof. unfold getDay. zdiv. Qed.

(** The schedule "at [h]:[m] every day". *)
Definition daily (h m : Z) : schedule :=
  Schedule (FParts (PNum m) []) (FParts (PNum h) []) FAll FAll FAll.

Lemma daily_ok h m : 0 <= h < 24 → 0 <= m < 60 → schedule_ok (daily h m).
Proof.
  intros. repeat split; repeat constructor; unfold in_range; simpl; try done; lia.
Qed.

Lemma meets_daily h m t : meets (daily h m) t = (getMinutes t =? m) && (getHours t =? h).
Proof.
  destruct (civil_bounds (t / ms_per_day)) as [H1 H2].
  assert (∀ a b, mem a [b] = (a =? b)) as Hm by (intros; unfold mem; simpl; by rewrite orb_false_r).
  unfold meets, daily.
  cbn [s_minute s_hour s_day s_month s_weekday denote flat_map denote_part app].
  rewrite !Hm, !mem_Zrange; [by rewrite !andb_true_r|apply getDay_bounds|done|done].
Qed.

(** The [k]-th time after [now] (from 0) at which the clock shows [h]:[m]. *)
Definition daily_run (h m now : Z) (k : nat) : Z :=
  let base := setSeconds0 now in
  base + 60000 + (h * 3600000 + m * 60000 - base - 60000) mod 86400000
  + 86400000 * Z.of_nat k.

Lemma daily_run_meets h m now k :
  0 <= h < 24 → 0 <= m < 60 → meets (daily h m) (daily_run h m now k) = true.
Proof.
  intros Hh Hm. rewrite meets_daily. unfold daily_run, getMinutes, getHours.
  set (base := setSeconds0 now). set (x := h * 3600000 + m * 60000 - base - 60000).
  assert (∃ q, base + 60000 + x mod 86400000 + 86400000 * Z.of_nat k
          = h * 3600000 + m * 60000 + 86400000 * q) as [q ->].
  { exists (Z.of_nat k - x / 86400000). subst x. zdiv. }
  apply andb_true_iff. split; apply Z.eqb_eq; zdiv.
Qed.

Lemma daily_run_candidate h m now k :
  0 <= h < 24 → 0 <= m < 60 → (k < 69)%nat → In (daily_run h m now k) (candidates now).
Proof.
  intros Hh Hm Hk. apply candidates_In. unfold daily_run.
  assert (setSeconds0 now mod 60000 = 0) as Hb by (unfold setSeconds0, ms_per_minute; zdiv).
  set (base := setSeconds0 now) in *. clearbody base.
  set (x := h * 3600000 + m * 60000 - base - 60000).
  exists (1 + x mod 86400000 / 60000 + 1440 * Z.of_nat k).
  assert (x mod 60000 = 0) as Hx by (subst x; zdiv). clearbody x.
  assert (x mod 86400000 = 60000 * (x mod 86400000 / 60000)) by zdiv.
  split; [lia|]. zdiv.
Qed.

(** A number followed by a comma is not a number. *)
Lemma Number_comma n (r : jstr) :
  0 <= n → no_ws r → Number (digits n ++ 44 :: r) = NaN.
Proof.
  intros Hn Hr. destruct (digits_spec n Hn) as (Hd & _ & Hnn).
  assert (no_ws (digits n ++ 44 :: r)) as Hws.
  { intros c [Hc|[<-|Hc]]%in_app_or; [|done|by apply Hr].
    apply is_digit_not_ws. rewrite forallb_forall in Hd. by apply Hd. }
  assert (∀ acc k s, forallb is_digit s = true →
    take_digits acc k (s ++ 44 :: r) = (digit_value acc s, (k + length s)%nat, 44 :: r)) as Htd.
  { intros acc k s. revert acc k. induction s as [|c s IH]; intros acc k Hs; simpl in *.
    - by rewrite Nat.add_0_r.
    - apply andb_true_iff in Hs as [-> Hs]. rewrite IH by done.
      unfold digit_value. simpl. do 2 f_equal. lia. }
  assert (unsigned_decimal (digits n ++ 44 :: r) = NaN) as Hu.
  { unfold unsigned_decimal. destruct (_ =s _) eqn:E.
    { exfalso. apply seqb_true in E. assert (In 44 "Infinity") as H.
      { rewrite <-E. apply in_or_app. right. by left. }
      simpl in H. lia. }
    rewrite Htd by done. change (44 =? 46) with false. cbn iota.
    change (44 =? 101) with false. change (44 =? 69) with false. simpl. by case_match. }
  unfold Number. rewrite trim_id by exact Hws.
  destruct (digits n) as [|c l] eqn:E; [done|].
  assert (48 <= c <= 57) by (apply (digits_In n); [done|rewrite E; by left]).
  cbn [app]. cbv beta iota. rewrite (proj2 (Z.eqb_neq c 45)), (proj2 (Z.eqb_neq c 43)) by lia.
  assert (∃ x h, l ++ 44 :: r = x :: h ∧ x < 58) as (x & h & Hxh & Hx).
  { destruct l as [|x l]; simpl; [by exists 44, r|].
    exists x, (l ++ 44 :: r). split; [done|].
    pose proof (digits_In n x Hn) as Hx. rewrite E in Hx. destruct Hx; [|lia]. right. by left. }
  simpl in Hu. rewrite Hxh in Hu |- *.
  repeat match goal with |- context [x =? ?b] =>
    rewrite (proj2 (Z.eqb_neq x b)) by lia end.
  by rewrite !andb_false_r.
Qed.

(** ** Properties *)

(** C7: on the text of every well-formed schedule (wildcards, steps, lists that
    do not begin with a step, ranges and stepped ranges), [matches] returns,
    without an exception, whether all five fields contain the minute, in the
    browser's time zone.  The answer true always means that the schedule fires
    by the rule of standard cron; the answer false means that it does not,
    provided that at most one of the day fields is restricted and Sunday is
    not written 7. *)
Theorem cron_matches_refines (s : schedule) (t : Z) :
  schedule_ok s →
  ∃ b, matches (print_schedule s) t = Some b ∧ b = meets s t
    ∧ (b = true → fires s t = true) ∧ (one_day_field s → b = fires s t).
Proof.
  intros Hs. exists (meets s t). split; [by apply matches_spec|]. split; [done|].
  split; [apply meets_fires|apply one_day_field_agrees].
Qed.

Lemma cron_matches_refines_witness :
  let s := Schedule (FEvery 15) (FParts (PRange 8 17) []) FAll FAll (FParts (PNum 1) [PStep 2 5 3]) in
  one_day_field s ∧ ∃ b, matches (print_schedule s) 0 = Some b ∧ b = fires s 0.
Proof.
  intros s. assert (one_day_field s) as H.
  { split; [by left|]. simpl. lia. }
  split; [done|]. destruct (cron_matches_refines s 0) as (b & E & _ & _ & Hb).
  - repeat split; repeat constructor; unfold in_range; simpl; try done; lia.
  - exists b. split; [done|by apply Hb].
Defined.

(** With both day fields restricted the code asks for both: for [0 0 13 * 5]
    Friday the 6th of February 2026 is a run of standard cron, and the matcher
    refuses it; and it refuses Sunday the 8th when Sunday is written 7. *)
Theorem both_day_fields_required :
  let midnight := FParts (PNum 0) [] in
  let s := Schedule midnight midnight (FParts (PNum 13) []) FAll (FParts (PNum 5) []) in
  let s7 := Schedule midnight midnight FAll FAll (FParts (PNum 7) []) in
  print_schedule s = "0 0 13 * 5" ∧ fires s 1770336000000 = true ∧ matches "0 0 13 * 5" 1770336000000 = Some false ∧
  print_schedule s7 = "0 0 * * 7" ∧ fires s7 1770508800000 = true ∧ matches "0 0 * * 7" 1770508800000 = Some false.
Proof. vm_compute. repeat split. Qed.



(** For a schedule "every day at h:m" the preview is never short: for any
    [count] up to 69 it shows exactly [count] runs (the page asks for 3). *)
Theorem daily_preview_complete (h m count now : Z) :
  0 <= h < 24 → 0 <= m < 60 → 0 <= count <= 69 →
  ∃ runs, nextRuns (print_schedule (daily h m)) count now = Some runs
    ∧ Z.of_nat (length runs) = count.
Proof.
  intros Hh Hm Hc. rewrite nextRuns_eq by (by apply daily_ok). eexists. split; [done|].
  rewrite length_take, Nat.min_l; [lia|].
  enough (length (map (daily_run h m now) (seq 0 (Z.to_nat count)))
          ≤ length (bfilter (meets (daily h m)) (candidates now)))%nat as H
    by (by rewrite length_map, length_seq in H).
  apply NoDup_incl_length.
  - apply Finite.Injective_map_NoDup; [|apply seq_NoDup].
    intros i j Hij. unfold daily_run in Hij. lia.
  - intros t (k & <- & Hk)%in_map_iff. apply in_seq in Hk. apply bfilter_In. split.
    + apply daily_run_candidate; [done|done|lia].
    + by apply daily_run_meets.
Qed.

Lemma daily_preview_complete_witness :
  ∃ runs, nextRuns (print_schedule (daily 3 0)) 3 1775000000000 = Some runs ∧ Z.of_nat (length runs) = 3.
Proof. apply daily_preview_complete; lia. Defined.

(** A yearly schedule is previewed as "no next run" when its date is
    further away than the 100000 minutes (69 days) the loop examines: on
    1 February 2026, [0 0 1 1 *] has an empty preview. *)
Theorem yearly_preview_empty (count : Z) :
  nextRuns "0 0 1 1 *" count 1769904000000 = Some [].
Proof.
  pose (yearly := Schedule (FParts (PNum 0) []) (FParts (PNum 0) []) (FParts (PNum 1) [])
                           (FParts (PNum 1) []) FAll).
  change "0 0 1 1 *" with (print_schedule yearly).
  rewrite nextRuns_eq.
  2: { repeat split; repeat constructor; unfold in_range; simpl; try done; lia. }
  rewrite bfilter_none; [by rewrite take_nil|].
  intros t (i & -> & Hi)%candidates_In.
  change (setSeconds0 1769904000000) with 1769904000000.
  set (t := 1769904000000 + 60000 * i).
  assert (In (t / 86400000) (Zrange 20485 20554)) as Hd.
  { apply Zrange_In. subst t. zdiv. }
  assert (forallb (λ d, negb ((civil d).1 =? 1)) (Zrange 20485 20554) = true) as Hall
    by (vm_compute; reflexivity).
  rewrite forallb_forall in Hall. specialize (Hall _ Hd).
  assert (mem (month1 t) (denote 1 12 (s_month yearly)) = false) as Hm.
  { unfold mem, month1, ms_per_day. simpl. rewrite orb_false_r. by apply negb_true_iff. }
  unfold meets. rewrite Hm. by rewrite andb_false_r.
Qed.

(** A list whose first part is a [*/k] step (such as [*/15,7]) denotes no
    value at all, because the whole rest of the field is taken as the step;
    such a schedule never fires although the same parts in another order do. *)
Theorem step_first_list_is_empty (k : Z) (p : part) (min max : Z) :
  0 <= k → part_ok p → 0 <= max - min < 1000 →
  parseField ("*/" ++ digits k ++ "," ++ print_part p) min max = Some [].
Proof.
  intros Hk Hp Hlen. unfold parseField.
  destruct (_ =s "*") eqn:E; [by apply seqb_true in E|].
  change (startsWith ("*/" ++ digits k ++ "," ++ print_part p) "*/") with true. cbn iota.
  change (slice_from 2 ("*/" ++ digits k ++ "," ++ print_part p))
    with (digits k ++ 44 :: print_part p).
  rewrite Number_comma; [|done|].
  2: { intros c Hc. apply (print_part_units p) in Hc as [Hc|[->|[->| ->]]]; try done.
       apply is_digit_not_ws. unfold is_digit. apply andb_true_iff. split; apply Z.leb_le; lia. }
  unfold all_values. rewrite array_from_Z by lia. simpl. f_equal.
  apply bfilter_none. intros x (z & <- & _)%in_map_iff. by rewrite num_sub_Z.
Qed.

Lemma step_first_list_is_empty_witness :
  parseField ("*/" ++ digits 15 ++ "," ++ print_part (PNum 7)) 0 59 = Some []
  ∧ parseField "7,*/15" 0 59 = Some (map of_Z [7; 0; 15; 30; 45]).
Proof.
  split; [|vm_compute; reflexivity].
  apply step_first_list_is_empty; [lia|unfold part_ok, in_range; lia|lia].
Defined.

(** The description of a daily schedule names its hour and minute, padded
    to two digits, and the matcher fires exactly at that clock time. *)
Theorem daily_description_accurate (h m t : Z) :
  0 <= h < 24 → 0 <= m < 60 →
  parseCron (print_schedule (daily h m))
    = "Every day at " ++ padStart 2 48 (digits h) ++ ":" ++ padStart 2 48 (digits m)
  ∧ matches (print_schedule (daily h m)) t
    = Some ((getMinutes t =? m) && (getHours t =? h)).
Proof.
  intros Hh Hm. split.
  2: { rewrite matches_spec by (by apply daily_ok). by rewrite meets_daily. }
  assert (forallb (λ h, forallb (λ m,
    parseCron (print_schedule (daily h m))
    =s ("Every day at " ++ padStart 2 48 (digits h) ++ ":" ++ padStart 2 48 (digits m)))
    (Zrange 0 59)) (Zrange 0 23) = true) as H by (vm_compute; reflexivity).
  rewrite forallb_forall in H. specialize (H h). rewrite forallb_forall in H.
  apply seqb_true. apply H; apply Zrange_In; lia.
Qed.

Lemma daily_description_accurate_witness :
  parseCron (print_schedule (daily 4 5)) = "Every day at 04:05".
Proof. apply (daily_description_accurate 4 5 0); lia. Defined.
