(* ===== verification/Utils.v ===== *)
(** The formatting utilities of the web front end:
    [frontend/src/utils/export.ts] (CSV and JSON downloads), [tags.ts] (tag
    colours) and [time.ts] (uptimes). *)
From S2P Require Import Prelude JsString JsNumber.
Local Open Scope Z_scope.
Local Open Scope js_scope.

(** ** Downloads (export.ts) *)

Module Csv.

(** What a download does to the document, in order. *)
Inductive dom_op :=
| CreateObjectURL (content mime : jstr)
| CreateElement (tag : jstr)
| SetHref
| SetDownload (filename : jstr)
| Click
| RevokeObjectURL.

Definition quote : Z := 34.

Definition escapeCSV (value : jstr) : jstr :=
  [quote] ++ replace_all quote [quote; quote] value ++ [quote].

(** The text put in the blob. *)
Definition csv_line (row : list jstr) : jstr := join "," (map escapeCSV row).
Definition csv_text (headers : list jstr) (rows : list (list jstr)) : jstr :=
  join [10] (csv_line headers :: map csv_line rows).

(** Shared tail of both exports: the temporary link. *)
Definition download (filename content mime : jstr) : list dom_op :=
  [CreateObjectURL content mime; CreateElement "a"; SetHref; SetDownload filename;
   Click; RevokeObjectURL].

Definition exportToCSV (filename : jstr) (headers : list jstr) (rows : list (list jstr))
  : list dom_op :=
  download filename (csv_text headers rows) "text/csv;charset=utf-8;".

Section json.
Context {data : Type} (JSON_stringify : data → jstr).
Definition exportToJSON (filename : jstr) (d : data) : list dom_op :=
  download filename (JSON_stringify d) "application/json;charset=utf-8;".
End json.

(** *** A reader of RFC 4180 files (the reference) *)

Inductive mode := FieldStart | Quoted | QuoteSeen | Bare.

(** [cur] is the field being read and [row] the fields of the line, both in
    reverse. [None]: not a CSV file. *)
Fixpoint read_csv (m : mode) (cur : jstr) (row : list jstr) (s : jstr) : option (list (list jstr)) :=
  match s with
  | [] => match m with Quoted => None | _ => Some [rev (rev cur :: row)] end
  | c :: r =>
      match m with
      | Quoted => if c =? quote then read_csv QuoteSeen cur row r
                  else read_csv Quoted (c :: cur) row r
      | FieldStart =>
          if c =? quote then read_csv Quoted cur row r
          else if c =? 44 then read_csv FieldStart [] (rev cur :: row) r
          else if c =? 10 then cons (rev (rev cur :: row)) <$> read_csv FieldStart [] [] r
          else read_csv Bare (c :: cur) row r
      | QuoteSeen =>
          if c =? quote then read_csv Quoted (c :: cur) row r
          else if c =? 44 then read_csv FieldStart [] (rev cur :: row) r
          else if c =? 10 then cons (rev (rev cur :: row)) <$> read_csv FieldStart [] [] r
          else None
      | Bare =>
          if c =? 44 then read_csv FieldStart [] (rev cur :: row) r
          else if c =? 10 then cons (rev (rev cur :: row)) <$> read_csv FieldStart [] [] r
          else read_csv Bare (c :: cur) row r
      end
  end.
Definition parse_csv (s : jstr) : option (list (list jstr)) := read_csv FieldStart [] [] s.

(** *** Lemmas *)

Lemma read_quoted_body v cur row c r :
  c ≠ quote →
  read_csv Quoted cur row (replace_all quote [quote; quote] v ++ quote :: c :: r)
  = read_csv QuoteSeen (rev v ++ cur) row (c :: r).
Proof.
  intros Hc. revert cur. induction v as [|d v IH]; intros cur; [done|].
  simpl replace_all. destruct (Z.eqb_spec d quote) as [->|Hd].
  - simpl. rewrite IH. by rewrite <-app_assoc.
  - simpl. rewrite (proj2 (Z.eqb_neq d quote)) by done. rewrite IH. by rewrite <-app_assoc.
Qed.

Lemma read_quoted_end v cur row :
  read_csv Quoted cur row (replace_all quote [quote; quote] v ++ [quote])
  = Some [rev ((rev cur ++ v) :: row)].
Proof.
  revert cur. induction v as [|d v IH]; intros cur; [simpl; by rewrite app_nil_r|].
  simpl replace_all. destruct (Z.eqb_spec d quote) as [->|Hd].
  - simpl. rewrite IH. simpl. by rewrite <-app_assoc.
  - simpl. rewrite (proj2 (Z.eqb_neq d quote)) by done. rewrite IH. simpl. by rewrite <-app_assoc.
Qed.

(** An escaped field is read up to the separator that follows it. *)
Lemma read_field v row c r :
  c ≠ quote →
  read_csv FieldStart [] row (escapeCSV v ++ c :: r) = read_csv QuoteSeen (rev v) row (c :: r).
Proof.
  intros Hc. unfold escapeCSV. rewrite <-!app_assoc. cbn [app read_csv].
  change (quote =? quote) with true. cbn iota.
  rewrite read_quoted_body by done. by rewrite app_nil_r.
Qed.

Lemma read_last_field v row :
  read_csv FieldStart [] row (escapeCSV v) = Some [rev (v :: row)].
Proof.
  unfold escapeCSV. cbn [app read_csv]. change (quote =? quote) with true. cbn iota.
  by rewrite read_quoted_end.
Qed.

Lemma csv_line_cons v w l : csv_line (v :: w :: l) = escapeCSV v ++ 44 :: csv_line (w :: l).
Proof. done. Qed.

(** A line of escaped fields followed by a line feed, or by the end. *)
Lemma read_line v l row r :
  read_csv FieldStart [] row (csv_line (v :: l) ++ 10 :: r)
  = cons (rev row ++ v :: l) <$> read_csv FieldStart [] [] r.
Proof.
  revert v row. induction l as [|w l IH]; intros v row.
  - change (csv_line [v]) with (escapeCSV v). rewrite read_field by done.
    cbn [read_csv]. change (10 =? quote) with false. change (10 =? 44) with false.
    change (10 =? 10) with true. cbn iota. by rewrite rev_involutive.
  - rewrite csv_line_cons, <-app_assoc. cbn [app]. rewrite read_field by done.
    cbn [read_csv]. change (44 =? quote) with false. change (44 =? 44) with true. cbn iota.
    rewrite IH, rev_involutive. simpl. by rewrite <-app_assoc.
Qed.

Lemma read_last_line v l row :
  read_csv FieldStart [] row (csv_line (v :: l)) = Some [rev row ++ v :: l].
Proof.
  revert v row. induction l as [|w l IH]; intros v row; [apply read_last_field|].
  rewrite csv_line_cons, read_field by done.
  cbn [read_csv]. change (44 =? quote) with false. change (44 =? 44) with true. cbn iota.
  rewrite IH, rev_involutive. simpl. by rewrite <-app_assoc.
Qed.

Lemma parse_lines rows :
  rows ≠ [] → Forall (λ r, r ≠ []) rows → parse_csv (join [10] (map csv_line rows)) = Some rows.
Proof.
  unfold parse_csv. intros Hnn H. induction H as [|r rows Hr H IH]; [done|].
  destruct r as [|v l]; [done|]. destruct rows as [|r' rows]; [apply read_last_line|].
  change (join [10] (map csv_line ((v :: l) :: r' :: rows)))
    with (csv_line (v :: l) ++ 10 :: join [10] (map csv_line (r' :: rows))).
  rewrite read_line, IH by done. done.
Qed.

End Csv.

(** ** Tag colours (tags.ts) *)

Module Tags.

Definition TAG_COLORS : list jstr := [
  "bg-blue-100 text-blue-700 dark:bg-blue-500/15 dark:text-blue-300";
  "bg-emerald-100 text-emerald-700 dark:bg-emerald-500/15 dark:text-emerald-300";
  "bg-amber-100 text-amber-700 dark:bg-amber-500/15 dark:text-amber-300";
  "bg-rose-100 text-rose-700 dark:bg-rose-500/15 dark:text-rose-300";
  "bg-violet-100 text-violet-700 dark:bg-violet-500/15 dark:text-violet-300";
  "bg-cyan-100 text-cyan-700 dark:bg-cyan-500/15 dark:text-cyan-300";
  "bg-orange-100 text-orange-700 dark:bg-orange-500/15 dark:text-orange-300";
  "bg-lime-100 text-lime-700 dark:bg-lime-500/15 dark:text-lime-300"].

(** [(hash * 31 + c) >>> 0] *)
Definition hash_step (hash c : Z) : Z := (hash * 31 + c) mod 2 ^ 32.
Definition tag_hash (tag : jstr) : Z := fold_left hash_step tag 0.
Definition getTagColor (tag : jstr) : option jstr :=
  TAG_COLORS !! Z.to_nat (tag_hash tag mod Z.of_nat (length TAG_COLORS)).

(** The same hash without intermediate truncation. *)
Definition poly (tag : jstr) : Z := fold_left (λ h c, h * 31 + c) tag 0.

Lemma hash_poly_from tag h h' :
  h = h' mod 2 ^ 32 →
  fold_left hash_step tag h = fold_left (λ h c, h * 31 + c) tag h' mod 2 ^ 32.
Proof.
  revert h h'. induction tag as [|c tag IH]; intros h h' H; [done|]. simpl. apply IH.
  unfold hash_step. rewrite H. rewrite <-Z.add_mod_idemp_l by lia.
  rewrite Z.mul_mod_idemp_l by lia. by rewrite Z.add_mod_idemp_l by lia.
Qed.

Lemma tag_hash_bounds tag : 0 <= tag_hash tag < 2 ^ 32.
Proof.
  unfold tag_hash. rewrite (hash_poly_from tag 0 0) by done. apply Z.mod_pos_bound. lia.
Qed.

End Tags.

(** ** Uptimes (time.ts) *)

Module Uptime.

Definition totalMinutes (secs : Z) : Z := Z.max 0 (secs / 60).

Definition formatUptime (secs : Z) : jstr :=
  let total := totalMinutes secs in
  let days := total / (24 * 60) in
  let hours := total mod (24 * 60) / 60 in
  let minutes := total mod 60 in
  let parts := if days >? 0 then [string_of_Z days ++ "d"] else [] in
  let parts := parts ++ (if (hours >? 0) || (days >? 0) then [string_of_Z hours ++ "h"] else []) in
  let parts := parts ++ [string_of_Z minutes ++ "m"] in
  join " " parts.

(** [now] is [Date.now()]. *)
Definition lastBootTime (uptimeSecs now : Z) : Z := now - uptimeSecs * 1000.

(** A reader of the rendered uptimes: minutes denoted by each part. *)
Definition read_part (p : jstr) : Z :=
  let v := digit_value 0 (removelast p) in
  if List.last p 0 =? 100 then v * 1440 else if List.last p 0 =? 104 then v * 60 else v.
Definition read_uptime (s : jstr) : Z := fold_right Z.add 0 (map read_part (split " " s)).

Lemma read_part_unit n u : 0 <= n →
  read_part (string_of_Z n ++ [u]) =
  (if u =? 100 then n * 1440 else if u =? 104 then n * 60 else n).
Proof.
  intros Hn. unfold read_part. rewrite removelast_last, List.last_last.
  unfold string_of_Z. rewrite (proj2 (Z.ltb_ge n 0)) by done.
  destruct (digits_spec n Hn) as (_ & -> & _). done.
Qed.

Lemma unit_no_space n u : 0 <= n → u ≠ 32 → ∀ d, In d (string_of_Z n ++ [u]) → d ≠ 32.
Proof.
  intros Hn Hu d [Hd|[<-|[]]]%in_app_or; [|done].
  unfold string_of_Z in Hd. rewrite (proj2 (Z.ltb_ge n 0)) in Hd by done.
  apply (digits_In n) in Hd; [lia|done].
Qed.

End Uptime.

(** ** Properties *)

Module UtilsProps.
Import Csv Tags Uptime.

(** C15: a CSV export can be read back: whatever the cells contain (quotes,
    commas and line breaks included), an RFC 4180 reader of the downloaded
    text recovers exactly the header row and the data rows.  The only rows a
    reader cannot tell apart are those with no cell at all. *)
Theorem csv_export_roundtrip (filename : jstr) (headers : list jstr) (rows : list (list jstr)) :
  headers ≠ [] → Forall (λ r, r ≠ []) rows →
  ∃ text, CreateObjectURL text "text/csv;charset=utf-8;" ∈ exportToCSV filename headers rows
    ∧ parse_csv text = Some (headers :: rows).
Proof.
  intros Hh Hr. exists (csv_text headers rows). split; [by left|].
  unfold csv_text. rewrite <-map_cons. apply parse_lines; [done|by constructor].
Qed.

Lemma csv_export_roundtrip_witness :
  ∃ text, CreateObjectURL text "text/csv;charset=utf-8;"
            ∈ exportToCSV "d.csv" ["ID"; "Note"] [["a"; [34; 44; 10]]; ["b"; ""]]
    ∧ parse_csv text = Some [["ID"; "Note"]; ["a"; [34; 44; 10]]; ["b"; ""]].
Proof. apply csv_export_roundtrip; [done|repeat constructor; done]. Defined.

(** The tag hash is the polynomial hash in base 31 modulo 2^32, no
    intermediate value leaves the range where binary64 is exact, and every
    tag has a colour (the array access is never out of range). *)
Theorem tag_color_total (tag : jstr) :
  Forall (λ c, 0 <= c < 65536) tag →
  tag_hash tag = poly tag mod 2 ^ 32
  ∧ (∀ p c s, tag = p ++ c :: s → 0 <= tag_hash p * 31 + c < 2 ^ 53)
  ∧ is_Some (getTagColor tag).
Proof.
  intros Hc. split; [by apply hash_poly_from|]. split.
  - intros p c s ->. pose proof (tag_hash_bounds p) as [H1 H2].
    apply Forall_app in Hc as [_ Hc]. inversion Hc; subst.
    assert (2 ^ 32 * 31 + 65536 < 2 ^ 53) by (vm_compute; done). lia.
  - unfold getTagColor. apply lookup_lt_is_Some.
    pose proof (Z.mod_pos_bound (tag_hash tag) (Z.of_nat (length TAG_COLORS))) as H.
    simpl length in *. lia.
Qed.

Lemma tag_color_total_witness : is_Some (getTagColor "prod") ∧ tag_hash "prod" = 3449687.
Proof.
  split; [|vm_compute; reflexivity].
  apply (tag_color_total "prod"). repeat constructor; lia.
Defined.

(** A rendered uptime denotes the uptime rounded down to whole minutes:
    reading the days, hours and minutes of the text gives back
    [floor(secs / 60)], for every non-negative number of seconds. *)
Theorem uptime_roundtrip (secs : Z) :
  0 <= secs → read_uptime (formatUptime secs) = secs / 60.
Proof.
  intros Hs. unfold formatUptime, totalMinutes. rewrite Z.max_r by zdiv.
  set (t := secs / 60). assert (0 <= t) by (subst t; zdiv). clearbody t.
  assert (0 <= t / 1440) by zdiv. assert (0 <= t mod 1440 / 60) by zdiv.
  assert (0 <= t mod 60) by zdiv.
  unfold read_uptime. change (24 * 60) with 1440. rewrite !Z.gtb_ltb.
  rewrite split_join.
  2: { by intros [_ ?]%app_eq_nil. }
  2: { intros s Hin. rewrite !in_app_iff in Hin.
       destruct Hin as [[Hin|Hin]|Hin]; repeat case_match; simpl in Hin;
         destruct_or? Hin; subst; try done; by apply unit_no_space. }
  rewrite !map_app, !fold_right_app.
  destruct (Z.ltb_spec 0 (t / 1440)), (Z.ltb_spec 0 (t mod 1440 / 60));
    simpl; rewrite !read_part_unit by done; simpl;
    change (100 =? 100) with true; change (104 =? 100) with false;
    change (104 =? 104) with true; change (109 =? 100) with false;
    change (109 =? 104) with false; cbn iota; zdiv.
Qed.

Lemma uptime_roundtrip_witness :
  read_uptime (formatUptime 93784) = 1563 ∧ formatUptime 93784 = "1d 2h 3m".
Proof. split; [apply (uptime_roundtrip 93784); lia|vm_compute; reflexivity]. Defined.

End UtilsProps.
