(* ===== verification/Types.v ===== *)
(** The data model shared by the pages ([frontend/src/types/index.ts]) and the
    types local to the organisations and mobile command APIs.

    A field of type [T | null] (or optional) is an [option]; an optional field
    that may also be null has one absent value, since the code never tells
    [undefined] and [null] apart.  A [number] that counts something is a [Z],
    any other number a rational.  [Record<string, unknown>] is a JSON object. *)
From Stdlib Require Import QArith.
From S2P Require Import Prelude JsString JsNumber.
Local Open Scope Z_scope.
Local Open Scope js_scope.

(** ** JSON values *)

Inductive json :=
| JNull
| JBool (b : bool)
| JNum (n : num)
| JStr (s : jstr)
| JArr (l : list json)
| JObj (fields : list (jstr * json)).

(** ** String unions *)

Inductive OsType := Windows | Linux | Macos.
Inductive DeviceStatus := Online | Offline | InAlert.
Inductive EventType := Crash | ErrorEvent | WarningEvent | InfoEvent.
Inductive CommandStatus := Pending | Sent | Running | Completed | Failed | TimedOut.
Inductive Severity := Info | Warning | Critical.
Inductive Channel := Browser | Webhook | Email.
Inductive Role := Admin | Viewer.
Inductive UptimeEventType := WentOnline | WentOffline.
Inductive AuthMode := LocalAuth | LDAP.
Inductive ScreenshotStatus := Captured | NotCaptured.

#[global] Instance OsType_eq_dec : EqDecision OsType.
Proof. solve_decision. Defined.
#[global] Instance DeviceStatus_eq_dec : EqDecision DeviceStatus.
Proof. solve_decision. Defined.
#[global] Instance CommandStatus_eq_dec : EqDecision CommandStatus.
Proof. solve_decision. Defined.
#[global] Instance Severity_eq_dec : EqDecision Severity.
Proof. solve_decision. Defined.
#[global] Instance Role_eq_dec : EqDecision Role.
Proof. solve_decision. Defined.

(** The strings of the unions. *)
Definition os_string (o : OsType) : jstr :=
  match o with Windows => "windows" | Linux => "linux" | Macos => "macos" end.
Definition status_string (s : DeviceStatus) : jstr :=
  match s with Online => "online" | Offline => "offline" | InAlert => "alert" end.
Definition event_string (e : EventType) : jstr :=
  match e with Crash => "crash" | ErrorEvent => "error" | WarningEvent => "warning" | InfoEvent => "info" end.
Definition command_status_string (s : CommandStatus) : jstr :=
  match s with
  | Pending => "pending" | Sent => "sent" | Running => "running"
  | Completed => "completed" | Failed => "failed" | TimedOut => "timeout" end.
Definition severity_string (s : Severity) : jstr :=
  match s with Info => "info" | Warning => "warning" | Critical => "critical" end.
Definition role_string (r : Role) : jstr := match r with Admin => "admin" | Viewer => "viewer" end.

(** ** Records *)

Record Device := {
  d_id : jstr; d_hostname : jstr; d_os_type : OsType; d_os_version : option jstr;
  d_arch : option jstr; d_ip_address : option jstr; d_status : DeviceStatus;
  d_last_seen : option jstr; d_enrolled_at : jstr; d_label : option jstr;
  d_notes : option jstr; d_tags : list jstr; d_serial_number : option jstr;
  d_manufacturer : option jstr; d_model_name : option jstr; d_purchase_date : option jstr;
  d_warranty_expires : option jstr; d_location : option jstr; d_assigned_to : option jstr;
  d_asset_tag : option jstr; d_maintenance_mode : option bool; d_maintenance_until : option jstr;
  d_maintenance_reason : option jstr; d_agent_version : option jstr; d_is_online : bool }.

Record DeviceGroup := {
  g_id : jstr; g_name : jstr; g_description : option jstr; g_color : jstr;
  g_member_count : option Z; g_created_at : option jstr }.

Record Metric := {
  m_time : jstr; m_cpu_percent : option Q; m_ram_percent : option Q; m_disk_percent : option Q;
  m_cpu_temp : option Q; m_uptime_secs : option Z; m_ram_total_mb : option Q;
  m_ram_used_mb : option Q; m_disk_total_gb : option Q; m_disk_used_gb : option Q;
  m_disk_read_mbps : option Q; m_disk_write_mbps : option Q; m_net_sent_mbps : option Q;
  m_net_recv_mbps : option Q }.

Record SoftwarePackage := {
  sp_id : jstr; sp_name : jstr; sp_version : option jstr; sp_install_date : option jstr;
  sp_update_available : bool; sp_latest_version : option jstr; sp_last_scanned : jstr }.

Record Event := {
  e_id : jstr; e_time : jstr; e_event_type : EventType; e_source : option jstr; e_message : jstr }.

Record Command := {
  c_id : jstr; c_command_type : jstr; c_payload : list (jstr * json); c_status : CommandStatus;
  c_exit_code : option Z; c_output : option jstr; c_created_at : jstr; c_started_at : option jstr;
  c_completed_at : option jstr }.

Record Alert := {
  a_id : jstr; a_device_id : jstr; a_alert_type : jstr; a_severity : Severity; a_message : jstr;
  a_is_resolved : bool; a_created_at : jstr; a_resolved_at : option jstr }.

Record NetworkInterface := {
  ni_id : jstr; ni_interface_name : jstr; ni_mac_address : option jstr; ni_ipv4 : list jstr;
  ni_ipv6 : list jstr; ni_is_up : bool; ni_mtu : option Z; ni_updated_at : option jstr }.

Record DeviceNetworkResponse := { dn_interfaces : list NetworkInterface }.

Record DeviceConfig := {
  dc_telemetry_interval_secs : num; dc_software_scan_interval_m : num; dc_event_poll_interval_secs : num }.

Record DeviceConfigResponse := {
  dcr_device_id : jstr; dcr_config : DeviceConfig; dcr_updated_at : option jstr }.

Record ScheduledCommand := {
  sc_id : jstr; sc_device_id : option jstr; sc_command_type : jstr; sc_payload : list (jstr * json);
  sc_cron_expression : jstr; sc_is_enabled : bool; sc_last_run_at : option jstr;
  sc_next_run_at : option jstr; sc_created_by : option jstr; sc_created_at : option jstr }.

Record NotificationRule := {
  nr_id : jstr; nr_alert_type : jstr; nr_severity_min : Severity; nr_channel : Channel;
  nr_webhook_url : option jstr; nr_email_address : option jstr; nr_is_enabled : bool;
  nr_created_at : option jstr }.

Record AuditLogEntry := {
  al_id : jstr; al_timestamp : option jstr; al_user_id : option jstr; al_username : jstr;
  al_action : jstr; al_resource_type : option jstr; al_resource_id : option jstr;
  al_ip_address : option jstr; al_details : option (list (jstr * json)) }.

Record AuthConfig := {
  ac_mode : AuthMode; ac_ldap_enabled : bool; ac_ldap_server : jstr; ac_ldap_port : Z;
  ac_ldap_use_ssl : bool; ac_ldap_base_dn : jstr; ac_ldap_user_filter : jstr;
  ac_ldap_admin_group_dn : jstr }.

Record PendingSoftwareUpdate := {
  ps_software_name : jstr; ps_current_versions : list jstr; ps_affected_device_ids : list jstr;
  ps_affected_count : Z }.

Record SoftwareSearchResult := {
  sr_name : jstr; sr_device_count : Z; sr_versions : list jstr }.

Record ScreenshotResponse := {
  ss_image_b64 : option jstr; ss_captured_at : option jstr; ss_width : option Z;
  ss_height : option Z; ss_error : option jstr; ss_status : option ScreenshotStatus }.

Record ActivityEvent := {
  ae_device_id : jstr; ae_device_hostname : jstr; ae_event_type : EventType; ae_message : jstr;
  ae_source : option jstr; ae_time : jstr }.

Record ProcessInfo := {
  p_pid : Z; p_name : jstr; p_cpu_percent : Q; p_mem_percent : Q; p_status : jstr }.

Record ProcessListResponse := { pl_processes : list ProcessInfo; pl_captured_at : jstr }.

Record LiveConnection := {
  lc_device_id : jstr; lc_hostname : jstr; lc_connected_since : jstr; lc_ip : option jstr }.

Record LiveConnectionsResponse := { lr_total : Z; lr_devices : list LiveConnection }.

Record StorageCleanupResponse := { cl_deleted : list (jstr * Z) }.

Record RetentionDays := { rd_metrics : Z; rd_events : Z; rd_commands : Z; rd_alerts : Z }.
Record StorageStatsResponse := {
  st_devices : Z; st_metrics_rows : Z; st_events_rows : Z; st_commands_rows : Z;
  st_alerts_rows : Z; st_oldest_metric : option jstr; st_disk_estimate_mb : Q;
  st_retention_days : RetentionDays }.

Record User := {
  u_id : jstr; u_username : jstr; u_role : Role; u_is_active : option bool;
  u_last_login : option jstr; u_created_at : option jstr }.

Record UptimeHistoryEvent := {
  uh_id : jstr; uh_event_type : UptimeEventType; uh_timestamp : jstr; uh_duration_secs : option Z }.

Record UptimeHistoryResponse := {
  ur_events : list UptimeHistoryEvent; ur_uptime_percent_30d : Q; ur_total_downtime_secs : Z;
  ur_outage_count : Z }.

Record SavedCommand := {
  sv_id : jstr; sv_name : jstr; sv_description : option jstr; sv_command_type : jstr;
  sv_payload : list (jstr * json); sv_is_global : bool; sv_created_by : option jstr;
  sv_device_id : option jstr; sv_created_at : option jstr }.

Record InventoryDevice := {
  i_id : jstr; i_hostname : jstr; i_label : option jstr; i_os_type : jstr; i_os_version : option jstr;
  i_ip_address : option jstr; i_serial_number : option jstr; i_manufacturer : option jstr;
  i_model_name : option jstr; i_purchase_date : option jstr; i_warranty_expires : option jstr;
  i_location : option jstr; i_assigned_to : option jstr; i_asset_tag : option jstr; i_status : jstr }.

Record SSHKeyInfo := {
  sk_id : jstr; sk_key_type : jstr; sk_public_key : jstr; sk_fingerprint : jstr;
  sk_comment : option jstr; sk_discovered_at : option jstr }.

Record AuthTokens := { at_access_token : jstr; at_refresh_token : jstr; at_token_type : jstr }.

(** [organizations.ts] *)
Record Org := { o_id : jstr; o_name : jstr; o_slug : jstr; o_role : jstr; o_active : bool }.
Record OrgMember := { om_user_id : jstr; om_username : jstr; om_role : jstr }.
