(* ===== verification/JsJson.v ===== *)
(** [JSON.parse]: the grammar of the ECMAScript standard.  A parser returns the
    value and the rest of the text; [None] stands for the [SyntaxError].  Every
    call consumes a character of the text or hands over to one that does, so
    two units of fuel per character are enough. *)
From S2P Require Import Prelude JsString JsNumber Types.
Local Open Scope Z_scope.
Local Open Scope js_scope.

Definition json_ws (c : Z) : bool := (c =? 32) || (c =? 9) || (c =? 10) || (c =? 13).
Fixpoint skip_ws (s : jstr) : jstr :=
  match s with c :: r => if json_ws c then skip_ws r else s | [] => [] end.

Definition hex_value (c : Z) : option Z :=
  if (48 <=? c) && (c <=? 57) then Some (c - 48)
  else if (65 <=? c) && (c <=? 70) then Some (c - 55)
  else if (97 <=? c) && (c <=? 102) then Some (c - 87)
  else None.

(** The unit an escape letter stands for. *)
Definition escape (c : Z) : option Z :=
  if (c =? 34) || (c =? 92) || (c =? 47) then Some c
  else if c =? 98 then Some 8
  else if c =? 102 then Some 12
  else if c =? 110 then Some 10
  else if c =? 114 then Some 13
  else if c =? 116 then Some 9
  else None.

(** The rest of a string after its opening quote. *)
Fixpoint parse_string (s : jstr) : option (jstr * jstr) :=
  match s with
  | [] => None
  | c :: r =>
      if c =? 34 then Some ([], r)
      else if c <? 32 then None
      else if c =? 92 then
        match r with
        | 117 :: h1 :: h2 :: h3 :: h4 :: r' =>
            a ← hex_value h1; b ← hex_value h2; d ← hex_value h3; e ← hex_value h4;
            '(t, r'') ← parse_string r';
            Some ((a * 4096 + b * 256 + d * 16 + e) :: t, r'')
        | x :: r' => u ← escape x; '(t, r'') ← parse_string r'; Some (u :: t, r'')
        | [] => None
        end
      else '(t, r') ← parse_string r; Some (c :: t, r')
  end.

(** The longest run of digits. *)
Fixpoint digit_run (s : jstr) : jstr * jstr :=
  match s with
  | c :: r => if is_digit c then let '(d, r') := digit_run r in (c :: d, r') else ([], s)
  | [] => ([], [])
  end.

(** An integer part without a leading zero, an optional fraction and exponent;
    the value is that of the numeral. *)
Definition parse_number (s : jstr) : option (json * jstr) :=
  let '(sign, s1) := match s with 45 :: r => ([45], r) | _ => ([], s) end in
  let '(int, s2) := digit_run s1 in
  match int with
  | [] => None
  | 48 :: _ :: _ => None
  | _ =>
      '(frac, s3) ← match s2 with
                    | 46 :: r => let '(d, r') := digit_run r in
                                 match d with [] => None | _ => Some (46 :: d, r') end
                    | _ => Some ([], s2)
                    end;
      '(exp, s4) ← match s3 with
                   | c :: r =>
                       if (c =? 101) || (c =? 69) then
                         let '(sg, r1) := match r with
                                          | d :: r' => if (d =? 43) || (d =? 45) then ([d], r') else ([], r)
                                          | [] => ([], r)
                                          end in
                         let '(d, r') := digit_run r1 in
                         match d with [] => None | _ => Some (c :: sg ++ d, r') end
                       else Some ([], s3)
                   | [] => Some ([], s3)
                   end;
      Some (JNum (Number (sign ++ int ++ frac ++ exp)), s4)
  end.

(** A later value of the same key replaces the earlier one. *)
Fixpoint set_field (k : jstr) (v : json) (l : list (jstr * json)) : list (jstr * json) :=
  match l with
  | [] => [(k, v)]
  | (k', v') :: l' => if k =s k' then (k, v) :: l' else (k', v') :: set_field k v l'
  end.

Definition literal (t : jstr) (v : json) (s : jstr) : option (json * jstr) :=
  if startsWith s t then Some (v, drop (length t) s) else None.

Fixpoint parse_value (fuel : nat) (s : jstr) : option (json * jstr) :=
  match fuel with
  | O => None
  | S n =>
      match skip_ws s with
      | [] => None
      | c :: r =>
          if c =? 34 then '(t, r') ← parse_string r; Some (JStr t, r')
          else if c =? 91 then
            match skip_ws r with
            | 93 :: r' => Some (JArr [], r')
            | _ => '(l, r') ← parse_elements n r; Some (JArr l, r')
            end
          else if c =? 123 then
            match skip_ws r with
            | 125 :: r' => Some (JObj [], r')
            | _ => '(l, r') ← parse_members n [] r; Some (JObj l, r')
            end
          else if c =? 116 then literal "true" (JBool true) (c :: r)
          else if c =? 102 then literal "false" (JBool false) (c :: r)
          else if c =? 110 then literal "null" JNull (c :: r)
          else parse_number (c :: r)
      end
  end
with parse_elements (fuel : nat) (s : jstr) : option (list json * jstr) :=
  match fuel with
  | O => None
  | S n =>
      '(v, r) ← parse_value n s;
      match skip_ws r with
      | 44 :: r' => '(l, r'') ← parse_elements n r'; Some (v :: l, r'')
      | 93 :: r' => Some ([v], r')
      | _ => None
      end
  end
with parse_members (fuel : nat) (acc : list (jstr * json)) (s : jstr) : option (list (jstr * json) * jstr) :=
  match fuel with
  | O => None
  | S n =>
      match skip_ws s with
      | 34 :: r =>
          '(k, r1) ← parse_string r;
          match skip_ws r1 with
          | 58 :: r2 =>
              '(v, r3) ← parse_value n r2;
              let acc := set_field k v acc in
              match skip_ws r3 with
              | 44 :: r4 => parse_members n acc r4
              | 125 :: r4 => Some (acc, r4)
              | _ => None
              end
          | _ => None
          end
      | _ => None
      end
  end.

Definition JSON_parse (s : jstr) : option json :=
  '(v, r) ← parse_value (2 * S (length s)) s;
  match skip_ws r with [] => Some v | _ => None end.

(** Fields of an object. *)
Definition field (k : jstr) (v : json) : option json :=
  match v with
  | JObj l => snd <$> find (λ f, fst f =s k) l
  | _ => None
  end.
