(* ===== verification/JsonText.v ===== *)
(** The text of JSON values, as [JSON.stringify] of the clients and [json.dumps]
    of the server write it, and its round trip through [JSON.parse].

    Strings are quoted as the standard's QuoteJSONString does: the control
    characters, the quote and the backslash are escaped, and so is a surrogate
    without its partner.  The decimal notation of a number that is not an
    integer is a parameter. *)
From Stdlib Require Import QArith.
From S2P Require Import Prelude JsString JsNumber Types JsJson.
Local Open Scope Z_scope.
Local Open Scope js_scope.

(** ** Definitions *)

Definition hex_lower (n : Z) : Z := if n <? 10 then 48 + n else 87 + n.
(** [\uXXXX] *)
Definition unicode_escape (c : Z) : jstr :=
  [92; 117; hex_lower (c / 4096); hex_lower (c / 256 mod 16); hex_lower (c / 16 mod 16);
   hex_lower (c mod 16)].

(** The two-unit escapes. *)
Definition short_escape (c : Z) : option Z :=
  if c =? 8 then Some 98 else if c =? 9 then Some 116 else if c =? 10 then Some 110
  else if c =? 12 then Some 102 else if c =? 13 then Some 114
  else if c =? 34 then Some 34 else if c =? 92 then Some 92 else None.

Fixpoint quote_units (s : jstr) : jstr :=
  match s with
  | [] => []
  | c :: r =>
      match short_escape c with
      | Some e => 92 :: e :: quote_units r
      | None =>
          if c <? 32 then unicode_escape c ++ quote_units r
          else if is_high c then
            match r with
            | d :: r' => if is_low d then c :: d :: quote_units r' else unicode_escape c ++ quote_units r
            | [] => unicode_escape c
            end
          else if is_low c then unicode_escape c ++ quote_units r
          else c :: quote_units r
      end
  end.
Definition json_quote (s : jstr) : jstr := 34 :: quote_units s ++ [34].

Definition units_ok (s : jstr) : Prop := ∀ c, In c s → 0 <= c < 65536.

(** ** Strings *)

Lemma hex_lower_value n : 0 <= n < 16 → hex_value (hex_lower n) = Some n.
Proof.
  intros H. unfold hex_lower, hex_value. destruct (Z.ltb_spec n 10).
  - rewrite (proj2 (Z.leb_le 48 (48 + n))), (proj2 (Z.leb_le (48 + n) 57)) by lia. simpl. f_equal. lia.
  - repeat match goal with |- context [?a <=? ?b] => destruct (Z.leb_spec a b); [|try lia] end; simpl; try lia;
    f_equal; lia.
Qed.

Lemma parse_unicode c r t s :
  0 <= c < 65536 → parse_string r = Some (t, s) →
  parse_string (unicode_escape c ++ r) = Some (c :: t, s).
Proof.
  intros Hc Hr. unfold unicode_escape. cbn [app parse_string].
  change (92 =? 34) with false. change (92 <? 32) with false. change (92 =? 92) with true. cbn iota.
  rewrite !hex_lower_value by zdiv. simpl. rewrite Hr. simpl. do 3 f_equal. zdiv.
Qed.

Lemma parse_plain c r t s :
  c ≠ 34 → c ≠ 92 → 32 <= c → parse_string r = Some (t, s) →
  parse_string (c :: r) = Some (c :: t, s).
Proof.
  intros H1 H2 H3 Hr. cbn [parse_string].
  destruct (Z.eqb_spec c 34); [done|]. destruct (Z.ltb_spec c 32); [lia|].
  destruct (Z.eqb_spec c 92); [done|]. by rewrite Hr.
Qed.

Lemma parse_short c e r t s :
  short_escape c = Some e → parse_string r = Some (t, s) →
  parse_string (92 :: e :: r) = Some (c :: t, s).
Proof.
  unfold short_escape. intros He Hr.
  repeat (case_match; [match goal with H : (c =? _) = true |- _ => apply Z.eqb_eq in H as -> end;
                       simplify_eq; cbn; by rewrite Hr|]).
  done.
Qed.

Lemma short_escape_none c : short_escape c = None → c ≠ 34 ∧ c ≠ 92.
Proof. unfold short_escape. intros H. split; intros ->; done. Qed.

Lemma parse_quoted s r : units_ok s → parse_string (quote_units s ++ 34 :: r) = Some (s, r).
Proof.
  remember (length s) as n eqn:En. revert s En.
  induction n as [n IH] using lt_wf_ind. intros s En Hs.
  assert (∀ s', (length s' < n)%nat → (∀ c, In c s' → In c s) →
                parse_string (quote_units s' ++ 34 :: r) = Some (s', r)) as IH'.
  { intros s' Hl Hin. apply (IH (length s')); [done|done|]. intros c Hc. by apply Hs, Hin. }
  destruct s as [|c s]; [done|]. simpl in En.
  assert (0 <= c < 65536) as Hc by (apply Hs; by left).
  assert (parse_string (quote_units s ++ 34 :: r) = Some (s, r)) as Htl
    by (apply IH'; [lia|by right]).
  cbn [quote_units]. destruct (short_escape c) as [e|] eqn:Ee; [by eapply parse_short|].
  apply short_escape_none in Ee as [H1 H2].
  destruct (Z.ltb_spec c 32); [rewrite <-app_assoc; by apply parse_unicode|].
  destruct (is_high c) eqn:Eh; [destruct s as [|d s]|destruct (is_low c) eqn:El].
  - by apply parse_unicode.
  - destruct (is_low d) eqn:Ed; [|rewrite <-app_assoc; by apply parse_unicode].
    unfold is_low in Ed. apply andb_true_iff in Ed as [?%Z.leb_le ?%Z.leb_le].
    cbn [app]. apply parse_plain; [done..|]. apply parse_plain; [lia..|].
    apply IH'; [simpl in En; lia|]. intros x Hx. right; by right.
  - rewrite <-app_assoc. by apply parse_unicode.
  - by apply parse_plain.
Qed.

(** ** Numbers *)

(** What may follow a value inside a text. *)
Definition follows (r : jstr) : Prop :=
  match r with [] => True | c :: _ => c = 44 ∨ c = 93 ∨ c = 125 end.

Lemma digit_run_app d r : forallb is_digit d = true → follows r → digit_run (d ++ r) = (d, r).
Proof.
  intros Hd Hr. induction d as [|c d IH]; simpl in *.
  - destruct r as [|c r]; [done|]. cbn. by destruct Hr as [->|[->| ->]].
  - apply andb_true_iff in Hd as [-> Hd]. by rewrite IH.
Qed.

Lemma digits_aux_head fuel n :
  0 < n < 2 ^ Z.of_nat fuel → ∃ c t, digits_aux fuel n = c :: t ∧ 49 <= c <= 57.
Proof.
  revert n. induction fuel as [|f IH]; intros n Hn; [simpl in Hn; lia|].
  rewrite Nat2Z.inj_succ, Z.pow_succ_r in Hn by lia. simpl. destruct (Z.ltb_spec n 10).
  - exists (48 + n), []. split; [done|lia].
  - destruct (IH (n / 10)) as (c & t & -> & Hc); [zdiv|]. by exists c, (t ++ [48 + n mod 10]).
Qed.

Lemma digits_head n :
  0 < n → ∃ c t, digits n = c :: t ∧ 49 <= c <= 57.
Proof.
  intros Hn. apply digits_aux_head. rewrite Nat2Z.inj_succ, Z2Nat.id by apply Z.log2_nonneg.
  pose proof (Z.log2_spec n). lia.
Qed.

Lemma Number_negative n : 0 <= n < 2 ^ 53 → Number (45 :: digits n) = of_Z (- n).
Proof.
  intros Hn. destruct (digits_spec n) as (Hd & Hv & Hnn); [lia|].
  unfold Number. rewrite trim_id.
  - cbn iota. change (45 =? 45) with true. cbn iota.
    rewrite (unsigned_decimal_digits _ n) by done. done.
  - intros c [<-|Hc]; [done|]. apply is_digit_not_ws. rewrite forallb_forall in Hd. by apply Hd.
Qed.

(** The rest of a number once its integer part has been read. *)
Lemma parse_integer sign int r z :
  (sign = [] ∨ sign = [45]) → forallb is_digit int = true → int ≠ [] →
  (int = [48] ∨ ∃ c t, int = c :: t ∧ 49 <= c <= 57) → follows r →
  Number (sign ++ int) = of_Z z →
  parse_number ((sign ++ int) ++ r) = Some (JNum (of_Z z), r).
Proof.
  intros Hsign Hd Hnn Hh Hr Hz. unfold parse_number.
  assert (∀ i, match (sign ++ int) ++ r with 45 :: s1 => ([45], s1) | _ => ([], (sign ++ int) ++ r) end = i →
               i = (sign, int ++ r)) as Hs.
  { intros i <-. destruct Hsign as [-> | ->]; [|done].
    destruct Hh as [->|(c & t & -> & Hc)]; [done|]. simpl.
    assert (c = 49 ∨ c = 50 ∨ c = 51 ∨ c = 52 ∨ c = 53 ∨ c = 54 ∨ c = 55 ∨ c = 56 ∨ c = 57) as Hcs by lia.
    by repeat destruct Hcs as [->|Hcs]; [..|subst]. }
  rewrite (Hs _ eq_refl), digit_run_app by done.
  assert (Number (sign ++ int ++ [] ++ []) = of_Z z) as Hz' by (by rewrite !app_nil_r).
  destruct Hh as [->|(c & t & -> & Hc)].
  - destruct r as [|c r]; [by rewrite <-Hz'|].
    destruct Hr as [->|[->| ->]]; simpl in Hz' |- *; by rewrite Hz'.
  - assert (c = 49 ∨ c = 50 ∨ c = 51 ∨ c = 52 ∨ c = 53 ∨ c = 54 ∨ c = 55 ∨ c = 56 ∨ c = 57) as Hcs by lia.
    clear Hd Hs Hz Hc Hnn.
    destruct r as [|x r]; [|destruct Hr as [->|[->| ->]]];
      (repeat destruct Hcs as [->|Hcs]; [..|subst c]; rewrite <-Hz'; reflexivity).
Qed.

Lemma parse_number_Z z r :
  Z.abs z < 2 ^ 53 → follows r → parse_number (string_of_Z z ++ r) = Some (JNum (of_Z z), r).
Proof.
  intros Hz Hr. unfold string_of_Z. destruct (Z.ltb_spec z 0).
  - destruct (digits_spec (- z)) as (Hd & _ & Hnn); [lia|].
    apply (parse_integer [45] (digits (- z))); [by right|done|done| |done|].
    + right. apply digits_head. lia.
    + simpl. rewrite Number_negative by lia. f_equal. lia.
  - destruct (digits_spec z) as (Hd & _ & Hnn); [lia|].
    apply (parse_integer [] (digits z)); [by left|done|done| |done|].
    + destruct (Z.eq_dec z 0) as [->|]; [by left|]. right. apply digits_head. lia.
    + apply Number_digits. unfold in_range. lia.
Qed.

(** ** Values *)

(** Induction through the elements of arrays and the fields of objects. *)
Lemma json_nested_ind (P : json → Prop) :
  P JNull → (∀ b, P (JBool b)) → (∀ n, P (JNum n)) → (∀ s, P (JStr s)) →
  (∀ l, (∀ x, In x l → P x) → P (JArr l)) →
  (∀ fs, (∀ f, In f fs → P (snd f)) → P (JObj fs)) → ∀ v, P v.
Proof.
  intros H1 H2 H3 H4 H5 H6. fix IH 1. intros [|b|n|s|l|fs]; [done|done|done|done| |].
  - apply H5. induction l as [|x l IHl]; [intros y []|]. intros y [<-|Hy]; [apply IH|by apply IHl].
  - apply H6. induction fs as [|[k x] fs IHl]; [intros y []|]. intros y [<-|Hy]; [apply IH|by apply IHl].
Qed.

Section writer.
(** A writer of JSON: the text of a number that is not an integer, the white
    space after the separators, how strings are quoted, and what a reader makes
    of them. *)
Context (decimal : Q → jstr) (space : jstr) (quote read : jstr → jstr) (ok : jstr → Prop).

Definition json_number (n : num) : jstr :=
  match n with
  | Fin q => if (Zpos (Qden q) =? 1) then string_of_Z (Qnum q) else decimal q
  | _ => "null"
  end.

Fixpoint json_text (v : json) : jstr :=
  match v with
  | JNull => "null"
  | JBool b => if b then "true" else "false"
  | JNum n => json_number n
  | JStr s => quote s
  | JArr l => 91 :: join (44 :: space) (map json_text l) ++ [93]
  | JObj fs =>
      123 :: join (44 :: space) (map (λ f, quote (fst f) ++ 58 :: space ++ json_text (snd f)) fs) ++ [125]
  end.

(** The value that is read. *)
Fixpoint json_read (v : json) : json :=
  match v with
  | JStr s => JStr (read s)
  | JArr l => JArr (map json_read l)
  | JObj fs => JObj (map (λ f, (read (fst f), json_read (snd f))) fs)
  | _ => v
  end.

(** *** Values the text determines: integers within the exact range, strings
    the quoting is right for, objects with distinct keys *)
Fixpoint plain_for (v : json) : Prop :=
  match v with
  | JNull | JBool _ => True
  | JNum n => ∃ z, n = of_Z z ∧ Z.abs z < 2 ^ 53
  | JStr s => ok s
  | JArr l => (fix all (l : list json) := match l with [] => True | x :: l' => plain_for x ∧ all l' end) l
  | JObj fs =>
      NoDup (map fst fs) ∧
      (fix all (l : list (jstr * json)) :=
         match l with [] => True | f :: l' => (ok (fst f) ∧ plain_for (snd f)) ∧ all l' end) fs
  end.

Lemma plain_arr l : plain_for (JArr l) ↔ ∀ x, In x l → plain_for x.
Proof using ok. clear decimal space quote read.
  simpl. induction l as [|x l IH]; [naive_solver|]. rewrite IH. simpl. naive_solver.
Qed.
Lemma plain_obj fs :
  plain_for (JObj fs) ↔ NoDup (map fst fs) ∧ ∀ f, In f fs → ok (fst f) ∧ plain_for (snd f).
Proof using ok. clear decimal space quote read.
  simpl. apply and_iff_compat_l. induction fs as [|f fs IH]; [naive_solver|].
  rewrite IH. simpl. naive_solver.
Qed.

Context (space_ws : forallb json_ws space = true)
  (quote_reads : ∀ s r, ok s → ∃ t, quote s = 34 :: t ∧ parse_string (t ++ r) = Some (read s, r))
  (read_inj : ∀ s t, ok s → ok t → read s = read t → s = t).

Lemma skip_ws_space s : skip_ws (space ++ s) = skip_ws s.
Proof.
  clear quote_reads read_inj. induction space as [|c l IH]; [done|]. simpl in space_ws |- *.
  apply andb_true_iff in space_ws as [Hc Hl]. rewrite Hc. by apply IH.
Qed.
Lemma parse_value_space fuel s : parse_value fuel (space ++ s) = parse_value fuel s.
Proof. destruct fuel; [done|]. cbn [parse_value]. by rewrite skip_ws_space. Qed.
Lemma parse_elements_space fuel s : parse_elements fuel (space ++ s) = parse_elements fuel s.
Proof. destruct fuel; [done|]. cbn [parse_elements]. by rewrite parse_value_space. Qed.
Lemma parse_members_space fuel acc s : parse_members fuel acc (space ++ s) = parse_members fuel acc s.
Proof. destruct fuel; [done|]. cbn [parse_members]. by rewrite skip_ws_space. Qed.

(** The first unit of a text is no white space and closes nothing. *)
Definition opens (s : jstr) : Prop := ∃ c t, s = c :: t ∧ json_ws c = false ∧ c ≠ 93 ∧ c ≠ 125.

Lemma text_opens v : plain_for v → opens (json_text v).
Proof.
  destruct v as [|[]|n|s|l|fs]; intros Hp; try (eexists _, _; repeat split; done).
  2: { destruct (quote_reads s [] Hp) as (t & E & _). simpl. rewrite E. eexists _, _; repeat split; done. }
  destruct Hp as (z & -> & Hz). change (json_text (JNum (of_Z z))) with (string_of_Z z).
  unfold opens, string_of_Z. destruct (Z.ltb_spec z 0); [eexists 45, _; repeat split; done|].
  destruct (digits z) as [|c t] eqn:E; [by destruct (digits_spec z) as (_ & _ & ?)|].
  assert (48 <= c <= 57) as Hc by (apply (digits_In z); [done|rewrite E; by left]).
  exists c, t. split; [done|]. split; [|lia].
  unfold json_ws.
  repeat match goal with |- context [c =? ?k] => destruct (Z.eqb_spec c k); [lia|] end. done.
Qed.

Lemma skip_ws_id c s : json_ws c = false → skip_ws (c :: s) = c :: s.
Proof. intros H. simpl. by rewrite H. Qed.

Lemma skip_ws_opens s r : opens s → skip_ws (s ++ r) = s ++ r.
Proof. intros (c & t & -> & Hc & _). simpl. by rewrite Hc. Qed.

(** The tests for an empty array and an empty object fail on a value. *)
Lemma not_closing_array {A} s r (f : jstr → A) (b : A) :
  opens s → match s ++ r with 93 :: r' => f r' | _ => b end = b.
Proof.
  intros (c & t & -> & _ & Hc & _). cbn [app]. destruct c as [|p|p]; [done| |done].
  repeat (destruct p as [p|p|]; try done).
Qed.

Definition parses (v : json) : Prop :=
  ∀ fuel r, (2 * length (json_text v) ≤ fuel)%nat → follows r →
            parse_value fuel (json_text v ++ r) = Some (json_read v, r).

Lemma parse_elements_join x l fuel r :
  (∀ y, In y (x :: l) → plain_for y ∧ parses y) →
  (2 * length (join (44%Z :: space) (map json_text (x :: l)) ++ [93%Z]) ≤ fuel)%nat →
  parse_elements fuel (join (44 :: space) (map json_text (x :: l)) ++ 93 :: r) = Some (map json_read (x :: l), r).
Proof.
  revert x fuel. induction l as [|y l IH]; intros x fuel Hall Hf;
    destruct (Hall x (or_introl eq_refl)) as [Hp Hx].
  - cbn [map join] in Hf |- *. rewrite length_app in Hf. simpl in Hf.
    destruct fuel as [|n]; [lia|]. cbn [parse_elements].
    rewrite Hx by (lia || by right; left). done.
  - change (join (44 :: space) (map json_text (x :: y :: l)))
      with (json_text x ++ 44 :: space ++ join (44 :: space) (map json_text (y :: l))) in Hf |- *.
    rewrite <-app_assoc in Hf |- *. rewrite length_app in Hf. cbn [app length] in Hf |- *.
    rewrite <-app_assoc in Hf |- *. rewrite length_app in Hf.
    destruct fuel as [|n]; [lia|]. cbn [parse_elements].
    rewrite Hx by (lia || by left). cbn -[skip_ws parse_elements join map]. rewrite (skip_ws_id 44) by done. cbn -[parse_elements join map].
    rewrite parse_elements_space. rewrite IH; [done| |lia]. intros z Hz. apply Hall. by right.
Qed.

Definition member_text (f : jstr * json) : jstr := quote (fst f) ++ 58 :: space ++ json_text (snd f).
Definition read_field (f : jstr * json) : jstr * json := (read (fst f), json_read (snd f)).

Lemma set_field_fresh k v acc : ¬ In k (map fst acc) → set_field k v acc = acc ++ [(k, v)].
Proof.
  induction acc as [|[k' v'] acc IH]; intros H; [done|]. simpl.
  destruct (k =s k') eqn:E; [apply seqb_true in E as ->; destruct H; by left|].
  rewrite IH; [done|]. intros Hin. apply H. by right.
Qed.

Lemma fresh_key k v acc :
  (∀ g, In g acc → ok (fst g)) → ok k → ¬ In k (map fst acc) →
  set_field (read k) v (map read_field acc) = map read_field acc ++ [(read k, v)].
Proof.
  intros Hacc Hk Hn. apply set_field_fresh. rewrite map_map. intros (g & E & Hg)%in_map_iff. simpl in E.
  apply read_inj in E; [|by apply Hacc|done]. apply Hn. rewrite <-E. by apply in_map.
Qed.

(** One member and what follows it. *)
Lemma parse_member k v acc n r :
  ok k → parses v → (∀ g, In g acc → ok (fst g)) → ¬ In k (map fst acc) →
  (2 * length (json_text v) ≤ n)%nat → follows r →
  parse_members (S n) (map read_field acc) (member_text (k, v) ++ r) =
    match skip_ws r with
    | 44 :: r4 => parse_members n (map read_field (acc ++ [(k, v)])) r4
    | 125 :: r4 => Some (map read_field (acc ++ [(k, v)]), r4)
    | _ => None
    end.
Proof.
  intros Hk Hv Hacc Hn Hf Hr. unfold member_text. cbn [fst snd]. rewrite <-app_assoc. cbn [app]. rewrite <-app_assoc.
  destruct (quote_reads k (58 :: space ++ json_text v ++ r) Hk) as (t & -> & Ht). cbn [app parse_members].
  rewrite (skip_ws_id 34) by done. cbn iota. rewrite Ht. cbn -[skip_ws parse_value parse_members]. rewrite (skip_ws_id 58) by done.
  cbn -[skip_ws parse_value parse_members]. rewrite parse_value_space, Hv by done. cbn -[skip_ws parse_members].
  rewrite fresh_key by done. by rewrite map_app.
Qed.

Lemma parse_members_join f fs acc fuel r :
  NoDup (map fst (acc ++ f :: fs)) → (∀ g, In g acc → ok (fst g)) →
  (∀ g, In g (f :: fs) → ok (fst g) ∧ parses (snd g)) →
  (2 * length (join (44%Z :: space) (map member_text (f :: fs)) ++ [125%Z]) ≤ fuel)%nat →
  parse_members fuel (map read_field acc) (join (44 :: space) (map member_text (f :: fs)) ++ 125 :: r) =
    Some (map read_field (acc ++ f :: fs), r).
Proof.
  assert (∀ k v, length (json_text v) ≤ length (member_text (k, v)))%nat as Hmt.
  { intros k v. unfold member_text. simpl. rewrite length_app. simpl. rewrite length_app. lia. }
  revert f acc fuel. induction fs as [|g fs IH]; intros [k v] acc fuel Hnd Hacc Hall Hf;
    destruct (Hall (k, v) (or_introl eq_refl)) as [Hk Hv]; cbn [fst snd] in Hk, Hv; specialize (Hmt k v);
    assert (¬ In k (map fst acc)) as Hfresh
      by (rewrite map_app in Hnd; apply NoDup_app in Hnd as (_ & Hd & _);
          intros Hin%list_elem_of_In; apply (Hd k Hin); by left).
  - cbn [map join] in Hf |- *. rewrite length_app in Hf. simpl in Hf. destruct fuel as [|n]; [lia|].
    rewrite parse_member; [|done..|lia|by right; right]. by rewrite (skip_ws_id 125).
  - change (join (44 :: space) (map member_text ((k, v) :: g :: fs)))
      with (member_text (k, v) ++ 44 :: space ++ join (44 :: space) (map member_text (g :: fs))) in Hf |- *.
    rewrite <-app_assoc in Hf |- *. rewrite length_app in Hf. cbn [app length] in Hf |- *.
    rewrite <-app_assoc in Hf |- *. rewrite length_app in Hf.
    destruct fuel as [|n]; [lia|]. rewrite parse_member; [|done..|lia|by left]. rewrite (skip_ws_id 44) by done.
    rewrite parse_members_space, IH.
    + by rewrite <-app_assoc.
    + by rewrite <-app_assoc.
    + intros h [Hh|[<-|[]]]%in_app_or; [by apply Hacc|done].
    + intros h Hh. apply Hall. by right.
    + lia.
Qed.

Lemma text_parses v : plain_for v → parses v.
Proof.
  induction v as [|b|n|s|l IH|fs IH] using json_nested_ind; intros Hp fuel r Hf Hr.
  - destruct fuel as [|k]; [simpl in Hf; lia|]. done.
  - destruct b; (destruct fuel as [|k]; [simpl in Hf; lia|]); done.
  - destruct (text_opens _ Hp) as (c & t & E & Hws & _). destruct Hp as (z & -> & Hz).
    change (json_text (JNum (of_Z z))) with (string_of_Z z) in *.
    pose proof (parse_number_Z z r Hz Hr) as Hpn.
    assert (c = 45 ∨ 48 <= c <= 57) as Hc.
    { unfold string_of_Z in E. destruct (Z.ltb_spec z 0); [left; congruence|].
      right. apply (digits_In z); [done|]. rewrite E. by left. }
    rewrite E in *. destruct fuel as [|k]; [simpl in Hf; lia|].
    cbn [app parse_value skip_ws]. rewrite Hws.
    repeat match goal with |- context [c =? ?k] => destruct (Z.eqb_spec c k); [lia|] end. done.
  - destruct (quote_reads s r Hp) as (t & E & Ht). cbn [json_text] in Hf |- *. rewrite E in Hf |- *.
    destruct fuel as [|k]; [simpl in Hf; lia|]. simpl. by rewrite Ht.
  - rewrite plain_arr in Hp. destruct fuel as [|k]; [simpl in Hf; lia|].
    destruct l as [|x l]; [done|].
    assert (∀ y, In y (x :: l) → plain_for y ∧ parses y) as Hall by (intros y Hy; auto).
    change (json_text (JArr (x :: l)))
      with (91 :: join (44 :: space) (map json_text (x :: l)) ++ [93]) in Hf |- *.
    cbn [app length] in Hf |- *. rewrite <-app_assoc. cbn [app].
    cbn [parse_value skip_ws]. change (json_ws 91) with false. cbn iota.
    change (91 =? 34) with false. change (91 =? 91) with true. cbn iota.
    assert (opens (join (44 :: space) (map json_text (x :: l)))) as Ho.
    { destruct (text_opens x (proj1 (Hall x (or_introl eq_refl)))) as (c & t & E & Hrest).
      destruct l; cbn [map join]; rewrite E; [by exists c, t|by eexists c, _]. }
    rewrite skip_ws_opens, not_closing_array by done.
    rewrite parse_elements_join; [done|done|lia].
  - rewrite plain_obj in Hp. destruct Hp as [Hnd Hp]. destruct fuel as [|k]; [simpl in Hf; lia|].
    destruct fs as [|f fs]; [done|].
    change (json_text (JObj (f :: fs)))
      with (123 :: join (44 :: space) (map member_text (f :: fs)) ++ [125]) in Hf |- *.
    cbn [app length] in Hf |- *. rewrite <-app_assoc. cbn [app].
    cbn [parse_value skip_ws]. change (json_ws 123) with false. cbn iota.
    change (123 =? 34) with false. change (123 =? 91) with false. change (123 =? 123) with true. cbn iota.
    assert (∃ t, join (44 :: space) (map member_text (f :: fs)) = 34 :: t) as [t Et].
    { destruct (Hp f (or_introl eq_refl)) as [Hf' _]. destruct (quote_reads (fst f) [] Hf') as (t & E & _).
      destruct fs; cbn [map join]; unfold member_text at 1; rewrite E; by eexists. }
    assert (∃ u, skip_ws (join (44 :: space) (map member_text (f :: fs)) ++ 125 :: r) = 34 :: u) as [u ->]
      by (rewrite Et; by eexists).
    cbn iota. rewrite (parse_members_join f fs []); [done|done|intros g []| |lia].
    intros g Hg. split; [by apply Hp|]. apply IH; [done|]. by apply Hp.
Qed.

(** The parser of the standard reads back what is written. *)
Lemma text_round_trip v : plain_for v → JSON_parse (json_text v) = Some (json_read v).
Proof.
  intros Hp. unfold JSON_parse.
  pose proof (text_parses v Hp (2 * S (length (json_text v)))%nat []) as H.
  rewrite app_nil_r in H. rewrite H by (simpl; lia). done.
Qed.

End writer.

(** ** [JSON.stringify] *)

Definition JSON_stringify (decimal : Q → jstr) : json → jstr := json_text decimal [] json_quote.
Definition plain : json → Prop := plain_for units_ok.

Lemma json_read_id v : json_read (λ s, s) v = v.
Proof.
  induction v as [|b|n|s|l IH|fs IH] using json_nested_ind; simpl; try done; f_equal.
  - induction l as [|x l IHl]; [done|]. simpl. rewrite IH by (by left). f_equal. apply IHl. intros y Hy. apply IH. by right.
  - induction fs as [|[k x] fs IHl]; [done|]. simpl. pose proof (IH (k, x) (or_introl eq_refl)) as E. cbn [snd] in E. rewrite E. f_equal. apply IHl. intros y Hy. apply IH. by right.
Qed.

Lemma JSON_round_trip decimal v : plain v → JSON_parse (JSON_stringify decimal v) = Some v.
Proof.
  intros Hp. rewrite <-(json_read_id v) at 2. apply (text_round_trip decimal [] json_quote (λ s, s) units_ok); try done.
  intros s r Hs. exists (quote_units s ++ [34]). split; [done|]. rewrite <-app_assoc. by apply parse_quoted.
Qed.

(** ** Python's [json.dumps] *)

(** With its default separators, every character that is not printable ASCII
    escaped, in two units beyond the basic plane.  It is used on values without
    NaN and infinities, whose floats are not whole. *)
Definition py_escape (c : Z) : jstr :=
  match short_escape c with
  | Some e => [92; e]
  | None =>
      if (32 <=? c) && (c <=? 126) then [c]
      else if c <? 65536 then unicode_escape c
      else unicode_escape (55296 + (c - 65536) / 1024) ++ unicode_escape (56320 + (c - 65536) mod 1024)
  end.
Definition py_quote (s : jstr) : jstr := 34 :: flat_map py_escape s ++ [34].
Definition json_dumps (str_float : Q → jstr) : json → jstr := json_text str_float [32] py_quote.

(** The UTF-16 units of a string of code points. *)
Definition utf16_units (c : Z) : jstr :=
  if c <? 65536 then [c] else [55296 + (c - 65536) / 1024; 56320 + (c - 65536) mod 1024].
Definition utf16 (s : jstr) : jstr := flat_map utf16_units s.

(** Code points that are characters. *)
Definition code_point (c : Z) : Prop := 0 <= c < 55296 ∨ 57344 <= c < 1114112.
Definition text_ok (s : jstr) : Prop := ∀ c, In c s → code_point c.

Lemma parse_py_escape c r t s :
  code_point c → parse_string r = Some (t, s) → parse_string (py_escape c ++ r) = Some (utf16_units c ++ t, s).
Proof.
  unfold code_point. intros Hc Hr. unfold py_escape. destruct (short_escape c) as [e|] eqn:Ee.
  - assert (c < 65536) as Hlt.
    { unfold short_escape in Ee. repeat (case_match; [match goal with H : (c =? _) = true |- _ => apply Z.eqb_eq in H; lia end|]). done. }
    unfold utf16_units. destruct (Z.ltb_spec c 65536); [|lia]. by eapply parse_short.
  - apply short_escape_none in Ee as [H1 H2]. unfold utf16_units. destruct (Z.leb_spec 32 c), (Z.leb_spec c 126); cbn [andb].
    1: { destruct (Z.ltb_spec c 65536); [|lia]. by apply parse_plain. }
    all: destruct (Z.ltb_spec c 65536); [apply parse_unicode; [lia|done]|]; try lia.
    rewrite <-app_assoc. apply (parse_unicode _ _ (_ :: t)); [zdiv|]. apply parse_unicode; [zdiv|done].
Qed.
Lemma parse_py_quoted s r : text_ok s → parse_string (flat_map py_escape s ++ 34 :: r) = Some (utf16 s, r).
Proof.
  induction s as [|c s IH]; intros Hs; [done|]. cbn [flat_map utf16]. rewrite <-app_assoc.
  apply parse_py_escape; [apply Hs; by left|]. apply IH. intros d Hd. apply Hs. by right.
Qed.

Lemma utf16_inj s t : text_ok s → text_ok t → utf16 s = utf16 t → s = t.
Proof.
  revert t. induction s as [|c s IH]; intros t Hs Ht E.
  { destruct t as [|d t]; [done|]. unfold utf16 in E. simpl in E. unfold utf16_units in E. by destruct (d <? 65536). }
  assert (code_point c) as Hc by (apply Hs; by left).
  assert (text_ok s) as Hs' by (intros x Hx; apply Hs; by right).
  destruct t as [|d t]; [unfold utf16 in E; simpl in E; unfold utf16_units in E; by destruct (c <? 65536)|].
  assert (code_point d) as Hd by (apply Ht; by left).
  assert (text_ok t) as Ht' by (intros x Hx; apply Ht; by right).
  unfold utf16 in E. cbn [flat_map] in E. fold (utf16 s) (utf16 t) in E. unfold utf16_units, code_point in *.
  destruct (Z.ltb_spec c 65536), (Z.ltb_spec d 65536); cbn [app] in E.
  - injection E as -> E. f_equal. by apply IH.
  - injection E as E1 E2. exfalso. zdiv.
  - injection E as E1 E2. exfalso. zdiv.
  - injection E as E1 E2 E3. assert (c = d) as -> by zdiv. f_equal. by apply IH.
Qed.

(** A browser reads back what the server dumps, in UTF-16. *)
Lemma dumps_round_trip str_float v :
  plain_for text_ok v → JSON_parse (json_dumps str_float v) = Some (json_read utf16 v).
Proof.
  intros Hp. apply (text_round_trip str_float [32] py_quote utf16 text_ok); [done| |apply utf16_inj|done].
  intros s r Hs. exists (flat_map py_escape s ++ [34]). split; [done|]. rewrite <-app_assoc. by apply parse_py_quoted.
Qed.
