(* ===== verification/Api.v ===== *)
(** The HTTP requests the front end can make: one definition per function of
    [frontend/src/api/*.ts] (and of the mobile [api/commands.ts]).

    A request is what axios is asked to send, relative to the base URL of the
    client: method, path, query parameters and JSON body.  Parameters whose
    value is [undefined] are not sent.  The [.then] handlers only select the
    response data, except for the paged lists ([page_total]). *)
From S2P Require Import Prelude JsString JsNumber Types.
Local Open Scope Z_scope.
Local Open Scope js_scope.

Inductive method := GET | POST | PATCH | DELETE.
#[global] Instance method_eq_dec : EqDecision method.
Proof. solve_decision. Defined.

Record request := Req {
  rq_method : method;
  rq_path : jstr;
  rq_params : list (jstr * json);
  rq_body : option json }.

Definition get (path : jstr) : request := Req GET path [] None.
Definition get_params (path : jstr) (ps : list (jstr * json)) : request := Req GET path ps None.
Definition post (path : jstr) (body : json) : request := Req POST path [] (Some body).
Definition post_empty (path : jstr) : request := Req POST path [] None.
Definition patch (path : jstr) (body : json) : request := Req PATCH path [] (Some body).
Definition delete_ (path : jstr) : request := Req DELETE path [] None.

(** An optional query parameter. *)
Definition opt_param {A} (name : jstr) (f : A → json) (o : option A) : list (jstr * json) :=
  match o with Some x => [(name, f x)] | None => [] end.
Definition JZ (z : Z) : json := JNum (of_Z z).
Definition JStrs (l : list jstr) : json := JArr (map JStr l).
(** A field that may be absent, null or a value. *)
Definition null_param {A} (name : jstr) (f : A → json) (o : option (option A)) : list (jstr * json) :=
  match o with Some (Some x) => [(name, f x)] | Some None => [(name, JNull)] | None => [] end.
(** A nullable field of a body. *)
Definition opt_json {A} (f : A → json) (o : option A) : json :=
  match o with Some x => f x | None => JNull end.

(** [Number(r.headers['x-total-count'] ?? r.data.length)] *)
Definition page_total (header : option jstr) (len : nat) : num :=
  match header with Some h => Number h | None => of_Z (Z.of_nat len) end.

Module adminApi.
Definition users : request := get "/admin/users".
Definition createUser (username password : jstr) (role : Role) : request :=
  post "/admin/users"
    (JObj [("username", JStr username); ("password", JStr password); ("role", JStr (role_string role))]).
Definition updateUser (id : jstr) (role : option Role) (is_active : option bool) : request :=
  patch ("/admin/users/" ++ id)
    (JObj (opt_param "role" (λ r, JStr (role_string r)) role ++ opt_param "is_active" JBool is_active)).
Definition resetUserPassword (id password : jstr) : request :=
  patch ("/admin/users/" ++ id ++ "/password") (JObj [("password", JStr password)]).
Definition deleteUser (id : jstr) : request := delete_ ("/admin/users/" ++ id).
Definition auditLog (action : option jstr) (limit : option Z) : request :=
  get_params "/admin/audit-log" (opt_param "action" JStr action ++ opt_param "limit" JZ limit).
Definition auditLogPage (action : option jstr) (limit skip : option Z) : request :=
  get_params "/admin/audit-log"
    (opt_param "action" JStr action ++ opt_param "limit" JZ limit ++ opt_param "skip" JZ skip).
Definition authConfig : request := get "/admin/auth-config".
Definition connections_req : request := get "/admin/connections".
Definition storageStats : request := get "/admin/storage-stats".
Definition cleanup : request := post_empty "/admin/cleanup".
End adminApi.

Module agentApi.
(** Defaults: platform ['linux'], arch ['amd64']. *)
Definition agent_version (platform arch : jstr) : request :=
  get_params "/agent/version" [("platform", JStr platform); ("arch", JStr arch)].
End agentApi.

Module alertsApi.
Definition alerts_list (device_id : option jstr) (resolved : option bool) (severity : option jstr)
    (limit : option Z) : request :=
  get_params "/alerts" (opt_param "device_id" JStr device_id ++ opt_param "resolved" JBool resolved
    ++ opt_param "severity" JStr severity ++ opt_param "limit" JZ limit).
Definition listPage (device_id : option jstr) (resolved : option bool) (severity : option jstr)
    (limit skip : option Z) : request :=
  get_params "/alerts" (opt_param "device_id" JStr device_id ++ opt_param "resolved" JBool resolved
    ++ opt_param "severity" JStr severity ++ opt_param "limit" JZ limit ++ opt_param "skip" JZ skip).
Definition alert_resolve (id : jstr) : request := post_empty ("/alerts/" ++ id ++ "/resolve").
End alertsApi.

Module authApi.
Definition auth_login (username password : jstr) : request :=
  post "/auth/login" (JObj [("username", JStr username); ("password", JStr password)]).
Definition auth_refresh (refresh_token : jstr) : request :=
  post "/auth/refresh" (JObj [("refresh_token", JStr refresh_token)]).
End authApi.

Module commandsApi.
(** The payload defaults to [{}]. *)
Definition dispatch (deviceId command_type : jstr) (payload : list (jstr * json)) : request :=
  post ("/devices/" ++ deviceId ++ "/commands")
    (JObj [("command_type", JStr command_type); ("payload", JObj payload)]).
Definition bulk (device_ids : list jstr) (command_type : jstr) (payload : list (jstr * json)) : request :=
  post "/commands/bulk"
    (JObj [("device_ids", JStrs device_ids); ("command_type", JStr command_type); ("payload", JObj payload)]).
Definition commands_list (deviceId : jstr) : request := get ("/devices/" ++ deviceId ++ "/commands").
Definition command_get (deviceId commandId : jstr) : request :=
  get ("/devices/" ++ deviceId ++ "/commands/" ++ commandId).
End commandsApi.

Module devicesApi.
(** Empty filters are left out. *)
Definition devices_list (tag search : option jstr) : request :=
  get_params "/devices"
    ((if otruthy tag then opt_param "tag" JStr tag else [])
     ++ (if otruthy search then opt_param "search" JStr search else [])).
Definition device_get (id : jstr) : request := get ("/devices/" ++ id).
Definition network (id : jstr) : request := get ("/devices/" ++ id ++ "/network").
Definition sshKeys (id : jstr) : request := get ("/devices/" ++ id ++ "/ssh-keys").
Definition deleteSSHKey (deviceId keyId : jstr) : request :=
  delete_ ("/devices/" ++ deviceId ++ "/ssh-keys/" ++ keyId).
Definition processes (id : jstr) : request := get ("/devices/" ++ id ++ "/processes").
Definition agentLogs (id : jstr) : request := get ("/devices/" ++ id ++ "/agent-logs").
Definition screenshot (id : jstr) : request := get ("/devices/" ++ id ++ "/screenshot").
Definition requestScreenshot (id : jstr) : request := post_empty ("/devices/" ++ id ++ "/screenshot/request").
(** [days] defaults to 30. *)
Definition uptimeHistory (id : jstr) (days : Z) : request :=
  get_params ("/devices/" ++ id ++ "/uptime-history") [("days", JZ days)].
Definition device_config (id : jstr) : request := get ("/devices/" ++ id ++ "/config").
Definition updateConfig (id : jstr) (c : DeviceConfig) : request :=
  post ("/devices/" ++ id ++ "/config")
    (JObj [("telemetry_interval_secs", JNum (dc_telemetry_interval_secs c));
           ("software_scan_interval_m", JNum (dc_software_scan_interval_m c));
           ("event_poll_interval_secs", JNum (dc_event_poll_interval_secs c))]).
Definition device_update (id : jstr) (data : list (jstr * json)) : request :=
  patch ("/devices/" ++ id) (JObj data).
Definition maintenance (id : jstr) (enabled : bool) (until reason : option (option jstr)) : request :=
  post ("/devices/" ++ id ++ "/maintenance")
    (JObj ([("enabled", JBool enabled)] ++ null_param "until" JStr until
           ++ null_param "reason" JStr reason)).
Definition disconnect (id : jstr) : request := post_empty ("/devices/" ++ id ++ "/disconnect").
Definition revoke (id : jstr) : request := delete_ ("/devices/" ++ id).
End devicesApi.

Module groupsApi.
Definition groups_list : request := get "/groups".
Definition group_create (name : jstr) (description : option (option jstr)) (color : jstr) : request :=
  post "/groups" (JObj ([("name", JStr name)] ++ null_param "description" JStr description
                        ++ [("color", JStr color)])).
Definition deviceGroups (deviceId : jstr) : request := get ("/groups/device/" ++ deviceId).
Definition group_devices (groupId : jstr) : request := get ("/groups/" ++ groupId ++ "/devices").
Definition addDevices (groupId : jstr) (device_ids : list jstr) : request :=
  post ("/groups/" ++ groupId ++ "/devices") (JObj [("device_ids", JStrs device_ids)]).
Definition removeDevice (groupId deviceId : jstr) : request :=
  delete_ ("/groups/" ++ groupId ++ "/devices/" ++ deviceId).
End groupsApi.

Module inventoryApi.
Definition inventory_list (location assigned_to : option jstr) (warranty_expiring_days : option Z) : request :=
  get_params "/inventory" (opt_param "location" JStr location ++ opt_param "assigned_to" JStr assigned_to
    ++ opt_param "warranty_expiring_days" JZ warranty_expiring_days).
Definition exportCsv : request := get "/inventory/export.csv".
End inventoryApi.

Module metricsApi.
(** [hours] defaults to 24 and is part of the path. *)
Definition metrics_list (deviceId : jstr) (hours : Z) : request :=
  get ("/devices/" ++ deviceId ++ "/metrics?hours=" ++ string_of_Z hours).
Definition latest (deviceId : jstr) : request := get ("/devices/" ++ deviceId ++ "/metrics/latest").
End metricsApi.

Module notificationRulesApi.
Definition channel_string (c : Channel) : jstr :=
  match c with Browser => "browser" | Webhook => "webhook" | Email => "email" end.
Definition rules_list : request := get "/notification-rules".
Definition rule_create (alert_type severity_min : jstr) (channel : Channel)
    (webhook_url email_address : option (option jstr)) (is_enabled : option bool) : request :=
  post "/notification-rules"
    (JObj ([("alert_type", JStr alert_type); ("severity_min", JStr severity_min);
            ("channel", JStr (channel_string channel))] ++ null_param "webhook_url" JStr webhook_url
           ++ null_param "email_address" JStr email_address ++ opt_param "is_enabled" JBool is_enabled)).
Definition rule_update (id : jstr) (data : list (jstr * json)) : request :=
  patch ("/notification-rules/" ++ id) (JObj data).
End notificationRulesApi.

Module orgsApi.
Definition orgs_list : request := get "/organizations".
Definition org_create (name slug : jstr) : request :=
  post "/organizations" (JObj [("name", JStr name); ("slug", JStr slug)]).
Definition org_update (orgId name : jstr) : request :=
  patch ("/organizations/" ++ orgId) (JObj [("name", JStr name)]).
Definition org_delete (orgId : jstr) : request := delete_ ("/organizations/" ++ orgId).
Definition listMembers (orgId : jstr) : request := get ("/organizations/" ++ orgId ++ "/members").
Definition inviteMember (orgId username role : jstr) : request :=
  post ("/organizations/" ++ orgId ++ "/members") (JObj [("username", JStr username); ("role", JStr role)]).
Definition removeMember (orgId userId : jstr) : request :=
  delete_ ("/organizations/" ++ orgId ++ "/members/" ++ userId).
Definition updateMember (orgId userId role : jstr) : request :=
  patch ("/organizations/" ++ orgId ++ "/members/" ++ userId) (JObj [("role", JStr role)]).
Definition org_switch (orgId : jstr) : request := post_empty ("/organizations/" ++ orgId ++ "/switch").
End orgsApi.

Module savedCommandsApi.
(** The fields of [Omit<SavedCommand, 'id' | 'created_at' | 'created_by'>]. *)
Definition saved_body (name : jstr) (description : option jstr) (command_type : jstr)
    (payload : list (jstr * json)) (is_global : bool) (device_id : option jstr) : json :=
  JObj [("name", JStr name); ("description", opt_json JStr description);
        ("command_type", JStr command_type); ("payload", JObj payload);
        ("is_global", JBool is_global); ("device_id", opt_json JStr device_id)].
Definition saved_list : request := get "/saved-commands".
Definition saved_create (body : json) : request := post "/saved-commands" body.
Definition saved_update (id : jstr) (body : json) : request := patch ("/saved-commands/" ++ id) body.
Definition saved_delete (id : jstr) : request := delete_ ("/saved-commands/" ++ id).
End savedCommandsApi.

Module scheduledCommandsApi.
Definition schedules_list : request := get "/scheduled-commands".
Definition schedule_create (device_id : option jstr) (command_type : jstr)
    (payload : option (list (jstr * json))) (cron_expression : jstr) (is_enabled : option bool) : request :=
  post "/scheduled-commands"
    (JObj ([("device_id", opt_json JStr device_id); ("command_type", JStr command_type)]
           ++ opt_param "payload" JObj payload ++ [("cron_expression", JStr cron_expression)]
           ++ opt_param "is_enabled" JBool is_enabled)).
Definition schedule_update (id : jstr) (data : list (jstr * json)) : request :=
  patch ("/scheduled-commands/" ++ id) (JObj data).
Definition schedule_remove (id : jstr) : request := delete_ ("/scheduled-commands/" ++ id).
End scheduledCommandsApi.

Module softwareApi.
Definition software_search (q : jstr) : request := get_params "/software/search" [("q", JStr q)].
End softwareApi.

Module softwareUpdatesApi.
Definition updates_pending : request := get "/software-updates/pending".
Definition updates_dispatch (software_names device_ids : list jstr) : request :=
  post "/software-updates/dispatch"
    (JObj [("software_names", JStrs software_names); ("device_ids", JStrs device_ids)]).
End softwareUpdatesApi.

Module tagsApi.
Definition tags_list : request := get "/tags".
End tagsApi.

(** ** The mobile client's commands API *)

Module mobileCommandsApi.
Record MobileCommand := {
  mc_id : jstr; mc_device_id : jstr; mc_command_type : jstr; mc_status : CommandStatus;
  mc_output : option jstr; mc_exit_code : option Z; mc_payload : list (jstr * json);
  mc_created_at : jstr; mc_completed_at : option jstr }.
(** [limit] defaults to 20. *)
Definition mobile_list (deviceId : jstr) (limit : Z) : request :=
  get_params "/commands" [("device_id", JStr deviceId); ("limit", JZ limit)].
Definition mobile_dispatch (deviceId commandType : jstr) (payload : list (jstr * json)) : request :=
  post "/commands" (JObj [("device_id", JStr deviceId); ("command_type", JStr commandType);
                          ("payload", JObj payload)]).
Definition mobile_get (commandId : jstr) : request := get ("/commands/" ++ commandId).

Record library_entry := Lib {
  lib_label : jstr; lib_type : jstr; lib_description : jstr; lib_dangerous : option bool }.
Definition COMMAND_LIBRARY : list library_entry := [
  Lib "Check Updates" "check_updates" "Check for available software updates" None;
  Lib "Sync Time" "sync_time" "Synchronize system clock via NTP" None;
  Lib "Collect Inventory" "collect_inventory" "Refresh software inventory" None;
  Lib "Screenshot" "screenshot" "Capture current screen state" None;
  Lib "List Processes" "list_processes" "Fetch running process list" None;
  Lib "Network Info" "network_info" "Refresh network interface data" None;
  Lib "Reboot" "reboot" "Reboot the device" (Some true);
  Lib "Shutdown" "shutdown" "Shut down the device" (Some true)].
End mobileCommandsApi.
