(* ===== verification/Routes.v ===== *)
(** The server's route table ([server/app/api/v1/*.py]) and the contract
    between it and the clients: a request is served when some declared route
    has its method and a path template of which its path is an instance (a
    [{name}] segment stands for one non-empty segment without a slash). *)
From S2P Require Import Prelude JsString JsNumber Types Api.
Local Open Scope Z_scope.
Local Open Scope js_scope.

(** ** Templates *)

Record route := Route { rt_method : method; rt_path : jstr }.

(** [APIRouter(prefix=...)] with its decorators. *)
Definition router (prefix : jstr) (rs : list (method * jstr)) : list route :=
  map (λ '(m, p), Route m (prefix ++ p)) rs.

Definition slash : Z := 47.
Definition qmark : Z := 63.

(** A template segment against a path segment. *)
Definition segment_matches (t s : jstr) : bool :=
  if startsWith t "{" then truthy s else t =s s.

Fixpoint segments_match (ts ss : list jstr) : bool :=
  match ts, ss with
  | [], [] => true
  | t :: ts', s :: ss' => segment_matches t s && segments_match ts' ss'
  | _, _ => false
  end.

(** The path of a request, without the query string. *)
Definition request_segments (path : jstr) : list jstr :=
  split [slash] (hd [] (split [qmark] path)).

Definition route_matches (r : request) (t : route) : bool :=
  bool_decide (rq_method r = rt_method t)
  && segments_match (split [slash] (rt_path t)) (request_segments (rq_path r)).

(** ** The table *)

Definition auth_router : list route :=
  router "/auth" [
    (POST, "/login");
    (POST, "/refresh");
    (POST, "/logout")].
Definition devices_router : list route :=
  router "/devices" [
    (POST, "/register");
    (GET, "");
    (GET, "/by-fingerprint/{fingerprint}");
    (GET, "/{device_id}");
    (GET, "/{device_id}/network");
    (PATCH, "/{device_id}");
    (POST, "/{device_id}/maintenance");
    (GET, "/{device_id}/config");
    (POST, "/{device_id}/config");
    (DELETE, "/{device_id}");
    (POST, "/{device_id}/rotate-key");
    (POST, "/{device_id}/screenshot/request");
    (GET, "/{device_id}/screenshot");
    (GET, "/{device_id}/processes");
    (GET, "/{device_id}/ssh-keys");
    (DELETE, "/{device_id}/ssh-keys/{key_id}");
    (GET, "/{device_id}/uptime-history");
    (GET, "/{device_id}/agent-logs");
    (POST, "/{device_id}/disconnect")].
Definition metrics_router : list route :=
  router "/devices/{device_id}/metrics" [
    (GET, "");
    (GET, "/latest")].
Definition commands_router : list route :=
  router "/devices/{device_id}/commands" [
    (POST, "");
    (GET, "");
    (GET, "/{command_id}")].
Definition commands_bulk_router : list route :=
  router "/commands/bulk" [
    (POST, "")].
Definition alerts_router : list route :=
  router "/alerts" [
    (GET, "");
    (POST, "/{alert_id}/resolve")].
Definition software_router : list route :=
  router "/devices/{device_id}/software" [
    (GET, "")].
Definition events_router : list route :=
  router "/devices/{device_id}/events" [
    (GET, "")].
Definition event_stream_router : list route :=
  router "/events" [
    (GET, "/stream")].
Definition activity_stream_router : list route :=
  router "/events" [
    (GET, "/activity-stream")].
Definition admin_router : list route :=
  router "/admin" [
    (POST, "/users");
    (GET, "/users");
    (PATCH, "/users/{user_id}");
    (PATCH, "/users/{user_id}/password");
    (DELETE, "/users/{user_id}");
    (POST, "/enrollment-tokens");
    (GET, "/audit-log");
    (GET, "/auth-config");
    (GET, "/connections");
    (GET, "/storage-stats");
    (POST, "/cleanup")].
Definition agent_router : list route :=
  router "/agent" [
    (GET, "/version");
    (GET, "/download")].
Definition downloads_router : list route :=
  router "/downloads" [
    (GET, "/{filename}")].
Definition enroll_router : list route :=
  router "/enroll" [
    (POST, "")].
Definition tags_router : list route :=
  router "/tags" [
    (GET, "")].
Definition groups_router : list route :=
  router "/groups" [
    (GET, "");
    (POST, "");
    (PATCH, "/{group_id}");
    (DELETE, "/{group_id}");
    (POST, "/{group_id}/devices");
    (DELETE, "/{group_id}/devices/{device_id}");
    (GET, "/{group_id}/devices");
    (GET, "/device/{device_id}")].
Definition inventory_router : list route :=
  router "/inventory" [
    (GET, "");
    (GET, "/export.csv")].
Definition saved_commands_router : list route :=
  router "/saved-commands" [
    (GET, "");
    (POST, "");
    (PATCH, "/{command_id}");
    (DELETE, "/{command_id}")].
Definition scheduled_commands_router : list route :=
  router "/scheduled-commands" [
    (GET, "");
    (POST, "");
    (PATCH, "/{scheduled_command_id}");
    (DELETE, "/{scheduled_command_id}")].
Definition notification_rules_router : list route :=
  router "/notification-rules" [
    (GET, "");
    (POST, "");
    (PATCH, "/{rule_id}")].
Definition software_catalog_router : list route :=
  router "/software" [
    (GET, "");
    (GET, "/search")].
Definition software_updates_router : list route :=
  router "/software-updates" [
    (GET, "/pending");
    (POST, "/dispatch")].
Definition organizations_router : list route :=
  router "/organizations" [
    (POST, "");
    (GET, "");
    (GET, "/{org_id}");
    (PATCH, "/{org_id}");
    (DELETE, "/{org_id}");
    (GET, "/{org_id}/members");
    (POST, "/{org_id}/members");
    (DELETE, "/{org_id}/members/{user_id}");
    (PATCH, "/{org_id}/members/{user_id}");
    (GET, "/{org_id}/devices");
    (POST, "/{org_id}/switch")].
Definition push_tokens_router : list route :=
  router "/push-tokens" [
    (POST, "");
    (DELETE, "/{token}")].
Definition compliance_router : list route :=
  router "/compliance" [
    (GET, "/policies");
    (POST, "/policies");
    (GET, "/policies/{policy_id}");
    (PATCH, "/policies/{policy_id}");
    (DELETE, "/policies/{policy_id}");
    (GET, "/results");
    (POST, "/evaluate/{policy_id}")].
Definition audit_router : list route :=
  router "/audit" [
    (GET, "");
    (GET, "/export/csv");
    (GET, "/stream")].
Definition api_router : list route :=
  auth_router ++ devices_router ++ metrics_router ++ commands_router
  ++ commands_bulk_router ++ alerts_router ++ software_router ++ events_router ++ event_stream_router ++ activity_stream_router ++ admin_router ++ agent_router ++ downloads_router ++ enroll_router ++ tags_router ++ groups_router ++ inventory_router ++ saved_commands_router ++ scheduled_commands_router ++ notification_rules_router ++ software_catalog_router ++ software_updates_router ++ organizations_router ++ push_tokens_router ++ compliance_router ++ audit_router.

Definition served (r : request) : bool := existsb (route_matches r) api_router.

(** ** What the clients ask for *)

(** An identifier fit for a path: not empty, no slash, no question mark. *)
Definition segment_ok (s : jstr) : bool :=
  forallb (λ c, negb (c =? slash) && negb (c =? qmark)) s.
Definition id_ok (s : jstr) : bool := truthy s && segment_ok s.

(** Every request an API function of the web client builds, for identifiers
    fit for a path. *)
Inductive admin_request : request → Prop :=
| r_users : admin_request adminApi.users
| r_createUser u p r : admin_request (adminApi.createUser u p r)
| r_updateUser id r a : id_ok id → admin_request (adminApi.updateUser id r a)
| r_resetUserPassword id p : id_ok id → admin_request (adminApi.resetUserPassword id p)
| r_deleteUser id : id_ok id → admin_request (adminApi.deleteUser id)
| r_auditLog a l : admin_request (adminApi.auditLog a l)
| r_auditLogPage a l s : admin_request (adminApi.auditLogPage a l s)
| r_authConfig : admin_request adminApi.authConfig
| r_connections : admin_request adminApi.connections_req
| r_storageStats : admin_request adminApi.storageStats
| r_cleanup : admin_request adminApi.cleanup.

Inductive device_request : request → Prop :=
| r_devices_list t s : device_request (devicesApi.devices_list t s)
| r_device_get id : id_ok id → device_request (devicesApi.device_get id)
| r_network id : id_ok id → device_request (devicesApi.network id)
| r_sshKeys id : id_ok id → device_request (devicesApi.sshKeys id)
| r_deleteSSHKey id k : id_ok id → id_ok k → device_request (devicesApi.deleteSSHKey id k)
| r_processes id : id_ok id → device_request (devicesApi.processes id)
| r_agentLogs id : id_ok id → device_request (devicesApi.agentLogs id)
| r_screenshot id : id_ok id → device_request (devicesApi.screenshot id)
| r_requestScreenshot id : id_ok id → device_request (devicesApi.requestScreenshot id)
| r_uptimeHistory id d : id_ok id → device_request (devicesApi.uptimeHistory id d)
| r_device_config id : id_ok id → device_request (devicesApi.device_config id)
| r_updateConfig id c : id_ok id → device_request (devicesApi.updateConfig id c)
| r_device_update id d : id_ok id → device_request (devicesApi.device_update id d)
| r_maintenance id e u r : id_ok id → device_request (devicesApi.maintenance id e u r)
| r_disconnect id : id_ok id → device_request (devicesApi.disconnect id)
| r_revoke id : id_ok id → device_request (devicesApi.revoke id)
| r_metrics_list id h : id_ok id → device_request (metricsApi.metrics_list id h)
| r_latest id : id_ok id → device_request (metricsApi.latest id)
| r_dispatch id t p : id_ok id → device_request (commandsApi.dispatch id t p)
| r_commands_list id : id_ok id → device_request (commandsApi.commands_list id)
| r_command_get id c : id_ok id → id_ok c → device_request (commandsApi.command_get id c).

Inductive org_request : request → Prop :=
| r_orgs_list : org_request orgsApi.orgs_list
| r_org_create n s : org_request (orgsApi.org_create n s)
| r_org_update id n : id_ok id → org_request (orgsApi.org_update id n)
| r_org_delete id : id_ok id → org_request (orgsApi.org_delete id)
| r_listMembers id : id_ok id → org_request (orgsApi.listMembers id)
| r_inviteMember id u r : id_ok id → org_request (orgsApi.inviteMember id u r)
| r_removeMember id u : id_ok id → id_ok u → org_request (orgsApi.removeMember id u)
| r_updateMember id u r : id_ok id → id_ok u → org_request (orgsApi.updateMember id u r)
| r_org_switch id : id_ok id → org_request (orgsApi.org_switch id)
| r_groups_list : org_request groupsApi.groups_list
| r_group_create n d c : org_request (groupsApi.group_create n d c)
| r_deviceGroups id : id_ok id → org_request (groupsApi.deviceGroups id)
| r_group_devices id : id_ok id → org_request (groupsApi.group_devices id)
| r_addDevices id ds : id_ok id → org_request (groupsApi.addDevices id ds)
| r_removeDevice id d : id_ok id → id_ok d → org_request (groupsApi.removeDevice id d).

Inductive fleet_request : request → Prop :=
| r_login u p : fleet_request (authApi.auth_login u p)
| r_refresh t : fleet_request (authApi.auth_refresh t)
| r_agent_version p a : fleet_request (agentApi.agent_version p a)
| r_alerts_list d r s l : fleet_request (alertsApi.alerts_list d r s l)
| r_listPage d r s l k : fleet_request (alertsApi.listPage d r s l k)
| r_alert_resolve id : id_ok id → fleet_request (alertsApi.alert_resolve id)
| r_bulk ds t p : fleet_request (commandsApi.bulk ds t p)
| r_inventory_list l a w : fleet_request (inventoryApi.inventory_list l a w)
| r_exportCsv : fleet_request inventoryApi.exportCsv
| r_rules_list : fleet_request notificationRulesApi.rules_list
| r_rule_create a s c w e i : fleet_request (notificationRulesApi.rule_create a s c w e i)
| r_rule_update id d : id_ok id → fleet_request (notificationRulesApi.rule_update id d)
| r_saved_list : fleet_request savedCommandsApi.saved_list
| r_saved_create b : fleet_request (savedCommandsApi.saved_create b)
| r_saved_update id b : id_ok id → fleet_request (savedCommandsApi.saved_update id b)
| r_saved_delete id : id_ok id → fleet_request (savedCommandsApi.saved_delete id)
| r_schedules_list : fleet_request scheduledCommandsApi.schedules_list
| r_schedule_create d t p c e : fleet_request (scheduledCommandsApi.schedule_create d t p c e)
| r_schedule_update id d : id_ok id → fleet_request (scheduledCommandsApi.schedule_update id d)
| r_schedule_remove id : id_ok id → fleet_request (scheduledCommandsApi.schedule_remove id)
| r_software_search q : fleet_request (softwareApi.software_search q)
| r_updates_pending : fleet_request softwareUpdatesApi.updates_pending
| r_updates_dispatch n d : fleet_request (softwareUpdatesApi.updates_dispatch n d)
| r_tags_list : fleet_request tagsApi.tags_list.

Definition web_request (r : request) : Prop :=
  admin_request r ∨ device_request r ∨ org_request r ∨ fleet_request r.

(** ** Serving *)

#[global] Instance route_eq_dec : EqDecision route.
Proof. solve_decision. Defined.

(** The identifiers of a request put in the place of the parameters. *)
Fixpoint fill (ts ids : list jstr) : list jstr :=
  match ts with
  | [] => []
  | t :: ts' =>
      if startsWith t "{" then
        match ids with i :: ids' => i :: fill ts' ids' | [] => t :: fill ts' [] end
      else t :: fill ts' ids
  end.

Lemma hd_split_query s q :
  segment_ok s = true ∨ (∀ c, In c s → c ≠ qmark) →
  (q = [] ∨ ∃ q', q = qmark :: q') → hd [] (split [qmark] (s ++ q)) = s.
Proof.
  intros Hs Hq. assert (∀ c, In c s → c ≠ qmark) as Hn.
  { destruct Hs as [Hs|Hs]; [|done]. intros c Hc.
    unfold segment_ok in Hs. rewrite forallb_forall in Hs. specialize (Hs _ Hc).
    apply andb_true_iff in Hs as [_ Hs]. by apply negb_true_iff, Z.eqb_neq in Hs. }
  destruct Hq as [->|[q' ->]].
  - by rewrite app_nil_r, split1_none.
  - by rewrite split1_app.
Qed.

Lemma segment_ok_In s c : segment_ok s = true → In c s → c ≠ slash ∧ c ≠ qmark.
Proof.
  unfold segment_ok. rewrite forallb_forall. intros H Hc. specialize (H _ Hc).
  rewrite andb_true_iff, !negb_true_iff, !Z.eqb_neq in H. done.
Qed.

Lemma request_segments_join segs q :
  segs ≠ [] → forallb segment_ok segs = true → (q = [] ∨ ∃ q', q = qmark :: q') →
  request_segments (join [slash] segs ++ q) = segs.
Proof.
  intros Hnn Hok Hq. rewrite forallb_forall in Hok. unfold request_segments.
  rewrite hd_split_query; [|right|done].
  - apply split_join; [done|]. intros s Hs d Hd. by apply (segment_ok_In s d (Hok _ Hs)).
  - intros c [[<-|[]]|(s & Hs & Hc)]%join_In; [done|].
    by apply (segment_ok_In s c (Hok _ Hs)).
Qed.

(** A request whose path fills a declared template is served. *)
Lemma served_at r t ids q :
  bool_decide (t ∈ api_router) = true →
  rq_method r = rt_method t →
  rq_path r = join [slash] (fill (split [slash] (rt_path t)) ids) ++ q →
  (q = [] ∨ ∃ q', q = qmark :: q') →
  fill (split [slash] (rt_path t)) ids ≠ [] →
  forallb segment_ok (fill (split [slash] (rt_path t)) ids) = true →
  segments_match (split [slash] (rt_path t)) (fill (split [slash] (rt_path t)) ids) = true →
  served r = true.
Proof.
  intros Hin Hm Hp Hq Hnn Hok Hsm. apply existsb_exists. exists t. split.
  - apply list_elem_of_In. by apply bool_decide_eq_true in Hin.
  - unfold route_matches. rewrite Hp, request_segments_join by done.
    by rewrite Hsm, andb_true_r, bool_decide_eq_true.
Qed.

(** Discharge [served_at] for a template and the identifiers of the request. *)
Ltac known_ids :=
  repeat match goal with
  | H : Is_true (id_ok _) |- _ => apply Is_true_true, andb_true_iff in H as [? ?]
  end.
Ltac eval_fill :=
  repeat match goal with
  | |- context [fill ?t ?i] => let f := eval vm_compute in (fill t i) in change (fill t i) with f
  end.
Ltac use_ids h :=
  repeat match goal with H : h _ = true |- _ => rewrite H; clear H end; reflexivity.
Ltac served_by_query m p ids q :=
  known_ids; apply (served_at _ (Route m p) ids q); eval_fill;
  [ vm_compute; reflexivity | reflexivity
  | rewrite ?app_nil_r; cbn [join app]; rewrite <-?app_assoc; reflexivity
  | first [by left | right; eexists; reflexivity] | discriminate
  | cbn [forallb]; use_ids segment_ok
  | match goal with |- segments_match ?t _ = _ => let t' := eval vm_compute in t in change t with t' end;
    vm_compute; repeat match goal with H : truthy ?i = true |- _ => destruct i; [discriminate H|clear H] end;
    reflexivity ].
Ltac served_by m p ids := served_by_query m p ids (@nil Z).

Lemma admin_served q : admin_request q → served q = true.
Proof.
  destruct 1.
  - served_by GET "/admin/users" (@nil jstr).
  - served_by POST "/admin/users" (@nil jstr).
  - served_by PATCH "/admin/users/{user_id}" [id].
  - served_by PATCH "/admin/users/{user_id}/password" [id].
  - served_by DELETE "/admin/users/{user_id}" [id].
  - served_by GET "/admin/audit-log" (@nil jstr).
  - served_by GET "/admin/audit-log" (@nil jstr).
  - served_by GET "/admin/auth-config" (@nil jstr).
  - served_by GET "/admin/connections" (@nil jstr).
  - served_by GET "/admin/storage-stats" (@nil jstr).
  - served_by POST "/admin/cleanup" (@nil jstr).
Qed.

Lemma device_served q : device_request q → served q = true.
Proof.
  destruct 1.
  - served_by GET "/devices" (@nil jstr).
  - served_by GET "/devices/{device_id}" [id].
  - served_by GET "/devices/{device_id}/network" [id].
  - served_by GET "/devices/{device_id}/ssh-keys" [id].
  - served_by DELETE "/devices/{device_id}/ssh-keys/{key_id}" [id; k].
  - served_by GET "/devices/{device_id}/processes" [id].
  - served_by GET "/devices/{device_id}/agent-logs" [id].
  - served_by GET "/devices/{device_id}/screenshot" [id].
  - served_by POST "/devices/{device_id}/screenshot/request" [id].
  - served_by GET "/devices/{device_id}/uptime-history" [id].
  - served_by GET "/devices/{device_id}/config" [id].
  - served_by POST "/devices/{device_id}/config" [id].
  - served_by PATCH "/devices/{device_id}" [id].
  - served_by POST "/devices/{device_id}/maintenance" [id].
  - served_by POST "/devices/{device_id}/disconnect" [id].
  - served_by DELETE "/devices/{device_id}" [id].
  - served_by_query GET "/devices/{device_id}/metrics" [id] ("?hours=" ++ string_of_Z h).
  - served_by GET "/devices/{device_id}/metrics/latest" [id].
  - served_by POST "/devices/{device_id}/commands" [id].
  - served_by GET "/devices/{device_id}/commands" [id].
  - served_by GET "/devices/{device_id}/commands/{command_id}" [id; c].
Qed.

Lemma org_served q : org_request q → served q = true.
Proof.
  destruct 1.
  - served_by GET "/organizations" (@nil jstr).
  - served_by POST "/organizations" (@nil jstr).
  - served_by PATCH "/organizations/{org_id}" [id].
  - served_by DELETE "/organizations/{org_id}" [id].
  - served_by GET "/organizations/{org_id}/members" [id].
  - served_by POST "/organizations/{org_id}/members" [id].
  - served_by DELETE "/organizations/{org_id}/members/{user_id}" [id; u].
  - served_by PATCH "/organizations/{org_id}/members/{user_id}" [id; u].
  - served_by POST "/organizations/{org_id}/switch" [id].
  - served_by GET "/groups" (@nil jstr).
  - served_by POST "/groups" (@nil jstr).
  - served_by GET "/groups/device/{device_id}" [id].
  - served_by GET "/groups/{group_id}/devices" [id].
  - served_by POST "/groups/{group_id}/devices" [id].
  - served_by DELETE "/groups/{group_id}/devices/{device_id}" [id; d].
Qed.

Lemma fleet_served q : fleet_request q → served q = true.
Proof.
  destruct 1.
  - served_by POST "/auth/login" (@nil jstr).
  - served_by POST "/auth/refresh" (@nil jstr).
  - served_by GET "/agent/version" (@nil jstr).
  - served_by GET "/alerts" (@nil jstr).
  - served_by GET "/alerts" (@nil jstr).
  - served_by POST "/alerts/{alert_id}/resolve" [id].
  - served_by POST "/commands/bulk" (@nil jstr).
  - served_by GET "/inventory" (@nil jstr).
  - served_by GET "/inventory/export.csv" (@nil jstr).
  - served_by GET "/notification-rules" (@nil jstr).
  - served_by POST "/notification-rules" (@nil jstr).
  - served_by PATCH "/notification-rules/{rule_id}" [id].
  - served_by GET "/saved-commands" (@nil jstr).
  - served_by POST "/saved-commands" (@nil jstr).
  - served_by PATCH "/saved-commands/{command_id}" [id].
  - served_by DELETE "/saved-commands/{command_id}" [id].
  - served_by GET "/scheduled-commands" (@nil jstr).
  - served_by POST "/scheduled-commands" (@nil jstr).
  - served_by PATCH "/scheduled-commands/{scheduled_command_id}" [id].
  - served_by DELETE "/scheduled-commands/{scheduled_command_id}" [id].
  - served_by GET "/software/search" (@nil jstr).
  - served_by GET "/software-updates/pending" (@nil jstr).
  - served_by POST "/software-updates/dispatch" (@nil jstr).
  - served_by GET "/tags" (@nil jstr).
Qed.

(** ** Properties *)

(** C29: every request the web client's API functions can build, for any
    arguments whose path identifiers are non-empty and free of slashes and
    question marks, has a route of the server with the same method. *)
Theorem web_requests_served q : web_request q → served q = true.
Proof.
  intros [?|[?|[?|?]]];
    eauto using admin_served, device_served, org_served, fleet_served.
Qed.

Lemma web_requests_served_witness :
  served (commandsApi.command_get "dev-1" "cmd-9") = true.
Proof.
  apply web_requests_served. right; left. apply r_command_get; vm_compute; exact I.
Defined.

Lemma path_of_id lit id :
  segment_ok lit = true → segment_ok id = true →
  request_segments (join [slash] [[]; lit] ++ (slash :: id)) = [[]; lit; id].
Proof.
  intros E H.
  pose proof (request_segments_join [[]; lit; id] []) as P. cbn [join app forallb] in P.
  rewrite app_nil_r, E, H in P. simpl in P |- *. rewrite <-P by (auto || done).
  by rewrite ?app_nil_r.
Qed.

(** The mobile client lists, dispatches and polls commands at paths the
    server has no route for, whatever the device, command and identifiers. *)
Theorem mobile_commands_not_served device kind limit payload cmd :
  id_ok cmd = true →
  served (mobileCommandsApi.mobile_list device limit) = false ∧
  served (mobileCommandsApi.mobile_dispatch device kind payload) = false ∧
  served (mobileCommandsApi.mobile_get cmd) = false.
Proof.
  intros [_ Hs]%andb_true_iff. split; [vm_compute; done|]. split; [vm_compute; done|].
  pose proof (path_of_id "commands" cmd eq_refl Hs) as E.
  unfold served, route_matches, mobileCommandsApi.mobile_get, get, rq_path, rq_method.
  change ("/commands/" ++ cmd) with (join [slash] [[]; "commands"] ++ (slash :: cmd)).
  rewrite E. vm_compute. done.
Qed.

Lemma mobile_commands_not_served_witness :
  served (mobileCommandsApi.mobile_get "c1") = false.
Proof. apply (mobile_commands_not_served "d1" "reboot" 20 [] "c1"). reflexivity. Defined.
