(* ===== verification/Stores.v ===== *)
(** The client-side stores ([frontend/src/store/*.ts]) over the browser's
    [localStorage].

    A zustand store is its state record; an action is a function on the state,
    or on the state together with [localStorage] where the action writes to it.
    The [persist] middleware of the branding store is a library: only the
    store's own actions are modelled. *)
From S2P Require Import Prelude JsString JsNumber Types.
Local Open Scope Z_scope.
Local Open Scope js_scope.

(** ** [localStorage] *)

Module localStorage.
Abbreviation t := (gmap jstr jstr).
Definition getItem (k : jstr) (s : t) : option jstr := s !! k.
Definition setItem (k v : jstr) (s : t) : t := <[k := v]> s.
Definition removeItem (k : jstr) (s : t) : t := delete k s.
Definition clear : t := ∅.
End localStorage.
Import localStorage.

(** ** alertStore *)

Module alertStore.

Record AlertState := { unresolved : list Alert }.

Definition alert_initial : AlertState := {| unresolved := [] |}.

(** [xs.every((x, i) => x.id === ys[i]?.id)] *)
Definition sameIds (xs ys : list Alert) : bool :=
  forallb (λ '(i, x), match ys !! i with Some y => a_id x =s a_id y | None => false end)
    (imap pair xs).

Definition setUnresolved (alerts : list Alert) (state : AlertState) : AlertState :=
  if Nat.eqb (length (unresolved state)) (length alerts) && sameIds (unresolved state) alerts
  then state else {| unresolved := alerts |}.

Definition addAlert (alert : Alert) (state : AlertState) : AlertState :=
  {| unresolved := alert :: bfilter (λ existing, negb (a_id existing =s a_id alert)) (unresolved state) |}.

Definition resolve (id : jstr) (state : AlertState) : AlertState :=
  {| unresolved := bfilter (λ a, negb (a_id a =s id)) (unresolved state) |}.

Inductive alert_action := SetUnresolved (l : list Alert) | AddAlert (a : Alert) | Resolve (id : jstr).
Definition alert_step (s : AlertState) (a : alert_action) : AlertState :=
  match a with
  | SetUnresolved l => setUnresolved l s
  | AddAlert a => addAlert a s
  | Resolve id => resolve id s
  end.
Definition alert_run (s : AlertState) (l : list alert_action) : AlertState := fold_left alert_step l s.

(** The contract: an ordered set of alert identifiers. *)
Module Spec.
Definition remove (id : jstr) (ids : list jstr) : list jstr := bfilter (λ i, negb (i =s id)) ids.
Definition spec_step (ids : list jstr) (a : alert_action) : list jstr :=
  match a with
  | SetUnresolved l => map a_id l
  | AddAlert a => a_id a :: remove (a_id a) ids
  | Resolve id => remove id ids
  end.
Definition spec_run (ids : list jstr) (l : list alert_action) : list jstr := fold_left spec_step l ids.
End Spec.

Definition ids (s : AlertState) : list jstr := map a_id (unresolved s).

Lemma sameIds_spec xs ys :
  length xs = length ys → sameIds xs ys = true → map a_id xs = map a_id ys.
Proof.
  revert ys. unfold sameIds.
  induction xs as [|x xs IH]; intros [|y ys]; try done. intros [= Hl].
  cbn [imap forallb lookup]. intros [Hx Hr]%andb_true_iff.
  apply seqb_true in Hx. simpl. f_equal; [done|]. apply IH; [done|].
  clear -Hr.
  rewrite forallb_forall in Hr |- *. intros [i z] Hz.
  assert (In (S i, z) (imap (pair ∘ S) xs)) as Hz'.
  { apply list_elem_of_In, elem_of_lookup_imap in Hz as (j & w & [= -> ->] & Hw).
    apply list_elem_of_In, elem_of_lookup_imap. by exists j, w. }
  exact (Hr _ Hz').
Qed.

Lemma ids_remove id l :
  map a_id (bfilter (λ a, negb (a_id a =s id)) l) = Spec.remove id (map a_id l).
Proof. induction l as [|a l IH]; [done|]. simpl. destruct (a_id a =s id); simpl; by rewrite IH. Qed.

Lemma step_refines s a : ids (alert_step s a) = Spec.spec_step (ids s) a.
Proof.
  destruct a as [l|a|id]; simpl.
  - unfold setUnresolved. destruct (Nat.eqb_spec (length (unresolved s)) (length l)); [|done].
    destruct (sameIds _ _) eqn:E; [|done]. by apply sameIds_spec.
  - unfold ids. simpl. by rewrite ids_remove.
  - unfold ids. simpl. by rewrite ids_remove.
Qed.

Lemma run_refines l s : ids (alert_run s l) = Spec.spec_run (ids s) l.
Proof.
  revert s. induction l as [|a l IH]; intros s; [done|]. simpl. by rewrite IH, step_refines.
Qed.

Lemma remove_notin id l : id ∉ Spec.remove id l.
Proof.
  rewrite list_elem_of_In. unfold Spec.remove. rewrite bfilter_In.
  intros [_ H]. by rewrite seqb_refl in H.
Qed.

Lemma remove_NoDup id l : NoDup l → NoDup (Spec.remove id l).
Proof. unfold Spec.remove. auto with dtsys. Qed.

(** The action may be performed: a fetched list has distinct identifiers. *)
Definition alert_action_ok (a : alert_action) : Prop :=
  match a with SetUnresolved l => NoDup (map a_id l) | _ => True end.

Lemma step_NoDup ids0 a : alert_action_ok a → NoDup ids0 → NoDup (Spec.spec_step ids0 a).
Proof.
  destruct a; simpl; intros Ha H; [done| |by apply remove_NoDup].
  constructor; [apply remove_notin|by apply remove_NoDup].
Qed.

Lemma run_NoDup l ids0 : Forall alert_action_ok l → NoDup ids0 → NoDup (Spec.spec_run ids0 l).
Proof.
  intros H. revert ids0. induction H as [|a l Ha Hl IH]; intros ids0 H0; [done|].
  simpl. apply IH. by apply step_NoDup.
Qed.

End alertStore.

(** ** authStore *)

Module authStore.

Record AuthState := {
  accessToken : option jstr; refreshToken : option jstr; username : option jstr;
  role : option jstr; orgId : option jstr; orgName : option jstr; isAuthenticated : bool }.

(** The state the store starts with when the page is (re)loaded. *)
Definition auth_initial (ls : localStorage.t) : AuthState :=
  {| accessToken := getItem "access_token" ls;
     refreshToken := getItem "refresh_token" ls;
     username := getItem "username" ls;
     role := getItem "role" ls;
     orgId := getItem "org_id" ls;
     orgName := getItem "org_name" ls;
     isAuthenticated := otruthy (getItem "access_token" ls) |}.

(** [if (v) localStorage.setItem(k, v)] *)
Definition set_if (k : jstr) (v : option jstr) (ls : localStorage.t) : localStorage.t :=
  match v with Some v => if truthy v then setItem k v ls else ls | None => ls end.

Definition login (access refresh user role_ : jstr) (org orgN : option jstr)
    (w : localStorage.t * AuthState) : localStorage.t * AuthState :=
  let ls := setItem "access_token" access (fst w) in
  let ls := setItem "refresh_token" refresh ls in
  let ls := setItem "username" user ls in
  let ls := setItem "role" role_ ls in
  let ls := set_if "org_id" org ls in
  let ls := set_if "org_name" orgN ls in
  (ls, {| accessToken := Some access; refreshToken := Some refresh; username := Some user;
          role := Some role_; orgId := org; orgName := orgN; isAuthenticated := true |}).

Definition logout (w : localStorage.t * AuthState) : localStorage.t * AuthState :=
  let ls := removeItem "access_token" (fst w) in
  let ls := removeItem "refresh_token" ls in
  let ls := removeItem "username" ls in
  let ls := removeItem "role" ls in
  let ls := removeItem "org_id" ls in
  let ls := removeItem "org_name" ls in
  (ls, {| accessToken := None; refreshToken := None; username := None; role := None;
          orgId := None; orgName := None; isAuthenticated := false |}).

Definition setOrgContext (org orgN access refresh : jstr)
    (w : localStorage.t * AuthState) : localStorage.t * AuthState :=
  let ls := setItem "org_id" org (fst w) in
  let ls := setItem "org_name" orgN ls in
  let ls := setItem "access_token" access ls in
  let ls := setItem "refresh_token" refresh ls in
  (ls, {| accessToken := Some access; refreshToken := Some refresh; username := username (snd w);
          role := role (snd w); orgId := Some org; orgName := Some orgN;
          isAuthenticated := isAuthenticated (snd w) |}).

(** [hooks/useCurrentOrg.ts] *)
Definition useCurrentOrg (s : AuthState) : option jstr * option jstr := (orgId s, orgName s).

Inductive auth_action :=
| Login (access refresh user role_ : jstr) (org orgN : option jstr)
| Logout
| SetOrgContext (org orgN access refresh : jstr).

Definition auth_step (w : localStorage.t * AuthState) (a : auth_action) : localStorage.t * AuthState :=
  match a with
  | Login t r u ro o n => login t r u ro o n w
  | Logout => logout w
  | SetOrgContext o n t r => setOrgContext o n t r w
  end.

(** Reloading the page would show the same session. *)
Definition coherent (w : localStorage.t * AuthState) : Prop := snd w = auth_initial (fst w).

(** Tokens are not empty, and an organisation is switched while signed in. *)
Definition auth_action_ok (w : localStorage.t * AuthState) (a : auth_action) : bool :=
  match a with
  | Login t _ _ _ _ _ => truthy t
  | Logout => true
  | SetOrgContext _ _ t _ => truthy t && isAuthenticated (snd w)
  end.
(** A login names the organisation, or none is stored; so for its name. *)
Definition names_org (w : localStorage.t * AuthState) (a : auth_action) : bool :=
  let named k v := match v with Some v => truthy v | None => bool_decide (getItem k (fst w) = None) end in
  match a with
  | Login _ _ _ _ org orgN => named "org_id" org && named "org_name" orgN
  | _ => true
  end.

(** Reloading the page would show the same account, and the organisation if
    the session has one. *)
Definition keeps (mine stored : option jstr) : Prop := ∀ v, mine = Some v → truthy v = true → stored = Some v.
Definition restored (s r : AuthState) : Prop :=
  accessToken r = accessToken s ∧ refreshToken r = refreshToken s ∧ username r = username s ∧ role r = role s ∧
  isAuthenticated r = isAuthenticated s ∧ keeps (orgId s) (orgId r) ∧ keeps (orgName s) (orgName r).

(** Evaluate the lookups of [localStorage] after writes to literal keys. *)
Ltac storage_lookups :=
  unfold getItem, setItem, removeItem;
  repeat first [ rewrite lookup_insert_eq | rewrite lookup_delete_eq
               | rewrite lookup_insert_ne by discriminate
               | rewrite lookup_delete_ne by discriminate ].

Ltac use_bools :=
  repeat match goal with
  | H : truthy _ = true |- _ => rewrite H; clear H
  | H : otruthy _ = true |- _ => rewrite H; clear H
  | |- context [otruthy (Some ?x)] => change (otruthy (Some x)) with (truthy x)
  | H : _ !! _ = None |- _ => rewrite H; clear H
  end.

Lemma step_coherent w a :
  coherent w → auth_action_ok w a = true → names_org w a = true → coherent (auth_step w a).
Proof.
  destruct w as [ls st]. unfold coherent. cbn [fst snd]. intros -> Hok Hn.
  destruct a as [t r u ro [o|] [n|]| |o n t r]; cbn [auth_action_ok names_org fst snd] in Hok, Hn; try done;
    reflect_bools; cbn [auth_step login logout setOrgContext fst snd set_if]; unfold auth_initial, getItem in *;
    cbn [isAuthenticated username role] in *; use_bools; storage_lookups; by use_bools.
Qed.

Lemma keeps_set_if k v ls : keeps v (getItem k (set_if k v ls)).
Proof. intros x -> Hx. unfold set_if. rewrite Hx. by storage_lookups. Qed.
Lemma get_set_if k k' v ls : k ≠ k' → getItem k (set_if k' v ls) = getItem k ls.
Proof. intros Hk. unfold set_if. repeat case_match; [|done..]. unfold getItem, setItem. by rewrite lookup_insert_ne by done. Qed.

Lemma step_restored w a :
  restored (snd w) (auth_initial (fst w)) → auth_action_ok w a = true →
  restored (snd (auth_step w a)) (auth_initial (fst (auth_step w a))).
Proof.
  destruct w as [ls st]. intros (H1 & H2 & H3 & H4 & H5 & _) Hok.
  destruct a as [t r u ro org orgN| |o n t r]; cbn [auth_action_ok fst snd] in Hok, H1, H2, H3, H4, H5; reflect_bools;
    cbn [auth_step login logout setOrgContext fst snd]; unfold auth_initial in *;
    cbn [accessToken refreshToken username role isAuthenticated orgId orgName] in *; unfold restored;
    cbn [accessToken refreshToken username role isAuthenticated orgId orgName].
  - rewrite !(get_set_if _ "org_name") by discriminate. rewrite !(get_set_if _ "org_id") by discriminate. storage_lookups.
    split_and!; try done; apply keeps_set_if.
  - by storage_lookups.
  - storage_lookups. split_and!; try done; [by use_bools| |]; by intros v [= ->].
Qed.

(** From a load of the page, through actions with a property. *)
Inductive auth_reachable (ok : localStorage.t * AuthState → auth_action → bool) : localStorage.t * AuthState → Prop :=
| reach_load ls : auth_reachable ok (ls, auth_initial ls)
| reach_step w a : auth_reachable ok w → auth_action_ok w a = true → ok w a = true → auth_reachable ok (auth_step w a).

Lemma reachable_coherent w : auth_reachable names_org w → coherent w.
Proof. induction 1; [done|by apply step_coherent]. Qed.
Lemma reachable_restored w : auth_reachable (λ _ _, true) w → restored (snd w) (auth_initial (fst w)).
Proof. induction 1; [|by apply step_restored]. unfold restored, keeps. simpl. split_and!; by intros. Qed.

End authStore.

(** ** themeStore *)

Module themeStore.

Inductive Theme := Dark | Light.
#[global] Instance Theme_eq_dec : EqDecision Theme.
Proof. solve_decision. Defined.
Definition theme_string (t : Theme) : jstr := match t with Dark => "dark" | Light => "light" end.

Definition STORAGE_KEY : jstr := "dtsys-theme".

(** The page: [localStorage], whether [<html>] has the class [dark], and the
    store's [theme]. *)
Record theme_page := { storage : localStorage.t; html_dark : bool; theme : Theme }.

(** [classList.toggle('dark', theme === 'dark')] *)
Definition applyTheme (t : Theme) : bool := bool_decide (t = Dark).

Definition getStoredTheme (ls : localStorage.t) : Theme :=
  match getItem STORAGE_KEY ls with
  | Some s => if s =s "light" then Light else Dark
  | None => Dark
  end.

(** The store is created when its module is loaded, then [main.tsx] calls
    [initializeTheme]. *)
Definition initializeTheme (p : theme_page) : theme_page :=
  {| storage := storage p; html_dark := applyTheme (getStoredTheme (storage p)); theme := theme p |}.
Definition create (ls : localStorage.t) (html : bool) : theme_page :=
  {| storage := ls; html_dark := html; theme := getStoredTheme ls |}.
Definition load (ls : localStorage.t) (html : bool) : theme_page := initializeTheme (create ls html).

Definition toggle (p : theme_page) : theme_page :=
  let nextTheme := if decide (theme p = Dark) then Light else Dark in
  {| storage := setItem STORAGE_KEY (theme_string nextTheme) (storage p);
     html_dark := applyTheme nextTheme; theme := nextTheme |}.

Definition consistent (p : theme_page) : Prop :=
  getStoredTheme (storage p) = theme p ∧ html_dark p = bool_decide (theme p = Dark).

Lemma load_consistent ls html : consistent (load ls html).
Proof. done. Qed.

Lemma toggle_consistent p : consistent (toggle p).
Proof.
  unfold consistent, toggle, getStoredTheme, getItem, setItem. cbn [storage theme html_dark].
  rewrite lookup_insert_eq. by destruct (theme p).
Qed.

Lemma toggle_theme n p :
  theme (Nat.iter n toggle p) = if Nat.even n then theme p else theme (toggle p).
Proof.
  induction n as [|n IH]; [done|]. rewrite Nat.even_succ. simpl Nat.iter.
  rewrite <-Nat.negb_even. unfold toggle at 1. cbn [theme]. rewrite IH.
  destruct (Nat.even n); simpl; [done|]. by destruct (theme p).
Qed.

End themeStore.

(** ** brandingStore *)

Module brandingStore.

Record BrandingState := {
  companyName : jstr; logoUrl : jstr; accentColor : jstr; sidebarLabel : jstr; faviconUrl : jstr }.

Definition DEFAULTS : BrandingState :=
  {| companyName := "DTSYS"; logoUrl := ""; accentColor := "#3b82f6";
     sidebarLabel := "IT Management"; faviconUrl := "" |}.

Definition setCompanyName (v : jstr) (s : BrandingState) : BrandingState :=
  {| companyName := v; logoUrl := logoUrl s; accentColor := accentColor s;
     sidebarLabel := sidebarLabel s; faviconUrl := faviconUrl s |}.
Definition setLogoUrl (v : jstr) (s : BrandingState) : BrandingState :=
  {| companyName := companyName s; logoUrl := v; accentColor := accentColor s;
     sidebarLabel := sidebarLabel s; faviconUrl := faviconUrl s |}.
Definition setAccentColor (v : jstr) (s : BrandingState) : BrandingState :=
  {| companyName := companyName s; logoUrl := logoUrl s; accentColor := v;
     sidebarLabel := sidebarLabel s; faviconUrl := faviconUrl s |}.
Definition setSidebarLabel (v : jstr) (s : BrandingState) : BrandingState :=
  {| companyName := companyName s; logoUrl := logoUrl s; accentColor := accentColor s;
     sidebarLabel := v; faviconUrl := faviconUrl s |}.
Definition setFaviconUrl (v : jstr) (s : BrandingState) : BrandingState :=
  {| companyName := companyName s; logoUrl := logoUrl s; accentColor := accentColor s;
     sidebarLabel := sidebarLabel s; faviconUrl := v |}.
Definition branding_reset (s : BrandingState) : BrandingState := DEFAULTS.

(** [main.tsx]: the address given to the icon link at boot, if any. *)
Definition boot_favicon (s : BrandingState) : option jstr :=
  if truthy (faviconUrl s) then Some (faviconUrl s) else None.

End brandingStore.

(** ** globalSearchStore and layoutStore *)

Module globalSearchStore.
Record GlobalSearchState := { open : bool }.
Definition search_initial : GlobalSearchState := {| open := false |}.
Definition openSearch (_ : GlobalSearchState) : GlobalSearchState := {| open := true |}.
Definition closeSearch (_ : GlobalSearchState) : GlobalSearchState := {| open := false |}.
Definition toggleSearch (s : GlobalSearchState) : GlobalSearchState := {| open := negb (open s) |}.
End globalSearchStore.

Module layoutStore.
Record LayoutState := { mobileSidebarOpen : bool }.
Definition layout_initial : LayoutState := {| mobileSidebarOpen := false |}.
Definition openSidebar (_ : LayoutState) : LayoutState := {| mobileSidebarOpen := true |}.
Definition closeSidebar (_ : LayoutState) : LayoutState := {| mobileSidebarOpen := false |}.
Definition toggleSidebar (s : LayoutState) : LayoutState :=
  {| mobileSidebarOpen := negb (mobileSidebarOpen s) |}.
End layoutStore.

(** ** Properties *)

Module StoresProps.

(** C12: whatever the sequence of fetches, live alerts and resolutions, the
    alert store holds, in order, exactly the identifiers an ordered set of
    identifiers would hold (also when [setUnresolved] keeps the old list), and
    never the same alert twice. *)
Theorem alert_store_refines_ordered_set l :
  Forall alertStore.alert_action_ok l →
  alertStore.ids (alertStore.alert_run alertStore.alert_initial l) = alertStore.Spec.spec_run [] l ∧
  NoDup (alertStore.ids (alertStore.alert_run alertStore.alert_initial l)).
Proof.
  intros H. rewrite alertStore.run_refines. split; [done|].
  apply alertStore.run_NoDup; [done|constructor].
Qed.

Definition sample_alert (id : jstr) : Alert :=
  {| a_id := id; a_device_id := "d"; a_alert_type := "high_cpu"; a_severity := Critical;
     a_message := "m"; a_is_resolved := false; a_created_at := "t"; a_resolved_at := None |}.

Lemma alert_store_refines_ordered_set_witness :
  let l := [alertStore.SetUnresolved [sample_alert "a"; sample_alert "b"];
            alertStore.AddAlert (sample_alert "b"); alertStore.Resolve "a"] in
  alertStore.ids (alertStore.alert_run alertStore.alert_initial l) = ["b"] ∧
  NoDup (alertStore.ids (alertStore.alert_run alertStore.alert_initial l)).
Proof.
  intros l.
  assert (Forall alertStore.alert_action_ok l) as Hl.
  { constructor; [|constructor; [exact I|constructor; [exact I|constructor]]].
    constructor; [rewrite list_elem_of_singleton; discriminate|apply NoDup_singleton]. }
  destruct (alert_store_refines_ordered_set l Hl) as [E N]. split; [|exact N].
  rewrite E. vm_compute. reflexivity.
Defined.

(** C13: after any number of logins, organisation switches while signed in and
    logouts, a reload of the page restores from [localStorage] the tokens, the
    user name, the role and the state of being signed in that are in memory, and
    the organisation when the session has one.  Without one, a reload may bring
    back the organisation of an earlier session; it restores the session exactly
    if every login named its organisation or found none stored. *)
Theorem auth_session_survives_reload w :
  (authStore.auth_reachable (λ _ _, true) w → authStore.restored (snd w) (authStore.auth_initial (fst w))) ∧
  (authStore.auth_reachable authStore.names_org w → snd w = authStore.auth_initial (fst w)).
Proof. split; [apply authStore.reachable_restored|apply authStore.reachable_coherent]. Qed.

Lemma auth_session_survives_reload_witness :
  let w := authStore.auth_step (authStore.auth_step (∅, authStore.auth_initial ∅)
             (authStore.Login "tok" "ref" "ann" "admin" None None))
             (authStore.SetOrgContext "o1" "Org" "tok2" "ref2") in
  let w' := authStore.auth_step w (authStore.Login "tok3" "ref3" "bob" "viewer" None None) in
  snd w = authStore.auth_initial (fst w) ∧ authStore.orgId (snd w) = Some "o1" ∧
  authStore.restored (snd w') (authStore.auth_initial (fst w')).
Proof.
  split; [|split; [reflexivity|]]; apply auth_session_survives_reload.
  all: repeat (apply authStore.reach_step; [|vm_compute; reflexivity|vm_compute; reflexivity]); apply authStore.reach_load.
Defined.

(** Logging in again without an organisation, as the login page does,
    while an organisation is stored leaves the old organisation in
    [localStorage]: the session shows none, and a reload brings the previous
    one back. *)
Theorem login_keeps_stale_org ls st t r u ro o :
  getItem "org_id" ls = Some o →
  authStore.orgId (snd (authStore.login t r u ro None None (ls, st))) = None ∧
  authStore.orgId (authStore.auth_initial (fst (authStore.login t r u ro None None (ls, st)))) = Some o.
Proof.
  intros H. split; [done|]. unfold authStore.login, authStore.auth_initial.
  cbn [fst authStore.orgId authStore.set_if]. by authStore.storage_lookups.
Qed.

Lemma login_keeps_stale_org_witness :
  authStore.orgId (authStore.auth_initial (fst (authStore.login "t2" "r2" "bob" "viewer" None None
    (authStore.auth_step (∅, authStore.auth_initial ∅)
       (authStore.Login "t" "r" "ann" "admin" (Some "o1") (Some "Org")))))) = Some "o1".
Proof. apply (login_keeps_stale_org _ _ "t2" "r2" "bob" "viewer" "o1"). reflexivity. Defined.

(** After loading the page and any number of toggles the class of [<html>],
    the store and [localStorage] agree on the theme (so the next load shows
    it), and an even number of toggles gives the first theme back. *)
Theorem theme_consistent ls html n :
  let p := Nat.iter n themeStore.toggle (themeStore.load ls html) in
  themeStore.getStoredTheme (themeStore.storage p) = themeStore.theme p ∧
  themeStore.html_dark p = bool_decide (themeStore.theme p = themeStore.Dark) ∧
  themeStore.theme p = (if Nat.even n then themeStore.getStoredTheme ls
                        else themeStore.theme (themeStore.toggle (themeStore.load ls html))).
Proof.
  intros p. assert (themeStore.consistent p) as [? ?].
  { unfold p. destruct n; [apply themeStore.load_consistent|apply themeStore.toggle_consistent]. }
  split; [done|]. split; [done|]. unfold p. by rewrite themeStore.toggle_theme.
Qed.

End StoresProps.
