(* ===== verification/HttpClient.v ===== *)
(** The authenticated HTTP clients: the axios interceptors of the web client
    ([frontend/src/api/client.ts]) and of the mobile client
    ([mobile/src/api/client.ts]) with the mobile session ([useAuth.ts]).

    The server is a parameter: what it answers may depend on everything sent
    to it so far.  A request is a call with the interceptors around it; the
    recursion of a retried request is bounded by fuel, and running out of fuel
    ([None]) means that the promise has not settled within that many sends. *)
From S2P Require Import Prelude JsString JsNumber Types Api Stores.
Import localStorage.
Local Open Scope Z_scope.
Local Open Scope js_scope.

(** ** Wire *)

(** A message to the server: an API request to a base URL with its bearer
    token, or a call of the refresh endpoint of a base URL. *)
Inductive message :=
| Send (base : jstr) (r : request) (bearer : option jstr)
| Refresh (base : jstr) (refresh_token : jstr).

(** axios resolves on a 2xx answer and rejects on any other answer or when
    there is none. *)
Inductive answer := Answer (status : Z) (data : json) | NoAnswer.
Inductive outcome := Resolved (data : json) | Rejected (status : option Z).

Definition success (status : Z) : bool := (200 <=? status) && (status <? 300).

(** The server: the answer to the last message of a history (newest first),
    and the token pair of a refresh, if it succeeds. *)
Class Server := {
  answers : list message → answer;
  refreshes : list message → option (jstr * jstr) }.

Definition is_send (m : message) : bool := match m with Send _ _ _ => true | _ => false end.
Definition sends (l : list message) : nat := length (bfilter is_send l).
Definition refresh_calls (l : list message) : nat := length (bfilter (λ m, negb (is_send m)) l).

Lemma sends_cons m l : sends (m :: l) = ((if is_send m then 1 else 0) + sends l)%nat.
Proof. unfold sends, bfilter. simpl. by destruct (is_send m). Qed.
Lemma refresh_calls_cons m l :
  refresh_calls (m :: l) = ((if is_send m then 0 else 1) + refresh_calls l)%nat.
Proof. unfold refresh_calls, bfilter. simpl. by destruct (is_send m). Qed.

(** ** The web client *)

Module WebClient.

Record web_world := { log : list message; storage : localStorage.t; location : option jstr }.

(** The request configuration: the request and its Authorization header. *)
Record web_config := { c_request : request; c_bearer : option jstr }.

Definition web_record (m : message) (w : web_world) : web_world :=
  {| log := m :: log w; storage := storage w; location := location w |}.

Section client.
Context `{Server}.

Definition baseURL : jstr := "/api/v1".

(** The request interceptor. *)
Definition web_request_interceptor (w : web_world) (c : web_config) : web_config :=
  match getItem "access_token" (storage w) with
  | Some token => if truthy token then {| c_request := c_request c; c_bearer := Some token |} else c
  | None => c
  end.

Fixpoint web_api_request (fuel : nat) (w : web_world) (c0 : web_config) : option (outcome * web_world) :=
  match fuel with
  | O => None
  | S fuel =>
      let c := web_request_interceptor w c0 in
      let w := web_record (Send baseURL (c_request c) (c_bearer c)) w in
      match answers (log w) with
      | NoAnswer => Some (Rejected None, w)
      | Answer status data =>
          if success status then Some (Resolved data, w)
          else if status =? 401 then
            match getItem "refresh_token" (storage w) with
            | Some refresh =>
                if truthy refresh then
                  let w := web_record (Refresh baseURL refresh) w in
                  match refreshes (log w) with
                  | Some (access, _) =>
                      let w := {| log := log w; storage := setItem "access_token" access (storage w);
                                  location := location w |} in
                      web_api_request fuel w {| c_request := c_request c; c_bearer := Some access |}
                  | None =>
                      Some (Rejected (Some status),
                            {| log := log w; storage := localStorage.clear; location := Some "/login" |})
                  end
                else Some (Rejected (Some status), w)
            | None => Some (Rejected (Some status), w)
            end
          else Some (Rejected (Some status), w)
      end
  end.

Definition web_call (fuel : nat) (w : web_world) (r : request) : option (outcome * web_world) :=
  web_api_request fuel w {| c_request := r; c_bearer := None |}.

End client.
End WebClient.

(** ** The mobile client *)

Module MobileClient.

(** Expo's secure store, a key-value store like [localStorage]. *)
Abbreviation store := localStorage.t.

Record mobile_world := { log : list message; storage : store }.
Definition mobile_record (m : message) (w : mobile_world) : mobile_world := {| log := m :: log w; storage := storage w |}.

Definition STORAGE_KEY_TOKEN : jstr := "access_token".
Definition STORAGE_KEY_REFRESH : jstr := "refresh_token".
Definition STORAGE_KEY_SERVER : jstr := "server_url".

Definition getServerUrl (s : store) : jstr :=
  getItem STORAGE_KEY_SERVER s ?? "http://localhost:8000".
Definition getAccessToken (s : store) : option jstr := getItem STORAGE_KEY_TOKEN s.
Definition saveTokens (access refresh : jstr) (s : store) : store :=
  setItem STORAGE_KEY_REFRESH refresh (setItem STORAGE_KEY_TOKEN access s).
(** [url.replace(/\/$/, '')] *)
Definition strip_slash (url : jstr) : jstr :=
  match rev url with c :: r => if c =? 47 then rev r else url | [] => url end.
Definition saveServerUrl (url : jstr) (s : store) : store :=
  setItem STORAGE_KEY_SERVER (strip_slash url) s.
Definition clearTokens (s : store) : store :=
  removeItem STORAGE_KEY_REFRESH (removeItem STORAGE_KEY_TOKEN s).

(** The configuration carries the [_retry] mark. *)
Record mobile_config := { c_request : request; c_bearer : option jstr; c_retry : bool }.

Section client.
Context `{Server}.

Definition mobile_request_interceptor (w : mobile_world) (c : mobile_config) : mobile_config :=
  match getAccessToken (storage w) with
  | Some token =>
      if truthy token then {| c_request := c_request c; c_bearer := Some token; c_retry := c_retry c |}
      else c
  | None => c
  end.

Fixpoint mobile_api_request (fuel : nat) (w : mobile_world) (c0 : mobile_config) : option (outcome * mobile_world) :=
  match fuel with
  | O => None
  | S fuel =>
      let c := mobile_request_interceptor w c0 in
      let base := getServerUrl (storage w) ++ "/api/v1" in
      let w := mobile_record (Send base (c_request c) (c_bearer c)) w in
      match answers (log w) with
      | NoAnswer => Some (Rejected None, w)
      | Answer status data =>
          if success status then Some (Resolved data, w)
          else if (status =? 401) && negb (c_retry c) then
            let clear_and_reject w :=
              Some (Rejected (Some status), {| log := log w; storage := clearTokens (storage w) |}) in
            match getItem STORAGE_KEY_REFRESH (storage w) with
            | Some refresh =>
                if truthy refresh then
                  let w := mobile_record (Refresh (getServerUrl (storage w) ++ "/api/v1") refresh) w in
                  match refreshes (log w) with
                  | Some (access, fresh) =>
                      let w := {| log := log w; storage := saveTokens access fresh (storage w) |} in
                      mobile_api_request fuel w
                        {| c_request := c_request c; c_bearer := Some access; c_retry := true |}
                  | None => clear_and_reject w
                  end
                else clear_and_reject w
            | None => clear_and_reject w
            end
          else Some (Rejected (Some status), w)
      end
  end.

Definition mobile_call (fuel : nat) (w : mobile_world) (r : request) : option (outcome * mobile_world) :=
  mobile_api_request fuel w {| c_request := r; c_bearer := None; c_retry := false |}.

End client.

(** *** [useAuth] *)

(** The hook's state with the secure store. *)
Record session := { s_storage : store; s_loading : bool; s_error : option jstr }.

(** The answer to a login call: the token pair, or a rejection with the
    [detail] of the error body, if any. *)
Inductive login_answer := Tokens (access refresh : jstr) | LoginRejected (detail : option jstr).

(** The URL that is posted to. *)
Definition login_url (serverUrl : jstr) : jstr := strip_slash serverUrl ++ "/api/v1/auth/login".

Definition mobile_login (ans : jstr → login_answer) (serverUrl username : jstr) (s : session) : bool * session :=
  let base := strip_slash serverUrl in
  let store := saveServerUrl base (s_storage s) in
  match ans (login_url serverUrl) with
  | Tokens a r =>
      (true, {| s_storage := setItem "username" username (saveTokens a r store);
                s_loading := false; s_error := None |})
  | LoginRejected d =>
      (false, {| s_storage := store; s_loading := false; s_error := Some (d ?? "Login failed") |})
  end.

Definition mobile_logout (s : store) : store := removeItem "username" (clearTokens s).

Definition checkAuth (s : store) : bool := otruthy (getAccessToken s).

(** *** The root of the app ([mobile/App.tsx]) *)

(** [isAuthenticated] is null until the first [checkAuth] is done. *)
Inductive mobile_screen := Spinner | LoginScreen | Navigator.
Record app := { a_store : store; a_authenticated : option bool }.

Definition app_start (s : store) : app := {| a_store := s; a_authenticated := None |}.
Definition app_checked (a : app) : app :=
  {| a_store := a_store a; a_authenticated := Some (checkAuth (a_store a)) |}.
Definition handleLoginSuccess (a : app) : app :=
  {| a_store := a_store a; a_authenticated := Some true |}.
Definition handleLogout (a : app) : app :=
  {| a_store := mobile_logout (a_store a); a_authenticated := Some false |}.
Definition app_screen (a : app) : mobile_screen :=
  match a_authenticated a with
  | None => Spinner
  | Some false => LoginScreen
  | Some true => Navigator
  end.
(** [handleLogin] of the login screen. *)
Definition handleLogin (ans : jstr → login_answer) (serverUrl username : jstr) (a : app) : app :=
  let '(ok, s) := mobile_login ans serverUrl username
                    {| s_storage := a_store a; s_loading := false; s_error := None |} in
  let a := {| a_store := s_storage s; a_authenticated := a_authenticated a |} in
  if ok then handleLoginSuccess a else a.
(** [handleLogout] of the settings screen: it clears the session, then calls
    the root's [handleLogout]. *)
Definition settings_handleLogout (a : app) : app :=
  handleLogout {| a_store := mobile_logout (a_store a); a_authenticated := a_authenticated a |}.

End MobileClient.

(** ** Lemmas *)

(** How a request settles when its answer is not retried. *)
Definition settle (a : answer) : outcome :=
  match a with
  | Answer status data => if success status then Resolved data else Rejected (Some status)
  | NoAnswer => Rejected None
  end.
Definition is_401 (a : answer) : bool :=
  match a with Answer status _ => status =? 401 | NoAnswer => false end.

Lemma success_not_401 status : success status = true → (status =? 401) = false.
Proof. unfold success. intros H. reflect_bools. apply Z.eqb_neq. lia. Qed.

Module WebFacts.
Import WebClient.
Section facts.
Context `{Server}.

(** The message a request starts with. *)
Definition first_send (w : web_world) (c : web_config) : message :=
  Send baseURL (c_request c) (c_bearer (web_request_interceptor w c)).

Lemma interceptor_request w c : c_request (web_request_interceptor w c) = c_request c.
Proof. unfold web_request_interceptor. repeat case_match; done. Qed.

Lemma settles_not_401 fuel w c :
  is_401 (answers (first_send w c :: log w)) = false →
  web_api_request (S fuel) w c =
    Some (settle (answers (first_send w c :: log w)), web_record (first_send w c) w).
Proof.
  intros Ha. simpl. rewrite interceptor_request. fold (first_send w c).
  destruct (answers (first_send w c :: log w)) as [status data|]; [|done].
  simpl in Ha |- *. by destruct (success status); [|rewrite Ha].
Qed.

Lemma step_401 fuel w c d r :
  answers (first_send w c :: log w) = Answer 401 d →
  getItem "refresh_token" (storage w) = Some r → truthy r = true →
  web_api_request (S fuel) w c =
    let l := Refresh baseURL r :: first_send w c :: log w in
    match refreshes l with
    | Some (access, _) =>
        web_api_request fuel
          {| log := l; storage := setItem "access_token" access (storage w); location := location w |}
          {| c_request := c_request c; c_bearer := Some access |}
    | None => Some (Rejected (Some 401),
                    {| log := l; storage := localStorage.clear; location := Some "/login" |})
    end.
Proof.
  intros Ha Hr Ht. simpl. rewrite interceptor_request. fold (first_send w c).
  rewrite Ha. cbn [web_record storage log location]. by rewrite Hr, Ht.
Qed.

(** After a refresh the retried request carries the new token. *)
Lemma bearer_after_refresh l s loc a r :
  first_send {| log := l; storage := setItem "access_token" a s; location := loc |}
    {| c_request := r; c_bearer := Some a |} = Send baseURL r (Some a).
Proof.
  unfold first_send, web_request_interceptor, getItem, setItem. cbn [storage c_request c_bearer].
  rewrite lookup_insert_eq. by destruct (truthy a).
Qed.

(** What the messages of a request are while it is refused: each 401 is
    followed by a refresh that succeeds and by the request with the new token.
    The tokens are those of the refreshes, in order. *)
Inductive renewals (refresh : jstr) (r : request) : list message → list jstr → list message → Prop :=
| renewals_done l : renewals refresh r l [] l
| renewals_more l d access fresh accesses l' :
    answers l = Answer 401 d → refreshes (Refresh baseURL refresh :: l) = Some (access, fresh) →
    renewals refresh r (Send baseURL r (Some access) :: Refresh baseURL refresh :: l) accesses l' →
    renewals refresh r l (access :: accesses) l'.
Definition store_access (accesses : list jstr) (s : localStorage.t) : localStorage.t :=
  fold_left (λ s a, setItem "access_token" a s) accesses s.

Lemma renewals_counts refresh r l accesses l' :
  renewals refresh r l accesses l' →
  sends l' = (sends l + length accesses)%nat ∧ refresh_calls l' = (refresh_calls l + length accesses)%nat.
Proof.
  induction 1 as [|l d a f accesses l' _ _ _ [IH1 IH2]]; [simpl; lia|]. rewrite IH1, IH2.
  rewrite !sends_cons, !refresh_calls_cons. simpl. lia.
Qed.

(** The request goes through its renewals. *)
Lemma renewals_run refresh r accesses fuel w c l' :
  c_request c = r → getItem "refresh_token" (storage w) = Some refresh → truthy refresh = true →
  renewals refresh r (first_send w c :: log w) accesses l' →
  ∃ w' c', web_api_request (length accesses + fuel) w c = web_api_request fuel w' c' ∧ c_request c' = r ∧
    first_send w' c' :: log w' = l' ∧ storage w' = store_access accesses (storage w) ∧ location w' = location w ∧
    getItem "refresh_token" (storage w') = Some refresh.
Proof.
  intros Hc Hr Ht Hren. remember (first_send w c :: log w) as l eqn:El. revert w c Hc Hr El.
  induction Hren as [l|l d a f accesses l' Ha Hf _ IH]; intros w c Hc Hr ->; [by exists w, c|].
  destruct (IH {| log := Refresh baseURL refresh :: first_send w c :: log w; storage := setItem "access_token" a (storage w);
                  location := location w |} {| c_request := r; c_bearer := Some a |})
    as (w' & c' & E & H1 & H2 & H3 & H4 & H5).
  - done.
  - unfold getItem, setItem in *. cbn [storage]. by rewrite lookup_insert_ne by discriminate.
  - by rewrite bearer_after_refresh.
  - exists w', c'. cbn [length Nat.add]. rewrite (step_401 _ w c d refresh Ha Hr Ht). cbn zeta. rewrite Hf, Hc, E. done.
Qed.

Lemma never_settles fuel r c w refresh :
  c_request c = r →
  getItem "refresh_token" (storage w) = Some refresh → truthy refresh = true →
  (∀ b l, ∃ d, answers (Send baseURL r b :: l) = Answer 401 d) →
  (∀ l, refreshes (Refresh baseURL refresh :: l) ≠ None) →
  web_api_request fuel w c = None.
Proof.
  intros Hc Hr Ht Ha Href. revert w c Hc Hr.
  induction fuel as [|fuel IH]; intros w c Hc Hr; [done|].
  destruct (Ha (c_bearer (web_request_interceptor w c)) (log w)) as [d Hd]. rewrite <-Hc in Hd.
  rewrite (step_401 fuel w c d refresh Hd Hr Ht). cbn zeta.
  specialize (Href (first_send w c :: log w)).
  destruct (refreshes _) as [[a f]|]; [|done].
  apply IH; [done|]. unfold getItem, setItem in *. cbn [storage].
  by rewrite lookup_insert_ne by discriminate.
Qed.

End facts.
End WebFacts.

Module MobileFacts.
Import MobileClient.
Section facts.
Context `{Server}.

Lemma retry_kept w c : c_retry (mobile_request_interceptor w c) = c_retry c.
Proof. unfold mobile_request_interceptor. repeat case_match; done. Qed.

(** A marked request is sent once. *)
Lemma retried_settles fuel w c :
  c_retry c = true →
  ∃ o m, mobile_api_request (S fuel) w c = Some (o, mobile_record m w) ∧ is_send m = true.
Proof.
  intros Hc. simpl.
  destruct (answers _) as [status data|]; [|by eexists _, (Send _ _ _)].
  rewrite retry_kept, Hc, andb_false_r.
  destruct (success status); by eexists _, (Send _ _ _).
Qed.

End facts.
End MobileFacts.

(** *** The mobile session *)

Module MobileSession.
Import MobileClient.

(** What the user and the app do with the session while no request fails; the
    server hands out non-empty access tokens. *)
Definition tokens_ok (ans : jstr → login_answer) : Prop :=
  ∀ url a r, ans url = Tokens a r → truthy a = true.

Inductive mobile_reachable : app → Prop :=
| reach_start s : mobile_reachable (app_start s)
| reach_checked a : mobile_reachable a → mobile_reachable (app_checked a)
| reach_login ans url user a :
    mobile_reachable a → tokens_ok ans → app_screen a = LoginScreen →
    mobile_reachable (handleLogin ans url user a)
| reach_logout a : mobile_reachable a → app_screen a = Navigator → mobile_reachable (settings_handleLogout a).

Lemma checkAuth_logout s : checkAuth (mobile_logout s) = false.
Proof.
  unfold checkAuth, getAccessToken, mobile_logout, clearTokens, getItem, removeItem.
  by rewrite lookup_delete_ne, lookup_delete_ne, lookup_delete_eq by discriminate.
Qed.

Lemma checkAuth_login ans url user s :
  checkAuth (s_storage (snd (mobile_login ans url user s))) =
  match ans (login_url url) with Tokens a _ => truthy a | _ => checkAuth (s_storage s) end.
Proof.
  unfold mobile_login, checkAuth, getAccessToken.
  destruct (ans (login_url url)); cbn [snd s_storage]; unfold saveTokens, saveServerUrl;
    by authStore.storage_lookups.
Qed.

Lemma reachable_gate a :
  mobile_reachable a → ∀ b, a_authenticated a = Some b → b = checkAuth (a_store a).
Proof.
  induction 1 as [s|a Ha IH|ans url user a Ha IH Hok Hs|a Ha IH Hs]; intros b.
  - done.
  - by intros [= <-].
  - pose proof (checkAuth_login ans url user
      {| s_storage := a_store a; s_loading := false; s_error := None |}) as E.
    unfold handleLogin. unfold mobile_login in *.
    destruct (ans (login_url url)) as [t r|d] eqn:Hans; cbn [snd s_storage] in E;
      cbn [handleLoginSuccess a_authenticated a_store s_storage]; rewrite E.
    + intros [= <-]. by rewrite (Hok _ _ _ Hans).
    + intros Hb. by rewrite <-(IH _ Hb).
  - intros [= <-]. symmetry. apply checkAuth_logout.
Qed.

End MobileSession.

(** ** Properties *)

Module ClientProps.

(** Concrete servers. *)
Definition stubborn : Server :=
  {| answers _ := Answer 401 JNull; refreshes _ := Some ([97], [114]) |}.
(** Answers 401 to every token but ["fresh"], which its refresh endpoint hands out. *)
Definition expired : Server :=
  {| answers l := match l with
                  | Send _ _ (Some t) :: _ => if t =s "fresh" then Answer 200 JNull else Answer 401 JNull
                  | _ => Answer 401 JNull
                  end;
     refreshes _ := Some ("fresh", "ref2") |}.
Definition signed_in : localStorage.t := {[ "access_token" := "old"; "refresh_token" := "ref" ]}.

Section props.
Context `{Server}.

(** The web client hands on any answer but a 401 after a single message,
    with the stored bearer token, and touches neither [localStorage] nor the
    location. *)
Theorem web_passes_other_answers fuel w r token :
  getItem "access_token" (WebClient.storage w) = Some token → truthy token = true →
  let m := Send "/api/v1" r (Some token) in
  is_401 (answers (m :: WebClient.log w)) = false →
  WebClient.web_call (S fuel) w r =
    Some (settle (answers (m :: WebClient.log w)), WebClient.web_record m w).
Proof.
  intros Ht Htt m Ha. unfold WebClient.web_call.
  assert (WebFacts.first_send w {| WebClient.c_request := r; WebClient.c_bearer := None |} = m) as E.
  { unfold WebFacts.first_send, WebClient.web_request_interceptor. by rewrite Ht, Htt. }
  rewrite WebFacts.settles_not_401; by rewrite E.
Qed.

(** C9: while its request is answered 401, the web client refreshes with the
    stored refresh token, stores the new access token and sends the request
    again with it, once per 401 and without a bound on their number: after [n]
    renewals there were [n] refreshes and [n + 1] sends.  The first answer that
    is not a 401 is the outcome; a refused refresh clears the storage, leads to
    the login page and rejects with the 401. *)
Theorem web_renews_until_answered fuel w r refresh accesses l' :
  let c := {| WebClient.c_request := r; WebClient.c_bearer := None |} in
  getItem "refresh_token" (WebClient.storage w) = Some refresh → truthy refresh = true →
  WebFacts.renewals refresh r (WebFacts.first_send w c :: WebClient.log w) accesses l' →
  sends l' = (sends (WebClient.log w) + 1 + length accesses)%nat ∧
  refresh_calls l' = (refresh_calls (WebClient.log w) + length accesses)%nat ∧
  (is_401 (answers l') = false →
   WebClient.web_call (length accesses + S fuel) w r =
     Some (settle (answers l'),
           {| WebClient.log := l'; WebClient.storage := WebFacts.store_access accesses (WebClient.storage w);
              WebClient.location := WebClient.location w |})) ∧
  (is_401 (answers l') = true → refreshes (Refresh "/api/v1" refresh :: l') = None →
   WebClient.web_call (length accesses + S fuel) w r =
     Some (Rejected (Some 401),
           {| WebClient.log := Refresh "/api/v1" refresh :: l'; WebClient.storage := localStorage.clear;
              WebClient.location := Some "/login" |})).
Proof.
  intros c Hr Ht Hren. destruct (WebFacts.renewals_counts _ _ _ _ _ Hren) as [Hs Hf].
  rewrite sends_cons, refresh_calls_cons in *. simpl in Hs, Hf. split; [lia|]. split; [lia|].
  destruct (WebFacts.renewals_run refresh r accesses (S fuel) w c l' eq_refl Hr Ht Hren)
    as (w' & c' & E & Hc & Hl & Hst & Hloc & Hr'). unfold WebClient.web_call. fold c. rewrite E. split.
  - intros Ha. rewrite WebFacts.settles_not_401 by (by rewrite Hl). unfold WebClient.web_record. by rewrite Hl, Hst, Hloc.
  - intros Ha Hn. destruct (answers l') as [status d|] eqn:El; [|done]. simpl in Ha. apply Z.eqb_eq in Ha as ->.
    rewrite (WebFacts.step_401 fuel w' c' d refresh) by (by rewrite ?Hl). cbn zeta. rewrite Hl.
    change WebClient.baseURL with ("/api/v1" : jstr). by rewrite Hn.
Qed.


(** The web client has no retry mark: if the server keeps answering a
    request with 401 while it keeps renewing the tokens (a deactivated
    permission, or a wrong password typed while a refresh token is stored), no
    number of sends settles the request. *)
Theorem web_client_never_settles fuel w r refresh :
  getItem "refresh_token" (WebClient.storage w) = Some refresh → truthy refresh = true →
  (∀ b l, ∃ d, answers (Send "/api/v1" r b :: l) = Answer 401 d) →
  (∀ l, refreshes (Refresh "/api/v1" refresh :: l) ≠ None) →
  WebClient.web_call fuel w r = None.
Proof. intros Hr Ht Ha Href. by eapply WebFacts.never_settles. Qed.

(** C10: the mobile client settles for every server with two sends and one
    refresh at most. *)
Theorem mobile_client_settles fuel w r :
  ∃ o w', MobileClient.mobile_call (S (S fuel)) w r = Some (o, w') ∧
    (sends (MobileClient.log w') ≤ sends (MobileClient.log w) + 2)%nat ∧
    (refresh_calls (MobileClient.log w') ≤ refresh_calls (MobileClient.log w) + 1)%nat.
Proof.
  unfold MobileClient.mobile_call.
  remember (S fuel) as f eqn:Hf. cbn [MobileClient.mobile_api_request].
  set (w1 := MobileClient.mobile_record _ w).
  assert (sends (MobileClient.log w1) = S (sends (MobileClient.log w))) as E1 by done.
  assert (refresh_calls (MobileClient.log w1) = refresh_calls (MobileClient.log w)) as E2 by done.
  destruct (answers (MobileClient.log w1)) as [status data|]; [|eexists _, _; split; [done|lia]].
  destruct (success status); [eexists _, _; split; [done|lia]|].
  rewrite MobileFacts.retry_kept. destruct ((status =? 401) && negb _); [|eexists _, _; split; [done|lia]].
  destruct (getItem _ (MobileClient.storage w1)) as [refresh|];
    [|eexists _, _; split; [done|cbn [MobileClient.log]; lia]].
  destruct (truthy refresh); [|eexists _, _; split; [done|cbn [MobileClient.log]; lia]].
  set (w2 := MobileClient.mobile_record _ w1).
  assert (sends (MobileClient.log w2) = sends (MobileClient.log w1)) as E3 by done.
  assert (refresh_calls (MobileClient.log w2) = S (refresh_calls (MobileClient.log w1))) as E4 by done.
  destruct (refreshes (MobileClient.log w2)) as [[access fresh]|];
    [|eexists _, _; split; [done|cbn [MobileClient.log]; lia]].
  subst f. edestruct (MobileFacts.retried_settles fuel) as (o & m & -> & Hm); [done|].
  eexists _, _. split; [done|]. cbn [MobileClient.mobile_record MobileClient.log].
  rewrite sends_cons, refresh_calls_cons, Hm. cbn [MobileClient.log]. lia.
Qed.

(** A refused refresh (or a missing refresh token) makes the mobile client
    drop its tokens and reject the 401; the root component is not told, so a
    signed-in app keeps showing the navigator although [checkAuth] is false. *)
Theorem mobile_refused_refresh_keeps_screen fuel a r d :
  let w := {| MobileClient.log := []; MobileClient.storage := MobileClient.a_store a |} in
  (∀ m, answers [m] = Answer 401 d) → (∀ l, refreshes l = None) →
  MobileClient.app_screen a = MobileClient.Navigator →
  ∃ w', MobileClient.mobile_call (S fuel) w r = Some (Rejected (Some 401), w') ∧
    let a' := {| MobileClient.a_store := MobileClient.storage w';
                 MobileClient.a_authenticated := MobileClient.a_authenticated a |} in
    MobileClient.checkAuth (MobileClient.a_store a') = false ∧
    MobileClient.app_screen a' = MobileClient.Navigator.
Proof.
  intros w Ha Hr Hs. unfold MobileClient.mobile_call. cbn [MobileClient.mobile_api_request].
  cbn [MobileClient.mobile_record MobileClient.log w]. rewrite Ha. cbn [success Z.leb Z.ltb].
  change (success 401) with false. cbn iota. rewrite MobileFacts.retry_kept. cbn [MobileClient.c_retry negb].
  change ((401 =? 401) && true) with true. cbn iota.
  assert (∀ s, MobileClient.checkAuth (MobileClient.clearTokens s) = false) as Hc.
  { intros s. unfold MobileClient.checkAuth, MobileClient.getAccessToken, MobileClient.clearTokens.
    by authStore.storage_lookups. }
  repeat case_match; try (rewrite Hr in *; done); eexists; (split; [done|]);
    cbn [MobileClient.a_store MobileClient.storage]; auto.
Qed.

End props.

(** As long as no request fails, the mobile app shows the login screen or
    the navigator exactly according to the stored access token, through any
    sequence of start-up checks, logins (refused ones too) and logouts. *)
Theorem mobile_gate_follows_tokens a :
  MobileSession.mobile_reachable a →
  match MobileClient.app_screen a with
  | MobileClient.Spinner => MobileClient.a_authenticated a = None
  | MobileClient.LoginScreen => MobileClient.checkAuth (MobileClient.a_store a) = false
  | MobileClient.Navigator => MobileClient.checkAuth (MobileClient.a_store a) = true
  end.
Proof.
  intros H. pose proof (MobileSession.reachable_gate a H) as G. unfold MobileClient.app_screen.
  destruct (MobileClient.a_authenticated a) as [[]|]; [| |done]; symmetry; by apply G.
Qed.

Lemma mobile_gate_follows_tokens_witness :
  MobileClient.checkAuth (MobileClient.a_store
    (MobileClient.handleLogin (λ _, MobileClient.Tokens "t" "r") "http://h:8000/" "ann"
      (MobileClient.app_checked (MobileClient.app_start ∅)))) = true.
Proof.
  apply (mobile_gate_follows_tokens
    (MobileClient.handleLogin (λ _, MobileClient.Tokens "t" "r") "http://h:8000/" "ann"
      (MobileClient.app_checked (MobileClient.app_start ∅)))).
  apply MobileSession.reach_login; [|intros url a r [= <- _]; reflexivity|vm_compute; reflexivity].
  apply MobileSession.reach_checked, MobileSession.reach_start.
Defined.

Lemma mobile_refused_refresh_keeps_screen_witness :
  let a := {| MobileClient.a_store := signed_in; MobileClient.a_authenticated := Some true |} in
  ∃ w', @MobileClient.mobile_call {| answers _ := Answer 401 JNull; refreshes _ := None |} 1
          {| MobileClient.log := []; MobileClient.storage := signed_in |} (get "/devices")
        = Some (Rejected (Some 401), w') ∧ MobileClient.checkAuth (MobileClient.storage w') = false.
Proof.
  intros a.
  destruct (@mobile_refused_refresh_keeps_screen
    {| answers _ := Answer 401 JNull; refreshes _ := None |} 0 a (get "/devices") JNull)
    as (w' & E & C & _); [reflexivity|reflexivity|reflexivity|].
  exists w'. split; [exact E|exact C].
Defined.

Definition web_start : WebClient.web_world :=
  {| WebClient.log := []; WebClient.storage := signed_in; WebClient.location := None |}.

Lemma web_passes_other_answers_witness :
  @WebClient.web_call {| answers _ := Answer 500 JNull; refreshes _ := None |} 1 web_start (get "/devices")
  = Some (Rejected (Some 500), WebClient.web_record (Send "/api/v1" (get "/devices") (Some "old")) web_start).
Proof.
  apply (@web_passes_other_answers {| answers _ := Answer 500 JNull; refreshes _ := None |}
           0 web_start (get "/devices") "old"); reflexivity.
Defined.

Lemma web_renews_until_answered_witness :
  ∃ w', @WebClient.web_call expired 2 web_start (get "/devices") = Some (Resolved JNull, w') ∧
        sends (WebClient.log w') = 2%nat.
Proof.
  destruct (@web_renews_until_answered expired 0 web_start (get "/devices") "ref" ["fresh"]
    [Send "/api/v1" (get "/devices") (Some "fresh"); Refresh "/api/v1" "ref"; Send "/api/v1" (get "/devices") (Some "old")])
    as (Hs & _ & Hrun & _); [reflexivity|reflexivity| |].
  - eapply WebFacts.renewals_more; [reflexivity|reflexivity|apply WebFacts.renewals_done].
  - eexists. split; [exact (Hrun eq_refl)|exact Hs].
Defined.


Lemma web_client_never_settles_witness :
  @WebClient.web_call stubborn 1000 web_start (authApi.auth_login "ann" "wrong") = None.
Proof.
  apply (@web_client_never_settles stubborn 1000 web_start (authApi.auth_login "ann" "wrong") "ref");
    [reflexivity|reflexivity|intros b l; exists JNull; reflexivity|intros l; discriminate].
Defined.

End ClientProps.
