(* ===== verification/Sse.v ===== *)
(** The two server-sent-event consumers: [hooks/useActivityStream.ts] (the
    dashboard's activity feed) and [hooks/useSSE.ts] (live alerts).

    Each hook is a state machine: the inputs are what the browser reports
    (a response, a piece of decoded text, the end of the stream, an error, a
    timer, the unmount), the outputs are the fetches, timers and
    notifications the hook asks for.  [JSON.parse] of a record, read as an
    event or an alert, is the parameter [decode]. *)
From S2P Require Import Prelude JsString JsNumber Types Stores.
Local Open Scope Z_scope.
Local Open Scope js_scope.

(** ** Records of a stream *)

Definition blank_line : jstr := [10; 10].
Definition newline : jstr := [10].

(** [buffer += text; chunks = buffer.split('\n\n'); buffer = chunks.pop()] *)
Definition feed (buffer text : jstr) : list jstr * jstr :=
  let chunks := split blank_line (buffer ++ text) in
  (removelast chunks, List.last chunks []).

(** The first [data: ] line of a record, without the prefix. *)
Definition dataLine (chunk : jstr) : option jstr :=
  find (λ line, startsWith line "data: ") (split newline chunk).
Definition payload_text (chunk : jstr) : option jstr := slice_from 6 <$> dataLine chunk.

(** The records of a text that are complete, and the incomplete rest. *)
Definition records (text : jstr) : list jstr := removelast (split blank_line text).
Definition rest (text : jstr) : jstr := List.last (split blank_line text) [].

Lemma removelast_app_nonnil {A} (l1 l2 : list A) :
  l2 ≠ [] → removelast (l1 ++ l2) = l1 ++ removelast l2.
Proof. apply removelast_app. Qed.

Lemma last_app_nonnil {A} (l1 l2 : list A) d : l2 ≠ [] → List.last (l1 ++ l2) d = List.last l2 d.
Proof.
  intros H. induction l1 as [|x l1 IH]; [done|]. rewrite <-IH. simpl.
  destruct (l1 ++ l2) eqn:E; [|done]. apply app_eq_nil in E as [_ E]. done.
Qed.

(** Feeding a text piece by piece finds the records of the whole text. *)
Lemma feed_records text c :
  feed (rest text) c = (drop (length (records text)) (records (text ++ c)), rest (text ++ c))
  ∧ records (text ++ c) = records text ++ fst (feed (rest text) c).
Proof.
  unfold feed, records, rest. rewrite (split_app blank_line text c).
  set (l2 := split blank_line (List.last (split blank_line text) [] ++ c)).
  assert (l2 ≠ []) as Hnn by apply split_at_nonnil.
  rewrite (removelast_app_nonnil _ l2), (last_app_nonnil _ l2) by exact Hnn. by rewrite drop_app_length.
Qed.

Lemma records_prefix t cs :
  ∃ k, records (t ++ @List.concat Z cs) = records t ++ k.
Proof.
  induction cs as [|d ds [k Hk]] using rev_ind.
  - exists []. simpl. by rewrite !app_nil_r.
  - rewrite concat_app. simpl. rewrite app_nil_r, app_assoc.
    destruct (feed_records (t ++ @List.concat Z ds) d) as [_ ->]. rewrite Hk, <-app_assoc. by eexists.
Qed.

(** The records found by a later piece follow those found by an earlier one. *)
Lemma records_cut text c cs :
  drop (length (records text)) (records (text ++ c))
  ++ drop (length (records (text ++ c))) (records ((text ++ c) ++ @List.concat Z cs))
  = drop (length (records text)) (records ((text ++ c) ++ @List.concat Z cs)).
Proof.
  destruct (records_prefix (text ++ c) cs) as [k ->]. destruct (feed_records text c) as [_ ->].
  rewrite <-!app_assoc, !drop_app_length, app_assoc, drop_app_length. done.
Qed.

(** ** The activity feed *)

(** [l.slice(-n)] *)
Definition slice_last {A} (n : nat) (l : list A) : list A := drop (length l - n) l.

Module Activity.
Section activity.
Context {E : Type} (decode : jstr → option E).

Inductive activity_phase :=
| Connecting
| Reading (buffer : jstr)
| Waiting (abort_error : bool)
| Stopped.

Record activity_state := { events : list E; st_phase : activity_phase; cancelled : bool }.

Inductive activity_input :=
| Fetched (ok has_body : bool)
| Failed (abort_error : bool)
| Read (text : jstr)
| Done
| Timer
| Unmount.

Inductive activity_effect := Fetch | SetTimeout (ms : Z).

(** [setEvents((current) => [...current, payload].slice(-20))] *)
Definition push_event (l : list E) (e : E) : list E := slice_last 20 (l ++ [e]).

(** One record: records without data and malformed ones are skipped. *)
Definition record_event (chunk : jstr) : option E := payload_text chunk ≫= decode.
Definition on_record (l : list E) (chunk : jstr) : list E :=
  match record_event chunk with Some e => push_event l e | None => l end.

(** The start of an iteration of the outer loop. *)
Definition activity_loop (s : activity_state) : activity_state * list activity_effect :=
  if cancelled s then ({| events := events s; st_phase := Stopped; cancelled := true |}, [])
  else ({| events := events s; st_phase := Connecting; cancelled := false |}, [Fetch]).

(** The [catch] block. *)
Definition activity_caught (abort_error : bool) (s : activity_state) : activity_state * list activity_effect :=
  if cancelled s then ({| events := events s; st_phase := Stopped; cancelled := true |}, [])
  else ({| events := events s; st_phase := Waiting abort_error; cancelled := false |}, [SetTimeout 3000]).

(** The start of an iteration of the inner loop. *)
Definition activity_read_loop (buffer : jstr) (s : activity_state) : activity_state * list activity_effect :=
  if cancelled s then activity_loop s
  else ({| events := events s; st_phase := Reading buffer; cancelled := false |}, []).

Definition activity_step (s : activity_state) (i : activity_input) : activity_state * list activity_effect :=
  match i, st_phase s with
  | Unmount, _ => ({| events := events s; st_phase := st_phase s; cancelled := true |}, [])
  | Fetched ok body, Connecting =>
      if negb ok || negb body then activity_caught false s else activity_read_loop [] s
  | Failed abort, Connecting | Failed abort, Reading _ => activity_caught abort s
  | Read text, Reading buffer =>
      let '(chunks, buffer) := feed buffer text in
      activity_read_loop buffer {| events := fold_left on_record chunks (events s);
                          st_phase := st_phase s; cancelled := cancelled s |}
  | Done, Reading _ => activity_loop s
  | Timer, Waiting abort =>
      if abort then ({| events := events s; st_phase := Stopped; cancelled := cancelled s |}, [])
      else activity_loop s
  | _, _ => (s, [])
  end.

(** The effect of mounting: nothing without a token or when not enabled. *)
Definition activity_start (enabled : bool) (token : option jstr) : activity_state * list activity_effect :=
  if enabled && otruthy token then activity_loop {| events := []; st_phase := Stopped; cancelled := false |}
  else ({| events := []; st_phase := Stopped; cancelled := false |}, []).

Fixpoint activity_run (s : activity_state) (l : list activity_input) : activity_state * list activity_effect :=
  match l with
  | [] => (s, [])
  | i :: l => let '(s1, e1) := activity_step s i in let '(s2, e2) := activity_run s1 l in (s2, e1 ++ e2)
  end.

(** *** Lemmas *)

Lemma slice_last_app n (l1 l2 : list E) : slice_last n (slice_last n l1 ++ l2) = slice_last n (l1 ++ l2).
Proof.
  unfold slice_last. rewrite !length_app, length_drop.
  destruct (decide (length l1 ≤ n)%nat).
  - replace (length l1 - n)%nat with 0%nat by lia. by rewrite drop_0, Nat.sub_0_r.
  - rewrite <-(drop_app_le l1 l2 (length l1 - n)) by lia. rewrite drop_drop. f_equal. lia.
Qed.

Lemma slice_last_length n (l : list E) : (length (slice_last n l) ≤ n)%nat.
Proof. unfold slice_last. rewrite length_drop. lia. Qed.

Lemma slice_last_short n (l : list E) : (length l ≤ n)%nat → slice_last n l = l.
Proof. intros H. unfold slice_last. by replace (length l - n)%nat with 0%nat by lia. Qed.

Lemma fold_records chunks l :
  (length l ≤ 20)%nat →
  fold_left on_record chunks l = slice_last 20 (l ++ omap record_event chunks).
Proof.
  revert l. induction chunks as [|c cs IH]; intros l Hl; simpl.
  - by rewrite app_nil_r, slice_last_short.
  - unfold on_record at 2. destruct (record_event c) as [e|] eqn:Ec; [|by apply IH].
    rewrite IH by apply slice_last_length. unfold push_event. rewrite slice_last_app, <-app_assoc. done.
Qed.

Lemma step_length s i :
  (length (events s) ≤ 20)%nat → (length (events (fst (activity_step s i))) ≤ 20)%nat.
Proof.
  intros H. unfold activity_step, activity_read_loop, activity_caught, activity_loop.
  destruct i, (st_phase s); simpl; repeat (case_match; simpl); try done;
    rewrite fold_records by done; apply slice_last_length.
Qed.

Lemma activity_step_read s text c :
  cancelled s = false → st_phase s = Reading (rest text) →
  activity_step s (Read c) =
  ({| events := fold_left on_record (drop (length (records text)) (records (text ++ c))) (events s);
      st_phase := Reading (rest (text ++ c)); cancelled := false |}, []).
Proof.
  intros Hc Hp. unfold activity_step. rewrite Hp. destruct (feed_records text c) as [-> _].
  unfold activity_read_loop. cbn [cancelled events]. by rewrite Hc.
Qed.

(** Reading a text in pieces. *)
Lemma activity_run_reads cs s text :
  cancelled s = false → st_phase s = Reading (rest text) → (length (events s) ≤ 20)%nat →
  activity_run s (map Read cs) =
  ({| events := slice_last 20 (events s ++ omap record_event
                  (drop (length (records text)) (records (text ++ @List.concat Z cs))));
      st_phase := Reading (rest (text ++ @List.concat Z cs)); cancelled := false |}, []).
Proof.
  revert s text. induction cs as [|c cs IH]; intros s text Hc Hp Hl.
  - cbn [map activity_run List.concat]. rewrite app_nil_r, drop_all. cbn [omap list_omap].
    rewrite app_nil_r, slice_last_short by done. destruct s; simpl in *; by subst.
  - cbn [map activity_run]. rewrite (activity_step_read s text c Hc Hp).
    rewrite (IH _ (text ++ c)); [|done|done|cbn [events]; rewrite fold_records by done; apply slice_last_length].
    cbn [events List.concat]. rewrite fold_records by done.
    rewrite slice_last_app, <-!app_assoc, <-omap_app, !(app_assoc text c).
    do 5 f_equal. apply records_cut.
Qed.

End activity.
End Activity.

(** ** Live alerts *)

Module LiveAlerts.
Import alertStore.

(** [Notification.permission]; the API itself may be missing. *)
Inductive permission := Granted | Default | Denied.

Inductive sse_phase := Connecting | Reading (buffer : jstr) | Waiting (ms : Z) | Stopped.

(** [unresolved] in the store, [prevAlertsRef], and the variables of the effect. *)
Record sse_state := {
  store : AlertState; prevAlerts : list Alert; backoffMs : Z;
  mounted : bool; aborted : bool; st_phase : sse_phase }.

Inductive sse_input :=
| Response (status : Z) (has_body : bool)
| Failed
| Read (text : jstr)
| Done
| Timer
| Rerender
| Unmount.

Inductive sse_effect :=
| Fetch
| SetTimeout (ms : Z)
| Notify (title body : jstr)
| RequestPermission.

Definition set_phase (p : sse_phase) (s : sse_state) : sse_state :=
  {| store := store s; prevAlerts := prevAlerts s; backoffMs := backoffMs s;
     mounted := mounted s; aborted := aborted s; st_phase := p |}.
Definition set_backoff (ms : Z) (s : sse_state) : sse_state :=
  {| store := store s; prevAlerts := prevAlerts s; backoffMs := ms;
     mounted := mounted s; aborted := aborted s; st_phase := st_phase s |}.

(** [`${alert.severity.toUpperCase()}: ${alert.alert_type.replace(/_/g, ' ')}`] *)
Definition title (a : Alert) : jstr :=
  toUpperCase (severity_string (a_severity a)) ++ ": " ++ replace_all 95 " " (a_alert_type a).

Definition notify (p : option permission) (a : Alert) : list sse_effect :=
  match p with
  | None => []
  | Some Granted => [Notify (title a) (a_message a)]
  | Some Default => [RequestPermission]
  | Some Denied => []
  end.

(** [next.some((item, index) => item.id !== current[index]?.id)] *)
Definition differs (next current : list Alert) : bool :=
  existsb (λ '(i, x), match current !! i with Some y => negb (a_id x =s a_id y) | None => true end)
    (imap pair next).

(** A decoded alert is put in front of the known ones unless it is known. *)
Definition on_alert (a : Alert) (s : sse_state) : sse_state :=
  let current := prevAlerts s in
  if existsb (λ existing, a_id existing =s a_id a) current then s
  else
    let next := a :: current in
    if negb (Nat.eqb (length next) (length current)) || differs next current then
      {| store := setUnresolved next (store s); prevAlerts := next; backoffMs := backoffMs s;
         mounted := mounted s; aborted := aborted s; st_phase := st_phase s |}
    else s.

Section sse.
Context (decode : jstr → option Alert) (permitted : option permission).

(** The loop over the records of a piece; [false] when [JSON.parse] throws,
    which abandons the records after it. *)
Fixpoint on_records (chunks : list jstr) (s : sse_state) : bool * sse_state * list sse_effect :=
  match chunks with
  | [] => (true, s, [])
  | c :: cs =>
      match payload_text c with
      | None => on_records cs s
      | Some text =>
          match decode text with
          | None => (false, s, [])
          | Some a =>
              let '(ok, s', es) := on_records cs (on_alert a s) in (ok, s', notify permitted a ++ es)
          end
      end
  end.

Definition scheduleReconnect (ms : Z) (s : sse_state) : sse_state * list sse_effect :=
  if negb (mounted s) || aborted s then (set_phase Stopped s, [])
  else (set_phase (Waiting ms) s, [SetTimeout ms]).

(** [scheduleReconnect(backoffMs); backoffMs = Math.min(backoffMs * 2, 60_000)] *)
Definition reconnect_later (s : sse_state) : sse_state * list sse_effect :=
  let '(s', es) := scheduleReconnect (backoffMs s) s in
  (set_backoff (Z.min (backoffMs s * 2) 60000) s', es).

Definition connect (s : sse_state) : sse_state * list sse_effect :=
  if negb (mounted s) || aborted s then (set_phase Stopped s, []) else (set_phase Connecting s, [Fetch]).

(** The [catch] block and what follows it. *)
Definition sse_caught (s : sse_state) : sse_state * list sse_effect :=
  if negb (mounted s) || aborted s then (set_phase Stopped s, []) else reconnect_later s.

(** The head of the read loop. *)
Definition sse_read_loop (buffer : jstr) (s : sse_state) : sse_state * list sse_effect :=
  if mounted s then (set_phase (Reading buffer) s, []) else reconnect_later s.

Definition sse_step (s : sse_state) (i : sse_input) : sse_state * list sse_effect :=
  match i, st_phase s with
  | Unmount, _ =>
      ({| store := store s; prevAlerts := prevAlerts s; backoffMs := backoffMs s;
          mounted := false; aborted := true; st_phase := st_phase s |}, [])
  | Rerender, _ =>
      ({| store := store s; prevAlerts := unresolved (store s); backoffMs := backoffMs s;
          mounted := mounted s; aborted := aborted s; st_phase := st_phase s |}, [])
  | Response status body, Connecting =>
      if status =? 429 then scheduleReconnect 60000 s
      else if negb body then reconnect_later s
      else sse_read_loop [] (set_backoff 5000 s)
  | Failed, Connecting | Failed, Reading _ => sse_caught s
  | Read text, Reading buffer =>
      let '(chunks, buffer) := feed buffer text in
      let '(ok, s, es) := on_records chunks s in
      let '(s, es') := if ok then sse_read_loop buffer s else sse_caught s in
      (s, es ++ es')
  | Done, Reading _ => reconnect_later s
  | Timer, Waiting _ => if mounted s then connect s else (set_phase Stopped s, [])
  | _, _ => (s, [])
  end.

(** The first connection of an effect that becomes the active one. *)
Definition sse_start (st : AlertState) : sse_state * list sse_effect :=
  connect {| store := st; prevAlerts := unresolved st; backoffMs := 5000; mounted := true;
             aborted := false; st_phase := Stopped |}.

Fixpoint sse_run (s : sse_state) (l : list sse_input) : sse_state * list sse_effect :=
  match l with
  | [] => (s, [])
  | i :: l => let '(s1, e1) := sse_step s i in let '(s2, e2) := sse_run s1 l in (s2, e1 ++ e2)
  end.

(** *** What a batch of alerts does to the list *)

Definition add_new (l : list Alert) (a : Alert) : list Alert :=
  if existsb (λ e, a_id e =s a_id a) l then l else a :: l.

Definition in_sync (s : sse_state) : Prop := unresolved (store s) = prevAlerts s.

Lemma on_alert_sync a s :
  in_sync s →
  on_alert a s = {| store := {| unresolved := add_new (prevAlerts s) a |};
                    prevAlerts := add_new (prevAlerts s) a; backoffMs := backoffMs s;
                    mounted := mounted s; aborted := aborted s; st_phase := st_phase s |}.
Proof.
  unfold in_sync, on_alert, add_new. intros H.
  destruct (existsb _ _); [destruct s as [[u] ? ? ? ? ?]; simpl in *; by subst|].
  assert (Nat.eqb (length (a :: prevAlerts s)) (length (prevAlerts s)) = false) as E
    by (apply Nat.eqb_neq; simpl; lia).
  rewrite E. cbn [negb orb]. unfold setUnresolved. rewrite H, Nat.eqb_sym, E. done.
Qed.

(** The alerts of records that all decode. *)
Fixpoint alerts_of (chunks : list jstr) : option (list Alert) :=
  match chunks with
  | [] => Some []
  | c :: cs =>
      match payload_text c with
      | None => alerts_of cs
      | Some t => a ← decode t; l ← alerts_of cs; Some (a :: l)
      end
  end.

Definition with_alerts (l : list Alert) (s : sse_state) : sse_state :=
  {| store := {| unresolved := l |}; prevAlerts := l; backoffMs := backoffMs s;
     mounted := mounted s; aborted := aborted s; st_phase := st_phase s |}.

Lemma on_records_ok chunks l s :
  alerts_of chunks = Some l → in_sync s →
  on_records chunks s =
    (true, with_alerts (fold_left add_new l (prevAlerts s)) s, flat_map (notify permitted) l).
Proof.
  revert l s. induction chunks as [|c cs IH]; intros l s; simpl.
  - intros [= <-] H. unfold with_alerts. simpl. destruct s as [[u] ? ? ? ? ?].
    unfold in_sync in H. simpl in *. by subst.
  - destruct (payload_text c) as [t|]; [|apply IH].
    destruct (decode t) as [a|]; [|done]. simpl.
    destruct (alerts_of cs) as [k|] eqn:Ek; [|done]. intros [= <-] H.
    rewrite on_alert_sync by done. by rewrite (IH k).
Qed.

Lemma alerts_of_app l1 l2 k :
  alerts_of (l1 ++ l2) = Some k →
  ∃ k1 k2, alerts_of l1 = Some k1 ∧ alerts_of l2 = Some k2 ∧ k = k1 ++ k2.
Proof.
  revert k. induction l1 as [|c l1 IH]; intros k; simpl; [by exists [], k|].
  destruct (payload_text c) as [t|]; [|apply IH].
  destruct (decode t) as [a|]; [|done]. simpl.
  destruct (alerts_of (l1 ++ l2)) as [k'|]; [|done]. intros [= <-].
  destruct (IH _ eq_refl) as (k1 & k2 & -> & -> & ->). by exists (a :: k1), k2.
Qed.

Lemma sse_step_read s text c l :
  mounted s = true → in_sync s → st_phase s = Reading (rest text) →
  alerts_of (drop (length (records text)) (records (text ++ c))) = Some l →
  sse_step s (Read c) =
    (set_phase (Reading (rest (text ++ c))) (with_alerts (fold_left add_new l (prevAlerts s)) s),
     flat_map (notify permitted) l).
Proof.
  intros Hm Hs Hp Hl. unfold sse_step. rewrite Hp. destruct (feed_records text c) as [-> _].
  rewrite (on_records_ok _ l s Hl Hs). unfold sse_read_loop. cbn [with_alerts mounted]. rewrite Hm.
  by rewrite app_nil_r.
Qed.

Lemma sse_run_reads cs s text l :
  mounted s = true → in_sync s → st_phase s = Reading (rest text) →
  alerts_of (drop (length (records text)) (records (text ++ @List.concat Z cs))) = Some l →
  sse_run s (map Read cs) =
    (set_phase (Reading (rest (text ++ @List.concat Z cs)))
       (with_alerts (fold_left add_new l (prevAlerts s)) s),
     flat_map (notify permitted) l).
Proof.
  revert s text l. induction cs as [|c cs IH]; intros s text l Hm Hs Hp.
  - cbn [List.concat map sse_run]. rewrite app_nil_r, drop_all. intros [= <-].
    destruct s as [[u] ? ? ? ? ?]. unfold in_sync in Hs. simpl in *. by subst.
  - cbn [List.concat map sse_run]. rewrite app_assoc, <-records_cut. intros Hl.
    destruct (alerts_of_app _ _ _ Hl) as (k1 & k2 & H1 & H2 & ->).
    rewrite (sse_step_read s text c k1 Hm Hs Hp H1).
    rewrite (IH _ (text ++ c) k2); try done.
    cbn [set_phase with_alerts prevAlerts]. by rewrite fold_left_app, flat_map_app.
Qed.

Lemma add_new_NoDup l a : NoDup (map a_id l) → NoDup (map a_id (add_new l a)).
Proof.
  unfold add_new. intros H. destruct (existsb _ _) eqn:E; [done|]. simpl. constructor; [|done].
  rewrite list_elem_of_In. intros (b & Hb & Hin)%in_map_iff.
  apply not_true_iff_false in E. apply E, existsb_exists. exists b. split; [done|].
  by apply seqb_true.
Qed.

Lemma add_all_NoDup k l : NoDup (map a_id l) → NoDup (map a_id (fold_left add_new k l)).
Proof. revert l. induction k as [|a k IH]; intros l H; [done|]. by apply IH, add_new_NoDup. Qed.

(** *** Reconnection *)

Definition delay (n : nat) : Z := Z.min (5000 * 2 ^ Z.of_nat n) 60000.

Lemma delay_S n : Z.min (delay n * 2) 60000 = delay (S n).
Proof.
  unfold delay. rewrite Nat2Z.inj_succ, Z.pow_succ_r by lia.
  pose proof (Z.pow_pos_nonneg 2 (Z.of_nat n)). lia.
Qed.

Definition live (s : sse_state) : Prop := mounted s = true ∧ aborted s = false.

(** [n] refused connections in a row, each followed by its timer. *)
Fixpoint refusals (n : nat) : list sse_input :=
  match n with O => [] | S n => Failed :: Timer :: refusals n end.
Fixpoint retries (k n : nat) : list sse_effect :=
  match n with O => [] | S n => SetTimeout (delay k) :: Fetch :: retries (S k) n end.

Lemma run_refusals n k s :
  live s → st_phase s = Connecting → backoffMs s = delay k →
  ∃ s', sse_run s (refusals n) = (s', retries k n) ∧ live s' ∧
        st_phase s' = Connecting ∧ backoffMs s' = delay (k + n) ∧ store s' = store s.
Proof.
  revert k s. induction n as [|n IH]; intros k s [Hm Ha] Hp Hb.
  { exists s. rewrite Nat.add_0_r. done. }
  cbn [refusals sse_run]. unfold sse_step at 1. rewrite Hp. unfold sse_caught, reconnect_later, scheduleReconnect.
  rewrite Hm, Ha. cbn [negb orb]. unfold sse_step at 1. cbn [st_phase set_phase set_backoff mounted].
  rewrite Hm. unfold connect. cbn [mounted aborted set_backoff set_phase]. rewrite Hm, Ha. cbn [negb orb].
  edestruct (IH (S k)) as (s' & -> & Hl & Hp' & Hb' & Hs');
    [|done|cbn; by rewrite Hb, delay_S|]; [split; cbn; by rewrite ?Hm, ?Ha|].
  exists s'. rewrite Hb, Nat.add_succ_r. done.
Qed.

Definition quiet (e : sse_effect) : bool :=
  match e with Fetch | SetTimeout _ => false | _ => true end.

Lemma notify_quiet p a : forallb quiet (notify p a) = true.
Proof. by destruct p as [[]|]. Qed.

Lemma on_alert_flags a s : mounted (on_alert a s) = mounted s ∧ aborted (on_alert a s) = aborted s.
Proof. unfold on_alert. repeat case_match; done. Qed.

Lemma on_records_quiet chunks s :
  let '(_, s', es) := on_records chunks s in
  forallb quiet es = true ∧ mounted s' = mounted s ∧ aborted s' = aborted s.
Proof.
  revert s. induction chunks as [|c cs IH]; intros s; simpl; [done|].
  destruct (payload_text c) as [t|]; [|apply IH].
  destruct (decode t) as [a|]; [|done].
  specialize (IH (on_alert a s)). destruct (on_records cs (on_alert a s)) as [[ok s'] es].
  destruct (on_alert_flags a s) as [E1 E2]. rewrite E1, E2 in IH.
  rewrite forallb_app, notify_quiet. done.
Qed.

Lemma step_unmounted s i :
  mounted s = false → aborted s = true →
  let '(s', es) := sse_step s i in
  forallb quiet es = true ∧ mounted s' = false ∧ aborted s' = true.
Proof.
  intros Hm Ha.
  destruct i as [status body| |text| | | |]; unfold sse_step; destruct (st_phase s) as [|buffer|ms|]; try done;
    unfold sse_read_loop, sse_caught, reconnect_later, scheduleReconnect; cbn [set_backoff mounted aborted].
  - rewrite Hm, Ha. cbn. by destruct (status =? 429), body.
  - by rewrite Hm.
  - by rewrite Hm.
  - destruct (feed buffer text) as [chunks b']. pose proof (on_records_quiet chunks s) as Q.
    destruct (on_records chunks s) as [[ok s'] es]. destruct Q as (Q & Q1 & Q2).
    rewrite Q1, Q2, Hm, Ha. destruct ok; cbn; rewrite app_nil_r; split_and!; congruence.
  - by rewrite Hm.
  - by rewrite Hm.
Qed.

Lemma run_unmounted l s :
  mounted s = false → aborted s = true → forallb quiet (snd (sse_run s l)) = true.
Proof.
  revert s. induction l as [|i l IH]; intros s Hm Ha; [done|]. cbn [sse_run].
  pose proof (step_unmounted s i Hm Ha) as Q. destruct (sse_step s i) as [s1 e1].
  destruct Q as (Q & Q1 & Q2). specialize (IH s1 Q1 Q2). destruct (sse_run s1 l) as [s2 e2].
  cbn [snd] in *. by rewrite forallb_app, Q, IH.
Qed.

End sse.
End LiveAlerts.

(** ** The module-level singleton of [useSSE] *)

Module Singleton.

(** [sseActive], [sseAbortController] (by the number of the controller) and
    the controllers whose connection has not been aborted. *)
Record singleton_state := { sseActive : bool; sseAbortController : option nat; connections : list nat }.
Definition singleton_initial : singleton_state := {| sseActive := false; sseAbortController := None; connections := [] |}.

(** Running the effect of a hook instance: with a fresh controller [n] it opens
    a connection, unless it is disabled, there is no token or one is active. *)
Definition sse_mount (enabled : bool) (token : option jstr) (n : nat) (s : singleton_state) : singleton_state :=
  if negb enabled || negb (otruthy token) || sseActive s then s
  else {| sseActive := true; sseAbortController := Some n; connections := n :: connections s |}.

(** The cleanup of the instance that owns controller [n]. *)
Definition sse_unmount (n : nat) (s : singleton_state) : singleton_state :=
  let conns := bfilter (λ m, negb (Nat.eqb m n)) (connections s) in
  if bool_decide (sseAbortController s = Some n)
  then {| sseActive := false; sseAbortController := None; connections := conns |}
  else {| sseActive := sseActive s; sseAbortController := sseAbortController s; connections := conns |}.

Inductive singleton_reachable : singleton_state → Prop :=
| reach_initial : singleton_reachable singleton_initial
| reach_mount enabled token n s : singleton_reachable s → singleton_reachable (sse_mount enabled token n s)
| reach_unmount n s : singleton_reachable s → In n (connections s) → singleton_reachable (sse_unmount n s).

(** The flag tells whether there is a connection, which is the owner's. *)
Definition well_formed (s : singleton_state) : Prop :=
  match sseAbortController s with
  | Some n => sseActive s = true ∧ connections s = [n]
  | None => sseActive s = false ∧ connections s = []
  end.

Lemma reachable_well_formed s : singleton_reachable s → well_formed s.
Proof.
  induction 1 as [|enabled token n s _ IH|n s _ IH Hin]; [done| |].
  - unfold sse_mount. destruct (negb enabled || negb (otruthy token)); [done|]. cbn [orb].
    unfold well_formed in *. destruct (sseAbortController s) eqn:Em; destruct IH as [E C]; rewrite E.
    + by rewrite Em.
    + cbn. by rewrite C.
  - unfold well_formed, sse_unmount in *. destruct (sseAbortController s) as [m|] eqn:Em.
    + destruct IH as [E C]. rewrite C in Hin |- *. destruct Hin as [->|[]].
      rewrite bool_decide_true by done. cbn. by rewrite Nat.eqb_refl.
    + destruct IH as [_ C]. by rewrite C in Hin.
Qed.

End Singleton.

(** ** Properties *)

Module SseProps.

(** However the network cuts the activity stream into pieces, after a
    connection opens the feed holds the last 20 well-formed events of all the
    records received so far, in order, and the incomplete rest is kept;
    malformed records and records without data change nothing. *)
Theorem activity_feed_ignores_chunking {E} (decode : jstr → option E) old cs :
  (length old ≤ 20)%nat →
  let text := @List.concat Z cs in
  Activity.activity_run decode
    {| Activity.events := old; Activity.st_phase := Activity.Connecting; Activity.cancelled := false |}
    (Activity.Fetched true true :: map Activity.Read cs) =
  ({| Activity.events := slice_last 20 (old ++ omap (λ c, payload_text c ≫= decode) (records text));
      Activity.st_phase := Activity.Reading (rest text); Activity.cancelled := false |}, []).
Proof.
  intros Hl text. cbn [Activity.activity_run].
  change (Activity.activity_step decode _ (Activity.Fetched true true)) with
    ({| Activity.events := old; Activity.st_phase := Activity.Reading []; Activity.cancelled := false |},
     @nil Activity.activity_effect).
  cbn iota beta. rewrite (Activity.activity_run_reads decode cs _ []) by done. done.
Qed.

Lemma activity_feed_ignores_chunking_witness :
  Activity.events (fst (Activity.activity_run Some
    {| Activity.events := []; Activity.st_phase := Activity.Connecting; Activity.cancelled := false |}
    (Activity.Fetched true true :: map Activity.Read
       ["id: 1" ++ newline ++ "da"; "ta: a" ++ newline; newline ++ ": ping" ++ blank_line ++ "data: b"; blank_line])))
  = ["a"; "b"].
Proof.
  rewrite (activity_feed_ignores_chunking Some []); [vm_compute; reflexivity|simpl; lia].
Defined.

(** C11: however the alert stream is cut into pieces, reading records that all
    parse leaves in the store the known alerts with each new one put in front
    once, without duplicates, and asks for one notification per record in
    order. *)
Theorem live_alerts_ignore_chunking decode permitted s cs l :
  LiveAlerts.mounted s = true → LiveAlerts.in_sync s →
  LiveAlerts.st_phase s = LiveAlerts.Reading [] →
  NoDup (map a_id (LiveAlerts.prevAlerts s)) →
  LiveAlerts.alerts_of decode (records (@List.concat Z cs)) = Some l →
  ∃ s', LiveAlerts.sse_run decode permitted s (map LiveAlerts.Read cs)
        = (s', flat_map (LiveAlerts.notify permitted) l) ∧
    alertStore.unresolved (LiveAlerts.store s')
      = fold_left LiveAlerts.add_new l (LiveAlerts.prevAlerts s) ∧
    NoDup (alertStore.ids (LiveAlerts.store s')).
Proof.
  intros Hm Hs Hp Hn Hl.
  rewrite (LiveAlerts.sse_run_reads decode permitted cs s [] l) by done.
  eexists. split; [done|]. split; [done|]. cbn. by apply LiveAlerts.add_all_NoDup.
Qed.

Definition one_alert (text : jstr) : option Alert :=
  if truthy text then Some (StoresProps.sample_alert text) else None.

Lemma live_alerts_ignore_chunking_witness :
  let s := fst (LiveAlerts.sse_step one_alert None (fst (LiveAlerts.sse_start alertStore.alert_initial))
                  (LiveAlerts.Response 200 true)) in
  alertStore.ids (LiveAlerts.store (fst (LiveAlerts.sse_run one_alert None s
    (map LiveAlerts.Read ["data: x" ++ newline; newline ++ "data: y" ++ blank_line ++ "data: x" ++ blank_line]))))
  = ["y"; "x"].
Proof.
  intros s.
  destruct (live_alerts_ignore_chunking one_alert None s
     ["data: x" ++ newline; newline ++ "data: y" ++ blank_line ++ "data: x" ++ blank_line]
     (map StoresProps.sample_alert ["x"; "y"; "x"])) as (s' & E & U & _);
    [reflexivity|reflexivity|reflexivity|constructor|vm_compute; reflexivity|].
  rewrite E. unfold alertStore.ids. cbn [fst]. rewrite U. vm_compute. reflexivity.
Defined.

(** When connections keep failing, the [n]-th reconnection of the alert
    stream is asked for after [min (5000 * 2^n, 60000)] milliseconds, one fetch
    per timer, and the alerts are left alone. *)
Theorem sse_backoff_doubles_to_a_minute decode permitted st n :
  ∃ s', LiveAlerts.sse_run decode permitted (fst (LiveAlerts.sse_start st)) (LiveAlerts.refusals n)
        = (s', LiveAlerts.retries 0 n) ∧ LiveAlerts.store s' = st ∧
        LiveAlerts.backoffMs s' = Z.min (5000 * 2 ^ Z.of_nat n) 60000.
Proof.
  destruct (LiveAlerts.run_refusals decode permitted n 0 (fst (LiveAlerts.sse_start st)))
    as (s' & E & _ & _ & Hb & Hs); [done|done|done|].
  by exists s'.
Qed.

(** Once the component is unmounted the alert stream never fetches again
    and never arms a timer, whatever still arrives. *)
Theorem sse_unmount_is_final decode permitted s l :
  forallb LiveAlerts.quiet
    (snd (LiveAlerts.sse_run decode permitted s (LiveAlerts.Unmount :: l))) = true.
Proof.
  cbn [LiveAlerts.sse_run LiveAlerts.sse_step].
  pose proof (LiveAlerts.run_unmounted decode permitted l
    {| LiveAlerts.store := LiveAlerts.store s; LiveAlerts.prevAlerts := LiveAlerts.prevAlerts s;
       LiveAlerts.backoffMs := LiveAlerts.backoffMs s; LiveAlerts.mounted := false;
       LiveAlerts.aborted := true; LiveAlerts.st_phase := LiveAlerts.st_phase s |} eq_refl eq_refl) as Q.
  destruct (LiveAlerts.sse_run _ _ _ l) as [s2 e2]. exact Q.
Qed.

(** At any time at most one alert stream is open, and [sseActive] tells
    whether there is one. *)
Theorem sse_single_connection s :
  Singleton.singleton_reachable s →
  (length (Singleton.connections s) ≤ 1)%nat ∧
  (Singleton.sseActive s = true ↔ Singleton.connections s ≠ []).
Proof.
  intros H%Singleton.reachable_well_formed. unfold Singleton.well_formed in H.
  destruct (Singleton.sseAbortController s); destruct H as [-> ->]; simpl; split; done || lia.
Qed.

Lemma sse_single_connection_witness :
  let s := Singleton.sse_mount true (Some "t") 2 (Singleton.sse_mount true (Some "t") 1 Singleton.singleton_initial) in
  (length (Singleton.connections s) ≤ 1)%nat ∧ Singleton.connections s = [1%nat].
Proof.
  split; [|reflexivity].
  apply (sse_single_connection
    (Singleton.sse_mount true (Some "t") 2 (Singleton.sse_mount true (Some "t") 1 Singleton.singleton_initial))).
  repeat constructor.
Defined.

End SseProps.
