(* ===== verification/Shortcuts.v ===== *)
(** Keyboard shortcuts ([hooks/useKeyboardShortcuts.ts], used by [Layout.tsx])
    and the behaviour of the global search ([components/ui/GlobalSearch.tsx]).

    A keyboard event is handled by the listeners of [window] in the order in
    which they were added: those of [GlobalSearch], a child of [Layout], come
    before the one of the hook, whose effect runs after its children's. *)
From S2P Require Import Prelude JsString JsNumber Types Stores.
Import globalSearchStore.
Local Open Scope Z_scope.
Local Open Scope js_scope.

(** ** Events *)

(** [event.target]: the tag of an HTML element and whether it is editable. *)
Record element := { tagName : jstr; isContentEditable : bool }.

Record KeyboardEvent := {
  key : jstr; metaKey : bool; ctrlKey : bool; altKey : bool; shiftKey : bool;
  target : option element }.

Definition isTypingTarget (t : option element) : bool :=
  match t with
  | None => false
  | Some el =>
      let tag := toLowerCase (tagName el) in
      isContentEditable el || (tag =s "input") || (tag =s "textarea") || (tag =s "select")
  end.

Definition modified (e : KeyboardEvent) : bool := metaKey e || ctrlKey e || altKey e.

(** ** The hook *)

Module Hook.

(** [prefixTimer] holds a timer number; [timers] are the timers armed at the
    window, whose numbers are positive. *)
Record hook_state := {
  pendingPrefix : bool; prefixTimer : option positive; timers : list positive; next_timer : positive;
  showHelp : bool; search : GlobalSearchState }.

Inductive hook_effect :=
| PreventDefault | Navigate (path : jstr) | InvalidateQueries | DispatchCloseModals.

Definition hook_initial (s : GlobalSearchState) : hook_state :=
  {| pendingPrefix := false; prefixTimer := None; timers := []; next_timer := 1;
     showHelp := false; search := s |}.

Definition clearPrefix (s : hook_state) : hook_state :=
  match prefixTimer s with
  | Some t =>
      {| pendingPrefix := false; prefixTimer := None;
         timers := bfilter (λ u, negb (Pos.eqb u t)) (timers s);
         next_timer := next_timer s; showHelp := showHelp s; search := search s |}
  | None =>
      {| pendingPrefix := false; prefixTimer := None; timers := timers s;
         next_timer := next_timer s; showHelp := showHelp s; search := search s |}
  end.

Definition set_search (q : GlobalSearchState) (s : hook_state) : hook_state :=
  {| pendingPrefix := pendingPrefix s; prefixTimer := prefixTimer s; timers := timers s;
     next_timer := next_timer s; showHelp := showHelp s; search := q |}.
Definition setShowHelp (b : bool) (s : hook_state) : hook_state :=
  {| pendingPrefix := pendingPrefix s; prefixTimer := prefixTimer s; timers := timers s;
     next_timer := next_timer s; showHelp := b; search := search s |}.

Definition closeModals (s : hook_state) : hook_state * list hook_effect :=
  (setShowHelp false (set_search (closeSearch (search s)) s), [DispatchCloseModals]).

(** [pendingPrefix = 'g'; prefixTimer = window.setTimeout(clearPrefix, 1000)] *)
Definition armPrefix (s : hook_state) : hook_state :=
  {| pendingPrefix := true; prefixTimer := Some (next_timer s);
     timers := next_timer s :: timers s; next_timer := Pos.succ (next_timer s);
     showHelp := showHelp s; search := search s |}.

(** The second key of a [g] sequence. *)
Definition destination (k : jstr) : option jstr :=
  if k =s "d" then Some "/"
  else if k =s "a" then Some "/alerts"
  else if k =s "r" then Some "/reports"
  else if k =s "s" then Some "/settings"
  else None.

Definition onKeyDown (e : KeyboardEvent) (s : hook_state) : hook_state * list hook_effect :=
  if (metaKey e || ctrlKey e) && (toLowerCase (key e) =s "k") then
    (set_search (openSearch (search s)) s, [PreventDefault])
  else if key e =s "Escape" then
    let '(s, es) := closeModals s in (clearPrefix s, es)
  else if isTypingTarget (target e) then (s, [])
  else if (key e =s "?") || ((key e =s "/") && shiftKey e) then
    (clearPrefix (setShowHelp true s), [PreventDefault])
  else if (toLowerCase (key e) =s "r") && negb (metaKey e) && negb (ctrlKey e) && negb (altKey e) then
    (clearPrefix s, [PreventDefault; InvalidateQueries])
  else
    let k := toLowerCase (key e) in
    if pendingPrefix s then
      (clearPrefix s,
       match destination k with Some path => [Navigate path; PreventDefault] | None => [] end)
    else if (k =s "g") && negb (metaKey e) && negb (ctrlKey e) && negb (altKey e) then
      (armPrefix s, [])
    else (s, []).

(** An armed timer fires: it is no longer armed, then [clearPrefix] runs. *)
Definition fire (t : positive) (s : hook_state) : hook_state :=
  clearPrefix {| pendingPrefix := pendingPrefix s; prefixTimer := prefixTimer s;
                 timers := bfilter (λ u, negb (Pos.eqb u t)) (timers s);
                 next_timer := next_timer s; showHelp := showHelp s; search := search s |}.

Definition closeHelp (s : hook_state) : hook_state := setShowHelp false s.

Inductive hook_reachable : hook_state → Prop :=
| reach_initial q : hook_reachable (hook_initial q)
| reach_key e s : hook_reachable s → hook_reachable (fst (onKeyDown e s))
| reach_timer t s : hook_reachable s → In t (timers s) → hook_reachable (fire t s)
| reach_closeHelp s : hook_reachable s → hook_reachable (closeHelp s)
| reach_search q s : hook_reachable s → hook_reachable (set_search q s).

(** The prefix is pending exactly while its timer is the only one armed. *)
Definition prefix_timed (s : hook_state) : Prop :=
  match prefixTimer s with
  | Some t => pendingPrefix s = true ∧ timers s = [t]
  | None => pendingPrefix s = false ∧ timers s = []
  end.

Lemma clearPrefix_timed s : prefix_timed s → prefix_timed (clearPrefix s).
Proof.
  unfold prefix_timed, clearPrefix. destruct (prefixTimer s) as [t|]; intros [E T]; cbn; rewrite T.
  - cbn. by rewrite Pos.eqb_refl.
  - done.
Qed.

Lemma onKeyDown_timed e s : prefix_timed s → prefix_timed (fst (onKeyDown e s)).
Proof.
  intros H. unfold onKeyDown, closeModals.
  repeat case_match; try done; cbn [fst]; try (by apply clearPrefix_timed).
  all: unfold prefix_timed, armPrefix in *; cbn; destruct (prefixTimer s); destruct H as [E T];
    try congruence; by rewrite T.
Qed.

Lemma reachable_timed s : hook_reachable s → prefix_timed s.
Proof.
  induction 1 as [q|e s _ IH|t s _ IH Hin|s _ IH|q s _ IH]; [done|by apply onKeyDown_timed| |done|done].
  unfold fire, prefix_timed, clearPrefix in *. cbn. destruct (prefixTimer s) as [u|]; destruct IH as [E T].
  - rewrite T in Hin |- *. destruct Hin as [->|[]]. cbn. by rewrite Pos.eqb_refl.
  - by rewrite T in Hin.
Qed.

(** A plain key press of a lower-case letter outside a text field. *)
Definition plain (k : jstr) : KeyboardEvent :=
  {| key := k; metaKey := false; ctrlKey := false; altKey := false; shiftKey := false; target := None |}.

Lemma no_reports_unmodified e s p :
  modified e = false → In (Navigate p) (snd (onKeyDown e s)) → p ≠ "/reports".
Proof.
  unfold modified. intros H Hin ->. apply orb_false_iff in H as [[Hm Hc]%orb_false_iff Ha].
  unfold onKeyDown, closeModals in Hin. rewrite Hm, Hc, Ha in Hin. cbn [orb andb negb] in Hin.
  rewrite !andb_true_r in Hin. destruct (key e =s "Escape"); [by destruct Hin as [?|[]]|].
  destruct (isTypingTarget _); [done|]. destruct ((key e =s "?") || _); [by destruct Hin as [?|[]]|].
  destruct (toLowerCase (key e) =s "r") eqn:Er; [by destruct Hin as [?|[?|[]]]|].
  destruct (pendingPrefix s); [|by case_match].
  unfold destination in Hin. rewrite Er in Hin. repeat case_match; cbn in Hin; naive_solver.
Qed.

End Hook.

(** ** Both listeners of a key press *)

(** GlobalSearch's first listener. *)
Definition search_onKeyDown (e : KeyboardEvent) (q : GlobalSearchState) : GlobalSearchState :=
  if (metaKey e || ctrlKey e) && (toLowerCase (key e) =s "k") then toggleSearch q
  else if key e =s "Escape" then closeSearch q
  else q.

(** A key press in a mounted [Layout]: the child's listener, then the hook's. *)
Definition layout_keydown (e : KeyboardEvent) (s : Hook.hook_state) : Hook.hook_state * list Hook.hook_effect :=
  Hook.onKeyDown e (Hook.set_search (search_onKeyDown e (Hook.search s)) s).

(** ** The search dialog *)

Module Search.

Inductive SearchResult :=
| RDevice (d : Device)
| RSoftware (s : SoftwareSearchResult).

Definition result_key (r : SearchResult) : jstr :=
  match r with RDevice d => "device-" ++ d_id d | RSoftware s => "software-" ++ sr_name s end.

(** The component's state, the data of its two queries, and the value the
    armed debounce timer will set. *)
Record dialog_state := {
  search_open : bool; query : jstr; debouncedQuery : jstr; selectedIndex : Z;
  devices : list Device; software : list SoftwareSearchResult; pending : option jstr }.

Definition dialog_initial : dialog_state :=
  {| search_open := false; query := []; debouncedQuery := []; selectedIndex := 0;
     devices := []; software := []; pending := None |}.

Definition results (s : dialog_state) : list SearchResult := map RDevice (devices s) ++ map RSoftware (software s).
Definition count (s : dialog_state) : Z := Z.of_nat (length (results s)).

(** Whether the queries may run. *)
Definition enabled (s : dialog_state) : bool := search_open s && (2 <=? Z.of_nat (length (debouncedQuery s))).

Inductive dialog_effect := Navigate (path : jstr).

Definition set_index (i : Z) (s : dialog_state) : dialog_state :=
  {| search_open := search_open s; query := query s; debouncedQuery := debouncedQuery s;
     selectedIndex := i; devices := devices s; software := software s; pending := pending s |}.

(** Effect: [selectedIndex >= results.length] is brought back. *)
Definition clamp (s : dialog_state) : dialog_state :=
  if count s <=? selectedIndex s then set_index (Z.max 0 (count s - 1)) s else s.

(** Effect of [open] and [query]: reset when closed, else (re)start the
    debounce timer. *)
Definition debounce (s : dialog_state) : dialog_state :=
  if negb (search_open s) then
    {| search_open := false; query := []; debouncedQuery := []; selectedIndex := 0;
       devices := devices s; software := software s; pending := None |}
  else
    {| search_open := true; query := query s; debouncedQuery := debouncedQuery s;
       selectedIndex := selectedIndex s; devices := devices s; software := software s;
       pending := Some (trim (query s)) |}.

(** The dialog opens or closes with the store. *)
Definition set_open (b : bool) (s : dialog_state) : dialog_state :=
  clamp (debounce
    {| search_open := b; query := query s; debouncedQuery := debouncedQuery s;
       selectedIndex := selectedIndex s; devices := devices s; software := software s;
       pending := pending s |}).

Definition setQuery (q : jstr) (s : dialog_state) : dialog_state :=
  clamp (debounce
    {| search_open := search_open s; query := q; debouncedQuery := debouncedQuery s;
       selectedIndex := selectedIndex s; devices := devices s; software := software s;
       pending := pending s |}).

Definition debounce_fires (s : dialog_state) : dialog_state :=
  match pending s with
  | Some q =>
      {| search_open := search_open s; query := query s; debouncedQuery := q;
         selectedIndex := selectedIndex s; devices := devices s; software := software s;
         pending := None |}
  | None => s
  end.

(** The queries deliver (or drop) their data. *)
Definition data_changed (ds : list Device) (sw : list SoftwareSearchResult) (s : dialog_state) : dialog_state :=
  clamp {| search_open := search_open s; query := query s; debouncedQuery := debouncedQuery s;
           selectedIndex := selectedIndex s; devices := ds; software := sw; pending := pending s |}.

(** [None] when [encodeURIComponent] throws. *)
Definition handleSelect (r : SearchResult) (s : dialog_state) : option (dialog_state * list dialog_effect) :=
  match r with
  | RDevice d => Some (set_open false s, [Navigate ("/devices/" ++ d_id d)])
  | RSoftware sw =>
      n ← encodeURIComponent (sr_name sw);
      Some (set_open false s, [Navigate ("/software-updates?search=" ++ n)])
  end.

(** The listener of the open dialog; [results[selectedIndex]] out of range
    would throw. *)
Definition dialog_onKeyDown (k : jstr) (s : dialog_state) : option (dialog_state * list dialog_effect) :=
  if negb (search_open s) then Some (s, [])
  else if count s =? 0 then Some (s, [])
  else if k =s "ArrowDown" then Some (set_index ((selectedIndex s + 1) mod count s) s, [])
  else if k =s "ArrowUp" then Some (set_index ((selectedIndex s - 1 + count s) mod count s) s, [])
  else if k =s "Enter" then
    r ← results s !! Z.to_nat (selectedIndex s); handleSelect r s
  else Some (s, []).

Inductive dialog_reachable : dialog_state → Prop :=
| reach_initial : dialog_reachable dialog_initial
| reach_open b s : dialog_reachable s → dialog_reachable (set_open b s)
| reach_query q s : dialog_reachable s → dialog_reachable (setQuery q s)
| reach_debounce s : dialog_reachable s → dialog_reachable (debounce_fires s)
| reach_data ds sw s : dialog_reachable s → dialog_reachable (data_changed ds sw s)
| reach_key k s s' es : dialog_reachable s → dialog_onKeyDown k s = Some (s', es) → dialog_reachable s'.

(** The selection is a result whenever there is one. *)
Definition in_bounds (s : dialog_state) : Prop := 0 <= selectedIndex s ∧ (selectedIndex s < count s ∨ selectedIndex s = 0).

Lemma clamp_bounds s : 0 <= selectedIndex s → in_bounds (clamp s).
Proof.
  unfold in_bounds, clamp. intros H. destruct (Z.leb_spec (count s) (selectedIndex s)); [|lia].
  change (count (set_index _ s)) with (count s). cbn. unfold count in *. lia.
Qed.

Lemma debounce_index s : 0 <= selectedIndex s → 0 <= selectedIndex (debounce s).
Proof. unfold debounce. by destruct (search_open s). Qed.

Lemma set_open_bounds b s : in_bounds s → in_bounds (set_open b s).
Proof. intros [H _]. by apply clamp_bounds, debounce_index. Qed.

Lemma set_index_bounds s i : 0 <= i < count s → in_bounds (set_index i s).
Proof. unfold in_bounds. change (count (set_index i s)) with (count s). cbn. lia. Qed.

Lemma count_nonneg s : 0 <= count s.
Proof. unfold count. lia. Qed.

Lemma reachable_bounds s : dialog_reachable s → in_bounds s.
Proof.
  induction 1 as [|b s _ IH|q s _ IH|s _ IH|ds sw s _ IH|k s s' es _ IH E].
  - unfold in_bounds. cbn. lia.
  - by apply set_open_bounds.
  - destruct IH as [H _]. by apply clamp_bounds, debounce_index.
  - unfold debounce_fires. by case_match.
  - destruct IH as [H _]. by apply clamp_bounds.
  - unfold dialog_onKeyDown in E. pose proof (count_nonneg s). destruct (Z.eqb_spec (count s) 0).
    { destruct (search_open s); by simplify_eq/=. }
    destruct (search_open s); [|by simplify_eq/=]. cbn [negb] in E.
    pose proof (Z.mod_pos_bound (selectedIndex s + 1) (count s)).
    pose proof (Z.mod_pos_bound (selectedIndex s - 1 + count s) (count s)).
    repeat case_match; simplify_eq/=; try done; try (apply set_index_bounds; lia).
    destruct (results s !! _) as [[d|sw]|]; simplify_eq/=; [by apply set_open_bounds|].
    destruct (encodeURIComponent _); simplify_eq/=. by apply set_open_bounds.
Qed.

Lemma selected_result s :
  in_bounds s → count s ≠ 0 → ∃ r, results s !! Z.to_nat (selectedIndex s) = Some r.
Proof.
  intros [H0 H1] Hc. apply lookup_lt_is_Some. unfold count in *. lia.
Qed.

End Search.

(** ** Properties *)

Module ShortcutProps.
Import Hook.

(** A pending [g] always has exactly one armed timer to expire it, and
    there is no timer otherwise, after any keys, timers and dialog changes. *)
Theorem prefix_always_expires s :
  hook_reachable s →
  (pendingPrefix s = true ↔ ∃ t, prefixTimer s = Some t ∧ timers s = [t]) ∧
  (pendingPrefix s = false ↔ timers s = []).
Proof.
  intros H%reachable_timed. unfold prefix_timed in H.
  destruct (prefixTimer s); destruct H as [-> ->]; naive_solver.
Qed.

Lemma prefix_always_expires_witness :
  timers (fst (onKeyDown (plain "g") (hook_initial globalSearchStore.search_initial))) ≠ [].
Proof.
  intros H.
  destruct (prefix_always_expires (fst (onKeyDown (plain "g") (hook_initial globalSearchStore.search_initial)))
              (reach_key _ _ (reach_initial _))) as [_ P].
  by apply P in H.
Defined.

(** [G] followed by [D], [A] or [S] goes to the dashboard, the alerts or
    the settings from any idle state, leaves no prefix behind, and does
    nothing else. *)
Theorem go_to_shortcuts s c path :
  prefixTimer s = None → pendingPrefix s = false →
  In (c, path) [("d", "/"); ("a", "/alerts"); ("s", "/settings")] →
  ∃ s', layout_keydown (plain c) (fst (layout_keydown (plain "g") s))
        = (s', [Navigate path; PreventDefault]) ∧
        pendingPrefix s' = false ∧ showHelp s' = showHelp s ∧ search s' = search s.
Proof.
  intros Ht Hp Hin. destruct s as [p t ts n h q]. cbn in Ht, Hp. subst p t.
  destruct Hin as [[= <- <-]|[[= <- <-]|[[= <- <-]|[]]]]; by eexists.
Qed.

Lemma go_to_shortcuts_witness :
  snd (layout_keydown (plain "a") (fst (layout_keydown (plain "g") (hook_initial globalSearchStore.search_initial))))
  = [Navigate "/alerts"; PreventDefault].
Proof.
  destruct (go_to_shortcuts (hook_initial globalSearchStore.search_initial) "a" "/alerts") as (s' & E & _);
    [reflexivity|reflexivity|right; left; reflexivity|].
  rewrite E. reflexivity.
Defined.

(** No key press without a modifier ever navigates to the reports page,
    whatever keys came before: the refresh shortcut takes every plain [r],
    although the help table lists "G then R". *)
Theorem reports_shortcut_unreachable e s p :
  modified e = false → In (Navigate p) (snd (layout_keydown e s)) → p ≠ "/reports".
Proof. apply no_reports_unmodified. Qed.

Lemma reports_shortcut_unreachable_witness :
  ("/alerts" : jstr) ≠ "/reports".
Proof.
  apply (reports_shortcut_unreachable (plain "a")
    (fst (layout_keydown (plain "g") (hook_initial globalSearchStore.search_initial)))); [reflexivity|].
  vm_compute. by left.
Defined.

(** Ctrl/Cmd+K always leaves the search open, also when it was open: the
    dialog's own toggle is undone by the layout's shortcut. *)
Theorem ctrl_k_always_opens e s :
  metaKey e || ctrlKey e = true → toLowerCase (key e) = "k" →
  open (Hook.search (fst (layout_keydown e s))) = true ∧
  snd (layout_keydown e s) = [PreventDefault].
Proof.
  intros Hm Hk. unfold layout_keydown, onKeyDown. by rewrite Hm, Hk.
Qed.

Lemma ctrl_k_always_opens_witness :
  let e := {| key := "K"; metaKey := false; ctrlKey := true; altKey := false; shiftKey := false;
              target := None |} in
  open (Hook.search (fst (layout_keydown e (hook_initial {| open := true |})))) = true.
Proof. intros e. apply (ctrl_k_always_opens e); reflexivity. Defined.

(** In the search dialog the selection always denotes a result when there
    is one, so [Enter] never reads out of range: it navigates and closes the
    dialog, unless a software name is not well-formed UTF-16. *)
Theorem search_enter_selects s :
  Search.dialog_reachable s → Search.search_open s = true → Search.results s ≠ [] →
  ∃ r, Search.results s !! Z.to_nat (Search.selectedIndex s) = Some r ∧
    match r with
    | Search.RDevice d =>
        Search.dialog_onKeyDown "Enter" s
        = Some (Search.set_open false s, [Search.Navigate ("/devices/" ++ d_id d)])
    | Search.RSoftware sw =>
        ∀ n, encodeURIComponent (sr_name sw) = Some n →
        Search.dialog_onKeyDown "Enter" s
        = Some (Search.set_open false s, [Search.Navigate ("/software-updates?search=" ++ n)])
    end.
Proof.
  intros H%Search.reachable_bounds Ho Hr.
  assert (Search.count s ≠ 0) as Hc.
  { unfold Search.count. destruct (Search.results s); [done|]. simpl. lia. }
  destruct (Search.selected_result s H Hc) as [r Hsel]. exists r. split; [done|].
  unfold Search.dialog_onKeyDown. rewrite Ho. cbn [negb]. apply Z.eqb_neq in Hc. rewrite Hc.
  cbn [seqb]. change ("Enter" =s "ArrowDown") with false. change ("Enter" =s "ArrowUp") with false.
  change ("Enter" =s "Enter") with true. cbn iota. rewrite Hsel. cbn [mbind option_bind].
  destruct r; [done|]. intros n Hn. cbn [Search.handleSelect]. by rewrite Hn.
Qed.

Definition one_result : Search.dialog_state :=
  Search.data_changed [] [{| sr_name := "vim"; sr_device_count := 1; sr_versions := [] |}]
    (Search.debounce_fires (Search.setQuery "vi" (Search.set_open true Search.dialog_initial))).

Lemma search_enter_selects_witness :
  Search.dialog_onKeyDown "Enter" one_result
  = Some (Search.set_open false one_result, [Search.Navigate "/software-updates?search=vim"]).
Proof.
  destruct (search_enter_selects one_result) as (r & Hr & E);
    [repeat constructor|reflexivity|discriminate|].
  assert (r = Search.RSoftware {| sr_name := "vim"; sr_device_count := 1; sr_versions := [] |}) as ->.
  { injection Hr as <-. reflexivity. }
  apply (E "vim"). reflexivity.
Defined.

End ShortcutProps.
