(* ===== verification/Ui.v ===== *)
(** Rendered elements, and the components of [frontend/src/components/ui].

    A component is a function from its state to a tree of elements.  A tree
    keeps the tags, texts, form values, disabled flags and event handlers (an
    action of the component); style classes, sizes, icons' drawings and keys,
    which carry no behaviour, are left out. *)
From S2P Require Import Prelude JsString JsNumber Utils Types Api Stores.
Import localStorage.
Local Open Scope Z_scope.
Local Open Scope js_scope.

(** ** Elements *)

Section elements.
Context {A : Type}.

Inductive attr :=
| OnClick (a : A)
| OnChange (f : jstr → A)
| OnEnter (a : A)
| OnSubmit (a : A)
| OnCheck (f : bool → A)
| OnBlur (a : A)
| Disabled (b : bool)
| Checked (b : bool)
| Attr (name value : jstr).

Inductive node :=
| Text (s : jstr)
| El (tag : jstr) (attrs : list attr) (children : list node).

Definition is_disabled (l : list attr) : bool :=
  existsb (λ a, match a with Disabled b => b | _ => false end) l.

(** The actions a click can trigger: a disabled element triggers none. *)
Definition own_clicks (l : list attr) : list A :=
  if is_disabled l then [] else flat_map (λ a, match a with OnClick a => [a] | _ => [] end) l.
Fixpoint clicks (n : node) : list A :=
  match n with
  | Text _ => []
  | El _ l cs => own_clicks l ++ flat_map clicks cs
  end.

(** The text of a tree, in order. *)
Fixpoint texts (n : node) : list jstr :=
  match n with Text s => [s] | El _ _ cs => flat_map texts cs end.

(** [{cond && <n/>}] *)
Definition when (b : bool) (l : list node) : list node := if b then l else [].

Definition el (tag : jstr) (cs : list node) : node := El tag [] cs.
Definition div (cs : list node) : node := El "div" [] cs.
Definition span (cs : list node) : node := El "span" [] cs.
Definition p_ (cs : list node) : node := El "p" [] cs.
Definition button (l : list attr) (cs : list node) : node := El "button" l cs.
Definition icon (name : jstr) : node := El name [] [].

Lemma clicks_div cs : clicks (div cs) = flat_map clicks cs.
Proof. done. Qed.

Lemma when_In b l x : In x (when b l) ↔ b = true ∧ In x l.
Proof. destruct b; simpl; naive_solver. Qed.

End elements.
Arguments attr : clear implicits.
Arguments node : clear implicits.

(** Integers as text. *)
Definition num_text {A} (z : Z) : node A := Text (string_of_Z z).

(** A child component's tree inside its parent: its actions are renamed. *)
Fixpoint map_node {A B} (f : A → B) (n : node A) : node B :=
  match n with
  | Text s => Text s
  | El t l cs =>
      El t (map (λ a, match a with
                      | OnClick x => OnClick (f x) | OnChange g => OnChange (λ s, f (g s))
                      | OnEnter x => OnEnter (f x) | OnSubmit x => OnSubmit (f x)
                      | OnCheck g => OnCheck (λ b, f (g b)) | OnBlur x => OnBlur (f x)
                      | Disabled b => Disabled b | Checked b => Checked b | Attr k v => Attr k v
                      end) l) (map (map_node f) cs)
  end.

Lemma clicks_map_node {A B} (f : A → B) : ∀ n, clicks (map_node f n) = map f (clicks n).
Proof.
  fix IH 1. intros [s|t l cs]; [done|]. cbn [map_node clicks]. rewrite map_app. f_equal.
  - assert (∀ g, existsb (λ a : attr B, match a with Disabled b => b | _ => false end) (map g l) =
                 existsb (λ a, match g a with Disabled b => b | _ => false end) l) as Hex.
    { intros g. clear. induction l; simpl; congruence. }
    unfold own_clicks, is_disabled. rewrite Hex.
    assert (existsb (λ a, match a with Disabled b => b | _ => false end) l = existsb (λ a : attr A, match match a with
                      | OnClick x => OnClick (f x) | OnChange g => OnChange (λ s, f (g s))
                      | OnEnter x => OnEnter (f x) | OnSubmit x => OnSubmit (f x)
                      | OnCheck g => OnCheck (λ b, f (g b)) | OnBlur x => OnBlur (f x)
                      | Disabled b => Disabled b | Checked b => Checked b | Attr k v => Attr k v
                      end with Disabled b => b | _ => false end) l) as <-.
    { clear. induction l as [|[] l IHl]; simpl; congruence. }
    destruct (existsb _ l); [done|]. clear. induction l as [|[] l IHl]; simpl; congruence.
  - clear l. induction cs as [|c cs IHcs]; [done|]. simpl. rewrite map_app. f_equal; [apply IH|apply IHcs].
Qed.

(** What the handlers of a component ask for: a navigation, an API request
    (of a mutation), the invalidation of cached queries, a callback of the
    parent, a new location of the page, a download, a text for the clipboard, a
    timer, the refetch of a query, the previous page, the browser's choice of a
    file. *)
Inductive ui_effect :=
| Navigate (path : jstr)
| Request (r : request)
| Invalidate (queryKey : list jstr)
| OnNavigate
| SetLocation (href : jstr)
| Download (ops : list Csv.dom_op)
| Clipboard (text : jstr)
| StartTimer (ms : Z)
| Refetch (queryKey : list jstr)
| GoBack
| OpenFileDialog.

(** ** Pagination *)

Module Pagination.

Inductive item := Page (n : Z) | Ellipsis.

Definition page_candidates (current total : Z) : list Z :=
  [1; total; current - 1; current; current + 1; current - 2; current + 2].

Definition sorted (current total : Z) : list Z :=
  stable_sort (λ a b, a - b <=? 0)
    (bfilter (λ v, (1 <=? v) && (v <=? total)) (dedup Z.eqb (page_candidates current total))).

(** The loop body: an ellipsis is pushed before a value that does not follow
    the last page pushed. *)
Definition push_page (result : list item) (value : Z) : list item :=
  match last result with
  | Some (Page previous) => if 1 <? value - previous then result ++ [Ellipsis; Page value]
                            else result ++ [Page value]
  | _ => result ++ [Page value]
  end.

Definition buildPages (current total : Z) : list item := fold_left push_page (sorted current total) [].

(** The actions of the component are the pages given to [onChange]. *)
Definition Pagination (page totalPages : Z) : option (node Z) :=
  if totalPages <=? 1 then None
  else Some (div (
    [button [OnClick (page - 1); Disabled (page <=? 1)] [Text "Previous"]]
    ++ map (λ it, match it with
                  | Ellipsis => span [Text "..."]
                  | Page v => button [OnClick v; Attr "active" (if v =? page then "true" else "false")]
                                [num_text v]
                  end) (buildPages page totalPages)
    ++ [button [OnClick (page + 1); Disabled (totalPages <=? page)] [Text "Next"]])).

(** *** Lemmas *)

Lemma sorted_In current total v :
  In v (sorted current total) ↔ In v (page_candidates current total) ∧ 1 <= v <= total.
Proof.
  unfold sorted. rewrite stable_sort_In, bfilter_In, dedup_In by apply Z.eqb_eq.
  rewrite andb_true_iff, !Z.leb_le. done.
Qed.

Lemma sorted_increasing current total : StronglySorted Z.lt (sorted current total).
Proof.
  apply sorted_nodup_lt.
  - eapply StronglySorted_weaken; [|apply stable_sort_sorted].
    + intros a b. rewrite !Z.leb_le. lia.
    + intros a b. rewrite !Z.leb_le. lia.
    + intros a b c. rewrite !Z.leb_le. lia.
  - eapply Permutation_NoDup; [symmetry; apply stable_sort_perm|].
    apply List.NoDup_filter, dedup_NoDup. apply Z.eqb_eq.
Qed.

(** Pages in increasing order, an ellipsis exactly where pages are left out. *)
Inductive gapped : list item → Prop :=
| gapped_one a : gapped [Page a]
| gapped_next a l : gapped (Page (a + 1) :: l) → gapped (Page a :: Page (a + 1) :: l)
| gapped_skip a b l : a + 1 < b → gapped (Page b :: l) → gapped (Page a :: Ellipsis :: Page b :: l).

(** The loop, from the front. *)
Fixpoint spread (a : Z) (l : list Z) : list item :=
  match l with
  | [] => [Page a]
  | b :: l' => if 1 <? b - a then Page a :: Ellipsis :: spread b l' else Page a :: spread b l'
  end.

Lemma fold_push acc a l :
  fold_left push_page l (acc ++ [Page a]) = acc ++ spread a l.
Proof.
  revert acc a. induction l as [|b l IH]; intros acc a; [done|]. simpl.
  unfold push_page at 2. rewrite last_snoc. destruct (1 <? b - a).
  - change (acc ++ [Page a]) with (acc ++ [Page a]).
    replace ((acc ++ [Page a]) ++ [Ellipsis; Page b]) with ((acc ++ [Page a; Ellipsis]) ++ [Page b])
      by (rewrite <-!app_assoc; done).
    rewrite IH, <-app_assoc. done.
  - rewrite IH, <-app_assoc. done.
Qed.

Lemma spread_cons a l : ∃ r, spread a l = Page a :: r.
Proof. destruct l; simpl; [by eexists|]. case_match; by eexists. Qed.

Lemma spread_gapped a l : StronglySorted Z.lt (a :: l) → gapped (spread a l).
Proof.
  revert a. induction l as [|b l IH]; intros a H; [constructor|].
  inversion H as [|? ? Hs Hf]; subst. specialize (IH b Hs). simpl.
  destruct (spread_cons b l) as [r Hr]. rewrite Hr in IH |- *.
  inversion Hf as [|? ? Hab]; subst. destruct (Z.ltb_spec 1 (b - a)).
  - constructor; [lia|done].
  - assert (b = a + 1) as -> by lia. by constructor.
Qed.

Lemma spread_pages a l v : In (Page v) (spread a l) ↔ In v (a :: l).
Proof.
  revert a. induction l as [|b l IH]; intros a; simpl; [naive_solver|].
  case_match; simpl; rewrite IH; simpl; naive_solver.
Qed.

Lemma buildPages_spread current total :
  1 <= total → ∃ a l, sorted current total = a :: l ∧ buildPages current total = spread a l.
Proof.
  intros Ht. assert (In 1 (sorted current total)) as H1.
  { apply sorted_In. split; [by left|lia]. }
  unfold buildPages. destruct (sorted current total) as [|a l]; [done|].
  exists a, l. split; [done|]. exact (fold_push [] a l).
Qed.

Lemma buildPages_In current total v :
  1 <= total →
  In (Page v) (buildPages current total) ↔ In v (page_candidates current total) ∧ 1 <= v <= total.
Proof.
  intros Ht. destruct (buildPages_spread current total Ht) as (a & l & E & ->).
  by rewrite spread_pages, <-E, sorted_In.
Qed.

End Pagination.

(** ** Skeletons *)

Module Skeleton.
Section skeleton.
Context {A : Type}.
(** The class names give the shape. *)
Definition BaseSkeleton (className : jstr) : node A :=
  El "div" [Attr "class" ("animate-pulse rounded-xl bg-slate-200 dark:bg-gray-800 " ++ className)] [].
Definition SkeletonText (className : option jstr) : node A := BaseSkeleton (className ?? "h-4 w-full").
Definition SkeletonMetric : node A :=
  div [SkeletonText (Some "h-3 w-20"); SkeletonText (Some "mt-3 h-8 w-24")].
Definition SkeletonCard : node A :=
  div [div [SkeletonText (Some "h-4 w-24"); SkeletonText (Some "h-5 w-14 rounded-full")];
       SkeletonText (Some "mt-4 h-3 w-32"); SkeletonText (Some "mt-2 h-3 w-24");
       SkeletonText (Some "mt-6 h-10 w-full")].
(** [rows] defaults to 5. *)
Definition SkeletonTable (rows : nat) : node A :=
  div (repeat (div [SkeletonText (Some "h-4 w-full"); SkeletonText (Some "h-4 w-full");
                    SkeletonText (Some "h-4 w-full")]) rows).
End skeleton.
End Skeleton.

(** ** ErrorBoundary *)

Module ErrorBoundary.
Section boundary.
Context {A : Type} (reload : A).
(** The state is the message of the error caught, if any. *)
Record boundary_State := { error : option jstr }.
Definition boundary_initial : boundary_State := {| error := None |}.
Definition getDerivedStateFromError (message : jstr) : boundary_State := {| error := Some message |}.
Definition boundary_render (children : list (node A)) (fallback : option (list (node A))) (s : boundary_State) : list (node A) :=
  match error s with
  | Some message =>
      match fallback with
      | Some f => f
      | None =>
          [div [el "h2" [Text "Something went wrong"]; p_ [Text message];
                button [OnClick reload] [Text "Reload page"]]]
      end
  | None => children
  end.
End boundary.
End ErrorBoundary.

(** ** WhatsNew *)

Module WhatsNew.
Definition APP_VERSION : jstr := "0.1.0".
Definition BUILD_DATE : jstr := "2026-04-09".
Definition WHATS_NEW_KEY : jstr := "dtsys-whats-new-v0.1.0".
Definition highlights : list jstr := [
  "🖥️ Multi-platform agent (Windows, Linux, macOS)";
  "📊 Real-time hardware monitoring";
  "🔔 Smart alert engine";
  "💻 Remote command execution";
  "📦 Software inventory & update tracking";
  "🗓️ Scheduled commands";
  "📸 Device screenshots";
  "🌐 Network topology map";
  "📧 Email & webhook notifications";
  "And more..."].

Record whatsnew_state := { ls : localStorage.t; wn_open : bool }.
Definition whatsnew_mount (s : localStorage.t) : whatsnew_state :=
  {| ls := s; wn_open := negb (bool_decide (getItem WHATS_NEW_KEY s = Some APP_VERSION)) |}.
Inductive whatsnew_action := GotIt.
Definition whatsnew_update (a : whatsnew_action) (s : whatsnew_state) : whatsnew_state :=
  {| ls := setItem WHATS_NEW_KEY APP_VERSION (ls s); wn_open := false |}.
Definition whatsnew_view (s : whatsnew_state) : option (node whatsnew_action) :=
  if negb (wn_open s) then None
  else Some (div [div [
    el "h2" [Text "What's New in v"; Text APP_VERSION];
    div (map (λ item, div [Text item]) highlights);
    button [OnClick GotIt] [Text "Got it"]]]).
End WhatsNew.

(** ** Properties *)

Module UiProps.
Import Pagination.

(** C28: the page buttons are exactly the first page, the last page and the
    pages within two of the current one that exist, in increasing order, with
    an ellipsis exactly where pages are left out. *)
Theorem build_pages_spec current total :
  1 <= total →
  gapped (buildPages current total) ∧
  (∀ v, In (Page v) (buildPages current total) ↔
        1 <= v <= total ∧ (v = 1 ∨ v = total ∨ Z.abs (v - current) <= 2)).
Proof.
  intros Ht. split.
  - destruct (buildPages_spread current total Ht) as (a & l & E & ->).
    apply spread_gapped. rewrite <-E. apply sorted_increasing.
  - intros v. rewrite buildPages_In by done. unfold page_candidates. simpl. lia.
Qed.

Lemma build_pages_spec_witness :
  gapped [Page 1; Ellipsis; Page 4; Page 5; Page 6; Page 7; Page 8; Ellipsis; Page 20].
Proof.
  change (gapped (buildPages 6 20)). apply (build_pages_spec 6 20). lia.
Defined.

(** On a page within range, every button that is not disabled leads to a
    page within range, and every page can be the target of some button: the
    previous and the next one always are. *)
Theorem pagination_targets_in_range page total n v :
  1 <= page <= total → Pagination page total = Some n →
  (In v (clicks n) → 1 <= v <= total) ∧
  (Z.abs (v - page) <= 2 → 1 <= v <= total → In v (clicks n)).
Proof.
  intros Hp. unfold Pagination. destruct (Z.leb_spec total 1); [done|]. intros [= <-].
  cbn [clicks flat_map div own_clicks is_disabled existsb orb].
  rewrite flat_map_app, flat_map_concat_map, map_map, <-flat_map_concat_map, !in_app_iff.
  assert (∀ its, In v (flat_map (λ it, clicks (match it with
      | Ellipsis => span [Text "..."]
      | Page w => button [OnClick w; Attr "active" (if w =? page then "true" else "false")] [num_text w]
      end)) its) ↔ In (Page v) its) as Hmid.
  { intros its. rewrite in_flat_map. split.
    - intros ([w|] & Hin & Hv); [|done]. cbn in Hv. destruct Hv as [->|[]]. done.
    - intros Hin. exists (Page v). split; [done|]. by left. }
  rewrite Hmid, buildPages_In by lia. split.
  - intros [[]|[Hv|[[_ Hv]|Hv]]]; [|done|].
    + cbn in Hv. destruct (Z.leb_spec page 1); cbn in Hv; [done|]. destruct Hv as [<-|[]]. lia.
    + cbn in Hv. destruct (Z.leb_spec total page); cbn in Hv; [done|]. destruct Hv as [<-|[]]. lia.
  - intros Hv Hr. right; right; left. split; [|done]. unfold page_candidates. simpl. lia.
Qed.

Lemma pagination_targets_in_range_witness :
  ∃ n, Pagination 1 3 = Some n ∧ In 2 (clicks n).
Proof.
  eexists. split; [reflexivity|].
  eapply (pagination_targets_in_range 1 3); [lia|reflexivity|lia|lia].
Defined.

End UiProps.
