(* ===== verification/Shell.v ===== *)
(** The application shell: [components/layout] (Sidebar, Topbar, Layout), the
    rendering of the global search, and the routing of [App.tsx].

    A component is its state (with the data of its queries), the actions its
    handlers stand for, an [update] giving the new state and the effects, and a
    [view].  Values read from the location's query string are inputs. *)
From S2P Require Import Prelude JsString JsNumber Types Api Stores Shortcuts Ui.
Local Open Scope Z_scope.
Local Open Scope js_scope.

(** ** Sidebar *)

Module Sidebar.

Record navItem := Nav { nav_to : jstr; nav_icon : jstr; nav_label : jstr; nav_adminOnly : bool }.
Definition navItems : list navItem := [
  Nav "/my-dashboard" "LayoutDashboard" "My Dashboard" false;
  Nav "/" "Monitor" "Devices" false;
  Nav "/alerts" "Bell" "Alerts" false;
  Nav "/reports" "BarChart2" "Reports" false;
  Nav "/network-map" "Network" "Network Map" false;
  Nav "/inventory" "Package" "Inventory" false;
  Nav "/command-library" "BookOpen" "Command Library" false;
  Nav "/software-updates" "PackageOpen" "Software Updates" false;
  Nav "/scheduled" "Clock3" "Scheduled" false;
  Nav "/downloads" "Download" "Downloads" false;
  Nav "/compliance" "CheckSquare" "Compliance" false;
  Nav "/audit" "ClipboardList" "Audit Log" true;
  Nav "/users" "Users" "Users" true;
  Nav "/organizations" "Building2" "Organizations" false;
  Nav "/settings" "Settings" "Settings" false].

Record sidebar_state := {
  role : option jstr;
  branding : brandingStore.BrandingState;
  alerts : option (list Alert);
  groups : list DeviceGroup;
  activeGroupId : option jstr;
  showCreateGroup : bool;
  groupName : jstr;
  groupColor : jstr;
  createPending : bool }.

Inductive sidebar_action :=
| FollowLink (to : jstr)
| SetShowCreateGroup (b : bool)
| ClickGroup (id : jstr)
| SetGroupName (s : jstr)
| SetGroupColor (s : jstr)
| CreateGroup
| CreateGroupDone.

Definition is_admin (s : sidebar_state) : bool := bool_decide (role s = Some "admin").

Definition set_form (show : bool) (name color : jstr) (pending : bool) (s : sidebar_state) : sidebar_state :=
  {| role := role s; branding := branding s; alerts := alerts s; groups := groups s;
     activeGroupId := activeGroupId s; showCreateGroup := show; groupName := name;
     groupColor := color; createPending := pending |}.

Definition sidebar_update (a : sidebar_action) (s : sidebar_state) : sidebar_state * list ui_effect :=
  match a with
  | FollowLink to => (s, [OnNavigate; Navigate to])
  | SetShowCreateGroup b => (set_form b (groupName s) (groupColor s) (createPending s) s, [])
  | ClickGroup id =>
      (s, [Navigate (if bool_decide (activeGroupId s = Some id) then "/" else "/?group=" ++ id); OnNavigate])
  | SetGroupName n => (set_form (showCreateGroup s) n (groupColor s) (createPending s) s, [])
  | SetGroupColor c => (set_form (showCreateGroup s) (groupName s) c (createPending s) s, [])
  | CreateGroup =>
      (set_form (showCreateGroup s) (groupName s) (groupColor s) true s,
       [Request (groupsApi.group_create (groupName s) None (groupColor s))])
  | CreateGroupDone => (set_form false "" "#3b82f6" false s, [Invalidate ["groups"]])
  end.

Definition visibleItems (s : sidebar_state) : list navItem :=
  bfilter (λ i, negb (nav_adminOnly i) || is_admin s) navItems.

Definition unresolvedCount (s : sidebar_state) : Z :=
  match alerts s with Some l => Z.of_nat (length l) | None => 0 end.

Definition view_link (s : sidebar_state) (i : navItem) : node sidebar_action :=
  El "NavLink" [OnClick (FollowLink (nav_to i)); Attr "to" (nav_to i);
                Attr "end" (if nav_to i =s "/" then "true" else "false")]
    ([icon (nav_icon i); span [Text (nav_label i)]]
     ++ when ((nav_label i =s "Alerts") && (0 <? unresolvedCount s)) [span [num_text (unresolvedCount s)]]).

Definition view_group (s : sidebar_state) (g : DeviceGroup) : node sidebar_action :=
  button [OnClick (ClickGroup (g_id g));
          Attr "active" (if bool_decide (Some (g_id g) = activeGroupId s) then "true" else "false")]
    [El "span" [Attr "backgroundColor" (g_color g)] []; span [Text (g_name g)];
     span [num_text (g_member_count g ?? 0)]].

Definition view_dialog (s : sidebar_state) : node sidebar_action :=
  div [div [
    el "h3" [Text "Create Group"];
    div [El "input" [Attr "value" (groupName s); OnChange SetGroupName;
                     Attr "placeholder" "Group name"] [];
         el "label" [span [Text "Color"];
                     El "input" [Attr "type" "color"; Attr "value" (groupColor s);
                                 OnChange SetGroupColor] []]];
    div [button [OnClick (SetShowCreateGroup false)] [Text "Cancel"];
         button [OnClick CreateGroup;
                 Disabled (negb (truthy (trim (groupName s))) || createPending s)] [Text "Create"]]]].

Definition sidebar_view (s : sidebar_state) : node sidebar_action :=
  let b := branding s in
  el "aside" (
    [div [ if truthy (brandingStore.logoUrl b)
           then El "img" [Attr "src" (brandingStore.logoUrl b); Attr "alt" "logo"] []
           else El "Shield" [Attr "color" (brandingStore.accentColor b)] [];
           div ([div [Text (brandingStore.companyName b)]]
                ++ when (truthy (brandingStore.sidebarLabel b)) [div [Text (brandingStore.sidebarLabel b)]])];
     el "nav" (
       map (view_link s) (visibleItems s)
       ++ [div [
            div ([span [Text "Groups"]]
                 ++ when (is_admin s)
                      [button [OnClick (SetShowCreateGroup true); Attr "title" "Create group"] [icon "Plus"]]);
            div (map (view_group s) (groups s)
                 ++ when (Nat.eqb (length (groups s)) 0) [p_ [Text "No groups yet"]])]]);
     div [Text (brandingStore.companyName b); Text " · v1.3.0"]]
    ++ when (showCreateGroup s) [view_dialog s]).

End Sidebar.

(** ** Topbar *)

Module Topbar.

(** The stores the bar works on ([localStorage] is the one of the theme's
    page), the organisations and whether their menu is open. *)
Record topbar_state := {
  tb_page : themeStore.theme_page;
  auth : authStore.AuthState;
  tb_search : globalSearchStore.GlobalSearchState;
  tb_layout : layoutStore.LayoutState;
  alert_store : alertStore.AlertState;
  orgs : list Org;
  orgMenuOpen : bool }.

Inductive topbar_action :=
| ToggleSidebar | OpenSearch | ToggleTheme | Logout | GoAlerts
| ToggleOrgMenu
| SwitchOrg (id name : jstr)
| SwitchOrgDone (id name : jstr) (tokens : option (jstr * jstr))
| MouseDownOutside
| AlertsFetched (l : list Alert).

Definition showOrgSwitcher (s : topbar_state) : bool := (1 <? Z.of_nat (length (orgs s))).

Definition set_menu (b : bool) (s : topbar_state) : topbar_state :=
  {| tb_page := tb_page s; auth := auth s; tb_search := tb_search s; tb_layout := tb_layout s;
     alert_store := alert_store s; orgs := orgs s; orgMenuOpen := b |}.
Definition set_session (w : localStorage.t * authStore.AuthState) (s : topbar_state) : topbar_state :=
  {| tb_page := {| themeStore.storage := fst w; themeStore.html_dark := themeStore.html_dark (tb_page s);
                   themeStore.theme := themeStore.theme (tb_page s) |};
     auth := snd w; tb_search := tb_search s; tb_layout := tb_layout s;
     alert_store := alert_store s; orgs := orgs s; orgMenuOpen := orgMenuOpen s |}.
Definition set_stores (p : themeStore.theme_page) (q : globalSearchStore.GlobalSearchState)
    (l : layoutStore.LayoutState) (al : alertStore.AlertState) (s : topbar_state) : topbar_state :=
  {| tb_page := p; auth := auth s; tb_search := q; tb_layout := l; alert_store := al; orgs := orgs s;
     orgMenuOpen := orgMenuOpen s |}.
Definition session_of (s : topbar_state) : localStorage.t * authStore.AuthState :=
  (themeStore.storage (tb_page s), auth s).

(** A failed organisation switch is ignored; a click outside closes the menu
    when the switcher is rendered. *)
Definition topbar_update (a : topbar_action) (s : topbar_state) : topbar_state * list ui_effect :=
  match a with
  | ToggleSidebar =>
      (set_stores (tb_page s) (tb_search s) (layoutStore.toggleSidebar (tb_layout s)) (alert_store s) s, [])
  | OpenSearch =>
      (set_stores (tb_page s) (globalSearchStore.openSearch (tb_search s)) (tb_layout s) (alert_store s) s, [])
  | ToggleTheme =>
      (set_stores (themeStore.toggle (tb_page s)) (tb_search s) (tb_layout s) (alert_store s) s, [])
  | Logout => (set_session (authStore.logout (session_of s)) s, [Navigate "/login"])
  | GoAlerts => (s, [Navigate "/alerts"])
  | ToggleOrgMenu => (if showOrgSwitcher s then set_menu (negb (orgMenuOpen s)) s else s, [])
  | SwitchOrg id name => (s, [Request (orgsApi.org_switch id)])
  | SwitchOrgDone id name (Some (access, refresh)) =>
      (set_menu false (set_session (authStore.setOrgContext id name access refresh (session_of s)) s),
       [SetLocation "/"])
  | SwitchOrgDone id name None => (s, [])
  | MouseDownOutside => (if otruthy (authStore.orgName (auth s)) then set_menu false s else s, [])
  | AlertsFetched l =>
      (set_stores (tb_page s) (tb_search s) (tb_layout s) (alertStore.setUnresolved l (alert_store s)) s, [])
  end.

Definition view_org (s : topbar_state) (o : Org) : node topbar_action :=
  let active := bool_decide (Some (o_id o) = authStore.orgId (auth s)) in
  button [OnClick (SwitchOrg (o_id o) (o_name o)); Attr "active" (if active then "true" else "false")]
    ([icon "Building2"; span [Text (o_name o)]; span [Text (o_role o)]] ++ when active [span []]).

Definition view_switcher (s : topbar_state) (orgName : jstr) : node topbar_action :=
  div ([button [OnClick ToggleOrgMenu;
                Attr "title" (if showOrgSwitcher s then "Switch organization" else orgName)]
          ([icon "Building2"; span [Text orgName]] ++ when (showOrgSwitcher s) [icon "ChevronDown"])]
       ++ when (orgMenuOpen s && showOrgSwitcher s) [div (map (view_org s) (orgs s))]).

Definition topbar_view (s : topbar_state) : node topbar_action :=
  let unresolved := length (alertStore.unresolved (alert_store s)) in
  el "header" [
    div [button [OnClick ToggleSidebar; Attr "aria-label" "Open sidebar"] [icon "Menu"];
         button [OnClick OpenSearch] [icon "Search"; span [Text "Search devices, software"];
                                      span [Text "Ctrl K"]]];
    div (
      match authStore.orgName (auth s) with
      | Some n => when (truthy n) [view_switcher s n]
      | None => []
      end
      ++ [button [OnClick GoAlerts; Attr "title" "Open alerts"]
            ([icon "Bell"] ++ when (Nat.ltb 0 unresolved) [span [num_text (Z.of_nat unresolved)]]);
          button [OnClick ToggleTheme; Attr "title" "Toggle theme"]
            [if decide (themeStore.theme (tb_page s) = themeStore.Dark) then icon "Sun" else icon "Moon"];
          span [icon "User"; span [Text (authStore.username (auth s) ?? "")];
                span [Text "("; Text (authStore.role (auth s) ?? ""); Text ")"]];
          button [OnClick Logout] [icon "LogOut"; span [Text "Logout"]]])].

End Topbar.

(** ** The search dialog's rendering *)

Module SearchView.
Import Search.

Inductive search_action := SetQuery (q : jstr) | Close | Select (r : SearchResult).

Definition OSIcon (os : OsType) : node search_action :=
  match os with Macos => icon "Apple" | Linux => icon "Terminal" | Windows => icon "Monitor" end.

(** [results.findIndex((r) => r.key === key)], -1 when there is none. *)
Fixpoint findIndex (key : jstr) (l : list SearchResult) (i : Z) : Z :=
  match l with
  | [] => -1
  | r :: l' => if result_key r =s key then i else findIndex key l' (i + 1)
  end.

Definition highlighted (s : dialog_state) (r : SearchResult) : bool :=
  selectedIndex s =? findIndex (result_key r) (results s) 0.

Definition row (s : dialog_state) (r : SearchResult) (cs : list (node search_action)) : node search_action :=
  button [OnClick (Select r); Attr "highlighted" (if highlighted s r then "true" else "false")] cs.

Section search_view.
(** [DeviceStatusBadge] with its small size. *)
Context (badge : DeviceStatus → node search_action).

Definition device_row (s : dialog_state) (d : Device) : node search_action :=
  row s (RDevice d) [
    OSIcon (d_os_type d);
    div [p_ [Text (d_label d ?? d_hostname d)];
         p_ [Text (d_hostname d); Text " · "; Text (d_ip_address d ?? "No IP")]];
    badge (d_status d)].

Definition software_row (s : dialog_state) (e : SoftwareSearchResult) : node search_action :=
  let versions := join ", " (sr_versions e) in
  row s (RSoftware e) [
    icon "PackageOpen";
    div [p_ [Text (sr_name e)];
         p_ [num_text (sr_device_count e); Text " devices · ";
             Text (if truthy versions then versions else "Unknown version")]]].

Definition search_view (s : dialog_state) : option (node search_action) :=
  if negb (search_open s) then None
  else Some (div [div [
    div [icon "Search";
         El "input" [Attr "value" (query s); OnChange SetQuery;
                     Attr "placeholder" "Search devices and software..."] [];
         button [OnClick Close] [Text "ESC"]];
    div [ if Nat.ltb (length (debouncedQuery s)) 2 then p_ [Text "Type at least 2 characters to search."]
          else if Nat.eqb (length (results s)) 0 then p_ [Text "No matching devices or software found."]
          else div (
            when (Nat.ltb 0 (length (devices s)))
              [el "section" [p_ [Text "Devices"]; div (map (device_row s) (devices s))]]
            ++ when (Nat.ltb 0 (length (software s)))
              [el "section" [p_ [Text "Software"]; div (map (software_row s) (software s))]])]]]).

End search_view.
End SearchView.

(** ** Layout *)

Module Layout.

(** The rows of the keyboard help. *)
Definition help_table : list (jstr * jstr) := [
  ("Ctrl/Cmd + K", "Open global search");
  ("G then D", "Go to dashboard");
  ("G then A", "Go to alerts");
  ("G then R", "Go to reports");
  ("G then S", "Go to settings");
  ("R", "Refresh current page data");
  ("Escape", "Close open overlays");
  ("?", "Open this help modal")].

Inductive layout_action := CloseSidebar | CloseHelp | InSidebar (a : Sidebar.sidebar_action) | InOther.

Section layout.
Context (sidebar topbar outlet search : node layout_action).

Definition view_help : node layout_action :=
  div [div [
    div [div [el "h2" [Text "Keyboard Shortcuts"];
              p_ [Text "Navigation and quick actions available globally."]];
         button [OnClick CloseHelp] [Text "Close"]];
    div [el "table" [
      el "thead" [el "tr" [el "th" [Text "Shortcut"]; el "th" [Text "Action"]]];
      el "tbody" (map (λ '(shortcut, what), el "tr" [el "td" [Text shortcut]; el "td" [Text what]])
                    help_table)]]]].

Definition layout_view (l : layoutStore.LayoutState) (showHelp : bool) : node layout_action :=
  div ([sidebar]
       ++ when (layoutStore.mobileSidebarOpen l)
            [div [button [OnClick CloseSidebar; Attr "aria-label" "Close sidebar"] []; sidebar]]
       ++ [div [topbar; el "main" [outlet]]; search]
       ++ when showHelp [view_help]).

End layout.
End Layout.

(** ** The routes of [App.tsx] *)

Module AppRoutes.

Inductive route_page :=
| Login | Status | Onboarding | HomeRoute | CustomDashboard | DeviceDetail (id : jstr)
| DeviceCompare | NetworkMap | Alerts | Reports | Inventory | CommandLibrary | SoftwareUpdates
| ScheduledCommands | Users | Compliance | AuditLog | Downloads | Organizations | Settings.

(** Each element is wrapped in an [ErrorBoundary]; the protected ones are also
    inside [ProtectedRoute], the children of ["/"] inside [Layout]. *)
Inductive route_element := Plain (p : route_page) | Protected (p : route_page) | InLayout (p : route_page) | NavigateTo (path : jstr).

(** The static children of ["/"]. *)
Definition layout_children : list (jstr * route_page) := [
  ("my-dashboard", CustomDashboard);
  ("compare", DeviceCompare);
  ("network-map", NetworkMap);
  ("alerts", Alerts);
  ("reports", Reports);
  ("inventory", Inventory);
  ("command-library", CommandLibrary);
  ("software-updates", SoftwareUpdates);
  ("scheduled", ScheduledCommands);
  ("users", Users);
  ("compliance", Compliance);
  ("audit", AuditLog);
  ("downloads", Downloads);
  ("organizations", Organizations);
  ("settings", Settings)].

(** The element of a path given by its non-empty segments.  The router
    compares static segments without case and takes [*] when nothing fits. *)
Definition match_route (segments : list jstr) : route_element :=
  match segments with
  | [] => InLayout HomeRoute
  | [s] =>
      let s := toLowerCase s in
      if s =s "login" then Plain Login
      else if s =s "status" then Plain Status
      else if s =s "onboarding" then Protected Onboarding
      else match find (λ c, fst c =s s) layout_children with
           | Some c => InLayout (snd c)
           | None => NavigateTo "/"
           end
  | [s; id] => if toLowerCase s =s "devices" then InLayout (DeviceDetail id) else NavigateTo "/"
  | _ => NavigateTo "/"
  end.

(** The path of a location without its query. *)
Definition path_segments (path : jstr) : list jstr :=
  bfilter truthy (split [47] (hd [] (split [63] path))).

(** What is shown: a page (with the release notes dialog on protected ones, in
    the layout or not), or a redirection. *)
Inductive route_screen := Show (whats_new in_layout : bool) (p : route_page) | Redirect (path : jstr).

Definition ProtectedRoute (isAuthenticated : bool) (children : route_screen) : route_screen :=
  if isAuthenticated then children else Redirect "/login".

Definition App (isAuthenticated : bool) (path : jstr) : route_screen :=
  match match_route (path_segments path) with
  | Plain p => Show false false p
  | Protected p => ProtectedRoute isAuthenticated (Show true false p)
  | InLayout p => ProtectedRoute isAuthenticated (Show true true p)
  | NavigateTo to => Redirect to
  end.

(** Following redirections. *)
Fixpoint follow_redirects (fuel : nat) (isAuthenticated : bool) (path : jstr) : option route_screen :=
  match fuel with
  | O => None
  | S fuel =>
      match App isAuthenticated path with
      | Redirect to => follow_redirects fuel isAuthenticated to
      | s => Some s
      end
  end.

(** [HomeRoute]: administrators without devices are sent to the onboarding. *)
Inductive home := Loading | GoOnboarding | ShowDashboard.
Definition homeRoute (role : option jstr) (isLoading : bool) (devices : option (list Device)) : home :=
  if bool_decide (role = Some "admin") then
    if isLoading then Loading
    else if Nat.eqb (match devices with Some l => length l | None => 0%nat end) 0 then GoOnboarding
    else ShowDashboard
  else ShowDashboard.
(** Its query runs for administrators only. *)
Definition home_query (role : option jstr) : option request :=
  if bool_decide (role = Some "admin") then Some (devicesApi.devices_list None None) else None.

Lemma signed_out_match segs :
  match match_route segs with
  | Plain p => p = Login ∨ p = Status
  | NavigateTo to => to = "/"
  | _ => True
  end.
Proof.
  destruct segs as [|s [|id [|? ?]]]; cbn [match_route]; [done| |by destruct (toLowerCase s =s "devices")|done].
  destruct (toLowerCase s =s "login"); [by left|].
  destruct (toLowerCase s =s "status"); [by right|].
  destruct (toLowerCase s =s "onboarding"); [done|]. by destruct (find _ _).
Qed.

End AppRoutes.

(** ** Properties *)

Module ShellProps.
Import AppRoutes.

(** No unit of a literal is a given separator. *)
Ltac literal_units :=
  let d := fresh in let H := fresh in
  intros d H; repeat (destruct H as [<-|H]; [discriminate|]); destruct H.

(** C40: without a session every location, whatever its path, ends after at
    most two redirections on the login page or the public status page. *)
Theorem signed_out_sees_login_only path :
  ∃ p, follow_redirects 3 false path = Some (Show false false p) ∧ (p = Login ∨ p = Status).
Proof.
  cbn [follow_redirects]. unfold App at 1. pose proof (signed_out_match (path_segments path)) as H.
  destruct (match_route (path_segments path)) as [p|p|p|to]; [by exists p|..]; simpl.
  - exists Login. split; [reflexivity|by left].
  - exists Login. split; [reflexivity|by left].
  - subst to. exists Login. split; [vm_compute; reflexivity|by left].
Qed.

Lemma device_path_segments id :
  truthy id = true → (∀ c, In c id → c ≠ 47 ∧ c ≠ 63) →
  path_segments ("/devices/" ++ id) = ["devices"; id].
Proof.
  intros Hid Hok. unfold path_segments.
  rewrite (split1_none 63).
  - cbn [hd].
    pose proof (split_join 47 [[]; "devices"; id]) as E.
    change (join [47] [[]; "devices"; id]) with ("/devices/" ++ id) in E. rewrite E; [|done|].
    + unfold bfilter. cbn [List.filter truthy]. by rewrite Hid.
    + intros s [<-|[<-|[<-|[]]]]; [done|literal_units|]. intros d Hd. by apply Hok.
  - intros d [Hd|Hd]%(in_app_iff "/devices/" id); [|by apply Hok]. revert d Hd. literal_units.
Qed.

(** With a session every entry of the sidebar, every target of the keyboard
    shortcuts and every device or software hit of the global search leads to a
    page of its own, never to the catch-all redirection; administrators' links
    are offered to administrators only. *)
Theorem navigation_targets_exist (st : Sidebar.sidebar_state) (id : jstr) to :
  truthy id = true → (∀ c, In c id → c ≠ 47 ∧ c ≠ 63) →
  In to (map Sidebar.nav_to (Sidebar.visibleItems st) ++ ["/alerts"; "/reports"; "/settings"; "/"]
         ++ ["/devices/" ++ id]) →
  (∃ p, App true to = Show true true p) ∧
  (Sidebar.is_admin st = false → In to (map Sidebar.nav_to (Sidebar.visibleItems st)) →
   to ≠ "/users" ∧ to ≠ "/audit").
Proof.
  intros Hid Hok Hin. split.
  - rewrite !in_app_iff in Hin. destruct Hin as [Hin|[Hin|[<-|[]]]].
    + unfold Sidebar.visibleItems in Hin. apply in_map_iff in Hin as (i & <- & [Hi _]%bfilter_In).
      revert i Hi. apply List.Forall_forall.
      repeat (constructor; [eexists; vm_compute; reflexivity|]). constructor.
    + revert to Hin. apply List.Forall_forall.
      repeat (constructor; [eexists; vm_compute; reflexivity|]). constructor.
    + exists (DeviceDetail id). unfold App. by rewrite device_path_segments.
  - intros Ha Hv. unfold Sidebar.visibleItems in Hv. rewrite Ha in Hv.
    vm_compute in Hv. split; intros ->; revert Hv; vm_compute; intuition discriminate.
Qed.

Definition viewer : Sidebar.sidebar_state :=
  {| Sidebar.role := Some "viewer"; Sidebar.branding := brandingStore.DEFAULTS; Sidebar.alerts := None;
     Sidebar.groups := []; Sidebar.activeGroupId := None; Sidebar.showCreateGroup := false;
     Sidebar.groupName := ""; Sidebar.groupColor := "#3b82f6"; Sidebar.createPending := false |}.

Lemma navigation_targets_exist_witness : ∃ p, App true "/compliance" = Show true true p.
Proof.
  apply (navigation_targets_exist viewer "d1" "/compliance"); [reflexivity| |].
  - intros c Hc. vm_compute in Hc. repeat (destruct Hc as [<-|Hc]; [split; discriminate|]). destruct Hc.
  - vm_compute. repeat (first [left; reflexivity | right]).
Defined.

End ShellProps.
