(* ===== verification/DeviceComponents.v ===== *)
(** The components of [frontend/src/components/device] and the query hooks they
    use ([hooks/useDevices.ts], [useAlerts.ts], [useMetrics.ts]).

    Texts made by [date-fns], [localeCompare] and the decimal notation of
    numbers are parameters.  The data of the queries is part of the state. *)
From Stdlib Require Import QArith Qabs Qround Lqa.
From S2P Require Import Prelude JsString JsNumber Types JsJson Api Stores Ui.
Local Open Scope Z_scope.
Local Open Scope js_scope.

(** ** Query hooks *)

(** A query: its key, its request, its refetch interval in milliseconds (0 when
    it has none) and whether it may run. *)
Record query := Query {
  q_key : list json; q_request : request; q_interval : Z; q_enabled : bool }.

Module Hooks.
(** [params] is undefined or an object. *)
Definition useAlerts (params : option (option jstr * option bool)) : query :=
  match params with
  | None => Query [JStr "alerts"; JNull] (alertsApi.alerts_list None None None None) 30000 true
  | Some (d, r) =>
      Query [JStr "alerts"; JObj (opt_param "device_id" JStr d ++ opt_param "resolved" JBool r)]
        (alertsApi.alerts_list d r None None) 30000 true
  end.
Definition useResolveAlert (id : jstr) : list ui_effect := [Request (alertsApi.alert_resolve id)].
Definition useResolveAlert_success : list ui_effect := [Invalidate ["alerts"]].
Definition useDevices (tag : option jstr) : query :=
  Query [JStr "devices"; JStr (tag ?? "all")] (devicesApi.devices_list tag None) 30000 true.
Definition useDevice (id : jstr) : query :=
  Query [JStr "device"; JStr id] (devicesApi.device_get id) 15000 true.
Definition useUpdateDevice (id : jstr) (data : list (jstr * json)) : list ui_effect :=
  [Request (devicesApi.device_update id data)].
Definition useUpdateDevice_success (id : jstr) : list ui_effect :=
  [Invalidate ["device"; id]; Invalidate ["devices"]; Invalidate ["inventory"]; Invalidate ["tags"]].
(** [hours] defaults to 24. *)
Definition useMetrics (deviceId : jstr) (hours : Z) : query :=
  Query [JStr "metrics"; JStr deviceId; JZ hours] (metricsApi.metrics_list deviceId hours) 60000
    (truthy deviceId).
Definition useLatestMetric (deviceId : jstr) : query :=
  Query [JStr "metrics"; JStr deviceId; JStr "latest"] (metricsApi.latest deviceId) 30000
    (truthy deviceId).
End Hooks.

(** Ceiling of a quotient, as [Math.ceil(total / pageSize)] for integers. *)
Definition total_pages (total pageSize : Z) : Z := Z.max 1 (- (- total / pageSize)).

(** [x.toFixed(1)]: the sign, and the tenth nearest to the magnitude, the larger
    one of two. *)
Definition toFixed1 (x : Q) : jstr :=
  let m := Qfloor (Qabs x * 10 + (1 # 2)) in
  (if Qnum x <? 0 then [45] else []) ++ string_of_Z (m / 10) ++ "." ++ string_of_Z (m mod 10).
(** [Math.round(x)] *)
Definition round (x : Q) : Z := Qfloor (x + (1 # 2)).

(** ** DeviceStatusBadge *)

Module DeviceStatusBadge.
Section badge.
Context {A : Type}.
Record badge_entry := Badge { dot : jstr; label : jstr; text_class : jstr }.
Definition badge_config (s : DeviceStatus) : badge_entry :=
  match s with
  | Online => Badge "bg-green-400" "Online" "text-green-400"
  | Offline => Badge "bg-gray-500" "Offline" "text-gray-400"
  | InAlert => Badge "bg-red-500 animate-pulse" "Alert" "text-red-400"
  end.
(** [small] is [size === 'sm']; the default size is ['md']. *)
Definition DeviceStatusBadge (s : DeviceStatus) (small : bool) : node A :=
  let c := badge_config s in
  El "span" [Attr "class" (join " " ["inline-flex items-center gap-1.5"; text_class c;
                                     if small then "text-xs" else "text-sm"])]
    [El "span" [Attr "class" (join " " ["rounded-full"; dot c;
                                        if small then "w-1.5 h-1.5" else "w-2 h-2"])] [];
     Text (label c)].
End badge.
End DeviceStatusBadge.

(** ** NetworkInfo *)

Module NetworkInfo.
Definition network_query (deviceId : jstr) : query :=
  Query [JStr "device-network"; JStr deviceId] (devicesApi.network deviceId) 60000 (truthy deviceId).

Section view.
Context {A : Type}.
Definition addresses (l : list jstr) : jstr := if Nat.ltb 0 (length l) then join ", " l else "—".
Definition iface_row (i : NetworkInterface) : node A :=
  el "tr" [
    el "td" [Text (ni_interface_name i)];
    el "td" [Text (if otruthy (ni_mac_address i) then ni_mac_address i ?? "" else "—")];
    el "td" [Text (addresses (ni_ipv4 i))];
    el "td" [Text (addresses (ni_ipv6 i))];
    el "td" [match ni_mtu i with Some m => num_text m | None => Text "—" end];
    el "td" [span [Text (if ni_is_up i then "up" else "down")]]].
Definition NetworkInfo (data : option DeviceNetworkResponse) (isLoading : bool) : node A :=
  let interfaces := match data with Some d => dn_interfaces d | None => [] end in
  if isLoading then div [Text "Loading network data..."]
  else if Nat.eqb (length interfaces) 0 then div [Text "No network data"]
  else div [el "table" [
    el "thead" [el "tr" (map (λ h, el "th" [Text h]) ["Name"; "MAC"; "IPv4"; "IPv6"; "MTU"; "Status"])];
    el "tbody" (map iface_row interfaces)]].
End view.
End NetworkInfo.

(** ** EventLog *)

Module EventLog.
Inductive mode := System | Agent.
Definition event_page_size : Z := 50.

(** [mode] defaults to ['system']; an agent's log is not paged. *)
Definition events_query (deviceId : jstr) (m : mode) (page : Z) : query :=
  Query [JStr "events"; JStr deviceId; JStr (match m with System => "system" | Agent => "agent" end); JZ page]
    (match m with
     | Agent => devicesApi.agentLogs deviceId
     | System => get_params ("/devices/" ++ deviceId ++ "/events")
                   [("skip", JZ ((page - 1) * event_page_size)); ("limit", JZ event_page_size)]
     end) 30000 true.

(** The action is [setPage]. *)
Section view.
Context (format : jstr → jstr).

Definition level (e : Event) : jstr :=
  if includes (e_source e ?? "") "error" then "ERROR"
  else if includes (e_source e ?? "") "warn" then "WARN" else "INFO".

Definition agent_row (e : Event) : node Z :=
  div [span [Text (format (e_time e)); Text " "]; span [Text (level e)];
       span [Text " "; Text (e_source e ?? "agent/main"); Text " "]; span [Text (e_message e)]].

Definition event_row (e : Event) : node Z :=
  div ([span [Text (format (e_time e))]; span [Text (toUpperCase (event_string (e_event_type e)))];
        span [Text (e_message e)]]
       ++ when (otruthy (e_source e)) [span [Text "- "; Text (e_source e ?? "")]]).

(** [data]: the events of the page and the total (the agent log's own length). *)
Definition EventLog (m : mode) (page : Z) (data : option (list Event * Z)) (isLoading : bool) : node Z :=
  let events := match data with Some (l, _) => l | None => [] end in
  let total := match m with
               | Agent => Z.of_nat (length events)
               | System => match data with Some (_, t) => t | None => 0 end
               end in
  if isLoading then Skeleton.SkeletonTable 6
  else if Nat.eqb (length events) 0 then
    p_ [Text "No "; Text (match m with Agent => "agent logs" | System => "events" end); Text " recorded."]
  else match m with
  | Agent => div (map agent_row events)
  | System =>
      div [div (map event_row events);
           div (match Pagination.Pagination page (total_pages total event_page_size) with
                | Some n => [n] | None => [] end)]
  end.
End view.
End EventLog.

(** ** ProcessList *)

Module ProcessList.

Inductive SortKey := Pid | Name | CpuPercent | MemPercent | StatusKey.
#[global] Instance SortKey_eq_dec : EqDecision SortKey.
Proof. solve_decision. Defined.

Record process_state := {
  ps_search : jstr; ps_sortKey : SortKey; ps_descending : bool;
  ps_data : option ProcessListResponse; ps_loading : bool; ps_failed : bool; ps_refreshing : bool }.

Definition process_initial : process_state :=
  {| ps_search := []; ps_sortKey := CpuPercent; ps_descending := true; ps_data := None;
     ps_loading := true; ps_failed := false; ps_refreshing := false |}.

(** Runs only for the active tab; 60 s. *)
Definition processes_query (deviceId : jstr) (active : bool) : query :=
  Query [JStr "device-processes"; JStr deviceId] (devicesApi.processes deviceId) 60000 active.
Definition refreshProcesses (deviceId : jstr) : request :=
  commandsApi.dispatch deviceId "request_process_list" [].

Inductive process_action := SetSearch (s : jstr) | ToggleSort (k : SortKey) | Refresh.

Definition toggleSort (key : SortKey) (s : process_state) : process_state :=
  if decide (ps_sortKey s = key) then
    {| ps_search := ps_search s; ps_sortKey := ps_sortKey s; ps_descending := negb (ps_descending s);
       ps_data := ps_data s; ps_loading := ps_loading s; ps_failed := ps_failed s;
       ps_refreshing := ps_refreshing s |}
  else
    {| ps_search := ps_search s; ps_sortKey := key;
       ps_descending := negb (bool_decide (key = Name)) && negb (bool_decide (key = StatusKey));
       ps_data := ps_data s; ps_loading := ps_loading s; ps_failed := ps_failed s;
       ps_refreshing := ps_refreshing s |}.

Section list.
(** [a.localeCompare(b) <= 0] *)
Context (locale_le : jstr → jstr → bool).

(** Whether [left] may stay before [right] in increasing order. *)
Definition key_le (k : SortKey) (x y : ProcessInfo) : bool :=
  match k with
  | Pid => p_pid x <=? p_pid y
  | Name => locale_le (p_name x) (p_name y)
  | CpuPercent => Qle_bool (p_cpu_percent x) (p_cpu_percent y)
  | MemPercent => Qle_bool (p_mem_percent x) (p_mem_percent y)
  | StatusKey => locale_le (p_status x) (p_status y)
  end.
Definition process_before (s : process_state) (x y : ProcessInfo) : bool :=
  if ps_descending s then key_le (ps_sortKey s) y x else key_le (ps_sortKey s) x y.

Definition process_shown (s : process_state) (p : ProcessInfo) : bool :=
  includes (toLowerCase (p_name p)) (toLowerCase (ps_search s)).

Definition process_rows (s : process_state) : list ProcessInfo :=
  stable_sort (process_before s)
    (bfilter (process_shown s) (match ps_data s with Some d => pl_processes d | None => [] end)).

Definition process_row (p : ProcessInfo) : node process_action :=
  El "tr" [Attr "class" (if negb (Qle_bool (p_cpu_percent p) 50) then "bg-red-50 dark:bg-red-500/10"
                         else if negb (Qle_bool (p_cpu_percent p) 20) then "bg-amber-50 dark:bg-amber-500/10"
                         else "")]
    [el "td" [num_text (p_pid p)]; el "td" [Text (p_name p)]; el "td" [Text (toFixed1 (p_cpu_percent p))];
     el "td" [Text (toFixed1 (p_mem_percent p))]; el "td" [Text (p_status p)]].

Definition process_view (s : process_state) : node process_action :=
  let rows := process_rows s in
  div ([div [El "input" [Attr "value" (ps_search s); OnChange SetSearch;
                         Attr "placeholder" "Filter by process name"] [];
             button [OnClick Refresh; Disabled (ps_refreshing s)] [Text "Refresh"]]]
       ++ when (ps_loading s) [p_ [Text "Loading processes..."]]
       ++ when (negb (ps_loading s) && ps_failed s) [p_ [Text "No process list available yet."]]
       ++ when (negb (ps_loading s) && negb (ps_failed s))
            [div [el "table" [
               el "thead" [el "tr" (map (λ '(k, l), el "th" [button [OnClick (ToggleSort k)] [Text l]])
                  [(Pid, "PID"); (Name, "Name"); (CpuPercent, "CPU%"); (MemPercent, "Mem%");
                   (StatusKey, "Status")])];
               el "tbody" (map process_row rows
                  ++ when (Nat.eqb (length rows) 0)
                       [el "tr" [El "td" [Attr "colSpan" "5"] [Text "No matching processes."]]])]]]).

(** *** Lemmas *)

Context (locale_total : ∀ a b, locale_le a b = true ∨ locale_le b a = true).
Context (locale_trans : ∀ a b c, locale_le a b = true → locale_le b c = true → locale_le a c = true).

Lemma Qle_bool_total (x y : Q) : Qle_bool x y = true ∨ Qle_bool y x = true.
Proof. rewrite !Qle_bool_iff. destruct (Qlt_le_dec x y); [left; by apply Qlt_le_weak|by right]. Qed.

Lemma Qle_bool_trans (x y z : Q) : Qle_bool x y = true → Qle_bool y z = true → Qle_bool x z = true.
Proof. rewrite !Qle_bool_iff. apply Qle_trans. Qed.

Lemma key_le_total k x y : key_le k x y = true ∨ key_le k y x = true.
Proof. destruct k; simpl; auto using Qle_bool_total. rewrite !Z.leb_le. lia. Qed.

Lemma key_le_trans k x y z : key_le k x y = true → key_le k y z = true → key_le k x z = true.
Proof. destruct k; simpl; eauto using Qle_bool_trans. rewrite !Z.leb_le. lia. Qed.

Lemma process_rows_order s :
  StronglySorted (λ x y, process_before s x y = true) (process_rows s).
Proof.
  apply stable_sort_sorted.
  - intros x y. unfold process_before. destruct (ps_descending s); apply key_le_total.
  - intros x y z. unfold process_before. destruct (ps_descending s); [|apply key_le_trans].
    intros H1 H2. by apply (key_le_trans _ z y x).
Qed.

End list.
End ProcessList.

(** ** SoftwareTable *)

Module SoftwareTable.

Definition software_page_size : Z := 100.

(** [own_timer] is the [_t] property of the current [handleSearchChange], a
    function made anew by every render; [timers] are the armed timers with the
    value each will set. *)
Record software_state := {
  sw_page : Z; sw_search : jstr; sw_debounced : jstr;
  own_timer : option positive; timers : list (positive * jstr); next_timer : positive;
  sw_data : option (list SoftwarePackage * Z); sw_loading : bool }.

Definition software_initial : software_state :=
  {| sw_page := 1; sw_search := []; sw_debounced := []; own_timer := None; timers := [];
     next_timer := 1; sw_data := None; sw_loading := true |}.

(** [clearTimeout(t)]; clearing [undefined] does nothing. *)
Definition clearTimeout (t : option positive) (l : list (positive * jstr)) : list (positive * jstr) :=
  match t with Some t => bfilter (λ u, negb (Pos.eqb (fst u) t)) l | None => l end.

(** The state setters cause a render, hence a new closure without [_t], when
    they change something. *)
Definition handleSearchChange (value : jstr) (s : software_state) : software_state :=
  let t := next_timer s in
  let rerender := negb (value =s sw_search s) || negb (sw_page s =? 1) in
  {| sw_page := 1; sw_search := value; sw_debounced := sw_debounced s;
     own_timer := if rerender then None else Some t;
     timers := (t, value) :: clearTimeout (own_timer s) (timers s);
     next_timer := Pos.succ t; sw_data := sw_data s; sw_loading := sw_loading s |}.

(** The oldest timer fires: [setDebouncedSearch(value)], a render if it changes. *)
Definition timer_fires (s : software_state) : software_state :=
  match rev (timers s) with
  | (_, value) :: r =>
      {| sw_page := sw_page s; sw_search := sw_search s; sw_debounced := value;
         own_timer := if value =s sw_debounced s then own_timer s else None;
         timers := rev r; next_timer := next_timer s; sw_data := sw_data s; sw_loading := sw_loading s |}
  | [] => s
  end.

Definition software_query (deviceId : jstr) (s : software_state) : query :=
  Query [JStr "software"; JStr deviceId; JZ (sw_page s); JStr (sw_debounced s)]
    (get_params ("/devices/" ++ deviceId ++ "/software")
       ([("skip", JZ ((sw_page s - 1) * software_page_size)); ("limit", JZ software_page_size)]
        ++ (if truthy (sw_debounced s) then [("search", JStr (sw_debounced s))] else [])))
    120000 true.

Inductive software_action := SearchChange (v : jstr) | SetPage (p : Z).

Section view.
(** [n.toLocaleString()] *)
Context (toLocaleString : Z → jstr).

Definition package_row (p : SoftwarePackage) : node software_action :=
  el "tr" [el "td" [Text (sp_name p)]; el "td" [Text (sp_version p ?? "—")];
           el "td" [if sp_update_available p
                    then span [icon "ArrowUpCircle"; Text " "; Text (sp_latest_version p ?? "")]
                    else span [Text "—"]]].

Definition software_view (s : software_state) : node software_action :=
  let packages := match sw_data s with Some (l, _) => l | None => [] end in
  let total := match sw_data s with Some (_, t) => t | None => 0 end in
  let updatesAvailable := Z.of_nat (length (bfilter sp_update_available packages)) in
  if sw_loading s then Skeleton.SkeletonTable 6
  else div [
    div ([div ([icon "Search";
                El "input" [Attr "type" "text"; Attr "value" (sw_search s); OnChange SearchChange;
                            Attr "placeholder" "Search packages…"] []]
               ++ when (truthy (sw_search s)) [button [OnClick (SearchChange [])] [icon "X"]]);
          span [Text (toLocaleString total); Text " package"; Text (if total =? 1 then "" else "s")]]
         ++ when (0 <? updatesAvailable)
              [span [icon "ArrowUpCircle"; num_text updatesAvailable; Text " update";
                     Text (if 1 <? updatesAvailable then "s" else ""); Text " available"]]);
    if Nat.eqb (length packages) 0
    then p_ [Text (if truthy (sw_debounced s)
                   then "No packages matching " ++ [34] ++ sw_debounced s ++ [34]
                   else "No software inventory recorded.")]
    else div [
      div [el "table" [
        el "thead" [el "tr" [el "th" [Text "Name"]; el "th" [Text "Version"]; el "th" [Text "Update"]]];
        el "tbody" (map package_row packages)]];
      div (match Pagination.Pagination (sw_page s) (total_pages total software_page_size) with
           | Some n => [map_node SetPage n] | None => [] end)]].
End view.

(** Typing a sequence of values. *)
Definition type_all (vs : list jstr) (s : software_state) : software_state :=
  fold_left (λ s v, handleSearchChange v s) vs s.

(** Each value differs from the one before it. *)
Fixpoint changing (v0 : jstr) (vs : list jstr) : bool :=
  match vs with [] => true | v :: vs' => negb (v =s v0) && changing v vs' end.

Lemma type_all_timers vs s :
  own_timer s = None → changing (sw_search s) vs = true →
  own_timer (type_all vs s) = None ∧
  map snd (timers (type_all vs s)) = rev vs ++ map snd (timers s).
Proof.
  revert s. induction vs as [|v vs IH]; intros s Ho Hc; [done|].
  apply andb_true_iff in Hc as [Hv Hc].
  destruct (IH (handleSearchChange v s)) as [H1 H2]; [|exact Hc|].
  - unfold handleSearchChange. cbn [own_timer]. by rewrite Hv.
  - split; [exact H1|]. change (type_all (v :: vs) s) with (type_all vs (handleSearchChange v s)).
    rewrite H2. unfold handleSearchChange. cbn [timers]. rewrite Ho. cbn. by rewrite <-app_assoc.
Qed.

End SoftwareTable.

(** ** DeviceCard *)

Module DeviceCard.

Inductive card_action := Open | ToggleSelect (deviceId : jstr).

(** [navigate(`/devices/${device.id}`)] *)
Definition card_update (d : Device) (a : card_action) : list ui_effect :=
  match a with Open => [Navigate ("/devices/" ++ d_id d)] | ToggleSelect _ => [] end.

Definition card_alerts_query (d : Device) : query :=
  Query [JStr "alerts"; JStr "device-card"; JStr (d_id d)]
    (alertsApi.alerts_list (Some (d_id d)) (Some false) None None) 30000
    (bool_decide (d_status d = InAlert)).
Definition sparkline_query (d : Device) : query :=
  Query [JStr "metrics"; JStr "sparkline"; JStr (d_id d)] (metricsApi.metrics_list (d_id d) 1) 120000
    (bool_decide (d_status d = Online)).

Definition card_icon (os : OsType) : node card_action :=
  match os with Macos => icon "Apple" | Linux => icon "Terminal" | Windows => icon "Monitor" end.

(** *** The sparkline *)

Definition spark_height : Q := 40.
Definition spark_width : Q := 180.
Definition spark_step (n : nat) : Q :=
  if Nat.ltb 1 n then spark_width / inject_Z (Z.of_nat n - 1) else spark_width.
(** [Math.max(0, Math.min(100, value))] *)
Definition Qmin100 (v : Q) : Q := if Qle_bool 100 v then 100 else v.
Definition clamp_percent (v : Q) : Q := if Qle_bool (Qmin100 v) 0 then 0 else Qmin100 v.
Definition spark_y (value : Q) : Q := spark_height - clamp_percent value / 100 * spark_height.
Definition spark_points (values : list Q) : list (Q * Q) :=
  imap (λ i v, (inject_Z (Z.of_nat i) * spark_step (length values), spark_y v)%Q) values.

(** The values of a card: absent ones are 0, oldest first. *)
Definition spark_values (ms : list Metric) : list Q := rev (map (λ m, m_cpu_percent m ?? 0%Q) ms).

Section view.
Context (String_of : Q → jstr) (formatDistanceToNow : jstr → jstr).

Definition spark_path (values : list Q) : jstr :=
  join " " (imap (λ i '(x, y), (if Nat.eqb i 0 then "M" else "L") ++ " " ++ String_of x ++ " " ++ String_of y)
              (spark_points values)).
Definition CPUSparkline (values : list Q) : node card_action :=
  match values with
  | [] => div []
  | _ => El "svg" [Attr "viewBox" "0 0 180 40"] [El "path" [Attr "d" (spark_path values)] []]
  end.

Definition in_maintenance (d : Device) : bool := d_maintenance_mode d ?? false.

Definition card_view (d : Device) (selected selectable : bool) (unresolved : list Alert)
    (metrics : list Metric) : node card_action :=
  El "div" [OnClick Open; Attr "selected" (if selected then "true" else "false")] (
    when (in_maintenance d) [span [span [icon "Wrench"; Text "Maint"]]]
    ++ when (negb (in_maintenance d) && bool_decide (d_status d = InAlert)
             && Nat.ltb 0 (length unresolved)) [span [num_text (Z.of_nat (length unresolved))]]
    ++ when selectable
         [div [El "input" [Attr "type" "checkbox"; Checked selected; OnChange (λ _, ToggleSelect (d_id d));
                           Attr "aria-label" ("Select " ++ d_hostname d)] []]]
    ++ [div ([div [card_icon (d_os_type d);
                   div ([p_ [Text (d_label d ?? d_hostname d)]]
                        ++ when (otruthy (d_label d)) [p_ [Text (d_hostname d)]])]]
             ++ when (negb (in_maintenance d)) [DeviceStatusBadge.DeviceStatusBadge (d_status d) true]);
        div ([p_ [Text (d_os_version d ?? os_string (d_os_type d))]; p_ [Text (d_ip_address d ?? "No IP")]]
             ++ match d_last_seen d with
                | Some t => when (truthy t) [p_ [Text "Last seen:"; Text " "; span [Text (formatDistanceToNow t)]]]
                | None => []
                end);
        div [p_ [Text "CPU last hour"]; CPUSparkline (spark_values metrics)]]).
End view.

Lemma clamp_percent_bounds v : (0 <= clamp_percent v <= 100)%Q.
Proof.
  unfold clamp_percent. destruct (Qle_bool (Qmin100 v) 0) eqn:E; [split; discriminate|].
  split.
  - apply Qlt_le_weak, Qnot_le_lt. intros H. apply Qle_bool_iff in H. congruence.
  - unfold Qmin100. destruct (Qle_bool 100 v) eqn:F; [apply Qle_refl|].
    apply Qlt_le_weak, Qnot_le_lt. intros H. apply Qle_bool_iff in H. congruence.
Qed.

Lemma spark_y_bounds v : (0 <= spark_y v <= 40)%Q.
Proof.
  unfold spark_y, spark_height. destruct (clamp_percent_bounds v) as [H0 H1].
  assert (0 <= clamp_percent v / 100)%Q by (apply Qle_shift_div_l; [reflexivity|by rewrite Qmult_0_l]).
  assert (clamp_percent v / 100 <= 1)%Q by (apply Qle_shift_div_r; [reflexivity|by rewrite Qmult_1_l]).
  set (c := (clamp_percent v / 100)%Q) in *. clearbody c. split; lra.
Qed.

Lemma spark_x_bounds n i :
  (i < n)%nat → (0 <= inject_Z (Z.of_nat i) * spark_step n <= 180)%Q.
Proof.
  intros Hi. unfold spark_step, spark_width. destruct (Nat.ltb_spec 1 n) as [Hn|Hn].
  - assert (0 < inject_Z (Z.of_nat n - 1))%Q as Hpos by (change 0%Q with (inject_Z 0); rewrite <-Zlt_Qlt; lia).
    assert (inject_Z (Z.of_nat i) * (180 / inject_Z (Z.of_nat n - 1)) ==
            180 * inject_Z (Z.of_nat i) / inject_Z (Z.of_nat n - 1))%Q as ->.
    { field. intros E. rewrite E in Hpos. discriminate. }
    split.
    + apply Qle_shift_div_l; [done|]. rewrite Qmult_0_l. apply Qmult_le_0_compat; [discriminate|].
      change 0%Q with (inject_Z 0). rewrite <-Zle_Qle. lia.
    + apply Qle_shift_div_r; [done|]. apply Qmult_le_l; [reflexivity|]. rewrite <-Zle_Qle. lia.
  - assert (i = 0)%nat as -> by lia. simpl. split; [discriminate|]. discriminate.
Qed.

End DeviceCard.

(** ** MetricsChart *)

Module MetricsChart.

Record chart_point := {
  cp_time : jstr; cp_CPU : option Z; cp_RAM : option Z; cp_Disk : option Z;
  cp_DiskRead : option Q; cp_DiskWrite : option Q; cp_NetSent : option Q; cp_NetRecv : option Q }.

Section chart.
Context (format : jstr → jstr).

(** Oldest first, percentages rounded. *)
Definition chart_data (metrics : list Metric) : list chart_point :=
  map (λ m, {| cp_time := format (m_time m);
               cp_CPU := round <$> m_cpu_percent m;
               cp_RAM := round <$> m_ram_percent m;
               cp_Disk := round <$> m_disk_percent m;
               cp_DiskRead := m_disk_read_mbps m; cp_DiskWrite := m_disk_write_mbps m;
               cp_NetSent := m_net_sent_mbps m; cp_NetRecv := m_net_recv_mbps m |}) (rev metrics).

Inductive chart_action := ToggleExpanded.
Definition chart_update (a : chart_action) (expanded : bool) : bool := negb expanded.

(** A chart drawn by the chart library from the points, with its unit and the
    keys and names of its lines. *)
Definition line_chart (unit : jstr) (lines : list (jstr * jstr)) : node chart_action :=
  El "LineChart" []
    ([El "XAxis" [Attr "dataKey" "time"] []; El "YAxis" [Attr "unit" unit] []; icon "Tooltip"; icon "Legend"]
     ++ map (λ '(k, n), El "Line" [Attr "dataKey" k; Attr "name" n] []) lines).

Definition chart_view (expanded : bool) : node chart_action :=
  div ([line_chart "%" [("CPU", "CPU"); ("RAM", "RAM"); ("Disk", "Disk")];
        button [OnClick ToggleExpanded] [Text (if expanded then "Hide I/O charts" else "Expand I/O charts")]]
       ++ when expanded
            [div [div [p_ [Text "Disk I/O"];
                       line_chart " MB/s" [("DiskRead", "Read MB/s"); ("DiskWrite", "Write MB/s")]];
                  div [p_ [Text "Network"];
                       line_chart " MB/s" [("NetSent", "Sent MB/s"); ("NetRecv", "Recv MB/s")]]]]).
End chart.
End MetricsChart.

(** ** CommandPanel *)

Module CommandPanel.

Record panel_state := {
  commandText : jstr; selectedCmd : option Command; libraryOpen : bool;
  savedCommandName : jstr; savedCommandDescription : jstr; panel_search : jstr;
  commands : list Command; savedCommands : list SavedCommand; dispatchPending : bool }.

Definition panel_initial : panel_state :=
  {| commandText := []; selectedCmd := None; libraryOpen := false; savedCommandName := [];
     savedCommandDescription := []; panel_search := []; commands := []; savedCommands := [];
     dispatchPending := false |}.

Definition commands_query (deviceId : jstr) : query :=
  Query [JStr "commands"; JStr deviceId] (commandsApi.commands_list deviceId) 5000 true.

Inductive panel_action :=
| SetText (s : jstr)
| PressEnter
| ClickSend
| OpenLibrary (b : bool)
| Quick (type now : jstr)
| ClickCommand (c : Command)
| SetPanelSearch (s : jstr)
| RunSaved (c : SavedCommand)
| SetSaveName (s : jstr)
| SetSaveDescription (s : jstr)
| SaveCurrent
| CommandsFetched (l : list Command)
| DispatchDone (ok : bool)
| SaveDone.

Definition with_text (t : jstr) (p : panel_state) : panel_state :=
  {| commandText := t; selectedCmd := selectedCmd p; libraryOpen := libraryOpen p;
     savedCommandName := savedCommandName p; savedCommandDescription := savedCommandDescription p;
     panel_search := panel_search p; commands := commands p; savedCommands := savedCommands p;
     dispatchPending := dispatchPending p |}.
Definition with_library (b : bool) (p : panel_state) : panel_state :=
  {| commandText := commandText p; selectedCmd := selectedCmd p; libraryOpen := b;
     savedCommandName := savedCommandName p; savedCommandDescription := savedCommandDescription p;
     panel_search := panel_search p; commands := commands p; savedCommands := savedCommands p;
     dispatchPending := dispatchPending p |}.
Definition with_pending (b : bool) (p : panel_state) : panel_state :=
  {| commandText := commandText p; selectedCmd := selectedCmd p; libraryOpen := libraryOpen p;
     savedCommandName := savedCommandName p; savedCommandDescription := savedCommandDescription p;
     panel_search := panel_search p; commands := commands p; savedCommands := savedCommands p;
     dispatchPending := b |}.
Definition with_selected (c : option Command) (p : panel_state) : panel_state :=
  {| commandText := commandText p; selectedCmd := c; libraryOpen := libraryOpen p;
     savedCommandName := savedCommandName p; savedCommandDescription := savedCommandDescription p;
     panel_search := panel_search p; commands := commands p; savedCommands := savedCommands p;
     dispatchPending := dispatchPending p |}.
Definition with_commands (l : list Command) (p : panel_state) : panel_state :=
  {| commandText := commandText p; selectedCmd := selectedCmd p; libraryOpen := libraryOpen p;
     savedCommandName := savedCommandName p; savedCommandDescription := savedCommandDescription p;
     panel_search := panel_search p; commands := l; savedCommands := savedCommands p;
     dispatchPending := dispatchPending p |}.
Definition with_save (n d : jstr) (p : panel_state) : panel_state :=
  {| commandText := commandText p; selectedCmd := selectedCmd p; libraryOpen := libraryOpen p;
     savedCommandName := n; savedCommandDescription := d;
     panel_search := panel_search p; commands := commands p; savedCommands := savedCommands p;
     dispatchPending := dispatchPending p |}.
Definition with_search (q : jstr) (p : panel_state) : panel_state :=
  {| commandText := commandText p; selectedCmd := selectedCmd p; libraryOpen := libraryOpen p;
     savedCommandName := savedCommandName p; savedCommandDescription := savedCommandDescription p;
     panel_search := q; commands := commands p; savedCommands := savedCommands p;
     dispatchPending := dispatchPending p |}.

(** The effect on [commands]: the selected command is replaced by its newer version. *)
Definition refresh_selected (p : panel_state) : panel_state :=
  match selectedCmd p with
  | None => p
  | Some c =>
      match find (λ k, c_id k =s c_id c) (commands p) with
      | Some k => with_selected (Some k) p
      | None => p
      end
  end.

Definition mutate (deviceId type : jstr) (payload : list (jstr * json)) (p : panel_state)
    : panel_state * list ui_effect :=
  (with_pending true p, [Request (commandsApi.dispatch deviceId type payload)]).

Definition run_text (deviceId : jstr) (p : panel_state) : panel_state * list ui_effect :=
  if truthy (commandText p)
  then mutate deviceId "shell" [("command", JStr (commandText p))] p
  else (p, []).

Section update.
(** [String(v)] of a JSON value that is not a string. *)
Context (String_of : json → jstr) (deviceId : jstr).

Definition string_of_json (v : json) : jstr := match v with JStr s => s | _ => String_of v end.
(** [String(payload.command ?? '')] *)
Definition saved_text (c : SavedCommand) : jstr :=
  match field "command" (JObj (sv_payload c)) with
  | Some JNull | None => ""
  | Some v => string_of_json v
  end.

Definition panel_update (a : panel_action) (p : panel_state) : panel_state * list ui_effect :=
  match a with
  | SetText s => (with_text s p, [])
  | PressEnter | ClickSend => run_text deviceId p
  | OpenLibrary b => (with_library b p, [])
  | Quick type now =>
      mutate deviceId type (if type =s "sync_time" then [("target_time", JStr now)] else []) p
  | ClickCommand c =>
      (with_selected (if bool_decide ((c_id <$> selectedCmd p) = Some (c_id c)) then None else Some c) p, [])
  | SetPanelSearch q => (with_search q p, [])
  | RunSaved c =>
      let '(p', es) := if sv_command_type c =s "shell" then (with_text (saved_text c) p, [])
                       else mutate deviceId (sv_command_type c) (sv_payload c) p in
      (with_library false p', es)
  | SetSaveName n => (with_save n (savedCommandDescription p) p, [])
  | SetSaveDescription d => (with_save (savedCommandName p) d p, [])
  | SaveCurrent =>
      (p, [Request (savedCommandsApi.saved_create
             (savedCommandsApi.saved_body (savedCommandName p)
                (if truthy (savedCommandDescription p) then Some (savedCommandDescription p) else None)
                "shell" [("command", JStr (commandText p))] false None))])
  | CommandsFetched l => (refresh_selected (with_commands l p), [])
  | DispatchDone true => (with_text [] (with_pending false p), [Invalidate ["commands"; deviceId]])
  | DispatchDone false => (with_pending false p, [])
  | SaveDone => (with_save [] [] p, [Invalidate ["saved-commands"]])
  end.
End update.

Record quickAction := QuickAction { qa_label : jstr; qa_type : jstr; qa_icon : jstr }.
Definition quickActions : list quickAction := [
  QuickAction "Check Updates" "update_check" "RefreshCw";
  QuickAction "Reboot (30s)" "reboot" "RotateCcw";
  QuickAction "Sync Time" "sync_time" "Clock3";
  QuickAction "Run Diagnostics" "diagnostics" "Stethoscope"].

Definition safeParseJSON (value : jstr) : json := JSON_parse value ?? JStr value.

Section view.
Context (String_of : json → jstr) (formatDistanceToNow : jstr → jstr) (now : jstr).

Fixpoint JsonTree (value : json) : node panel_action :=
  match value with
  | JNull => span [Text "null"]
  | JStr s => span [Text ([34] ++ s ++ [34])]
  | JNum _ | JBool _ => span [Text (String_of value)]
  | JArr l => div ([span [Text "["]] ++ map (λ e, div [JsonTree e]) l ++ [span [Text "]"]])
  | JObj l =>
      div ([span [Text "{"]]
           ++ map (λ '(k, e), div [span [Text k]; span [Text ": "]; JsonTree e]) l
           ++ [span [Text "}"]])
  end.

(** The title of a command: the text of a shell command, or its type. *)
Definition command_title (c : Command) : jstr :=
  if c_command_type c =s "shell" then
    match field "command" (JObj (c_payload c)) with
    | Some JNull | None => "shell"
    | Some v => string_of_json String_of v
    end
  else c_command_type c.

Definition command_row (p : panel_state) (c : Command) : node panel_action :=
  El "div" [OnClick (ClickCommand c)] (
    [div [span [Text (command_title c)];
          div [span [Text (command_status_string (c_status c))];
               span [Text (formatDistanceToNow (c_created_at c))]]]]
    ++ when (bool_decide ((c_id <$> selectedCmd p) = Some (c_id c)) && otruthy (c_output c))
         [div [if c_command_type c =s "diagnostics"
               then div [JsonTree (safeParseJSON (c_output c ?? ""))]
               else el "pre" [Text (c_output c ?? "")]]]).

Definition saved_row (c : SavedCommand) : node panel_action :=
  div [div [div [p_ [Text (sv_name c)]; p_ [Text (sv_description c ?? "No description")]];
            button [OnClick (RunSaved c)] [Text "Run"]]].

Definition library_dialog (p : panel_state) : node panel_action :=
  div [div [
    div [div [el "h3" [Text "Command Library"];
              p_ [Text "Reuse saved commands or save the current shell command."]];
         button [OnClick (OpenLibrary false)] [icon "X"]];
    div [
      div [El "input" [Attr "value" (panel_search p); OnChange SetPanelSearch;
                       Attr "placeholder" "Search saved commands…"] [];
           div (map saved_row (bfilter (λ c, includes (toLowerCase (sv_name c)) (toLowerCase (panel_search p)))
                                 (savedCommands p)))];
      div [el "h4" [Text "Save Current"];
           p_ [Text "Store the current shell command in your personal library."];
           El "input" [Attr "value" (savedCommandName p); OnChange SetSaveName; Attr "placeholder" "Name"] [];
           El "input" [Attr "value" (savedCommandDescription p); OnChange SetSaveDescription;
                       Attr "placeholder" "Description"] [];
           button [OnClick SaveCurrent;
                   Disabled (negb (truthy (trim (commandText p))) || negb (truthy (trim (savedCommandName p))))]
             [Text "Save Current"]]]]].

Definition command_input (p : panel_state) : node panel_action :=
  El "input" [Attr "value" (commandText p); OnChange SetText; OnEnter PressEnter;
              Attr "placeholder" "Run shell command..."] [].
Definition send_button (p : panel_state) : node panel_action :=
  button [OnClick ClickSend; Disabled (negb (truthy (commandText p)) || dispatchPending p)]
    [span [icon "Play"; Text "Send"]].

Definition panel_view (p : panel_state) : node panel_action :=
  div ([div [
          div [icon "Terminal"; command_input p];
          send_button p;
          button [OnClick (OpenLibrary true)] [span [icon "BookOpen"; Text "Library"]]];
        div (map (λ q, button [OnClick (Quick (qa_type q) now)] [icon (qa_icon q); Text (qa_label q)])
               quickActions);
        div (map (command_row p) (commands p))]
       ++ when (libraryOpen p) [library_dialog p]).
End view.

End CommandPanel.

(** ** BulkCommandBar *)

Module BulkCommandBar.

Inductive tone := Success | Failure.
Record BulkToast := { bt_tone : tone; bt_message : jstr }.

Record bulk_state := {
  selectedIds : list jstr; isShellModalOpen : bool; shellCommand : jstr;
  toast : option BulkToast; bulkPending : bool }.

Definition bulk_initial (ids : list jstr) : bulk_state :=
  {| selectedIds := ids; isShellModalOpen := false; shellCommand := []; toast := None;
     bulkPending := false |}.

Inductive bulk_action :=
| OpenShell (b : bool)
| SetShell (s : jstr)
| QuickBulk (type now : jstr)
| PressEnterShell
| SubmitShell
| Compare
| Clear
| BulkDone (dispatched : Z)
| BulkFailed (message : jstr)
| ToastExpires
| CloseModals.

Definition set_bulk (modal : bool) (shell : jstr) (t : option BulkToast) (pending : bool) (s : bulk_state)
    : bulk_state :=
  {| selectedIds := selectedIds s; isShellModalOpen := modal; shellCommand := shell; toast := t;
     bulkPending := pending |}.

(** The guard of every bulk command. *)
Definition bulkQuickAction (type : jstr) (payload : list (jstr * json)) (s : bulk_state)
    : bulk_state * list ui_effect :=
  if Nat.ltb (length (selectedIds s)) 2 || bulkPending s then (s, [])
  else (set_bulk (isShellModalOpen s) (shellCommand s) (toast s) true s,
        [Request (commandsApi.bulk (selectedIds s) type payload)]).

Definition submitShellCommand (s : bulk_state) : bulk_state * list ui_effect :=
  if negb (truthy (trim (shellCommand s))) then (s, [])
  else bulkQuickAction "shell" [("command", JStr (trim (shellCommand s)))] s.

Definition bulk_update (a : bulk_action) (s : bulk_state) : bulk_state * list ui_effect :=
  match a with
  | OpenShell b => (set_bulk b (shellCommand s) (toast s) (bulkPending s) s, [])
  | SetShell t => (set_bulk (isShellModalOpen s) t (toast s) (bulkPending s) s, [])
  | QuickBulk type now =>
      bulkQuickAction type (if type =s "sync_time" then [("target_time", JStr now)] else []) s
  | PressEnterShell => if truthy (trim (shellCommand s)) then submitShellCommand s else (s, [])
  | SubmitShell => submitShellCommand s
  | Compare => (s, [Navigate ("/compare?ids=" ++ join "," (take 4 (selectedIds s)))])
  | Clear => (s, [])
  | BulkDone n =>
      (set_bulk false [] (Some {| bt_tone := Success;
                                  bt_message := "Command sent to " ++ string_of_Z n ++ " devices" |}) false s,
       [Invalidate ["devices"]])
  | BulkFailed m =>
      (set_bulk (isShellModalOpen s) (shellCommand s)
         (Some {| bt_tone := Failure; bt_message := if truthy m then m else "Bulk command failed" |}) false s, [])
  | ToastExpires => (set_bulk (isShellModalOpen s) (shellCommand s) None (bulkPending s) s, [])
  | CloseModals => (set_bulk false (shellCommand s) (toast s) (bulkPending s) s, [])
  end.

Definition ActionButton (a : bulk_action) (icon_ label : jstr) (disabled : bool) : node bulk_action :=
  button [OnClick a; Disabled disabled] [icon icon_; Text label].

Section view.
Context (now : jstr).

Definition shell_dialog (s : bulk_state) : node bulk_action :=
  div [div [
    div [div [el "h3" [Text "Run Shell Command"];
              p_ [Text "Dispatch a shell command to "; num_text (Z.of_nat (length (selectedIds s)));
                  Text " selected devices."]];
         button [OnClick (OpenShell false)] [icon "X"]];
    El "input" [Attr "value" (shellCommand s); OnChange SetShell; OnEnter PressEnterShell;
                Attr "placeholder" "uname -a"] [];
    div [button [OnClick (OpenShell false)] [Text "Cancel"];
         button [OnClick SubmitShell; Disabled (negb (truthy (trim (shellCommand s))) || bulkPending s)]
           [Text "Send"]]]].

Definition bulk_view (s : bulk_state) : list (node bulk_action) :=
  match toast s with Some t => [div [Text (bt_message t)]] | None => [] end
  ++ [div [div [
       p_ [span [num_text (Z.of_nat (length (selectedIds s)))]; Text " devices selected"];
       ActionButton (OpenShell true) "Play" "Run Command" false;
       ActionButton (QuickBulk "reboot" now) "RotateCcw" "Reboot" (bulkPending s);
       ActionButton (QuickBulk "update_check" now) "RefreshCw" "Check Updates" (bulkPending s);
       ActionButton (QuickBulk "sync_time" now) "Clock3" "Sync Time" (bulkPending s);
       ActionButton Compare "Columns3" "Compare" false;
       button [OnClick Clear] [icon "X"; Text "Clear"]]]]
  ++ when (isShellModalOpen s) [shell_dialog s].
End view.

(** Requests in a list of effects. *)
Definition requests (es : list ui_effect) : list request :=
  flat_map (λ e, match e with Request r => [r] | _ => [] end) es.

Fixpoint bulk_run (l : list bulk_action) (s : bulk_state) : bulk_state * list ui_effect :=
  match l with
  | [] => (s, [])
  | a :: l => let '(s1, e1) := bulk_update a s in let '(s2, e2) := bulk_run l s1 in (s2, e1 ++ e2)
  end.

(** The answer of the server ends a pending bulk command. *)
Definition settles (a : bulk_action) : bool :=
  match a with BulkDone _ | BulkFailed _ => true | _ => false end.

Lemma bulk_update_ids a s : selectedIds (fst (bulk_update a s)) = selectedIds s.
Proof. destruct a; simpl; unfold submitShellCommand, bulkQuickAction; repeat case_match; done. Qed.

Lemma bulk_update_requests a s :
  (length (requests (snd (bulk_update a s))) ≤ if bulkPending s then 0 else 1)%nat ∧
  (settles a = false → requests (snd (bulk_update a s)) ≠ [] ∨ bulkPending s = true →
   bulkPending (fst (bulk_update a s)) = true) ∧
  (requests (snd (bulk_update a s)) ≠ [] → (2 ≤ length (selectedIds s))%nat).
Proof.
  assert (∀ type payload,
    (length (requests (snd (bulkQuickAction type payload s))) ≤ if bulkPending s then 0 else 1)%nat ∧
    (requests (snd (bulkQuickAction type payload s)) ≠ [] ∨ bulkPending s = true →
     bulkPending (fst (bulkQuickAction type payload s)) = true) ∧
    (requests (snd (bulkQuickAction type payload s)) ≠ [] → (2 ≤ length (selectedIds s))%nat)) as Hq.
  { intros type payload. unfold bulkQuickAction.
    destruct (Nat.ltb_spec (length (selectedIds s)) 2); destruct (bulkPending s) eqn:E; cbn;
      rewrite ?E; repeat split; intros; try lia; try tauto; try done. }
  destruct a; simpl; unfold submitShellCommand;
    try (destruct (Hq type (if type =s "sync_time" then [("target_time", JStr now)] else [])) as (?&?&?); by auto);
    try (destruct (truthy (trim (shellCommand s))); cbn [negb];
         [destruct (Hq "shell" [("command", JStr (trim (shellCommand s)))]) as (?&?&?); by auto|]);
    cbn; repeat split; intros; try (case_match; lia); try tauto; try done;
    try (destruct H0; tauto); try (by destruct H0).
Qed.

End BulkCommandBar.

(** ** Properties *)

Module DeviceProps.

(** The process table shows exactly the processes whose name contains the
    search text, ignoring case, in the order of the chosen column and
    direction, for every comparison of names that is total and transitive. *)
Theorem process_rows_spec locale_le s :
  (∀ a b, locale_le a b = true ∨ locale_le b a = true) →
  (∀ a b c, locale_le a b = true → locale_le b c = true → locale_le a c = true) →
  let all := match ProcessList.ps_data s with Some d => pl_processes d | None => [] end in
  Permutation (ProcessList.process_rows locale_le s) (bfilter (ProcessList.process_shown s) all) ∧
  StronglySorted (λ x y, ProcessList.process_before locale_le s x y = true)
    (ProcessList.process_rows locale_le s).
Proof.
  intros Ht Hr all. split; [apply stable_sort_perm|by apply ProcessList.process_rows_order].
Qed.

(** Order by code units. *)
Fixpoint unit_le (a b : jstr) : bool :=
  match a, b with
  | [], _ => true
  | _ :: _, [] => false
  | x :: a', y :: b' => (x <? y) || ((x =? y) && unit_le a' b')
  end.

Lemma unit_le_total a b : unit_le a b = true ∨ unit_le b a = true.
Proof.
  revert b. induction a as [|x a IH]; intros [|y b]; simpl; auto.
  destruct (Z.ltb_spec x y); [by left|]. destruct (Z.ltb_spec y x); [by right|].
  assert (x = y) as -> by lia. rewrite Z.eqb_refl. simpl. apply IH.
Qed.

Lemma unit_le_trans a b c : unit_le a b = true → unit_le b c = true → unit_le a c = true.
Proof.
  revert b c. induction a as [|x a IH]; intros [|y b] [|z c]; simpl; try done.
  rewrite !orb_true_iff, !andb_true_iff, !Z.ltb_lt, !Z.eqb_eq.
  intros [?|[-> ?]] [?|[-> ?]]; [left; lia|left; lia|left; lia|]. right. split; [done|]. by eapply IH.
Qed.

Definition proc (pid : Z) (name : jstr) (cpu : Q) : ProcessInfo :=
  {| p_pid := pid; p_name := name; p_cpu_percent := cpu; p_mem_percent := 0; p_status := "running" |}.

Lemma process_rows_spec_witness :
  let s := {| ProcessList.ps_search := "S"; ProcessList.ps_sortKey := ProcessList.CpuPercent;
              ProcessList.ps_descending := true;
              ProcessList.ps_data := Some {| pl_processes := [proc 1 "sshd" 3; proc 2 "bash" 7; proc 3 "vim" 9];
                                             pl_captured_at := "t" |};
              ProcessList.ps_loading := false; ProcessList.ps_failed := false;
              ProcessList.ps_refreshing := false |} in
  Permutation (ProcessList.process_rows unit_le s) [proc 1 "sshd" 3; proc 2 "bash" 7] ∧
  map p_pid (ProcessList.process_rows unit_le s) = [2; 1].
Proof.
  intros s. split; [|vm_compute; reflexivity].
  apply (process_rows_spec unit_le s unit_le_total unit_le_trans).
Defined.

(** Every keystroke in the software search arms a timer of its own and
    none is ever cleared, since each render makes a new handler: after typing,
    one search per keystroke is still going to be made. *)
Theorem software_search_fires_per_keystroke vs :
  SoftwareTable.changing [] vs = true →
  map snd (SoftwareTable.timers (SoftwareTable.type_all vs SoftwareTable.software_initial)) = rev vs.
Proof.
  intros H. destruct (SoftwareTable.type_all_timers vs SoftwareTable.software_initial eq_refl H) as [_ ->].
  by rewrite app_nil_r.
Qed.

Lemma software_search_fires_per_keystroke_witness :
  map snd (SoftwareTable.timers (SoftwareTable.type_all ["v"; "vi"; "vim"] SoftwareTable.software_initial))
  = ["vim"; "vi"; "v"].
Proof. apply (software_search_fires_per_keystroke ["v"; "vi"; "vim"]). reflexivity. Defined.

(** Every point of a device card's sparkline lies in its 180 by 40 box,
    whatever the reported CPU values. *)
Theorem sparkline_in_box values x y :
  In (x, y) (DeviceCard.spark_points values) → (0 <= x <= 180)%Q ∧ (0 <= y <= 40)%Q.
Proof.
  intros H. apply list_elem_of_In, elem_of_lookup_imap in H as (i & v & [= -> ->] & Hi).
  apply lookup_lt_Some in Hi. split; [by apply DeviceCard.spark_x_bounds|apply DeviceCard.spark_y_bounds].
Qed.

Lemma sparkline_in_box_witness : (0 <= 0 * 180 <= 180)%Q ∧ (0 <= DeviceCard.spark_y 250 <= 40)%Q.
Proof.
  apply (sparkline_in_box [250%Q] (0 * 180)%Q (DeviceCard.spark_y 250)). left. reflexivity.
Defined.

(** While a dispatch is pending the Send button of the command panel is
    disabled, but pressing Enter in the input sends the same command again. *)
Theorem panel_enter_ignores_pending String_of deviceId p :
  truthy (CommandPanel.commandText p) = true → CommandPanel.dispatchPending p = true →
  clicks (CommandPanel.send_button p) = [] ∧
  snd (CommandPanel.panel_update String_of deviceId CommandPanel.PressEnter p) =
    [Request (commandsApi.dispatch deviceId "shell" [("command", JStr (CommandPanel.commandText p))])].
Proof.
  intros Ht Hp. split.
  - cbn. unfold own_clicks, is_disabled. cbn. by rewrite Hp, orb_true_r.
  - cbn. unfold CommandPanel.run_text. by rewrite Ht.
Qed.

Lemma panel_enter_ignores_pending_witness :
  let p := CommandPanel.with_pending true (CommandPanel.with_text "reboot" CommandPanel.panel_initial) in
  snd (CommandPanel.panel_update (λ _, []) "d1" CommandPanel.PressEnter p) =
    [Request (commandsApi.dispatch "d1" "shell" [("command", JStr "reboot")])].
Proof. intros p. apply (panel_enter_ignores_pending (λ _, []) "d1" p); reflexivity. Defined.

(** Until the server has answered, a bulk bar sends at most one bulk
    command, whatever is clicked or typed, none at all while one is pending,
    and only with at least two devices selected. *)
Theorem bulk_single_flight l s :
  forallb (λ a, negb (BulkCommandBar.settles a)) l = true →
  let es := snd (BulkCommandBar.bulk_run l s) in
  (length (BulkCommandBar.requests es) ≤ if BulkCommandBar.bulkPending s then 0 else 1)%nat ∧
  (BulkCommandBar.requests es ≠ [] → (2 ≤ length (BulkCommandBar.selectedIds s))%nat).
Proof.
  revert s. induction l as [|a l IH]; intros s Hl; simpl.
  { split; [case_match; lia|done]. }
  apply andb_true_iff in Hl as [Ha Hl]. apply negb_true_iff in Ha.
  destruct (BulkCommandBar.bulk_update_requests a s) as (H1 & H2 & H3).
  pose proof (BulkCommandBar.bulk_update_ids a s) as H4. specialize (H2 Ha).
  specialize (IH (fst (BulkCommandBar.bulk_update a s)) Hl). rewrite H4 in IH.
  destruct (BulkCommandBar.bulk_update a s) as [s1 e1]. cbn [fst snd] in *.
  destruct (BulkCommandBar.bulk_run l s1) as [s2 e2]. cbn [snd] in IH |- *.
  unfold BulkCommandBar.requests in *. rewrite flat_map_app, length_app.
  set (r1 := flat_map _ e1) in *. set (r2 := flat_map _ e2) in *. destruct IH as [I1 I2].
  destruct r1 as [|x r1].
  - simpl. split; [|exact I2]. destruct (BulkCommandBar.bulkPending s) eqn:E.
    + rewrite H2 in I1 by (by right). lia.
    + case_match; lia.
  - rewrite H2 in I1 by (by left). split; [|auto]. simpl in *. case_match; lia.
Qed.

Lemma bulk_single_flight_witness :
  length (BulkCommandBar.requests (snd (BulkCommandBar.bulk_run
    [BulkCommandBar.QuickBulk "reboot" "t"; BulkCommandBar.QuickBulk "reboot" "t"]
    (BulkCommandBar.bulk_initial ["a"; "b"])))) = 1%nat.
Proof.
  pose proof (bulk_single_flight
    [BulkCommandBar.QuickBulk "reboot" "t"; BulkCommandBar.QuickBulk "reboot" "t"]
    (BulkCommandBar.bulk_initial ["a"; "b"]) eq_refl) as [H _].
  vm_compute in H |- *. reflexivity.
Defined.

End DeviceProps.
