(* ===== verification/Pages.v ===== *)
(** Pages of the web client: [pages/Login.tsx], [Dashboard.tsx], [Alerts.tsx]
    and [SoftwareUpdates.tsx], as components over the stores, the API and the
    device components. *)
From Stdlib Require Import QArith.
From S2P Require Import Prelude JsString JsNumber Utils Types Api Stores Ui DeviceComponents.
Local Open Scope Z_scope.
Local Open Scope js_scope.

(** ** Shared by the pages *)

(** [list.includes(x)] for strings. *)
Definition member (x : jstr) (l : list jstr) : bool := existsb (λ y, y =s x) l.

(** [current.includes(x) ? current.filter((y) => y !== x) : [...current, x]] *)
Definition toggle_member (x : jstr) (current : list jstr) : list jstr :=
  if member x current then bfilter (λ y, negb (y =s x)) current else current ++ [x].

(** [Object.fromEntries(devices.map((d) => [d.id, d.label ?? d.hostname]))]:
    the last entry of an identifier counts. *)
Definition deviceNames (devices : list Device) (id : jstr) : option jstr :=
  (λ d, d_label d ?? d_hostname d) <$> find (λ d, d_id d =s id) (rev devices).

(** [list.slice(from, to)] *)
Definition slice {A} (from to : Z) (l : list A) : list A :=
  take (Z.to_nat to - Z.to_nat from) (drop (Z.to_nat from) l).

Lemma member_In x l : member x l = true ↔ In x l.
Proof.
  unfold member. rewrite existsb_exists. split.
  - intros (y & Hy & ->%seqb_true). done.
  - intros H. exists x. split; [done|apply seqb_refl].
Qed.

Lemma toggle_member_NoDup x l : NoDup l → NoDup (toggle_member x l).
Proof.
  intros H. unfold toggle_member. destruct (member x l) eqn:E.
  - auto with dtsys.
  - apply NoDup_app. split; [done|]. split; [|apply NoDup_singleton].
    intros y Hy ->%list_elem_of_singleton. apply list_elem_of_In, member_In in Hy. congruence.
Qed.

Lemma toggle_member_In x y l : In y (toggle_member x l) → In y l ∨ y = x.
Proof.
  unfold toggle_member. destruct (member x l).
  - rewrite bfilter_In. naive_solver.
  - rewrite in_app_iff. simpl. naive_solver.
Qed.

(** ** Login *)

Module LoginPage.

Record login_state := {
  lg_ls : localStorage.t; lg_auth : authStore.AuthState;
  lg_username : jstr; lg_password : jstr; lg_error : jstr; lg_loading : bool }.

Inductive login_action :=
| SetUsername (s : jstr)
| SetPassword (s : jstr)
| Submit
| Answered (tokens : option (jstr * jstr)).

Definition lg_set (user pass err : jstr) (loading : bool) (s : login_state) : login_state :=
  {| lg_ls := lg_ls s; lg_auth := lg_auth s; lg_username := user; lg_password := pass;
     lg_error := err; lg_loading := loading |}.

Section login.
(** [jwtDecode] of an access token: its [username] and [role] claims; it throws
    on a malformed token. *)
Context (jwtDecode : jstr → option (option jstr * option jstr)).

Definition handleSubmit (s : login_state) : login_state * list ui_effect :=
  (lg_set (lg_username s) (lg_password s) [] true s,
   [Request (authApi.auth_login (lg_username s) (lg_password s))]).

(** The rest of [handleSubmit] once the request has settled. *)
Definition answered (tokens : option (jstr * jstr)) (s : login_state) : login_state * list ui_effect :=
  let failed := (lg_set (lg_username s) (lg_password s) "Invalid username or password" false s, []) in
  match tokens with
  | None => failed
  | Some (access, refresh) =>
      match jwtDecode access with
      | None => failed
      | Some (user, role) =>
          let '(ls, auth) := authStore.login access refresh (user ?? lg_username s) (role ?? "viewer")
                               None None (lg_ls s, lg_auth s) in
          ({| lg_ls := ls; lg_auth := auth; lg_username := lg_username s; lg_password := lg_password s;
              lg_error := lg_error s; lg_loading := false |}, [Navigate "/"])
      end
  end.

Definition login_update (a : login_action) (s : login_state) : login_state * list ui_effect :=
  match a with
  | SetUsername u => (lg_set u (lg_password s) (lg_error s) (lg_loading s) s, [])
  | SetPassword p => (lg_set (lg_username s) p (lg_error s) (lg_loading s) s, [])
  | Submit => handleSubmit s
  | Answered t => answered t s
  end.
End login.

Definition login_view (s : login_state) : node login_action :=
  div [div [
    div [div [icon "Shield"]; el "h1" [Text "DTSYS"]; p_ [Text "Device Management Platform"]];
    El "form" [OnSubmit Submit] (
      when (truthy (lg_error s)) [div [Text (lg_error s)]]
      ++ [div [el "label" [Text "Username"];
               El "input" [Attr "type" "text"; Attr "value" (lg_username s); OnChange SetUsername;
                           Attr "required" "true"] []];
          div [el "label" [Text "Password"];
               El "input" [Attr "type" "password"; Attr "value" (lg_password s); OnChange SetPassword;
                           Attr "required" "true"] []];
          El "button" [Attr "type" "submit"; Disabled (lg_loading s)]
            [Text (if lg_loading s then "Signing in..." else "Sign In")]])]].

End LoginPage.

(** ** Dashboard *)

Module Dashboard.

Inductive Filter := All | ByStatus (s : DeviceStatus).
Definition filter_string (f : Filter) : jstr :=
  match f with All => "all" | ByStatus s => status_string s end.

Record dashboard_state := {
  selectedTag : jstr; selectedGroupId : jstr; devices : list Device; devicesLoading : bool;
  db_alerts : list Alert; filter_ : Filter; db_search : jstr; db_selected : list jstr; paused : bool;
  db_tags : list jstr; db_groups : list DeviceGroup; groupDevices : list Device; groupLoading : bool;
  activity : list ActivityEvent }.

Definition dashboard_devices_query (s : dashboard_state) : query :=
  Hooks.useDevices (if truthy (selectedTag s) then Some (selectedTag s) else None).
Definition group_query (s : dashboard_state) : query :=
  Query [JStr "groups"; JStr (selectedGroupId s); JStr "devices"]
    (groupsApi.group_devices (selectedGroupId s)) 0 (truthy (selectedGroupId s)).

Definition sourceDevices (s : dashboard_state) : list Device :=
  if truthy (selectedGroupId s) then groupDevices s else devices s.
Definition isLoading (s : dashboard_state) : bool :=
  if truthy (selectedGroupId s) then groupLoading s else devicesLoading s.

Definition count_status (st : DeviceStatus) (l : list Device) : Z :=
  Z.of_nat (length (bfilter (λ d, bool_decide (d_status d = st)) l)).
Definition activeGroup (s : dashboard_state) : option DeviceGroup :=
  find (λ g, g_id g =s selectedGroupId s) (db_groups s).

Definition has_tag (s : dashboard_state) (d : Device) : bool :=
  (selectedTag s =s "") || member (selectedTag s) (d_tags d).
Definition has_status (s : dashboard_state) (d : Device) : bool :=
  match filter_ s with All => true | ByStatus st => bool_decide (d_status d = st) end.
Definition has_text (s : dashboard_state) (d : Device) : bool :=
  (db_search s =s "")
  || includes (toLowerCase (d_hostname d)) (toLowerCase (db_search s))
  || includes (toLowerCase (d_label d ?? "")) (toLowerCase (db_search s))
  || includes (d_ip_address d ?? "") (db_search s).
Definition filtered (s : dashboard_state) : list Device :=
  bfilter (has_text s) (bfilter (has_status s) (bfilter (has_tag s) (sourceDevices s))).

Definition set_selected (l : list jstr) (s : dashboard_state) : dashboard_state :=
  {| selectedTag := selectedTag s; selectedGroupId := selectedGroupId s; devices := devices s;
     devicesLoading := devicesLoading s; db_alerts := db_alerts s; filter_ := filter_ s;
     db_search := db_search s; db_selected := l; paused := paused s; db_tags := db_tags s;
     db_groups := db_groups s; groupDevices := groupDevices s; groupLoading := groupLoading s;
     activity := activity s |}.
Definition set_controls (tag : jstr) (f : Filter) (q : jstr) (p : bool) (s : dashboard_state) : dashboard_state :=
  {| selectedTag := tag; selectedGroupId := selectedGroupId s; devices := devices s;
     devicesLoading := devicesLoading s; db_alerts := db_alerts s; filter_ := f;
     db_search := q; db_selected := db_selected s; paused := p; db_tags := db_tags s;
     db_groups := db_groups s; groupDevices := groupDevices s; groupLoading := groupLoading s;
     activity := activity s |}.

(** The effect on [sourceDevices]: a selected device that is gone is unselected. *)
Definition prune (s : dashboard_state) : dashboard_state :=
  set_selected (bfilter (λ id, existsb (λ d, d_id d =s id) (sourceDevices s)) (db_selected s)) s.

Definition toggleSelected (deviceId : jstr) (s : dashboard_state) : dashboard_state :=
  set_selected (toggle_member deviceId (db_selected s)) s.

(** New data of the queries, or another group in the location; the effect runs
    after the render. *)
Definition data_arrives (group : jstr) (ds gs : list Device) (l1 l2 : bool) (s : dashboard_state)
    : dashboard_state :=
  prune {| selectedTag := selectedTag s; selectedGroupId := group; devices := ds;
           devicesLoading := l1; db_alerts := db_alerts s; filter_ := filter_ s;
           db_search := db_search s; db_selected := db_selected s; paused := paused s; db_tags := db_tags s;
           db_groups := db_groups s; groupDevices := gs; groupLoading := l2; activity := activity s |}.

Inductive dashboard_action :=
| SetFilter (f : Filter)
| SetTag (t : jstr)
| SetText (q : jstr)
| TogglePaused
| ExportCsv
| InCard (d : Device) (a : DeviceCard.card_action)
| InBulk (a : BulkCommandBar.bulk_action).

Definition export_rows (s : dashboard_state) : list (list jstr) :=
  map (λ d, [d_id d; d_label d ?? d_hostname d; d_os_version d ?? os_string (d_os_type d);
             status_string (d_status d); d_last_seen d ?? ""]) (sourceDevices s).

Definition dashboard_update (a : dashboard_action) (s : dashboard_state) : dashboard_state * list ui_effect :=
  match a with
  | SetFilter f => (set_controls (selectedTag s) f (db_search s) (paused s) s, [])
  | SetTag t => (set_controls t (filter_ s) (db_search s) (paused s) s, [])
  | SetText q => (set_controls (selectedTag s) (filter_ s) q (paused s) s, [])
  | TogglePaused => (set_controls (selectedTag s) (filter_ s) (db_search s) (negb (paused s)) s, [])
  | ExportCsv =>
      (s, [Download (Csv.exportToCSV "devices.csv" ["ID"; "Hostname"; "OS"; "Status"; "Last Seen"]
                       (export_rows s))])
  | InCard d (DeviceCard.ToggleSelect id) => (toggleSelected id s, [])
  | InCard d c => (s, DeviceCard.card_update d c)
  | InBulk BulkCommandBar.Clear => (set_selected [] s, [])
  | InBulk _ => (s, [])   (* the bar's own state *)
  end.

Definition eventDot (e : EventType) : jstr :=
  match e with
  | Crash => "bg-red-500" | ErrorEvent => "bg-rose-500" | WarningEvent => "bg-amber-500"
  | InfoEvent => "bg-blue-500"
  end.

Record stat := Stat { st_label : jstr; st_value : Z; st_icon : jstr }.
Definition stats (s : dashboard_state) : list stat := [
  Stat "Total Devices" (Z.of_nat (length (sourceDevices s))) "Monitor";
  Stat "Online" (count_status Online (sourceDevices s)) "Wifi";
  Stat "Offline" (count_status Offline (sourceDevices s)) "WifiOff";
  Stat "Active Alerts" (Z.of_nat (length (db_alerts s))) "AlertTriangle"].

Section view.
Context (formatDistanceToNow : jstr → jstr) (card : Device → bool → node DeviceCard.card_action)
        (bulk : list jstr → list (node BulkCommandBar.bulk_action)).

Definition activity_row (e : ActivityEvent) : node dashboard_action :=
  div [El "span" [Attr "class" (eventDot (ae_event_type e))] [];
       div [p_ [Text (ae_device_hostname e)]; p_ [Text (ae_message e)];
            p_ [Text (formatDistanceToNow (ae_time e))]]].

Definition dashboard_view (s : dashboard_state) : node dashboard_action :=
  div ([div [el "h1" [Text "Dashboard"]; p_ [Text "Overview of all managed devices"]];
        button [OnClick ExportCsv] [Text "Export CSV"];
        div (map (λ x, div [div [span [Text (st_label x)]; icon (st_icon x)]; span [num_text (st_value x)]])
               (stats s));
        div [div (map (λ f, button [OnClick (SetFilter f)] [Text (filter_string f)])
                    [All; ByStatus Online; ByStatus Offline; ByStatus InAlert]);
             El "select" [Attr "value" (selectedTag s); OnChange SetTag]
               (El "option" [Attr "value" ""] [Text "All tags"]
                :: map (λ t, El "option" [Attr "value" t] [Text t]) (db_tags s));
             El "input" [Attr "value" (db_search s); OnChange SetText;
                         Attr "placeholder" "Search hostname, IP..."] []]]
       ++ match activeGroup s with
          | Some g => [div [Text "Filtering dashboard to group "; span [Text (g_name g)]; Text "."]]
          | None => []
          end
       ++ [div [
            div [if isLoading s then div (repeat Skeleton.SkeletonCard 8)
                 else if Nat.eqb (length (filtered s)) 0
                 then div [icon "Monitor"; p_ [Text "No devices found"]]
                 else div (map (λ d, map_node (InCard d) (card d (member (d_id d) (db_selected s))))
                             (filtered s))];
            el "aside" [
              div [div [el "h2" [Text "Live Activity"]; p_ [Text "Last 20 events from all devices"]];
                   button [OnClick TogglePaused] [Text (if paused s then "Resume" else "Pause")]];
              div (if Nat.eqb (length (activity s)) 0 then [p_ [Text "Waiting for activity..."]]
                   else map activity_row (activity s))]]]
       ++ when (Nat.leb 2 (length (db_selected s))) (map (map_node InBulk) (bulk (db_selected s)))).
End view.

(** The page as it is used: a card can be toggled while it is shown. *)
Inductive dashboard_reachable : dashboard_state → Prop :=
| reach_empty s : db_selected s = [] → dashboard_reachable s
| reach_toggle d s :
    dashboard_reachable s → In d (filtered s) → dashboard_reachable (toggleSelected (d_id d) s)
| reach_data group ds gs l1 l2 s :
    dashboard_reachable s → dashboard_reachable (data_arrives group ds gs l1 l2 s)
| reach_control a s :
    dashboard_reachable s → (∀ d id, a ≠ InCard d (DeviceCard.ToggleSelect id)) →
    dashboard_reachable (fst (dashboard_update a s)).

Definition source_ids (s : dashboard_state) : list jstr := map d_id (sourceDevices s).

Definition selection_ok (s : dashboard_state) : Prop :=
  NoDup (db_selected s) ∧ ∀ id, In id (db_selected s) → In id (source_ids s).

Lemma filtered_source d s : In d (filtered s) → In d (sourceDevices s).
Proof. unfold filtered. rewrite !bfilter_In. naive_solver. Qed.

Lemma prune_ok s : NoDup (db_selected s) → selection_ok (prune s).
Proof.
  intros H. split.
  - cbn [prune set_selected db_selected]. auto with dtsys.
  - intros id. change (source_ids (prune s)) with (source_ids s). cbn [prune set_selected db_selected].
    rewrite bfilter_In, existsb_exists. intros (_ & d & Hd & <-%seqb_true). by apply in_map.
Qed.

Lemma reachable_selection s : dashboard_reachable s → selection_ok s.
Proof.
  induction 1 as [s E|d s _ [H1 H2] Hd|group ds gs l1 l2 s _ [H1 H2]|a s _ [H1 H2] Ha].
  - unfold selection_ok. rewrite E. split; [constructor|done].
  - split; [by apply toggle_member_NoDup|]. intros id [Hid| ->]%toggle_member_In; [by apply H2|].
    apply in_map. by apply filtered_source.
  - by apply prune_ok.
  - destruct a as [f|t|q| | |d [|id]|[]]; try by split; try (by destruct (Ha d id)).
    split; [constructor|done].
Qed.

End Dashboard.

(** ** Alerts *)

Module AlertsPage.

Definition alerts_page_size : Z := 20.

Record alerts_state := {
  showResolved : bool; al_page : Z; al_data : option (list Alert * Z); al_devices : list Device;
  resolvePending : bool }.

Definition alerts_initial : alerts_state :=
  {| showResolved := false; al_page := 1; al_data := None; al_devices := []; resolvePending := false |}.

Definition page_alerts (s : alerts_state) : list Alert :=
  match al_data s with Some (l, _) => l | None => [] end.
Definition page_total_alerts (s : alerts_state) : Z :=
  match al_data s with Some (_, t) => t | None => 0 end.

Definition alerts_page_query (s : alerts_state) : query :=
  Query [JStr "alerts"; JStr "page"; JZ (al_page s); JBool (showResolved s)]
    (alertsApi.listPage None (if showResolved s then None else Some false) None
       (Some alerts_page_size) (Some ((al_page s - 1) * alerts_page_size))) 0 true.

(** The record [acc], in the order in which its keys were added. *)
Fixpoint add_to_group (a : Alert) (acc : list (jstr * list Alert)) : list (jstr * list Alert) :=
  match acc with
  | [] => [(a_device_id a, [a])]
  | (k, l) :: acc' => if k =s a_device_id a then (k, l ++ [a]) :: acc' else (k, l) :: add_to_group a acc'
  end.
Definition groupedByDevice (alerts : list Alert) : list (jstr * list Alert) :=
  fold_left (λ acc a, add_to_group a acc) alerts [].

Record counts := { n_critical : Z; n_warning : Z; n_info : Z }.
Definition count_one (acc : counts) (a : Alert) : counts :=
  match a_severity a with
  | Critical => {| n_critical := n_critical acc + 1; n_warning := n_warning acc; n_info := n_info acc |}
  | Warning => {| n_critical := n_critical acc; n_warning := n_warning acc + 1; n_info := n_info acc |}
  | Info => {| n_critical := n_critical acc; n_warning := n_warning acc; n_info := n_info acc + 1 |}
  end.
Definition summary (alerts : list Alert) : counts :=
  fold_left count_one alerts {| n_critical := 0; n_warning := 0; n_info := 0 |}.

Inductive alerts_action :=
| SetShowResolved (b : bool)
| SetAlertsPage (p : Z)
| ExportAlerts
| ResolveOne (id : jstr)
| ResolveAll (deviceAlerts : list Alert)
| OpenDevice (id : jstr)
| AlertsFetched (l : list Alert) (total : Z)
| ResolveDone.

Definition al_set (b : bool) (p : Z) (data : option (list Alert * Z)) (pending : bool) (s : alerts_state)
    : alerts_state :=
  {| showResolved := b; al_page := p; al_data := data; al_devices := al_devices s; resolvePending := pending |}.

(** One request per unresolved alert of the device. *)
Definition resolve_all (deviceAlerts : list Alert) : list ui_effect :=
  flat_map (λ a, Hooks.useResolveAlert (a_id a)) (bfilter (λ a, negb (a_is_resolved a)) deviceAlerts).

Definition alert_rows (s : alerts_state) : list (list jstr) :=
  map (λ a, [a_alert_type a; severity_string (a_severity a);
             deviceNames (al_devices s) (a_device_id a) ?? a_device_id a; a_message a; a_created_at a])
    (page_alerts s).

(** A control changes the key of the query, whose data is absent until the new
    query has answered. *)
Definition alerts_update (a : alerts_action) (s : alerts_state) : alerts_state * list ui_effect :=
  match a with
  | SetShowResolved b => (al_set b (al_page s) None (resolvePending s) s, [])
  | SetAlertsPage p => (al_set (showResolved s) p None (resolvePending s) s, [])
  | ExportAlerts =>
      (s, [Download (Csv.exportToCSV "alerts.csv"
             ["Alert Type"; "Severity"; "Device"; "Message"; "Created At"] (alert_rows s))])
  | ResolveOne id => (al_set (showResolved s) (al_page s) (al_data s) true s, Hooks.useResolveAlert id)
  | ResolveAll l =>
      (al_set (showResolved s) (al_page s) (al_data s)
         (resolvePending s || negb (forallb a_is_resolved l)) s, resolve_all l)
  | OpenDevice id => (s, [Navigate ("/devices/" ++ id)])
  | AlertsFetched l t => (al_set (showResolved s) (al_page s) (Some (l, t)) (resolvePending s) s, [])
  | ResolveDone => (al_set (showResolved s) (al_page s) (al_data s) false s, Hooks.useResolveAlert_success)
  end.

Section view.
Context (formatDistanceToNow : jstr → jstr).

Definition alert_row (a : Alert) : node alerts_action :=
  div ([span [];
        div [div [span [Text (severity_string (a_severity a))]; span [Text (replace_all 95 " " (a_alert_type a))];
                  span [Text (formatDistanceToNow (a_created_at a))]];
             p_ [Text (a_message a)]]]
       ++ when (negb (a_is_resolved a))
            [button [OnClick (ResolveOne (a_id a)); Attr "title" "Resolve"] [icon "CheckCircle"]]).

Definition device_section (s : alerts_state) (g : jstr * list Alert) : node alerts_action :=
  el "section" (
    [div [El "Link" [OnClick (OpenDevice (fst g)); Attr "to" ("/devices/" ++ fst g)]
            [Text (deviceNames (al_devices s) (fst g) ?? fst g)];
          button [OnClick (ResolveAll (snd g));
                  Disabled (forallb a_is_resolved (snd g) || resolvePending s)] [Text "Resolve All"]]]
    ++ map alert_row (snd g)).

Definition alerts_pagination (s : alerts_state) : option (node Z) :=
  Pagination.Pagination (al_page s) (total_pages (page_total_alerts s) alerts_page_size).

Definition alerts_view (s : alerts_state) : node alerts_action :=
  let alerts := page_alerts s in
  let sum := summary alerts in
  div ([div [div [el "h1" [Text "Alerts"];
                  p_ [num_text (Z.of_nat (length (bfilter (λ a, negb (a_is_resolved a)) alerts)));
                      Text " unresolved"]];
             div [button [OnClick ExportAlerts] [Text "Export CSV"];
                  el "label" [El "input" [Attr "type" "checkbox"; Checked (showResolved s);
                                          OnChange (λ _, SetShowResolved (negb (showResolved s)))] [];
                              Text "Show resolved"]]];
        div [span [num_text (n_critical sum); Text " critical"]; span [num_text (n_warning sum); Text " warnings"];
             span [num_text (n_info sum); Text " info"]];
        if Nat.eqb (length alerts) 0 then div [icon "AlertTriangle"; p_ [Text "No alerts"]]
        else div (map (device_section s) (groupedByDevice alerts))]
       ++ match alerts_pagination s with Some n => [map_node SetAlertsPage n] | None => [] end).
End view.

(** *** Lemmas *)

Lemma add_to_group_upsert a acc :
  add_to_group a acc = upsert seqb (a_device_id a) (push_to a) acc.
Proof. induction acc as [|[k l] acc IH]; simpl; [done|]. by rewrite IH. Qed.

Lemma grouped_group_by alerts : groupedByDevice alerts = group_by seqb a_device_id alerts.
Proof.
  unfold groupedByDevice, group_by, collect. generalize (@nil (jstr * list Alert)).
  induction alerts as [|a alerts IH]; intros acc; [done|]. simpl. by rewrite add_to_group_upsert, IH.
Qed.

Lemma summary_spec alerts acc :
  let n sev := Z.of_nat (length (bfilter (λ a, bool_decide (a_severity a = sev)) alerts)) in
  fold_left count_one alerts acc =
  {| n_critical := n_critical acc + n Critical; n_warning := n_warning acc + n Warning;
     n_info := n_info acc + n Info |}.
Proof.
  revert acc. induction alerts as [|a l IH]; intros acc; simpl.
  - destruct acc. f_equal; simpl; lia.
  - rewrite IH. unfold count_one. destruct (a_severity a); simpl; f_equal; lia.
Qed.

End AlertsPage.

(** ** SoftwareUpdates *)

Module SoftwareUpdatesPage.

Definition updates_page_size : Z := 25.

Record updates_state := {
  up_selected : list jstr; up_expanded : list jstr; up_search : jstr; up_page : Z;
  up_pending : list PendingSoftwareUpdate; up_devices : list Device; up_dispatching : bool }.

(** [searchParams.get('search') ?? ''] is the first search text. *)
Definition updates_initial (search : option jstr) : updates_state :=
  {| up_selected := []; up_expanded := []; up_search := search ?? ""; up_page := 1; up_pending := [];
     up_devices := []; up_dispatching := false |}.

Definition up_filtered (s : updates_state) : list PendingSoftwareUpdate :=
  bfilter (λ e, includes (toLowerCase (ps_software_name e)) (toLowerCase (up_search s))) (up_pending s).
Definition paged (s : updates_state) : list PendingSoftwareUpdate :=
  slice ((up_page s - 1) * updates_page_size) (up_page s * updates_page_size) (up_filtered s).
Definition affected (l : list PendingSoftwareUpdate) : list jstr := dedup seqb (flat_map ps_affected_device_ids l).
Definition totalDevices (s : updates_state) : Z := Z.of_nat (length (affected (up_filtered s))).

Inductive updates_action :=
| SetUpdatesSearch (q : jstr)
| ToggleSelectedName (name : jstr)
| ToggleExpanded (name : jstr)
| RunUpdate (names : list jstr)
| ExportUpdates
| SetUpdatesPage (p : Z)
| DispatchSettled.

Definition up_set (sel ex : list jstr) (q : jstr) (p : Z) (d : bool) (s : updates_state) : updates_state :=
  {| up_selected := sel; up_expanded := ex; up_search := q; up_page := p; up_pending := up_pending s;
     up_devices := up_devices s; up_dispatching := d |}.

(** The devices an update is sent to. *)
Definition update_targets (softwareNames : list jstr) (s : updates_state) : list jstr :=
  affected (bfilter (λ e, member (ps_software_name e) softwareNames) (up_filtered s)).

Definition runUpdate (softwareNames : list jstr) (s : updates_state) : updates_state * list ui_effect :=
  (up_set (up_selected s) (up_expanded s) (up_search s) (up_page s) true s,
   [Request (softwareUpdatesApi.updates_dispatch softwareNames (update_targets softwareNames s))]).

Definition updates_rows (s : updates_state) : list (list jstr) :=
  map (λ e, [ps_software_name e; string_of_Z (ps_affected_count e); join " " (ps_affected_device_ids e)])
    (up_filtered s).

Definition updates_update (a : updates_action) (s : updates_state) : updates_state * list ui_effect :=
  match a with
  | SetUpdatesSearch q => (up_set (up_selected s) (up_expanded s) q (up_page s) (up_dispatching s) s, [])
  | ToggleSelectedName n =>
      (up_set (toggle_member n (up_selected s)) (up_expanded s) (up_search s) (up_page s) (up_dispatching s) s, [])
  | ToggleExpanded n =>
      (up_set (up_selected s) (toggle_member n (up_expanded s)) (up_search s) (up_page s) (up_dispatching s) s, [])
  | RunUpdate names => runUpdate names s
  | ExportUpdates =>
      (s, [Download (Csv.exportToCSV "software-updates.csv" ["Package"; "Affected Count"; "Device IDs"]
                       (updates_rows s))])
  | SetUpdatesPage p => (up_set (up_selected s) (up_expanded s) (up_search s) p (up_dispatching s) s, [])
  | DispatchSettled => (up_set (up_selected s) (up_expanded s) (up_search s) (up_page s) false s, [])
  end.

Definition severityColor (count : Z) : jstr :=
  if 10 <? count then "bg-red-100 text-red-700 dark:bg-red-500/15 dark:text-red-300"
  else if 3 <? count then "bg-amber-100 text-amber-700 dark:bg-amber-500/15 dark:text-amber-300"
  else "bg-emerald-100 text-emerald-700 dark:bg-emerald-500/15 dark:text-emerald-300".

Definition versions_text (e : PendingSoftwareUpdate) : jstr :=
  let v := join ", " (ps_current_versions e) in if truthy v then v else "Unknown".

Definition update_entry (s : updates_state) (e : PendingSoftwareUpdate) : list (node updates_action) :=
  let name := ps_software_name e in
  let isExpanded := member name (up_expanded s) in
  [el "tr" [
     el "td" [El "input" [Attr "type" "checkbox"; Checked (member name (up_selected s));
                          OnChange (λ _, ToggleSelectedName name)] []];
     el "td" [button [OnClick (ToggleExpanded name)]
                [icon (if isExpanded then "ChevronDown" else "ChevronRight"); span [Text name]]];
     el "td" [El "span" [Attr "class" (severityColor (ps_affected_count e))] [num_text (ps_affected_count e)]];
     el "td" [Text (versions_text e)];
     el "td" [button [OnClick (RunUpdate [name])] [Text "Update All"]]]]
  ++ when isExpanded
       [el "tr" [el "td" [];
                 El "td" [Attr "colSpan" "4"]
                   [div (map (λ id, div [span [Text (deviceNames (up_devices s) id ?? id)];
                                         span [Text (versions_text e)]]) (ps_affected_device_ids e))]]].

Definition updates_pagination (s : updates_state) : option (node Z) :=
  Pagination.Pagination (up_page s) (total_pages (Z.of_nat (length (up_filtered s))) updates_page_size).

Definition updates_view (s : updates_state) : node updates_action :=
  div ([div [el "h1" [Text "Software Updates"];
             p_ [num_text (Z.of_nat (length (up_filtered s))); Text " packages have updates available across ";
                 num_text (totalDevices s); Text " devices"]];
        div [El "input" [Attr "value" (up_search s); OnChange SetUpdatesSearch;
                         Attr "placeholder" "Filter by package name"] [];
             button [OnClick (RunUpdate (up_selected s));
                     Disabled (Nat.eqb (length (up_selected s)) 0 || up_dispatching s)] [Text "Update Selected"];
             button [OnClick ExportUpdates] [Text "Export CSV"]];
        div [el "table" [
          el "thead" [el "tr" (el "th" [] :: map (λ h, el "th" [Text h])
                        ["Package"; "Affected Devices"; "Versions in Use"; "Action"])];
          el "tbody" (flat_map (update_entry s) (paged s)
            ++ when (Nat.eqb (length (paged s)) 0)
                 [el "tr" [El "td" [Attr "colSpan" "5"]
                    [div [icon "PackageOpen"; span [Text "No pending software updates found."]]]]])]]]
       ++ match updates_pagination s with Some n => [map_node SetUpdatesPage n] | None => [] end).

End SoftwareUpdatesPage.

(** ** Properties *)

Module PagesProps.

(** The dashboard's selection never names a device twice, nor one that the
    current source (all devices, or the group in the location) does not have,
    through any sequence of card toggles, filters and data refreshes. *)
Theorem dashboard_selection_valid s :
  Dashboard.dashboard_reachable s →
  NoDup (Dashboard.db_selected s) ∧
  ∀ id, In id (Dashboard.db_selected s) → In id (map d_id (Dashboard.sourceDevices s)).
Proof. apply Dashboard.reachable_selection. Qed.

Definition sample_device (id : jstr) : Device :=
  {| d_id := id; d_hostname := id; d_os_type := Linux; d_os_version := None; d_arch := None;
     d_ip_address := None; d_status := Online; d_last_seen := None; d_enrolled_at := "t";
     d_label := None; d_notes := None; d_tags := []; d_serial_number := None; d_manufacturer := None;
     d_model_name := None; d_purchase_date := None; d_warranty_expires := None; d_location := None;
     d_assigned_to := None; d_asset_tag := None; d_maintenance_mode := None; d_maintenance_until := None;
     d_maintenance_reason := None; d_agent_version := None; d_is_online := true |}.

Definition sample_dashboard : Dashboard.dashboard_state :=
  {| Dashboard.selectedTag := ""; Dashboard.selectedGroupId := "";
     Dashboard.devices := map sample_device ["a"; "b"]; Dashboard.devicesLoading := false;
     Dashboard.db_alerts := []; Dashboard.filter_ := Dashboard.All; Dashboard.db_search := "";
     Dashboard.db_selected := []; Dashboard.paused := false; Dashboard.db_tags := [];
     Dashboard.db_groups := []; Dashboard.groupDevices := []; Dashboard.groupLoading := false;
     Dashboard.activity := [] |}.

Lemma dashboard_selection_valid_witness :
  let s := Dashboard.data_arrives "" [sample_device "b"] [] false false
             (Dashboard.toggleSelected "a" sample_dashboard) in
  NoDup (Dashboard.db_selected s) ∧ Dashboard.db_selected s = [].
Proof.
  split; [|reflexivity].
  apply dashboard_selection_valid. apply Dashboard.reach_data.
  apply (Dashboard.reach_toggle (sample_device "a")); [apply Dashboard.reach_empty; reflexivity|].
  vm_compute. left. reflexivity.
Defined.

(** C30: the alerts page shows every alert of the page exactly once, under its
    own device, in the order received; devices are distinct and none is empty;
    the three counters are the numbers of alerts of each severity; and
    "Resolve All" asks for exactly the unresolved alerts of that device. *)
Theorem alerts_grouped_exactly alerts :
  NoDup (map fst (AlertsPage.groupedByDevice alerts)) ∧
  (∀ a, In a alerts → ∃ l, In (a_device_id a, l) (AlertsPage.groupedByDevice alerts)) ∧
  (∀ k l, In (k, l) (AlertsPage.groupedByDevice alerts) →
     l ≠ [] ∧ l = bfilter (λ a, a_device_id a =s k) alerts ∧
     AlertsPage.resolve_all l =
       map (λ a, Request (alertsApi.alert_resolve (a_id a)))
         (bfilter (λ a, (a_device_id a =s k) && negb (a_is_resolved a)) alerts)) ∧
  (let n sev := Z.of_nat (length (bfilter (λ a, bool_decide (a_severity a = sev)) alerts)) in
   AlertsPage.summary alerts =
     {| AlertsPage.n_critical := n Critical; AlertsPage.n_warning := n Warning; AlertsPage.n_info := n Info |}).
Proof.
  rewrite AlertsPage.grouped_group_by. split; [apply collect_NoDup, seqb_true|]. split; [|split].
  - intros a Ha. eexists. apply (group_by_covers seqb seqb_true a_device_id), Ha.
  - intros k l [-> Hne]%(group_by_In seqb seqb_true a_device_id). split; [done|]. split; [done|].
    unfold AlertsPage.resolve_all. clear.
    induction alerts as [|a alerts IH]; [done|]. simpl.
    destruct (a_device_id a =s k); simpl; [|done]. destruct (a_is_resolved a); simpl; [done|].
    by rewrite IH.
  - intros n. unfold AlertsPage.summary. by rewrite AlertsPage.summary_spec.
Qed.

(** An update is dispatched to exactly the devices affected by a filtered
    package with one of the given names, each once. *)
Theorem update_targets_exact names s :
  List.NoDup (SoftwareUpdatesPage.update_targets names s) ∧
  ∀ id, In id (SoftwareUpdatesPage.update_targets names s) ↔
        ∃ e, In e (SoftwareUpdatesPage.up_filtered s) ∧ In (ps_software_name e) names ∧
             In id (ps_affected_device_ids e).
Proof.
  unfold SoftwareUpdatesPage.update_targets, SoftwareUpdatesPage.affected. split.
  - apply dedup_NoDup. apply seqb_true.
  - intros id. rewrite dedup_In by apply seqb_true. rewrite in_flat_map. split.
    + intros (e & [He Hm]%bfilter_In & Hid). apply member_In in Hm. by exists e.
    + intros (e & He & Hn & Hid). exists e. split; [|done]. apply bfilter_In. split; [done|].
      by apply member_In.
Qed.

(** Typing a search on a later page of the software updates does not go
    back to the first page: when the packages found fit on one page the table
    is empty, says that there are no updates, and offers no page to go to. *)
Theorem updates_search_can_hide_results s q :
  let s' := fst (SoftwareUpdatesPage.updates_update (SoftwareUpdatesPage.SetUpdatesSearch q) s) in
  2 <= SoftwareUpdatesPage.up_page s →
  (length (SoftwareUpdatesPage.up_filtered s') ≤ 25)%nat →
  SoftwareUpdatesPage.paged s' = [] ∧ SoftwareUpdatesPage.updates_pagination s' = None.
Proof.
  intros s' Hp Hl. assert (SoftwareUpdatesPage.up_page s' = SoftwareUpdatesPage.up_page s) as E by done.
  split.
  - unfold SoftwareUpdatesPage.paged, slice, SoftwareUpdatesPage.updates_page_size.
    rewrite E, drop_ge by lia. by rewrite take_nil.
  - unfold SoftwareUpdatesPage.updates_pagination, Pagination.Pagination, total_pages,
      SoftwareUpdatesPage.updates_page_size.
    destruct (Z.leb_spec (Z.max 1 (- (- Z.of_nat (length (SoftwareUpdatesPage.up_filtered s')) / 25))) 1);
      [done|]. zdiv.
Qed.

Definition many_updates : SoftwareUpdatesPage.updates_state :=
  {| SoftwareUpdatesPage.up_selected := []; SoftwareUpdatesPage.up_expanded := [];
     SoftwareUpdatesPage.up_search := ""; SoftwareUpdatesPage.up_page := 2;
     SoftwareUpdatesPage.up_pending :=
       {| ps_software_name := "vim"; ps_current_versions := []; ps_affected_device_ids := ["d1"];
          ps_affected_count := 1 |} ::
       repeat {| ps_software_name := "lib"; ps_current_versions := []; ps_affected_device_ids := [];
                 ps_affected_count := 0 |} 30;
     SoftwareUpdatesPage.up_devices := []; SoftwareUpdatesPage.up_dispatching := false |}.

Lemma updates_search_can_hide_results_witness :
  let s' := fst (SoftwareUpdatesPage.updates_update (SoftwareUpdatesPage.SetUpdatesSearch "vim") many_updates) in
  length (SoftwareUpdatesPage.up_filtered s') = 1%nat ∧ SoftwareUpdatesPage.paged s' = [].
Proof.
  split; [vm_compute; reflexivity|].
  apply (updates_search_can_hide_results many_updates "vim"); [vm_compute; discriminate|].
  apply Nat.leb_le. vm_compute. reflexivity.
Defined.

End PagesProps.
