(* ===== verification/FleetPages.v ===== *)
(** Pages that show the fleet: [pages/DeviceCompare.tsx], [CustomDashboard.tsx],
    [NetworkMap.tsx] and [Status.tsx]. *)
From Stdlib Require Import QArith Qabs Qround Lqa.
From S2P Require Import Prelude JsString JsNumber Utils Types JsJson JsonText Api Stores Ui DeviceComponents Pages.
Local Open Scope Z_scope.
Local Open Scope js_scope.

(** ** DeviceCompare *)

Module DeviceCompare.

(** [metricColor(value, warning, danger)] *)
Definition metricColor (value : option Q) (warning danger : Q) : jstr :=
  match value with
  | None => "text-slate-400 dark:text-gray-500"
  | Some v =>
      if Qle_bool danger v then "text-red-500"
      else if Qle_bool warning v then "text-amber-500"
      else "text-emerald-500"
  end.

(** The identifiers of the location, four at most. *)
Definition compare_ids (ids_param : option jstr) : list jstr :=
  take 4 (bfilter truthy (map trim (split "," (ids_param ?? "")))).

(** The four queries of each identifier. *)
Definition compare_enabled (ids : list jstr) : bool := Nat.ltb 0 (length ids).
Definition compare_device_query (ids : list jstr) (id : jstr) : query :=
  Query [JStr "device"; JStr "compare"; JStr id] (devicesApi.device_get id) 0 (compare_enabled ids).
Definition compare_alerts_query (ids : list jstr) (id : jstr) : query :=
  Query [JStr "alerts"; JStr "compare"; JStr id]
    (get_params "/alerts" [("device_id", JStr id); ("resolved", JBool false); ("limit", JZ 200)]) 0
    (compare_enabled ids).
Definition compare_metric_query (ids : list jstr) (id : jstr) : query :=
  Query [JStr "metrics"; JStr "compare"; JStr id; JStr "latest"] (metricsApi.latest id) 0 (compare_enabled ids).
Definition compare_software_query (ids : list jstr) (id : jstr) : query :=
  Query [JStr "software"; JStr "compare"; JStr id] (get ("/devices/" ++ id ++ "/software")) 0
    (compare_enabled ids).

(** The data that has arrived for one identifier. *)
Record compare_data := {
  cd_device : option Device; cd_metric : option Metric; cd_alerts : option (list Alert);
  cd_software : option (list SoftwarePackage) }.

Record compare_state := { cs_ids : option jstr; cs_data : list compare_data; highlightDiffs : bool }.

Record compare_row := {
  cr_device : Device; cr_metric : option Metric; cr_alerts : list Alert; cr_softwareCount : Z;
  cr_pendingUpdates : Z }.

Definition row_of (d : option compare_data) : option compare_row :=
  d ← d; device ← cd_device d;
  Some {| cr_device := device; cr_metric := cd_metric d; cr_alerts := cd_alerts d ?? [];
          cr_softwareCount := Z.of_nat (length (cd_software d ?? []));
          cr_pendingUpdates := Z.of_nat (length (bfilter sp_update_available (cd_software d ?? []))) |}.

Definition compareRows (s : compare_state) : list compare_row :=
  omap (λ i, row_of (cs_data s !! i)) (seq 0 (length (compare_ids (cs_ids s)))).

Definition row_os (r : compare_row) : jstr := d_os_version (cr_device r) ?? os_string (d_os_type (cr_device r)).
(** [row.latestMetric?.field] *)
Definition row_metric {B} (r : compare_row) (f : Metric → option B) : option B := cr_metric r ≫= f.
Definition row_uptime (r : compare_row) : Z := row_metric r m_uptime_secs ?? 0.
(** [new Set(values).size] *)
Definition set_size {A} (eqb : A → A → bool) (l : list A) : nat := length (dedup eqb l).
Definition os_values (rows : list compare_row) : nat := set_size seqb (map row_os rows).
Definition uptime_values (rows : list compare_row) : nat := set_size Z.eqb (map row_uptime rows).
Definition alert_values (rows : list compare_row) : nat :=
  set_size Nat.eqb (map (λ r, length (cr_alerts r)) rows).
Definition software_values (rows : list compare_row) : nat := set_size Z.eqb (map cr_softwareCount rows).

(** [compareRows.some((entry) => Math.abs((entry ?? 0) - (row ?? 0)) >= by)] *)
Definition metric_differs (field : Metric → option Q) (by_ : Q) (rows : list compare_row) (r : compare_row) : bool :=
  let v x := row_metric x field ?? 0%Q in
  existsb (λ e, Qle_bool by_ (Qabs (v e - v r))) rows.

Inductive compare_action := SetHighlight (b : bool).
Definition compare_update (a : compare_action) (s : compare_state) : compare_state :=
  let 'SetHighlight b := a in {| cs_ids := cs_ids s; cs_data := cs_data s; highlightDiffs := b |}.

Definition CompareCell (label value : jstr) (highlight : bool) (valueClassName : option jstr) : node compare_action :=
  El "div" [Attr "class" ("rounded-xl border px-3 py-2 " ++
                          if highlight then "border-amber-300 bg-amber-50 dark:border-amber-500/30 dark:bg-amber-950/20"
                          else "border-slate-200 dark:border-gray-800")]
    [p_ [Text label];
     El "p" [Attr "class" ("mt-1 font-medium text-slate-900 dark:text-gray-100 " ++ (valueClassName ?? ""))]
       [Text value]].

Section view.
Context (formatDistanceToNow : jstr → jstr).

Definition metric_text (v : option Q) (unit : jstr) : jstr :=
  match v with Some x => toFixed1 x ++ unit | None => "—" end.

Definition compare_card (s : compare_state) (rows : list compare_row) (r : compare_row) : node compare_action :=
  let on := highlightDiffs s in
  el "article" [
    div [div [el "h2" [Text (d_label (cr_device r) ?? d_hostname (cr_device r))];
              p_ [Text (d_hostname (cr_device r))]];
         DeviceStatusBadge.DeviceStatusBadge (d_status (cr_device r)) true];
    div [CompareCell "CPU" (metric_text (row_metric r m_cpu_percent) "%") (on && metric_differs m_cpu_percent 10 rows r)
           (Some (metricColor (row_metric r m_cpu_percent) 70 90));
         CompareCell "RAM" (metric_text (row_metric r m_ram_percent) "%") (on && metric_differs m_ram_percent 10 rows r)
           (Some (metricColor (row_metric r m_ram_percent) 70 90));
         CompareCell "Disk" (metric_text (row_metric r m_disk_percent) "%") (on && metric_differs m_disk_percent 10 rows r)
           (Some (metricColor (row_metric r m_disk_percent) 75 90));
         CompareCell "Temp" (metric_text (row_metric r m_cpu_temp) "°C") (on && metric_differs m_cpu_temp 8 rows r)
           (Some (metricColor (row_metric r m_cpu_temp) 70 85));
         CompareCell "OS" (row_os r) (on && Nat.ltb 1 (os_values rows)) None;
         CompareCell "Uptime" (match row_metric r m_uptime_secs with
                               | Some u => Uptime.formatUptime u | None => "—" end)
           (on && Nat.ltb 1 (uptime_values rows)) None;
         CompareCell "Alerts" (string_of_Z (Z.of_nat (length (cr_alerts r)))) (on && Nat.ltb 1 (alert_values rows)) None;
         CompareCell "Software" (string_of_Z (cr_softwareCount r) ++ " packages · "
                                 ++ string_of_Z (cr_pendingUpdates r) ++ " updates pending")
           (on && Nat.ltb 1 (software_values rows)) None;
         CompareCell "Last Seen" (match d_last_seen (cr_device r) with
                                  | Some t => if truthy t then formatDistanceToNow t else "Never"
                                  | None => "Never" end) false None]].

Definition compare_grid (n : nat) : jstr :=
  "grid gap-4 " ++ if Nat.eqb n 2 then "lg:grid-cols-2" else if Nat.eqb n 3 then "xl:grid-cols-3" else "xl:grid-cols-4".

Definition compare_view (s : compare_state) : node compare_action :=
  let n := length (compare_ids (cs_ids s)) in
  let rows := compareRows s in
  if Nat.ltb n 2
  then div [Text "Select 2 to 4 devices from the dashboard and use Compare to open this view."]
  else div [
    div [div [el "h1" [Text "Device Compare"]; p_ [Text "Side-by-side comparison for up to four devices."]];
         el "label" [El "input" [Attr "type" "checkbox"; Checked (highlightDiffs s);
                                 OnCheck SetHighlight] [];
                     Text "Difference highlight"]];
    El "div" [Attr "class" (compare_grid n)] (map (compare_card s rows) rows)].
End view.

(** *** Lemmas *)

Lemma set_size_many {A} (eqb : A → A → bool) (eqb_spec : ∀ x y, eqb x y = true ↔ x = y) l :
  Nat.ltb 1 (set_size eqb l) = true ↔ ∃ x y, In x l ∧ In y l ∧ x ≠ y.
Proof.
  unfold set_size. rewrite Nat.ltb_lt. pose proof (dedup_NoDup eqb eqb_spec l) as Hn.
  setoid_rewrite <-(dedup_In eqb eqb_spec _ l).
  destruct (dedup eqb l) as [|a [|b d]]; simpl.
  - split; [lia|naive_solver].
  - split; [lia|]. intros (x & y & [<-|[]] & [<-|[]] & ?). done.
  - split; [|lia]. intros _. exists a, b. split; [by left|]. split; [by right; left|].
    intros ->. inversion Hn as [|? ? Hin]; subst. apply Hin. by left.
Qed.

Lemma compare_ids_ok p id : In id (compare_ids p) → truthy id = true.
Proof.
  unfold compare_ids. intros H. apply list_elem_of_In in H. apply elem_of_take in H as (i & H & _).
  apply list_elem_of_lookup_2, list_elem_of_In, bfilter_In in H. naive_solver.
Qed.

End DeviceCompare.

(** ** CustomDashboard *)

Module CustomDashboard.
Import localStorage.

(** The type [WidgetKey] is a union of strings; a stored layout may name
    others, so identifiers are strings. *)
Record LayoutItem := { widgetId : jstr; li_x : Z; li_y : Z; li_w : Z; li_h : Z }.
#[global] Instance LayoutItem_eq_dec : EqDecision LayoutItem.
Proof. solve_decision. Defined.

Definition LAYOUT_STORAGE_KEY : jstr := "dtsys-dashboard-layout".

Definition availableWidgets : list (jstr * jstr) := [
  ("device-status", "Device Status Pie");
  ("alerts", "Alert Summary");
  ("device-count", "Device Count");
  ("online-count", "Online Count");
  ("recent-events", "Recent Events");
  ("uptime-leaderboard", "Uptime Leaderboard")].

Definition item (id : jstr) (x y w h : Z) : LayoutItem :=
  {| widgetId := id; li_x := x; li_y := y; li_w := w; li_h := h |}.
Definition defaultLayout : list LayoutItem := [
  item "device-status" 1 1 4 3;
  item "alerts" 5 1 4 3;
  item "device-count" 9 1 2 2;
  item "online-count" 11 1 2 2;
  item "recent-events" 1 4 6 4;
  item "uptime-leaderboard" 7 4 6 4].

(** *** The stored layout *)

Definition item_json (i : LayoutItem) : json :=
  JObj [("widgetId", JStr (widgetId i)); ("x", JZ (li_x i)); ("y", JZ (li_y i)); ("w", JZ (li_w i));
        ("h", JZ (li_h i))].
Definition layout_json (l : list LayoutItem) : json := JArr (map item_json l).

(** The fields of a parsed value at the type [LayoutItem]. *)
Definition int_of (v : json) : option Z :=
  match v with JNum (Fin q) => if (Zpos (Qden q) =? 1) then Some (Qnum q) else None | _ => None end.
Definition string_in (v : json) : option jstr := match v with JStr s => Some s | _ => None end.
Definition item_of_json (v : json) : option LayoutItem :=
  id ← field "widgetId" v ≫= string_in;
  x ← field "x" v ≫= int_of; y ← field "y" v ≫= int_of;
  w ← field "w" v ≫= int_of; h ← field "h" v ≫= int_of;
  Some (item id x y w h).
Definition layout_of_json (v : json) : option (list LayoutItem) :=
  match v with JArr l => mapM item_of_json l | _ => None end.

Section storage.
Context (decimal : Q → jstr).

Definition saveLayout (layout : list LayoutItem) (ls : localStorage.t) : localStorage.t :=
  setItem LAYOUT_STORAGE_KEY (JSON_stringify decimal (layout_json layout)) ls.
End storage.

(** The code casts what [JSON.parse] returns to [LayoutItem[]]: [None] is a
    stored text that is JSON but not a layout, on which the page fails. *)
Definition readLayout (ls : localStorage.t) : option (list LayoutItem) :=
  match getItem LAYOUT_STORAGE_KEY ls with
  | None => Some defaultLayout
  | Some raw =>
      if negb (truthy raw) then Some defaultLayout
      else match JSON_parse raw with
           | Some v => layout_of_json v
           | None => Some defaultLayout
           end
  end.

(** *** State and actions *)

Record board_state := {
  cb_ls : localStorage.t; editMode : bool; showPicker : bool; layout : list LayoutItem;
  dragging : option jstr }.

Definition board_mount (ls : localStorage.t) : option board_state :=
  l ← readLayout ls;
  Some {| cb_ls := ls; editMode := false; showPicker := false; layout := l; dragging := None |}.

Definition board_devices_query : query := Hooks.useDevices None.
Definition board_alerts_query : query := Hooks.useAlerts (Some (None, Some false)).
Definition board_recent_query : query :=
  Query [JStr "devices"; JStr "custom-dashboard"] (devicesApi.devices_list None None) 0 true.

Inductive board_action :=
| ToggleEdit
| OpenPicker
| ClosePicker
| ResetLayout
| SaveLayout
| DragStart (id : jstr)
| Drop (target : jstr)
| MouseUp
| RemoveWidget (id : jstr)
| ResizeWidget (id : jstr)
| AddWidget (id : jstr).

(** [list.findIndex(test)] *)
Definition findIndex {A} (test : A → bool) (l : list A) : Z :=
  match list_find (λ x, test x = true) l with Some (i, _) => Z.of_nat i | None => -1 end.
(** Where [splice(start, ...)] begins. *)
Definition splice_start (start : Z) (len : nat) : nat :=
  if start <? 0 then Z.to_nat (Z.of_nat len + start) else Nat.min (Z.to_nat start) len.
(** [list.splice(start, 1)]: the list left and the element removed. *)
Definition splice_remove {A} (start : Z) (l : list A) : list A * option A :=
  let k := splice_start start (length l) in (take k l ++ drop (S k) l, l !! k).
(** [list.splice(start, 0, x)] *)
Definition splice_insert {A} (start : Z) (x : A) (l : list A) : list A :=
  let k := splice_start start (length l) in take k l ++ x :: drop k l.

Definition is_widget (id : jstr) (i : LayoutItem) : bool := widgetId i =s id.

(** The guard of [onDragOver] and [onDrop]. *)
Definition drop_allowed (target : jstr) (s : board_state) : bool :=
  negb (negb (editMode s) || negb (otruthy (dragging s)) || bool_decide (dragging s = Some target)).

Definition moveWidget (dragged target : jstr) (l : list LayoutItem) : list LayoutItem :=
  let from := findIndex (is_widget dragged) l in
  let to := findIndex (is_widget target) l in
  let '(next, moved) := splice_remove from l in
  match moved with Some m => splice_insert to m next | None => next end.

Definition grow (i : LayoutItem) : LayoutItem :=
  item (widgetId i) (li_x i) (li_y i) (Z.min 12 (li_w i + 1)) (Z.min 6 (li_h i + 1)).

Definition set_layout (l : list LayoutItem) (s : board_state) : board_state :=
  {| cb_ls := cb_ls s; editMode := editMode s; showPicker := showPicker s; layout := l; dragging := dragging s |}.
Definition set_board (ls : localStorage.t) (e p : bool) (d : option jstr) (s : board_state) : board_state :=
  {| cb_ls := ls; editMode := e; showPicker := p; layout := layout s; dragging := d |}.

Section update.
Context (decimal : Q → jstr).

Definition board_update (a : board_action) (s : board_state) : board_state :=
  match a with
  | ToggleEdit => set_board (cb_ls s) (negb (editMode s)) (showPicker s) (dragging s) s
  | OpenPicker => set_board (cb_ls s) (editMode s) true (dragging s) s
  | ClosePicker => set_board (cb_ls s) (editMode s) false (dragging s) s
  | ResetLayout =>
      set_board (removeItem LAYOUT_STORAGE_KEY (cb_ls s)) (editMode s) (showPicker s) (dragging s)
        (set_layout defaultLayout s)
  | SaveLayout => set_board (saveLayout decimal (layout s) (cb_ls s)) (editMode s) (showPicker s) (dragging s) s
  | DragStart id => set_board (cb_ls s) (editMode s) (showPicker s) (Some id) s
  | Drop target =>
      if drop_allowed target s
      then set_layout (moveWidget (dragging s ?? "") target (layout s)) s else s
  | MouseUp => set_board (cb_ls s) (editMode s) (showPicker s) None s
  | RemoveWidget id => set_layout (bfilter (λ i, negb (is_widget id i)) (layout s)) s
  | ResizeWidget id => set_layout (map (λ i, if is_widget id i then grow i else i) (layout s)) s
  | AddWidget id =>
      set_board (cb_ls s) (editMode s) false (dragging s)
        (set_layout (layout s ++ [item id 1 (Z.of_nat (length (layout s)) + 1) 4 3]) s)
  end.
End update.

Definition known (i : LayoutItem) : bool := existsb (λ w, fst w =s widgetId i) availableWidgets.
Definition rendered (s : board_state) : list LayoutItem := bfilter known (layout s).
(** The widgets the picker offers. *)
Definition pickable (s : board_state) : list (jstr * jstr) :=
  bfilter (λ w, negb (existsb (is_widget (fst w)) (layout s))) availableWidgets.

(** *** Rendering *)

Section view.
Context (devices recentDevices : list Device) (alerts : list Alert).

Definition onlineCount : Z := Dashboard.count_status Online devices.
Definition BigCount (title : jstr) (value : Z) : node board_action := div [p_ [Text title]; p_ [num_text value]].
Definition StatBlock (label : jstr) (value : Z) (tone : jstr) : node board_action :=
  div [p_ [Text label]; El "p" [Attr "class" ("mt-1 text-2xl font-bold " ++ tone)] [num_text value]].
Definition device_line (d : Device) : node board_action :=
  p_ [Text (d_label d ?? d_hostname d); Text " · "; Text (status_string (d_status d))].

Definition WidgetCard (id : jstr) : node board_action :=
  if id =s "device-status" then
    div [el "h3" [Text "Device Status"];
         div [StatBlock "Online" onlineCount "text-emerald-500";
              StatBlock "Offline" (Dashboard.count_status Offline recentDevices) "text-slate-500";
              StatBlock "Alert" (Dashboard.count_status InAlert recentDevices) "text-red-500"]]
  else if id =s "alerts" then
    div (el "h3" [Text "Last 5 Alerts"]
         :: map (λ a, p_ [Text (a_alert_type a); Text ": "; Text (a_message a)]) (take 5 alerts))
  else if id =s "device-count" then BigCount "Total Devices" (Z.of_nat (length recentDevices))
  else if id =s "online-count" then BigCount "Online Devices" onlineCount
  else if id =s "recent-events" then
    div (el "h3" [Text "Recently Seen"] :: map device_line (take 10 recentDevices))
  else div (el "h3" [Text "Uptime Leaderboard"] :: map device_line (take 5 recentDevices)).

(** The drag handlers of a section are named by attributes. *)
Definition board_section (s : board_state) (i : LayoutItem) : node board_action :=
  El "section" [Attr "draggable" (if editMode s then "true" else "false");
                Attr "gridColumn" ("span " ++ string_of_Z (li_w i));
                Attr "gridRow" ("span " ++ string_of_Z (li_h i))]
    (when (editMode s)
       [button [OnClick (RemoveWidget (widgetId i))] [icon "X"];
        button [OnClick (ResizeWidget (widgetId i))] [Text "Resize"]]
     ++ [WidgetCard (widgetId i)]).

Definition board_view (s : board_state) : node board_action :=
  div ([div [div [el "h1" [Text "My Dashboard"];
                  p_ [Text "Compose your own operations view with reusable widgets."]];
             div [button [OnClick ToggleEdit] [Text (if editMode s then "Stop Editing" else "Edit Layout")];
                  button [OnClick OpenPicker] [icon "Plus"; Text "Add Widget"];
                  button [OnClick ResetLayout] [icon "RotateCcw"; Text "Reset"];
                  button [OnClick SaveLayout] [icon "Save"; Text "Save Layout"]]];
        div (map (board_section s) (rendered s))]
       ++ when (showPicker s)
            [div [div [div [el "h2" [Text "Add Widget"]; button [OnClick ClosePicker] [Text "Close"]];
                       div (map (λ w, button [OnClick (AddWidget (fst w))] [span [Text (snd w)]; icon "Plus"])
                              (pickable s))]]]).
End view.

(** *** The order of the widgets *)

Lemma findIndex_spec {A} (test : A → bool) l x :
  In x l → test x = true →
  ∃ k y, findIndex test l = Z.of_nat k ∧ l !! k = Some y ∧ test y = true ∧
         (∀ j z, (j < k)%nat → l !! j = Some z → test z = false).
Proof.
  intros Hin Ht. unfold findIndex.
  destruct (list_find (λ y, test y = true) l) as [[k y]|] eqn:E.
  - apply list_find_Some in E as (Hk & Hy & Hlt). exists k, y. repeat split; [done|done|].
    intros j z Hj Hz. apply not_true_is_false. by apply (Hlt j z).
  - apply list_find_None in E. rewrite Forall_forall in E.
    destruct (E x); [by apply list_elem_of_In|done].
Qed.

Lemma splice_start_nat k n : (k ≤ n)%nat → splice_start (Z.of_nat k) n = k.
Proof.
  intros H. unfold splice_start. rewrite (proj2 (Z.ltb_ge _ _)) by lia. rewrite Nat2Z.id. lia.
Qed.

Lemma splice_insert_perm {A} i (x : A) l : Permutation (splice_insert i x l) (x :: l).
Proof.
  unfold splice_insert. set (k := splice_start i (length l)).
  rewrite <-(take_drop k l) at 3. symmetry. apply Permutation_middle.
Qed.

Lemma moveWidget_perm d t l : Permutation (moveWidget d t l) l.
Proof.
  unfold moveWidget, splice_remove. set (k := splice_start _ _). destruct (l !! k) as [m|] eqn:E.
  - rewrite splice_insert_perm. rewrite <-(take_drop_middle l k m E) at 3. apply Permutation_middle.
  - apply lookup_ge_None in E. rewrite take_ge, drop_ge by lia. by rewrite app_nil_r.
Qed.

(** A lookup in a list without duplicate identifiers. *)
Lemma widget_unique l i j x y :
  NoDup (map widgetId l) → l !! i = Some x → l !! j = Some y → widgetId x = widgetId y → i = j.
Proof.
  intros Hn Hx Hy E. eapply (NoDup_lookup _ i j (widgetId x) Hn).
  - change ((widgetId <$> l) !! i = Some (widgetId x)). by rewrite list_lookup_fmap, Hx.
  - change ((widgetId <$> l) !! j = Some (widgetId x)). by rewrite list_lookup_fmap, Hy, E.
Qed.

Lemma others_kept d l :
  (∀ j z, l !! j = Some z → widgetId z ≠ d) → bfilter (λ i, negb (is_widget d i)) l = l.
Proof.
  intros H. apply bfilter_all. intros x Hx. apply list_elem_of_In, list_elem_of_lookup in Hx as [j Hj].
  unfold is_widget. apply negb_true_iff, seqb_false. by apply (H j).
Qed.

Lemma findIndex_middle {A} (test : A → bool) a x b :
  (∀ y, In y a → test y = false) → test x = true → findIndex test (a ++ x :: b) = Z.of_nat (length a).
Proof.
  intros Ha Hx. destruct (findIndex_spec test (a ++ x :: b) x) as (k & y & -> & Hk & Hy & Hlt);
    [apply in_or_app; right; by left|done|].
  f_equal. destruct (decide (k < length a)%nat) as [H|H].
  - rewrite lookup_app_l in Hk by done. apply list_elem_of_lookup_2, list_elem_of_In, Ha in Hk. congruence.
  - destruct (decide (k = length a)) as [|Hne]; [done|].
    assert (test x = false) as H'; [|congruence]. apply (Hlt (length a)); [lia|].
    by rewrite lookup_app_r, Nat.sub_diag.
Qed.

(** The dragged widget takes the place of the target, the others keep their
    order. *)
Lemma moveWidget_spec d t l :
  NoDup (map widgetId l) → In d (map widgetId l) → In t (map widgetId l) →
  findIndex (is_widget d) (moveWidget d t l) = findIndex (is_widget t) l ∧
  bfilter (λ i, negb (is_widget d i)) (moveWidget d t l) = bfilter (λ i, negb (is_widget d i)) l.
Proof.
  intros Hn (x & <- & Hx)%in_map_iff (y & <- & Hy)%in_map_iff.
  destruct (findIndex_spec (is_widget (widgetId x)) l x Hx (seqb_refl _)) as (k & x' & Ek & Hk & Hx' & _).
  destruct (findIndex_spec (is_widget (widgetId y)) l y Hy (seqb_refl _)) as (i & y' & Ei & Hi & _ & _).
  apply seqb_true in Hx'. pose proof (lookup_lt_Some _ _ _ Hk) as Hkl.
  pose proof (lookup_lt_Some _ _ _ Hi) as Hil.
  unfold moveWidget, splice_remove. rewrite Ek, Ei, splice_start_nat, Hk by lia. unfold splice_insert.
  set (next := take k l ++ drop (S k) l).
  assert (length next = (length l - 1)%nat) as Hlen
    by (unfold next; rewrite length_app, length_take, length_drop; lia).
  rewrite splice_start_nat by lia.
  assert (∀ j z, next !! j = Some z → widgetId z ≠ widgetId x) as Hother.
  { intros j z Hz E. unfold next in Hz. apply lookup_app_Some in Hz as [Hz|[Hj Hz]].
    - rewrite lookup_take_Some in Hz. destruct Hz as [Hz Hj].
      assert (j = k); [|lia]. apply (widget_unique l j k z x' Hn Hz Hk). congruence.
    - rewrite lookup_drop in Hz. rewrite length_take in Hj, Hz.
      enough (S k + (j - Nat.min k (length l)) = k)%nat by lia.
      apply (widget_unique l _ k z x' Hn Hz Hk). congruence. }
  split.
  - rewrite findIndex_middle; [rewrite length_take; f_equal; lia| |by apply seqb_true].
    intros z Hz. apply list_elem_of_In, elem_of_take in Hz as (j & Hz & _).
    apply seqb_false. by apply (Hother j).
  - rewrite bfilter_app. simpl. unfold is_widget at 2. rewrite Hx', seqb_refl. simpl.
    rewrite <-bfilter_app, take_drop, others_kept by done.
    rewrite <-(take_drop_middle l k x' Hk) at 1. rewrite bfilter_app. simpl.
    unfold is_widget at 2. rewrite Hx', seqb_refl. simpl. rewrite <-bfilter_app. fold next.
    by rewrite others_kept.
Qed.

(** *** Invariant *)

Definition item_ok (i : LayoutItem) : Prop :=
  known i = true ∧ 1 <= li_x i <= 12 ∧ 1 <= li_y i <= 6 ∧ 1 <= li_w i <= 12 ∧ 1 <= li_h i <= 6.
(** Distinct known widgets, on the grid. *)
Definition layout_ok (l : list LayoutItem) : Prop :=
  NoDup (map widgetId l) ∧ ∀ i, In i l → item_ok i.

Lemma default_ok : layout_ok defaultLayout.
Proof.
  split; [apply (bool_decide_unpack _); by vm_compute|].
  intros i Hi. repeat (destruct Hi as [<-|Hi]; [repeat split; by vm_compute|]). done.
Qed.

Lemma layout_ok_perm l l' : Permutation l' l → layout_ok l → layout_ok l'.
Proof.
  intros Hp [H1 H2]. split.
  - by rewrite Hp.
  - intros i Hi. apply H2. by rewrite <-Hp.
Qed.

Lemma known_id i : known i = true → In (widgetId i) (map fst availableWidgets).
Proof.
  unfold known. rewrite existsb_exists. intros (w & Hw & E%seqb_true). rewrite <-E. by apply in_map.
Qed.

Lemma layout_room l id :
  layout_ok l → In id (map fst availableWidgets) → ¬ In id (map widgetId l) → (length l ≤ 5)%nat.
Proof.
  intros [Hn Hk] Hid Hfresh.
  assert (length (id :: map widgetId l) ≤ length (map fst availableWidgets))%nat as H.
  { apply NoDup_incl_length.
    - constructor; [done|]. by apply NoDup_ListNoDup.
    - intros j [<-|(i & <- & Hi)%in_map_iff]; [done|]. apply known_id. by apply Hk. }
  simpl in H. rewrite length_map in H. lia.
Qed.

Lemma add_ok l id :
  layout_ok l → In id (map fst availableWidgets) → ¬ In id (map widgetId l) →
  layout_ok (l ++ [item id 1 (Z.of_nat (length l) + 1) 4 3]).
Proof.
  intros Hl Hid Hfresh. pose proof (layout_room l id Hl Hid Hfresh). destruct Hl as [Hn Hk]. split.
  - rewrite map_app. apply NoDup_app. split; [done|]. split; [|apply NoDup_singleton].
    intros j Hj ->%list_elem_of_singleton. by apply list_elem_of_In in Hj.
  - intros i [Hi|[<-|[]]]%in_app_iff; [by apply Hk|]. unfold item_ok. simpl.
    split; [|lia]. apply existsb_exists. apply in_map_iff in Hid as (w & E & Hw). exists w.
    split; [done|]. by apply seqb_true.
Qed.

Lemma grow_ok i : item_ok i → item_ok (grow i).
Proof. intros (H & Hx & Hy & Hw & Hh). repeat split; simpl; try done; lia. Qed.

Lemma resize_ok id l : layout_ok l → layout_ok (map (λ i, if is_widget id i then grow i else i) l).
Proof.
  intros [Hn Hk]. split.
  - rewrite map_map. erewrite map_ext; [exact Hn|]. intros i. simpl. by destruct (is_widget id i).
  - intros j (i & <- & Hi)%in_map_iff. destruct (is_widget id i); [apply grow_ok|]; by apply Hk.
Qed.

Lemma remove_ok (f : LayoutItem → bool) l : layout_ok l → layout_ok (bfilter f l).
Proof.
  intros [Hn Hk]. split; [auto with dtsys|]. intros i [Hi _]%bfilter_In. by apply Hk.
Qed.

(** *** Storage *)

Section stored.
Context (decimal : Q → jstr).

Lemma widget_units id : In id (map fst availableWidgets) → units_ok id.
Proof.
  intros H c Hc.
  assert (forallb (forallb (λ c, (0 <=? c) && (c <? 65536))) (map fst availableWidgets) = true) as Hall
    by (by vm_compute).
  rewrite forallb_forall in Hall. apply Hall in H. rewrite forallb_forall in H.
  apply H in Hc. apply andb_true_iff in Hc as [?%Z.leb_le ?%Z.ltb_lt]. done.
Qed.

Lemma item_plain i : item_ok i → plain (item_json i).
Proof.
  intros (H & Hx & Hy & Hw & Hh). apply (proj2 (plain_obj units_ok _)). split.
  { apply (bool_decide_unpack _). by vm_compute. }
  assert (∀ c, In c (concat ["widgetId"; "x"; "y"; "w"; "h"]) → 0 <= c < 65536) as Hkeys.
  { intros c Hc. simpl in Hc. repeat destruct Hc as [<-|Hc]; lia. }
  intros f Hf. simpl in Hf. repeat destruct Hf as [<-|Hf]; try done; (split;
    [intros c Hc; apply Hkeys; simpl in Hc |- *; naive_solver
    |first [by apply widget_units, known_id | eexists; split; [reflexivity|lia]]]).
Qed.

Lemma item_decodes i : item_of_json (item_json i) = Some i.
Proof. by destruct i. Qed.

Lemma layout_decodes l : layout_of_json (layout_json l) = Some l.
Proof.
  simpl. induction l as [|i l IH]; [done|]. cbn [map mapM].
  rewrite item_decodes. cbn. by rewrite IH.
Qed.

(** What is saved is what is read. *)
Lemma save_read l ls : layout_ok l → readLayout (saveLayout decimal l ls) = Some l.
Proof.
  intros [_ Hk]. unfold readLayout, saveLayout, getItem, setItem. rewrite lookup_insert.
  rewrite decide_True by done.
  assert (truthy (JSON_stringify decimal (layout_json l)) = true) as -> by done.
  cbn [negb]. rewrite JSON_round_trip; [apply layout_decodes|].
  apply (proj2 (plain_arr units_ok _)). intros v (i & <- & Hi)%in_map_iff. by apply item_plain, Hk.
Qed.

(** The actions the page offers. *)
Definition offered (a : board_action) (s : board_state) : Prop :=
  match a with
  | AddWidget id => showPicker s = true ∧ In id (map fst (pickable s))
  | DragStart id | Drop id | RemoveWidget id | ResizeWidget id => In id (map widgetId (rendered s))
  | _ => True
  end.

(** The page over time: opened without a stored layout, used, and opened again
    on what it stored. *)
Inductive board_reachable : board_state → Prop :=
| board_open ls s : getItem LAYOUT_STORAGE_KEY ls = None → board_mount ls = Some s → board_reachable s
| board_act a s : board_reachable s → offered a s → board_reachable (board_update decimal a s)
| board_reopen s s' : board_reachable s → board_mount (cb_ls s) = Some s' → board_reachable s'.

Definition board_ok (s : board_state) : Prop :=
  layout_ok (layout s) ∧ ∃ l, readLayout (cb_ls s) = Some l ∧ layout_ok l.

Lemma pickable_fresh id s :
  In id (map fst (pickable s)) → In id (map fst availableWidgets) ∧ ¬ In id (map widgetId (layout s)).
Proof.
  intros (w & <- & [Hw Hn]%bfilter_In)%in_map_iff. split; [by apply in_map|].
  intros (i & E & Hi)%in_map_iff. apply negb_true_iff in Hn.
  assert (existsb (is_widget (fst w)) (layout s) = true); [|congruence].
  apply existsb_exists. exists i. split; [done|]. by apply seqb_true.
Qed.

Lemma read_none ls : getItem LAYOUT_STORAGE_KEY ls = None → readLayout ls = Some defaultLayout.
Proof. intros H. unfold readLayout. by rewrite H. Qed.

Lemma board_update_ok a s : board_ok s → offered a s → board_ok (board_update decimal a s).
Proof.
  intros [Hl Hs] Ho. destruct a as [| | | | |id|t| |id|id|id]; simpl; try (by split).
  - split; [apply default_ok|]. exists defaultLayout. split; [|apply default_ok].
    apply read_none. unfold getItem, removeItem. apply lookup_delete_eq.
  - split; [done|]. exists (layout s). split; [by apply save_read|done].
  - destruct (drop_allowed t s); [|by split]. split; [|done].
    eapply layout_ok_perm; [apply moveWidget_perm|done].
  - split; [by apply remove_ok|done].
  - split; [by apply resize_ok|done].
  - destruct Ho as [_ [H1 H2]%pickable_fresh]. split; [by apply add_ok|done].
Qed.

Lemma board_reachable_ok s : board_reachable s → board_ok s.
Proof.
  induction 1 as [ls s Hls Hm|a s _ IH Ho|s s' _ [_ (l & Hr & Hl)] Hm].
  - unfold board_mount in Hm. rewrite (read_none ls Hls) in Hm. simplify_eq/=.
    split; [apply default_ok|]. exists defaultLayout. split; [by apply read_none|apply default_ok].
  - by apply board_update_ok.
  - unfold board_mount in Hm. rewrite Hr in Hm. simplify_eq/=. split; [done|]. by exists l.
Qed.

End stored.

End CustomDashboard.

(** ** NetworkMap *)

Module NetworkMap.

(** [subnetOf(ip)] *)
Definition subnetOf (ip : option jstr) : jstr :=
  if negb (otruthy ip) then "unknown"
  else
    let value := hd [] (split "/" (ip ?? "")) in
    match split "." value with
    | [a; b; c; _] => a ++ "." ++ b ++ "." ++ c ++ ".0/24"
    | _ => "unknown"
    end.

Definition statusColor (s : DeviceStatus) : jstr :=
  match s with Online => "#22c55e" | InAlert => "#ef4444" | Offline => "#94a3b8" end.

(** [max] is 18. *)
Definition truncate (value : jstr) : jstr :=
  if Nat.ltb 18 (length value) then slice_to 17 value ++ "…" else value.

Record map_state := { nm_devices : list Device; zoom : Q; nm_filter : Dashboard.Filter }.
Definition map_initial (devices : list Device) : map_state :=
  {| nm_devices := devices; zoom := 1; nm_filter := Dashboard.All |}.

Definition visibleDevices (s : map_state) : list Device :=
  bfilter (λ d, match nm_filter s with
                | Dashboard.All => true
                | Dashboard.ByStatus st => bool_decide (d_status d = st) end) (nm_devices s).

(** The loop pushes the devices into the lists of a [Map]. *)
Definition subnetGroups (s : map_state) : list (jstr * list Device) :=
  group_by seqb (λ d, subnetOf (d_ip_address d)) (visibleDevices s).

Record map_node_ := {
  mn_device : Device; mn_subnet : jstr; mn_x : Q; mn_y : Q; groupX : Q; groupY : Q;
  groupWidth : Z; groupHeight : Z }.

Inductive map_action := SetMapFilter (f : Dashboard.Filter) | ZoomIn | ZoomOut | ResetZoom | OpenNode (d : Device).

(** [Math.min] and [Math.max] *)
Definition Qmin_ (a b : Q) : Q := if Qle_bool a b then a else b.
Definition Qmax_ (a b : Q) : Q := if Qle_bool a b then b else a.

Definition set_zoom (z : Q) (s : map_state) : map_state :=
  {| nm_devices := nm_devices s; zoom := z; nm_filter := nm_filter s |}.

Definition map_update (a : map_action) (s : map_state) : map_state * list ui_effect :=
  match a with
  | SetMapFilter f => ({| nm_devices := nm_devices s; zoom := zoom s; nm_filter := f |}, [])
  | ZoomIn => (set_zoom (Qmin_ (18 # 10) (zoom s + (1 # 10))) s, [])
  | ZoomOut => (set_zoom (Qmax_ (7 # 10) (zoom s - (1 # 10))) s, [])
  | ResetZoom => (set_zoom 1 s, [])
  | OpenNode d => (s, [Navigate ("/devices/" ++ d_id d)])
  end.

Section layout.
(** [Math.cos], [Math.sin] and the decimal notation of a number. *)
Context (cos sin : Q → Q) (decimal : Q → jstr).

Definition PI : Q := 3141592653589793 # 1000000000000000.
Definition serverX : Q := 420.
Definition serverY : Q := 240.

(** [(index / Math.max(1, count)) * Math.PI * 2] *)
Definition angle (index count : nat) : Q :=
  inject_Z (Z.of_nat index) / inject_Z (Z.max 1 (Z.of_nat count)) * PI * 2.

Definition place (centerX centerY : Q) (subnet : jstr) (group : list Device) (deviceIndex : nat) (d : Device)
    : map_node_ :=
  let localAngle := angle deviceIndex (length group) in
  {| mn_device := d; mn_subnet := subnet; mn_x := centerX + cos localAngle * 70;
     mn_y := centerY + sin localAngle * 50; groupX := centerX; groupY := centerY;
     groupWidth := Z.max 170 (Z.of_nat (length group) * 42); groupHeight := 100 |}.

Definition group_nodes (groups : nat) (groupIndex : nat) (g : jstr * list Device) : list map_node_ :=
  let angleOffset := angle groupIndex groups in
  let baseRadius := (170 + inject_Z (Z.of_nat groupIndex) * 10)%Q in
  let centerX := (serverX + cos angleOffset * baseRadius)%Q in
  let centerY := (serverY + sin angleOffset * 110)%Q in
  imap (place centerX centerY (fst g) (snd g)) (snd g).

Definition nodes (s : map_state) : list map_node_ :=
  concat (imap (group_nodes (length (subnetGroups s))) (subnetGroups s)).

Definition node_title (d : Device) : jstr :=
  (d_label d ?? d_hostname d) ++ [10] ++ (d_ip_address d ?? "No IP") ++ [10]
  ++ (d_os_version d ?? os_string (d_os_type d)) ++ [10] ++ status_string (d_status d).

Definition svg_node (n : map_node_) : node map_action :=
  let d := mn_device n in
  El "g" [OnClick (OpenNode d)]
    [El "circle" [Attr "cx" (decimal (mn_x n)); Attr "cy" (decimal (mn_y n)); Attr "r" "16";
                  Attr "class" (if bool_decide (d_status d = Online) then "animate-pulse" else "");
                  Attr "fill" (statusColor (d_status d))] [];
     el "title" [Text (node_title d)];
     El "text" [Attr "x" (decimal (mn_x n)); Attr "y" (decimal (mn_y n + 32)); Attr "textAnchor" "middle"]
       [Text (truncate (d_label d ?? d_hostname d))]].

Definition svg_ellipse (n : map_node_) : node map_action :=
  El "ellipse" [Attr "cx" (decimal (groupX n)); Attr "cy" (decimal (groupY n));
                Attr "rx" (decimal (inject_Z (groupWidth n) / 2)); Attr "ry" (decimal (inject_Z (groupHeight n) / 2));
                Attr "fill" "rgba(59, 130, 246, 0.06)"; Attr "stroke" "rgba(59, 130, 246, 0.15)"] [].
Definition svg_edge (n : map_node_) : node map_action :=
  El "line" [Attr "x1" "420"; Attr "y1" "240"; Attr "x2" (decimal (mn_x n)); Attr "y2" (decimal (mn_y n));
             Attr "stroke" "rgba(148, 163, 184, 0.5)"; Attr "strokeWidth" "1.5"] [].

Definition transform (z : Q) : jstr :=
  "scale(" ++ decimal z ++ ") translate(" ++ decimal ((1 - z) * 200) ++ " " ++ decimal ((1 - z) * 120) ++ ")".

Definition map_view (s : map_state) : node map_action :=
  div [
    div [div [el "h1" [Text "Network Map"]; p_ [Text "Basic topology of devices connected to the DTSYS server."]];
         div (map (λ f, button [OnClick (SetMapFilter f)] [Text (Dashboard.filter_string f)])
                [Dashboard.All; Dashboard.ByStatus Online; Dashboard.ByStatus InAlert; Dashboard.ByStatus Offline]
              ++ [button [OnClick ZoomIn] [Text "Zoom In"]; button [OnClick ZoomOut] [Text "Zoom Out"];
                  button [OnClick ResetZoom] [Text "Reset Layout"]])];
    div [div [El "svg" [Attr "viewBox" "0 0 840 480"]
      [El "g" [Attr "transform" (transform (zoom s))]
         (map svg_ellipse (nodes s) ++ map svg_edge (nodes s)
          ++ [el "g" [El "circle" [Attr "cx" "420"; Attr "cy" "240"; Attr "r" "30"; Attr "fill" "#2563eb"] [];
                      icon "Network"; El "text" [Attr "x" "420"; Attr "y" "285"] [Text "DTSYS Server"]]]
          ++ map svg_node (nodes s))]]]].

(** *** Lemmas *)

Lemma imap_device cx cy sub group l n :
  map mn_device (imap (λ i, place cx cy sub group (n + i)) l) = l.
Proof.
  revert n. induction l as [|d l IH]; intros n; [done|]. simpl. f_equal.
  rewrite <-(IH (S n)) at 2. f_equal. apply imap_ext. intros i x _. by replace (S n + i)%nat with (n + S i)%nat by lia.
Qed.

Lemma group_nodes_device m i g : map mn_device (group_nodes m i g) = snd g.
Proof. apply (imap_device _ _ _ _ _ 0). Qed.

Lemma concat_imap_device m (gs : list (jstr * list Device)) n :
  map mn_device (concat (imap (λ i, group_nodes m (n + i)) gs)) = concat (map snd gs).
Proof.
  revert n. induction gs as [|g gs IH]; intros n; [done|]. simpl.
  rewrite map_app, group_nodes_device. f_equal. rewrite <-(IH (S n)). do 2 f_equal.
  apply imap_ext. intros i x _. by replace (S n + i)%nat with (n + S i)%nat by lia.
Qed.

Lemma nodes_devices s : map mn_device (nodes s) = concat (map snd (subnetGroups s)).
Proof. apply (concat_imap_device _ _ 0). Qed.

Lemma node_subnet s n : In n (nodes s) → mn_subnet n = subnetOf (d_ip_address (mn_device n)).
Proof.
  unfold nodes. intros (g & Hg & Hn)%in_concat. apply list_elem_of_In, elem_of_lookup_imap in Hg as (i & [k l] & -> & Hl).
  unfold group_nodes in Hn. simpl in Hn.
  apply list_elem_of_In, elem_of_lookup_imap in Hn as (j & d & -> & Hd). simpl.
  apply list_elem_of_lookup_2, list_elem_of_In in Hl, Hd.
  unfold subnetGroups in Hl. apply (group_by_In seqb seqb_true) in Hl as [-> _].
  apply bfilter_In in Hd as [_ Hd%seqb_true]. done.
Qed.

End layout.

Lemma zoom_bounds a s :
  (7 # 10 <= zoom s <= 18 # 10)%Q → (7 # 10 <= zoom (fst (map_update a s)) <= 18 # 10)%Q.
Proof.
  intros [H1 H2]. destruct a; simpl; try done; unfold Qmin_, Qmax_.
  - destruct (Qle_bool _ _) eqn:E; [lra|]. split; [lra|].
    apply not_true_iff_false in E. rewrite Qle_bool_iff in E. lra.
  - destruct (Qle_bool _ _) eqn:E; [|lra]. apply Qle_bool_iff in E. lra.
Qed.

End NetworkMap.

(** ** Status *)

Module StatusPage.

Inductive system_status := Operational | Degraded | Down.
Record StatusPayload := {
  sy_status : system_status; sy_total_devices : Z; sy_online_devices : Z; sy_offline_devices : Z;
  sy_active_critical_alerts : Z; sy_last_updated : jstr }.

(** The page fetches [/status] itself, every 30 seconds. *)
Definition status_request : request := get "/status".
Definition status_interval : Z := 30000.

Definition status_title (data : option StatusPayload) : jstr :=
  match from_null Operational (sy_status <$> data) with
  | Operational => "All Systems Operational" | Degraded => "Degraded" | Down => "Outage Detected" end.
Definition status_color (data : option StatusPayload) : jstr :=
  match from_null Operational (sy_status <$> data) with
  | Operational => "text-emerald-600" | Degraded => "text-amber-500" | Down => "text-red-500" end.

Section view.
Context {A : Type} (formatDistanceToNow : jstr → jstr).

Definition StatusCard (label value : jstr) : node A := div [div [Text label]; div [Text value]].
Definition count_text (f : StatusPayload → Z) (data : option StatusPayload) : jstr :=
  string_of_Z (from_null 0 (f <$> data)).

Definition status_view (data : option StatusPayload) : node A :=
  div [div [
    El "div" [Attr "class" ("text-center text-4xl font-bold " ++ status_color data)] [Text (status_title data)];
    p_ [Text (match data with
              | Some d => string_of_Z (sy_online_devices d) ++ "/" ++ string_of_Z (sy_total_devices d)
                          ++ " devices online"
              | None => "Loading status..." end)];
    div [StatusCard "Total Devices" (count_text sy_total_devices data);
         StatusCard "Online" (count_text sy_online_devices data);
         StatusCard "Offline" (count_text sy_offline_devices data);
         StatusCard "Critical Alerts" (count_text sy_active_critical_alerts data)];
    p_ [Text "Last updated ";
        Text (match data with
              | Some d => if truthy (sy_last_updated d) then formatDistanceToNow (sy_last_updated d) else "just now"
              | None => "just now" end)]]].
End view.

End StatusPage.

(** ** Properties *)

Module FleetProps.
Import CustomDashboard.

(** C31: whatever the user adds, removes, resizes, drags, saves, resets and
    reopens, the layout of the custom dashboard holds distinct known widgets
    that fit the 12 by 6 grid, and what it stores is read back as such a
    layout. *)
Theorem custom_layouts_valid decimal s :
  board_reachable decimal s →
  NoDup (map widgetId (layout s)) ∧
  (∀ i, In i (layout s) →
     In (widgetId i) (map fst availableWidgets) ∧ 1 <= li_w i <= 12 ∧ 1 <= li_h i <= 6) ∧
  rendered s = layout s ∧
  ∃ s', board_mount (cb_ls s) = Some s' ∧ NoDup (map widgetId (layout s')).
Proof.
  intros [[Hn Hk] (l & Hr & Hl)]%board_reachable_ok. split; [done|]. split; [|split].
  - intros i (H & _ & _ & Hw & Hh)%Hk. split; [by apply known_id|done].
  - apply bfilter_all. intros i Hi. by apply Hk.
  - unfold board_mount. rewrite Hr. eexists. split; [reflexivity|]. apply Hl.
Qed.

Definition no_decimal (q : Q) : jstr := [].
Definition fresh_board : board_state :=
  {| cb_ls := ∅; editMode := false; showPicker := false; layout := defaultLayout; dragging := None |}.
Definition used_board : board_state :=
  fold_left (λ s a, board_update no_decimal a s)
    [ToggleEdit; RemoveWidget "alerts"; DragStart "online-count"; Drop "device-status"; OpenPicker;
     AddWidget "alerts"; ResizeWidget "alerts"; SaveLayout] fresh_board.

Lemma custom_layouts_valid_witness :
  map widgetId (layout used_board) =
    ["online-count"; "device-status"; "device-count"; "recent-events"; "uptime-leaderboard"; "alerts"] ∧
  NoDup (map widgetId (layout used_board)).
Proof.
  split; [vm_compute; reflexivity|]. apply (custom_layouts_valid no_decimal).
  unfold used_board. cbn [fold_left].
  repeat (apply board_act; [|vm_compute; tauto]).
  apply (board_open _ ∅); reflexivity.
Defined.

(** A layout that is saved is exactly the layout read back, through the
    JSON text in the browser's storage. *)
Theorem layout_storage_roundtrip decimal l ls :
  layout_ok l → readLayout (saveLayout decimal l ls) = Some l.
Proof. apply save_read. Qed.

Lemma layout_storage_roundtrip_witness :
  readLayout (saveLayout no_decimal defaultLayout ∅) = Some defaultLayout.
Proof. apply layout_storage_roundtrip. apply default_ok. Defined.

(** Dropping a widget on another one of the layout puts it at the place of
    that one and keeps the order of all the others. *)
Theorem drop_moves_to_target decimal s d t :
  editMode s = true → dragging s = Some d → d ≠ [] → d ≠ t →
  NoDup (map widgetId (layout s)) → In d (map widgetId (layout s)) → In t (map widgetId (layout s)) →
  let s' := board_update decimal (Drop t) s in
  findIndex (is_widget d) (layout s') = findIndex (is_widget t) (layout s) ∧
  bfilter (λ i, negb (is_widget d i)) (layout s') = bfilter (λ i, negb (is_widget d i)) (layout s).
Proof.
  intros He Hd Hnn Hne Hn H1 H2. cbn [board_update].
  assert (drop_allowed t s = true) as ->.
  { unfold drop_allowed. rewrite He, Hd, bool_decide_eq_false_2 by (by intros [= ->]). by destruct d. }
  cbn [set_layout layout]. rewrite Hd. by apply moveWidget_spec.
Qed.

Lemma drop_moves_to_target_witness :
  let s := fold_left (λ s a, board_update no_decimal a s) [ToggleEdit; DragStart "alerts"] fresh_board in
  findIndex (is_widget "alerts") (layout (board_update no_decimal (Drop "recent-events") s)) = 4.
Proof.
  intros s.
  destruct (drop_moves_to_target no_decimal s "alerts" "recent-events") as [H _];
    [reflexivity|reflexivity|done|done| | | |exact H].
  - apply default_ok.
  - vm_compute. tauto.
  - vm_compute. tauto.
Defined.

(** The network map shows every visible device exactly once, under the
    subnet of its own address, and its zoom stays between 0.7 and 1.8. *)
Theorem network_map_complete cos sin s a :
  Permutation (map NetworkMap.mn_device (NetworkMap.nodes cos sin s)) (NetworkMap.visibleDevices s) ∧
  (∀ n, In n (NetworkMap.nodes cos sin s) →
     NetworkMap.mn_subnet n = NetworkMap.subnetOf (d_ip_address (NetworkMap.mn_device n))) ∧
  (7 # 10 <= NetworkMap.zoom s <= 18 # 10 →
   7 # 10 <= NetworkMap.zoom (fst (NetworkMap.map_update a s)) <= 18 # 10)%Q.
Proof.
  split; [|split].
  - rewrite NetworkMap.nodes_devices. apply group_by_perm.
  - apply NetworkMap.node_subnet.
  - apply NetworkMap.zoom_bounds.
Qed.

Lemma network_map_complete_witness :
  let s := NetworkMap.map_initial [PagesProps.sample_device "a"; PagesProps.sample_device "b"] in
  length (NetworkMap.nodes (λ q, q) (λ q, q) s) = 2%nat.
Proof.
  intros s. destruct (network_map_complete (λ q, q) (λ q, q) s NetworkMap.ZoomIn) as [H _].
  apply Permutation_length in H. rewrite length_map in H. rewrite H. reflexivity.
Defined.

(** The subnet of a dotted address. *)
Theorem subnet_of_dotted a b c d :
  (∀ s, In s [a; b; c; d] → ∀ x, In x s → x ≠ 46 ∧ x ≠ 47) → a ≠ [] →
  NetworkMap.subnetOf (Some (join "." [a; b; c; d])) = a ++ "." ++ b ++ "." ++ c ++ ".0/24".
Proof.
  intros H Ha. unfold NetworkMap.subnetOf.
  assert (otruthy (Some (join "." [a; b; c; d])) = true) as -> by (by destruct a).
  cbn [negb from_null]. rewrite (split1_none 47).
  - cbn [hd]. rewrite (split_join 46); [done|done|].
    intros s Hs x Hx. by destruct (H s Hs x Hx).
  - intros x [[<-|[]]|(s & Hs & Hx)]%join_In; [done|]. by destruct (H s Hs x Hx).
Qed.

(** The comparison marks a text field exactly when two of the devices shown
    differ in it, and a metric of a device exactly when another one is at
    least the threshold away from it. *)
Theorem compare_marks_differences rows r :
  (Nat.ltb 1 (DeviceCompare.os_values rows) = true ↔
     ∃ x y, In x rows ∧ In y rows ∧ DeviceCompare.row_os x ≠ DeviceCompare.row_os y) ∧
  (DeviceCompare.metric_differs m_cpu_percent 10 rows r = true ↔
     ∃ e, In e rows ∧ (10 <= Qabs ((DeviceCompare.row_metric e m_cpu_percent ?? 0%Q)
                                   - (DeviceCompare.row_metric r m_cpu_percent ?? 0%Q)))%Q).
Proof.
  split.
  - unfold DeviceCompare.os_values. rewrite (DeviceCompare.set_size_many seqb seqb_true). split.
    + intros (u & v & (x & <- & Hx)%in_map_iff & (y & <- & Hy)%in_map_iff & Hne). by exists x, y.
    + intros (x & y & Hx & Hy & Hne). exists (DeviceCompare.row_os x), (DeviceCompare.row_os y).
      repeat split; [by apply in_map|by apply in_map|done].
  - unfold DeviceCompare.metric_differs. rewrite existsb_exists. by setoid_rewrite Qle_bool_iff.
Qed.

End FleetProps.
