(* ===== verification/AdminPages.v ===== *)
(** Administration pages: [pages/ScheduledCommands.tsx], [Users.tsx],
    [Organizations.tsx] and [CommandLibrary.tsx]. *)
From Stdlib Require Import QArith.
From S2P Require Import Prelude JsString JsNumber Cron CronSpec Utils Types JsJson Api Stores Ui DeviceComponents Pages.
Local Open Scope Z_scope.
Local Open Scope js_scope.

(** ** Shared by the pages *)

(** An option element; a select's value is an attribute. *)
Definition option_ {A} (value label : jstr) : node A := El "option" [Attr "value" value] [Text label].

(** The [Modal] of the users and command library pages; [glyph] is its icon. *)
Definition Modal {A} (glyph title : jstr) (onClose : A) (children : list (node A)) : node A :=
  div [div (div [div [icon glyph; el "h2" [Text title]];
                 button [OnClick onClose] [Text "Close"]] :: children)].

(** ** ScheduledCommands *)

Module ScheduledCommands.

Record schedule_form := {
  target : jstr; sf_device_id : jstr; sf_command_type : jstr; sf_cron_expression : jstr;
  shell_command : jstr }.

Record schedules_state := {
  schedules : list ScheduledCommand; sched_devices : list Device; isOpen : bool; form : schedule_form }.

Definition form_initial : schedule_form :=
  {| target := "all"; sf_device_id := ""; sf_command_type := "sync_time"; sf_cron_expression := "0 3 * * *";
     shell_command := "" |}.
Definition schedules_initial : schedules_state :=
  {| schedules := []; sched_devices := []; isOpen := false; form := form_initial |}.

Definition schedules_query : query :=
  Query [JStr "scheduled-commands"] scheduledCommandsApi.schedules_list 0 true.
Definition schedule_devices_query : query :=
  Query [JStr "devices"; JStr "scheduled"] (devicesApi.devices_list None None) 0 true.

Inductive schedules_action :=
| OpenForm
| CloseForm
| SetTarget (v : jstr)
| SetScheduleDevice (v : jstr)
| SetCommandType (v : jstr)
| SetShellCommand (v : jstr)
| SetCronExpression (v : jstr)
| CreateSchedule
| CreateSucceeded
| ToggleSchedule (id : jstr) (is_enabled : bool)
| ToggleSucceeded.

Definition set_open (b : bool) (s : schedules_state) : schedules_state :=
  {| schedules := schedules s; sched_devices := sched_devices s; isOpen := b; form := form s |}.
Definition set_form (f : schedule_form) (s : schedules_state) : schedules_state :=
  {| schedules := schedules s; sched_devices := sched_devices s; isOpen := isOpen s; form := f |}.

(** The request of [createSchedule]. *)
Definition createSchedule (f : schedule_form) : request :=
  scheduledCommandsApi.schedule_create
    (if target f =s "all" then None else Some (sf_device_id f))
    (sf_command_type f)
    (Some (if sf_command_type f =s "shell" then [("command", JStr (shell_command f))] else []))
    (sf_cron_expression f) (Some true).

Definition schedules_update (a : schedules_action) (s : schedules_state) : schedules_state * list ui_effect :=
  let f := form s in
  match a with
  | OpenForm => (set_open true s, [])
  | CloseForm => (set_open false s, [])
  | SetTarget v =>
      (set_form {| target := v; sf_device_id := sf_device_id f; sf_command_type := sf_command_type f;
                   sf_cron_expression := sf_cron_expression f; shell_command := shell_command f |} s, [])
  | SetScheduleDevice v =>
      (set_form {| target := target f; sf_device_id := v; sf_command_type := sf_command_type f;
                   sf_cron_expression := sf_cron_expression f; shell_command := shell_command f |} s, [])
  | SetCommandType v =>
      (set_form {| target := target f; sf_device_id := sf_device_id f; sf_command_type := v;
                   sf_cron_expression := sf_cron_expression f; shell_command := shell_command f |} s, [])
  | SetShellCommand v =>
      (set_form {| target := target f; sf_device_id := sf_device_id f; sf_command_type := sf_command_type f;
                   sf_cron_expression := sf_cron_expression f; shell_command := v |} s, [])
  | SetCronExpression v =>
      (set_form {| target := target f; sf_device_id := sf_device_id f; sf_command_type := sf_command_type f;
                   sf_cron_expression := v; shell_command := shell_command f |} s, [])
  | CreateSchedule => (s, [Request (createSchedule f)])
  | CreateSucceeded => (set_open false s, [Invalidate ["scheduled-commands"]])
  | ToggleSchedule id b =>
      (s, [Request (scheduledCommandsApi.schedule_update id [("is_enabled", JBool b)])])
  | ToggleSucceeded => (s, [Invalidate ["scheduled-commands"]])
  end.

(** The name in the target column. *)
Definition target_text (devices : list Device) (c : ScheduledCommand) : jstr :=
  match find (λ d, bool_decide (Some (d_id d) = sc_device_id c)) devices with
  | Some d => d_label d ?? d_hostname d
  | None => "All devices"
  end.

Section view.
(** [run.toLocaleString()] of a time value, and the time of the last change of
    the expression, when the preview is computed. *)
Context (toLocaleString : Z → jstr) (now : Z).

Definition previewRuns (f : schedule_form) : option (list Z) := nextRuns (sf_cron_expression f) 3 now.

Definition schedule_row (s : schedules_state) (c : ScheduledCommand) : node schedules_action :=
  el "tr" [
    el "td" [Text (target_text (sched_devices s) c)];
    el "td" [Text (sc_command_type c)];
    el "td" [Text (parseCron (sc_cron_expression c))];
    el "td" [button [OnClick (ToggleSchedule (sc_id c) (negb (sc_is_enabled c)))]
               [Text (if sc_is_enabled c then "Enabled" else "Disabled")]];
    el "td" [Text (sc_last_run_at c ?? "Never")];
    el "td" [Text (sc_next_run_at c ?? "Not scheduled")]].

Definition schedule_dialog (s : schedules_state) (runs : list Z) : node schedules_action :=
  let f := form s in
  div [div [
    div [icon "Clock3"; el "h2" [Text "New Schedule"]];
    div ([El "select" [Attr "value" (target f); OnChange SetTarget]
            [option_ "all" "All devices"; option_ "device" "Specific device"]]
         ++ when (target f =s "device")
              [El "select" [Attr "value" (sf_device_id f); OnChange SetScheduleDevice]
                 (option_ "" "Choose a device"
                  :: map (λ d, option_ (d_id d) (d_label d ?? d_hostname d)) (sched_devices s))]
         ++ [El "select" [Attr "value" (sf_command_type f); OnChange SetCommandType]
               [option_ "shell" "Shell"; option_ "update_check" "Check Updates"; option_ "reboot" "Reboot";
                option_ "sync_time" "Sync Time"]]
         ++ when (sf_command_type f =s "shell")
              [El "input" [Attr "value" (shell_command f); OnChange SetShellCommand;
                           Attr "placeholder" "Shell command"] []]
         ++ [El "input" [Attr "value" (sf_cron_expression f); OnChange SetCronExpression;
                         Attr "placeholder" "Cron expression"] [];
             div [p_ [Text (parseCron (sf_cron_expression f))];
                  p_ [Text "Next runs: "; Text (join " · " (map toLocaleString runs))]]]);
    div [button [OnClick CloseForm] [Text "Cancel"]; button [OnClick CreateSchedule] [Text "Create"]]]].

(** The preview is computed on every render; the exception of an over-long
    range ends it ([None]). *)
Definition schedules_view (s : schedules_state) : option (node schedules_action) :=
  runs ← previewRuns (form s);
  Some (div (
    [div [div [el "h1" [Text "Scheduled Commands"];
               p_ [Text "Automate recurring maintenance tasks across one device or the full fleet."]];
          button [OnClick OpenForm] [icon "Plus"; Text "New Schedule"]];
     div [el "table" [
       el "thead" [el "tr" (map (λ h, el "th" [Text h])
                     ["Target"; "Type"; "Schedule"; "Enabled"; "Last Run"; "Next Run"])];
       el "tbody" (map (schedule_row s) (schedules s))]]]
    ++ when (isOpen s) [schedule_dialog s runs])).
End view.

End ScheduledCommands.

(** ** Users *)

Module UsersPage.

Record invite_form := { iv_username : jstr; iv_password : jstr; iv_role : Role }.
Definition invite_empty : invite_form := {| iv_username := ""; iv_password := ""; iv_role := Viewer |}.

Record users_state := {
  us_role : option jstr; us_username : option jstr; users : list User; inviteOpen : bool;
  passwordTarget : option jstr; passwordValue : jstr; inviteForm : invite_form }.

Definition is_admin (s : users_state) : bool := bool_decide (us_role s = Some "admin").
Definition users_query (s : users_state) : query :=
  Query [JStr "admin-users"] adminApi.users 0 (is_admin s).

Inductive users_action :=
| OpenInvite
| CloseInvite
| SetInviteUsername (v : jstr)
| SetInvitePassword (v : jstr)
| SetInviteRole (r : Role)
| InviteUser
| InviteSucceeded
| ChangeRole (u : User)
| ChangeActive (u : User)
| UpdateSucceeded
| OpenPassword (u : User)
| ClosePassword
| SetPassword (v : jstr)
| ResetPassword (id : jstr)
| ResetSucceeded
| DeleteUser (u : User) (confirmed : bool)
| DeleteSucceeded.

Definition set_invite (b : bool) (f : invite_form) (s : users_state) : users_state :=
  {| us_role := us_role s; us_username := us_username s; users := users s; inviteOpen := b;
     passwordTarget := passwordTarget s; passwordValue := passwordValue s; inviteForm := f |}.
Definition set_password (t : option jstr) (v : jstr) (s : users_state) : users_state :=
  {| us_role := us_role s; us_username := us_username s; users := users s; inviteOpen := inviteOpen s;
     passwordTarget := t; passwordValue := v; inviteForm := inviteForm s |}.

Definition refreshUsers : list ui_effect := [Invalidate ["admin-users"]].
Definition other_role (r : Role) : Role := match r with Admin => Viewer | Viewer => Admin end.

Definition users_update (a : users_action) (s : users_state) : users_state * list ui_effect :=
  let f := inviteForm s in
  match a with
  | OpenInvite => (set_invite true f s, [])
  | CloseInvite => (set_invite false f s, [])
  | SetInviteUsername v =>
      (set_invite (inviteOpen s) {| iv_username := v; iv_password := iv_password f; iv_role := iv_role f |} s, [])
  | SetInvitePassword v =>
      (set_invite (inviteOpen s) {| iv_username := iv_username f; iv_password := v; iv_role := iv_role f |} s, [])
  | SetInviteRole r =>
      (set_invite (inviteOpen s) {| iv_username := iv_username f; iv_password := iv_password f; iv_role := r |} s, [])
  | InviteUser => (s, [Request (adminApi.createUser (iv_username f) (iv_password f) (iv_role f))])
  | InviteSucceeded => (set_invite false invite_empty s, refreshUsers)
  | ChangeRole u => (s, [Request (adminApi.updateUser (u_id u) (Some (other_role (u_role u))) None)])
  | ChangeActive u =>
      (s, [Request (adminApi.updateUser (u_id u) None (Some (negb (u_is_active u ?? false))))])
  | UpdateSucceeded => (s, refreshUsers)
  | OpenPassword u => (set_password (Some (u_id u)) "" s, [])
  | ClosePassword => (set_password None (passwordValue s) s, [])
  | SetPassword v => (set_password (passwordTarget s) v s, [])
  | ResetPassword id => (s, [Request (adminApi.resetUserPassword id (passwordValue s))])
  | ResetSucceeded => (set_password None "" s, refreshUsers)
  | DeleteUser u confirmed => (s, if confirmed then [Request (adminApi.deleteUser (u_id u))] else [])
  | DeleteSucceeded => (s, refreshUsers)
  end.

Definition isSelf (s : users_state) (u : User) : bool := bool_decide (Some (u_username u) = us_username s).

Section view.
Context (formatDistanceToNow : jstr → jstr).

Definition since_text (t : option jstr) (none : jstr) : jstr :=
  match t with Some x => if truthy x then formatDistanceToNow x else none | None => none end.

(** The answer of [window.confirm] is part of the action: both are possible. *)
Definition account_row (s : users_state) (u : User) : node users_action :=
  let self := isSelf s u in
  el "tr" [
    el "td" [div ([icon "Users"; Text (u_username u)] ++ when self [span [Text "You"]])];
    el "td" [button [Disabled self; OnClick (ChangeRole u)] [Text (role_string (u_role u))]];
    el "td" [Text (since_text (u_last_login u) "Never")];
    el "td" [Text (since_text (u_created_at u) "—")];
    el "td" [button [Disabled self; OnClick (ChangeActive u)]
               [Text (if u_is_active u ?? false then "Active" else "Inactive")]];
    el "td" [div [button [OnClick (OpenPassword u)] [Text "Reset Password"];
                  button [Disabled self; OnClick (DeleteUser u true); OnClick (DeleteUser u false)]
                    [span [icon "Trash2"; Text "Delete"]]]]].

Definition invite_modal (s : users_state) : node users_action :=
  let f := inviteForm s in
  Modal "Shield" "Invite User" CloseInvite [
    div [El "input" [Attr "value" (iv_username f); OnChange SetInviteUsername; Attr "placeholder" "Username"] [];
         El "input" [Attr "value" (iv_password f); OnChange SetInvitePassword;
                     Attr "placeholder" "Temporary password"] [];
         El "select" [Attr "value" (role_string (iv_role f));
                      OnChange (λ v, SetInviteRole (if v =s "admin" then Admin else Viewer))]
           [option_ "viewer" "Viewer"; option_ "admin" "Admin"]];
    div [button [OnClick CloseInvite] [Text "Cancel"];
         button [OnClick InviteUser;
                 Disabled (negb (truthy (trim (iv_username f))) || negb (truthy (trim (iv_password f))))]
           [Text "Create User"]]].

Definition password_modal (s : users_state) (id : jstr) : node users_action :=
  Modal "Shield" "Reset Password" ClosePassword [
    El "input" [Attr "value" (passwordValue s); OnChange SetPassword; Attr "placeholder" "New password"] [];
    div [button [OnClick ClosePassword] [Text "Cancel"];
         button [OnClick (ResetPassword id); Disabled (Nat.ltb (length (passwordValue s)) 8)]
           [Text "Save Password"]]].

Definition users_view (s : users_state) : node users_action :=
  if negb (is_admin s) then div [Text "Admin access required."]
  else div (
    [div [div [el "h1" [Text "Users"]; p_ [Text "Manage local DTSYS accounts and roles."]];
          button [OnClick OpenInvite] [icon "UserPlus"; Text "Invite User"]];
     div [el "table" [
       el "thead" [el "tr" (map (λ h, el "th" [Text h])
                     ["Username"; "Role"; "Last Login"; "Created"; "Status"; "Actions"])];
       el "tbody" (map (account_row s) (users s))]]]
    ++ when (inviteOpen s) [invite_modal s]
    ++ match passwordTarget s with
       | Some id => when (truthy id) [password_modal s id]
       | None => []
       end).

(** What the controls of the page may do. *)
Definition control_ok (s : users_state) (a : users_action) : Prop :=
  is_admin s = true ∧
  match a with
  | ChangeRole u | ChangeActive u | DeleteUser u _ => In u (users s) ∧ us_username s ≠ Some (u_username u)
  | ResetPassword id => passwordTarget s = Some id ∧ (8 ≤ length (passwordValue s))%nat
  | InviteUser => truthy (trim (iv_username (inviteForm s))) = true ∧ truthy (trim (iv_password (inviteForm s))) = true
  | _ => True
  end.

Lemma account_row_clicks s u a :
  In a (clicks (account_row s u)) →
  a = OpenPassword u ∨
  (isSelf s u = false ∧ (a = ChangeRole u ∨ a = ChangeActive u ∨ ∃ b, a = DeleteUser u b)).
Proof.
  unfold account_row. destruct (isSelf s u); cbn; naive_solver.
Qed.

Lemma not_self s u : isSelf s u = false → us_username s ≠ Some (u_username u).
Proof. unfold isSelf. intros H%bool_decide_eq_false E. by rewrite E in H. Qed.

Lemma users_controls s a : In a (clicks (users_view s)) → control_ok s a.
Proof.
  unfold users_view. destruct (is_admin s) eqn:Ha; [|done]. cbn [negb].
  rewrite clicks_div, !flat_map_app, !in_app_iff.
  intros [H|[H|H]].
  - cbn in H. destruct H as [<-|H]; [done|]. rewrite ?app_nil_r in H.
    apply in_flat_map in H as (n & (u & <- & Hu)%in_map_iff & Hn).
    apply account_row_clicks in Hn as [->|[Hs Hn]]; [done|]. apply not_self in Hs.
    destruct Hn as [->|[->|[b ->]]]; done.
  - destruct (inviteOpen s); [|done]. cbn in H. rewrite ?app_nil_r in H.
    destruct (truthy (trim (iv_username (inviteForm s)))) eqn:E1, (truthy (trim (iv_password (inviteForm s)))) eqn:E2;
      cbn in H; repeat destruct H as [<-|H]; done.
  - destruct (passwordTarget s) as [id|] eqn:Ep; [|done]. destruct (truthy id); [|done].
    unfold password_modal in H. destruct (Nat.ltb_spec (length (passwordValue s)) 8); cbn in H;
      repeat destruct H as [<-|H]; try done; unfold control_ok; auto.
Qed.

End view.

End UsersPage.

(** ** Organizations *)

Module Organizations.

Definition roleBadge {A} (role : jstr) : node A :=
  let member := "bg-slate-100 text-slate-700 dark:bg-gray-700 dark:text-gray-300" in
  let color := if role =s "owner" then "bg-purple-100 text-purple-700 dark:bg-purple-900/40 dark:text-purple-300"
               else if role =s "admin" then "bg-blue-100 text-blue-700 dark:bg-blue-900/40 dark:text-blue-300"
               else member in
  El "span" [Attr "class" ("rounded-full px-2 py-0.5 text-xs font-medium " ++ color)] [Text role].

(** *** Slugs *)

Definition slug_char (c : Z) : bool := ((97 <=? c) && (c <=? 122)) || ((48 <=? c) && (c <=? 57)).

(** [s.replace(/[^a-z0-9]+/g, '-')]: [in_run] inside a run already replaced. *)
Fixpoint dash_runs (in_run : bool) (s : jstr) : jstr :=
  match s with
  | [] => []
  | c :: r =>
      if slug_char c then c :: dash_runs false r
      else if in_run then dash_runs true r else 45 :: dash_runs true r
  end.

(** [s.replace(/^-|-$/g, '')] *)
Definition strip_dashes (s : jstr) : jstr :=
  let s1 := match s with c :: r => if c =? 45 then r else s | [] => [] end in
  match rev s1 with c :: r => if c =? 45 then rev r else s1 | [] => s1 end.

Definition slug_of (name : jstr) : jstr := slice_to 64 (strip_dashes (dash_runs false (toLowerCase name))).

(** The server's check of a slug ([_validate_slug], with the length limits of
    [OrganizationCreate]); [None] is the 400 or 422 answer.  White space and
    case are those of the client's methods. *)
Definition validate_slug (slug : jstr) : option jstr :=
  let normalized := toLowerCase (trim slug) in
  let n := length normalized in
  if forallb (λ c, slug_char c || (c =? 45)) normalized
     && (Nat.leb 3 n && Nat.leb n 64) && (Nat.leb 3 (length slug) && Nat.leb (length slug) 64)
  then Some normalized else None.

(** *** Members *)

(** [members] is [None] while the query loads. *)
Record panel := { members : option (list OrgMember); inviteUsername : jstr; inviteRole : jstr; invitePending : bool }.
Definition panel_mount (members : option (list OrgMember)) : panel :=
  {| members := members; inviteUsername := ""; inviteRole := "member"; invitePending := false |}.

Definition members_query (org : Org) : query :=
  Query [JStr "org-members"; JStr (o_id org)] (orgsApi.listMembers (o_id org)) 0 true.

Inductive panel_action :=
| SetInviteName (v : jstr)
| SetInviteRole (v : jstr)
| Invite
| InviteSettled (ok : bool)
| RemoveMember (userId : jstr)
| ChangeMemberRole (userId role : jstr)
| MemberChanged.

Definition set_invite_form (u r : jstr) (pending : bool) (p : panel) : panel :=
  {| members := members p; inviteUsername := u; inviteRole := r; invitePending := pending |}.

Definition org_panel_update (org : Org) (a : panel_action) (p : panel) : panel * list ui_effect :=
  let refresh := [Invalidate ["org-members"; o_id org]] in
  match a with
  | SetInviteName v => (set_invite_form v (inviteRole p) (invitePending p) p, [])
  | SetInviteRole v => (set_invite_form (inviteUsername p) v (invitePending p) p, [])
  | Invite => (set_invite_form (inviteUsername p) (inviteRole p) true p,
               [Request (orgsApi.inviteMember (o_id org) (trim (inviteUsername p)) (inviteRole p))])
  | InviteSettled ok =>
      if ok then (set_invite_form "" (inviteRole p) false p, refresh)
      else (set_invite_form (inviteUsername p) (inviteRole p) false p, [])
  | RemoveMember u => (p, [Request (orgsApi.removeMember (o_id org) u)])
  | ChangeMemberRole u r => (p, [Request (orgsApi.updateMember (o_id org) u r)])
  | MemberChanged => (p, refresh)
  end.

Definition canManage (org : Org) : bool := (o_role org =s "owner") || (o_role org =s "admin").

(** Whether a member has controls: [currentUserId] is undefined or an id. *)
Definition manageable (org : Org) (currentUserId : option jstr) (m : OrgMember) : bool :=
  canManage org && negb (bool_decide (Some (om_user_id m) = currentUserId)) && negb (om_role m =s "owner").

Definition member_row (org : Org) (currentUserId : option jstr) (m : OrgMember) : node panel_action :=
  let ok := manageable org currentUserId m in
  div ([span [Text (om_username m)];
        if ok then El "select" [Attr "value" (om_role m); OnChange (ChangeMemberRole (om_user_id m))]
                     [option_ "admin" "admin"; option_ "member" "member"]
        else roleBadge (om_role m)]
       ++ when ok [button [OnClick (RemoveMember (om_user_id m)); Attr "title" "Remove member"] [icon "UserMinus"]]).

Definition MembersPanel (org : Org) (currentUserId : option jstr) (p : panel) : node panel_action :=
  match members p with
  | None => p_ [Text "Loading members..."]
  | Some ms =>
      div ([div (map (member_row org currentUserId) ms)]
           ++ when (canManage org)
                [div [El "input" [Attr "value" (inviteUsername p); OnChange SetInviteName;
                                  Attr "placeholder" "Username to invite"] [];
                      El "select" [Attr "value" (inviteRole p); OnChange SetInviteRole]
                        [option_ "member" "Member"; option_ "admin" "Admin"];
                      button [OnClick Invite; Disabled (negb (truthy (trim (inviteUsername p))) || invitePending p)]
                        [Text "Invite"]]])
  end.

(** *** The page *)

Record orgs_state := {
  currentOrgId : option jstr; orgs : list Org; orgs_loading : bool; showCreate : bool; create_name : jstr;
  create_slug : jstr; createPending : bool; createError : bool; expandedOrg : option jstr;
  org_panel : panel; deleteConfirm : option jstr; deletePending : bool }.

Definition orgs_query : query := Query [JStr "organizations"] orgsApi.orgs_list 0 true.

Inductive orgs_action :=
| OpenCreate
| CloseCreate
| NameChange (name : jstr)
| SlugChange (slug : jstr)
| CreateOrg
| CreateSettled (ok : bool)
| ToggleMembers (id : jstr) (data : option (list OrgMember))
| AskDelete (id : jstr)
| CancelDelete
| DeleteOrg (id : jstr)
| DeleteSettled (ok : bool)
| InPanel (org : Org) (a : panel_action).

Definition set_create (show : bool) (name slug : jstr) (pending err : bool) (s : orgs_state) : orgs_state :=
  {| currentOrgId := currentOrgId s; orgs := orgs s; orgs_loading := orgs_loading s; showCreate := show;
     create_name := name; create_slug := slug; createPending := pending; createError := err;
     expandedOrg := expandedOrg s; org_panel := org_panel s; deleteConfirm := deleteConfirm s;
     deletePending := deletePending s |}.
Definition set_panel (e : option jstr) (p : panel) (s : orgs_state) : orgs_state :=
  {| currentOrgId := currentOrgId s; orgs := orgs s; orgs_loading := orgs_loading s;
     showCreate := showCreate s; create_name := create_name s; create_slug := create_slug s;
     createPending := createPending s; createError := createError s; expandedOrg := e; org_panel := p;
     deleteConfirm := deleteConfirm s; deletePending := deletePending s |}.
Definition set_delete (d : option jstr) (pending : bool) (s : orgs_state) : orgs_state :=
  {| currentOrgId := currentOrgId s; orgs := orgs s; orgs_loading := orgs_loading s;
     showCreate := showCreate s; create_name := create_name s; create_slug := create_slug s;
     createPending := createPending s; createError := createError s; expandedOrg := expandedOrg s;
     org_panel := org_panel s; deleteConfirm := d; deletePending := pending |}.

Definition handleNameChange (name : jstr) (s : orgs_state) : orgs_state :=
  set_create (showCreate s) name (slug_of name) (createPending s) (createError s) s.

Definition orgs_update (a : orgs_action) (s : orgs_state) : orgs_state * list ui_effect :=
  match a with
  | OpenCreate => (set_create true (create_name s) (create_slug s) (createPending s) (createError s) s, [])
  | CloseCreate => (set_create false (create_name s) (create_slug s) (createPending s) (createError s) s, [])
  | NameChange n => (handleNameChange n s, [])
  | SlugChange v => (set_create (showCreate s) (create_name s) v (createPending s) (createError s) s, [])
  | CreateOrg =>
      (set_create (showCreate s) (create_name s) (create_slug s) true false s,
       [Request (orgsApi.org_create (trim (create_name s)) (toLowerCase (trim (create_slug s))))])
  | CreateSettled ok =>
      if ok then (set_create false "" "" false false s, [Invalidate ["organizations"]])
      else (set_create (showCreate s) (create_name s) (create_slug s) false true s, [])
  | ToggleMembers id data =>
      (if bool_decide (expandedOrg s = Some id) then set_panel None (org_panel s) s
       else set_panel (Some id) (panel_mount data) s, [])
  | AskDelete id => (set_delete (Some id) (deletePending s) s, [])
  | CancelDelete => (set_delete None (deletePending s) s, [])
  | DeleteOrg id => (set_delete (deleteConfirm s) true s, [Request (orgsApi.org_delete id)])
  | DeleteSettled ok =>
      if ok then (set_delete None false s, [Invalidate ["organizations"]])
      else (set_delete (deleteConfirm s) false s, [])
  | InPanel org a =>
      let '(p, es) := org_panel_update org a (org_panel s) in (set_panel (expandedOrg s) p s, es)
  end.

(** The data a members query has when its panel opens is part of the click. *)
Definition org_card (s : orgs_state) (org : Org) : node orgs_action :=
  let current := bool_decide (Some (o_id org) = currentOrgId s) in
  El "div" [Attr "class" (if current then "border-blue-300 dark:border-blue-700" else "border-slate-200 dark:border-gray-800")]
    ([div [icon "Building2";
           div [div ([span [Text (o_name org)]; roleBadge (o_role org)] ++ when current [span [Text "current"]]);
                span [Text (o_slug org)]];
           div ([button [OnClick (ToggleMembers (o_id org) None)] [icon "Users"; Text "Members"]]
                ++ when (o_role org =s "owner")
                     [button [OnClick (AskDelete (o_id org)); Attr "title" "Delete organization"] [icon "Trash2"]])]]
     ++ when (bool_decide (expandedOrg s = Some (o_id org)))
          [div [map_node (InPanel org) (MembersPanel org None (org_panel s))]]).

Definition create_modal (s : orgs_state) : node orgs_action :=
  div [div ([el "h3" [Text "Create Organization"];
             div [div [el "label" [Text "Name"];
                       El "input" [Attr "value" (create_name s); OnChange NameChange;
                                   Attr "placeholder" "My Organization"] []];
                  div [el "label" [Text "Slug"];
                       El "input" [Attr "value" (create_slug s); OnChange SlugChange;
                                   Attr "placeholder" "my-organization"] []]];
             div [button [OnClick CloseCreate] [Text "Cancel"];
                  button [OnClick CreateOrg;
                          Disabled (negb (truthy (trim (create_name s))) || negb (truthy (trim (create_slug s)))
                                    || createPending s)] [Text "Create"]]]
            ++ when (createError s) [p_ [Text "Failed to create. Slug may already be taken."]])].

Definition delete_modal (s : orgs_state) (id : jstr) : node orgs_action :=
  div [div [el "h3" [Text "Delete Organization"];
            p_ [Text "This will permanently delete the organization and all its devices. This action cannot be undone."];
            div [button [OnClick CancelDelete] [Text "Cancel"];
                 button [OnClick (DeleteOrg id); Disabled (deletePending s)] [Text "Delete"]]]].

Definition orgs_view (s : orgs_state) : node orgs_action :=
  if orgs_loading s then div [Text "Loading organizations..."]
  else div (
    [div [div [icon "Building2"; el "h1" [Text "Organizations"]];
          button [OnClick OpenCreate] [icon "Plus"; Text "Create Organization"]];
     div (map (org_card s) (orgs s)
          ++ when (Nat.eqb (length (orgs s)) 0)
               [div [icon "Building2"; p_ [Text "No organizations yet. Create one to get started."]]])]
    ++ when (showCreate s) [create_modal s]
    ++ match deleteConfirm s with Some id => when (truthy id) [delete_modal s id] | None => [] end).

(** *** Lemmas on slugs *)

Definition slug_unit (c : Z) : bool := slug_char c || (c =? 45).

(** Never two dashes in a row. *)
Fixpoint no_double_dash (s : jstr) : bool :=
  match s with
  | c :: (d :: _) as r => negb ((c =? 45) && (d =? 45)) && no_double_dash r
  | _ => true
  end.

Lemma dash_runs_units b s : forallb slug_unit (dash_runs b s) = true.
Proof.
  revert b. induction s as [|c s IH]; intros b; [done|]. simpl.
  destruct (slug_char c) eqn:E; simpl; [unfold slug_unit; by rewrite E, IH|].
  destruct b; [apply IH|]. simpl. by rewrite IH.
Qed.

Lemma slug_char_not_dash c : slug_char c = true → (c =? 45) = false.
Proof.
  unfold slug_char. intros H. destruct (Z.eqb_spec c 45) as [->|]; [by vm_compute in H|done].
Qed.

Lemma dash_runs_shape b s :
  no_double_dash (dash_runs b s) = true ∧ (b = true → ∀ r, dash_runs b s ≠ 45 :: r).
Proof.
  revert b. induction s as [|c s IH]; intros b; [done|]. simpl.
  destruct (slug_char c) eqn:E.
  - destruct (IH false) as [H _]. apply slug_char_not_dash in E. split.
    + simpl. destruct (dash_runs false s); [done|]. by rewrite E.
    + intros _ r [= ->]. done.
  - destruct (IH true) as [H1 H2]. destruct b; [done|]. split; [|done]. simpl.
    destruct (dash_runs true s) as [|d r] eqn:Er; [done|]. rewrite H1, andb_true_r. simpl.
    destruct (Z.eqb_spec d 45) as [->|]; [|done]. by destruct (H2 eq_refl r).
Qed.

Lemma no_double_dash_app s t : no_double_dash (s ++ t) = true → no_double_dash s = true ∧ no_double_dash t = true.
Proof.
  induction s as [|c s IH]; intros H; [done|]. destruct s as [|d s].
  - split; [done|]. simpl in H. destruct t; [done|]. by apply andb_true_iff in H as [_ H].
  - simpl in H |- *. apply andb_true_iff in H as [-> H]. simpl. by apply IH.
Qed.

Lemma no_double_dash_tail c s : no_double_dash (c :: s) = true → no_double_dash s = true.
Proof. apply (no_double_dash_app [c] s). Qed.

(** The stripped text: a part of the original, without dashes at its ends. *)
Lemma strip_dashes_spec s :
  no_double_dash s = true →
  ∃ a b, s = a ++ strip_dashes s ++ b ∧
  (∀ r, strip_dashes s ≠ 45 :: r) ∧ (∀ r, strip_dashes s ≠ r ++ [45]).
Proof.
  intros H. unfold strip_dashes.
  set (s1 := match s with c :: r => if c =? 45 then r else s | [] => [] end).
  assert (∃ a, s = a ++ s1 ∧ ∀ r, s1 ≠ 45 :: r) as (a & Ea & Hs1).
  { destruct s as [|c s]; [by exists []|]. subst s1. destruct (Z.eqb_spec c 45) as [->|Hc].
    - exists [45]. split; [done|]. intros r ->. done.
    - exists []. split; [done|]. intros r [= ->]. done. }
  assert (no_double_dash s1 = true) as Hd by (rewrite Ea in H; apply (no_double_dash_app a s1 H)).
  clearbody s1. destruct (rev s1) as [|c t] eqn:Er.
  - exists a, []. rewrite app_nil_r. split; [done|]. split; [done|].
    intros r ->. rewrite rev_app_distr in Er. done.
  - assert (s1 = rev t ++ [c]) as E1 by (rewrite <-(rev_involutive s1), Er; done).
    destruct (Z.eqb_spec c 45) as [->|Hc].
    + exists a, [45]. split; [by rewrite <-E1|]. split.
      * intros r Hr. apply (Hs1 (r ++ [45])). by rewrite E1, Hr.
      * intros r Hr. rewrite E1, Hr, <-app_assoc in Hd. apply no_double_dash_app in Hd as [_ Hd]. done.
    + exists a, []. rewrite app_nil_r. split; [done|]. split; [done|].
      intros r Hr. rewrite Hr in E1. by apply app_inj_tail in E1 as [_ <-].
Qed.

Lemma forallb_part {A} (f : A → bool) a b c : forallb f (a ++ b ++ c) = true → forallb f b = true.
Proof. rewrite !forallb_app, !andb_true_iff. naive_solver. Qed.

(** What an automatic slug looks like. *)
Lemma slug_shape name :
  let s := slug_of name in
  forallb slug_unit s = true ∧ no_double_dash s = true ∧ (length s ≤ 64)%nat ∧
  (∀ r, s ≠ 45 :: r) ∧ ((length s < 64)%nat → ∀ r, s ≠ r ++ [45]).
Proof.
  intros s. subst s. unfold slug_of, slice_to. set (d := dash_runs false (toLowerCase name)).
  pose proof (dash_runs_units false (toLowerCase name)) as Hu. fold d in Hu.
  destruct (dash_runs_shape false (toLowerCase name)) as [Hd _]. fold d in Hd.
  destruct (strip_dashes_spec d Hd) as (a & b & E & H1 & H2).
  set (t := strip_dashes d) in *. rewrite E in Hu, Hd.
  apply forallb_part in Hu. apply no_double_dash_app in Hd as [_ Hd]. apply no_double_dash_app in Hd as [Hd _].
  pose proof (take_drop 64 t) as Et. rewrite <-Et in Hu, Hd.
  rewrite forallb_app in Hu. apply andb_true_iff in Hu as [Hu _]. apply no_double_dash_app in Hd as [Hd _].
  split; [done|]. split; [done|]. rewrite length_take. split; [lia|]. split.
  - intros r Hr. destruct t as [|c t]; [done|]. simpl in Hr. injection Hr as -> _. by apply (H1 t).
  - intros Hl r. rewrite take_ge by lia. apply H2.
Qed.

Lemma slug_unit_props c : slug_unit c = true → is_ws c = false ∧ lower_unit c = c.
Proof.
  unfold slug_unit, slug_char. intros H.
  assert (45 <= c <= 122 ∧ (c = 45 ∨ 48 <= c <= 57 ∨ 97 <= c)) as [Hc Hc'].
  { apply orb_true_iff in H as [[H|H]%orb_true_iff|H];
      [apply andb_true_iff in H as [?%Z.leb_le ?%Z.leb_le].. |apply Z.eqb_eq in H]; lia. }
  split.
  - unfold is_ws.
    repeat match goal with |- context [?a =? ?b] => destruct (Z.eqb_spec a b); [lia|] end;
    repeat match goal with |- context [?a <=? ?b] => destruct (Z.leb_spec a b); try lia end; done.
  - unfold lower_unit. repeat match goal with |- context [?a <=? ?b] => destruct (Z.leb_spec a b); try lia end; done.
Qed.

Lemma slug_normal s : forallb slug_unit s = true → toLowerCase (trim s) = s.
Proof.
  intros H. rewrite forallb_forall in H. rewrite trim_id by (intros c Hc; by apply slug_unit_props, H).
  unfold toLowerCase. rewrite <-(map_id s) at 2. apply map_ext_in. intros c Hc. by apply slug_unit_props, H.
Qed.

Lemma slug_validates s :
  forallb slug_unit s = true → (3 ≤ length s ≤ 64)%nat → validate_slug s = Some s.
Proof.
  intros H [H3 H64]. unfold validate_slug. rewrite slug_normal by done.
  unfold slug_unit in H. rewrite H. by rewrite (proj2 (Nat.leb_le _ _) H3), (proj2 (Nat.leb_le _ _) H64).
Qed.

Lemma short_slug_rejected s : (length s < 3)%nat → validate_slug s = None.
Proof.
  intros H. unfold validate_slug.
  assert (Nat.leb 3 (length s) = false) as -> by (apply Nat.leb_gt; lia). by rewrite !andb_false_r.
Qed.

End Organizations.

(** ** CommandLibrary *)

Module CommandLibrary.

Record library_form := {
  lf_name : jstr; lf_description : jstr; lf_command_type : jstr; lf_payload : list (jstr * json);
  lf_is_global : bool; lf_device_id : option jstr }.
Definition emptyForm : library_form :=
  {| lf_name := ""; lf_description := ""; lf_command_type := "shell"; lf_payload := [("command", JStr "")];
     lf_is_global := false; lf_device_id := None |}.

(** [editing] is a saved command, ['new'] or null. *)
Inductive editing_state := NotEditing | NewCommand | EditCommand (c : SavedCommand).
Record library_state := {
  editing : editing_state; lib_form : library_form; run_command : option SavedCommand; run_device : jstr;
  lib_commands : list SavedCommand; lib_devices : list Device }.

Definition library_query : query := Query [JStr "saved-commands"] savedCommandsApi.saved_list 0 true.
Definition library_devices_query : query :=
  Query [JStr "devices"; JStr "library"] (devicesApi.devices_list None None) 0 true.

Inductive library_action :=
| StartNew
| StartEdit (c : SavedCommand)
| CloseEditor
| SetForm (g : library_form → library_form)
| Upsert
| UpsertSucceeded
| StartRun (c : SavedCommand)
| CloseRun
| SetRunDevice (id : jstr)
| RunSaved
| RemoveSaved (id : jstr)
| RemoveSucceeded.

Definition set_editor (e : editing_state) (f : library_form) (s : library_state) : library_state :=
  {| editing := e; lib_form := f; run_command := run_command s; run_device := run_device s;
     lib_commands := lib_commands s; lib_devices := lib_devices s |}.
Definition set_run (c : option SavedCommand) (d : jstr) (s : library_state) : library_state :=
  {| editing := editing s; lib_form := lib_form s; run_command := c; run_device := d;
     lib_commands := lib_commands s; lib_devices := lib_devices s |}.

Definition form_of (c : SavedCommand) : library_form :=
  {| lf_name := sv_name c; lf_description := sv_description c ?? ""; lf_command_type := sv_command_type c;
     lf_payload := sv_payload c; lf_is_global := sv_is_global c; lf_device_id := sv_device_id c |}.

(** [form.description || null] *)
Definition library_body (f : library_form) : json :=
  savedCommandsApi.saved_body (lf_name f) (if truthy (lf_description f) then Some (lf_description f) else None)
    (lf_command_type f) (lf_payload f) (lf_is_global f) (lf_device_id f).

Definition upsert_request (s : library_state) : request :=
  match editing s with
  | EditCommand c => savedCommandsApi.saved_update (sv_id c) (library_body (lib_form s))
  | _ => savedCommandsApi.saved_create (library_body (lib_form s))
  end.

Definition library_update (a : library_action) (s : library_state) : library_state * list ui_effect :=
  match a with
  | StartNew => (set_editor NewCommand (lib_form s) s, [])
  | StartEdit c => (set_editor (EditCommand c) (form_of c) s, [])
  | CloseEditor => (set_editor NotEditing emptyForm s, [])
  | SetForm g => (set_editor (editing s) (g (lib_form s)) s, [])
  | Upsert => (s, [Request (upsert_request s)])
  | UpsertSucceeded => (set_editor NotEditing emptyForm s, [Invalidate ["saved-commands"]])
  | StartRun c => (set_run (Some c) (run_device s) s, [])
  | CloseRun => (set_run None "" s, [])
  | SetRunDevice id => (set_run (run_command s) id s, [])
  | RunSaved =>
      (s, match run_command s with
          | Some c => [Request (commandsApi.dispatch (run_device s) (sv_command_type c) (sv_payload c))]
          | None => []
          end)
  | RemoveSaved id => (s, [Request (savedCommandsApi.saved_delete id)])
  | RemoveSucceeded => (s, [Invalidate ["saved-commands"]])
  end.

Section view.
(** [a.localeCompare(b) <= 0], and [String(v)] of a value that is no string. *)
Context (locale_le : jstr → jstr → bool) (String_of : json → jstr).

Definition lib_sorted (s : library_state) : list SavedCommand :=
  stable_sort (λ a b, locale_le (sv_name a) (sv_name b)) (lib_commands s).

Definition library_row (c : SavedCommand) : node library_action :=
  el "tr" [
    el "td" [Text (sv_name c)]; el "td" [Text (sv_command_type c)]; el "td" [Text (sv_description c ?? "—")];
    el "td" [Text (if sv_is_global c then "Yes" else "No")]; el "td" [Text (sv_created_by c ?? "—")];
    el "td" [div [button [OnClick (StartEdit c)] [Text "Edit"];
                  button [OnClick (StartRun c)] [span [icon "Play"; Text "Run"]];
                  button [OnClick (RemoveSaved (sv_id c))] [Text "Delete"]]]].

(** [String(form.payload.command ?? '')] *)
Definition payload_text (f : library_form) : jstr :=
  match snd <$> find (λ x, fst x =s "command") (lf_payload f) with
  | Some JNull | None => ""
  | Some (JStr t) => t
  | Some v => String_of v
  end.

Definition with_field (name : option jstr) (description : option jstr) (type : option jstr)
    (payload : option (list (jstr * json))) (global : option bool) (f : library_form) : library_form :=
  {| lf_name := name ?? lf_name f; lf_description := description ?? lf_description f;
     lf_command_type := type ?? lf_command_type f; lf_payload := payload ?? lf_payload f;
     lf_is_global := global ?? lf_is_global f; lf_device_id := lf_device_id f |}.

Definition editor_modal (s : library_state) : node library_action :=
  let f := lib_form s in
  Modal "BookOpen" (match editing s with NewCommand => "New Saved Command" | _ => "Edit Saved Command" end) CloseEditor [
    div ([El "input" [Attr "value" (lf_name f); OnChange (λ v, SetForm (with_field (Some v) None None None None));
                      Attr "placeholder" "Name"] [];
          El "input" [Attr "value" (lf_description f);
                      OnChange (λ v, SetForm (with_field None (Some v) None None None));
                      Attr "placeholder" "Description"] [];
          El "select" [Attr "value" (lf_command_type f);
                       OnChange (λ v, SetForm (with_field None None (Some v) None None))]
            [option_ "shell" "Shell"; option_ "update_check" "Check Updates"; option_ "reboot" "Reboot";
             option_ "sync_time" "Sync Time"; option_ "diagnostics" "Diagnostics"]]
         ++ when (lf_command_type f =s "shell")
              [El "textarea" [Attr "value" (payload_text f);
                              OnChange (λ v, SetForm (with_field None None None (Some [("command", JStr v)]) None))] []]
         ++ [el "label" [El "input" [Attr "type" "checkbox"; Checked (lf_is_global f);
                                     OnCheck (λ b, SetForm (with_field None None None None (Some b)))] [];
                         Text "Global command"]]);
    div [button [OnClick CloseEditor] [Text "Cancel"]; button [OnClick Upsert] [Text "Save"]]].

Definition run_modal (s : library_state) : node library_action :=
  Modal "BookOpen" "Run Saved Command" CloseRun [
    El "select" [Attr "value" (run_device s); OnChange SetRunDevice]
      (option_ "" "Select device" :: map (λ d, option_ (d_id d) (d_label d ?? d_hostname d)) (lib_devices s));
    div [button [OnClick CloseRun] [Text "Cancel"];
         button [OnClick RunSaved; Disabled (negb (truthy (run_device s)))] [Text "Run Command"]]].

Definition library_view (s : library_state) : node library_action :=
  div ([div [div [el "h1" [Text "Command Library"];
                  p_ [Text "Reusable saved commands for faster remote operations."]];
             button [OnClick StartNew] [icon "Plus"; Text "New Command"]];
        div [el "table" [
          el "thead" [el "tr" (map (λ h, el "th" [Text h])
                        ["Name"; "Type"; "Description"; "Global"; "Created By"; "Actions"])];
          el "tbody" (map library_row (lib_sorted s))]]]
       ++ match editing s with NotEditing => [] | _ => [editor_modal s] end
       ++ match run_command s with Some _ => [run_modal s] | None => [] end).
End view.

End CommandLibrary.

(** ** Properties *)

Module AdminProps.
Import Organizations.

(** The controls of the users page are offered to administrators only; no
    enabled control changes the role or the status of the signed-in user's own
    account or deletes it; a password is reset only to one of at least eight
    characters, and a user is created only with a name and a password. *)
Theorem users_page_guards fmt s a :
  In a (clicks (UsersPage.users_view fmt s)) → UsersPage.control_ok s a.
Proof. apply UsersPage.users_controls. Qed.

Definition sample_user (name : jstr) : User :=
  {| u_id := name; u_username := name; u_role := Admin; u_is_active := Some true; u_last_login := None;
     u_created_at := None |}.
Definition sample_users : UsersPage.users_state :=
  {| UsersPage.us_role := Some "admin"; UsersPage.us_username := Some "me";
     UsersPage.users := [sample_user "me"; sample_user "eve"]; UsersPage.inviteOpen := false;
     UsersPage.passwordTarget := None; UsersPage.passwordValue := ""; UsersPage.inviteForm := UsersPage.invite_empty |}.

Lemma users_page_guards_witness :
  UsersPage.control_ok sample_users (UsersPage.DeleteUser (sample_user "eve") true).
Proof. apply (users_page_guards (λ t, t)). vm_compute. tauto. Defined.

(** C37: the slug filled in from a name has only small letters, digits and
    single dashes, does not start with a dash, has at most 64 characters and
    ends with a dash only if it was cut there; and the server accepts it, as it
    is, exactly when it has at least three characters. *)
Theorem auto_slug_well_formed name s :
  let slug := create_slug (fst (orgs_update (NameChange name) s)) in
  forallb slug_unit slug = true ∧ no_double_dash slug = true ∧ (length slug ≤ 64)%nat ∧
  (∀ r, slug ≠ 45 :: r) ∧ ((length slug < 64)%nat → ∀ r, slug ≠ r ++ [45]) ∧
  validate_slug slug = if Nat.leb 3 (length slug) then Some slug else None.
Proof.
  intros slug. change slug with (slug_of name). clear slug.
  destruct (slug_shape name) as (H1 & H2 & H3 & H4 & H5). repeat split; try done.
  destruct (Nat.leb_spec 3 (length (slug_of name))); [by apply slug_validates|by apply short_slug_rejected].
Qed.

Definition empty_orgs : orgs_state :=
  {| currentOrgId := None; orgs := []; orgs_loading := false; showCreate := true; create_name := "";
     create_slug := ""; createPending := false; createError := false; expandedOrg := None;
     org_panel := panel_mount None; deleteConfirm := None; deletePending := false |}.

Lemma auto_slug_well_formed_witness :
  slug_of "  Acme, Inc. (Berlin)" = "acme-inc-berlin" ∧ validate_slug "acme-inc-berlin" = Some "acme-inc-berlin".
Proof.
  split; [reflexivity|].
  destruct (auto_slug_well_formed "  Acme, Inc. (Berlin)" empty_orgs) as (_ & _ & _ & _ & _ & H). exact H.
Defined.

(** A slug cut after a dash keeps it. *)
Example cut_slug_ends_with_dash :
  let name := repeat 97 63 ++ " b" in slug_of name = repeat 97 63 ++ "-".
Proof. reflexivity. Qed.

(** The page gives the members panel no current user: an administrator of an
    organisation is offered the removal of his own membership. *)
Theorem own_membership_removable org m p :
  canManage org = true → om_role m ≠ "owner" → members p = Some [m] →
  In (RemoveMember (om_user_id m)) (clicks (MembersPanel org None p)).
Proof.
  intros Hc Hr Hm. unfold MembersPanel. rewrite Hm, Hc, clicks_div. cbn [flat_map app].
  apply in_or_app. left. cbn. unfold member_row, manageable. rewrite Hc.
  apply seqb_false in Hr. rewrite Hr. cbn. by left.
Qed.

(** A schedule is created for the device chosen or for all devices, with
    the shell command only for shell schedules; but a schedule for one device
    is sent without a device when none is chosen, and its row then, like the row
    of a device that is gone, says that it runs on all devices. *)
Theorem schedule_targets f devices c :
  rq_body (ScheduledCommands.createSchedule f) =
    Some (JObj ([("device_id", if ScheduledCommands.target f =s "all" then JNull
                               else JStr (ScheduledCommands.sf_device_id f));
                 ("command_type", JStr (ScheduledCommands.sf_command_type f));
                 ("payload", JObj (if ScheduledCommands.sf_command_type f =s "shell"
                                   then [("command", JStr (ScheduledCommands.shell_command f))] else []));
                 ("cron_expression", JStr (ScheduledCommands.sf_cron_expression f));
                 ("is_enabled", JBool true)])) ∧
  (ScheduledCommands.target_text devices c = "All devices" ∨
   ∃ d, In d devices ∧ sc_device_id c = Some (d_id d) ∧
        ScheduledCommands.target_text devices c = (d_label d ?? d_hostname d)) ∧
  ((∀ d, In d devices → sc_device_id c ≠ Some (d_id d)) →
   ScheduledCommands.target_text devices c = "All devices").
Proof.
  split; [by unfold ScheduledCommands.createSchedule; destruct (ScheduledCommands.target f =s "all")|].
  unfold ScheduledCommands.target_text. destruct (find _ devices) as [d|] eqn:E.
  - apply find_some in E as [Hd E%bool_decide_eq_true]. split; [right; by exists d|].
    intros H. by destruct (H d Hd).
  - split; [by left|done].
Qed.

Lemma schedule_targets_witness :
  ScheduledCommands.target_text [PagesProps.sample_device "d1"]
    {| sc_id := "s"; sc_device_id := Some "gone"; sc_command_type := "reboot"; sc_payload := [];
       sc_cron_expression := "0 3 * * *"; sc_is_enabled := true; sc_last_run_at := None;
       sc_next_run_at := None; sc_created_by := None; sc_created_at := None |} = "All devices".
Proof.
  apply (schedule_targets ScheduledCommands.form_initial). intros d [<-|[]]. done.
Defined.

(** Typing a range that is too long for an array in the form of a schedule
    ends the rendering of the whole page. *)
Theorem schedule_preview_can_throw show now s :
  ScheduledCommands.schedules_view show now
    (fst (ScheduledCommands.schedules_update (ScheduledCommands.SetCronExpression "0-4294967296 3 * * *") s)) = None.
Proof.
  unfold ScheduledCommands.schedules_view, ScheduledCommands.previewRuns. simpl.
  unfold nextRuns. pose proof max_attempts_Z. destruct max_attempts as [|n]; [done|].
  cbn [nextRuns_loop]. change (Z.of_nat (length (@nil Z)) <? 3) with true. cbn iota.
  assert (∀ t, matches "0-4294967296 3 * * *" t = None) as -> by (by intros t; vm_compute). done.
Qed.

(** Saving an edited command without a change sends its own fields back. *)
Theorem library_edit_identity c s :
  sv_description c ≠ Some [] →
  let s' := fst (CommandLibrary.library_update (CommandLibrary.StartEdit c) s) in
  snd (CommandLibrary.library_update CommandLibrary.Upsert s') =
    [Request (savedCommandsApi.saved_update (sv_id c)
       (savedCommandsApi.saved_body (sv_name c) (sv_description c) (sv_command_type c) (sv_payload c)
          (sv_is_global c) (sv_device_id c)))].
Proof.
  intros Hd s'. simpl. unfold CommandLibrary.upsert_request, CommandLibrary.library_body. simpl.
  destruct (sv_description c) as [[|x d]|]; done.
Qed.

End AdminProps.
