(* ===== verification/InventoryPage.v ===== *)
(** The inventory page ([pages/Inventory.tsx]): editing of asset fields, export
    and import, and the import of the file the server exports
    ([server/app/api/v1/inventory.py]). *)
From S2P Require Import Prelude JsString JsNumber Utils Types JsJson Api Stores Ui DeviceComponents Pages AdminPages.
Local Open Scope Z_scope.
Local Open Scope js_scope.

(** ** Fields *)

Inductive FieldKey := SerialNumber | Manufacturer | ModelName | Location | AssignedTo | AssetTag.
#[global] Instance FieldKey_eq_dec : EqDecision FieldKey.
Proof. solve_decision. Defined.
Definition FIELDS : list FieldKey := [SerialNumber; Manufacturer; ModelName; Location; AssignedTo; AssetTag].
Definition field_name (f : FieldKey) : jstr :=
  match f with
  | SerialNumber => "serial_number" | Manufacturer => "manufacturer" | ModelName => "model_name"
  | Location => "location" | AssignedTo => "assigned_to" | AssetTag => "asset_tag"
  end.
(** [device[field]] *)
Definition field_value (f : FieldKey) (d : InventoryDevice) : option jstr :=
  match f with
  | SerialNumber => i_serial_number d | Manufacturer => i_manufacturer d | ModelName => i_model_name d
  | Location => i_location d | AssignedTo => i_assigned_to d | AssetTag => i_asset_tag d
  end.

(** [value || null] *)
Definition or_null (value : jstr) : json := if truthy value then JStr value else JNull.

(** ** State *)

Record inventory_state := {
  inv_assignedTo : jstr; expiringOnly : bool; inv_editing : option (jstr * FieldKey); inv_draft : jstr;
  inv_location : jstr; inv_devices : list InventoryDevice }.
Definition inventory_initial : inventory_state :=
  {| inv_assignedTo := ""; expiringOnly := false; inv_editing := None; inv_draft := ""; inv_location := "";
     inv_devices := [] |}.

Definition inventory_query (s : inventory_state) : query :=
  Query [JStr "inventory"; JStr (inv_assignedTo s); JBool (expiringOnly s)]
    (inventoryApi.inventory_list None (if truthy (inv_assignedTo s) then Some (inv_assignedTo s) else None)
       (if expiringOnly s then Some 90 else None)) 0 true.

(** The order of [sort()] without a comparator: by code units. *)
Fixpoint units_le (s t : jstr) : bool :=
  match s, t with
  | [], _ => true
  | _, [] => false
  | c :: s', d :: t' => (c <? d) || ((c =? d) && units_le s' t')
  end.

Definition locations (s : inventory_state) : list jstr :=
  stable_sort units_le (dedup seqb (bfilter truthy (omap i_location (inv_devices s)))).

Definition inv_filtered (s : inventory_state) : list InventoryDevice :=
  bfilter (λ d, negb (truthy (inv_location s)) || bool_decide (i_location d = Some (inv_location s))) (inv_devices s).

(** ** Import *)

(** [text.split(/\r?\n/)] *)
Fixpoint split_lines (s : jstr) : list jstr :=
  match s with
  | [] => [[]]
  | 10 :: r => [] :: split_lines r
  | 13 :: ((10 :: r) as r0) => [] :: split_lines r
  | c :: r => cons_head c (split_lines r)
  end.

(** [Object.fromEntries(headers.map((header, index) => [header, columns[index] ?? '']))];
    the last entry of a key counts. *)
Definition record_of (headers columns : list jstr) : list (jstr * jstr) :=
  imap (λ i h, (h, columns !! i ?? "")) headers.
Definition record_get (k : jstr) (r : list (jstr * jstr)) : option jstr :=
  snd <$> find (λ e, fst e =s k) (rev r).

(** [record.key || null] *)
Definition record_json (k : jstr) (r : list (jstr * jstr)) : json := or_null (record_get k r ?? "").

(** The body of the loop for one row. *)
Definition import_row (devices : list InventoryDevice) (headers : list jstr) (row : jstr) : option request :=
  let r := record_of headers (split "," row) in
  device ← find (λ d, bool_decide (Some (i_hostname d) = record_get "hostname" r)) devices;
  Some (devicesApi.device_update (i_id device)
    [("serial_number", record_json "serial" r); ("manufacturer", record_json "manufacturer" r);
     ("model_name", record_json "model" r); ("purchase_date", record_json "purchase_date" r);
     ("warranty_expires", record_json "warranty_expires" r); ("location", record_json "location" r);
     ("assigned_to", record_json "assigned_to" r); ("asset_tag", record_json "asset_tag" r)]).

(** The requests in order; [None] when the file has no line, where
    [headerLine.split] throws. *)
Definition import_requests (text : jstr) (devices : list InventoryDevice) : option (list request) :=
  match bfilter truthy (split_lines text) with
  | [] => None
  | headerLine :: rows => Some (omap (import_row devices (map trim (split "," headerLine))) rows)
  end.

(** Each request is awaited: the first that is refused ends the import. *)
Fixpoint send_all (accepted : request → bool) (l : list request) : list ui_effect :=
  match l with
  | [] => [Invalidate ["inventory"]]
  | r :: l' => Request r :: if accepted r then send_all accepted l' else []
  end.
Definition importCsv (accepted : request → bool) (text : jstr) (s : inventory_state) : list ui_effect :=
  match import_requests text (inv_filtered s) with Some l => send_all accepted l | None => [] end.

(** ** Actions *)

Inductive inventory_action :=
| SetLocation_ (v : jstr)
| SetAssigned (v : jstr)
| SetExpiring (b : bool)
| ExportInventory
| ExportArrived (blob : jstr)
| ChooseFile
| ImportFile (text : jstr) (accepted : request → bool)
| StartCell (d : InventoryDevice) (f : FieldKey)
| ChangeDraft (v : jstr)
| SaveCell (d : InventoryDevice) (f : FieldKey)
| SaveSucceeded.

Definition inv_set (a : jstr) (e : bool) (ed : option (jstr * FieldKey)) (dr l : jstr) (s : inventory_state)
    : inventory_state :=
  {| inv_assignedTo := a; expiringOnly := e; inv_editing := ed; inv_draft := dr; inv_location := l;
     inv_devices := inv_devices s |}.

(** [download] of the blob with the name of the file. *)
Definition inventory_update (a : inventory_action) (s : inventory_state) : inventory_state * list ui_effect :=
  match a with
  | SetLocation_ v => (inv_set (inv_assignedTo s) (expiringOnly s) (inv_editing s) (inv_draft s) v s, [])
  | SetAssigned v => (inv_set v (expiringOnly s) (inv_editing s) (inv_draft s) (inv_location s) s, [])
  | SetExpiring b => (inv_set (inv_assignedTo s) b (inv_editing s) (inv_draft s) (inv_location s) s, [])
  | ExportInventory => (s, [Request inventoryApi.exportCsv])
  | ExportArrived blob => (s, [Download (Csv.download "dtsys-inventory.csv" blob "text/csv")])
  | ChooseFile => (s, [OpenFileDialog])
  | ImportFile text accepted => (s, importCsv accepted text s)
  | StartCell d f =>
      (inv_set (inv_assignedTo s) (expiringOnly s) (Some (i_id d, f)) (field_value f d ?? "") (inv_location s) s, [])
  | ChangeDraft v => (inv_set (inv_assignedTo s) (expiringOnly s) (inv_editing s) v (inv_location s) s, [])
  | SaveCell d f =>
      (s, [Request (devicesApi.device_update (i_id d) [(field_name f, or_null (inv_draft s))])])
  | SaveSucceeded =>
      (inv_set (inv_assignedTo s) (expiringOnly s) None "" (inv_location s) s,
       [Invalidate ["inventory"]; Invalidate ["device"]])
  end.

(** ** Rendering *)

Section view.
(** [differenceInCalendarDays(new Date(t), new Date())] and [format(new Date(t), 'PP')]. *)
Context (daysLeft : jstr → Z) (format_date : jstr → jstr).

Definition warranty_tone (d : InventoryDevice) : jstr :=
  if otruthy (i_warranty_expires d) then
    let n := daysLeft (i_warranty_expires d ?? "") in
    if n <? 30 then "bg-red-50 dark:bg-red-950/10" else if n <? 90 then "bg-amber-50 dark:bg-amber-950/10" else ""
  else "".

Definition date_cell (t : option jstr) : node inventory_action :=
  el "td" [Text (if otruthy t then format_date (t ?? "") else "—")].

(** [EditableCell]: a click on an inactive cell starts the edit. *)
Definition EditableCell (value : jstr) (active : bool) (onStart : inventory_action)
    (onChange : jstr → inventory_action) (onSave : inventory_action) : node inventory_action :=
  El "td" (if active then [] else [OnClick onStart])
    [if active
     then El "input" [Attr "defaultValue" value; OnChange onChange; OnBlur onSave; OnEnter onSave] []
     else Text (if truthy value then value else "—")].

Definition inventory_row (s : inventory_state) (d : InventoryDevice) : node inventory_action :=
  El "tr" [Attr "class" ("border-t border-slate-200 dark:border-gray-800 " ++ warranty_tone d)]
    ([el "td" [div [icon "Package"; Text (i_label d ?? i_hostname d)]]]
     ++ map (λ f, EditableCell (field_value f d ?? "")
                    (bool_decide (inv_editing s = Some (i_id d, f)))
                    (StartCell d f) ChangeDraft (SaveCell d f)) FIELDS
     ++ [date_cell (i_purchase_date d); date_cell (i_warranty_expires d)]).

Definition inventory_view (s : inventory_state) : node inventory_action :=
  div [
    div [div [el "h1" [Text "Inventory"]; p_ [Text "Track asset metadata, ownership, and warranty status."]];
         div [button [OnClick ExportInventory] [icon "Download"; Text "Export CSV"];
              button [OnClick ChooseFile] [icon "Upload"; Text "Import CSV"];
              El "input" [Attr "type" "file"; Attr "accept" ".csv"] []]];
    div [El "select" [Attr "value" (inv_location s); OnChange SetLocation_]
           (option_ "" "All locations" :: map (λ l, option_ l l) (locations s));
         El "input" [Attr "value" (inv_assignedTo s); OnChange SetAssigned; Attr "placeholder" "Assigned to…"] [];
         el "label" [El "input" [Attr "type" "checkbox"; Checked (expiringOnly s); OnCheck SetExpiring] [];
                     Text "Expiring warranty"]];
    div [el "table" [
      el "thead" [el "tr" (map (λ h, el "th" [Text h])
        ["Hostname"; "Serial"; "Manufacturer"; "Model"; "Location"; "Assigned To"; "Asset Tag"; "Purchase Date";
         "Warranty"])];
      el "tbody" (map (inventory_row s) (inv_filtered s))]]].
End view.

(** ** The file the server exports *)

Definition export_headers : list jstr :=
  ["hostname"; "label"; "os"; "ip"; "serial"; "manufacturer"; "model"; "purchase_date"; "warranty_expires";
   "location"; "assigned_to"; "asset_tag"; "status"].
(** [value or ""] *)
Definition or_empty (o : option jstr) : jstr := o ?? "".
Definition export_row (d : InventoryDevice) : list jstr :=
  [i_hostname d; or_empty (i_label d);
   if otruthy (i_os_version d) then i_os_version d ?? "" else i_os_type d;
   or_empty (i_ip_address d); or_empty (i_serial_number d); or_empty (i_manufacturer d);
   or_empty (i_model_name d); or_empty (i_purchase_date d); or_empty (i_warranty_expires d);
   or_empty (i_location d); or_empty (i_assigned_to d); or_empty (i_asset_tag d); i_status d].

(** Python's [csv.writer]: a cell with a delimiter, a quote or a line end is
    quoted; lines end with CR LF. *)
Definition csv_special (c : Z) : bool := (c =? 44) || (c =? 34) || (c =? 13) || (c =? 10).
Definition writer_cell (v : jstr) : jstr :=
  if existsb csv_special v then [34] ++ replace_all 34 [34; 34] v ++ [34] else v.
Definition writer_row (row : list jstr) : jstr := join "," (map writer_cell row) ++ [13; 10].
Definition export_inventory_csv (devices : list InventoryDevice) : jstr :=
  concat (map writer_row (export_headers :: map export_row devices)).

(** ** Lemmas *)

Lemma split_lines_line l r :
  (∀ c, In c l → c ≠ 10 ∧ c ≠ 13) → split_lines (l ++ 13 :: 10 :: r) = l :: split_lines r.
Proof.
  induction l as [|c l IH]; intros H; [done|]. cbn [app].
  assert (split_lines (c :: l ++ 13 :: 10 :: r) = cons_head c (split_lines (l ++ 13 :: 10 :: r))) as ->.
  { destruct (H c (or_introl eq_refl)) as [H1 H2]. simpl.
    destruct c as [|p|p]; [done| |done]. repeat (destruct p as [p|p|]; try done). }
  rewrite IH by (intros d Hd; apply H; by right). done.
Qed.

(** Cells that the writer leaves as they are. *)
Definition plain_cell (v : jstr) : bool := negb (existsb csv_special v).

Lemma plain_cell_units v c : plain_cell v = true → In c v → c ≠ 44 ∧ c ≠ 10 ∧ c ≠ 13.
Proof.
  unfold plain_cell. intros H%negb_true_iff Hc.
  assert (csv_special c = false) as Hs.
  { apply not_true_is_false. intros E. assert (existsb csv_special v = true); [|congruence].
    apply existsb_exists. by exists c. }
  repeat split; intros ->; done.
Qed.

Lemma plain_writer_cell v : plain_cell v = true → writer_cell v = v.
Proof. unfold plain_cell, writer_cell. intros H%negb_true_iff. by rewrite H. Qed.

Definition plain_row (row : list jstr) : bool := forallb plain_cell row.

Lemma plain_writer_row row : plain_row row = true → writer_row row = join "," row ++ [13; 10].
Proof.
  intros H. unfold writer_row. do 2 f_equal. rewrite <-(map_id row) at 2.
  apply map_ext_in. intros v Hv. apply plain_writer_cell. unfold plain_row in H.
  rewrite forallb_forall in H. by apply H.
Qed.

Lemma plain_row_units row c : plain_row row = true → In c (join "," row) → c ≠ 10 ∧ c ≠ 13.
Proof.
  unfold plain_row. rewrite forallb_forall. intros H [[<-|[]]|(v & Hv & Hc)]%join_In; [done|].
  apply H in Hv. by apply (plain_cell_units v c Hv).
Qed.

Lemma plain_row_split row : plain_row row = true → row ≠ [] → split "," (join "," row) = row.
Proof.
  intros H Hnn. apply split_join; [done|]. unfold plain_row in H. rewrite forallb_forall in H.
  intros v Hv c Hc. apply H in Hv. by apply (plain_cell_units v c Hv).
Qed.

Lemma split_written rows :
  (∀ r, In r rows → plain_row r = true) →
  split_lines (concat (map writer_row rows)) = map (join ",") rows ++ [[]].
Proof.
  induction rows as [|r rows IH]; intros H; [done|]. cbn [map concat].
  rewrite plain_writer_row by (apply H; by left). rewrite <-app_assoc. cbn [app].
  rewrite split_lines_line by (intros c; apply plain_row_units, H; by left).
  rewrite IH; [done|]. intros x Hx. apply H. by right.
Qed.

(** A row of several cells is no empty line. *)
Lemma join_nonempty x y l : truthy (join "," (x :: y :: l)) = true.
Proof. by destruct x. Qed.

Definition own_field (o : option jstr) : json := or_null (o ?? "").
(** The update that leaves a device as it is. *)
Definition own_update (d : InventoryDevice) : request :=
  devicesApi.device_update (i_id d)
    [("serial_number", own_field (i_serial_number d)); ("manufacturer", own_field (i_manufacturer d));
     ("model_name", own_field (i_model_name d)); ("purchase_date", own_field (i_purchase_date d));
     ("warranty_expires", own_field (i_warranty_expires d)); ("location", own_field (i_location d));
     ("assigned_to", own_field (i_assigned_to d)); ("asset_tag", own_field (i_asset_tag d))].

Lemma find_by_hostname ds d :
  NoDup (map i_hostname ds) → In d ds →
  find (λ e, bool_decide (Some (i_hostname e) = Some (i_hostname d))) ds = Some d.
Proof.
  intros Hn Hd. induction ds as [|e ds IH]; [done|]. simpl in Hn |- *.
  apply NoDup_cons in Hn as [He Hn]. rewrite list_elem_of_In in He. destruct Hd as [->|Hd].
  - by rewrite bool_decide_eq_true_2.
  - rewrite bool_decide_eq_false_2; [by apply IH|]. intros [= E]. apply He. rewrite E. by apply in_map.
Qed.

Lemma import_own_row ds d :
  NoDup (map i_hostname ds) → In d ds → plain_row (export_row d) = true →
  import_row ds export_headers (join "," (export_row d)) = Some (own_update d).
Proof.
  intros Hn Hd Hp. unfold import_row. rewrite plain_row_split by done.
  change (record_get "hostname" (record_of export_headers (export_row d))) with (Some (i_hostname d)).
  by rewrite find_by_hostname.
Qed.

Lemma import_own_rows ds l :
  NoDup (map i_hostname ds) → (∀ d, In d l → In d ds ∧ plain_row (export_row d) = true) →
  omap (import_row ds export_headers) (map (λ d, join "," (export_row d)) l) = map own_update l.
Proof.
  intros Hn. induction l as [|d l IH]; intros H; [done|]. cbn [map omap list_omap].
  destruct (H d (or_introl eq_refl)) as [Hd Hp]. rewrite import_own_row by done.
  cbn. f_equal. apply IH. intros e He. apply H. by right.
Qed.

Lemma header_row : map trim (split "," (join "," export_headers)) = export_headers.
Proof. reflexivity. Qed.

Lemma import_exported ds :
  NoDup (map i_hostname ds) → (∀ d, In d ds → plain_row (export_row d) = true) →
  import_requests (export_inventory_csv ds) ds = Some (map own_update ds).
Proof.
  intros Hn Hp. unfold import_requests, export_inventory_csv. rewrite split_written.
  - rewrite bfilter_app, bfilter_all.
    + cbn [map]. change (bfilter truthy [[]]) with (@nil jstr). rewrite app_nil_r, header_row, map_map.
      f_equal. apply import_own_rows; [done|]. intros d Hd. split; [done|by apply Hp].
    + intros l (r & <- & [<-|(d & <- & Hd)%in_map_iff])%in_map_iff; apply join_nonempty.
  - intros r [<-|(d & <- & Hd)%in_map_iff]; [reflexivity|by apply Hp].
Qed.

(** ** Properties *)

Module InventoryProps.

(** C27: importing the file the server exports changes nothing: when no cell
    needs quoting and the hostnames are distinct, every device of the table gets
    exactly one update, with the values it already has. *)
Theorem inventory_export_import_identity ds s :
  NoDup (map i_hostname ds) → (∀ d, In d ds → plain_row (export_row d) = true) →
  inv_filtered s = ds →
  snd (inventory_update (ImportFile (export_inventory_csv ds) (λ _, true)) s) =
    map (λ d, Request (own_update d)) ds ++ [Invalidate ["inventory"]].
Proof.
  intros Hn Hp Hf. cbn [inventory_update snd]. unfold importCsv. rewrite Hf, import_exported by done.
  clear. induction ds as [|d ds IH]; [done|]. cbn. by rewrite IH.
Qed.

Definition asset (id : jstr) (location : option jstr) : InventoryDevice :=
  {| i_id := id; i_hostname := "host-" ++ id; i_label := None; i_os_type := "linux"; i_os_version := None;
     i_ip_address := Some "10.0.0.7"; i_serial_number := Some "SN-1"; i_manufacturer := None;
     i_model_name := None; i_purchase_date := None; i_warranty_expires := None; i_location := location;
     i_assigned_to := Some "Ada"; i_asset_tag := None; i_status := "online" |}.
Definition assets (l : list InventoryDevice) : inventory_state :=
  {| inv_assignedTo := ""; expiringOnly := false; inv_editing := None; inv_draft := ""; inv_location := "";
     inv_devices := l |}.

Lemma inventory_export_import_identity_witness :
  let ds := [asset "1" (Some "Berlin"); asset "2" None] in
  snd (inventory_update (ImportFile (export_inventory_csv ds) (λ _, true)) (assets ds)) =
    map (λ d, Request (own_update d)) ds ++ [Invalidate ["inventory"]].
Proof.
  intros ds. apply inventory_export_import_identity.
  - apply (bool_decide_unpack _). vm_compute. exact I.
  - intros d [<-|[<-|[]]]; reflexivity.
  - reflexivity.
Defined.

(** The import does not read quotes: a location with a comma is exported in
    quotes, and importing that file stores half of it as the location and the
    other half as the assigned person. *)
Theorem import_splits_quoted_cells :
  let ds := [asset "1" (Some "Berlin, HQ")] in
  import_requests (export_inventory_csv ds) ds =
    Some [devicesApi.device_update "1"
            [("serial_number", JStr "SN-1"); ("manufacturer", JNull); ("model_name", JNull);
             ("purchase_date", JNull); ("warranty_expires", JNull);
             ("location", JStr ([34] ++ "Berlin")); ("assigned_to", JStr (" HQ" ++ [34]));
             ("asset_tag", JStr "Ada")]].
Proof. reflexivity. Qed.

(** When the save of a cell succeeds, whatever cell is then being edited is
    closed and its draft is lost, also when it is not the saved one. *)
Theorem save_closes_other_cell s d1 f1 d2 f2 v :
  let s1 := fst (inventory_update (ChangeDraft v) (fst (inventory_update (StartCell d1 f1) s))) in
  let '(s2, requests) := inventory_update (SaveCell d1 f1) s1 in
  let s3 := fst (inventory_update (StartCell d2 f2) s2) in
  let s4 := fst (inventory_update SaveSucceeded s3) in
  requests = [Request (devicesApi.device_update (i_id d1) [(field_name f1, or_null v)])] ∧
  inv_editing s3 = Some (i_id d2, f2) ∧ inv_editing s4 = None ∧ inv_draft s4 = "".
Proof. done. Qed.

End InventoryProps.
