(* ===== verification/SetupPages.v ===== *)
(** Pages for setting devices up: [pages/Downloads.tsx] and [Onboarding.tsx],
    with the server's download of an agent ([server/app/api/v1/agent.py]). *)
From S2P Require Import Prelude JsString JsNumber Types Api Routes Stores Ui DeviceComponents Pages.
Local Open Scope Z_scope.
Local Open Scope js_scope.

(** [lines] put one under the other, and a text in double quotes. *)
Definition lines (l : list jstr) : jstr := join [10] l.
Definition quoted (s : jstr) : jstr := [34] ++ s ++ [34].

(** The shell command of both pages: download, configuration file, start. *)
Definition shell_install (platform arch server token : jstr) : jstr := lines [
  "curl -fsSL " ++ quoted (server ++ "/api/v1/agent/download?platform=" ++ platform ++ "&arch=" ++ arch)
  ++ " -o /tmp/dtsys-agent && chmod +x /tmp/dtsys-agent && mkdir -p /etc/dtsys && cat > /tmp/dtsys-agent.toml <<'EOF'";
  "[server]";
  "url = " ++ quoted server;
  "enrollment_token = " ++ quoted token;
  "";
  "[agent]";
  "device_id = " ++ quoted "";
  "api_key = " ++ quoted "";
  "";
  "[update]";
  "auto_update = false";
  "EOF";
  "/tmp/dtsys-agent --config /tmp/dtsys-agent.toml"].

(** ** Downloads *)

Module Downloads.

Record platform := {
  pf_key : jstr; pf_label : jstr; pf_icon : jstr; pf_border : jstr; archs : list jstr;
  archLabel : jstr → option jstr; installTitle : jstr; installCmd : jstr → jstr → jstr; serviceTitle : jstr;
  serviceSnippets : list jstr; notes : list jstr; msiNote : bool }.

Definition label_in (l : list (jstr * jstr)) (a : jstr) : option jstr := snd <$> find (λ x, fst x =s a) l.

Definition linux_platform : platform := {|
  pf_key := "linux"; pf_label := "Linux"; pf_icon := "Terminal";
  pf_border := "border-orange-200 dark:border-orange-900"; archs := ["amd64"; "arm64"];
  archLabel := label_in [("amd64", "x86-64 (Intel/AMD)"); ("arm64", "ARM64 (Raspberry Pi, AWS Graviton)")];
  installTitle := "One-liner install (Linux)";
  installCmd := λ token server, shell_install "linux" "amd64" server token;
  serviceTitle := "Manage the service";
  serviceSnippets := ["sudo systemctl status dtsys-agent"; "sudo systemctl restart dtsys-agent";
                      "sudo journalctl -u dtsys-agent -f"];
  notes := ["Installs to /usr/local/bin/dtsys-agent"; "Config at /etc/dtsys/agent.toml";
            "Runs as dtsys-agent system user via systemd";
            "Screenshot requires X11 display + scrot on desktop machines"];
  msiNote := false |}.

Definition darwin_platform : platform := {|
  pf_key := "darwin"; pf_label := "macOS"; pf_icon := "Apple";
  pf_border := "border-blue-200 dark:border-blue-900"; archs := ["arm64"; "amd64"];
  archLabel := label_in [("arm64", "Apple Silicon (M1/M2/M3)"); ("amd64", "Intel")];
  installTitle := "One-liner install (macOS)";
  installCmd := λ token server, shell_install "darwin" "arm64" server token;
  serviceTitle := "Manage the service";
  serviceSnippets := ["sudo launchctl list | grep dtsys";
                      "sudo launchctl unload /Library/LaunchDaemons/com.dtsys.agent.plist";
                      "sudo launchctl load /Library/LaunchDaemons/com.dtsys.agent.plist"];
  notes := ["Installs to /usr/local/bin/dtsys-agent"; "Config at /etc/dtsys/agent.toml";
            "Runs as root via launchd, starts at boot";
            "Screenshot works via screencapture, including RDP sessions"];
  msiNote := false |}.

Definition windows_platform : platform := {|
  pf_key := "windows"; pf_label := "Windows"; pf_icon := "Monitor";
  pf_border := "border-sky-200 dark:border-sky-900"; archs := ["amd64"];
  archLabel := label_in [("amd64", "x86-64 (Intel/AMD)")];
  installTitle := "PowerShell installer (run as Administrator)";
  installCmd := λ token server, lines [
    "irm " ++ server ++ "/api/v1/installer/windows | iex";
    "# Or with parameters:";
    ".\install-agent.ps1 -Token " ++ quoted token ++ " -Server " ++ quoted server];
  serviceTitle := "Manage the service";
  serviceSnippets := ["Get-Service DTSYSAgent"; "Restart-Service DTSYSAgent";
                      "Get-EventLog -LogName Application -Source DTSYSAgent -Newest 50"];
  notes := ["Installs to C:\Program Files\DTSYS\dtsys-agent.exe"; "Config at C:\Program Files\DTSYS\agent.toml";
            "Registered as Windows Service DTSYSAgent (auto-start)";
            "MSI available for Group Policy / Intune / SCCM deployment";
            "Software inventory reads from Add/Remove Programs registry";
            "Screenshot works on desktop and RDP sessions via PowerShell GDI+"];
  msiNote := true |}.

Definition PLATFORMS : list platform := [linux_platform; darwin_platform; windows_platform].

(** A copy button: whether it shows its mark. *)
Inductive copy_action := Copy | Copied | CopyMarkOver.
Definition copy_update (text : jstr) (a : copy_action) (copied : bool) : bool * list ui_effect :=
  match a with
  | Copy => (copied, [Clipboard text])
  | Copied => (true, [StartTimer 2000])
  | CopyMarkOver => (false, [])
  end.
Definition CopyButton (copied : bool) : node copy_action :=
  button [OnClick Copy; Attr "title" "Copy"]
    [icon (if copied then "Check" else "Copy"); Text (if copied then "Copied" else "Copy")].

(** The state of the page: the open card, and the version if known. *)
Record downloads_state := { expandedPlatform : option jstr; versionData : option jstr }.
Definition downloads_initial : downloads_state := {| expandedPlatform := Some "linux"; versionData := None |}.
Definition version_query : query := Query [JStr "agent-version"] (get "/agent/version") 0 true.

Inductive downloads_action :=
| TogglePlatform (key : jstr)
| DownloadAgent (platform arch : jstr)
| InCopy (text : jstr) (a : copy_action).

(** [window.open(...)] *)
Definition handleDownload (platform arch : jstr) : list ui_effect :=
  [SetLocation ("/api/v1/agent/download?platform=" ++ platform ++ "&arch=" ++ arch)].

Definition downloads_update (a : downloads_action) (s : downloads_state) : downloads_state * list ui_effect :=
  match a with
  | TogglePlatform k =>
      ({| expandedPlatform := if bool_decide (expandedPlatform s = Some k) then None else Some k;
          versionData := versionData s |}, [])
  | DownloadAgent p a => (s, handleDownload p a)
  | InCopy t a => (s, [])   (* the button's own state *)
  end.

Definition agentVersion (s : downloads_state) : jstr := versionData s ?? "—".

(** The name of the file next to a download button. *)
Definition file_label (p : platform) (arch : jstr) : jstr :=
  "dtsys-agent-" ++ pf_key p ++ "-" ++ arch ++ (if pf_key p =s "windows" then ".exe" else "").

Definition msi_code (serverBase : jstr) : jstr := lines [
  "msiexec /i DTSYSAgent.msi /quiet ^"; "  DTSYS_SERVER=" ++ quoted serverBase ++ " ^";
  "  DTSYS_TOKEN=" ++ quoted "[YOUR_ENROLLMENT_TOKEN]"].

Definition config_code (serverBase : jstr) : jstr := lines [
  "[server]"; "url = " ++ quoted serverBase;
  "enrollment_token = " ++ quoted "" ++ "   # cleared after first run; device_id is stored here instead";
  ""; "[collect]"; "telemetry_interval_secs = 30"; "software_scan_interval_m = 60"; "event_poll_interval_secs = 60"].

Section view.
(** [window.location.origin], and the state of the button of each text. *)
Context (serverBase : jstr) (copied : jstr → bool).

Definition CodeBlock (code : jstr) (label : option jstr) : node downloads_action :=
  let copy := map_node (InCopy code) (CopyButton (copied code)) in
  div (match label with
       | Some l => when (truthy l) [div [span [Text l]; copy]]
       | None => []
       end
       ++ [el "pre" [el "code" [Text code]]]
       ++ when (negb (otruthy label)) [div [copy]]).

Definition platform_body (s : downloads_state) (p : platform) : node downloads_action :=
  div ([div [el "h3" [Text (installTitle p)];
             CodeBlock (installCmd p "[YOUR_ENROLLMENT_TOKEN]" serverBase) (Some "shell");
             p_ [Text "Generate an enrollment token in ";
                 El "a" [Attr "href" "/settings"] [Text "Settings → Enrollment Tokens"]; Text "."]];
        div [el "h3" [Text (serviceTitle p)]; div [el "pre" [el "code" [Text (lines (serviceSnippets p))]]]]]
       ++ when (msiNote p)
            [div [p_ [Text "MSI Installer — Group Policy / Intune / SCCM"];
                  CodeBlock (msi_code serverBase) (Some "PowerShell (silent install)")]]
       ++ [div [el "h3" [Text "Notes"]; el "ul" (map (λ n, el "li" [span []; Text n]) (notes p))];
           div [el "h3" [Text "Manual binary download"];
                div (map (λ a, button [OnClick (DownloadAgent (pf_key p) a)]
                                 [icon "Download"; Text (file_label p a); span [Text "v"; Text (agentVersion s)]])
                       (archs p))]]).

Definition platform_card (s : downloads_state) (p : platform) : node downloads_action :=
  let isOpen := bool_decide (expandedPlatform s = Some (pf_key p)) in
  El "div" [Attr "class" ("rounded-xl border " ++ pf_border p ++ " overflow-hidden")]
    ([button [OnClick (TogglePlatform (pf_key p))]
        [icon (pf_icon p);
         div [div [Text (pf_label p)];
              div [Text (join " · " (map (λ a, archLabel p a ?? "") (archs p)))]];
         div (map (λ a, button [OnClick (DownloadAgent (pf_key p) a)] [icon "Download"; Text a]) (archs p));
         icon (if isOpen then "ChevronUp" else "ChevronDown")]]
     ++ when isOpen [platform_body s p]).

Definition downloads_view (s : downloads_state) : node downloads_action :=
  div [
    div [icon "Download";
         div [el "h1" [Text "Agent Downloads"];
              p_ [Text "Current version: "; span [Text "v"; Text (agentVersion s)]]]];
    div ([p_ [Text "The DTSYS agent is a single static binary with no runtime dependencies. Install it on any machine to start monitoring. Choose your platform below to download the binary or use the one-liner installer."]]
         ++ map (platform_card s) PLATFORMS
         ++ [div [div [span [Text "Agent Config File"]; span [Text "/etc/dtsys/agent.toml"]];
                  div [p_ [Text "The installer creates this automatically. You can edit it manually to customise collection intervals."];
                       CodeBlock (config_code serverBase) (Some "agent.toml")]]])].
End view.

(** The server's download: the query patterns and the name of the file. *)
Definition server_agent_file (platform arch : jstr) : option jstr :=
  if member platform ["linux"; "darwin"; "windows"] && member arch ["amd64"; "arm64"]
  then Some ("dtsys-agent-" ++ platform ++ "-" ++ arch ++ (if platform =s "windows" then ".exe" else ""))
  else None.

(** The routes of [installer.py], at the root of the server. *)
Definition installer_paths : list jstr := ["/install-agent.sh"; "/install-agent.ps1"].

End Downloads.

(** ** Onboarding *)

Module Onboarding.

Inductive PlatformTab := LinuxTab | WindowsTab | MacosTab.
Definition tab_string (t : PlatformTab) : jstr :=
  match t with LinuxTab => "linux" | WindowsTab => "windows" | MacosTab => "macos" end.

Definition steps : list jstr := ["Welcome"; "Enrollment Token"; "First Device"; "Ready"].

Record wizard_state := {
  wz_role : option jstr; step : Z; wz_platform : PlatformTab; wz_copied : option jstr;
  wz_devices : list Device; wz_loading : bool; tokenData : option jstr; tokenPending : bool }.
Definition wizard_initial (role : option jstr) : wizard_state :=
  {| wz_role := role; step := 0; wz_platform := LinuxTab; wz_copied := None; wz_devices := [];
     wz_loading := true; tokenData := None; tokenPending := false |}.

Definition onboarding_query (s : wizard_state) : query :=
  Query [JStr "devices"; JStr "onboarding"] (devicesApi.devices_list None None)
    (if 2 <=? step s then 5000 else 0) (bool_decide (wz_role s = Some "admin")).

Definition token (s : wizard_state) : jstr := tokenData s ?? "".
Definition token_request : request := post_empty "/admin/enrollment-tokens".

Inductive wizard_action :=
| GetStarted
| TokenSettled (answer : option jstr)
| SelectPlatform (t : PlatformTab)
| CopyText (value key : jstr)
| TextCopied (key : jstr)
| CopiedOver
| SetStep (n : Z)
| DevicesArrive (l : list Device).

Definition wz_set (n : Z) (p : PlatformTab) (c : option jstr) (t : option jstr) (pending : bool)
    (s : wizard_state) : wizard_state :=
  {| wz_role := wz_role s; step := n; wz_platform := p; wz_copied := c; wz_devices := wz_devices s;
     wz_loading := wz_loading s; tokenData := t; tokenPending := pending |}.

(** A new mutation forgets the data of the last one. *)
Definition wizard_update (a : wizard_action) (s : wizard_state) : wizard_state * list ui_effect :=
  match a with
  | GetStarted => (wz_set (step s) (wz_platform s) (wz_copied s) None true s, [Request token_request])
  | TokenSettled (Some t) => (wz_set 1 (wz_platform s) (wz_copied s) (Some t) false s, [])
  | TokenSettled None => (wz_set (step s) (wz_platform s) (wz_copied s) None false s, [])
  | SelectPlatform p => (wz_set (step s) p (wz_copied s) (tokenData s) (tokenPending s) s, [])
  | CopyText v k => (s, [Clipboard v])
  | TextCopied k => (wz_set (step s) (wz_platform s) (Some k) (tokenData s) (tokenPending s) s, [StartTimer 1500])
  | CopiedOver => (wz_set (step s) (wz_platform s) None (tokenData s) (tokenPending s) s, [])
  | SetStep n => (wz_set n (wz_platform s) (wz_copied s) (tokenData s) (tokenPending s) s, [])
  | DevicesArrive l =>
      ({| wz_role := wz_role s; step := step s; wz_platform := wz_platform s; wz_copied := wz_copied s;
          wz_devices := l; wz_loading := false; tokenData := tokenData s; tokenPending := tokenPending s |}, [])
  end.

Section view.
Context (apiBase : jstr).

Definition snippet (token : jstr) (t : PlatformTab) : jstr :=
  match t with
  | LinuxTab => shell_install "linux" "amd64" apiBase token
  | WindowsTab => "powershell -ExecutionPolicy Bypass -File .\install.ps1 -ServerURL " ++ quoted apiBase
                  ++ " -EnrollmentToken " ++ quoted token
  | MacosTab => shell_install "darwin" "arm64" apiBase token
  end.

Definition IntroCard (glyph title text : jstr) : node wizard_action :=
  div [icon glyph; el "h3" [Text title]; p_ [Text text]].
Definition SummaryLink (to title text : jstr) : node wizard_action :=
  El "a" [Attr "to" to] [el "h3" [Text title]; p_ [Text text]].

Definition step_class (s : wizard_state) (index : Z) : jstr :=
  "rounded-2xl border px-4 py-3 text-sm " ++
  if index =? step s then "border-blue-500 bg-blue-50 text-blue-700 dark:bg-blue-950/30 dark:text-blue-300"
  else if index <? step s
  then "border-emerald-300 bg-emerald-50 text-emerald-700 dark:border-emerald-500/30 dark:bg-emerald-950/20 dark:text-emerald-300"
  else "border-slate-200 bg-white text-slate-500 dark:border-gray-800 dark:bg-gray-900 dark:text-gray-500".

Definition step_card (s : wizard_state) (index : nat) (label : jstr) : node wizard_action :=
  El "div" [Attr "class" (step_class s (Z.of_nat index))]
    [div [Text "Step "; num_text (Z.of_nat index + 1)]; div [Text label]].

Definition welcome_step (s : wizard_state) : node wizard_action :=
  div [div [el "h2" [Text "What happens next"];
            p_ [Text "DTSYS monitors health, alerts, software, commands, events, processes, and network state from a single dashboard. The first step is generating a one-time enrollment token and installing one agent."];
            button [OnClick GetStarted; Disabled (tokenPending s)] [Text "Get Started"]];
       div [IntroCard "Monitor" "Device Visibility" "See online status, health metrics, software, and network inventory.";
            IntroCard "Terminal" "Remote Actions" "Run commands, collect diagnostics, request screenshots, and sync time.";
            IntroCard "Laptop" "Operational History" "Track alerts, crashes, events, and audit activity in one place."]].

Definition token_step (s : wizard_state) : node wizard_action :=
  let copied k := bool_decide (wz_copied s = Some k) in
  let key := tab_string (wz_platform s) in
  let code := snippet (token s) (wz_platform s) in
  div [div [el "h2" [Text "Generate Enrollment Token"];
            p_ [Text "This token is single-use and expires automatically. Install the agent on the target device using one of the snippets below."]];
       div [div [el "code" [Text (token s)];
                 button [OnClick (CopyText (token s) "token")]
                   [icon "Copy"; Text (if copied "token" then "Copied" else "Copy Token")]]];
       div (map (λ t, button [OnClick (SelectPlatform t)] [Text (tab_string t)]) [LinuxTab; WindowsTab; MacosTab]);
       div [div [span [Text key; Text " install"];
                 button [OnClick (CopyText code key)]
                   [icon "Copy"; Text (if copied key then "Copied" else "Copy Snippet")]];
            el "pre" [Text code]];
       div [button [OnClick (SetStep 2)] [Text "Continue"]]].

Definition device_step (s : wizard_state) : node wizard_action :=
  div [div [div []];
       div [el "h2" [Text "Waiting for first device"];
            p_ [Text "The dashboard is polling every 5 seconds for the first enrolled agent."]];
       match wz_devices s with
       | d :: _ => div [div [icon "CheckCircle2";
                             span [Text "Device connected: "; Text (d_label d ?? d_hostname d)]];
                        button [OnClick (SetStep 3)] [Text "Go to Dashboard"]]
       | [] => p_ [Text "Waiting for agent to connect..."]
       end].

Definition ready_step : node wizard_action :=
  div [div [el "h2" [Text "You're ready"];
            p_ [Text "DTSYS is ready to monitor devices, collect events, visualize software state, and dispatch remote actions."]];
       div [SummaryLink "/" "Dashboard" "See health, availability, and live device activity.";
            SummaryLink "/alerts" "Alerts" "Review unresolved incidents and resolve them quickly.";
            SummaryLink "/settings" "Settings" "Create users, manage notifications, and review audit logs."];
       div [El "a" [Attr "to" "/"] [Text "Open Dashboard"]]].

(** [None] is a redirection to the dashboard. *)
Definition wizard_view (s : wizard_state) : option (node wizard_action) :=
  if negb (bool_decide (wz_role s = Some "admin")) then None
  else if negb (wz_loading s) && Nat.ltb 0 (length (wz_devices s)) && (step s <? 2) then None
  else Some (div [div [
    div [div [icon "ShieldCheck"; Text "First Run Wizard"]; el "h1" [Text "Welcome to DTSYS"];
         p_ [Text "Get your first device enrolled, connected, and visible in under five minutes."]];
    div (imap (step_card s) steps);
    div (when (step s =? 0) [welcome_step s] ++ when (step s =? 1) [token_step s]
         ++ when (step s =? 2) [device_step s] ++ when (step s =? 3) [ready_step])]]).

Definition wizard_clicks (s : wizard_state) : list wizard_action :=
  match wizard_view s with Some n => clicks n | None => [] end.

(** The wizard in use: clicks on what is shown, the answer to a pending
    request, and the device list, which may change at any time. *)
Inductive wizard_step : wizard_state → wizard_state → Prop :=
| by_click a s : In a (wizard_clicks s) → wizard_step s (fst (wizard_update a s))
| by_answer r s : tokenPending s = true → wizard_step s (fst (wizard_update (TokenSettled r) s))
| by_timer s : wizard_step s (fst (wizard_update CopiedOver s))
| by_clipboard k s : wizard_step s (fst (wizard_update (TextCopied k) s))
| by_devices l s : wizard_step s (fst (wizard_update (DevicesArrive l) s)).

Inductive wizard_reachable (role : option jstr) : wizard_state → Prop :=
| wizard_start : wizard_reachable role (wizard_initial role)
| wizard_next s s' : wizard_reachable role s → wizard_step s s' → wizard_reachable role s'.

(** A token is pending only on the first step, and later steps have one. *)
Definition wizard_ok (s : wizard_state) : Prop :=
  0 <= step s <= 3 ∧ (tokenPending s = true → step s = 0) ∧ (1 <= step s → is_Some (tokenData s)).

Lemma wizard_clicks_spec s a :
  In a (wizard_clicks s) →
  wz_role s = Some "admin" ∧
  match a with
  | GetStarted => step s = 0 ∧ tokenPending s = false
  | SelectPlatform _ | CopyText _ _ => step s = 1
  | SetStep n => (n = 2 ∧ step s = 1) ∨ (n = 3 ∧ step s = 2 ∧ wz_devices s ≠ [])
  | _ => False
  end.
Proof.
  unfold wizard_clicks, wizard_view. destruct (bool_decide (wz_role s = Some "admin")) eqn:Er; [|done].
  apply bool_decide_eq_true in Er. cbn [negb].
  destruct (negb (wz_loading s) && Nat.ltb 0 (length (wz_devices s)) && (step s <? 2)); [done|].
  intros H. split; [done|]. cbn in H. rewrite ?app_nil_r, !flat_map_app, !in_app_iff in H.
  destruct H as [H|[H|[H|H]]].
  - destruct (Z.eqb_spec (step s) 0); [|done]. cbn in H. destruct (tokenPending s) eqn:Et; cbn in H; [done|].
    by destruct H as [<-|[]].
  - destruct (Z.eqb_spec (step s) 1); [|done]. cbn in H.
    destruct H as [<-|[<-|[<-|[<-|[<-|[<-|[]]]]]]]; auto.
  - destruct (Z.eqb_spec (step s) 2); [|done]. cbn in H. destruct (wz_devices s) eqn:Ed; cbn in H; [done|].
    destruct H as [<-|[]]. right. auto.
  - by destruct (Z.eqb_spec (step s) 3).
Qed.

Lemma wizard_step_ok s s' : wizard_ok s → wizard_step s s' → wizard_ok s'.
Proof.
  intros (H1 & H2 & H3) Hs. destruct Hs as [a s Ha|r s Hp|s|k s|l s]; try done.
  - apply wizard_clicks_spec in Ha as [_ Ha].
    destruct a as [|r|t|v k|k| |n|l]; try done; unfold wizard_ok; simpl.
    + destruct Ha as [E _]. rewrite E. split; [lia|]. split; [done|lia].
    + destruct Ha as [[-> E]|[-> [E _]]]; (split; [lia|]); (split; [intros Hp; specialize (H2 Hp); lia|]);
        intros _; apply H3; lia.
  - destruct r as [t|]; unfold wizard_ok; simpl; [split; [lia|]; split; done|].
    specialize (H2 Hp). rewrite H2. split; [lia|]. split; [done|lia].
Qed.

Lemma wizard_reachable_ok role s : wizard_reachable role s → wizard_ok s.
Proof.
  induction 1 as [|s s' _ IH Hs]; [|by eapply wizard_step_ok].
  unfold wizard_ok. simpl. split; [lia|]. split; [done|lia].
Qed.

End view.

End Onboarding.

(** ** Properties *)

Module SetupProps.

(** The first-run wizard stays on a step or moves to the next one; every
    step after the first has an enrollment token, and the last one is
    entered only from the waiting step while a device is connected. *)
Theorem onboarding_steps_guarded base role s s' :
  Onboarding.wizard_reachable base role s → Onboarding.wizard_step base s s' →
  (1 <= Onboarding.step s' → is_Some (Onboarding.tokenData s')) ∧
  (Onboarding.step s' = Onboarding.step s ∨ Onboarding.step s' = Onboarding.step s + 1) ∧
  (Onboarding.step s' = 3 → Onboarding.step s = 3 ∨
     (Onboarding.step s = 2 ∧ Onboarding.wz_devices s ≠ [])).
Proof.
  intros Hr Hs. apply Onboarding.wizard_reachable_ok in Hr as Hok.
  split; [by eapply Onboarding.wizard_step_ok in Hs; [apply Hs|]|].
  destruct Hok as (_ & Hp & _). destruct Hs as [a s Ha|[t|] s Hpend|s|k s|l s]; simpl; auto.
  - apply Onboarding.wizard_clicks_spec in Ha as [_ Ha].
    destruct a as [|r|t|v k|k| |n|l]; simpl; try done; auto.
    destruct Ha as [[-> ->]|[-> [-> Hd]]]; auto with lia.
  - specialize (Hp Hpend). rewrite Hp. split; [by right|done].
Qed.

Definition base : jstr := "https://dtsys.example".

Lemma onboarding_steps_guarded_witness :
  let s1 := fst (Onboarding.wizard_update Onboarding.GetStarted (Onboarding.wizard_initial (Some "admin"))) in
  let s2 := fst (Onboarding.wizard_update (Onboarding.TokenSettled (Some "tok")) s1) in
  Onboarding.step s2 = Onboarding.step s1 ∨ Onboarding.step s2 = Onboarding.step s1 + 1.
Proof.
  intros s1 s2. apply (onboarding_steps_guarded base (Some "admin") s1 s2).
  - eapply Onboarding.wizard_next; [apply Onboarding.wizard_start|].
    apply Onboarding.by_click. vm_compute. tauto.
  - by apply Onboarding.by_answer.
Defined.

(** Every download the downloads page offers is one the server's patterns
    accept, and the server answers with the file named on the button. *)
Theorem downloads_served p arch :
  In p Downloads.PLATFORMS → In arch (Downloads.archs p) →
  Downloads.server_agent_file (Downloads.pf_key p) arch = Some (Downloads.file_label p arch) ∧
  served (get ("/agent/download?platform=" ++ Downloads.pf_key p ++ "&arch=" ++ arch)) = true.
Proof.
  intros Hp Ha.
  assert (forallb (λ p, forallb (λ a,
            bool_decide (Downloads.server_agent_file (Downloads.pf_key p) a = Some (Downloads.file_label p a))
            && served (get ("/agent/download?platform=" ++ Downloads.pf_key p ++ "&arch=" ++ a)))
            (Downloads.archs p)) Downloads.PLATFORMS = true) as H by (vm_compute; reflexivity).
  rewrite forallb_forall in H. apply H in Hp. rewrite forallb_forall in Hp. apply Hp in Ha.
  apply andb_true_iff in Ha as [Ha%bool_decide_eq_true Hs]. done.
Qed.

Lemma downloads_served_witness :
  Downloads.server_agent_file "windows" "amd64" = Some "dtsys-agent-windows-amd64.exe".
Proof.
  destruct (downloads_served Downloads.windows_platform "amd64") as [H _]; [vm_compute; tauto|vm_compute; tauto|].
  exact H.
Defined.

(** The Windows installer the page tells to run is no route of the server. *)
Theorem windows_installer_not_served :
  served (get "/installer/windows") = false ∧ member "/api/v1/installer/windows" Downloads.installer_paths = false.
Proof. vm_compute. done. Qed.

End SetupProps.
