(* ===== verification/ReportPages.v ===== *)
(** Pages that report: [pages/AuditLog.tsx], [Compliance.tsx] and
    [Reports.tsx]. *)
From Stdlib Require Import QArith Qround Lqa.
From S2P Require Import Prelude JsString JsNumber Utils Types JsJson JsonText Api Stores Ui DeviceComponents Pages AdminPages.
Local Open Scope Z_scope.
Local Open Scope js_scope.

(** ** AuditLog *)

Module AuditLog.

Record AuditEntry := {
  ae_id : jstr; ae_timestamp : option jstr; ae_username : jstr; ae_action : jstr;
  ae_resource_type : option jstr; ae_resource_id : option jstr; ae_ip_address : option jstr;
  ae_details : option (list (jstr * json)) }.
Record AuditResponse := { ar_total : Z; ar_offset : Z; ar_limit : Z; ar_items : list AuditEntry }.

Definition ACTION_COLOR (action : jstr) : option jstr :=
  snd <$> find (λ x, fst x =s action) [
    ("login_success", "text-green-600 bg-green-50 dark:bg-green-950/30");
    ("login_failed", "text-red-500 bg-red-50 dark:bg-red-950/30");
    ("command_dispatched", "text-blue-600 bg-blue-50 dark:bg-blue-950/30");
    ("device_deleted", "text-red-500 bg-red-50 dark:bg-red-950/30");
    ("device_revoked", "text-orange-500 bg-orange-50 dark:bg-orange-950/30");
    ("org_created", "text-purple-600 bg-purple-50 dark:bg-purple-950/30");
    ("org_deleted", "text-red-500 bg-red-50 dark:bg-red-950/30")].
Definition actionClass (action : jstr) : jstr :=
  ACTION_COLOR action ?? "text-slate-600 bg-slate-100 dark:bg-gray-800 dark:text-gray-300".

Record audit_filters := {
  f_action : jstr; f_username : jstr; f_resource_type : jstr; f_since : jstr; f_until : jstr }.
Definition no_filters : audit_filters :=
  {| f_action := ""; f_username := ""; f_resource_type := ""; f_since := ""; f_until := "" |}.
Definition audit_limit : Z := 50.

(** The state.  [startLive] is made by [useCallback] without dependencies: it
    keeps the access token of the first render ([au_token]).  Event sources are
    numbered; [au_open] holds those that are open, whoever refers to them. *)
Record audit_state := {
  filters : audit_filters; au_page : Z; liveEntries : list AuditEntry; liveMode : bool;
  sseRef : option nat; au_open : list nat; au_next : nat; au_token : option jstr;
  au_data : option AuditResponse; au_loading : bool }.
Definition audit_mount (accessToken : option jstr) : audit_state :=
  {| filters := no_filters; au_page := 0; liveEntries := []; liveMode := false; sseRef := None; au_open := [];
     au_next := 0; au_token := accessToken; au_data := None; au_loading := true |}.

Definition if_set (name value : jstr) : list (jstr * json) := if truthy value then [(name, JStr value)] else [].
Definition audit_request (f : audit_filters) (page : Z) : request :=
  get_params "/audit"
    ([("limit", JZ audit_limit); ("offset", JZ (page * audit_limit))]
     ++ if_set "action" (f_action f) ++ if_set "username" (f_username f)
     ++ if_set "resource_type" (f_resource_type f) ++ if_set "since" (f_since f) ++ if_set "until" (f_until f)).

Inductive audit_field := ByAction | ByUsername | ByResource | Since | Until.
Definition set_filter (k : audit_field) (v : jstr) (f : audit_filters) : audit_filters :=
  match k with
  | ByAction => {| f_action := v; f_username := f_username f; f_resource_type := f_resource_type f;
                   f_since := f_since f; f_until := f_until f |}
  | ByUsername => {| f_action := f_action f; f_username := v; f_resource_type := f_resource_type f;
                     f_since := f_since f; f_until := f_until f |}
  | ByResource => {| f_action := f_action f; f_username := f_username f; f_resource_type := v;
                     f_since := f_since f; f_until := f_until f |}
  | Since => {| f_action := f_action f; f_username := f_username f; f_resource_type := f_resource_type f;
                f_since := v; f_until := f_until f |}
  | Until => {| f_action := f_action f; f_username := f_username f; f_resource_type := f_resource_type f;
                f_since := f_since f; f_until := v |}
  end.

Inductive audit_action :=
| SetFilter (k : audit_field) (v : jstr)
| PreviousPage
| NextPage
| StartLive
| StopLive
| Message (source : nat) (data : jstr)
| ExportAudit
| RefetchAudit
| Unmount.

(** What the page asks the browser for. *)
Inductive audit_effect := OpenSource (id : nat) (url : jstr) | CloseSource (id : nat) | Leave (href : jstr) | RefetchList.

(** [URLSearchParams] as text: application/x-www-form-urlencoded. *)
Definition form_kept (c : Z) : bool :=
  ((48 <=? c) && (c <=? 57)) || ((65 <=? c) && (c <=? 90)) || ((97 <=? c) && (c <=? 122))
  || existsb (Z.eqb c) [42; 45; 46; 95].
Fixpoint form_encode (s : jstr) : jstr :=
  match s with
  | [] => []
  | c :: r =>
      if form_kept c then c :: form_encode r
      else if c =? 32 then 43 :: form_encode r
      else if is_high c then
        match r with
        | d :: r' => if is_low d then flat_map percent (utf8 (65536 + (c - 55296) * 1024 + (d - 56320))) ++ form_encode r'
                     else flat_map percent (utf8 65533) ++ form_encode r
        | [] => flat_map percent (utf8 65533)
        end
      else if is_low c then flat_map percent (utf8 65533) ++ form_encode r
      else flat_map percent (utf8 c) ++ form_encode r
  end.
Definition search_params (l : list (jstr * jstr)) : jstr :=
  join "&" (map (λ p, form_encode (fst p) ++ "=" ++ form_encode (snd p)) (bfilter (λ p, truthy (snd p)) l)).

Definition export_href (f : audit_filters) : jstr :=
  "/api/v1/audit/export/csv?" ++ search_params [("action", f_action f); ("since", f_since f); ("until", f_until f)].

Section update.
(** [JSON.parse] of a message at the type [AuditEntry]; [None] when it throws. *)
Context (decode : jstr → option AuditEntry).

Definition close_ref (s : audit_state) : list audit_effect :=
  match sseRef s with Some i => [CloseSource i] | None => [] end.
(** The sources still open after [sseRef.current?.close()]. *)
Definition without_ref (s : audit_state) : list nat :=
  match sseRef s with Some i => bfilter (λ j, negb (Nat.eqb j i)) (au_open s) | None => au_open s end.

Definition startLive (s : audit_state) : audit_state * list audit_effect :=
  ({| filters := filters s; au_page := au_page s; liveEntries := []; liveMode := true;
      sseRef := Some (au_next s); au_open := au_next s :: without_ref s; au_next := S (au_next s);
      au_token := au_token s; au_data := au_data s; au_loading := au_loading s |},
   close_ref s ++ [OpenSource (au_next s) ("/api/v1/audit/stream?token=" ++ (au_token s ?? ""))]).

Definition stopLive (s : audit_state) : audit_state * list audit_effect :=
  ({| filters := filters s; au_page := au_page s; liveEntries := liveEntries s; liveMode := false;
      sseRef := None; au_open := without_ref s; au_next := au_next s; au_token := au_token s;
      au_data := au_data s; au_loading := au_loading s |}, close_ref s).

Definition push_live (e : AuditEntry) (prev : list AuditEntry) : list AuditEntry := take 200 (e :: prev).

(** A closed source delivers nothing. *)
Definition onmessage (source : nat) (data : jstr) (s : audit_state) : audit_state :=
  if existsb (Nat.eqb source) (au_open s) then
    match decode data with
    | Some e =>
        {| filters := filters s; au_page := au_page s; liveEntries := push_live e (liveEntries s);
           liveMode := liveMode s; sseRef := sseRef s; au_open := au_open s; au_next := au_next s;
           au_token := au_token s; au_data := au_data s; au_loading := au_loading s |}
    | None => s
    end
  else s.

Definition set_paging (f : audit_filters) (p : Z) (s : audit_state) : audit_state :=
  {| filters := f; au_page := p; liveEntries := liveEntries s; liveMode := liveMode s; sseRef := sseRef s;
     au_open := au_open s; au_next := au_next s; au_token := au_token s; au_data := au_data s;
     au_loading := au_loading s |}.

Definition audit_update (a : audit_action) (s : audit_state) : audit_state * list audit_effect :=
  match a with
  | SetFilter k v => (set_paging (set_filter k v (filters s)) 0 s, [])
  | PreviousPage => (set_paging (filters s) (Z.max 0 (au_page s - 1)) s, [])
  | NextPage => (set_paging (filters s) (au_page s + 1) s, [])
  | StartLive => startLive s
  | StopLive => stopLive s
  | Message i d => (onmessage i d s, [])
  | ExportAudit => (s, [Leave (export_href (filters s))])
  | RefetchAudit => (s, [RefetchList])
  | Unmount =>
      ({| filters := filters s; au_page := au_page s; liveEntries := liveEntries s; liveMode := liveMode s;
          sseRef := sseRef s; au_open := without_ref s; au_next := au_next s; au_token := au_token s;
          au_data := au_data s; au_loading := au_loading s |}, close_ref s)
  end.

Definition items (s : audit_state) : list AuditEntry :=
  if liveMode s then liveEntries s else match au_data s with Some d => ar_items d | None => [] end.
Definition audit_total (s : audit_state) : Z :=
  if liveMode s then Z.of_nat (length (liveEntries s))
  else match au_data s with Some d => ar_total d | None => 0 end.

Section view.
Context (toLocaleString : jstr → jstr) (decimal : Q → jstr).

Definition resource_text (e : AuditEntry) : list (node audit_action) :=
  when (otruthy (ae_resource_type e))
    [span [Text (ae_resource_type e ?? "");
           Text (if otruthy (ae_resource_id e) then " / " ++ slice_to 8 (ae_resource_id e ?? "") ++ "…" else "")]].

Definition audit_row (e : AuditEntry) : node audit_action :=
  el "tr" [
    el "td" [Text (if otruthy (ae_timestamp e) then toLocaleString (ae_timestamp e ?? "") else "—")];
    el "td" [Text (ae_username e)];
    el "td" [El "span" [Attr "class" ("rounded px-2 py-0.5 text-xs font-medium " ++ actionClass (ae_action e))]
               [Text (ae_action e)]];
    el "td" (resource_text e);
    el "td" [Text (ae_ip_address e ?? "—")];
    el "td" [Text (match ae_details e with Some d => JSON_stringify decimal (JObj d) | None => "" end)]].

Definition wide (text : jstr) : node audit_action := el "tr" [El "td" [Attr "colSpan" "6"] [Text text]].

Definition audit_view (s : audit_state) : node audit_action :=
  let f := filters s in
  div ([div [icon "ClipboardList"; el "h1" [Text "Audit Log"];
             div [button [OnClick ExportAudit] [icon "Download"; Text "Export CSV"];
                  if liveMode s then button [OnClick StopLive] [icon "Wifi"; Text "Stop Live"]
                  else button [OnClick StartLive] [icon "Wifi"; Text "Live"];
                  button [OnClick RefetchAudit] [icon "RefreshCw"]]];
        div [El "input" [Attr "value" (f_action f); OnChange (SetFilter ByAction); Attr "placeholder" "action"] [];
             El "input" [Attr "value" (f_username f); OnChange (SetFilter ByUsername); Attr "placeholder" "username"] [];
             El "input" [Attr "value" (f_resource_type f); OnChange (SetFilter ByResource);
                         Attr "placeholder" "resource type"] [];
             El "input" [Attr "type" "datetime-local"; Attr "value" (f_since f); OnChange (SetFilter Since);
                         Attr "title" "Since"] [];
             El "input" [Attr "type" "datetime-local"; Attr "value" (f_until f); OnChange (SetFilter Until);
                         Attr "title" "Until"] []];
        div [el "table" [
          el "thead" [el "tr" (map (λ h, el "th" [Text h]) ["Time"; "User"; "Action"; "Resource"; "IP"; "Details"])];
          el "tbody" (when (au_loading s && negb (liveMode s)) [wide "Loading..."]
                      ++ when (negb (au_loading s) && Nat.eqb (length (items s)) 0) [wide "No audit log entries found."]
                      ++ map audit_row (items s))]]]
       ++ when (negb (liveMode s))
            [div [span [num_text (audit_total s); Text " total entries"];
                  div [button [OnClick PreviousPage; Disabled (au_page s =? 0)] [Text "Previous"];
                       span [Text "Page "; num_text (au_page s + 1)];
                       button [OnClick NextPage; Disabled (audit_total s <=? (au_page s + 1) * audit_limit)]
                         [Text "Next"]]]]).
End view.

(** *** Lemmas *)

(** Nothing is open but the source referred to; numbers are never reused. *)
Definition sources_ok (s : audit_state) : Prop :=
  (∀ i, In i (au_open s) → sseRef s = Some i) ∧ NoDup (au_open s) ∧
  (∀ i, sseRef s = Some i → (i < au_next s)%nat).

Lemma without_ref_nil s : sources_ok s → without_ref s = [].
Proof.
  intros (H & _). unfold without_ref. destruct (sseRef s) as [i|] eqn:E.
  - apply bfilter_none. intros j Hj. apply H in Hj. injection Hj as ->. by rewrite Nat.eqb_refl.
  - destruct (au_open s) as [|j l]; [done|]. by specialize (H j (or_introl eq_refl)).
Qed.

Lemma audit_update_sources a s : sources_ok s → sources_ok (fst (audit_update a s)).
Proof.
  intros Hs. pose proof (without_ref_nil s Hs) as E. destruct Hs as (H1 & H2 & H3).
  destruct a as [k v| | | | |i d| | |]; try (by split); simpl.
  - unfold startLive, sources_ok. simpl. rewrite E. split; [by intros i [->|[]]|].
    split; [apply NoDup_singleton|]. intros i [= <-]. lia.
  - unfold stopLive, sources_ok. simpl. rewrite E. split; [done|]. split; [constructor|done].
  - unfold onmessage. destruct (existsb _ _); [|by split]. destruct (decode d); by split.
  - unfold sources_ok. simpl. rewrite E. split; [done|]. split; [constructor|done].
Qed.

(** Messages of an open source arrive in front, the newest 200 are kept. *)
Definition on_messages (i : nat) (ds : list jstr) (s : audit_state) : audit_state :=
  fold_left (λ s d, fst (audit_update (Message i d) s)) ds s.

Lemma push_all es l :
  (length l <= 200)%nat → fold_left (λ l e, push_live e l) es l = take 200 (rev es ++ l).
Proof.
  intros Hl. induction es as [|e es IH] using rev_ind.
  - cbn [fold_left rev app]. by rewrite take_ge by lia.
  - rewrite fold_left_app, rev_app_distr, IH. cbn [fold_left rev app]. unfold push_live.
    rewrite !firstn_cons, take_take. done.
Qed.

Lemma on_messages_push i ds s :
  In i (au_open s) →
  liveEntries (on_messages i ds s) = fold_left (λ l e, push_live e l) (omap decode ds) (liveEntries s).
Proof.
  revert s. induction ds as [|d ds IH]; intros s Hs; [done|].
  assert (existsb (Nat.eqb i) (au_open s) = true) as Ho.
  { apply existsb_exists. exists i. split; [done|apply Nat.eqb_refl]. }
  unfold on_messages in *. cbn [fold_left omap list_omap audit_update fst]. unfold onmessage at 2. rewrite Ho.
  destruct (decode d); cbn [fold_left]; by apply IH.
Qed.

Lemma on_messages_live i ds s : liveMode (on_messages i ds s) = liveMode s.
Proof.
  unfold on_messages. apply (fold_left_invariant (λ x, liveMode x = liveMode s)); [done|].
  intros x d Hx _. simpl. unfold onmessage. by repeat case_match.
Qed.

Definition audit_run (token : option jstr) (l : list audit_action) : audit_state :=
  fold_left (λ s a, fst (audit_update a s)) l (audit_mount token).

Definition audit_ok (s : audit_state) : Prop :=
  sources_ok s ∧ 0 <= au_page s ∧ (length (liveEntries s) <= 200)%nat.

Lemma audit_run_ok token l : audit_ok (audit_run token l).
Proof.
  unfold audit_run. apply fold_left_invariant.
  - repeat split; try done; try constructor; simpl; lia.
  - intros s a (H1 & H2 & H3) _. split; [by apply audit_update_sources|].
    destruct a as [k v| | | | |i d| | |]; simpl; try (split; simpl; lia).
    unfold onmessage. destruct (existsb _ _); [|done]. destruct (decode d); [|done]. simpl.
    split; [done|]. unfold push_live. rewrite length_take. lia.
Qed.

End update.

End AuditLog.

(** ** Compliance *)

Module Compliance.

(** A rule's value is a string or a number. *)
Inductive rule_value := RStr (s : jstr) | RNum (n : num).
Record PolicyRule := { rule_type : jstr; rv : rule_value }.
Record Policy := {
  po_id : jstr; po_name : jstr; po_description : option jstr; po_is_active : bool; po_rules : list PolicyRule;
  po_created_at : jstr; po_updated_at : jstr }.
Record rule_detail := { rd_type : jstr; rd_passed : bool; rd_detail : jstr }.
Record ComplianceResult := {
  cr_id : jstr; cr_device_id : jstr; cr_hostname : jstr; cr_policy_id : jstr; cr_policy_name : jstr;
  cr_is_compliant : bool; cr_violations : Z; cr_details : list rule_detail; cr_evaluated_at : jstr }.

Record rule_kind := { rk_value : jstr; rk_label : jstr; rk_placeholder : jstr }.
Definition RULE_TYPES : list rule_kind := [
  {| rk_value := "max_offline_hours"; rk_label := "Max offline hours"; rk_placeholder := "24" |};
  {| rk_value := "disk_free_min_gb"; rk_label := "Min free disk (GB)"; rk_placeholder := "10" |};
  {| rk_value := "max_disk_percent"; rk_label := "Max disk usage (%)"; rk_placeholder := "90" |};
  {| rk_value := "required_software"; rk_label := "Required software (name)"; rk_placeholder := "antivirus" |};
  {| rk_value := "forbidden_software"; rk_label := "Forbidden software (name)"; rk_placeholder := "torrent" |};
  {| rk_value := "os_type"; rk_label := "Required OS type"; rk_placeholder := "linux" |}].
Definition kind_of (type : jstr) : option rule_kind := find (λ r, rk_value r =s type) RULE_TYPES.
Definition kind_label (type : jstr) : jstr := (rk_label <$> kind_of type) ?? type.
Definition first_type : jstr := "max_offline_hours".

Definition rv_truthy (v : rule_value) : bool :=
  match v with
  | RStr s => truthy s
  | RNum (Fin q) => negb (Qeq_bool q 0)
  | RNum NaN => false
  | RNum _ => true
  end.

(** *** The policy card *)

Record card_state := { expanded : bool; results : list ComplianceResult }.
Definition card_initial : card_state := {| expanded := false; results := [] |}.
Inductive card_action := ToggleExpanded | Evaluate (id : jstr) | DeletePolicy (id : jstr).
Definition toggleExpanded (s : card_state) : card_state :=
  {| expanded := negb (expanded s); results := results s |}.
(** Only an expanded card asks for its results. *)
Definition results_query (p : Policy) (s : card_state) : query :=
  Query [JStr "compliance-results"; JStr (po_id p)]
    (get_params "/compliance/results" [("policy_id", JStr (po_id p))]) 0 (expanded s).

Definition compliantCount (s : card_state) : nat := length (bfilter cr_is_compliant (results s)).
Definition results_total (s : card_state) : nat := length (results s).

Section view.
Context (number_string : num → jstr) (toLocaleString : jstr → jstr).

Definition String_ (v : rule_value) : jstr := match v with RStr s => s | RNum n => number_string n end.

Definition result_row (r : ComplianceResult) : node card_action :=
  div ([icon (if cr_is_compliant r then "Check" else "AlertTriangle"); span [Text (cr_hostname r)]]
       ++ when (negb (cr_is_compliant r))
            [div (map (λ d, p_ [Text (rd_detail d)]) (bfilter (λ d, negb (rd_passed d)) (cr_details r)))]
       ++ [span [Text (if truthy (cr_evaluated_at r) then toLocaleString (cr_evaluated_at r) else "")]]).

Definition PolicyCard (p : Policy) (s : card_state) : node card_action :=
  div ([div [
         button [OnClick ToggleExpanded] [icon (if expanded s then "ChevronDown" else "ChevronRight")];
         div (div (span [Text (po_name p)] :: when (negb (po_is_active p)) [span [Text "inactive"]])
              :: when (otruthy (po_description p)) [span [Text (po_description p ?? "")]]);
         div (when (Nat.ltb 0 (results_total s))
                [El "span" [Attr "class" ("text-sm font-medium "
                              ++ if Nat.eqb (compliantCount s) (results_total s) then "text-green-600"
                                 else "text-red-500")]
                   [num_text (Z.of_nat (compliantCount s)); Text "/"; num_text (Z.of_nat (results_total s));
                    Text " compliant"]]
              ++ [button [OnClick (Evaluate (po_id p)); Attr "title" "Run evaluation"] [icon "Play"; Text "Evaluate"];
                  button [OnClick (DeletePolicy (po_id p)); Attr "title" "Delete policy"] [icon "Trash2"]])]]
       ++ when (expanded s)
            [div ([div ([p_ [Text "Rules"]]
                        ++ when (Nat.eqb (length (po_rules p)) 0) [p_ [Text "No rules defined."]]
                        ++ [div (map (λ r, div [span [Text (kind_label (rule_type r))]; span [Text (String_ (rv r))]])
                                   (po_rules p))])]
                  ++ when (Nat.ltb 0 (length (results s)))
                       [p_ [Text "Device Results"]; div (map result_row (results s))]
                  ++ when (Nat.eqb (length (results s)) 0)
                       [p_ [Text "No evaluation results yet. Click Evaluate to run."]])]).
End view.

(** *** The page *)

Record policy_form := { pf_name : jstr; pf_description : jstr; pf_rules : list PolicyRule }.
Definition form_blank : policy_form := {| pf_name := ""; pf_description := ""; pf_rules := [] |}.
Definition rule_blank : PolicyRule := {| rule_type := first_type; rv := RStr "" |}.

Inductive mutation := Idle | Pending | Failed.
Record compliance_state := {
  showCreate : bool; form : policy_form; newRule : PolicyRule; policies : list (Policy * card_state);
  co_loading : bool; create : mutation }.
Definition compliance_initial : compliance_state :=
  {| showCreate := false; form := form_blank; newRule := rule_blank; policies := []; co_loading := true;
     create := Idle |}.

Definition policies_query : query := Query [JStr "compliance-policies"] (get "/compliance/policies") 0 true.

Inductive compliance_action :=
| ShowCreate
| CancelCreate
| SetName (v : jstr)
| SetDescription (v : jstr)
| SetRuleType (v : jstr)
| SetRuleValue (v : jstr)
| AddRule
| RemoveRule (i : nat)
| CreatePolicy
| CreateSucceeded
| CreateFailed
| OnCard (id : jstr) (a : card_action)
| DeleteSucceeded
| EvaluateSucceeded (id : jstr).

Definition set_policy_form (b : bool) (f : policy_form) (r : PolicyRule) (m : mutation) (s : compliance_state) : compliance_state :=
  {| showCreate := b; form := f; newRule := r; policies := policies s; co_loading := co_loading s; create := m |}.

Definition rule_json (r : PolicyRule) : json :=
  JObj [("type", JStr (rule_type r)); ("value", match rv r with RStr s => JStr s | RNum n => JNum n end)].
Definition create_request (f : policy_form) : request :=
  post "/compliance/policies" (JObj [
    ("name", JStr (trim (pf_name f)));
    ("description", if truthy (pf_description f) then JStr (pf_description f) else JNull);
    ("rules", JArr (map rule_json (pf_rules f)))]).

Definition with_rules (l : list PolicyRule) (f : policy_form) : policy_form :=
  {| pf_name := pf_name f; pf_description := pf_description f; pf_rules := l |}.
Definition addRule (s : compliance_state) : compliance_state :=
  if negb (rv_truthy (rv (newRule s))) then s
  else set_policy_form (showCreate s) (with_rules (pf_rules (form s) ++ [newRule s]) (form s)) rule_blank (create s) s.
(** [filter((_, idx) => idx !== i)] *)
Fixpoint drop_at {A} (i : nat) (l : list A) : list A :=
  match l, i with [], _ => [] | _ :: r, O => r | x :: r, S j => x :: drop_at j r end.
Definition removeRule (i : nat) (s : compliance_state) : compliance_state :=
  set_policy_form (showCreate s) (with_rules (drop_at i (pf_rules (form s))) (form s)) (newRule s) (create s) s.

Definition on_card (id : jstr) (s : compliance_state) : compliance_state :=
  {| showCreate := showCreate s; form := form s; newRule := newRule s;
     policies := map (λ pc, if po_id (fst pc) =s id then (fst pc, toggleExpanded (snd pc)) else pc) (policies s);
     co_loading := co_loading s; create := create s |}.

Definition compliance_update (a : compliance_action) (s : compliance_state) : compliance_state * list ui_effect :=
  let f := form s in
  match a with
  | ShowCreate => (set_policy_form true f (newRule s) (create s) s, [])
  | CancelCreate => (set_policy_form false form_blank (newRule s) (create s) s, [])
  | SetName v =>
      (set_policy_form (showCreate s)
         {| pf_name := v; pf_description := pf_description f; pf_rules := pf_rules f |} (newRule s) (create s) s, [])
  | SetDescription v =>
      (set_policy_form (showCreate s)
         {| pf_name := pf_name f; pf_description := v; pf_rules := pf_rules f |} (newRule s) (create s) s, [])
  | SetRuleType v =>
      (set_policy_form (showCreate s) f {| rule_type := v; rv := rv (newRule s) |} (create s) s, [])
  | SetRuleValue v =>
      (set_policy_form (showCreate s) f {| rule_type := rule_type (newRule s); rv := RStr v |} (create s) s, [])
  | AddRule => (addRule s, [])
  | RemoveRule i => (removeRule i s, [])
  | CreatePolicy => (set_policy_form (showCreate s) f (newRule s) Pending s, [Request (create_request f)])
  | CreateSucceeded => (set_policy_form false form_blank (newRule s) Idle s, [Invalidate ["compliance-policies"]])
  | CreateFailed => (set_policy_form (showCreate s) f (newRule s) Failed s, [])
  | OnCard id ToggleExpanded => (on_card id s, [])
  | OnCard _ (Evaluate id) => (s, [Request (post_empty ("/compliance/evaluate/" ++ id))])
  | OnCard _ (DeletePolicy id) => (s, [Request (delete_ ("/compliance/policies/" ++ id))])
  | DeleteSucceeded => (s, [Invalidate ["compliance-policies"]])
  | EvaluateSucceeded id => (s, [Invalidate ["compliance-results"; id]])
  end.

Section page.
Context (number_string : num → jstr) (toLocaleString : jstr → jstr).

Definition draft_rule (i : nat) (r : PolicyRule) : node compliance_action :=
  div [span [Text (kind_label (rule_type r)); Text ": "; el "strong" [Text (String_ number_string (rv r))]];
       button [OnClick (RemoveRule i)] [icon "Trash2"]].

Definition create_dialog (s : compliance_state) : node compliance_action :=
  let f := form s in
  div [div ([
    el "h3" [Text "New Compliance Policy"];
    div [div [el "label" [Text "Name"];
              El "input" [Attr "value" (pf_name f); OnChange SetName; Attr "placeholder" "Security Baseline"] []];
         div [el "label" [Text "Description (optional)"];
              El "input" [Attr "value" (pf_description f); OnChange SetDescription;
                          Attr "placeholder" "Minimum security requirements for all devices"] []];
         div [el "label" [Text "Rules"];
              div (imap draft_rule (pf_rules f));
              div [El "select" [Attr "value" (rule_type (newRule s)); OnChange SetRuleType]
                     (map (λ rt, option_ (rk_value rt) (rk_label rt)) RULE_TYPES);
                   El "input" [Attr "value" (String_ number_string (rv (newRule s))); OnChange SetRuleValue;
                               Attr "placeholder" ((rk_placeholder <$> kind_of (rule_type (newRule s))) ?? "")] [];
                   button [OnClick AddRule] [Text "Add"]]]];
    div [button [OnClick CancelCreate] [Text "Cancel"];
         button [OnClick CreatePolicy;
                 Disabled (negb (truthy (trim (pf_name f))) || match create s with Pending => true | _ => false end)]
           [Text "Create"]]]
    ++ match create s with Failed => [p_ [Text "Failed to create policy."]] | _ => [] end)].

Definition compliance_view (s : compliance_state) : node compliance_action :=
  if co_loading s then div [Text "Loading compliance..."]
  else div (
    [div [div [icon "CheckSquare"; el "h1" [Text "Compliance"]];
          button [OnClick ShowCreate] [icon "Plus"; Text "New Policy"]];
     div (map (λ pc, map_node (OnCard (po_id (fst pc))) (PolicyCard number_string toLocaleString (fst pc) (snd pc)))
            (policies s)
          ++ when (Nat.eqb (length (policies s)) 0)
               [div [icon "CheckSquare"; p_ [Text "No compliance policies yet. Create one to get started."]]])]
    ++ when (showCreate s) [create_dialog s]).
End page.

(** *** Lemmas *)

Definition run (l : list compliance_action) : compliance_state :=
  fold_left (λ s a, fst (compliance_update a s)) l compliance_initial.

(** The select offers the known types only. *)
Definition offered (a : compliance_action) : Prop :=
  match a with SetRuleType v => In v (map rk_value RULE_TYPES) | _ => True end.
Definition rule_ok (r : PolicyRule) : Prop :=
  In (rule_type r) (map rk_value RULE_TYPES) ∧ rv_truthy (rv r) = true.

Lemma drop_at_Forall {A} (P : A → Prop) i l : Forall P l → Forall P (drop_at i l).
Proof. intros H. revert i. induction H; intros [|i]; simpl; auto. Qed.

Lemma run_rules l : Forall offered l → Forall rule_ok (pf_rules (form (run l))).
Proof.
  intros Hl. unfold run.
  enough (∀ s, s = fold_left (λ s a, fst (compliance_update a s)) l compliance_initial →
            Forall rule_ok (pf_rules (form s)) ∧ In (rule_type (newRule s)) (map rk_value RULE_TYPES)) as H
    by (by apply H).
  intros s ->. apply fold_left_invariant; [split; [constructor|by left]|].
  intros s a [Hr Ht] Ha. rewrite List.Forall_forall in Hl. specialize (Hl a Ha).
  destruct a as [| |v|v|v|v| |i| | | |id [|id'|id']| |id]; try done; cbn [compliance_update fst];
    try (split; [constructor|done]).
  - unfold addRule. destruct (rv_truthy (rv (newRule s))) eqn:E; [|done]. simpl. split; [|by left].
    apply Forall_app. split; [done|]. constructor; [by split|constructor].
  - split; [|done]. by apply drop_at_Forall.
Qed.

Lemma create_needs_name number_string toLocaleString s :
  In CreatePolicy (clicks (compliance_view number_string toLocaleString s)) → truthy (trim (pf_name (form s))) = true.
Proof.
  unfold compliance_view. destruct (co_loading s); [done|]. rewrite clicks_div, !flat_map_app, !in_app_iff.
  intros [H|H].
  - cbn [flat_map] in H. rewrite app_nil_r, !clicks_div, flat_map_app, !in_app_iff in H.
    destruct H as [[H|[]]|[H|H]]; [done| |by destruct (Nat.eqb _ _)].
    apply in_flat_map in H as (n & (pc & <- & _)%in_map_iff & Hn). rewrite clicks_map_node in Hn.
    by apply in_map_iff in Hn as (a & ? & _).
  - destruct (showCreate s); [|done]. destruct (truthy (trim (pf_name (form s)))) eqn:E; [done|]. exfalso.
    unfold create_dialog in H. rewrite E in H. cbn in H. rewrite !in_app_iff in H. cbn in H.
    destruct H as [[[[[H|[]]|[]]|[|H]]|[]]|[]]; try done; [|by destruct (create s)].
    apply in_flat_map in H as (n & Hn & Hc). apply list_elem_of_In, list_elem_of_lookup in Hn as (i & Hi).
    rewrite list_lookup_imap in Hi. destruct (pf_rules (form s) !! i); [|done]. injection Hi as <-.
    by destruct Hc as [|[]].
Qed.

End Compliance.

(** ** Reports *)

Module Reports.

Definition ALERT_TYPES : list jstr := ["offline"; "high_cpu"; "high_ram"; "disk_full"; "crash"; "time_drift"].

(** The results of [useQueries] are in the order of the selected devices; a
    result without data is [None]. *)
Record reports_state := {
  from : jstr; to : jstr; rp_deviceId : jstr; rp_devices : list Device; rp_alerts : list Alert;
  metricQueries : list (option (list Metric)); softwareQueries : list (option (list SoftwarePackage)) }.

(** The dates a week ago and today, as [yyyy-MM-dd]. *)
Definition reports_mount (week_ago today : jstr) : reports_state :=
  {| from := week_ago; to := today; rp_deviceId := "all"; rp_devices := []; rp_alerts := []; metricQueries := [];
     softwareQueries := [] |}.

Definition reports_devices_query : query :=
  Query [JStr "devices"; JStr "reports"] (devicesApi.devices_list None None) 0 true.
Definition reports_alerts_query (s : reports_state) : query :=
  Query [JStr "alerts"; JStr "reports"; JStr (rp_deviceId s)]
    (alertsApi.alerts_list (if rp_deviceId s =s "all" then None else Some (rp_deviceId s)) None None (Some 1000)) 0 true.

Definition selectedDevices (s : reports_state) : list Device :=
  if rp_deviceId s =s "all" then rp_devices s else bfilter (λ d, d_id d =s rp_deviceId s) (rp_devices s).
Definition device_name (d : Device) : jstr := d_label d ?? d_hostname d.

(** [queries[index]?.data ?? []] *)
Definition data_at {A} (l : list (option (list A))) (index : nat) : list A :=
  match nth_error l index with Some (Some d) => d | _ => [] end.

(** *** Pending updates *)

(** [set.add(x)]: the order of a [Set] is that of the first insertions. *)
Definition set_add (x : jstr) (l : list jstr) : list jstr := if existsb (seqb x) l then l else l ++ [x].

Record software_entry := { software_name : jstr; en_devices : list jstr; en_versions : list jstr }.
Definition add_package (device : jstr) (pkg : SoftwarePackage) (o : option software_entry) : software_entry :=
  let current := o ?? {| software_name := sp_name pkg; en_devices := []; en_versions := [] |} in
  {| software_name := software_name current; en_devices := set_add device (en_devices current);
     en_versions := if otruthy (sp_version pkg) then set_add (sp_version pkg ?? "") (en_versions current)
                    else en_versions current |}.
Definition add_device (aggregated : list (jstr * software_entry)) (device : Device) (packages : list SoftwarePackage)
  : list (jstr * software_entry) :=
  fold_left (λ m pkg, upsert seqb (sp_name pkg) (add_package (device_name device) pkg) m)
    (bfilter sp_update_available packages) aggregated.
(** [selectedDevices.forEach((device, index) => ...)] *)
Definition aggregated (s : reports_state) : list (jstr * software_entry) :=
  fold_left (λ m p, add_device m (snd p) (data_at (softwareQueries s) (fst p)))
    (imap pair (selectedDevices s)) [].

Record software_row := { sr_name : jstr; affected_devices_count : Z; current_versions_seen : jstr }.
Definition softwareRows (s : reports_state) : list software_row :=
  map (λ e, {| sr_name := software_name e; affected_devices_count := Z.of_nat (length (en_devices e));
               current_versions_seen :=
                 let t := join ", " (en_versions e) in if truthy t then t else "Unknown" |})
    (map snd (aggregated s)).

(** *** Alerts and uptime *)

Section dates.
(** [new Date(s)] of a local date and time, and [parseISO(s)]: the time value in
    milliseconds, [None] for an invalid date. *)
Context (parse_local parseISO : jstr → option Z) (formatPPp : jstr → jstr).
(** [a.localeCompare(b) <= 0] *)
Context (locale_le : jstr → jstr → bool).

Definition rangeStart (s : reports_state) : option Z := parse_local (from s ++ "T00:00:00").
Definition rangeEnd (s : reports_state) : option Z := parse_local (to s ++ "T23:59:59").
(** [rangeEnd.getTime() - rangeStart.getTime()], [None] for [NaN] *)
Definition range_ms (s : reports_state) : option Z :=
  e ← rangeEnd s; b ← rangeStart s; Some (e - b).
Definition hours (s : reports_state) : option Z := (λ ms, Z.max 1 (- (- ms / 3600000))) <$> range_ms s.
Definition hours_text (h : option Z) : jstr := match h with Some z => string_of_Z z | None => "NaN" end.

Definition metric_requests (s : reports_state) : list request :=
  map (λ d, get ("/devices/" ++ d_id d ++ "/metrics?hours=" ++ hours_text (hours s))) (selectedDevices s).
Definition software_requests (s : reports_state) : list request :=
  map (λ d, get ("/devices/" ++ d_id d ++ "/software")) (selectedDevices s).

(** Comparisons with an invalid date are false. *)
Definition in_range (s : reports_state) (a : Alert) : bool :=
  match parseISO (a_created_at a), rangeStart s, rangeEnd s with
  | Some t, Some b, Some e => (b <=? t) && (t <=? e)
  | _, _, _ => false
  end.
Definition filteredAlerts (s : reports_state) : list Alert := bfilter (in_range s) (rp_alerts s).
Definition topAlerts (s : reports_state) : list (jstr * nat) :=
  map (λ type, (type, length (bfilter (λ a, a_alert_type a =s type) (filteredAlerts s)))) ALERT_TYPES.

(** [None] stands for [NaN]. *)
Definition windowSeconds (s : reports_state) : option Q :=
  (λ ms, let w := (inject_Z ms / 1000)%Q in if Qle_bool w 1 then 1%Q else w) <$> range_ms s.
Definition latestUptime (metrics : list Metric) : Z :=
  fold_left (λ maximum m, Z.max maximum (m_uptime_secs m ?? 0)) metrics 0.
Definition avgUptimePct (w : Q) (latest : Z) : Q :=
  let pct := (inject_Z latest / w * 100)%Q in if Qle_bool 100 pct then 100%Q else pct.
Definition downtimeHours (w avg : Q) : Q := ((100 - avg) / 100 * (w / 3600))%Q.

(** The first of the device's offline alerts, the latest first. *)
Definition lastOffline (s : reports_state) (d : Device) : option Alert :=
  head (stable_sort (λ l r, locale_le (a_created_at r) (a_created_at l))
          (bfilter (λ a, (a_device_id a =s d_id d) && (a_alert_type a =s "offline")) (filteredAlerts s))).

Record uptime_row := {
  ur_device : jstr; avg_uptime_percent : jstr; downtime_hours : jstr; last_offline_event : jstr }.
Definition uptime_row_of (s : reports_state) (index : nat) (d : Device) : uptime_row :=
  let latest := latestUptime (data_at (metricQueries s) index) in
  {| ur_device := device_name d;
     avg_uptime_percent :=
       match windowSeconds s with Some w => toFixed1 (avgUptimePct w latest) | None => "NaN" end ++ "%";
     downtime_hours :=
       match windowSeconds s with Some w => toFixed1 (downtimeHours w (avgUptimePct w latest)) | None => "NaN" end;
     last_offline_event :=
       match lastOffline s d with
       | Some a => if truthy (a_created_at a) then formatPPp (a_created_at a) else "Never"
       | None => "Never"
       end |}.
Definition uptimeRows (s : reports_state) : list uptime_row := imap (uptime_row_of s) (selectedDevices s).

(** *** The page *)

Inductive reports_action := SetFrom (v : jstr) | SetTo (v : jstr) | SetReportDevice (v : jstr)
| ExportTopAlerts | ExportUptime | ExportSoftware.

Definition uptime_headers : list jstr := ["Device"; "Avg Uptime %"; "Downtime Hours"; "Last Offline Event"].
Definition uptime_cells (s : reports_state) : list (list jstr) :=
  map (λ r, [ur_device r; avg_uptime_percent r; downtime_hours r; last_offline_event r]) (uptimeRows s).
Definition software_headers : list jstr := ["Software Name"; "Affected Devices"; "Current Versions Seen"].
Definition software_cells (s : reports_state) : list (list jstr) :=
  map (λ r, [sr_name r; string_of_Z (affected_devices_count r); current_versions_seen r]) (softwareRows s).

Definition set_reports (f t d : jstr) (s : reports_state) : reports_state :=
  {| from := f; to := t; rp_deviceId := d; rp_devices := rp_devices s; rp_alerts := rp_alerts s;
     metricQueries := metricQueries s; softwareQueries := softwareQueries s |}.

Section actions.
(** [JSON.stringify(data, null, 2)] of the alert counts *)
Context (stringify : list (jstr * nat) → jstr).
Definition reports_update (a : reports_action) (s : reports_state) : reports_state * list ui_effect :=
  match a with
  | SetFrom v => (set_reports v (to s) (rp_deviceId s) s, [])
  | SetTo v => (set_reports (from s) v (rp_deviceId s) s, [])
  | SetReportDevice v => (set_reports (from s) (to s) v s, [])
  | ExportTopAlerts => (s, [Download (Csv.exportToJSON stringify "top-alerts.json" (topAlerts s))])
  | ExportUptime => (s, [Download (Csv.exportToCSV "uptime-summary.csv" uptime_headers (uptime_cells s))])
  | ExportSoftware => (s, [Download (Csv.exportToCSV "software-updates.csv" software_headers (software_cells s))])
  end.
End actions.

Definition DataTable (headers : list jstr) (rows : list (list jstr)) (emptyLabel : jstr) : node reports_action :=
  div [el "table" [
    el "thead" [el "tr" (map (λ h, el "th" [Text h]) headers)];
    el "tbody"
      (if Nat.ltb 0 (length rows) then map (λ row, el "tr" (map (λ cell, el "td" [Text cell]) row)) rows
       else [el "tr" [El "td" [Attr "colSpan" (string_of_Z (Z.of_nat (length headers)))] [Text emptyLabel]]])]].

(** The bar chart shows the counts; its drawing is a third-party component. *)
Definition reports_view (s : reports_state) : node reports_action :=
  div [
    div [el "h1" [Text "Reports"];
         p_ [Text "Historical summaries across alerts, uptime, and pending software updates."]];
    div [El "input" [Attr "type" "date"; Attr "value" (from s); OnChange SetFrom] [];
         El "input" [Attr "type" "date"; Attr "value" (to s); OnChange SetTo] [];
         El "select" [Attr "value" (rp_deviceId s); OnChange SetReportDevice]
           (option_ "all" "All devices" :: map (λ d, option_ (d_id d) (device_name d)) (rp_devices s))];
    el "section" [
      div [el "h2" [Text "Top Alerts"]; button [OnClick ExportTopAlerts] [Text "Export JSON"]];
      div [el "BarChart" (map (λ p, El "Bar" [Attr "type" (fst p)] [num_text (Z.of_nat (snd p))]) (topAlerts s))]];
    el "section" [
      div [el "h2" [Text "Uptime Summary"]; button [OnClick ExportUptime] [Text "Export CSV"]];
      DataTable uptime_headers (uptime_cells s) "No uptime data"];
    el "section" [
      div [el "h2" [Text "Software Updates Pending"]; button [OnClick ExportSoftware] [Text "Export CSV"]];
      DataTable software_headers (software_cells s) "No pending software updates"]].

End dates.

(** *** The server's bounds on the parameters of these requests *)

(** [limit: int = Query(100, ge=1, le=500)] of the alerts, [hours: int =
    Query(24, ge=1, le=720)] of the metrics; other requests are answered 422. *)
Definition alerts_limit_ok (r : request) : bool :=
  match snd <$> find (λ p, fst p =s "limit") (rq_params r) with
  | None => true
  | Some (JNum (Fin q)) => Qle_bool 1 q && Qle_bool q 500
  | Some _ => false
  end.
Definition metrics_hours_ok (h : option Z) : bool :=
  match h with Some z => (1 <=? z) && (z <=? 720) | None => false end.

(** *** Lemmas *)

(** The updates pending on the selected devices, as pairs of a device's name and
    a package, in the order the page meets them. *)
Definition pending (s : reports_state) : list (jstr * SoftwarePackage) :=
  flat_map (λ p, map (pair (device_name (snd p))) (bfilter sp_update_available (data_at (softwareQueries s) (fst p))))
    (imap pair (selectedDevices s)).

Definition pending_name (p : jstr * SoftwarePackage) : jstr := sp_name (snd p).
Definition put_pending (p : jstr * SoftwarePackage) : option software_entry → software_entry :=
  add_package (fst p) (snd p).

Lemma aggregated_collect s : aggregated s = collect seqb pending_name put_pending (pending s).
Proof.
  unfold aggregated, pending, collect. generalize (imap pair (selectedDevices s)) as ps.
  generalize (@nil (jstr * software_entry)) as m. intros m ps. revert m.
  induction ps as [|p ps IH]; intros m; [done|]. cbn [flat_map fold_left]. rewrite fold_left_app, <-IH. f_equal.
  unfold add_device. generalize (bfilter sp_update_available (data_at (softwareQueries s) (fst p))) as l.
  intros l. revert m. induction l as [|x l IHl]; intros m; [done|]. simpl. apply IHl.
Qed.

Lemma set_add_dedup l x : set_add x (dedup seqb l) = dedup seqb (l ++ [x]).
Proof.
  rewrite (dedup_snoc seqb seqb_true). unfold set_add.
  assert (existsb (seqb x) (dedup seqb l) = existsb (λ y, seqb y x) l) as ->; [|done].
  rewrite <-(existsb_dedup seqb seqb_true). induction (dedup seqb l) as [|y r IH]; [done|]. simpl. rewrite IH. f_equal.
  destruct (seqb x y) eqn:E1, (seqb y x) eqn:E2; try done.
  - apply seqb_true in E1. subst. by rewrite (proj2 (seqb_true y y) eq_refl) in E2.
  - apply seqb_true in E2. subst. by rewrite (proj2 (seqb_true x x) eq_refl) in E1.
Qed.

(** The entry of a name after its packages [l]. *)
Lemma fold_entry name l :
  l ≠ [] → (∀ p, In p l → sp_name (snd p) = name) →
  fold_left (λ o p, Some (put_pending p o)) l None =
  Some {| software_name := name; en_devices := dedup seqb (map fst l);
          en_versions := dedup seqb (omap (λ p, match sp_version (snd p) with
                                                | Some v => if truthy v then Some v else None
                                                | None => None end) l) |}.
Proof.
  induction l as [|p l IH] using rev_ind; [done|]. intros _ Hn.
  rewrite fold_left_app, map_app, omap_app. cbn [fold_left map omap list_omap].
  assert (sp_name (snd p) = name) as Hp by (apply Hn, in_app_iff; right; by left).
  rewrite <-set_add_dedup. destruct l as [|q l].
  - simpl. unfold put_pending, add_package. simpl. rewrite Hp. unfold otruthy. destruct (sp_version (snd p)) as [v|]; [|done]. simpl. destruct (truthy v); done.
  - rewrite IH; [|done|intros r Hr; apply Hn, in_app_iff; by left]. cbn [from_null software_name en_devices en_versions].
    unfold put_pending, add_package. cbn [from_null software_name en_devices en_versions]. f_equal.
    f_equal. unfold otruthy. destruct (sp_version (snd p)) as [v|]; cbn [from_null];
      [destruct (truthy v)|]; rewrite ?app_nil_r; try done. apply set_add_dedup.
Qed.

Definition affected (name : jstr) (s : reports_state) : list jstr :=
  dedup seqb (map fst (bfilter (λ p, pending_name p =s name) (pending s))).

Lemma aggregated_entry s k e :
  In (k, e) (aggregated s) → software_name e = k ∧ en_devices e = affected k s.
Proof.
  rewrite aggregated_collect. intros H.
  apply (assoc_In seqb seqb_true) in H; [|apply (collect_NoDup seqb seqb_true)].
  rewrite (collect_assoc seqb seqb_true) in H. unfold affected.
  destruct (bfilter (λ p, pending_name p =s k) (pending s)) as [|p l] eqn:E; [done|].
  rewrite (fold_entry k) in H; [by injection H as <-|done|].
  intros q Hq. rewrite <-E in Hq. apply bfilter_In in Hq as [_ Hq]. by apply seqb_true in Hq.
Qed.

Lemma aggregated_keys s : map fst (aggregated s) = dedup seqb (map pending_name (pending s)).
Proof. rewrite aggregated_collect. apply (collect_keys seqb seqb_true). Qed.

Lemma softwareRows_names s : map sr_name (softwareRows s) = dedup seqb (map pending_name (pending s)).
Proof.
  rewrite <-aggregated_keys. unfold softwareRows. rewrite !map_map. apply map_ext_in.
  intros [k e] H. by apply aggregated_entry in H as [H _].
Qed.

Lemma pending_In s name pkg :
  In (name, pkg) (pending s) ↔
  ∃ i d, selectedDevices s !! i = Some d ∧ device_name d = name ∧
         In pkg (data_at (softwareQueries s) i) ∧ sp_update_available pkg = true.
Proof.
  unfold pending. rewrite in_flat_map. split.
  - intros ([i d] & Hid & (x & [= <- <-] & Hx)%in_map_iff). apply bfilter_In in Hx as [Hx1 Hx2].
    apply list_elem_of_In, list_elem_of_lookup in Hid as (j & Hj). rewrite list_lookup_imap in Hj.
    destruct (selectedDevices s !! j) as [d'|] eqn:Ed; [|done]. injection Hj as <- <-. by exists j, d'.
  - intros (i & d & Hd & <- & Hp & Hu). exists (i, d). split.
    + apply list_elem_of_In, list_elem_of_lookup. exists i. by rewrite list_lookup_imap, Hd.
    + apply in_map_iff. exists pkg. split; [done|]. by apply bfilter_In.
Qed.

Lemma affected_In s k n :
  In n (affected k s) ↔ ∃ i pkg d, selectedDevices s !! i = Some d ∧ device_name d = n ∧
    In pkg (data_at (softwareQueries s) i) ∧ sp_update_available pkg = true ∧ sp_name pkg = k.
Proof.
  unfold affected. rewrite (dedup_In seqb seqb_true), in_map_iff. split.
  - intros ([n' pkg] & Hn & [(i & d & Hd)%pending_In Hk]%bfilter_In). simpl in Hn. subst n'.
    apply seqb_true in Hk. exists i, pkg, d. tauto.
  - intros (i & pkg & d & Hd & Hn & Hp & Hu & Hk). exists (n, pkg). split; [done|]. apply bfilter_In.
    split; [apply pending_In; by exists i, d|]. by apply seqb_true.
Qed.

(** Every affected name is that of a selected device. *)
Lemma affected_length s k : (length (affected k s) <= length (selectedDevices s))%nat.
Proof.
  rewrite <-(length_map device_name (selectedDevices s)). apply List.NoDup_incl_length.
  - unfold affected. apply dedup_NoDup, seqb_true.
  - intros n (i & pkg & d & Hd & <- & _)%affected_In. apply in_map_iff. exists d. split; [done|].
    apply list_elem_of_In, list_elem_of_lookup. by exists i.
Qed.

Lemma latestUptime_nonneg l : 0 <= latestUptime l.
Proof. unfold latestUptime. apply fold_left_invariant; lia. Qed.

Lemma windowSeconds_ge parse_local s w : windowSeconds parse_local s = Some w → (1 <= w)%Q.
Proof.
  unfold windowSeconds. destruct (range_ms _ s); [|done]. intros [= <-].
  destruct (Qle_bool (inject_Z z / 1000) 1) eqn:E; [lra|].
  destruct (Qlt_le_dec 1 (inject_Z z / 1000)) as [H|H]; [lra|]. apply Qle_bool_iff in H. congruence.
Qed.

Lemma avgUptimePct_bounds w u :
  (1 <= w)%Q → 0 <= u → (0 <= avgUptimePct w u <= 100 ∧ (avgUptimePct w u == 100 <-> w <= inject_Z u))%Q.
Proof.
  intros Hw Hu. assert (0 <= inject_Z u)%Q as Hq by (rewrite (Zle_Qle 0 u) in Hu; exact Hu).
  assert (inject_Z u / w * 100 * w == inject_Z u * 100)%Q as Hx by (field; lra).
  set (x := (inject_Z u / w * 100)%Q) in *. unfold avgUptimePct. fold x.
  destruct (Qle_bool 100 x) eqn:E.
  - apply Qle_bool_iff in E. split; [lra|]. split; [intros _; nra|reflexivity].
  - assert (x < 100)%Q as Hlt.
    { destruct (Qlt_le_dec x 100) as [H|H]; [done|]. apply Qle_bool_iff in H. congruence. }
    split; [split; nra|]. split; [intros H; lra|intros H; nra].
Qed.

End Reports.

(** ** Properties *)

Module ReportProps.
Import AuditLog.

(** C34: whatever is done on the audit page, at most one event source is open, the one the page refers to, the page
    number is never negative and at most 200 live entries are kept; from any such state, going live and receiving
    messages shows the entries decoded from them, newest first, the newest 200 of them, and leaving closes the
    source. *)
Theorem audit_live_feed decode token l ds :
  let s := audit_run decode token l in
  let live := fst (startLive s) in
  (∀ i j, In i (au_open s) → In j (au_open s) → i = j) ∧
  (∀ i, In i (au_open s) → sseRef s = Some i) ∧
  0 <= au_page s ∧ (length (liveEntries s) <= 200)%nat ∧
  items (on_messages decode (au_next s) ds live) = take 200 (rev (omap decode ds)) ∧
  au_open (fst (audit_update decode Unmount s)) = [].
Proof.
  intros s live. destruct (audit_run_ok decode token l) as (Hs & Hp & Hl). fold s in Hs, Hp, Hl.
  destruct (Hs) as (H1 & _). split_and!; try done.
  - intros i j Hi%H1 Hj%H1. congruence.
  - unfold items. rewrite on_messages_live. cbn [liveMode live fst startLive].
    rewrite on_messages_push by (by left). cbn [liveEntries live fst startLive].
    rewrite push_all by (simpl; lia). by rewrite app_nil_r.
  - by apply without_ref_nil.
Qed.

(** Every rule of a policy being composed is of a type the form offers and has a value that is not empty, and
    a policy can only be submitted with a name that is not blank. *)
Theorem policy_rules_well_formed number_string toLocaleString l :
  let s := Compliance.run l in
  Forall Compliance.offered l →
  Forall Compliance.rule_ok (Compliance.pf_rules (Compliance.form s)) ∧
  (In Compliance.CreatePolicy (clicks (Compliance.compliance_view number_string toLocaleString s)) →
   truthy (trim (Compliance.pf_name (Compliance.form s))) = true).
Proof.
  intros s Hl. split; [by apply Compliance.run_rules|]. apply Compliance.create_needs_name.
Qed.

Lemma policy_rules_well_formed_witness :
  Compliance.rule_ok {| Compliance.rule_type := "os_type"; Compliance.rv := Compliance.RStr "linux" |}.
Proof.
  pose proof (policy_rules_well_formed (λ _, "") (λ t, t)
    [Compliance.SetRuleValue "linux"; Compliance.SetRuleType "os_type"; Compliance.AddRule; Compliance.AddRule]) as H.
  assert (Forall Compliance.offered [Compliance.SetRuleValue "linux"; Compliance.SetRuleType "os_type";
    Compliance.AddRule; Compliance.AddRule]) as Hl.
  { repeat (apply Forall_cons; split); try done. simpl. auto 10. }
  destruct (H Hl) as [Hr _]. inversion Hr. assumption.
Defined.

(** The software section has one row per package name with an update pending on a selected device, counts the
    distinct names of the devices it is pending on, and no more than there are selected devices. *)
Theorem pending_updates_report s :
  List.NoDup (map Reports.sr_name (Reports.softwareRows s)) ∧
  (∀ name, In name (map Reports.sr_name (Reports.softwareRows s)) ↔
     ∃ i pkg d, Reports.selectedDevices s !! i = Some d ∧ In pkg (Reports.data_at (Reports.softwareQueries s) i) ∧
                sp_update_available pkg = true ∧ sp_name pkg = name) ∧
  (∀ r, In r (Reports.softwareRows s) →
     ∃ names, List.NoDup names ∧ Reports.affected_devices_count r = Z.of_nat (length names) ∧
       (Reports.affected_devices_count r <= Z.of_nat (length (Reports.selectedDevices s))) ∧
       ∀ n, In n names ↔ ∃ i pkg d, Reports.selectedDevices s !! i = Some d ∧ Reports.device_name d = n ∧
              In pkg (Reports.data_at (Reports.softwareQueries s) i) ∧
              sp_update_available pkg = true ∧ sp_name pkg = Reports.sr_name r).
Proof.
  rewrite Reports.softwareRows_names. split; [apply dedup_NoDup, seqb_true|]. split.
  - intros name. rewrite (dedup_In seqb seqb_true), in_map_iff. split.
    + intros ([n pkg] & Hn & (i & d & Hd & _ & Hp & Hu)%Reports.pending_In). by exists i, pkg, d.
    + intros (i & pkg & d & Hd & Hp & Hu & Hn). exists (Reports.device_name d, pkg). split; [done|].
      apply Reports.pending_In. by exists i, d.
  - intros r Hr. unfold Reports.softwareRows in Hr. apply in_map_iff in Hr as (e & <- & He).
    apply in_map_iff in He as ([k e'] & He & Hk). simpl in He. subst e'.
    apply Reports.aggregated_entry in Hk as [Hk Hd]. cbn. rewrite Hk, Hd.
    exists (Reports.affected k s). split_and!; [apply dedup_NoDup, seqb_true|done| |apply Reports.affected_In].
    apply Nat2Z.inj_le, Reports.affected_length.
Qed.

(** C36: with two valid dates the uptime of every device is between 0 and 100 per cent of the window, which is at
    least one second, it is 100 exactly when the longest uptime reported covers the window, and the downtime is
    the rest of the window; a cleared date makes it "NaN%". *)
Theorem uptime_summary_bounds parse_local s metrics :
  match Reports.windowSeconds parse_local s with
  | Some w =>
      let avg := Reports.avgUptimePct w (Reports.latestUptime metrics) in
      (1 <= w ∧ 0 <= avg <= 100 ∧ (avg == 100 <-> w <= inject_Z (Reports.latestUptime metrics)) ∧
       0 <= Reports.downtimeHours w avg ∧ avg / 100 * (w / 3600) + Reports.downtimeHours w avg == w / 3600)%Q
  | None =>
      ∀ parseISO formatPPp locale_le i d,
        Reports.avg_uptime_percent (Reports.uptime_row_of parse_local parseISO formatPPp locale_le s i d) = "NaN%"
  end.
Proof.
  destruct (Reports.windowSeconds parse_local s) as [w|] eqn:E.
  - intros avg. pose proof (Reports.windowSeconds_ge _ _ _ E) as Hw.
    destruct (Reports.avgUptimePct_bounds w _ Hw (Reports.latestUptime_nonneg metrics)) as [Hb Hf].
    fold avg in Hb, Hf. unfold Reports.downtimeHours. split_and!; try tauto; try lra.
    + assert ((100 - avg) / 100 * (w / 3600) == (100 - avg) * w * (1 # 360000))%Q as -> by field. nra.
    + field.
  - intros. unfold Reports.uptime_row_of. by rewrite E.
Qed.

(** The alerts request of the reports page is outside the bounds the server accepts, whatever is selected, so
    the page never has alerts; its metrics requests are refused as soon as the range is longer than 30 days. *)
Theorem reports_requests_refused parse_local s b e :
  Reports.rangeStart parse_local s = Some b → Reports.rangeEnd parse_local s = Some e →
  Reports.alerts_limit_ok (q_request (Reports.reports_alerts_query s)) = false ∧
  (Reports.metrics_hours_ok (Reports.hours parse_local s) = true ↔ e - b <= 30 * 24 * 3600000).
Proof.
  intros Hb He. split.
  - unfold Reports.reports_alerts_query. destruct (Reports.rp_deviceId s =s "all"); done.
  - unfold Reports.hours, Reports.range_ms. rewrite Hb, He. simpl. rewrite andb_true_iff, !Z.leb_le.
    split; intros; zdiv.
Qed.

Definition any_date (t : jstr) : option Z := if includes t "2024-01-01T00" then Some 0 else Some 864000000.

Lemma reports_requests_refused_witness :
  let s := Reports.reports_mount "2024-01-01" "2024-01-10" in
  Reports.alerts_limit_ok (q_request (Reports.reports_alerts_query s)) = false ∧
  Reports.metrics_hours_ok (Reports.hours any_date s) = true.
Proof.
  intros s. destruct (reports_requests_refused any_date s 0 864000000 eq_refl eq_refl) as [H1 H2].
  split; [exact H1|]. apply H2. lia.
Defined.

End ReportProps.
