(* ===== verification/SettingsPage.v ===== *)
(** The settings page: [pages/Settings.tsx].

    The branding store is shared with the rest of the application; the page
    changes it through its setters ([brandingStore]).  The icon link of the
    document is part of the state, as the favicon upload changes it. *)
From Stdlib Require Import QArith.
From S2P Require Import Prelude JsString JsNumber Utils Types JsJson JsonText Api Stores Ui DeviceComponents Pages AdminPages.
Import brandingStore.
Local Open Scope Z_scope.
Local Open Scope js_scope.

Module Settings.

(** ** State *)

Record branding_draft := { dr_companyName : jstr; dr_sidebarLabel : jstr; dr_accentColor : jstr }.
Record user_form := { uf_username : jstr; uf_password : jstr; uf_role : jstr }.
Record rule_form := {
  rf_alert_type : jstr; rf_severity_min : jstr; rf_channel : Channel; rf_webhook_url : jstr;
  rf_email_address : jstr }.

(** The data of the queries. *)
Record settings_data := {
  sd_rules : list NotificationRule; sd_audit : option (list AuditLogEntry * Z);
  sd_authConfig : option AuthConfig; sd_connections : option LiveConnectionsResponse;
  sd_storageStats : option StorageStatsResponse; sd_cleaning : bool }.

Record settings_state := {
  role : option jstr;
  branding : BrandingState;
  icon_link : option jstr;
  brandingDraft : branding_draft;
  brandingSaved : bool;
  newUser : user_form;
  newRule : rule_form;
  token : option jstr;
  auditAction : jstr;
  auditPage : Z;
  msg : jstr;
  sdata : settings_data }.

Definition no_user : user_form := {| uf_username := ""; uf_password := ""; uf_role := "viewer" |}.
Definition no_rule : rule_form :=
  {| rf_alert_type := "*"; rf_severity_min := "warning"; rf_channel := Browser; rf_webhook_url := "";
     rf_email_address := "" |}.
Definition no_data : settings_data :=
  {| sd_rules := []; sd_audit := None; sd_authConfig := None; sd_connections := None; sd_storageStats := None;
     sd_cleaning := false |}.

Definition settings_mount (r : option jstr) (b : BrandingState) (link : option jstr) : settings_state :=
  {| role := r; branding := b; icon_link := link;
     brandingDraft := {| dr_companyName := companyName b; dr_sidebarLabel := sidebarLabel b;
                         dr_accentColor := accentColor b |};
     brandingSaved := false; newUser := no_user; newRule := no_rule; token := None; auditAction := "";
     auditPage := 1; msg := ""; sdata := no_data |}.

Definition is_admin (s : settings_state) : bool := bool_decide (role s = Some "admin").

(** ** Queries *)

Definition rules_query (s : settings_state) : query :=
  Query [JStr "notification-rules"] notificationRulesApi.rules_list 0 (is_admin s).
Definition auditPageSize : Z := 25.
Definition audit_query (s : settings_state) : query :=
  Query [JStr "audit-log"; JStr (auditAction s); JZ (auditPage s)]
    (adminApi.auditLogPage (if truthy (auditAction s) then Some (auditAction s) else None) (Some auditPageSize)
       (Some ((auditPage s - 1) * auditPageSize))) 30000 (is_admin s).
Definition auth_config_query (s : settings_state) : query :=
  Query [JStr "auth-config"] adminApi.authConfig 0 (is_admin s).
Definition connections_query (s : settings_state) : query :=
  Query [JStr "admin-connections"] adminApi.connections_req 10000 (is_admin s).
Definition storage_query (s : settings_state) : query :=
  Query [JStr "storage-stats"] adminApi.storageStats 0 (is_admin s).
Definition settings_queries (s : settings_state) : list query :=
  [rules_query s; audit_query s; auth_config_query s; connections_query s; storage_query s].

Definition auditLog (s : settings_state) : list AuditLogEntry :=
  match sd_audit (sdata s) with Some (d, _) => d | None => [] end.
Definition auditTotal (s : settings_state) : Z :=
  match sd_audit (sdata s) with Some (_, t) => t | None => 0 end.

(** ** Actions *)

Inductive settings_action :=
| SetCompany (v : jstr)
| SetSidebar (v : jstr)
| SetAccent (v : jstr)
| ChooseLogo
| ChooseFavicon
| LogoRead (dataUrl : jstr)
| FaviconRead (dataUrl : jstr)
| RemoveLogo
| RemoveFavicon
| SaveBranding
| SavedTimeout
| ResetBranding
| GenerateToken
| TokenReceived (t : jstr)
| CopyToken
| SetUser (f : user_form)
| CreateUser
| UserCreated
| UserFailed
| SetRule (f : rule_form)
| AddRule
| RuleAdded
| ToggleRule (r : NotificationRule)
| RuleUpdated
| DisconnectDevice (id : jstr)
| Disconnected
| CleanupNow
| CleanupDone (succeeded : bool)
| SetAuditAction (v : jstr)
| SetAuditPage (p : Z)
| ExportAuditLog.

Definition set_branding (b : BrandingState) (link : option jstr) (d : branding_draft) (saved : bool) (s : settings_state)
  : settings_state :=
  {| role := role s; branding := b; icon_link := link; brandingDraft := d; brandingSaved := saved;
     newUser := newUser s; newRule := newRule s; token := token s; auditAction := auditAction s;
     auditPage := auditPage s; msg := msg s; sdata := sdata s |}.
Definition set_draft (d : branding_draft) (s : settings_state) : settings_state :=
  set_branding (branding s) (icon_link s) d (brandingSaved s) s.
Definition set_store (b : BrandingState) (s : settings_state) : settings_state :=
  set_branding b (icon_link s) (brandingDraft s) (brandingSaved s) s.
Definition set_user (f : user_form) (m : jstr) (s : settings_state) : settings_state :=
  {| role := role s; branding := branding s; icon_link := icon_link s; brandingDraft := brandingDraft s;
     brandingSaved := brandingSaved s; newUser := f; newRule := newRule s; token := token s;
     auditAction := auditAction s; auditPage := auditPage s; msg := m; sdata := sdata s |}.
Definition set_rule (f : rule_form) (s : settings_state) : settings_state :=
  {| role := role s; branding := branding s; icon_link := icon_link s; brandingDraft := brandingDraft s;
     brandingSaved := brandingSaved s; newUser := newUser s; newRule := f; token := token s;
     auditAction := auditAction s; auditPage := auditPage s; msg := msg s; sdata := sdata s |}.
Definition set_token (t : option jstr) (s : settings_state) : settings_state :=
  {| role := role s; branding := branding s; icon_link := icon_link s; brandingDraft := brandingDraft s;
     brandingSaved := brandingSaved s; newUser := newUser s; newRule := newRule s; token := t;
     auditAction := auditAction s; auditPage := auditPage s; msg := msg s; sdata := sdata s |}.
Definition set_audit (a : jstr) (p : Z) (s : settings_state) : settings_state :=
  {| role := role s; branding := branding s; icon_link := icon_link s; brandingDraft := brandingDraft s;
     brandingSaved := brandingSaved s; newUser := newUser s; newRule := newRule s; token := token s;
     auditAction := a; auditPage := p; msg := msg s; sdata := sdata s |}.
Definition set_cleaning (b : bool) (s : settings_state) : settings_state :=
  let d := sdata s in
  {| role := role s; branding := branding s; icon_link := icon_link s; brandingDraft := brandingDraft s;
     brandingSaved := brandingSaved s; newUser := newUser s; newRule := newRule s; token := token s;
     auditAction := auditAction s; auditPage := auditPage s; msg := msg s;
     sdata := {| sd_rules := sd_rules d; sd_audit := sd_audit d; sd_authConfig := sd_authConfig d;
                 sd_connections := sd_connections d; sd_storageStats := sd_storageStats d; sd_cleaning := b |} |}.

(** [reader.onload] of a favicon: the store, then the icon link. *)
Definition favicon_onload (dataUrl : jstr) (s : settings_state) : settings_state :=
  set_branding (setFaviconUrl dataUrl (branding s)) (Some dataUrl) (brandingDraft s) (brandingSaved s) s.

Definition saveBranding (s : settings_state) : settings_state :=
  let d := brandingDraft s in
  set_branding
    (setAccentColor (dr_accentColor d)
       (setSidebarLabel (dr_sidebarLabel d)
          (setCompanyName (if truthy (dr_companyName d) then dr_companyName d else "DTSYS") (branding s))))
    (icon_link s) d true s.

Definition resetBranding (s : settings_state) : settings_state :=
  set_branding (branding_reset (branding s)) (icon_link s)
    {| dr_companyName := "DTSYS"; dr_sidebarLabel := "IT Management"; dr_accentColor := "#3b82f6" |}
    (brandingSaved s) s.

(** A target is sent for its own channel only. *)
Definition createRule (f : rule_form) : request :=
  notificationRulesApi.rule_create (rf_alert_type f) (rf_severity_min f) (rf_channel f)
    (Some (match rf_channel f with Webhook => Some (rf_webhook_url f) | _ => None end))
    (Some (match rf_channel f with Email => Some (rf_email_address f) | _ => None end)) None.

Definition create_user_request (f : user_form) : request :=
  post "/admin/users"
    (JObj [("username", JStr (uf_username f)); ("password", JStr (uf_password f)); ("role", JStr (uf_role f))]).

(** The change of the field of the target. *)
Definition set_target (v : jstr) (f : rule_form) : rule_form :=
  {| rf_alert_type := rf_alert_type f; rf_severity_min := rf_severity_min f; rf_channel := rf_channel f;
     rf_webhook_url := match rf_channel f with Webhook => v | _ => rf_webhook_url f end;
     rf_email_address := match rf_channel f with Email => v | _ => rf_email_address f end |}.

Section page.
(** [JSON.stringify] of a decimal number, [format(new Date(t), 'PPpp')],
    [String(n)] of a number. *)
Context (decimal : Q → jstr) (formatPPpp : jstr → jstr) (number_string : Q → jstr).

Definition details_text (none : jstr) (e : AuditLogEntry) : jstr :=
  match al_details e with Some d => JSON_stringify decimal (JObj d) | None => none end.
(** [`${type}:${id ?? none}`] *)
Definition resource_of (none missing : jstr) (e : AuditLogEntry) : jstr :=
  if otruthy (al_resource_type e) then (al_resource_type e ?? "") ++ ":" ++ (al_resource_id e ?? missing) else none.
Definition audit_csv (s : settings_state) : list Csv.dom_op :=
  Csv.exportToCSV "audit-log.csv" ["Timestamp"; "User"; "Action"; "Resource"; "Details"]
    (map (λ e, [al_timestamp e ?? ""; al_username e; al_action e; resource_of "" "" e; details_text "" e])
       (auditLog s)).

Definition settings_update (a : settings_action) (s : settings_state) : settings_state * list ui_effect :=
  let d := brandingDraft s in
  match a with
  | SetCompany v =>
      (set_draft {| dr_companyName := v; dr_sidebarLabel := dr_sidebarLabel d; dr_accentColor := dr_accentColor d |} s, [])
  | SetSidebar v =>
      (set_draft {| dr_companyName := dr_companyName d; dr_sidebarLabel := v; dr_accentColor := dr_accentColor d |} s, [])
  | SetAccent v =>
      (set_draft {| dr_companyName := dr_companyName d; dr_sidebarLabel := dr_sidebarLabel d; dr_accentColor := v |} s, [])
  | ChooseLogo | ChooseFavicon => (s, [OpenFileDialog])
  | LogoRead u => (set_store (setLogoUrl u (branding s)) s, [])
  | FaviconRead u => (favicon_onload u s, [])
  | RemoveLogo => (set_store (setLogoUrl "" (branding s)) s, [])
  | RemoveFavicon => (set_store (setFaviconUrl "" (branding s)) s, [])
  | SaveBranding => (saveBranding s, [StartTimer 2000])
  | SavedTimeout => (set_branding (branding s) (icon_link s) d false s, [])
  | ResetBranding => (resetBranding s, [])
  | GenerateToken => (s, [Request (post_empty "/admin/enrollment-tokens")])
  | TokenReceived t => (set_token (Some t) s, [])
  | CopyToken => (s, match token s with Some t => [Clipboard t] | None => [] end)
  | SetUser f => (set_user f (msg s) s, [])
  | CreateUser => (s, [Request (create_user_request (newUser s))])
  | UserCreated => (set_user no_user "User created successfully" s, [])
  | UserFailed => (set_user (newUser s) "Failed to create user" s, [])
  | SetRule f => (set_rule f s, [])
  | AddRule => (s, [Request (createRule (newRule s))])
  | RuleAdded => (set_rule no_rule s, [Invalidate ["notification-rules"]])
  | ToggleRule r =>
      (s, [Request (notificationRulesApi.rule_update (nr_id r) [("is_enabled", JBool (negb (nr_is_enabled r)))])])
  | RuleUpdated => (s, [Invalidate ["notification-rules"]])
  | DisconnectDevice id => (s, [Request (devicesApi.disconnect id)])
  | Disconnected => (s, [Invalidate ["admin-connections"]])
  | CleanupNow => (set_cleaning true s, [Request adminApi.cleanup])
  | CleanupDone ok => (set_cleaning false s, if ok then [Invalidate ["storage-stats"]] else [])
  | SetAuditAction v => (set_audit v (auditPage s) s, [])
  | SetAuditPage p => (set_audit (auditAction s) p s, [])
  | ExportAuditLog => (s, [Download (audit_csv s)])
  end.

(** ** View *)

(** The preview shows the draft. *)
Definition preview_name (d : branding_draft) : jstr := if truthy (dr_companyName d) then dr_companyName d else "DTSYS".
Definition preview_label (d : branding_draft) : jstr :=
  if truthy (dr_sidebarLabel d) then dr_sidebarLabel d else "IT Management".
Definition preview_initial (d : branding_draft) : jstr :=
  toUpperCase (take 1 (if truthy (dr_companyName d) then dr_companyName d else "D")).

Definition branding_preview (s : settings_state) : node settings_action :=
  let d := brandingDraft s in
  div [div [if truthy (logoUrl (branding s)) then El "img" [Attr "src" (logoUrl (branding s)); Attr "alt" "logo"] []
            else El "span" [Attr "color" (dr_accentColor d)] [Text (preview_initial d)]];
       div [div [Text (preview_name d)]; div [Text (preview_label d)]];
       El "div" [Attr "backgroundColor" (dr_accentColor d); Attr "title" "Accent colour"] []].

(** The change of a file input starts the reading of its first file; the action
    is that of the data URL read.  Without a file nothing happens. *)
Definition upload_field (label noun accept hint url : jstr) (choose remove : settings_action) (read : jstr → settings_action)
  : node settings_action :=
  div [el "label" [Text label];
       div ([button [OnClick choose] [icon "Upload"; Text (if truthy url then "Replace" else "Upload"); Text (" " ++ noun)]]
            ++ when (truthy url)
                 [El "img" [Attr "src" url; Attr "alt" (noun ++ " preview")] [];
                  button [OnClick remove; Attr "title" ("Remove " ++ noun)] [icon "X"]]
            ++ [El "input" [Attr "type" "file"; Attr "accept" accept; OnChange read] []]);
       p_ [Text hint]].

Definition branding_fields (s : settings_state) : node settings_action :=
  let d := brandingDraft s in
  div [
    div [el "label" [Text "Company Name"];
         El "input" [Attr "value" (dr_companyName d); OnChange SetCompany; Attr "placeholder" "DTSYS";
                     Attr "maxLength" "40"] []];
    div [el "label" [Text "Sidebar Subtitle"];
         El "input" [Attr "value" (dr_sidebarLabel d); OnChange SetSidebar; Attr "placeholder" "IT Management";
                     Attr "maxLength" "40"] []];
    div [el "label" [Text "Accent Colour"];
         div [El "input" [Attr "type" "color"; Attr "value" (dr_accentColor d); OnChange SetAccent] [];
              El "input" [Attr "value" (dr_accentColor d); OnChange SetAccent; Attr "placeholder" "#3b82f6";
                          Attr "maxLength" "7"] []]];
    upload_field "Logo (replaces icon)" "logo" "image/png,image/jpeg,image/svg+xml,image/webp"
      "PNG, JPG, SVG or WebP. Square recommended. Max display size 28×28px."
      (logoUrl (branding s)) ChooseLogo RemoveLogo LogoRead;
    upload_field "Favicon (browser tab icon)" "favicon" "image/png,image/x-icon,image/svg+xml"
      "PNG, ICO or SVG. 32×32px recommended." (faviconUrl (branding s)) ChooseFavicon RemoveFavicon FaviconRead].

Definition branding_section (s : settings_state) : node settings_action :=
  el "section" [
    div [div [el "h2" [Text "Company Branding"];
              p_ [Text "Customize the logo, name, and accent colour shown in the sidebar and topbar. Settings are saved in your browser."]];
         button [OnClick ResetBranding; Attr "title" "Reset to defaults"] [icon "RotateCcw"; Text "Reset"]];
    branding_preview s;
    branding_fields s;
    div [button [OnClick SaveBranding] [Text (if brandingSaved s then "Saved!" else "Save Branding")];
         p_ [Text "Branding is stored locally in your browser — no server changes required."]]].

Definition token_section (s : settings_state) : node settings_action :=
  el "section" [
    el "h2" [Text "Enrollment Token"];
    p_ [Text "Generate a one-time token to register a new device agent."];
    if otruthy (token s) then
      div [el "code" [Text (token s ?? "")]; button [OnClick CopyToken] [icon "Copy"]]
    else button [OnClick GenerateToken] [icon "RefreshCw"; Text "Generate Token"]].

Definition user_section (s : settings_state) : node settings_action :=
  let f := newUser s in
  el "section" (
    [el "h2" [Text "Create User"]; p_ [Text "Add a new dashboard user account."]]
    ++ when (truthy (msg s)) [div [Text (msg s)]]
    ++ [El "form" [OnSubmit CreateUser] [
          El "input" [Attr "value" (uf_username f); Attr "placeholder" "Username"; Attr "required" "";
                      OnChange (λ v, SetUser {| uf_username := v; uf_password := uf_password f; uf_role := uf_role f |})] [];
          El "input" [Attr "type" "password"; Attr "value" (uf_password f); Attr "placeholder" "Password";
                      Attr "required" "";
                      OnChange (λ v, SetUser {| uf_username := uf_username f; uf_password := v; uf_role := uf_role f |})] [];
          El "select" [Attr "value" (uf_role f);
                       OnChange (λ v, SetUser {| uf_username := uf_username f; uf_password := uf_password f; uf_role := v |})]
            [option_ "viewer" "Viewer"; option_ "admin" "Admin"];
          button [Attr "type" "submit"] [icon "Plus"; Text "Create User"]]]).

Definition rule_row (r : NotificationRule) : node settings_action :=
  el "tr" [
    el "td" [Text (nr_alert_type r)]; el "td" [Text (severity_string (nr_severity_min r))];
    el "td" [Text (notificationRulesApi.channel_string (nr_channel r))];
    el "td" [Text (nr_webhook_url r ?? (nr_email_address r ?? "Browser session"))];
    el "td" [button [OnClick (ToggleRule r)] [Text (if nr_is_enabled r then "Enabled" else "Disabled")]]].

(** The channel select offers the three channels. *)
Definition channel_of (v : jstr) : Channel :=
  if v =s "webhook" then Webhook else if v =s "email" then Email else Browser.

Definition rule_inputs (f : rule_form) : node settings_action :=
  div [
    El "input" [Attr "value" (rf_alert_type f); Attr "placeholder" "Alert type or *";
                OnChange (λ v, SetRule {| rf_alert_type := v; rf_severity_min := rf_severity_min f;
                  rf_channel := rf_channel f; rf_webhook_url := rf_webhook_url f;
                  rf_email_address := rf_email_address f |})] [];
    El "select" [Attr "value" (rf_severity_min f);
                 OnChange (λ v, SetRule {| rf_alert_type := rf_alert_type f; rf_severity_min := v;
                   rf_channel := rf_channel f; rf_webhook_url := rf_webhook_url f;
                   rf_email_address := rf_email_address f |})]
      [option_ "info" "Info+"; option_ "warning" "Warning+"; option_ "critical" "Critical only"];
    El "select" [Attr "value" (notificationRulesApi.channel_string (rf_channel f));
                 OnChange (λ v, SetRule {| rf_alert_type := rf_alert_type f; rf_severity_min := rf_severity_min f;
                   rf_channel := channel_of v; rf_webhook_url := rf_webhook_url f;
                   rf_email_address := rf_email_address f |})]
      [option_ "browser" "Browser"; option_ "webhook" "Webhook"; option_ "email" "Email"];
    El "input" [Attr "value" (match rf_channel f with Email => rf_email_address f | _ => rf_webhook_url f end);
                OnChange (λ v, SetRule (set_target v f));
                Attr "placeholder" (match rf_channel f with Email => "Email address" | _ => "Webhook URL" end);
                Disabled (match rf_channel f with Browser => true | _ => false end)] []].

Definition rules_section (s : settings_state) : node settings_action :=
  el "section" [
    el "h2" [Text "Notification Rules"];
    p_ [Text "Control browser, webhook, and email notifications for new alerts."];
    div [el "table" [
      el "thead" [el "tr" (map (λ h, el "th" [Text h]) ["Alert"; "Severity"; "Channel"; "Target"; "Enabled"])];
      el "tbody" (map rule_row (sd_rules (sdata s))
                  ++ when (Nat.eqb (length (sd_rules (sdata s))) 0)
                       [el "tr" [El "td" [Attr "colSpan" "5"] [Text "No notification rules configured."]]])]];
    rule_inputs (newRule s);
    button [OnClick AddRule] [Text "Add Rule"]].

Definition StorageStat (label value : jstr) (subtle : bool) : node settings_action :=
  El "div" [Attr "class" ("rounded-lg border p-3 " ++
              if subtle then "border-slate-200 bg-slate-50 dark:border-gray-800 dark:bg-gray-950/40"
              else "border-slate-200 bg-white dark:border-gray-800 dark:bg-gray-950/20")]
    [p_ [Text label]; p_ [Text value]].

Definition storage_section (s : settings_state) : node settings_action :=
  let st := sd_storageStats (sdata s) in
  let count f := string_of_Z ((f <$> st) ?? 0) in
  let days f n := string_of_Z ((f <$> (st_retention_days <$> st)) ?? n) ++ " days" in
  el "section" [
    div [div [el "h2" [Text "Storage"]; p_ [Text "Current row counts and retention policy."]];
         button [OnClick CleanupNow; Disabled (sd_cleaning (sdata s))] [Text "Run Cleanup Now"]];
    div [StorageStat "Devices" (count st_devices) false;
         StorageStat "Metrics Rows" (count st_metrics_rows) false;
         StorageStat "Events Rows" (count st_events_rows) false;
         StorageStat "Commands Rows" (count st_commands_rows) false;
         StorageStat "Alerts Rows" (count st_alerts_rows) false;
         StorageStat "Disk Estimate" (number_string ((st_disk_estimate_mb <$> st) ?? 0%Q) ++ " MB") false];
    div [StorageStat "Metric Retention" (days rd_metrics 90) true;
         StorageStat "Event Retention" (days rd_events 365) true;
         StorageStat "Command Retention" (days rd_commands 180) true;
         StorageStat "Alert Retention" (days rd_alerts 365) true]].

Definition mode_string (m : AuthMode) : jstr := match m with LocalAuth => "Local" | LDAP => "LDAP" end.
Definition or_dash (t : jstr) : jstr := if truthy t then t else "—".
Definition fact (label value : jstr) : node settings_action := div [p_ [Text label]; p_ [Text value]].
Definition auth_section (s : settings_state) : node settings_action :=
  let c := sd_authConfig (sdata s) in
  el "section" [
    el "h2" [Text "Authentication"];
    p_ [Text "Authentication mode is configured by environment variables on the server."];
    div ([fact "Mode" ((mode_string <$> (ac_mode <$> c)) ?? "Local");
          fact "LDAP Server"
            match c with
            | Some c => if ac_ldap_enabled c then ac_ldap_server c ++ ":" ++ string_of_Z (ac_ldap_port c) else "Disabled"
            | None => "Disabled"
            end]
         ++ match c with
            | Some c => when (ac_ldap_enabled c)
                          [fact "Base DN" (or_dash (ac_ldap_base_dn c));
                           fact "Admin Group DN" (or_dash (ac_ldap_admin_group_dn c))]
            | None => []
            end)].

Definition connection_row (c : LiveConnection) : node settings_action :=
  el "tr" [
    el "td" [Text (lc_hostname c)]; el "td" [Text (lc_ip c ?? "—")];
    el "td" [Text (formatPPpp (lc_connected_since c))];
    el "td" [button [OnClick (DisconnectDevice (lc_device_id c))] [Text "Disconnect"]]].
Definition connections_section (s : settings_state) : node settings_action :=
  let devices := match sd_connections (sdata s) with Some r => lr_devices r | None => [] end in
  el "section" [
    div [div [el "h2" [Text "Live Connections"]; p_ [Text "Currently connected agent WebSocket sessions."]];
         span [num_text ((lr_total <$> sd_connections (sdata s)) ?? 0); Text " connected"]];
    div [el "table" [
      el "thead" [el "tr" (map (λ h, el "th" [Text h]) ["Hostname"; "IP"; "Connected Since"; "Action"])];
      el "tbody" (map connection_row devices
                  ++ when (Nat.eqb (length devices) 0)
                       [el "tr" [El "td" [Attr "colSpan" "4"] [Text "No live agent connections."]]])]]].

Definition AUDIT_ACTIONS : list jstr := [
  "login_success"; "login_failed"; "user_created"; "device_revoked"; "command_dispatched";
  "scheduled_command_created"; "scheduled_command_deleted"].

Definition entry_row (e : AuditLogEntry) : node settings_action :=
  el "tr" [
    el "td" [Text (if otruthy (al_timestamp e) then formatPPpp (al_timestamp e ?? "") else "—")];
    el "td" [Text (al_username e)]; el "td" [Text (al_action e)];
    el "td" [Text (resource_of "—" "—" e)]; el "td" [Text (details_text "—" e)]].
Definition audit_pagination (s : settings_state) : option (node Z) :=
  Pagination.Pagination (auditPage s) (total_pages (auditTotal s) auditPageSize).
Definition audit_section (s : settings_state) : node settings_action :=
  el "section" [
    div [div [el "h2" [Text "Audit Log"]; p_ [Text "Recent administrative and authentication activity."]];
         El "select" [Attr "value" (auditAction s); OnChange SetAuditAction]
           (option_ "" "All actions" :: map (λ a, option_ a a) AUDIT_ACTIONS);
         button [OnClick ExportAuditLog] [Text "Export CSV"]];
    div [el "table" [
      el "thead" [el "tr" (map (λ h, el "th" [Text h]) ["Timestamp"; "User"; "Action"; "Resource"; "Details"])];
      el "tbody" (map entry_row (auditLog s)
                  ++ when (Nat.eqb (length (auditLog s)) 0)
                       [el "tr" [El "td" [Attr "colSpan" "5"] [Text "No audit entries found."]]])]];
    div (match audit_pagination s with Some n => [map_node SetAuditPage n] | None => [] end)].

Definition settings_view (s : settings_state) : node settings_action :=
  if negb (is_admin s) then div [Text "Admin access required to view settings."]
  else div [
    div [el "h1" [Text "Settings"]; p_ [Text "Administration"]];
    branding_section s; token_section s; user_section s; rules_section s; storage_section s; auth_section s;
    connections_section s; audit_section s].

End page.
End Settings.

(** ** Properties *)

Module SettingsProps.
Import Settings.

(** Without the administrator's role the settings page runs no query and offers nothing to click. *)
Theorem settings_admin_only decimal formatPPpp number_string s :
  role s ≠ Some "admin" →
  Forall (λ q, q_enabled q = false) (settings_queries s) ∧
  clicks (settings_view decimal formatPPpp number_string s) = [].
Proof.
  intros H. assert (is_admin s = false) as E by (by apply bool_decide_eq_false).
  unfold settings_queries, rules_query, audit_query, auth_config_query, connections_query, storage_query, settings_view.
  rewrite E. split; [|done]. repeat constructor.
Qed.

Lemma settings_admin_only_witness :
  clicks (settings_view (λ _, "") (λ t, t) (λ _, "") (settings_mount (Some "viewer") DEFAULTS None)) = [].
Proof.
  apply (settings_admin_only (λ _, "") (λ t, t) (λ _, "") (settings_mount (Some "viewer") DEFAULTS None)).
  intros [=].
Defined.

(** Saving the branding makes the store show the name and the colour of the preview, never an empty name, and
    its label exactly when the label is not empty; resetting restores the defaults in the store and the draft alike.
    Neither touches the logo or, on saving, the favicon. *)
Theorem branding_save_and_reset decimal s :
  let saved := branding (fst (settings_update decimal SaveBranding s)) in
  let reset := fst (settings_update decimal ResetBranding s) in
  companyName saved = preview_name (brandingDraft s) ∧ truthy (companyName saved) = true ∧
  accentColor saved = dr_accentColor (brandingDraft s) ∧
  (sidebarLabel saved = preview_label (brandingDraft s) ↔ truthy (dr_sidebarLabel (brandingDraft s)) = true) ∧
  logoUrl saved = logoUrl (branding s) ∧ faviconUrl saved = faviconUrl (branding s) ∧
  branding reset = DEFAULTS ∧
  brandingDraft reset = brandingDraft (settings_mount (role s) (branding reset) (icon_link s)).
Proof.
  intros saved reset. split_and!; try done.
  - simpl. unfold saveBranding. simpl. by destruct (truthy (dr_companyName (brandingDraft s))) eqn:E; [rewrite E|].
  - simpl. unfold preview_label. destruct (truthy (dr_sidebarLabel (brandingDraft s))) eqn:E; [done|].
    split; [|done]. intros Heq. by rewrite Heq in E.
Qed.

(** Removing the favicon, or resetting the branding, leaves the icon of the
    document as the upload set it: it disappears with the next load only. *)
Theorem favicon_link_stays decimal s u :
  let s1 := fst (settings_update decimal (FaviconRead u) s) in
  ∀ a, In a [RemoveFavicon; ResetBranding] →
  let s2 := fst (settings_update decimal a s1) in
  icon_link s2 = Some u ∧ boot_favicon (branding s2) = None.
Proof. intros s1 a [<-|[<-|[]]]; done. Qed.

(** Choosing another action keeps the page: when the entries of that action fit
    on one page, no page can be chosen although the request skips them. *)
Theorem audit_filter_keeps_page decimal s v entries total :
  2 <= auditPage s → total <= auditPageSize →
  let s1 := fst (settings_update decimal (SetAuditAction v) s) in
  let s2 := {| role := role s1; branding := branding s1; icon_link := icon_link s1; brandingDraft := brandingDraft s1;
               brandingSaved := brandingSaved s1; newUser := newUser s1; newRule := newRule s1; token := token s1;
               auditAction := auditAction s1; auditPage := auditPage s1; msg := msg s1;
               sdata := {| sd_rules := []; sd_audit := Some (entries, total); sd_authConfig := None;
                           sd_connections := None; sd_storageStats := None; sd_cleaning := false |} |} in
  (∃ skip, rq_params (q_request (audit_query s1)) =
             opt_param "action" JStr (if truthy v then Some v else None) ++ [("limit", JZ 25); ("skip", JZ skip)] ∧
           total <= skip) ∧
  audit_pagination s2 = None.
Proof.
  intros Hp Ht s1 s2. split.
  - exists ((auditPage s - 1) * auditPageSize). split; [done|]. unfold auditPageSize in *. lia.
  - unfold audit_pagination, auditTotal, Pagination.Pagination, total_pages, auditPageSize in *. simpl.
    destruct (Z.leb_spec (Z.max 1 (- (- total / 25))) 1); [done|]. zdiv.
Qed.

(** The text typed for a target reaches the request of its own channel only. *)
Theorem rule_target_of_channel f v :
  match rf_channel f with
  | Browser => rq_body (createRule (set_target v f)) = rq_body (createRule f)
  | Webhook => rf_email_address (set_target v f) = rf_email_address f ∧
      ∃ b, rq_body (createRule (set_target v f)) = Some (JObj b) ∧
           In ("webhook_url", JStr v) b ∧ In ("email_address", JNull) b
  | Email => rf_webhook_url (set_target v f) = rf_webhook_url f ∧
      ∃ b, rq_body (createRule (set_target v f)) = Some (JObj b) ∧
           In ("webhook_url", JNull) b ∧ In ("email_address", JStr v) b
  end.
Proof.
  destruct f as [a m [] w e]; [done| |]; (split; [done|]; eexists; split; [reflexivity|]; simpl; auto 10).
Qed.

End SettingsProps.
