(* ===== verification/DeviceDetail.v ===== *)
(** The device page: [pages/DeviceDetail.tsx].

    The trees of the components it embeds (modelled in [DeviceComponents]) are
    parameters of the view; time is the argument of the actions that read the
    clock. *)
From Stdlib Require Import QArith Qround Lqa.
From S2P Require Import Cron.
From S2P Require Import Prelude JsString JsNumber Utils Types JsJson Api Stores Ui DeviceComponents Pages AdminPages.
Local Open Scope Z_scope.
Local Open Scope js_scope.

Module DeviceDetail.

(** ** Helpers of the page *)

Definition uptimeTone (value : Q) : jstr :=
  if Qle_bool 99 value then "text-emerald-500" else if Qle_bool 95 value then "text-amber-500" else "text-red-500".

Definition mapPlatform (osType : option jstr) : jstr :=
  if negb (otruthy osType) then "linux"
  else
    let lower := toLowerCase (osType ?? "") in
    if includes lower "windows" then "windows"
    else if includes lower "darwin" || includes lower "mac" then "darwin"
    else "linux".

(** [a > b]: false when either is [NaN]. *)
Definition num_gt (a b : num) : bool :=
  match a, b with
  | NaN, _ | _, NaN => false
  | Fin x, Fin y => negb (Qle_bool x y)
  | PInf, PInf | NInf, _ | _, PInf => false
  | PInf, _ | _, NInf => true
  end.

Definition version_parts (v : jstr) : list num := map Number (split "." v).
(** [parts[index] ?? 0] *)
Definition part_at (l : list num) (index : nat) : num := nth index l (of_Z 0).

Fixpoint compare_parts (a b : list num) (indices : list nat) : Z :=
  match indices with
  | [] => 0
  | i :: rest =>
      if num_gt (part_at a i) (part_at b i) then 1
      else if num_gt (part_at b i) (part_at a i) then -1
      else compare_parts a b rest
  end.
Definition compareSemver (a : jstr) (b : option jstr) : Z :=
  if negb (otruthy b) then 1 else compare_parts (version_parts a) (version_parts (b ?? "")) [0; 1; 2]%nat.

(** *** The uptime bar *)

(** The entries of the map are the objects of [days]: of equal keys, the last
    one.  [add_downtime] adds to that entry; [None]: no such day. *)
Fixpoint add_downtime (key : jstr) (secs : Z) (days : list (jstr * Z)) : option (list (jstr * Z)) :=
  match days with
  | [] => None
  | (k, t) :: rest =>
      match add_downtime key secs rest with
      | Some rest' => Some ((k, t) :: rest')
      | None => if k =s key then Some ((k, t + secs) :: rest) else None
      end
  end.
Definition apply_event (days : list (jstr * Z)) (e : UptimeHistoryEvent) : list (jstr * Z) :=
  match uh_event_type e with
  | WentOnline => add_downtime (slice_to 10 (uh_timestamp e)) (uh_duration_secs e ?? 0) days ?? days
  | WentOffline => days
  end.

Record segment := { seg_date : jstr; seg_label : jstr; seg_tone : jstr }.
Definition uptimePercent (downtime : Z) : Q := inject_Z (Z.max 0 (86400 - downtime)) / 86400.
Definition segment_of (entry : jstr * Z) : segment :=
  let up := uptimePercent (snd entry) in
  {| seg_date := fst entry;
     seg_label := string_of_Z (round (up * 100)) ++ "% uptime";
     seg_tone := if Qle_bool (999 # 1000) up then "bg-emerald-500"
                 else if Qle_bool up 0 then "bg-slate-300 dark:bg-gray-700" else "bg-amber-500" |}.

(** The local time of a time value and back, as the host's time zone has it. *)
Record zone := { LocalTime : Z → Z; UTC_of : Z → Z }.
(** [date.setDate(date.getDate() - n)]: the same local time of day, [n] days before. *)
Definition days_back (z : zone) (n : Z) (t : Z) : Z := UTC_of z (LocalTime z t - n * Date.ms_per_day).
(** [date.toISOString().slice(0, 10)], for the years 0 to 9999. *)
Definition iso_date (t : Z) : jstr :=
  let d := t / Date.ms_per_day in
  pad0 4 (Date.year_of d) ++ "-" ++ pad0 2 (fst (Date.civil d)) ++ "-" ++ pad0 2 (snd (Date.civil d)).
(** The keys of [days]; the clock, [now], is read once for all of them. *)
Definition day_keys (z : zone) (now : Z) : list jstr := map (λ i, iso_date (days_back z (29 - Z.of_nat i) now)) (seq 0 30).

Definition buildUptimeSegments (z : zone) (now : Z) (events : list UptimeHistoryEvent) : list segment :=
  map segment_of (fold_left apply_event events (map (λ k, (k, 0)) (day_keys z now))).

(** ** State *)

Inductive Tab := Overview | Software | Events | Commands | NetworkTab | Processes | Config.
#[global] Instance Tab_eq_dec : EqDecision Tab.
Proof. solve_decision. Defined.
Definition tabs : list Tab := [Overview; Software; Events; Commands; NetworkTab; Processes; Config].
Definition MOBILE_SECTIONS : list Tab := tabs.
Definition tab_string (t : Tab) : jstr :=
  match t with
  | Overview => "overview" | Software => "software" | Events => "events" | Commands => "commands"
  | NetworkTab => "network" | Processes => "processes" | Config => "config"
  end.

Inductive EventMode := System | Agent.
#[global] Instance EventMode_eq_dec : EqDecision EventMode.
Proof. solve_decision. Defined.

Definition DEFAULT_DEVICE_CONFIG : DeviceConfig :=
  {| dc_telemetry_interval_secs := of_Z 60; dc_software_scan_interval_m := of_Z 60;
     dc_event_poll_interval_secs := of_Z 120 |}.

Record maintenance_form := { mf_enabled : bool; mf_reason : jstr; mf_until : jstr }.

(** The screenshot in progress; [timer] is when the pending timeout fires. *)
Record capture := { isCapturing : bool; captureStartedAt : option Z; timer : option Z }.

(** The data of the queries and the pending flags of the mutations. *)
Record detail_data := {
  dd_metrics : list Metric; dd_latestMetric : option Metric; dd_groups : list DeviceGroup;
  dd_deviceGroups : list DeviceGroup; dd_uptimeHistory : option UptimeHistoryResponse;
  dd_sshKeys : list SSHKeyInfo; dd_agentVersion : option jstr;
  dd_updatingAgent : bool; dd_addingToGroup : bool; dd_requesting : bool }.
Definition detail_nothing : detail_data :=
  {| dd_metrics := []; dd_latestMetric := None; dd_groups := []; dd_deviceGroups := []; dd_uptimeHistory := None;
     dd_sshKeys := []; dd_agentVersion := None; dd_updatingAgent := false; dd_addingToGroup := false;
     dd_requesting := false |}.

Record detail_state := {
  id : jstr;
  dt_role : option jstr;
  isMobile : bool;
  tab : Tab;
  eventMode : EventMode;
  copied : bool;
  newTag : jstr;
  selectedGroupId : jstr;
  configForm : DeviceConfig;
  shot : capture;
  maintenanceOpen : bool;
  maintenanceForm : maintenance_form;
  editingField : option jstr;
  fieldDraft : jstr;
  openSections : Tab → bool;
  device : option Device;
  dt_loading : bool;
  screenshotData : option ScreenshotResponse;
  dt_data : detail_data }.

Definition is_mobile_width (innerWidth : Z) : bool := innerWidth <? 768.

Definition no_maintenance : maintenance_form := {| mf_enabled := false; mf_reason := ""; mf_until := "" |}.
Definition detail_mount (device_id : jstr) (role : option jstr) (innerWidth : Z) : detail_state :=
  {| id := device_id; dt_role := role; isMobile := is_mobile_width innerWidth; tab := Overview; eventMode := System;
     copied := false; newTag := ""; selectedGroupId := ""; configForm := DEFAULT_DEVICE_CONFIG;
     shot := {| isCapturing := false; captureStartedAt := None; timer := None |};
     maintenanceOpen := false; maintenanceForm := no_maintenance; editingField := None; fieldDraft := "";
     openSections := λ t, bool_decide (t = Overview); device := None; dt_loading := true; screenshotData := None;
     dt_data := detail_nothing |}.

(** ** Queries *)

Definition device_query (key : jstr) (r : request) (interval : Z) (s : detail_state) : query :=
  Query [JStr key; JStr (id s)] r interval (truthy (id s)).
Definition screenshot_query (s : detail_state) : query :=
  device_query "device-screenshot" (devicesApi.screenshot (id s)) (if isCapturing (shot s) then 3000 else 0) s.
Definition agent_version_query (s : detail_state) : query :=
  let os := os_string <$> (d_os_type <$> device s) in
  let arch := device s ≫= d_arch in
  Query [JStr "agent-version"; opt_json JStr os; opt_json JStr arch]
    (agentApi.agent_version (mapPlatform os) (arch ?? "amd64")) 0 (bool_decide (is_Some (device s))).
Definition detail_queries (s : detail_state) : list query :=
  [Hooks.useDevice (id s); Hooks.useMetrics (id s) 24; Hooks.useLatestMetric (id s);
   device_query "device-config" (devicesApi.device_config (id s)) 0 s;
   Query [JStr "groups"] groupsApi.groups_list 0 true;
   device_query "device-groups" (groupsApi.deviceGroups (id s)) 0 s;
   screenshot_query s;
   device_query "device-uptime-history" (devicesApi.uptimeHistory (id s) 30) 0 s;
   device_query "device-ssh-keys" (devicesApi.sshKeys (id s)) 0 s;
   agent_version_query s].

Definition updateAvailable (s : detail_state) : bool :=
  match device s ≫= d_agent_version, dd_agentVersion (dt_data s) with
  | Some own, Some newest => truthy own && truthy newest && (0 <? compareSemver newest (Some own))
  | _, _ => false
  end.

(** ** Actions *)

(** The fields of the device a row can edit. *)
Record editable := { ef_label : jstr; ef_field : jstr; ef_value : Device → option jstr }.
Definition EDITABLE : list editable := [
  {| ef_label := "Serial Number"; ef_field := "serial_number"; ef_value := d_serial_number |};
  {| ef_label := "Manufacturer"; ef_field := "manufacturer"; ef_value := d_manufacturer |};
  {| ef_label := "Model"; ef_field := "model_name"; ef_value := d_model_name |};
  {| ef_label := "Location"; ef_field := "location"; ef_value := d_location |};
  {| ef_label := "Assigned To"; ef_field := "assigned_to"; ef_value := d_assigned_to |};
  {| ef_label := "Asset Tag"; ef_field := "asset_tag"; ef_value := d_asset_tag |}].

Inductive config_field := Telemetry | SoftwareScan | EventPoll.

Inductive detail_action :=
| Resize (innerWidth : Z)
| SetTab (t : Tab)
| ToggleSection (t : Tab)
| SetEventMode (m : EventMode)
| CopyDeviceID
| CopiedTimeout
| SetNewTag (v : jstr)
| AddTag
| AddTagSucceeded
| SelectGroup (v : jstr)
| AddToGroup
| AddToGroupSucceeded
| SetConfig (f : config_field) (v : jstr)
| SaveConfig
| SaveConfigSucceeded
| RequestScreenshot
| ScreenshotRequested (now : Z)
| ScreenshotFailed
| CaptureTimeout (now : Z)
| UpdateAgent
| UpdateAgentSucceeded
| OpenMaintenance
| CloseMaintenance
| SetMaintenance (f : maintenance_form)
| SaveMaintenance
| MaintenanceSucceeded
| EditField (e : editable)
| SetFieldDraft (v : jstr)
| SaveField (e : editable)
| FieldSaved
| RemoveSSHKey (keyId : jstr)
| SSHKeyRemoved
| Back
| DeviceArrived (d : Device)
| DeviceMissing
| ConfigArrived (c : DeviceConfig)
| ScreenshotArrived (now : Z) (r : ScreenshotResponse)
| DataArrived (d : detail_data).

(** Setters of groups of fields. *)
Definition with_ui (t : Tab) (m : EventMode) (c : bool) (tag group : jstr) (open : Tab → bool) (s : detail_state) : detail_state :=
  {| id := id s; dt_role := dt_role s; isMobile := isMobile s; tab := t; eventMode := m; copied := c; newTag := tag;
     selectedGroupId := group; configForm := configForm s; shot := shot s; maintenanceOpen := maintenanceOpen s;
     maintenanceForm := maintenanceForm s; editingField := editingField s; fieldDraft := fieldDraft s;
     openSections := open; device := device s; dt_loading := dt_loading s; screenshotData := screenshotData s;
     dt_data := dt_data s |}.
Definition with_forms (c : DeviceConfig) (mo : bool) (mf : maintenance_form) (ef : option jstr) (fd : jstr)
    (s : detail_state) : detail_state :=
  {| id := id s; dt_role := dt_role s; isMobile := isMobile s; tab := tab s; eventMode := eventMode s;
     copied := copied s; newTag := newTag s; selectedGroupId := selectedGroupId s; configForm := c; shot := shot s;
     maintenanceOpen := mo; maintenanceForm := mf; editingField := ef; fieldDraft := fd;
     openSections := openSections s; device := device s; dt_loading := dt_loading s;
     screenshotData := screenshotData s; dt_data := dt_data s |}.
Definition with_data (mobile : bool) (c : capture) (d : option Device) (loading : bool) (r : option ScreenshotResponse)
    (dd : detail_data) (s : detail_state) : detail_state :=
  {| id := id s; dt_role := dt_role s; isMobile := mobile; tab := tab s; eventMode := eventMode s;
     copied := copied s; newTag := newTag s; selectedGroupId := selectedGroupId s; configForm := configForm s;
     shot := c; maintenanceOpen := maintenanceOpen s; maintenanceForm := maintenanceForm s;
     editingField := editingField s; fieldDraft := fieldDraft s; openSections := openSections s; device := d;
     dt_loading := loading; screenshotData := r; dt_data := dd |}.
Definition with_shot (c : capture) (s : detail_state) : detail_state :=
  with_data (isMobile s) c (device s) (dt_loading s) (screenshotData s) (dt_data s) s.
Definition with_pending (u g r : bool) (s : detail_state) : detail_state :=
  let d := dt_data s in
  with_data (isMobile s) (shot s) (device s) (dt_loading s) (screenshotData s)
    {| dd_metrics := dd_metrics d; dd_latestMetric := dd_latestMetric d; dd_groups := dd_groups d;
       dd_deviceGroups := dd_deviceGroups d; dd_uptimeHistory := dd_uptimeHistory d; dd_sshKeys := dd_sshKeys d;
       dd_agentVersion := dd_agentVersion d; dd_updatingAgent := u; dd_addingToGroup := g; dd_requesting := r |} s.

(** *** The capture *)

Section capture.
(** [new Date(t).getTime()], [None] for [NaN] *)
Context (getTime : jstr → option Z).

(** [setIsCapturing(b)] and the effect of the timeout: it starts when capturing
    begins and is cleared when it ends. *)
Definition set_capturing (now : Z) (b : bool) (c : capture) : capture :=
  {| isCapturing := b; captureStartedAt := captureStartedAt c;
     timer := if b then (if isCapturing c then timer c else Some (now + 30000)) else None |}.

(** The effect on [captureStartedAt], [isCapturing] and [screenshotData]. *)
Definition settle (now : Z) (r : option ScreenshotResponse) (c : capture) : capture :=
  match r ≫= ss_captured_at with
  | Some t =>
      if isCapturing c && truthy t then
        match captureStartedAt c, getTime t with
        | Some start, Some captured =>
            if (start =? 0) || (start <=? captured) then set_capturing now false c else c
        | Some start, None => if start =? 0 then set_capturing now false c else c
        | None, _ => set_capturing now false c
        end
      else c
  | None => c
  end.

(** [onSuccess] of the request. *)
Definition capture_started (now : Z) (c : capture) : capture :=
  set_capturing now true {| isCapturing := isCapturing c; captureStartedAt := Some now; timer := timer c |}.
(** The timeout, if it is due. *)
Definition capture_timeout (now : Z) (c : capture) : capture :=
  match timer c with
  | Some t => if t <=? now then set_capturing now false c else c
  | None => c
  end.

(** *** Tags, the maintenance form, the configuration *)

(** [Array.from(new Set([...tags, tag]))] *)
Definition added_tags (d : Device) (tag : jstr) : list jstr := dedup seqb (d_tags d ++ [tag]).

Definition maintenance_of (d : option Device) : maintenance_form :=
  {| mf_enabled := (d ≫= d_maintenance_mode) ?? false;
     mf_reason := (d ≫= d_maintenance_reason) ?? "";
     mf_until := match d ≫= d_maintenance_until with
                 | Some t => if truthy t then slice_to 16 t else ""
                 | None => "" end |}.
Definition maintenance_key (d : option Device) : option bool * option jstr * option jstr :=
  (d ≫= d_maintenance_mode, d ≫= d_maintenance_reason, d ≫= d_maintenance_until).

Definition set_config (f : config_field) (v : num) (c : DeviceConfig) : DeviceConfig :=
  match f with
  | Telemetry => {| dc_telemetry_interval_secs := v; dc_software_scan_interval_m := dc_software_scan_interval_m c;
                    dc_event_poll_interval_secs := dc_event_poll_interval_secs c |}
  | SoftwareScan => {| dc_telemetry_interval_secs := dc_telemetry_interval_secs c; dc_software_scan_interval_m := v;
                       dc_event_poll_interval_secs := dc_event_poll_interval_secs c |}
  | EventPoll => {| dc_telemetry_interval_secs := dc_telemetry_interval_secs c;
                    dc_software_scan_interval_m := dc_software_scan_interval_m c; dc_event_poll_interval_secs := v |}
  end.

Definition or_null (v : jstr) : option jstr := if truthy v then Some v else None.

Definition detail_update (a : detail_action) (s : detail_state) : detail_state * list ui_effect :=
  let p := dt_data s in
  match a with
  | Resize w =>
      (with_data (is_mobile_width w) (shot s) (device s) (dt_loading s) (screenshotData s) p s, [])
  | SetTab t => (with_ui t (eventMode s) (copied s) (newTag s) (selectedGroupId s) (openSections s) s, [])
  | ToggleSection t =>
      (with_ui (tab s) (eventMode s) (copied s) (newTag s) (selectedGroupId s)
         (λ u, if bool_decide (u = t) then negb (openSections s t) else openSections s u) s, [])
  | SetEventMode m => (with_ui (tab s) m (copied s) (newTag s) (selectedGroupId s) (openSections s) s, [])
  | CopyDeviceID =>
      (with_ui (tab s) (eventMode s) true (newTag s) (selectedGroupId s) (openSections s) s,
       match device s with Some d => [Clipboard (d_id d); StartTimer 1500] | None => [] end)
  | CopiedTimeout => (with_ui (tab s) (eventMode s) false (newTag s) (selectedGroupId s) (openSections s) s, [])
  | SetNewTag v => (with_ui (tab s) (eventMode s) (copied s) v (selectedGroupId s) (openSections s) s, [])
  | AddTag =>
      (s, match device s with
          | Some d => if truthy (trim (newTag s))
                      then Hooks.useUpdateDevice (id s) [("tags", JStrs (added_tags d (trim (newTag s))))] else []
          | None => []
          end)
  | AddTagSucceeded =>
      (with_ui (tab s) (eventMode s) (copied s) "" (selectedGroupId s) (openSections s) s,
       Hooks.useUpdateDevice_success (id s))
  | SelectGroup v => (with_ui (tab s) (eventMode s) (copied s) (newTag s) v (openSections s) s, [])
  | AddToGroup =>
      (with_pending (dd_updatingAgent p) true (dd_requesting p) s,
       [Request (groupsApi.addDevices (selectedGroupId s) [id s])])
  | AddToGroupSucceeded =>
      (with_pending (dd_updatingAgent p) false (dd_requesting p)
         (with_ui (tab s) (eventMode s) (copied s) (newTag s) "" (openSections s) s),
       [Invalidate ["device-groups"; id s]; Invalidate ["groups"]])
  | SetConfig f v =>
      (with_forms (set_config f (Number v) (configForm s)) (maintenanceOpen s) (maintenanceForm s) (editingField s)
         (fieldDraft s) s, [])
  | SaveConfig => (s, [Request (devicesApi.updateConfig (id s) (configForm s))])
  | SaveConfigSucceeded => (s, [Invalidate ["device-config"; id s]])
  | RequestScreenshot =>
      (with_pending (dd_updatingAgent p) (dd_addingToGroup p) true s,
       [Request (devicesApi.requestScreenshot (id s))])
  | ScreenshotRequested now =>
      (with_shot (settle now (screenshotData s) (capture_started now (shot s)))
         (with_pending (dd_updatingAgent p) (dd_addingToGroup p) false s),
       [Invalidate ["device-screenshot"; id s]])
  | ScreenshotFailed => (with_pending (dd_updatingAgent p) (dd_addingToGroup p) false s, [])
  | CaptureTimeout now => (with_shot (capture_timeout now (shot s)) s, [])
  | UpdateAgent =>
      (with_pending true (dd_addingToGroup p) (dd_requesting p) s,
       [Request (commandsApi.dispatch (id s) "update" [])])
  | UpdateAgentSucceeded =>
      (with_pending false (dd_addingToGroup p) (dd_requesting p) s, [Invalidate ["commands"; id s]])
  | OpenMaintenance =>
      (with_forms (configForm s) true (maintenanceForm s) (editingField s) (fieldDraft s) s, [])
  | CloseMaintenance =>
      (with_forms (configForm s) false (maintenanceForm s) (editingField s) (fieldDraft s) s, [])
  | SetMaintenance f => (with_forms (configForm s) (maintenanceOpen s) f (editingField s) (fieldDraft s) s, [])
  | SaveMaintenance =>
      (s, [Request (devicesApi.maintenance (id s) (mf_enabled (maintenanceForm s))
                      (Some (or_null (mf_until (maintenanceForm s)))) (Some (or_null (mf_reason (maintenanceForm s)))))])
  | MaintenanceSucceeded =>
      (with_forms (configForm s) false (maintenanceForm s) (editingField s) (fieldDraft s) s,
       [Invalidate ["device"; id s]; Invalidate ["devices"]])
  | EditField e =>
      (with_forms (configForm s) (maintenanceOpen s) (maintenanceForm s) (Some (ef_field e))
         (match device s with Some d => ef_value e d ?? "" | None => "" end) s, [])
  | SetFieldDraft v =>
      (with_forms (configForm s) (maintenanceOpen s) (maintenanceForm s) (editingField s) v s, [])
  | SaveField e =>
      (s, Hooks.useUpdateDevice (id s) [(ef_field e, opt_json JStr (or_null (fieldDraft s)))])
  | FieldSaved =>
      (with_forms (configForm s) (maintenanceOpen s) (maintenanceForm s) None (fieldDraft s) s,
       Hooks.useUpdateDevice_success (id s))
  | RemoveSSHKey k => (s, [Request (devicesApi.deleteSSHKey (id s) k)])
  | SSHKeyRemoved => (s, [Invalidate ["device-ssh-keys"; id s]])
  | Back => (s, [GoBack])
  | DeviceArrived d =>
      let s1 := with_data (isMobile s) (shot s) (Some d) false (screenshotData s) p s in
      (if bool_decide (maintenance_key (Some d) = maintenance_key (device s)) then s1
       else with_forms (configForm s1) (maintenanceOpen s1) (maintenance_of (Some d)) (editingField s1) (fieldDraft s1) s1,
       [])
  | DeviceMissing => (with_data (isMobile s) (shot s) None false (screenshotData s) p s, [])
  | ConfigArrived c =>
      (with_forms c (maintenanceOpen s) (maintenanceForm s) (editingField s) (fieldDraft s) s, [])
  | ScreenshotArrived now r =>
      (with_data (isMobile s) (settle now (Some r) (shot s)) (device s) (dt_loading s) (Some r) p s, [])
  | DataArrived d => (with_data (isMobile s) (shot s) (device s) (dt_loading s) (screenshotData s) d s, [])
  end.

End capture.

(** ** View *)

Section view.
(** Texts of dates, the time of the render and the time zone. *)
Context (formatDistanceToNow formatPPpp : jstr → jstr) (distance_of_time : Z → jstr) (now : Z) (tz : zone).
Context (number_string : num → jstr).
(** The components embedded. *)
Context (MetricsChart : list Metric → node detail_action) (SoftwareTable CommandPanel NetworkInfo : node detail_action)
  (EventLog : EventMode → node detail_action) (ProcessList : bool → node detail_action).

Definition latest (s : detail_state) : option Metric :=
  match dd_latestMetric (dt_data s) with Some m => Some m | None => head (dd_metrics (dt_data s)) end.
Definition availableGroups (s : detail_state) : list DeviceGroup :=
  bfilter (λ g, negb (existsb (λ m, g_id m =s g_id g) (dd_deviceGroups (dt_data s)))) (dd_groups (dt_data s)).

Definition stat_value (v : option Q) (unit : jstr) : jstr :=
  match v with Some x => string_of_Z (round x) ++ unit | None => "—" end.
(** [(v ?? 0) > limit] *)
Definition over (v : option Q) (limit : Q) : bool := negb (Qle_bool (v ?? 0%Q) limit).
Definition stat_card (label value glyph : jstr) (warning : bool) : node detail_action :=
  div [div [span [Text label]; icon glyph];
       El "span" [Attr "class" ("text-2xl font-bold " ++
                                if warning then "text-amber-400" else "text-slate-900 dark:text-gray-100")] [Text value]].
Definition statCards (s : detail_state) : list (node detail_action) :=
  let m f := latest s ≫= f in
  let uptimeSecs := latest s ≫= m_uptime_secs in
  [stat_card "CPU" (stat_value (m m_cpu_percent) "%") "Cpu" (over (m m_cpu_percent) 80);
   stat_card "RAM" (stat_value (m m_ram_percent) "%") "MemoryStick" (over (m m_ram_percent) 80);
   stat_card "Disk" (stat_value (m m_disk_percent) "%") "HardDrive" (over (m m_disk_percent) 85);
   stat_card "Temp" (stat_value (m m_cpu_temp) "°C") "Thermometer" (over (m m_cpu_temp) 80);
   stat_card "Uptime" (match uptimeSecs with Some u => Uptime.formatUptime u | None => "—" end) "Clock3" false;
   stat_card "Last Boot"
     (match uptimeSecs with Some u => distance_of_time (Uptime.lastBootTime u now) | None => "—" end) "History" false].

Definition uptime_panel (s : detail_state) : node detail_action :=
  let h := dd_uptimeHistory (dt_data s) in
  let percent := (ur_uptime_percent_30d <$> h) ?? 100%Q in
  div [
    div [div [el "h3" [Text "Uptime History (30d)"]; p_ [Text "Recent outages and downtime trends."]];
         El "div" [Attr "class" ("text-2xl font-bold " ++ uptimeTone percent)] [Text (toFixed1 percent); Text "% uptime"]];
    div (map (λ g, El "div" [Attr "title" (seg_date g ++ ": " ++ seg_label g);
                             Attr "class" ("h-8 rounded-md " ++ seg_tone g)] [])
           (buildUptimeSegments tz now ((ur_events <$> h) ?? [])));
    p_ [num_text ((ur_outage_count <$> h) ?? 0); Text " outages in last 30 days · Total downtime: ";
        Text (Uptime.formatUptime ((ur_total_downtime_secs <$> h) ?? 0))]].

Definition InfoRow (label value : jstr) : node detail_action := div [p_ [Text label]; p_ [Text value]].

Definition EditableInfoRow (s : detail_state) (d : Device) (e : editable) : node detail_action :=
  let value := ef_value e d ?? "" in
  div [p_ [Text (ef_label e)];
       if bool_decide (editingField s = Some (ef_field e)) then
         El "input" [Attr "value" (fieldDraft s); OnChange SetFieldDraft; OnBlur (SaveField e); OnEnter (SaveField e)] []
       else button [OnClick (EditField e)] [Text (if truthy value then value else "—")]].

Definition tags_panel (s : detail_state) (d : Device) : node detail_action :=
  div [div (p_ [Text "Tags"] ::
            map (λ t, El "span" [Attr "class" ("rounded-full px-2 py-1 text-xs font-medium "
                                               ++ (Tags.getTagColor t ?? "undefined"))] [Text t]) (d_tags d));
       div [El "input" [Attr "value" (newTag s); OnChange SetNewTag; Attr "placeholder" "Add tag"] [];
            button [OnClick AddTag] [icon "Plus"; Text "Add Tag"]]].

Definition groups_panel (s : detail_state) : node detail_action :=
  let member := dd_deviceGroups (dt_data s) in
  div ([div (p_ [Text "Groups"]
             :: map (λ g, El "span" [Attr "backgroundColor" (g_color g)] [Text (g_name g)]) member
             ++ when (Nat.eqb (length member) 0) [span [Text "No groups assigned"]])]
       ++ when (bool_decide (dt_role s = Some "admin"))
            [div [El "select" [Attr "value" (selectedGroupId s); OnChange SelectGroup]
                    (option_ "" "Add to group" :: map (λ g, option_ (g_id g) (g_name g)) (availableGroups s));
                  button [OnClick AddToGroup;
                          Disabled (negb (truthy (selectedGroupId s)) || dd_addingToGroup (dt_data s))] [Text "Add"]]]).

Definition system_panel (s : detail_state) (d : Device) : node detail_action :=
  div [
    div [el "h3" [Text "System Info"];
         div (when (updateAvailable s) [span [Text "Update Available"]]
              ++ [button [OnClick UpdateAgent; Disabled (dd_updatingAgent (dt_data s))] [Text "Update Agent"]])];
    div ([InfoRow "OS" (d_os_version d ?? os_string (d_os_type d)); InfoRow "Architecture" (d_arch d ?? "—");
          InfoRow "Hostname" (d_hostname d); InfoRow "IP Address" (d_ip_address d ?? "—");
          InfoRow "Enrolled" (formatPPpp (d_enrolled_at d)); InfoRow "Agent Version" (d_agent_version d ?? "—")]
         ++ map (EditableInfoRow s d) EDITABLE
         ++ [div [p_ [Text "Device ID"];
                  div [el "code" [Text (d_id d)];
                       button [OnClick CopyDeviceID] [icon "Copy"; Text (if copied s then "Copied" else "Copy")]]];
             tags_panel s d; groups_panel s])].

Definition screenshot_panel (s : detail_state) (d : Device) : node detail_action :=
  let c := isCapturing (shot s) in
  let image := screenshotData s ≫= ss_image_b64 in
  let captured := screenshotData s ≫= ss_captured_at in
  let error := screenshotData s ≫= ss_error in
  div [
    div [div [el "h3" [Text "Live Screenshot"];
              p_ [Text "Screenshot requires user to be logged in on the device."]];
         button [OnClick RequestScreenshot; Disabled (dd_requesting (dt_data s) || c)]
           [icon "Camera"; Text (if c then "Capturing..." else "Request Screenshot")]];
    div [if otruthy image
         then El "img" [Attr "src" ("data:image/jpeg;base64," ++ (image ?? ""));
                        Attr "alt" ("Screenshot for " ++ d_hostname d)] []
         else div [Text (if c then "Capturing screenshot..." else "No screenshot yet — click Request Screenshot")]];
    div (span [Text (if otruthy captured then "Last captured " ++ formatDistanceToNow (captured ?? "")
                     else if c then "Waiting for capture..." else "No capture yet")]
         :: when (otruthy error) [span [Text (error ?? "")]])].

Definition overviewContent (s : detail_state) (d : Device) : node detail_action :=
  div [div (statCards s);
       div [el "h3" [Text "Last 24h Performance"]; MetricsChart (dd_metrics (dt_data s))];
       uptime_panel s; system_panel s d; screenshot_panel s d].

Definition ssh_row (k : SSHKeyInfo) : node detail_action :=
  el "tr" [
    el "td" [Text (sk_key_type k)]; el "td" [Text (sk_fingerprint k)]; el "td" [Text (sk_comment k ?? "—")];
    el "td" [Text (if otruthy (sk_discovered_at k) then formatDistanceToNow (sk_discovered_at k ?? "") else "—")];
    el "td" [button [OnClick (RemoveSSHKey (sk_id k))] [Text "Remove from inventory"]]].

Definition network_content (s : detail_state) : node detail_action :=
  let keys := dd_sshKeys (dt_data s) in
  div [
    div [div [icon "Network"; el "h3" [Text "Network Interfaces"]]; NetworkInfo];
    div [div [el "h3" [Text "SSH Keys"]; p_ [Text "Removing a key here does not remove it from the device."]];
         div [el "table" [
           el "thead" [el "tr" (map (λ h, el "th" [Text h]) ["Type"; "Fingerprint"; "Comment"; "Discovered"; ""])];
           el "tbody" (map ssh_row keys
                       ++ when (Nat.eqb (length keys) 0)
                            [el "tr" [El "td" [Attr "colSpan" "5"] [Text "No SSH keys reported yet."]]])]]]].

Definition NumberField (label : jstr) (value : num) (f : config_field) : node detail_action :=
  el "label" [span [Text label];
              El "input" [Attr "type" "number"; Attr "min" "1"; Attr "value" (number_string value);
                          OnChange (SetConfig f)] []].
Definition config_content (s : detail_state) (d : Device) : node detail_action :=
  let c := configForm s in
  div ([el "h3" [Text "Agent Config"]]
       ++ when (bool_decide (d_status d = Offline))
            [div [Text "Device is offline — config will apply on next connection."]]
       ++ [div [NumberField "Telemetry Interval (secs)" (dc_telemetry_interval_secs c) Telemetry;
                NumberField "Software Scan (mins)" (dc_software_scan_interval_m c) SoftwareScan;
                NumberField "Event Poll (secs)" (dc_event_poll_interval_secs c) EventPoll];
           button [OnClick SaveConfig] [Text "Save Config"]]).

Definition events_content (s : detail_state) : node detail_action :=
  let choice m label := button [OnClick (SetEventMode m);
    Attr "class" ("rounded-md px-3 py-1 text-xs capitalize " ++
                  if bool_decide (eventMode s = m) then "bg-blue-600 text-white" else "text-slate-600 dark:text-gray-300")]
    [Text label] in
  div [div [el "h3" [Text "Event Log"]; div [choice System "System Events"; choice Agent "Agent Logs"]];
       EventLog (eventMode s)].

Definition contentByTab (s : detail_state) (d : Device) (t : Tab) : node detail_action :=
  match t with
  | Overview => overviewContent s d
  | Software => div [el "h3" [Text "Installed Software"]; SoftwareTable]
  | Events => events_content s
  | Commands => div [el "h3" [Text "Remote Commands"]; CommandPanel]
  | NetworkTab => network_content s
  | Processes =>
      div [div [icon "Activity"; el "h3" [Text "Top Processes"]];
           ProcessList (bool_decide (tab s = Processes) || isMobile s)]
  | Config => config_content s d
  end.

Definition maintenance_banner (d : Device) : list (node detail_action) :=
  when (d_maintenance_mode d ?? false)
    [div [Text "🔧 Maintenance mode active";
          Text (if otruthy (d_maintenance_reason d) then " · " ++ (d_maintenance_reason d ?? "") else "");
          Text (if otruthy (d_maintenance_until d) then " · until " ++ formatPPpp (d_maintenance_until d ?? "") else "")]].

Definition detail_header (d : Device) : node detail_action :=
  div [button [OnClick Back] [icon "ArrowLeft"];
       div [div [el "h1" [Text (d_label d ?? d_hostname d)]; DeviceStatusBadge.DeviceStatusBadge (d_status d) false];
            p_ [Text (d_hostname d); Text " · "; Text (d_os_version d ?? os_string (d_os_type d)); Text " · ";
                Text (d_ip_address d ?? "No IP");
                Text (if otruthy (d_last_seen d) then " · Last seen " ++ formatDistanceToNow (d_last_seen d ?? "") else "")]];
       button [OnClick OpenMaintenance] [icon "Wrench"; Text "Maintenance"]].

Definition mobile_section (s : detail_state) (d : Device) (t : Tab) : node detail_action :=
  el "section" (button [OnClick (ToggleSection t)]
                  [span [Text (match t with Events => "Events & Logs" | _ => tab_string t end)];
                   icon (if openSections s t then "ChevronUp" else "ChevronDown")]
                :: when (openSections s t) [div [contentByTab s d t]]).
Definition tab_button (s : detail_state) (t : Tab) : node detail_action :=
  button [OnClick (SetTab t);
          Attr "class" ("-mb-px border-b-2 px-4 py-2 text-sm capitalize transition-colors " ++
            if bool_decide (tab s = t) then "border-blue-500 text-blue-500"
            else "border-transparent text-slate-500 hover:text-slate-900 dark:text-gray-500 dark:hover:text-gray-300")]
    [Text (tab_string t)].

Definition maintenance_dialog (s : detail_state) : node detail_action :=
  let f := maintenanceForm s in
  div [div [
    div [el "h2" [Text "Maintenance Mode"]; button [OnClick CloseMaintenance] [Text "Close"]];
    el "label" [El "input" [Attr "type" "checkbox"; Checked (mf_enabled f);
                            OnCheck (λ b, SetMaintenance {| mf_enabled := b; mf_reason := mf_reason f; mf_until := mf_until f |})] [];
                Text "Enable maintenance mode"];
    El "textarea" [Attr "value" (mf_reason f); Attr "placeholder" "Reason";
                   OnChange (λ v, SetMaintenance {| mf_enabled := mf_enabled f; mf_reason := v; mf_until := mf_until f |})] [];
    El "input" [Attr "type" "datetime-local"; Attr "value" (mf_until f);
                OnChange (λ v, SetMaintenance {| mf_enabled := mf_enabled f; mf_reason := mf_reason f; mf_until := v |})] [];
    div [button [OnClick CloseMaintenance] [Text "Cancel"]; button [OnClick SaveMaintenance] [Text "Save"]]]].

Definition detail_view (s : detail_state) : node detail_action :=
  if dt_loading s then div [div (repeat Skeleton.SkeletonMetric 6)]
  else match device s with
  | None => div [Text "Device not found"]
  | Some d =>
      div (maintenance_banner d ++ [detail_header d]
           ++ (if isMobile s then [div (map (mobile_section s d) MOBILE_SECTIONS)]
               else [div (map (tab_button s) tabs); contentByTab s d (tab s)])
           ++ when (maintenanceOpen s) [maintenance_dialog s])
  end.
End view.

End DeviceDetail.

(** ** Lemmas *)

Module DetailFacts.
Import DeviceDetail.

(** A version of three numbers. *)
Definition version (v : Z * Z * Z) : jstr :=
  let '(a, b, c) := v in join "." [digits a; digits b; digits c].
Definition version_ok (v : Z * Z * Z) : Prop :=
  let '(a, b, c) := v in in_range a ∧ in_range b ∧ in_range c.
(** The lexicographic order. *)
Definition lex3 (v w : Z * Z * Z) : comparison :=
  let '(a, b, c) := v in
  let '(a', b', c') := w in
  match a ?= a' with Eq => match b ?= b' with Eq => c ?= c' | o => o end | o => o end.
Definition sign_of (c : comparison) : Z := match c with Gt => 1 | Lt => -1 | Eq => 0 end.

Lemma version_parts_version v :
  version_ok v → version_parts (version v) = let '(a, b, c) := v in [of_Z a; of_Z b; of_Z c].
Proof.
  destruct v as [[a b] c]. intros (Ha & Hb & Hc). unfold version_parts, version. change ("." : jstr) with [46].
  rewrite split_join; [|done|].
  - cbn [map]. by rewrite !Number_digits.
  - intros s Hs d Hd ->. destruct Hs as [<-|[<-|[<-|[]]]];
      apply digits_In in Hd; try lia; unfold in_range in *; lia.
Qed.

Lemma num_gt_Z a b : num_gt (of_Z a) (of_Z b) = (b <? a).
Proof.
  unfold num_gt, of_Z. apply eq_true_iff_eq. rewrite negb_true_iff, Z.ltb_lt, <-not_true_iff_false, Qle_bool_iff.
  rewrite <-Zle_Qle. lia.
Qed.

Lemma num_gt_asym a b : num_gt a b = true → num_gt b a = false.
Proof.
  destruct a as [x| | |], b as [y| | |]; simpl; try done. rewrite negb_true_iff, negb_false_iff, Qle_bool_iff.
  intros H. destruct (Qlt_le_dec y x) as [Hl|Hl]; [lra|]. apply Qle_bool_iff in Hl. congruence.
Qed.
Lemma num_gt_irrefl a : num_gt a a = false.
Proof. destruct (num_gt a a) eqn:E; [|done]. by rewrite (num_gt_asym _ _ E) in E. Qed.

Lemma compare_parts_flip a b l : compare_parts a b l = - compare_parts b a l.
Proof.
  induction l as [|i l IH]; [done|]. simpl. destruct (num_gt (part_at a i) (part_at b i)) eqn:E.
  - by rewrite (num_gt_asym _ _ E).
  - destruct (num_gt (part_at b i) (part_at a i)); [done|apply IH].
Qed.

Lemma version_truthy v : otruthy (Some (version v)) = true.
Proof.
  destruct v as [[a b] c]. unfold version, otruthy, truthy. cbn [join]. by destruct (digits a).
Qed.

(** *** Captures *)

Definition run (getTime : jstr → option Z) (i : jstr) (role : option jstr) (w : Z) (l : list detail_action) : detail_state :=
  fold_left (λ s a, fst (detail_update getTime a s)) l (detail_mount i role w).

(** The answered requests of a history. *)
Definition requests (l : list detail_action) : list Z :=
  omap (λ a, match a with ScreenshotRequested now => Some now | _ => None end) l.
(** A screenshot that counts for a request of time [start]: one taken since. *)
Definition fresh (getTime : jstr → option Z) (start : Z) (r : option ScreenshotResponse) : Prop :=
  ∃ at_, r ≫= ss_captured_at = Some at_ ∧ truthy at_ = true ∧ (start = 0 ∨ ∃ t, getTime at_ = Some t ∧ start <= t).
(** A history that ends in a capture, begun by a request answered at time [began] and going on ever since. *)
Definition capturing_since (getTime : jstr → option Z) (i : jstr) (role : option jstr) (w : Z) (l : list detail_action) (began : Z) : Prop :=
  ∃ l1 l2, l = l1 ++ ScreenshotRequested began :: l2 ∧ isCapturing (shot (run getTime i role w l1)) = false ∧
    ∀ p q, l2 = p ++ q → isCapturing (shot (run getTime i role w (l1 ++ ScreenshotRequested began :: p))) = true.

Lemma settle_spec getTime now r c start :
  isCapturing c = true → captureStartedAt c = Some start →
  (fresh getTime start r ∧ settle getTime now r c = set_capturing now false c) ∨ (¬ fresh getTime start r ∧ settle getTime now r c = c).
Proof.
  intros Hc Hs. unfold settle, fresh. destruct (r ≫= ss_captured_at) as [t|]; [|right; by split; [intros (? & ? & _)|]].
  rewrite Hc, Hs. destruct (truthy t) eqn:Et; cbn [andb]; [|right; split; [intros (? & [= <-] & ? & _); congruence|done]].
  destruct (getTime t) as [captured|] eqn:Eg.
  - destruct ((start =? 0) || (start <=? captured)) eqn:E.
    + left. split; [|done]. exists t. split; [done|]. split; [done|]. apply orb_true_iff in E as [E%Z.eqb_eq|E%Z.leb_le]; eauto.
    + right. split; [|done]. apply orb_false_iff in E as [E1%Z.eqb_neq E2%Z.leb_gt]. intros (? & [= <-] & _ & [?|(t' & ? & ?)]); [done|].
      rewrite Eg in *. simplify_eq. lia.
  - destruct (Z.eqb_spec start 0) as [->|Hne].
    + left. split; [|done]. exists t. eauto.
    + right. split; [|done]. intros (? & [= <-] & _ & [?|(t' & ? & ?)]); [done|congruence].
Qed.

(** What an action does to the capture. *)
Lemma update_shot getTime a s :
  shot (fst (detail_update getTime a s)) =
  match a with
  | ScreenshotRequested now => settle getTime now (screenshotData s) (capture_started now (shot s))
  | CaptureTimeout now => capture_timeout now (shot s)
  | ScreenshotArrived now r => settle getTime now (Some r) (shot s)
  | _ => shot s
  end.
Proof. destruct a; try done. cbn [detail_update fst]. by case_bool_decide. Qed.

Lemma run_snoc getTime i role w l a : run getTime i role w (l ++ [a]) = fst (detail_update getTime a (run getTime i role w l)).
Proof. unfold run. by rewrite fold_left_app. Qed.

Lemma settle_started getTime now r c : captureStartedAt (settle getTime now r c) = captureStartedAt c.
Proof. unfold settle. by repeat case_match. Qed.
Lemma timeout_started now c : captureStartedAt (capture_timeout now c) = captureStartedAt c.
Proof. unfold capture_timeout. by repeat case_match. Qed.
Lemma run_started getTime i role w l : captureStartedAt (shot (run getTime i role w l)) = last (requests l).
Proof.
  induction l as [|a l IH] using rev_ind; [done|]. rewrite run_snoc, update_shot. unfold requests. rewrite omap_app.
  destruct a; cbn [omap list_omap]; rewrite ?app_nil_r; rewrite ?settle_started, ?timeout_started; try exact IH.
  by rewrite last_snoc.
Qed.

Lemma capturing_since_snoc getTime i role w l a began :
  capturing_since getTime i role w l began → isCapturing (shot (run getTime i role w (l ++ [a]))) = true →
  capturing_since getTime i role w (l ++ [a]) began.
Proof.
  intros (l1 & l2 & -> & H1 & H2) Ha. exists l1, (l2 ++ [a]). rewrite <-app_assoc. split; [done|]. split; [done|].
  intros p q E. destruct q as [|x q _] using rev_ind.
  - rewrite app_nil_r in E. subst p. by rewrite <-app_assoc in Ha.
  - rewrite app_assoc in E. apply app_inj_tail in E as [E _]. by apply (H2 p q).
Qed.

(** The timer runs thirty seconds from the request the capture began with, and there is none without a capture. *)
Lemma run_timer getTime i role w l :
  let c := shot (run getTime i role w l) in
  (isCapturing c = false → timer c = None) ∧
  (isCapturing c = true → ∃ began, capturing_since getTime i role w l began ∧ timer c = Some (began + 30000)).
Proof.
  cbv zeta. induction l as [|a l [IH0 IH1]] using rev_ind; [done|].
  pose proof (capturing_since_snoc getTime i role w l a) as Hsnoc. pose proof (run_started getTime i role w (l ++ [a])) as Hst.
  assert (shot (run getTime i role w (l ++ [a])) = shot (run getTime i role w l) ∨
          isCapturing (shot (run getTime i role w (l ++ [a]))) = false ∧ timer (shot (run getTime i role w (l ++ [a]))) = None ∨
          ∃ now, a = ScreenshotRequested now ∧ shot (run getTime i role w (l ++ [a])) = capture_started now (shot (run getTime i role w l)))
    as [E|[[E1 E2]|(now & -> & E)]].
  { rewrite run_snoc, update_shot. destruct a; try (by left).
    - destruct (settle_spec getTime now (screenshotData (run getTime i role w l)) (capture_started now (shot (run getTime i role w l))) now)
        as [[_ ->]|[_ ->]]; [done|done|right; left; done|right; right; by exists now].
    - unfold capture_timeout. destruct (timer (shot (run getTime i role w l))); [|by left]. destruct (_ <=? _); [right; by left|by left].
    - destruct (isCapturing (shot (run getTime i role w l))) eqn:Ec.
      + rewrite run_snoc, update_shot in Hst. destruct (captureStartedAt (shot (run getTime i role w l))) as [start|] eqn:Es.
        * destruct (settle_spec getTime now (Some r) (shot (run getTime i role w l)) start Ec Es) as [[_ ->]|[_ ->]];
            [right; left; done|by left].
        * unfold settle. rewrite Ec, Es. repeat case_match; first [right; left; done|by left].
      + left. unfold settle. rewrite Ec. by repeat case_match. }
  - split; intros Hc; rewrite E in Hc |- *; [by apply IH0|]. destruct (IH1 Hc) as (b & Hb & Ht). exists b.
    split; [apply Hsnoc; [done|by rewrite E]|done].
  - rewrite E1, E2. done.
  - split; [by rewrite E|]. intros _. destruct (isCapturing (shot (run getTime i role w l))) eqn:Ec.
    + destruct (IH1 eq_refl) as (b & Hb & Ht). exists b. split; [apply Hsnoc; [done|by rewrite E]|]. rewrite E. simpl. by rewrite Ec.
    + exists now. rewrite E. split; [|simpl; by rewrite Ec]. exists l, []. split; [done|]. split; [done|].
      intros p q Ep. apply eq_sym, app_eq_nil in Ep as [-> ->]. by rewrite E.
Qed.

(** *** The uptime bar *)

Definition sum (l : list Z) : Z := fold_right Z.add 0 l.

(** The downtime the events of a day report. *)
Definition day_downtime (key : jstr) (events : list UptimeHistoryEvent) : Z :=
  sum (map (λ e, uh_duration_secs e ?? 0)
         (bfilter (λ e, match uh_event_type e with WentOnline => slice_to 10 (uh_timestamp e) =s key | WentOffline => false end)
            events)).

(** What the entries hold: of equal keys the last one has the downtime of the day. *)
Fixpoint day_totals (keys : list jstr) (events : list UptimeHistoryEvent) : list (jstr * Z) :=
  match keys with
  | [] => []
  | k :: rest => (k, if existsb (seqb k) rest then 0 else day_downtime k events) :: day_totals rest events
  end.

Lemma day_downtime_snoc key l e : day_downtime key (l ++ [e]) = day_downtime key l + day_downtime key [e].
Proof.
  unfold day_downtime. rewrite bfilter_app, map_app. unfold sum. rewrite fold_right_app.
  match goal with |- context [fold_right Z.add 0 (map ?f (bfilter ?g [e]))] => generalize (fold_right Z.add 0 (map f (bfilter g [e]))) as n end.
  intros n. match goal with |- context [map ?f (bfilter ?g l)] => generalize (map f (bfilter g l)) as m end.
  intros m. induction m as [|x m IH]; cbn [fold_right]; lia.
Qed.

Lemma add_downtime_totals key secs keys events :
  add_downtime key secs (day_totals keys events) =
  if existsb (seqb key) keys
  then Some ((fix go keys := match keys with
                             | [] => []
                             | k :: rest => (k, if existsb (seqb k) rest then 0
                                                else day_downtime k events + if key =s k then secs else 0) :: go rest
                             end) keys)
  else None.
Proof.
  induction keys as [|k keys IH]; [done|]. cbn [day_totals add_downtime existsb]. rewrite IH. clear IH.
  assert ((k =s key) = (key =s k)) as -> by (unfold seqb; apply bool_decide_ext; split; congruence).
  destruct (existsb (seqb key) keys) eqn:E; rewrite ?orb_true_r, ?orb_false_r.
  - do 3 f_equal. destruct (existsb (seqb k) keys) eqn:Ek; [done|]. destruct (key =s k) eqn:Ekk; [|lia].
    apply seqb_true in Ekk as ->. congruence.
  - destruct (key =s k) eqn:Ekk; [|done]. apply seqb_true in Ekk as <-. rewrite E. do 2 f_equal.
    clear -E. induction keys as [|k keys IH]; [done|]. cbn [existsb] in E. apply orb_false_iff in E as [E1 E2]. cbn [day_totals].
    rewrite E1. rewrite <-IH by done. do 2 f_equal. destruct (existsb (seqb k) keys); lia.
Qed.
Lemma apply_event_totals keys events e : apply_event (day_totals keys events) e = day_totals keys (events ++ [e]).
Proof.
  assert (∀ keys, (∀ k, In k keys → day_downtime k [e] = 0) → day_totals keys events = day_totals keys (events ++ [e])) as Hzero.
  { clear. induction keys as [|k keys IH]; intros H; [done|]. cbn [day_totals]. rewrite IH by (intros x Hx; apply H; by right).
    rewrite day_downtime_snoc, (H k) by (by left). do 2 f_equal. destruct (existsb _ _); lia. }
  unfold apply_event. destruct (uh_event_type e) eqn:Et.
  - rewrite add_downtime_totals. destruct (existsb (seqb _) keys) eqn:E; cbn [from_option].
    + assert (∀ k, day_downtime k [e] = if slice_to 10 (uh_timestamp e) =s k then uh_duration_secs e ?? 0 else 0) as Hone.
      { intros k. unfold day_downtime, bfilter, sum. cbn [List.filter]. rewrite Et. destruct (_ =s k); simpl; lia. }
      clear E Hzero. change (Some ?x ?? ?y) with x. induction keys as [|k keys IH]; [done|]. cbn [day_totals].
      rewrite IH, day_downtime_snoc, Hone. done.
    + apply Hzero. intros k Hk. unfold day_downtime, bfilter, sum. cbn [List.filter]. rewrite Et.
      destruct (slice_to 10 (uh_timestamp e) =s k) eqn:Ek; [|done]. apply not_true_iff_false in E. destruct E.
      apply existsb_exists. by exists k.
  - apply Hzero. intros k _. unfold day_downtime, bfilter, sum. cbn [List.filter]. by rewrite Et.
Qed.
Lemma uptime_days keys events : fold_left apply_event events (map (λ k, (k, 0)) keys) = day_totals keys events.
Proof.
  induction events as [|e events IH] using rev_ind.
  - simpl. induction keys as [|k keys IH]; [done|]. cbn [map day_totals]. rewrite IH. do 2 f_equal. by destruct (existsb _ _).
  - rewrite fold_left_app, IH. apply apply_event_totals.
Qed.
Lemma day_totals_distinct keys events :
  NoDup keys → day_totals keys events = map (λ k, (k, day_downtime k events)) keys.
Proof.
  induction 1 as [|k keys Hk Hd IH]; [done|]. cbn [day_totals map]. rewrite IH.
  assert (existsb (seqb k) keys = false) as ->; [|done]. apply not_true_iff_false. intros (x & Hx & <-%seqb_true)%existsb_exists.
  apply Hk. by apply list_elem_of_In.
Qed.
Lemma day_totals_keys keys events : map fst (day_totals keys events) = keys.
Proof. induction keys as [|k keys IH]; [done|]. cbn [day_totals map fst]. by rewrite IH. Qed.

(** The text of a date tells the day. *)
Lemma pad0_digits n z : 0 <= z → (∀ c, In c (pad0 n z) → c ≠ 45) ∧ digit_value 0 (pad0 n z) = z.
Proof.
  intros Hz. unfold pad0, padStart, string_of_Z. destruct (Z.ltb_spec z 0); [lia|]. destruct (digits_spec z Hz) as (Hd & Hv & _). split.
  - intros c [Hc|Hc]%in_app_or; [apply list_elem_of_In, elem_of_replicate in Hc; lia|]. apply digits_In in Hc; lia.
  - unfold digit_value. rewrite fold_left_app. assert (∀ k, fold_left (λ a c, a * 10 + (c - 48)) (replicate k 48) 0 = 0) as Hk.
    { induction k as [|k IH]; [done|]. simpl. exact IH. }
    by rewrite Hk.
Qed.
Lemma dash_inj (a a' b b' : jstr) :
  (∀ c, In c a → c ≠ 45) → (∀ c, In c a' → c ≠ 45) → a ++ "-" ++ b = a' ++ "-" ++ b' → a = a' ∧ b = b'.
Proof.
  revert a'. induction a as [|c a IH]; intros [|c' a'] Ha Ha' E; simpl in E.
  - by injection E as ->.
  - injection E as E _. by destruct (Ha' c' (or_introl eq_refl)).
  - injection E as E _. by destruct (Ha c (or_introl eq_refl)).
  - injection E as -> E. destruct (IH a') as [-> ->]; [intros d Hd; apply Ha; by right|intros d Hd; apply Ha'; by right|exact E|done].
Qed.
Lemma iso_date_inj t t' :
  0 <= Date.year_of (t / Date.ms_per_day) → 0 <= Date.year_of (t' / Date.ms_per_day) →
  iso_date t = iso_date t' → t / Date.ms_per_day = t' / Date.ms_per_day.
Proof.
  intros Hy Hy' E. unfold iso_date in E. set (d := t / Date.ms_per_day) in *. set (d' := t' / Date.ms_per_day) in *. clearbody d d'.
  destruct (Date.civil_bounds d) as [Hm Hd], (Date.civil_bounds d') as [Hm' Hd'].
  apply dash_inj in E as [E1 E]; [|apply pad0_digits; lia..]. apply dash_inj in E as [E2 E3]; [|apply pad0_digits; lia..].
  apply (f_equal (digit_value 0)) in E1, E2, E3.
  rewrite !(λ n z H, proj2 (pad0_digits n z H)) in E1, E2, E3 by lia. apply Date.date_inj; [done|].
  destruct (Date.civil d), (Date.civil d'). simpl in *. congruence.
Qed.

(** A zone without clock changes. *)
Definition fixed_zone (offset : Z) : zone := {| LocalTime := λ t, t + offset; UTC_of := λ t, t - offset |}.
Lemma day_keys_fixed offset now :
  day_keys (fixed_zone offset) now = map (λ i, iso_date (now - (29 - Z.of_nat i) * Date.ms_per_day)) (seq 0 30).
Proof. apply map_ext. intros i. unfold days_back. simpl. f_equal. lia. Qed.
Lemma day_keys_distinct offset now :
  (∀ n, 0 <= n <= 29 → 0 <= Date.year_of (now / Date.ms_per_day - n)) → NoDup (day_keys (fixed_zone offset) now).
Proof.
  intros Hy. rewrite day_keys_fixed. refine (NoDup_fmap_2_strong _ (seq 0 30) _ (NoDup_seq 0 30)).
  intros i j Hi%elem_of_seq Hj%elem_of_seq E.
  assert (∀ k, (now - k * Date.ms_per_day) / Date.ms_per_day = now / Date.ms_per_day - k) as Hday by (intros k; unfold Date.ms_per_day; zdiv).
  apply iso_date_inj in E; rewrite ?Hday in *; [lia|apply Hy; lia..].
Qed.

Lemma uptimePercent_bounds t : 0 <= t → (0 <= uptimePercent t <= 1)%Q.
Proof.
  intros H. unfold uptimePercent.
  assert (0 <= inject_Z (Z.max 0 (86400 - t)) <= 86400)%Q as [H1 H2].
  { split; [rewrite <-(Zle_Qle 0)|rewrite <-(Zle_Qle _ 86400)]; lia. }
  split; [apply Qle_shift_div_l; lra|apply Qle_shift_div_r; lra].
Qed.

Lemma day_downtime_nonneg key events :
  Forall (λ e, 0 <= uh_duration_secs e ?? 0) events → 0 <= day_downtime key events.
Proof.
  intros H. unfold day_downtime, sum. rewrite List.Forall_forall in H.
  assert (∀ l, (∀ x, In x l → 0 <= x) → 0 <= fold_right Z.add 0 l) as Hs.
  { clear. induction l as [|x l IH]; intros Hl; simpl; [lia|].
    assert (0 <= x) by (apply Hl; by left). assert (0 <= fold_right Z.add 0 l) by (apply IH; intros y Hy; apply Hl; by right). lia. }
  apply Hs. intros x (e & <- & [He _]%bfilter_In)%in_map_iff. by apply H.
Qed.

Lemma round_percent t : 0 <= t → 0 <= round (uptimePercent t * 100) <= 100.
Proof.
  intros H. destruct (uptimePercent_bounds t H) as [H1 H2]. unfold round. split.
  - change 0 with (Qfloor 0). apply Qfloor_resp_le. lra.
  - assert (Qfloor (uptimePercent t * 100 + (1 # 2)) < 101); [|lia]. rewrite Zlt_Qlt.
    eapply Qle_lt_trans; [apply Qfloor_le|]. change (inject_Z 101) with 101%Q. lra.
Qed.

Lemma percent_le t q :
  0 <= t → (q <= uptimePercent t <-> q * 86400 <= inject_Z (Z.max 0 (86400 - t)))%Q.
Proof.
  intros _. unfold uptimePercent. assert (inject_Z (Z.max 0 (86400 - t)) / 86400 * 86400 == inject_Z (Z.max 0 (86400 - t)))%Q
    as E by field. set (u := (inject_Z (Z.max 0 (86400 - t)) / 86400)%Q) in *. split; intros H; lra.
Qed.

Lemma tone_green k t : 0 <= t → seg_tone (segment_of (k, t)) = "bg-emerald-500" ↔ t <= 86.
Proof.
  intros Ht. unfold segment_of. cbn [seg_tone snd]. pose proof (percent_le t (999 # 1000) Ht) as H.
  assert (((999 # 1000) * 86400 <= inject_Z (Z.max 0 (86400 - t)))%Q ↔ t <= 86) as Hz.
  { unfold Qle, Qmult, inject_Z. simpl. lia. }
  destruct (Qle_bool (999 # 1000) (uptimePercent t)) eqn:E.
  - apply Qle_bool_iff in E. tauto.
  - assert (¬ t <= 86) by (intros Hle; apply Hz, H, Qle_bool_iff in Hle; congruence).
    destruct (Qle_bool (uptimePercent t) 0); split; intros Hx; try done; discriminate Hx.
Qed.

Lemma tone_grey k t : 0 <= t → seg_tone (segment_of (k, t)) = "bg-slate-300 dark:bg-gray-700" ↔ 86400 <= t.
Proof.
  intros Ht. unfold segment_of. cbn [seg_tone snd].
  assert (uptimePercent t * 86400 == inject_Z (Z.max 0 (86400 - t)))%Q as E by (unfold uptimePercent; field).
  assert ((uptimePercent t <= 0)%Q ↔ 86400 <= t) as Hz.
  { assert ((inject_Z (Z.max 0 (86400 - t)) <= 0)%Q ↔ 86400 <= t) as <- by (rewrite <-(Zle_Qle _ 0); lia).
    split; intros H; lra. }
  destruct (Qle_bool (999 # 1000) (uptimePercent t)) eqn:E1; [apply Qle_bool_iff in E1|].
  - split; [intros [=]|]. intros H%Hz. lra.
  - destruct (Qle_bool (uptimePercent t) 0) eqn:E2.
    + apply Qle_bool_iff in E2. tauto.
    + split; [intros [=]|]. intros H%Hz%Qle_bool_iff. congruence.
Qed.

(** *** Tags *)

Lemma added_tags_spec d tag :
  let l := added_tags d tag in
  List.NoDup l ∧ (∀ t, In t l ↔ In t (d_tags d) ∨ t = tag) ∧
  (List.NoDup (d_tags d) → In tag (d_tags d) → l = d_tags d).
Proof.
  intros l. subst l. unfold added_tags. split_and!.
  - apply dedup_NoDup, seqb_true.
  - intros t. rewrite (dedup_In seqb seqb_true), in_app_iff. simpl. naive_solver.
  - intros Hd Ht. rewrite (dedup_snoc seqb seqb_true), (dedup_id seqb seqb_true) by done.
    assert (existsb (λ y, y =s tag) (d_tags d) = true) as ->; [|done].
    apply existsb_exists. exists tag. split; [done|apply seqb_refl].
Qed.

End DetailFacts.

(** ** Properties *)

Module DetailProps.
Import DeviceDetail DetailFacts.

(** C14: the comparison of versions is, on versions of three numbers, the lexicographic order of the numbers; on all
    versions it is antisymmetric, and no version is newer than itself, even where a part is no number. *)
Theorem semver_lexicographic v w :
  version_ok v → version_ok w →
  compareSemver (version v) (Some (version w)) = sign_of (lex3 v w) ∧
  ∀ a b, truthy a = true → truthy b = true →
         compareSemver a (Some b) = - compareSemver b (Some a) ∧ compareSemver a (Some a) = 0.
Proof.
  intros Hv Hw. split.
  - unfold compareSemver. rewrite version_truthy. cbn [negb from_null]. rewrite !version_parts_version by done.
    destruct v as [[a b] c], w as [[a' b'] c']. unfold compare_parts, part_at. cbn [nth].
    rewrite !num_gt_Z. unfold lex3, sign_of.
    destruct (Z.compare_spec a a'), (Z.compare_spec b b'), (Z.compare_spec c c');
      repeat match goal with |- context [?x <? ?y] => destruct (Z.ltb_spec x y); try lia end.
  - intros a b Ha Hb. unfold compareSemver, otruthy. rewrite Ha, Hb. cbn [negb from_null]. split.
    + apply compare_parts_flip.
    + pose proof (compare_parts_flip (version_parts a) (version_parts a) [0; 1; 2]%nat). lia.
Qed.

Lemma semver_lexicographic_witness :
  compareSemver "1.10.0" (Some "1.9.12") = 1 ∧ compareSemver "v1.2.3" (Some "v2.2.3") = 0.
Proof.
  split; [|vm_compute; reflexivity].
  apply (semver_lexicographic (1, 10, 0) (1, 9, 12)); repeat split; unfold in_range; lia.
Defined.

(** C33: when a screenshot is being captured.  In every history of the page a capture begins when the request is answered
    (and no screenshot taken since is there), and goes on until a screenshot taken since the last answered request
    arrives, or until thirty seconds from the request it began with, whichever is first; an older screenshot does not end
    it, nor does anything else.  While it goes on no further one can be requested, and without one no timeout is pending. *)
Theorem capture_ends getTime i role w l distance d :
  let s := run getTime i role w l in
  let c := shot s in
  let capturing a := isCapturing (shot (fst (detail_update getTime a s))) in
  (isCapturing c = false →
     timer c = None ∧ ∀ a, capturing a = true ↔ ∃ now, a = ScreenshotRequested now ∧ ¬ fresh getTime now (screenshotData s)) ∧
  (isCapturing c = true →
     clicks (screenshot_panel distance s d) = [] ∧
     ∃ began started, capturing_since getTime i role w l began ∧ last (requests l) = Some started ∧
       timer c = Some (began + 30000) ∧
       ∀ a, capturing a = false ↔
            match a with
            | CaptureTimeout now => began + 30000 <= now
            | ScreenshotArrived _ r => fresh getTime started (Some r)
            | ScreenshotRequested now => fresh getTime now (screenshotData s)
            | _ => False
            end).
Proof.
  intros s c capturing. destruct (run_timer getTime i role w l) as [H0 H1]. fold s c in H0, H1.
  assert (∀ now, settle getTime now (screenshotData s) (capture_started now c) = set_capturing now false (capture_started now c) ∧
                 fresh getTime now (screenshotData s) ∨
                 settle getTime now (screenshotData s) (capture_started now c) = capture_started now c ∧
                 ¬ fresh getTime now (screenshotData s)) as Hreq.
  { intros now. destruct (settle_spec getTime now (screenshotData s) (capture_started now c) now) as [[? ->]|[? ->]]; auto. }
  split.
  - intros Hc. split; [by apply H0|]. intros a. unfold capturing. rewrite update_shot. fold c.
    destruct a; try (split; [congruence|by intros (? & ? & _)]).
    + destruct (Hreq now) as [[-> Hf]|[-> Hf]]; simpl; split; [done|by intros (? & [= <-] & ?)|by eauto|done].
    + unfold capture_timeout. rewrite (H0 Hc). split; [congruence|by intros (? & ? & _)].
    + unfold settle. rewrite Hc. split; [|by intros (? & ? & _)]. intros E. exfalso. revert E. repeat case_match; simpl in *; congruence.
  - intros Hc. split.
    { unfold screenshot_panel. fold c. rewrite Hc, orb_true_r.
      by destruct (otruthy (screenshotData s ≫= ss_image_b64)), (otruthy (screenshotData s ≫= ss_error)). }
    destruct (H1 Hc) as (began & Hb & Ht). pose proof (run_started getTime i role w l) as Hs. fold s c in Hs.
    assert (∃ started, last (requests l) = Some started) as (started & Hl).
    { destruct (last (requests l)) as [x|] eqn:E; [by exists x|]. apply last_None in E. destruct Hb as (l1 & l2 & Hl & _).
      rewrite Hl in E. unfold requests in E. rewrite omap_app in E. cbn [omap list_omap] in E. by apply app_eq_nil in E as [_ ?]. }
    exists began, started. rewrite Hl in Hs. do 3 (split; [done|]). intros a. unfold capturing. rewrite update_shot. fold c.
    destruct a; try (by split; [congruence|]).
    + destruct (Hreq now) as [[-> Hf]|[-> Hf]]; simpl; by split.
    + unfold capture_timeout. rewrite Ht. destruct (Z.leb_spec (began + 30000) now); simpl; [by split|]. split; [congruence|lia].
    + destruct (settle_spec getTime now (Some r) c started Hc Hs) as [[Hf ->]|[Hf ->]]; simpl; [by split|]. split; [congruence|done].
Qed.

Lemma capture_ends_witness :
  let getTime t := if t =s "old" then Some 500 else Some 2000 in
  let taken t := {| ss_image_b64 := None; ss_captured_at := Some t; ss_width := None; ss_height := None; ss_error := None; ss_status := None |} in
  let after a := isCapturing (shot (fst (detail_update getTime a (run getTime "d" None 800 [RequestScreenshot; ScreenshotRequested 1000])))) in
  after (ScreenshotArrived 1500 (taken "old")) = true ∧ after (ScreenshotArrived 2500 (taken "new")) = false ∧
  after (CaptureTimeout 30999) = true ∧ after (CaptureTimeout 31000) = false.
Proof.
  intros getTime taken after.
  destruct (capture_ends getTime "d" None 800 [RequestScreenshot; ScreenshotRequested 1000] (λ _, []) (PagesProps.sample_device "d")) as [_ H].
  destruct H as (_ & began & started & (l1 & l2 & E & _) & [= <-] & Ht & Hend); [reflexivity|].
  assert (began = 1000) as -> by (injection Ht as Ht; lia).
  split_and!; [apply not_false_is_true; intros Ha; apply Hend in Ha|apply Hend|apply not_false_is_true; intros Ha; apply Hend in Ha; lia|apply Hend; lia].
  - destruct Ha as (? & [= <-] & _ & [?|(t & [= <-] & ?)]); lia.
  - exists "new". split; [reflexivity|]. split; [reflexivity|]. right. exists 2000. split; [reflexivity|lia].
Defined.

(** C35: the uptime bar has thirty segments, with the dates of the last thirty days in order, the last one today's.  A
    segment shows the part of its day left by the sum of the outages that ended on it (a repeated date has it in the last
    of its segments), with a percentage between 0 and 100, green from 99.9 per cent and grey for nothing left.  Where the
    clock has no changes the dates are those of the last thirty days of UTC, each once, so that there is one segment
    per day. *)
Theorem uptime_bar_days z now events :
  let bar := buildUptimeSegments z now events in
  length bar = 30%nat ∧ map seg_date bar = day_keys z now ∧ bar = map segment_of (day_totals (day_keys z now) events) ∧
  (∀ offset, z = fixed_zone offset → (∀ n, 0 <= n <= 29 → 0 <= Date.year_of (now / Date.ms_per_day - n)) →
     NoDup (day_keys z now) ∧ bar = map (λ k, segment_of (k, day_downtime k events)) (day_keys z now) ∧
     ∀ i, (i < 30)%nat → day_keys z now !! i = Some (iso_date (now - (29 - Z.of_nat i) * Date.ms_per_day))) ∧
  (Forall (λ e, 0 <= uh_duration_secs e ?? 0) events → ∀ k,
     let t := day_downtime k events in
     0 <= round (uptimePercent t * 100) <= 100 ∧
     (seg_tone (segment_of (k, t)) = "bg-emerald-500" ↔ t <= 86) ∧
     (seg_tone (segment_of (k, t)) = "bg-slate-300 dark:bg-gray-700" ↔ 86400 <= t)).
Proof.
  intros bar. assert (bar = map segment_of (day_totals (day_keys z now) events)) as E
    by (unfold bar, buildUptimeSegments; by rewrite uptime_days).
  assert (map seg_date bar = day_keys z now) as Ek by (rewrite E, map_map; apply day_totals_keys).
  split_and!; [by rewrite <-(length_map seg_date), Ek|done|done| |].
  - intros offset -> Hy. pose proof (day_keys_distinct offset now Hy) as Hd. split; [done|]. split.
    + by rewrite E, day_totals_distinct, map_map.
    + intros i Hi. rewrite day_keys_fixed. rewrite list_lookup_fmap, lookup_seq_lt by done. done.
  - intros He k t. pose proof (day_downtime_nonneg k events He) as Ht. fold t in Ht.
    split; [by apply round_percent|]. split; [by apply tone_green|by apply tone_grey].
Qed.

Lemma uptime_bar_days_witness :
  let down := {| uh_id := "e"; uh_event_type := WentOnline; uh_timestamp := "2024-05-02T06:00:00Z";
                 uh_duration_secs := Some 172800 |} in
  (* 2024-05-02, 12:00 UTC *)
  let now := 1714651200000 in
  day_keys (fixed_zone 7200000) now !! 29%nat = Some ("2024-05-02" : jstr) ∧
  seg_label <$> (buildUptimeSegments (fixed_zone 7200000) now [down] !! 29%nat) = Some ("0% uptime" : jstr).
Proof.
  intros down now. destruct (uptime_bar_days (fixed_zone 7200000) now [down]) as (_ & _ & _ & Hfixed & _).
  destruct (Hfixed 7200000 eq_refl) as (_ & -> & Hk).
  - intros n Hn. unfold Date.year_of. assert (19815 <= now / Date.ms_per_day - n <= 19845) as Hd by (unfold now, Date.ms_per_day; zdiv).
    unfold Date.year_of_era. generalize dependent (now / Date.ms_per_day - n). intros d Hd.
    assert (0 <= (d + 719468) / 146097) by zdiv. assert (0 <= Date.day_of_era d < 146097) by (unfold Date.day_of_era; apply Z.mod_pos_bound; lia).
    assert (0 <= (Date.day_of_era d - Date.day_of_era d / 1460 + Date.day_of_era d / 36524 - Date.day_of_era d / 146096) / 365) by zdiv.
    case_match; lia.
  - split; [rewrite Hk by lia; vm_compute; reflexivity|vm_compute; reflexivity].
Defined.

(** Where the clock is put forward between two of the days, in the small hours of the day after it a date is repeated: on
    9 April 2024, 23:30 UTC, Berlin's list has 31 March twice, and the first of the two segments shows nothing of its
    outage. *)
Definition berlin_2024 : zone :=
  {| LocalTime := λ t, t + (if t <? 1711846800000 then 3600000 else 7200000);
     UTC_of := λ t, t - (if t <? 1711846800000 + 7200000 then 3600000 else 7200000) |}.
Theorem clock_change_repeats_day :
  let bar := buildUptimeSegments berlin_2024 1712705400000
    [{| uh_id := "e"; uh_event_type := WentOnline; uh_timestamp := "2024-03-31T06:00:00Z"; uh_duration_secs := Some 86400 |}] in
  map (λ g, (seg_date g, seg_label g)) (take 2 (drop 19 bar)) = [("2024-03-31", "100% uptime"); ("2024-03-31", "0% uptime")].
Proof. vm_compute. reflexivity. Qed.

End DetailProps.
