(* ===== verification/MobileScreens.v ===== *)
(** The screens of the mobile app: [mobile/src/screens], [CommandOutputModal]
    and [AppNavigator].  The session behind the login and settings screens is
    that of [HttpClient.MobileClient]. *)
From Stdlib Require Import QArith Qround Lqa.
From S2P Require Import Prelude JsString JsNumber Types JsJson Api Stores HttpClient Ui DeviceComponents.
Import mobileCommandsApi localStorage.
Local Open Scope Z_scope.
Local Open Scope js_scope.

(** ** Elements *)

Section native.
Context {A : Type}.
Definition View (cs : list (node A)) : node A := el "View" cs.
Definition txt (t : jstr) : node A := el "Text" [Text t].
Definition Touchable (onPress : A) (cs : list (node A)) : node A := El "TouchableOpacity" [OnClick onPress] cs.
Definition ScrollView (refreshing : bool) (onRefresh : A) (cs : list (node A)) : node A :=
  El "ScrollView" [Attr "refreshing" (if refreshing then "true" else "false"); OnSubmit onRefresh] cs.
(** A list, or what stands for an empty one. *)
Definition FlatList (refreshing : bool) (onRefresh : A) (rows : list (node A)) (empty : node A) : node A :=
  ScrollView refreshing onRefresh (match rows with [] => [empty] | _ => rows end).
Definition spinner : node A := View [icon "ActivityIndicator"].
End native.

(** The colours of a gauge. *)
Definition gauge_color (value : Q) : jstr :=
  if negb (Qle_bool value 85) then "#ef4444" else if negb (Qle_bool value 70) then "#f59e0b" else "#22c55e".

(** ** AlertsScreen *)

Module AlertsScreen.

Record AlertItem := {
  ai_id : jstr; ai_device_id : jstr; ai_alert_type : jstr; ai_severity : jstr; ai_message : jstr;
  ai_created_at : jstr }.

Definition SEVERITY_COLORS (severity : jstr) : option jstr :=
  if severity =s "critical" then Some "#ef4444" else if severity =s "warning" then Some "#f59e0b"
  else if severity =s "info" then Some "#3b82f6" else None.
Definition SEVERITY_ORDER (severity : jstr) : option Z :=
  if severity =s "critical" then Some 0 else if severity =s "warning" then Some 1
  else if severity =s "info" then Some 2 else None.

Definition mobile_alerts_query : query :=
  Query [JStr "mobile-all-alerts"] (get_params "/alerts" [("resolved", JBool false); ("limit", JZ 200)]) 30000 true.

Inductive alerts_action := Resolve (id : jstr) | ResolveSucceeded | RefreshAlerts.
Definition alerts_update (a : alerts_action) : list ui_effect :=
  match a with
  | Resolve id => [Request (post_empty ("/alerts/" ++ id ++ "/resolve"))]
  | ResolveSucceeded => [Invalidate ["mobile-all-alerts"]]
  | RefreshAlerts => [Refetch ["mobile-all-alerts"]]
  end.

Section screen.
(** [new Date(t).getTime()], [None] for [NaN] *)
Context (getTime : jstr → option Z) (formatDistanceToNow : jstr → jstr).

(** [compare(a, b) <= 0]; the sort treats [NaN] as 0. *)
Definition alert_before (a b : AlertItem) : bool :=
  let sev := (SEVERITY_ORDER (ai_severity a) ?? 99) - (SEVERITY_ORDER (ai_severity b) ?? 99) in
  if negb (sev =? 0) then sev <=? 0
  else match getTime (ai_created_at b), getTime (ai_created_at a) with
       | Some tb, Some ta => tb - ta <=? 0
       | _, _ => true
       end.
Definition sorted_alerts (rawAlerts : list AlertItem) : list AlertItem := stable_sort alert_before rawAlerts.

Definition AlertCard (alert : AlertItem) : node alerts_action :=
  let color := SEVERITY_COLORS (ai_severity alert) ?? "#94a3b8" in
  El "View" [Attr "borderLeftColor" color] [
    View [El "Text" [Attr "color" color] [Text (toUpperCase (ai_severity alert))];
          txt (formatDistanceToNow (ai_created_at alert))];
    txt (ai_message alert); txt (ai_alert_type alert);
    View [El "Text" [OnClick (Resolve (ai_id alert))] [Text "Resolve"]]].

Definition AlertsScreen (isLoading isFetching : bool) (rawAlerts : list AlertItem) : node alerts_action :=
  if isLoading then spinner
  else FlatList isFetching RefreshAlerts (map AlertCard (sorted_alerts rawAlerts)) (View [txt "No active alerts"]).
End screen.

(** *** Lemmas *)

Definition rank (a : AlertItem) : Z := SEVERITY_ORDER (ai_severity a) ?? 99.

(** The order of the list: by severity, then the newest first. *)
Definition in_order (getTime : jstr → option Z) (a b : AlertItem) : Prop :=
  rank a < rank b ∨
  (rank a = rank b ∧ ∃ ta tb, getTime (ai_created_at a) = Some ta ∧ getTime (ai_created_at b) = Some tb ∧ tb <= ta).

Section order.
Context (getTime : jstr → option Z) (l : list AlertItem).
Hypothesis dates : ∀ a, In a l → is_Some (getTime (ai_created_at a)).

(** The comparison with the dates read beforehand: total on all alerts. *)
Definition time_of (a : AlertItem) : Z := getTime (ai_created_at a) ?? 0.
Definition before_total (a b : AlertItem) : bool :=
  (rank a <? rank b) || ((rank a =? rank b) && (time_of b <=? time_of a)).

Lemma alert_before_total a b : In a l → In b l → alert_before getTime a b = before_total a b.
Proof.
  intros [ta Ha]%dates [tb Hb]%dates. unfold alert_before, before_total, time_of. fold (rank a) (rank b).
  rewrite Ha, Hb. simpl. apply eq_true_iff_eq.
  destruct (Z.eqb_spec (rank a - rank b) 0); simpl;
    rewrite ?orb_true_iff, ?andb_true_iff, ?Z.leb_le, ?Z.ltb_lt, ?Z.eqb_eq; lia.
Qed.

Lemma sorted_alerts_total : sorted_alerts getTime l = stable_sort before_total l.
Proof. unfold sorted_alerts. apply stable_sort_ext. intros. by apply alert_before_total. Qed.

Lemma sorted_alerts_order : StronglySorted (in_order getTime) (sorted_alerts getTime l).
Proof.
  assert (StronglySorted (λ a b, before_total a b = true) (sorted_alerts getTime l)) as H.
  { rewrite sorted_alerts_total. apply stable_sort_sorted; unfold before_total.
    - intros a b. rewrite !orb_true_iff, !andb_true_iff, !Z.leb_le, !Z.ltb_lt, !Z.eqb_eq. lia.
    - intros a b c. rewrite !orb_true_iff, !andb_true_iff, !Z.leb_le, !Z.ltb_lt, !Z.eqb_eq. lia. }
  assert (∀ a, In a (sorted_alerts getTime l) → In a l) as Hin by (intros a; apply stable_sort_In).
  induction H as [|a r Hs IH Ha]; [constructor|].
  constructor; [apply IH; intros x Hx; apply Hin; by right|].
  rewrite List.Forall_forall in Ha |- *. intros b Hb. specialize (Ha b Hb).
  destruct (dates a) as [ta Hta]; [apply Hin; by left|]. destruct (dates b) as [tb Htb]; [apply Hin; by right|].
  unfold before_total, time_of in Ha. rewrite Hta, Htb in Ha. simpl in Ha.
  rewrite orb_true_iff, andb_true_iff, Z.leb_le, Z.ltb_lt, Z.eqb_eq in Ha.
  destruct Ha as [Ha|[Ha1 Ha2]]; [by left|]. right. split; [done|]. by exists ta, tb.
Qed.
End order.

End AlertsScreen.

(** ** DashboardScreen *)

Module DashboardScreen.

(** A field of a record that came over the network: missing, null or a number. *)
Inductive field := Missing | Null | Number_ (q : Q).

Record MobileDevice := {
  md_id : jstr; md_hostname : jstr; md_label : option jstr; md_os_type : jstr; md_status : jstr;
  md_cpu_percent : field; md_ram_percent : field }.

Definition mobile_devices_query : query :=
  Query [JStr "mobile-devices"] (get "/devices") 30000 true.
Definition mobile_counts_query : query :=
  Query [JStr "mobile-alert-counts"] (get_params "/alerts" [("resolved", JBool false); ("limit", JZ 500)]) 60000 true.

(** [for (const alert of resp.data) counts[id] = (counts[id] ?? 0) + 1] *)
Definition alertCounts (device_ids : list jstr) : list (jstr * Z) :=
  collect seqb (λ d, d) (λ _ o, (o ?? 0) + 1) device_ids.
(** [alertCounts?.[id] ?? 0] *)
Definition alertCount (counts : option (list (jstr * Z))) (id : jstr) : Z :=
  match counts with Some c => assoc seqb id c ?? 0 | None => 0 end.

Inductive dashboard_action := OpenDevice (deviceId hostname : jstr) | RefreshDevices.
Inductive navigation_effect := NavigateTo (screen deviceId hostname : jstr) | RefetchDevices.
Definition dashboard_update (a : dashboard_action) : list navigation_effect :=
  match a with
  | OpenDevice d h => [NavigateTo "DeviceDetail" d h]
  | RefreshDevices => [RefetchDevices]
  end.

Definition StatusDot (status : jstr) : node dashboard_action :=
  El "View" [Attr "backgroundColor" (if status =s "online" then "#22c55e" else "#94a3b8")] [].

Section screen.
Context (number_string : Q → jstr).
(** A value that is missing is not null: its comparisons are false and it is
    rounded to [NaN]. *)
Definition GaugeBar (value : field) : node dashboard_action :=
  match value with
  | Null => txt "—"
  | Missing =>
      View [View [El "View" [Attr "width" "undefined%"; Attr "backgroundColor" "#22c55e"] []]; txt "NaN%"]
  | Number_ q =>
      View [View [El "View" [Attr "width" (number_string q ++ "%"); Attr "backgroundColor" (gauge_color q)] []];
            el "Text" [num_text (round q); Text "%"]]
  end.

Definition device_name (d : MobileDevice) : jstr :=
  match md_label d with Some l => if truthy l then l else md_hostname d | None => md_hostname d end.

Definition renderDevice (counts : option (list (jstr * Z))) (item : MobileDevice) : node dashboard_action :=
  let name := device_name item in
  let count := alertCount counts (md_id item) in
  Touchable (OpenDevice (md_id item) name) [
    View ([StatusDot (md_status item); txt name] ++ when (0 <? count) [View [el "Text" [num_text count]]]);
    txt (md_os_type item);
    View [View [txt "CPU"; GaugeBar (md_cpu_percent item)]; View [txt "RAM"; GaugeBar (md_ram_percent item)]]].

Definition DashboardScreen (isLoading isFetching : bool) (counts : option (list (jstr * Z))) (devices : list MobileDevice)
  : node dashboard_action :=
  if isLoading then spinner
  else FlatList isFetching RefreshDevices (map (renderDevice counts) devices) (View [txt "No devices yet"]).
End screen.

(** *** Lemmas *)

Lemma fold_count (l : list jstr) (o : option Z) :
  fold_left (λ o _, Some ((o ?? 0) + 1)) l o =
  match l with [] => o | _ => Some ((o ?? 0) + Z.of_nat (length l)) end.
Proof.
  revert o. induction l as [|x l IH]; intros o; [done|]. cbn [fold_left]. rewrite IH.
  destruct l; simpl; f_equal; lia.
Qed.

Lemma alertCount_spec l id :
  alertCount (Some (alertCounts l)) id = Z.of_nat (length (bfilter (λ d, d =s id) l)).
Proof.
  unfold alertCount, alertCounts. rewrite (collect_assoc seqb seqb_true), fold_count.
  destruct (bfilter (λ d, d =s id) l); [done|]. cbn [from_null]. lia.
Qed.

End DashboardScreen.

(** ** CommandOutputModal *)

Module CommandOutputModal.

Definition STATUS_COLOR (s : CommandStatus) : jstr :=
  match s with
  | Pending => "#f59e0b" | Sent => "#3b82f6" | Running => "#8b5cf6" | Completed => "#22c55e"
  | Failed => "#ef4444" | TimedOut => "#94a3b8"
  end.

(** Whether the command may still change. *)
Definition unfinished (s : CommandStatus) : bool :=
  match s with Pending | Sent | Running => true | _ => false end.
(** [refetchInterval] is a function of the data. *)
Definition output_interval (cmd : option MobileCommand) : Z :=
  match cmd with Some c => if unfinished (mc_status c) then 2000 else 0 | None => 0 end.
Definition output_query (commandId : option jstr) (cmd : option MobileCommand) : query :=
  Query [JStr "mobile-command-detail"; opt_json JStr commandId] (mobile_get (commandId ?? "null"))
    (output_interval cmd) (bool_decide (is_Some commandId)).

Inductive output_action := CloseOutput.

Definition CommandOutputModal (commandId : option jstr) (isLoading : bool) (cmd : option MobileCommand) : list (node output_action) :=
  when (bool_decide (is_Some commandId)) [El "Modal" [OnSubmit CloseOutput] [View (
    [View [txt ((mc_command_type <$> cmd) ?? "Command Output"); Touchable CloseOutput [txt "Done"]]]
    ++ match cmd with
       | Some c =>
           [View ([El "View" [Attr "backgroundColor" (STATUS_COLOR (mc_status c))] [];
                   txt (toUpperCase (command_status_string (mc_status c)))]
                  ++ match mc_exit_code c with Some n => [el "Text" [Text "exit "; num_text n]] | None => [] end)]
       | None => []
       end
    ++ [el "ScrollView" (
          when isLoading [txt "Loading..."]
          ++ when (negb isLoading && negb (otruthy (cmd ≫= mc_output))) [txt "No output yet."]
          ++ when (otruthy (cmd ≫= mc_output)) [txt ((cmd ≫= mc_output) ?? "")])])]].

End CommandOutputModal.

(** ** DeviceDetailScreen *)

Module DeviceDetailScreen.
Import CommandOutputModal.

Inductive Tab := Overview | Commands.
#[global] Instance Tab_eq_dec : EqDecision Tab.
Proof. solve_decision. Defined.

Record MobileMetric := { mm_cpu_percent : option Q; mm_ram_percent : option Q; mm_disk_percent : option Q }.
Record MobileDetail := { dv_last_seen : option jstr; dv_agent_version : option jstr }.

(** [confirming] is the command of the alert shown by [Alert.alert], if any. *)
Record screen_state := {
  deviceId : jstr; tab : Tab; selectedCommandId : option jstr; showLibrary : bool; confirming : option jstr;
  sc_device : option MobileDetail; sc_loading : bool; sc_fetching : bool; sc_metric : option MobileMetric;
  sc_alerts : list AlertsScreen.AlertItem; sc_commands : list MobileCommand; sc_output : option MobileCommand;
  sc_outputLoading : bool }.
Definition screen_mount (id : jstr) : screen_state :=
  {| deviceId := id; tab := Overview; selectedCommandId := None; showLibrary := false; confirming := None;
     sc_device := None; sc_loading := true; sc_fetching := true; sc_metric := None; sc_alerts := [];
     sc_commands := []; sc_output := None; sc_outputLoading := false |}.

Definition screen_device_query (s : screen_state) : query :=
  Query [JStr "mobile-device"; JStr (deviceId s)] (get ("/devices/" ++ deviceId s)) 30000 true.
Definition screen_metric_query (s : screen_state) : query :=
  Query [JStr "mobile-metric"; JStr (deviceId s)] (get ("/metrics/" ++ deviceId s ++ "/latest")) 30000 true.
Definition screen_alerts_query (s : screen_state) : query :=
  Query [JStr "mobile-alerts"; JStr (deviceId s)]
    (get_params "/alerts" [("device_id", JStr (deviceId s)); ("resolved", JBool false); ("limit", JZ 20)]) 0 true.
Definition screen_commands_query (s : screen_state) : query :=
  Query [JStr "mobile-commands"; JStr (deviceId s)] (mobile_list (deviceId s) 30)
    (if bool_decide (tab s = Commands) then 5000 else 0) true.

Inductive screen_action :=
| SetTab (t : Tab)
| HandleDispatch (type : jstr) (dangerous : bool)
| CancelAlert
| SendAlert
| DispatchSucceeded (id : jstr)
| SelectCommand (id : jstr)
| OnOutput (a : output_action)
| ShowLibrary
| HideLibrary
| RefreshDevice
| RefreshCommands
| Loaded (d : option MobileDetail) (m : option MobileMetric) (al : list AlertsScreen.AlertItem)
    (cs : list MobileCommand) (out : option MobileCommand) (outputLoading fetching : bool).

Definition with_screen (t : Tab) (sel : option jstr) (lib : bool) (c : option jstr) (s : screen_state) : screen_state :=
  {| deviceId := deviceId s; tab := t; selectedCommandId := sel; showLibrary := lib; confirming := c;
     sc_device := sc_device s; sc_loading := sc_loading s; sc_fetching := sc_fetching s; sc_metric := sc_metric s;
     sc_alerts := sc_alerts s; sc_commands := sc_commands s; sc_output := sc_output s;
     sc_outputLoading := sc_outputLoading s |}.

(** [dispatch.mutate({ type })] *)
Definition dispatch (s : screen_state) (type : jstr) : list ui_effect :=
  [Request (mobile_dispatch (deviceId s) type [])].

(** A dangerous command asks first. *)
Definition handleDispatch (type : jstr) (dangerous : bool) (s : screen_state) : screen_state * list ui_effect :=
  if dangerous then (with_screen (tab s) (selectedCommandId s) (showLibrary s) (Some type) s, [])
  else (s, dispatch s type).

Definition screen_update (a : screen_action) (s : screen_state) : screen_state * list ui_effect :=
  match a with
  | SetTab t => (with_screen t (selectedCommandId s) (showLibrary s) (confirming s) s, [])
  | HandleDispatch t d => handleDispatch t d s
  | CancelAlert => (with_screen (tab s) (selectedCommandId s) (showLibrary s) None s, [])
  | SendAlert =>
      (with_screen (tab s) (selectedCommandId s) (showLibrary s) None s,
       match confirming s with Some t => dispatch s t | None => [] end)
  | DispatchSucceeded id =>
      (with_screen (tab s) (Some id) false (confirming s) s, [Invalidate ["mobile-commands"; deviceId s]])
  | SelectCommand id => (with_screen (tab s) (Some id) (showLibrary s) (confirming s) s, [])
  | OnOutput CloseOutput => (with_screen (tab s) None (showLibrary s) (confirming s) s, [])
  | ShowLibrary => (with_screen (tab s) (selectedCommandId s) true (confirming s) s, [])
  | HideLibrary => (with_screen (tab s) (selectedCommandId s) false (confirming s) s, [])
  | RefreshDevice => (s, [Refetch ["mobile-device"; deviceId s]])
  | RefreshCommands => (s, [Refetch ["mobile-commands"; deviceId s]])
  | Loaded d m al cs out ol fetching =>
      ({| deviceId := deviceId s; tab := tab s; selectedCommandId := selectedCommandId s; showLibrary := showLibrary s;
          confirming := confirming s; sc_device := d; sc_loading := false; sc_fetching := fetching; sc_metric := m;
          sc_alerts := al; sc_commands := cs; sc_output := out; sc_outputLoading := ol |}, [])
  end.

Section view.
Context (formatDistanceToNow : jstr → jstr) (number_string : Q → jstr).

Definition Gauge (label : jstr) (value : option Q) : list (node screen_action) :=
  match value with
  | None => []
  | Some v =>
      let color := gauge_color v in
      [View [txt label;
             View [El "View" [Attr "width" (number_string (if Qle_bool v 100 then v else 100%Q) ++ "%");
                              Attr "backgroundColor" color] []];
             El "Text" [Attr "color" color] [num_text (round v); Text "%"]]]
  end.
Definition Section_ (title : jstr) (children : list (node screen_action)) : node screen_action :=
  View (txt title :: children).

Definition CommandRow (cmd : MobileCommand) : node screen_action :=
  let color := STATUS_COLOR (mc_status cmd) in
  Touchable (SelectCommand (mc_id cmd)) [
    View [txt (mc_command_type cmd); txt (formatDistanceToNow (mc_created_at cmd))];
    El "View" [Attr "backgroundColor" (color ++ "22"); Attr "borderColor" color]
      [El "Text" [Attr "color" color] [Text (command_status_string (mc_status cmd))]]].

Definition library_row (item : library_entry) : node screen_action :=
  Touchable (HandleDispatch (lib_type item) (lib_dangerous item ?? false)) (
    View [txt (lib_label item); txt (lib_description item)] :: when (lib_dangerous item ?? false) [txt "DANGER"]).
Definition CommandLibrarySheet (visible : bool) : list (node screen_action) :=
  when visible [El "Modal" [OnSubmit HideLibrary] [View [
    View [txt "Command Library"; Touchable HideLibrary [txt "Cancel"]];
    el "ScrollView" (map library_row COMMAND_LIBRARY)]]].

(** The alert of a dangerous command. *)
Definition label_of (type : jstr) : jstr :=
  (lib_label <$> find (λ c, lib_type c =s type) COMMAND_LIBRARY) ?? type.
Definition confirm_alert (type : jstr) : node screen_action :=
  el "Alert" [txt (label_of type);
              txt ("Are you sure you want to send " ++ [34] ++ label_of type ++ [34] ++ " to this device?");
              button [OnClick CancelAlert] [Text "Cancel"]; button [OnClick SendAlert] [Text "Send"]].

Definition overview_tab (s : screen_state) : node screen_action :=
  let m f := sc_metric s ≫= f in
  let agent := sc_device s ≫= dv_agent_version in
  let seen := sc_device s ≫= dv_last_seen in
  ScrollView (sc_fetching s) RefreshDevice (
    [Section_ "System" (
       Gauge "CPU" (m mm_cpu_percent) ++ Gauge "RAM" (m mm_ram_percent) ++ Gauge "Disk" (m mm_disk_percent)
       ++ [el "Text" [Text "Last seen: "; Text (if otruthy seen then formatDistanceToNow (seen ?? "") else "—")]]
       ++ when (otruthy agent) [el "Text" [Text "Agent: v"; Text (agent ?? "")]])]
    ++ when (Nat.ltb 0 (length (sc_alerts s)))
         [Section_ ("Alerts (" ++ string_of_Z (Z.of_nat (length (sc_alerts s))) ++ ")")
            (map (λ a, View [txt (toUpperCase (AlertsScreen.ai_severity a)); txt (AlertsScreen.ai_message a)]) (sc_alerts s))]
    ++ [Section_ "Quick Actions" [View [
          Touchable (HandleDispatch "check_updates" false) [txt "Check Updates"];
          Touchable (HandleDispatch "sync_time" false) [txt "Sync Time"];
          Touchable (HandleDispatch "reboot" true) [txt "Reboot"]]]]).

Definition commands_tab (s : screen_state) : node screen_action :=
  View [ScrollView (sc_fetching s) RefreshCommands (
          when (Nat.eqb (length (sc_commands s)) 0) [txt "No commands yet. Tap + to dispatch one."]
          ++ map CommandRow (sc_commands s));
        Touchable ShowLibrary [txt "+"]].

Definition DeviceDetailScreen (s : screen_state) : node screen_action :=
  if sc_loading s then spinner
  else View (
    [View [Touchable (SetTab Overview) [txt "Overview"];
           Touchable (SetTab Commands)
             [el "Text" [Text "Commands ";
                         Text (if Nat.ltb 0 (length (sc_commands s))
                               then "(" ++ string_of_Z (Z.of_nat (length (sc_commands s))) ++ ")" else "")]]];
     match tab s with Overview => overview_tab s | Commands => commands_tab s end]
    ++ map (map_node OnOutput) (CommandOutputModal (selectedCommandId s) (sc_outputLoading s) (sc_output s))
    ++ CommandLibrarySheet (showLibrary s)
    ++ match confirming s with Some t => [confirm_alert t] | None => [] end).
End view.

(** *** Lemmas *)

(** The commands that need a confirmation. *)
Definition dangerous (type : jstr) : bool :=
  existsb (λ c, (lib_type c =s type) && (lib_dangerous c ?? false)) COMMAND_LIBRARY.

Definition sends (type : jstr) (s : screen_state) (a : screen_action) : Prop :=
  In (Request (mobile_dispatch (deviceId s) type [])) (snd (screen_update a s)).

Lemma library_clicks a v :
  In a (flat_map clicks (CommandLibrarySheet v)) →
  a = HideLibrary ∨ ∃ t d, a = HandleDispatch t d ∧ dangerous t = d.
Proof.
  destruct v; [|done]. cbn. intros H. repeat destruct H as [<-|H]; try done; [by left|..]; right; by repeat eexists.
Qed.

Lemma overview_clicks f g s a :
  In a (clicks (overview_tab f g s)) → ∃ t d, a = HandleDispatch t d ∧ dangerous t = d.
Proof.
  unfold overview_tab, ScrollView. cbn [clicks own_clicks is_disabled existsb flat_map orb app].
  rewrite !flat_map_app, !in_app_iff. intros [H|[H|H]].
  - exfalso. unfold Section_, View, el in H. cbn in H. rewrite !flat_map_app, !in_app_iff in H.
    assert (∀ label v, In a (flat_map clicks (Gauge g label v)) → False) as Hg by (by intros label [v|]).
    destruct H as [H|[H|[H|H]]]; try (by eapply Hg). cbn in H.
    by destruct (otruthy (sc_device s ≫= dv_agent_version)).
  - exfalso. destruct (Nat.ltb 0 (length (sc_alerts s))); [|done]. cbn in H. rewrite app_nil_r in H.
    apply in_flat_map in H as (n & (x & <- & _)%in_map_iff & Hn). done.
  - cbn in H. repeat destruct H as [<-|H]; try done; by repeat eexists.
Qed.

Lemma commands_clicks f s a :
  In a (clicks (commands_tab f s)) → a = ShowLibrary ∨ ∃ id, a = SelectCommand id.
Proof.
  unfold commands_tab, ScrollView, View, el. cbn [clicks own_clicks is_disabled existsb flat_map orb app].
  rewrite app_nil_r, flat_map_app, !in_app_iff. intros [[H|H]|H].
  - by destruct (Nat.eqb (length (sc_commands s)) 0).
  - apply in_flat_map in H as (n & (x & <- & _)%in_map_iff & Hn). cbn in Hn. destruct Hn as [<-|[]]. right. by eexists.
  - cbn in H. destruct H as [<-|[]]. by left.
Qed.

(** A click that sends a command: a harmless one, or the confirmation. *)
Lemma screen_clicks f g s a :
  In a (clicks (DeviceDetailScreen f g s)) →
  (∃ t d, a = HandleDispatch t d ∧ dangerous t = d) ∨ (a = SendAlert ∧ is_Some (confirming s)) ∨
  snd (screen_update a s) = [].
Proof.
  unfold DeviceDetailScreen. destruct (sc_loading s); [done|]. unfold View, el.
  cbn [clicks own_clicks is_disabled existsb orb app]. cbn [flat_map].
  rewrite !in_app_iff, !flat_map_app, !in_app_iff. intros [[]|[H|[H|[H|[H|H]]]]].
  - cbn in H. repeat destruct H as [<-|H]; try done; by right; right.
  - destruct (tab s).
    + left. by eapply overview_clicks.
    + right; right. apply commands_clicks in H as [->|[id ->]]; done.
  - rewrite flat_map_concat_map, map_map in H. setoid_rewrite clicks_map_node in H.
    rewrite <-flat_map_concat_map in H. apply in_flat_map in H as (n & _ & ([] & <- & _)%in_map_iff). by right; right.
  - apply library_clicks in H as [->|H]; [by right; right|by left].
  - destruct (confirming s) as [t|] eqn:E; [|done]. cbn in H. destruct H as [<-|[<-|[]]]; [by right; right|].
    right; left. split; [done|by eexists].
Qed.

End DeviceDetailScreen.

(** ** LoginScreen, SettingsScreen and AppNavigator *)

Module MobileShell.
Import MobileClient.

Inductive login_action := SetServerUrl (v : jstr) | SetUsername (v : jstr) | SetPassword (v : jstr) | HandleLogin.
Record login_state := { serverUrl : jstr; lg_username : jstr; lg_password : jstr }.
Definition login_initial : login_state :=
  {| serverUrl := "http://192.168.1.100:8000"; lg_username := ""; lg_password := "" |}.
Definition set_login (a : login_action) (s : login_state) : login_state :=
  match a with
  | SetServerUrl v => {| serverUrl := v; lg_username := lg_username s; lg_password := lg_password s |}
  | SetUsername v => {| serverUrl := serverUrl s; lg_username := v; lg_password := lg_password s |}
  | SetPassword v => {| serverUrl := serverUrl s; lg_username := lg_username s; lg_password := v |}
  | HandleLogin => s
  end.
Definition TextInput {A} (value placeholder : jstr) (onChangeText : jstr → A) : node A :=
  El "TextInput" [Attr "value" value; Attr "placeholder" placeholder; OnChange onChangeText] [].
Definition LoginScreen_view (loading : bool) (error : option jstr) (s : login_state) : node login_action :=
  View [View (
    [txt "DTSYS"; txt "Device Management";
     txt "Server URL"; TextInput (serverUrl s) "http://your-server:8000" SetServerUrl;
     txt "Username"; TextInput (lg_username s) "admin" SetUsername;
     txt "Password"; TextInput (lg_password s) "••••••••" SetPassword]
    ++ when (otruthy error) [txt (error ?? "")]
    ++ [El "TouchableOpacity" [OnClick HandleLogin; Disabled loading]
          [if loading then icon "ActivityIndicator" else txt "Sign In"]])].

Inductive settings_screen_action := SignOut.
(** The effect reads the server's address and the user's name once. *)
Definition settings_screen_mount (s : store) : jstr * jstr := (getServerUrl s, getItem "username" s ?? "").
Definition SettingsScreen_view (info : jstr * jstr) : node settings_screen_action :=
  let '(url, username) := info in
  View [
    View [txt "Account"; View [txt "Username"; txt (if truthy username then username else "—")];
          View [txt "Server"; txt url]];
    View [txt "App"; View [txt "Version"; txt "1.2.0"]];
    Touchable SignOut [txt "Sign Out"]].

(** The tabs and the stack of the first one; a stack screen's title. *)
Inductive tab_name := DashboardTab | AlertsTab | SettingsTab.
Definition tab_icon (t : tab_name) : jstr :=
  match t with DashboardTab => "📱" | AlertsTab => "🔔" | SettingsTab => "⚙️" end.
Inductive stack_screen := DeviceList | DeviceDetailOf (deviceId hostname : jstr).
Definition stack_title (s : stack_screen) : jstr :=
  match s with DeviceList => "Devices" | DeviceDetailOf _ h => h end.
(** The navigator: the tab shown and the stack of the first tab, the list at
    its bottom. *)
Record navigator := { nav_tab : tab_name; nav_stack : list stack_screen }.
Definition navigator_start : navigator := {| nav_tab := DashboardTab; nav_stack := [] |}.
Definition nav_top (n : navigator) : stack_screen := match nav_stack n with s :: _ => s | [] => DeviceList end.
(** [navigation.navigate('DeviceDetail', params)]: the screen on top of the
    stack takes the new parameters when it is of that name. *)
Definition navigate_device (deviceId hostname : jstr) (n : navigator) : navigator :=
  {| nav_tab := nav_tab n; nav_stack := DeviceDetailOf deviceId hostname :: match nav_stack n with _ :: r => r | [] => [] end |}.

End MobileShell.

(** ** Properties *)

Module MobileScreenProps.

(** The mobile alert list shows every alert exactly once, the critical ones first, then warnings, then
    information, and the newest first within a severity. *)
Theorem mobile_alerts_order getTime l :
  (∀ a, In a l → is_Some (getTime (AlertsScreen.ai_created_at a))) →
  Permutation (AlertsScreen.sorted_alerts getTime l) l ∧
  StronglySorted (AlertsScreen.in_order getTime) (AlertsScreen.sorted_alerts getTime l).
Proof.
  intros H. split; [apply stable_sort_perm|by apply AlertsScreen.sorted_alerts_order].
Qed.

Definition sample (id severity at_ : jstr) : AlertsScreen.AlertItem :=
  {| AlertsScreen.ai_id := id; AlertsScreen.ai_device_id := "d"; AlertsScreen.ai_alert_type := "offline";
     AlertsScreen.ai_severity := severity; AlertsScreen.ai_message := ""; AlertsScreen.ai_created_at := at_ |}.
Definition length_time (t : jstr) : option Z := Some (Z.of_nat (length t)).

Lemma mobile_alerts_order_witness :
  let l := [sample "a" "info" "xxx"; sample "b" "critical" "x"; sample "c" "critical" "xx"] in
  map AlertsScreen.ai_id (AlertsScreen.sorted_alerts length_time l) = ["c"; "b"; "a"] ∧
  Permutation (AlertsScreen.sorted_alerts length_time l) l.
Proof.
  intros l. split; [vm_compute; reflexivity|].
  apply (mobile_alerts_order length_time l). intros a _. by eexists.
Defined.

(** C38: on the mobile device screen a dangerous command of the library is only ever sent by the confirmation of the
    alert that names it: no other control of the screen sends it. *)
Theorem dangerous_commands_confirmed f g s a type :
  DeviceDetailScreen.dangerous type = true →
  In a (clicks (DeviceDetailScreen.DeviceDetailScreen f g s)) →
  DeviceDetailScreen.sends type s a →
  a = DeviceDetailScreen.SendAlert ∧ DeviceDetailScreen.confirming s = Some type.
Proof.
  intros Hd Hc Hs. unfold DeviceDetailScreen.sends in Hs.
  apply DeviceDetailScreen.screen_clicks in Hc as [(t & d & -> & Ht)|[[-> [t Ht]]|E]].
  - cbn in Hs. unfold DeviceDetailScreen.handleDispatch in Hs. destruct d; [done|]. cbn in Hs.
    destruct Hs as [[= ->]|[]]. congruence.
  - cbn in Hs. rewrite Ht in Hs. destruct Hs as [[= ->]|[]]. done.
  - by rewrite E in Hs.
Qed.

Definition asked : DeviceDetailScreen.screen_state :=
  fold_left (λ s a, fst (DeviceDetailScreen.screen_update a s))
    [DeviceDetailScreen.Loaded None None [] [] None false false; DeviceDetailScreen.HandleDispatch "reboot" true]
    (DeviceDetailScreen.screen_mount "d1").

Lemma dangerous_commands_confirmed_witness : DeviceDetailScreen.confirming asked = Some "reboot".
Proof.
  apply (dangerous_commands_confirmed (λ t, t) (λ _, "") asked DeviceDetailScreen.SendAlert "reboot").
  - vm_compute. reflexivity.
  - cbn. tauto.
  - cbn. by left.
Defined.

(** The number on a device's card is the number of its alerts among those
    fetched. *)
Theorem mobile_alert_counts l id :
  DashboardScreen.alertCount (Some (DashboardScreen.alertCounts (map AlertsScreen.ai_device_id l))) id =
  Z.of_nat (length (bfilter (λ a, AlertsScreen.ai_device_id a =s id) l)).
Proof.
  rewrite DashboardScreen.alertCount_spec. f_equal. induction l as [|a l IH]; [done|]. simpl.
  destruct (_ =s id); simpl; by rewrite IH.
Qed.

(** An open command is polled exactly until it has finished. *)
Theorem output_polled_while_unfinished id c :
  q_enabled (CommandOutputModal.output_query (Some id) (Some c)) = true ∧
  (q_interval (CommandOutputModal.output_query (Some id) (Some c)) = 2000 ↔
   In (mc_status c) [Pending; Sent; Running]).
Proof.
  split; [done|]. cbn. unfold CommandOutputModal.unfinished.
  destruct (mc_status c); simpl; split; intros H; try done; try (by auto); repeat destruct H as [H|H]; done.
Qed.

End MobileScreenProps.
