(* ===== verification/PageRoutes.v ===== *)
(** The requests of the pages against the routes of the server: what the
    handlers of a page ask for, and the queries it runs, is served. *)
From Stdlib Require Import QArith.
From S2P Require Import Prelude JsString JsNumber Types JsJson Api Routes Stores Ui DeviceComponents Pages.
From S2P Require Import AdminPages InventoryPage ReportPages SettingsPage DeviceDetail MobileScreens.
Local Open Scope Z_scope.
Local Open Scope js_scope.

(** ** Interface *)

(** Every request of a page's handlers is served when the identifiers that go
    into a path may stand there. *)
Definition handlers_served {action state} (update : action → state → state * list ui_effect)
    (ids : action → state → Prop) : Prop :=
  ∀ a s r, ids a s → In (Request r) (snd (update a s)) → served r = true.

(** What a page promises. *)
Class ServedPage (action state : Type) := {
  page_update : action → state → state * list ui_effect;
  ids_ok : action → state → Prop;
  page_served : handlers_served page_update ids_ok }.

(** A visit to a page: its handlers run one after another. *)
Section visit.
Context {action state : Type} `{ServedPage action state}.
Fixpoint visit (l : list action) (s : state) : state * list ui_effect :=
  match l with
  | [] => (s, [])
  | a :: l => let (s1, e1) := page_update a s in let (s2, e2) := visit l s1 in (s2, e1 ++ e2)
  end.
Fixpoint visit_ids (l : list action) (s : state) : Prop :=
  match l with [] => True | a :: l => ids_ok a s ∧ visit_ids l (fst (page_update a s)) end.

(** All the requests of a visit are served. *)
Lemma visit_served l s r : visit_ids l s → In (Request r) (snd (visit l s)) → served r = true.
Proof.
  revert s. induction l as [|a l IH]; intros s; [done|]. simpl. intros [Ha Hl].
  pose proof (page_served a s r Ha) as Hs. specialize (IH (fst (page_update a s)) Hl).
  destruct (page_update a s) as [s1 e1]. simpl in *. destruct (visit l s1) as [s2 e2].
  simpl in *. rewrite in_app_iff. tauto.
Qed.
End visit.

(** The queries a page runs are served. *)
Definition queries_served (l : list query) : Prop := Forall (λ q, served (q_request q) = true) l.

Lemma Forall_served l : (∀ q, In q l → served (q_request q) = true) → queries_served l.
Proof. intros H. by apply List.Forall_forall. Qed.

(** Requests that are those of an API module. *)
Lemma web_requests_routed q : web_request q → served q = true.
Proof. intros [?|[?|[?|?]]]; eauto using admin_served, device_served, org_served, fleet_served. Qed.
Ltac by_api := apply web_requests_routed; (left + (right; left) + (right; right; left) + (right; right; right)); by constructor.

(** Read the requests off a list of effects. *)
Ltac effects H :=
  repeat match type of H with
  | In _ [] => destruct H
  | In _ (_ :: _) => destruct H as [H|H]; [try discriminate H; injection H as <-|]
  | _ ∨ _ => destruct H as [H|H]; [try discriminate H; injection H as <-|]
  | False => destruct H
  end.

(** ** Compliance *)

Definition compliance_ids (a : Compliance.compliance_action) (s : Compliance.compliance_state) : Prop :=
  match a with
  | Compliance.OnCard _ (Compliance.Evaluate id) | Compliance.OnCard _ (Compliance.DeletePolicy id) => id_ok id
  | _ => True
  end.
Lemma compliance_served a s r :
  compliance_ids a s → In (Request r) (snd (Compliance.compliance_update a s)) → served r = true.
Proof.
  intros Hid H. destruct a as [| |v|v|v|v| |i| | | |id [|id'|id']| |id]; cbn in H, Hid; effects H.
  - served_by POST "/compliance/policies" (@nil jstr).
  - served_by POST "/compliance/evaluate/{policy_id}" [id'].
  - served_by DELETE "/compliance/policies/{policy_id}" [id'].
Qed.
#[global] Instance compliance_page : ServedPage Compliance.compliance_action Compliance.compliance_state :=
  {| page_update := Compliance.compliance_update; ids_ok := compliance_ids; page_served := compliance_served |}.

(** ** Administration *)

Definition schedules_ids (a : ScheduledCommands.schedules_action) (s : ScheduledCommands.schedules_state) : Prop :=
  match a with ScheduledCommands.ToggleSchedule id _ => id_ok id | _ => True end.
Lemma schedules_served a s r :
  schedules_ids a s → In (Request r) (snd (ScheduledCommands.schedules_update a s)) → served r = true.
Proof. intros Hid H. destruct a; cbn in H, Hid; by effects H; by_api. Qed.
#[global] Instance schedules_page :
  ServedPage ScheduledCommands.schedules_action ScheduledCommands.schedules_state :=
  {| page_update := ScheduledCommands.schedules_update; ids_ok := schedules_ids; page_served := schedules_served |}.

Definition users_ids (a : UsersPage.users_action) (s : UsersPage.users_state) : Prop :=
  match a with
  | UsersPage.ChangeRole u | UsersPage.ChangeActive u | UsersPage.DeleteUser u _ => id_ok (u_id u)
  | UsersPage.ResetPassword id => id_ok id
  | _ => True
  end.
Lemma users_served a s r :
  users_ids a s → In (Request r) (snd (UsersPage.users_update a s)) → served r = true.
Proof.
  intros Hid H. destruct a; cbn in H, Hid; try (by effects H; by_api). destruct confirmed; effects H. by_api.
Qed.
#[global] Instance users_page : ServedPage UsersPage.users_action UsersPage.users_state :=
  {| page_update := UsersPage.users_update; ids_ok := users_ids; page_served := users_served |}.

Definition orgs_ids (a : Organizations.orgs_action) (s : Organizations.orgs_state) : Prop :=
  match a with
  | Organizations.DeleteOrg id => id_ok id
  | Organizations.InPanel org (Organizations.RemoveMember u)
  | Organizations.InPanel org (Organizations.ChangeMemberRole u _) => id_ok (o_id org) ∧ id_ok u
  | Organizations.InPanel org _ => id_ok (o_id org)
  | _ => True
  end.
Lemma orgs_served a s r :
  orgs_ids a s → In (Request r) (snd (Organizations.orgs_update a s)) → served r = true.
Proof.
  intros Hid H. destruct a as [| |n|v| |[]|i d|i| |i|[]|org [v|v| |[]|u|u ro|]]; cbn in H, Hid;
    try (by effects H; by_api); destruct Hid; by effects H; by_api.
Qed.
#[global] Instance orgs_page : ServedPage Organizations.orgs_action Organizations.orgs_state :=
  {| page_update := Organizations.orgs_update; ids_ok := orgs_ids; page_served := orgs_served |}.

Definition library_ids (a : CommandLibrary.library_action) (s : CommandLibrary.library_state) : Prop :=
  match a with
  | CommandLibrary.Upsert =>
      match CommandLibrary.editing s with CommandLibrary.EditCommand c => id_ok (sv_id c) | _ => True end
  | CommandLibrary.RunSaved => id_ok (CommandLibrary.run_device s)
  | CommandLibrary.RemoveSaved id => id_ok id
  | _ => True
  end.
Lemma library_served a s r :
  library_ids a s → In (Request r) (snd (CommandLibrary.library_update a s)) → served r = true.
Proof.
  intros Hid H. destruct a; cbn in H, Hid; try (by effects H; by_api).
  - unfold CommandLibrary.upsert_request in H. destruct (CommandLibrary.editing s); effects H; by_api.
  - destruct (CommandLibrary.run_command s); effects H. by_api.
Qed.
#[global] Instance library_page : ServedPage CommandLibrary.library_action CommandLibrary.library_state :=
  {| page_update := CommandLibrary.library_update; ids_ok := library_ids; page_served := library_served |}.

(** ** Inventory *)

Definition inventory_ids (a : inventory_action) (s : inventory_state) : Prop :=
  match a with
  | SaveCell d _ => id_ok (i_id d)
  | ImportFile _ _ => Forall (λ d, Is_true (id_ok (i_id d))) (inv_devices s)
  | _ => True
  end.
Lemma import_row_served devices headers row r :
  Forall (λ d, Is_true (id_ok (i_id d))) devices → import_row devices headers row = Some r → served r = true.
Proof.
  intros Hd H. unfold import_row in H. destruct (find _ devices) as [d|] eqn:E; [|done]. injection H as <-.
  apply find_some in E as [E _]. rewrite List.Forall_forall in Hd. apply web_requests_routed. right; left.
  apply r_device_update. by apply Hd.
Qed.
Lemma send_all_In accepted l r : In (Request r) (send_all accepted l) → In r l.
Proof.
  induction l as [|x l IH]; simpl; [by intros [|[]]|]. intros [[= ->]|H]; [by left|]. right. apply IH.
  by destruct (accepted x).
Qed.
Lemma inventory_served a s r :
  inventory_ids a s → In (Request r) (snd (inventory_update a s)) → served r = true.
Proof.
  intros Hid H. destruct a; try (by cbn in H, Hid; effects H; by_api).
  cbn [inventory_update snd] in H. unfold importCsv, import_requests in H.
  destruct (bfilter truthy (split_lines text)) as [|h rows]; [done|]. apply send_all_In in H.
  apply list_elem_of_In, list_elem_of_omap in H as (row & _ & H). eapply import_row_served; [|exact H].
  cbn in Hid. rewrite List.Forall_forall in Hid |- *. intros d Hd. apply Hid. unfold inv_filtered in Hd.
  by apply bfilter_In in Hd as [Hd _].
Qed.
#[global] Instance inventory_page : ServedPage inventory_action inventory_state :=
  {| page_update := inventory_update; ids_ok := inventory_ids; page_served := inventory_served |}.

(** ** Settings *)

Section settings.
Context (decimal : Q → jstr).
Definition settings_ids (a : Settings.settings_action) (s : Settings.settings_state) : Prop :=
  match a with
  | Settings.ToggleRule r => id_ok (nr_id r)
  | Settings.DisconnectDevice id => id_ok id
  | _ => True
  end.
Lemma settings_served a s r :
  settings_ids a s → In (Request r) (snd (Settings.settings_update decimal a s)) → served r = true.
Proof.
  intros Hid H. destruct a; cbn in H, Hid; try (by effects H; first [done|by_api]).
  - by destruct (Settings.token s); effects H.
  - by destruct succeeded; effects H.
Qed.
#[global] Instance settings_page : ServedPage Settings.settings_action Settings.settings_state :=
  {| page_update := Settings.settings_update decimal; ids_ok := settings_ids; page_served := settings_served |}.
End settings.

Lemma settings_queries_served s : queries_served (Settings.settings_queries s).
Proof.
  apply Forall_served. intros q H. cbn in H. repeat destruct H as [<-|H]; try done; cbn [q_request]; by_api.
Qed.

(** ** The device page *)

Section detail.
Context (getTime : jstr → option Z).
Definition detail_ids (a : DeviceDetail.detail_action) (s : DeviceDetail.detail_state) : Prop :=
  id_ok (DeviceDetail.id s) ∧
  match a with
  | DeviceDetail.AddToGroup => id_ok (DeviceDetail.selectedGroupId s)
  | DeviceDetail.RemoveSSHKey k => id_ok k
  | _ => True
  end.
Lemma detail_served a s r :
  detail_ids a s → In (Request r) (snd (DeviceDetail.detail_update getTime a s)) → served r = true.
Proof.
  intros [Hid Ha] H. destruct a; cbn in H, Ha; try (by effects H; first [done|by_api]).
  - by destruct (DeviceDetail.device s); effects H.
  - destruct (DeviceDetail.device s); [|by effects H]. destruct (truthy _); cbn in H; effects H. by_api.
Qed.
#[global] Instance detail_page : ServedPage DeviceDetail.detail_action DeviceDetail.detail_state :=
  {| page_update := DeviceDetail.detail_update getTime; ids_ok := detail_ids; page_served := detail_served |}.
End detail.

Lemma detail_queries_served s : id_ok (DeviceDetail.id s) → queries_served (DeviceDetail.detail_queries s).
Proof.
  intros Hid. unfold queries_served, DeviceDetail.detail_queries, DeviceDetail.screenshot_query, DeviceDetail.device_query,
    DeviceDetail.agent_version_query, Hooks.useDevice, Hooks.useMetrics, Hooks.useLatestMetric.
  repeat (apply List.Forall_cons; [cbn [q_request]; apply web_requests_routed|]); [..|constructor].
  - right; left. by apply r_device_get.
  - right; left. by apply r_metrics_list.
  - right; left. by apply r_latest.
  - right; left. by apply r_device_config.
  - right; right; left. by apply r_groups_list.
  - right; right; left. by apply r_deviceGroups.
  - right; left. by apply r_screenshot.
  - right; left. by apply r_uptimeHistory.
  - right; left. by apply r_sshKeys.
  - right; right; right. by apply r_agent_version.
Qed.

(** ** Audit and reports *)

Lemma audit_served f p : served (AuditLog.audit_request f p) = true.
Proof. served_by GET "/audit" (@nil jstr). Qed.

Lemma reports_served parse_local s :
  Forall (λ d, Is_true (id_ok (d_id d))) (Reports.rp_devices s) →
  Forall (λ r, served r = true)
    (q_request (Reports.reports_alerts_query s) :: Reports.metric_requests parse_local s ++ Reports.software_requests s).
Proof.
  intros Hd. assert (∀ d, In d (Reports.selectedDevices s) → Is_true (id_ok (d_id d))) as Hs.
  { rewrite List.Forall_forall in Hd. intros d H. apply Hd. unfold Reports.selectedDevices in H.
    destruct (_ =s _); [done|]. by apply bfilter_In in H as [H _]. }
  constructor; [cbn [q_request]; by_api|]. apply Forall_app. split; apply List.Forall_forall; intros r H;
    apply in_map_iff in H as (d & <- & H%Hs); revert H; generalize (d_id d) as i; intros i H.
  - served_by_query GET "/devices/{device_id}/metrics" [i]
      ("?hours=" ++ Reports.hours_text (Reports.hours parse_local s)).
  - served_by GET "/devices/{device_id}/software" [i].
Qed.

(** ** Properties *)

Module PageRoutesProps.

(** C32: every request made by a control of the schedules, users, organizations, command library, inventory,
    compliance, settings and device pages, and every query of the settings, device, audit and reports pages, has a
    route of the server with the same method, whenever the identifiers that go into a path are non-empty and free of
    slashes and question marks. *)
Theorem page_requests_served decimal getTime parse_local :
  handlers_served ScheduledCommands.schedules_update schedules_ids ∧
  handlers_served UsersPage.users_update users_ids ∧
  handlers_served Organizations.orgs_update orgs_ids ∧
  handlers_served CommandLibrary.library_update library_ids ∧
  handlers_served inventory_update inventory_ids ∧
  handlers_served Compliance.compliance_update compliance_ids ∧
  handlers_served (Settings.settings_update decimal) settings_ids ∧
  handlers_served (DeviceDetail.detail_update getTime) detail_ids ∧
  (∀ s, queries_served (Settings.settings_queries s)) ∧
  (∀ s, id_ok (DeviceDetail.id s) → queries_served (DeviceDetail.detail_queries s)) ∧
  (∀ f p, served (AuditLog.audit_request f p) = true) ∧
  (∀ s, Forall (λ d, Is_true (id_ok (d_id d))) (Reports.rp_devices s) →
     Forall (λ r, served r = true)
       (q_request (Reports.reports_alerts_query s) :: Reports.metric_requests parse_local s ++ Reports.software_requests s)).
Proof.
  split_and!.
  - exact schedules_served.
  - exact users_served.
  - exact orgs_served.
  - exact library_served.
  - exact inventory_served.
  - exact compliance_served.
  - exact (settings_served decimal).
  - exact (detail_served getTime).
  - apply settings_queries_served.
  - apply detail_queries_served.
  - apply audit_served.
  - apply reports_served.
Qed.

(** The metric request of the mobile device screen has no route. *)
Theorem mobile_metric_not_served s :
  id_ok (DeviceDetailScreen.deviceId s) = true →
  served (q_request (DeviceDetailScreen.screen_metric_query s)) = false.
Proof.
  intros [_ Hs]%andb_true_iff. pose proof (request_segments_join [[]; "metrics"; DeviceDetailScreen.deviceId s; "latest"] []) as P.
  cbn [join app forallb] in P. rewrite Hs in P. cbn [q_request DeviceDetailScreen.screen_metric_query].
  unfold served, route_matches, get, rq_path, rq_method.
  assert (request_segments ("/metrics/" ++ DeviceDetailScreen.deviceId s ++ "/latest")
          = [[]; "metrics"; DeviceDetailScreen.deviceId s; "latest"]) as ->.
  { rewrite <-P by (done || by left). f_equal. simpl. by rewrite ?app_nil_r. }
  vm_compute. done.
Qed.

End PageRoutesProps.
