(* ===== verification/ServerModels.v ===== *)
(** The data of the server: the rows of its tables ([server/app/models]), the
    identifiers they use, and the database as a record of tables.

    An identifier is the 128-bit number of a UUID; a time is the number of
    microseconds since the epoch; a date is a number of days.  A table is the
    list of its rows.  Strings are lists of code points here, as Python's are. *)
From S2P Require Import Prelude JsString JsNumber Types JsJson JsonText.
Local Open Scope Z_scope.
Local Open Scope js_scope.

(** ** Identifiers *)

Abbreviation uuid := Z.

(** The [i] lowest hexadecimal digits of a number. *)
Fixpoint hex_digits (i : nat) (u : Z) : jstr :=
  match i with O => [] | S n => hex_digits n (u / 16) ++ [hex_lower (u mod 16)] end.

(** [str(u)]: the groups 8-4-4-4-12. *)
Definition str_uuid (u : uuid) : jstr :=
  let h := hex_digits 32 u in
  take 8 h ++ 45 :: take 4 (drop 8 h) ++ 45 :: take 4 (drop 12 h) ++ 45 :: take 4 (drop 16 h)
  ++ 45 :: drop 20 h.

(** [s.replace(p, '')] for a non-empty [p]. *)
Definition remove_all (p s : jstr) : jstr := concat (split_at p 0 s).

(** [s.strip('{}')] *)
Definition brace (c : Z) : bool := (c =? 123) || (c =? 125).
Fixpoint lstrip (f : Z → bool) (s : jstr) : jstr :=
  match s with c :: r => if f c then lstrip f r else s | [] => [] end.
Definition strip_chars (f : Z → bool) (s : jstr) : jstr := rev (lstrip f (rev (lstrip f s))).

(** [int(s, 16)] on a string of ASCII characters: white space around, a sign,
    a prefix, and single underscores between the digits. *)
Definition py_space (c : Z) : bool := ((9 <=? c) && (c <=? 13)) || ((28 <=? c) && (c <=? 32)).
Fixpoint hex_int (acc : Z) (s : jstr) : option Z :=
  match s with
  | [] => Some acc
  | c :: r =>
      if c =? 95 then
        match r with d :: r' => v ← hex_value d; hex_int (acc * 16 + v) r' | [] => None end
      else v ← hex_value c; hex_int (acc * 16 + v) r
  end.
Definition int16 (s : jstr) : option Z :=
  let unsigned s :=
    let digits := match s with
                  | c :: d :: r => if (c =? 48) && ((d =? 120) || (d =? 88)) then
                                     match r with e :: r' => if e =? 95 then r' else r | [] => r end
                                   else s
                  | _ => s
                  end in
    match digits with c :: r => v ← hex_value c; hex_int v r | [] => None end in
  match strip_chars py_space s with
  | c :: r => if c =? 43 then unsigned r else if c =? 45 then Z.opp <$> unsigned r else unsigned (c :: r)
  | [] => None
  end.

(** [uuid.UUID(s)]; [None] is its [ValueError]. *)
Definition UUID (s : jstr) : option uuid :=
  let hex := remove_all "-" (strip_chars brace (remove_all "uuid:" (remove_all "urn:" s))) in
  if Nat.eqb (length hex) 32 then n ← int16 hex; if (0 <=? n) && (n <? 2 ^ 128) then Some n else None
  else None.

#[global] Arguments str_uuid : simpl never.
#[global] Arguments UUID : simpl never.

(** ** Rows *)

Record UserRow := {
  us_id : uuid; us_username : jstr; us_password_hash : jstr; us_role : jstr; us_is_active : bool;
  us_last_login : option Z; us_created_at : Z; us_active_org_id : option uuid }.
Record OrganizationRow := {
  og_id : uuid; og_name : jstr; og_slug : jstr; og_created_at : Z; og_owner_id : option uuid }.
Record MemberRow := {
  mb_id : uuid; mb_org_id : uuid; mb_user_id : uuid; mb_role : jstr; mb_joined_at : Z }.
Record DeviceRow := {
  dv_id : uuid; dv_hostname : jstr; dv_os_type : jstr; dv_os_version : option jstr; dv_arch : option jstr;
  dv_ip_address : option jstr; dv_fingerprint : option jstr; dv_api_key_hash : jstr; dv_enrolled_at : Z;
  dv_last_seen : option Z; dv_status : jstr; dv_is_revoked : bool; dv_label : option jstr;
  dv_notes : option jstr; dv_tags : list jstr; dv_serial_number : option jstr; dv_manufacturer : option jstr;
  dv_model_name : option jstr; dv_purchase_date : option Z; dv_warranty_expires : option Z;
  dv_location : option jstr; dv_assigned_to : option jstr; dv_asset_tag : option jstr;
  dv_maintenance_mode : bool; dv_maintenance_until : option Z; dv_maintenance_reason : option jstr;
  dv_agent_version : option jstr; dv_org_id : option uuid }.
Record CommandRow := {
  cd_id : uuid; cd_device_id : uuid; cd_issued_by : option uuid; cd_command_type : jstr;
  cd_payload : list (jstr * json); cd_status : jstr; cd_created_at : Z; cd_started_at : option Z;
  cd_completed_at : option Z; cd_exit_code : option Z; cd_output : option jstr }.
Record AlertRow := {
  ar_id : uuid; ar_device_id : uuid; ar_alert_type : jstr; ar_severity : jstr; ar_message : jstr;
  ar_is_resolved : bool; ar_created_at : Z; ar_resolved_at : option Z }.
Record EventRow := {
  ev_id : uuid; ev_time : Z; ev_device_id : uuid; ev_event_type : jstr; ev_source : option jstr;
  ev_message : jstr; ev_raw_data : option json }.
Record MetricRow := {
  mt_id : uuid; mt_time : Z; mt_device_id : uuid; mt_cpu_percent : option num; mt_ram_percent : option num;
  mt_disk_percent : option num; mt_cpu_temp : option num; mt_uptime_secs : option Z;
  mt_ram_total_mb : option num; mt_ram_used_mb : option num; mt_disk_total_gb : option num;
  mt_disk_used_gb : option num; mt_disk_read_mbps : option num; mt_disk_write_mbps : option num;
  mt_net_sent_mbps : option num; mt_net_recv_mbps : option num }.
Record SoftwareRow := {
  sw_id : uuid; sw_device_id : uuid; sw_name : jstr; sw_version : option jstr; sw_update_available : bool;
  sw_latest_version : option jstr; sw_last_scanned : Z }.
Record NetworkRow := {
  nw_id : uuid; nw_device_id : uuid; nw_interface_name : jstr; nw_mac_address : option jstr;
  nw_ipv4 : list (option jstr); nw_ipv6 : list (option jstr); nw_is_up : bool; nw_mtu : option Z; nw_updated_at : Z }.
Record SSHKeyRow := {
  ky_id : uuid; ky_device_id : uuid; ky_key_type : jstr; ky_public_key : jstr; ky_fingerprint : jstr;
  ky_comment : option jstr; ky_discovered_at : Z }.
Record UptimeRow := {
  ut_id : uuid; ut_device_id : uuid; ut_event_type : jstr; ut_timestamp : Z; ut_duration_secs : option Z }.
Record ConfigRow := {
  cf_device_id : uuid; cf_config : list (jstr * json); cf_updated_at : Z }.
Record ScheduledRow := {
  sd_id : uuid; sd_org_id : uuid; sd_device_id : option uuid; sd_command_type : jstr;
  sd_payload : option (list (jstr * json)); sd_cron_expression : jstr; sd_is_enabled : bool; sd_last_run_at : option Z;
  sd_next_run_at : option Z; sd_created_by : option uuid; sd_created_at : Z }.
Record AuditRow := {
  lg_id : uuid; lg_timestamp : Z; lg_user_id : option uuid; lg_username : jstr; lg_action : jstr;
  lg_resource_type : option jstr; lg_resource_id : option jstr; lg_ip_address : option jstr;
  lg_details : option json }.
Record RuleRow := {
  rl_id : uuid; rl_org_id : uuid; rl_alert_type : jstr; rl_severity_min : jstr; rl_channel : jstr;
  rl_webhook_url : option jstr; rl_email_address : option jstr; rl_is_enabled : bool; rl_created_at : Z }.
Record PushTokenRow := {
  pk_id : uuid; pk_user_id : uuid; pk_token : jstr; pk_platform : option jstr; pk_created_at : Z;
  pk_last_used : option Z }.

(** Assignment to an attribute of an object. *)
Definition us_set_password_hash (v : jstr) (r : UserRow) : UserRow :=
  {| us_id := us_id r; us_username := us_username r; us_password_hash := v; us_role := us_role r;
     us_is_active := us_is_active r; us_last_login := us_last_login r; us_created_at := us_created_at r;
     us_active_org_id := us_active_org_id r |}.
Definition us_set_role (v : jstr) (r : UserRow) : UserRow :=
  {| us_id := us_id r; us_username := us_username r; us_password_hash := us_password_hash r; us_role := v;
     us_is_active := us_is_active r; us_last_login := us_last_login r; us_created_at := us_created_at r;
     us_active_org_id := us_active_org_id r |}.
Definition us_set_is_active (v : bool) (r : UserRow) : UserRow :=
  {| us_id := us_id r; us_username := us_username r; us_password_hash := us_password_hash r;
     us_role := us_role r; us_is_active := v; us_last_login := us_last_login r;
     us_created_at := us_created_at r; us_active_org_id := us_active_org_id r |}.
Definition us_set_last_login (v : option Z) (r : UserRow) : UserRow :=
  {| us_id := us_id r; us_username := us_username r; us_password_hash := us_password_hash r;
     us_role := us_role r; us_is_active := us_is_active r; us_last_login := v; us_created_at := us_created_at r;
     us_active_org_id := us_active_org_id r |}.
Definition us_set_active_org_id (v : option uuid) (r : UserRow) : UserRow :=
  {| us_id := us_id r; us_username := us_username r; us_password_hash := us_password_hash r;
     us_role := us_role r; us_is_active := us_is_active r; us_last_login := us_last_login r;
     us_created_at := us_created_at r; us_active_org_id := v |}.
Definition og_set_name (v : jstr) (r : OrganizationRow) : OrganizationRow :=
  {| og_id := og_id r; og_name := v; og_slug := og_slug r; og_created_at := og_created_at r;
     og_owner_id := og_owner_id r |}.
Definition mb_set_role (v : jstr) (r : MemberRow) : MemberRow :=
  {| mb_id := mb_id r; mb_org_id := mb_org_id r; mb_user_id := mb_user_id r; mb_role := v;
     mb_joined_at := mb_joined_at r |}.
Definition dv_set_ip_address (v : option jstr) (r : DeviceRow) : DeviceRow :=
  {| dv_id := dv_id r; dv_hostname := dv_hostname r; dv_os_type := dv_os_type r;
     dv_os_version := dv_os_version r; dv_arch := dv_arch r; dv_ip_address := v;
     dv_fingerprint := dv_fingerprint r; dv_api_key_hash := dv_api_key_hash r;
     dv_enrolled_at := dv_enrolled_at r; dv_last_seen := dv_last_seen r; dv_status := dv_status r;
     dv_is_revoked := dv_is_revoked r; dv_label := dv_label r; dv_notes := dv_notes r; dv_tags := dv_tags r;
     dv_serial_number := dv_serial_number r; dv_manufacturer := dv_manufacturer r;
     dv_model_name := dv_model_name r; dv_purchase_date := dv_purchase_date r;
     dv_warranty_expires := dv_warranty_expires r; dv_location := dv_location r;
     dv_assigned_to := dv_assigned_to r; dv_asset_tag := dv_asset_tag r;
     dv_maintenance_mode := dv_maintenance_mode r; dv_maintenance_until := dv_maintenance_until r;
     dv_maintenance_reason := dv_maintenance_reason r; dv_agent_version := dv_agent_version r;
     dv_org_id := dv_org_id r |}.
Definition dv_set_api_key_hash (v : jstr) (r : DeviceRow) : DeviceRow :=
  {| dv_id := dv_id r; dv_hostname := dv_hostname r; dv_os_type := dv_os_type r;
     dv_os_version := dv_os_version r; dv_arch := dv_arch r; dv_ip_address := dv_ip_address r;
     dv_fingerprint := dv_fingerprint r; dv_api_key_hash := v; dv_enrolled_at := dv_enrolled_at r;
     dv_last_seen := dv_last_seen r; dv_status := dv_status r; dv_is_revoked := dv_is_revoked r;
     dv_label := dv_label r; dv_notes := dv_notes r; dv_tags := dv_tags r;
     dv_serial_number := dv_serial_number r; dv_manufacturer := dv_manufacturer r;
     dv_model_name := dv_model_name r; dv_purchase_date := dv_purchase_date r;
     dv_warranty_expires := dv_warranty_expires r; dv_location := dv_location r;
     dv_assigned_to := dv_assigned_to r; dv_asset_tag := dv_asset_tag r;
     dv_maintenance_mode := dv_maintenance_mode r; dv_maintenance_until := dv_maintenance_until r;
     dv_maintenance_reason := dv_maintenance_reason r; dv_agent_version := dv_agent_version r;
     dv_org_id := dv_org_id r |}.
Definition dv_set_last_seen (v : option Z) (r : DeviceRow) : DeviceRow :=
  {| dv_id := dv_id r; dv_hostname := dv_hostname r; dv_os_type := dv_os_type r;
     dv_os_version := dv_os_version r; dv_arch := dv_arch r; dv_ip_address := dv_ip_address r;
     dv_fingerprint := dv_fingerprint r; dv_api_key_hash := dv_api_key_hash r;
     dv_enrolled_at := dv_enrolled_at r; dv_last_seen := v; dv_status := dv_status r;
     dv_is_revoked := dv_is_revoked r; dv_label := dv_label r; dv_notes := dv_notes r; dv_tags := dv_tags r;
     dv_serial_number := dv_serial_number r; dv_manufacturer := dv_manufacturer r;
     dv_model_name := dv_model_name r; dv_purchase_date := dv_purchase_date r;
     dv_warranty_expires := dv_warranty_expires r; dv_location := dv_location r;
     dv_assigned_to := dv_assigned_to r; dv_asset_tag := dv_asset_tag r;
     dv_maintenance_mode := dv_maintenance_mode r; dv_maintenance_until := dv_maintenance_until r;
     dv_maintenance_reason := dv_maintenance_reason r; dv_agent_version := dv_agent_version r;
     dv_org_id := dv_org_id r |}.
Definition dv_set_status (v : jstr) (r : DeviceRow) : DeviceRow :=
  {| dv_id := dv_id r; dv_hostname := dv_hostname r; dv_os_type := dv_os_type r;
     dv_os_version := dv_os_version r; dv_arch := dv_arch r; dv_ip_address := dv_ip_address r;
     dv_fingerprint := dv_fingerprint r; dv_api_key_hash := dv_api_key_hash r;
     dv_enrolled_at := dv_enrolled_at r; dv_last_seen := dv_last_seen r; dv_status := v;
     dv_is_revoked := dv_is_revoked r; dv_label := dv_label r; dv_notes := dv_notes r; dv_tags := dv_tags r;
     dv_serial_number := dv_serial_number r; dv_manufacturer := dv_manufacturer r;
     dv_model_name := dv_model_name r; dv_purchase_date := dv_purchase_date r;
     dv_warranty_expires := dv_warranty_expires r; dv_location := dv_location r;
     dv_assigned_to := dv_assigned_to r; dv_asset_tag := dv_asset_tag r;
     dv_maintenance_mode := dv_maintenance_mode r; dv_maintenance_until := dv_maintenance_until r;
     dv_maintenance_reason := dv_maintenance_reason r; dv_agent_version := dv_agent_version r;
     dv_org_id := dv_org_id r |}.
Definition dv_set_is_revoked (v : bool) (r : DeviceRow) : DeviceRow :=
  {| dv_id := dv_id r; dv_hostname := dv_hostname r; dv_os_type := dv_os_type r;
     dv_os_version := dv_os_version r; dv_arch := dv_arch r; dv_ip_address := dv_ip_address r;
     dv_fingerprint := dv_fingerprint r; dv_api_key_hash := dv_api_key_hash r;
     dv_enrolled_at := dv_enrolled_at r; dv_last_seen := dv_last_seen r; dv_status := dv_status r;
     dv_is_revoked := v; dv_label := dv_label r; dv_notes := dv_notes r; dv_tags := dv_tags r;
     dv_serial_number := dv_serial_number r; dv_manufacturer := dv_manufacturer r;
     dv_model_name := dv_model_name r; dv_purchase_date := dv_purchase_date r;
     dv_warranty_expires := dv_warranty_expires r; dv_location := dv_location r;
     dv_assigned_to := dv_assigned_to r; dv_asset_tag := dv_asset_tag r;
     dv_maintenance_mode := dv_maintenance_mode r; dv_maintenance_until := dv_maintenance_until r;
     dv_maintenance_reason := dv_maintenance_reason r; dv_agent_version := dv_agent_version r;
     dv_org_id := dv_org_id r |}.
Definition dv_set_label (v : option jstr) (r : DeviceRow) : DeviceRow :=
  {| dv_id := dv_id r; dv_hostname := dv_hostname r; dv_os_type := dv_os_type r;
     dv_os_version := dv_os_version r; dv_arch := dv_arch r; dv_ip_address := dv_ip_address r;
     dv_fingerprint := dv_fingerprint r; dv_api_key_hash := dv_api_key_hash r;
     dv_enrolled_at := dv_enrolled_at r; dv_last_seen := dv_last_seen r; dv_status := dv_status r;
     dv_is_revoked := dv_is_revoked r; dv_label := v; dv_notes := dv_notes r; dv_tags := dv_tags r;
     dv_serial_number := dv_serial_number r; dv_manufacturer := dv_manufacturer r;
     dv_model_name := dv_model_name r; dv_purchase_date := dv_purchase_date r;
     dv_warranty_expires := dv_warranty_expires r; dv_location := dv_location r;
     dv_assigned_to := dv_assigned_to r; dv_asset_tag := dv_asset_tag r;
     dv_maintenance_mode := dv_maintenance_mode r; dv_maintenance_until := dv_maintenance_until r;
     dv_maintenance_reason := dv_maintenance_reason r; dv_agent_version := dv_agent_version r;
     dv_org_id := dv_org_id r |}.
Definition dv_set_notes (v : option jstr) (r : DeviceRow) : DeviceRow :=
  {| dv_id := dv_id r; dv_hostname := dv_hostname r; dv_os_type := dv_os_type r;
     dv_os_version := dv_os_version r; dv_arch := dv_arch r; dv_ip_address := dv_ip_address r;
     dv_fingerprint := dv_fingerprint r; dv_api_key_hash := dv_api_key_hash r;
     dv_enrolled_at := dv_enrolled_at r; dv_last_seen := dv_last_seen r; dv_status := dv_status r;
     dv_is_revoked := dv_is_revoked r; dv_label := dv_label r; dv_notes := v; dv_tags := dv_tags r;
     dv_serial_number := dv_serial_number r; dv_manufacturer := dv_manufacturer r;
     dv_model_name := dv_model_name r; dv_purchase_date := dv_purchase_date r;
     dv_warranty_expires := dv_warranty_expires r; dv_location := dv_location r;
     dv_assigned_to := dv_assigned_to r; dv_asset_tag := dv_asset_tag r;
     dv_maintenance_mode := dv_maintenance_mode r; dv_maintenance_until := dv_maintenance_until r;
     dv_maintenance_reason := dv_maintenance_reason r; dv_agent_version := dv_agent_version r;
     dv_org_id := dv_org_id r |}.
Definition dv_set_tags (v : list jstr) (r : DeviceRow) : DeviceRow :=
  {| dv_id := dv_id r; dv_hostname := dv_hostname r; dv_os_type := dv_os_type r;
     dv_os_version := dv_os_version r; dv_arch := dv_arch r; dv_ip_address := dv_ip_address r;
     dv_fingerprint := dv_fingerprint r; dv_api_key_hash := dv_api_key_hash r;
     dv_enrolled_at := dv_enrolled_at r; dv_last_seen := dv_last_seen r; dv_status := dv_status r;
     dv_is_revoked := dv_is_revoked r; dv_label := dv_label r; dv_notes := dv_notes r; dv_tags := v;
     dv_serial_number := dv_serial_number r; dv_manufacturer := dv_manufacturer r;
     dv_model_name := dv_model_name r; dv_purchase_date := dv_purchase_date r;
     dv_warranty_expires := dv_warranty_expires r; dv_location := dv_location r;
     dv_assigned_to := dv_assigned_to r; dv_asset_tag := dv_asset_tag r;
     dv_maintenance_mode := dv_maintenance_mode r; dv_maintenance_until := dv_maintenance_until r;
     dv_maintenance_reason := dv_maintenance_reason r; dv_agent_version := dv_agent_version r;
     dv_org_id := dv_org_id r |}.
Definition dv_set_serial_number (v : option jstr) (r : DeviceRow) : DeviceRow :=
  {| dv_id := dv_id r; dv_hostname := dv_hostname r; dv_os_type := dv_os_type r;
     dv_os_version := dv_os_version r; dv_arch := dv_arch r; dv_ip_address := dv_ip_address r;
     dv_fingerprint := dv_fingerprint r; dv_api_key_hash := dv_api_key_hash r;
     dv_enrolled_at := dv_enrolled_at r; dv_last_seen := dv_last_seen r; dv_status := dv_status r;
     dv_is_revoked := dv_is_revoked r; dv_label := dv_label r; dv_notes := dv_notes r; dv_tags := dv_tags r;
     dv_serial_number := v; dv_manufacturer := dv_manufacturer r; dv_model_name := dv_model_name r;
     dv_purchase_date := dv_purchase_date r; dv_warranty_expires := dv_warranty_expires r;
     dv_location := dv_location r; dv_assigned_to := dv_assigned_to r; dv_asset_tag := dv_asset_tag r;
     dv_maintenance_mode := dv_maintenance_mode r; dv_maintenance_until := dv_maintenance_until r;
     dv_maintenance_reason := dv_maintenance_reason r; dv_agent_version := dv_agent_version r;
     dv_org_id := dv_org_id r |}.
Definition dv_set_manufacturer (v : option jstr) (r : DeviceRow) : DeviceRow :=
  {| dv_id := dv_id r; dv_hostname := dv_hostname r; dv_os_type := dv_os_type r;
     dv_os_version := dv_os_version r; dv_arch := dv_arch r; dv_ip_address := dv_ip_address r;
     dv_fingerprint := dv_fingerprint r; dv_api_key_hash := dv_api_key_hash r;
     dv_enrolled_at := dv_enrolled_at r; dv_last_seen := dv_last_seen r; dv_status := dv_status r;
     dv_is_revoked := dv_is_revoked r; dv_label := dv_label r; dv_notes := dv_notes r; dv_tags := dv_tags r;
     dv_serial_number := dv_serial_number r; dv_manufacturer := v; dv_model_name := dv_model_name r;
     dv_purchase_date := dv_purchase_date r; dv_warranty_expires := dv_warranty_expires r;
     dv_location := dv_location r; dv_assigned_to := dv_assigned_to r; dv_asset_tag := dv_asset_tag r;
     dv_maintenance_mode := dv_maintenance_mode r; dv_maintenance_until := dv_maintenance_until r;
     dv_maintenance_reason := dv_maintenance_reason r; dv_agent_version := dv_agent_version r;
     dv_org_id := dv_org_id r |}.
Definition dv_set_model_name (v : option jstr) (r : DeviceRow) : DeviceRow :=
  {| dv_id := dv_id r; dv_hostname := dv_hostname r; dv_os_type := dv_os_type r;
     dv_os_version := dv_os_version r; dv_arch := dv_arch r; dv_ip_address := dv_ip_address r;
     dv_fingerprint := dv_fingerprint r; dv_api_key_hash := dv_api_key_hash r;
     dv_enrolled_at := dv_enrolled_at r; dv_last_seen := dv_last_seen r; dv_status := dv_status r;
     dv_is_revoked := dv_is_revoked r; dv_label := dv_label r; dv_notes := dv_notes r; dv_tags := dv_tags r;
     dv_serial_number := dv_serial_number r; dv_manufacturer := dv_manufacturer r; dv_model_name := v;
     dv_purchase_date := dv_purchase_date r; dv_warranty_expires := dv_warranty_expires r;
     dv_location := dv_location r; dv_assigned_to := dv_assigned_to r; dv_asset_tag := dv_asset_tag r;
     dv_maintenance_mode := dv_maintenance_mode r; dv_maintenance_until := dv_maintenance_until r;
     dv_maintenance_reason := dv_maintenance_reason r; dv_agent_version := dv_agent_version r;
     dv_org_id := dv_org_id r |}.
Definition dv_set_purchase_date (v : option Z) (r : DeviceRow) : DeviceRow :=
  {| dv_id := dv_id r; dv_hostname := dv_hostname r; dv_os_type := dv_os_type r;
     dv_os_version := dv_os_version r; dv_arch := dv_arch r; dv_ip_address := dv_ip_address r;
     dv_fingerprint := dv_fingerprint r; dv_api_key_hash := dv_api_key_hash r;
     dv_enrolled_at := dv_enrolled_at r; dv_last_seen := dv_last_seen r; dv_status := dv_status r;
     dv_is_revoked := dv_is_revoked r; dv_label := dv_label r; dv_notes := dv_notes r; dv_tags := dv_tags r;
     dv_serial_number := dv_serial_number r; dv_manufacturer := dv_manufacturer r;
     dv_model_name := dv_model_name r; dv_purchase_date := v; dv_warranty_expires := dv_warranty_expires r;
     dv_location := dv_location r; dv_assigned_to := dv_assigned_to r; dv_asset_tag := dv_asset_tag r;
     dv_maintenance_mode := dv_maintenance_mode r; dv_maintenance_until := dv_maintenance_until r;
     dv_maintenance_reason := dv_maintenance_reason r; dv_agent_version := dv_agent_version r;
     dv_org_id := dv_org_id r |}.
Definition dv_set_warranty_expires (v : option Z) (r : DeviceRow) : DeviceRow :=
  {| dv_id := dv_id r; dv_hostname := dv_hostname r; dv_os_type := dv_os_type r;
     dv_os_version := dv_os_version r; dv_arch := dv_arch r; dv_ip_address := dv_ip_address r;
     dv_fingerprint := dv_fingerprint r; dv_api_key_hash := dv_api_key_hash r;
     dv_enrolled_at := dv_enrolled_at r; dv_last_seen := dv_last_seen r; dv_status := dv_status r;
     dv_is_revoked := dv_is_revoked r; dv_label := dv_label r; dv_notes := dv_notes r; dv_tags := dv_tags r;
     dv_serial_number := dv_serial_number r; dv_manufacturer := dv_manufacturer r;
     dv_model_name := dv_model_name r; dv_purchase_date := dv_purchase_date r; dv_warranty_expires := v;
     dv_location := dv_location r; dv_assigned_to := dv_assigned_to r; dv_asset_tag := dv_asset_tag r;
     dv_maintenance_mode := dv_maintenance_mode r; dv_maintenance_until := dv_maintenance_until r;
     dv_maintenance_reason := dv_maintenance_reason r; dv_agent_version := dv_agent_version r;
     dv_org_id := dv_org_id r |}.
Definition dv_set_location (v : option jstr) (r : DeviceRow) : DeviceRow :=
  {| dv_id := dv_id r; dv_hostname := dv_hostname r; dv_os_type := dv_os_type r;
     dv_os_version := dv_os_version r; dv_arch := dv_arch r; dv_ip_address := dv_ip_address r;
     dv_fingerprint := dv_fingerprint r; dv_api_key_hash := dv_api_key_hash r;
     dv_enrolled_at := dv_enrolled_at r; dv_last_seen := dv_last_seen r; dv_status := dv_status r;
     dv_is_revoked := dv_is_revoked r; dv_label := dv_label r; dv_notes := dv_notes r; dv_tags := dv_tags r;
     dv_serial_number := dv_serial_number r; dv_manufacturer := dv_manufacturer r;
     dv_model_name := dv_model_name r; dv_purchase_date := dv_purchase_date r;
     dv_warranty_expires := dv_warranty_expires r; dv_location := v; dv_assigned_to := dv_assigned_to r;
     dv_asset_tag := dv_asset_tag r; dv_maintenance_mode := dv_maintenance_mode r;
     dv_maintenance_until := dv_maintenance_until r; dv_maintenance_reason := dv_maintenance_reason r;
     dv_agent_version := dv_agent_version r; dv_org_id := dv_org_id r |}.
Definition dv_set_assigned_to (v : option jstr) (r : DeviceRow) : DeviceRow :=
  {| dv_id := dv_id r; dv_hostname := dv_hostname r; dv_os_type := dv_os_type r;
     dv_os_version := dv_os_version r; dv_arch := dv_arch r; dv_ip_address := dv_ip_address r;
     dv_fingerprint := dv_fingerprint r; dv_api_key_hash := dv_api_key_hash r;
     dv_enrolled_at := dv_enrolled_at r; dv_last_seen := dv_last_seen r; dv_status := dv_status r;
     dv_is_revoked := dv_is_revoked r; dv_label := dv_label r; dv_notes := dv_notes r; dv_tags := dv_tags r;
     dv_serial_number := dv_serial_number r; dv_manufacturer := dv_manufacturer r;
     dv_model_name := dv_model_name r; dv_purchase_date := dv_purchase_date r;
     dv_warranty_expires := dv_warranty_expires r; dv_location := dv_location r; dv_assigned_to := v;
     dv_asset_tag := dv_asset_tag r; dv_maintenance_mode := dv_maintenance_mode r;
     dv_maintenance_until := dv_maintenance_until r; dv_maintenance_reason := dv_maintenance_reason r;
     dv_agent_version := dv_agent_version r; dv_org_id := dv_org_id r |}.
Definition dv_set_asset_tag (v : option jstr) (r : DeviceRow) : DeviceRow :=
  {| dv_id := dv_id r; dv_hostname := dv_hostname r; dv_os_type := dv_os_type r;
     dv_os_version := dv_os_version r; dv_arch := dv_arch r; dv_ip_address := dv_ip_address r;
     dv_fingerprint := dv_fingerprint r; dv_api_key_hash := dv_api_key_hash r;
     dv_enrolled_at := dv_enrolled_at r; dv_last_seen := dv_last_seen r; dv_status := dv_status r;
     dv_is_revoked := dv_is_revoked r; dv_label := dv_label r; dv_notes := dv_notes r; dv_tags := dv_tags r;
     dv_serial_number := dv_serial_number r; dv_manufacturer := dv_manufacturer r;
     dv_model_name := dv_model_name r; dv_purchase_date := dv_purchase_date r;
     dv_warranty_expires := dv_warranty_expires r; dv_location := dv_location r;
     dv_assigned_to := dv_assigned_to r; dv_asset_tag := v; dv_maintenance_mode := dv_maintenance_mode r;
     dv_maintenance_until := dv_maintenance_until r; dv_maintenance_reason := dv_maintenance_reason r;
     dv_agent_version := dv_agent_version r; dv_org_id := dv_org_id r |}.
Definition dv_set_maintenance_mode (v : bool) (r : DeviceRow) : DeviceRow :=
  {| dv_id := dv_id r; dv_hostname := dv_hostname r; dv_os_type := dv_os_type r;
     dv_os_version := dv_os_version r; dv_arch := dv_arch r; dv_ip_address := dv_ip_address r;
     dv_fingerprint := dv_fingerprint r; dv_api_key_hash := dv_api_key_hash r;
     dv_enrolled_at := dv_enrolled_at r; dv_last_seen := dv_last_seen r; dv_status := dv_status r;
     dv_is_revoked := dv_is_revoked r; dv_label := dv_label r; dv_notes := dv_notes r; dv_tags := dv_tags r;
     dv_serial_number := dv_serial_number r; dv_manufacturer := dv_manufacturer r;
     dv_model_name := dv_model_name r; dv_purchase_date := dv_purchase_date r;
     dv_warranty_expires := dv_warranty_expires r; dv_location := dv_location r;
     dv_assigned_to := dv_assigned_to r; dv_asset_tag := dv_asset_tag r; dv_maintenance_mode := v;
     dv_maintenance_until := dv_maintenance_until r; dv_maintenance_reason := dv_maintenance_reason r;
     dv_agent_version := dv_agent_version r; dv_org_id := dv_org_id r |}.
Definition dv_set_maintenance_until (v : option Z) (r : DeviceRow) : DeviceRow :=
  {| dv_id := dv_id r; dv_hostname := dv_hostname r; dv_os_type := dv_os_type r;
     dv_os_version := dv_os_version r; dv_arch := dv_arch r; dv_ip_address := dv_ip_address r;
     dv_fingerprint := dv_fingerprint r; dv_api_key_hash := dv_api_key_hash r;
     dv_enrolled_at := dv_enrolled_at r; dv_last_seen := dv_last_seen r; dv_status := dv_status r;
     dv_is_revoked := dv_is_revoked r; dv_label := dv_label r; dv_notes := dv_notes r; dv_tags := dv_tags r;
     dv_serial_number := dv_serial_number r; dv_manufacturer := dv_manufacturer r;
     dv_model_name := dv_model_name r; dv_purchase_date := dv_purchase_date r;
     dv_warranty_expires := dv_warranty_expires r; dv_location := dv_location r;
     dv_assigned_to := dv_assigned_to r; dv_asset_tag := dv_asset_tag r;
     dv_maintenance_mode := dv_maintenance_mode r; dv_maintenance_until := v;
     dv_maintenance_reason := dv_maintenance_reason r; dv_agent_version := dv_agent_version r;
     dv_org_id := dv_org_id r |}.
Definition dv_set_maintenance_reason (v : option jstr) (r : DeviceRow) : DeviceRow :=
  {| dv_id := dv_id r; dv_hostname := dv_hostname r; dv_os_type := dv_os_type r;
     dv_os_version := dv_os_version r; dv_arch := dv_arch r; dv_ip_address := dv_ip_address r;
     dv_fingerprint := dv_fingerprint r; dv_api_key_hash := dv_api_key_hash r;
     dv_enrolled_at := dv_enrolled_at r; dv_last_seen := dv_last_seen r; dv_status := dv_status r;
     dv_is_revoked := dv_is_revoked r; dv_label := dv_label r; dv_notes := dv_notes r; dv_tags := dv_tags r;
     dv_serial_number := dv_serial_number r; dv_manufacturer := dv_manufacturer r;
     dv_model_name := dv_model_name r; dv_purchase_date := dv_purchase_date r;
     dv_warranty_expires := dv_warranty_expires r; dv_location := dv_location r;
     dv_assigned_to := dv_assigned_to r; dv_asset_tag := dv_asset_tag r;
     dv_maintenance_mode := dv_maintenance_mode r; dv_maintenance_until := dv_maintenance_until r;
     dv_maintenance_reason := v; dv_agent_version := dv_agent_version r; dv_org_id := dv_org_id r |}.
Definition dv_set_agent_version (v : option jstr) (r : DeviceRow) : DeviceRow :=
  {| dv_id := dv_id r; dv_hostname := dv_hostname r; dv_os_type := dv_os_type r;
     dv_os_version := dv_os_version r; dv_arch := dv_arch r; dv_ip_address := dv_ip_address r;
     dv_fingerprint := dv_fingerprint r; dv_api_key_hash := dv_api_key_hash r;
     dv_enrolled_at := dv_enrolled_at r; dv_last_seen := dv_last_seen r; dv_status := dv_status r;
     dv_is_revoked := dv_is_revoked r; dv_label := dv_label r; dv_notes := dv_notes r; dv_tags := dv_tags r;
     dv_serial_number := dv_serial_number r; dv_manufacturer := dv_manufacturer r;
     dv_model_name := dv_model_name r; dv_purchase_date := dv_purchase_date r;
     dv_warranty_expires := dv_warranty_expires r; dv_location := dv_location r;
     dv_assigned_to := dv_assigned_to r; dv_asset_tag := dv_asset_tag r;
     dv_maintenance_mode := dv_maintenance_mode r; dv_maintenance_until := dv_maintenance_until r;
     dv_maintenance_reason := dv_maintenance_reason r; dv_agent_version := v; dv_org_id := dv_org_id r |}.
Definition cd_set_status (v : jstr) (r : CommandRow) : CommandRow :=
  {| cd_id := cd_id r; cd_device_id := cd_device_id r; cd_issued_by := cd_issued_by r;
     cd_command_type := cd_command_type r; cd_payload := cd_payload r; cd_status := v;
     cd_created_at := cd_created_at r; cd_started_at := cd_started_at r; cd_completed_at := cd_completed_at r;
     cd_exit_code := cd_exit_code r; cd_output := cd_output r |}.
Definition cd_set_completed_at (v : option Z) (r : CommandRow) : CommandRow :=
  {| cd_id := cd_id r; cd_device_id := cd_device_id r; cd_issued_by := cd_issued_by r;
     cd_command_type := cd_command_type r; cd_payload := cd_payload r; cd_status := cd_status r;
     cd_created_at := cd_created_at r; cd_started_at := cd_started_at r; cd_completed_at := v;
     cd_exit_code := cd_exit_code r; cd_output := cd_output r |}.
Definition cd_set_exit_code (v : option Z) (r : CommandRow) : CommandRow :=
  {| cd_id := cd_id r; cd_device_id := cd_device_id r; cd_issued_by := cd_issued_by r;
     cd_command_type := cd_command_type r; cd_payload := cd_payload r; cd_status := cd_status r;
     cd_created_at := cd_created_at r; cd_started_at := cd_started_at r; cd_completed_at := cd_completed_at r;
     cd_exit_code := v; cd_output := cd_output r |}.
Definition cd_set_output (v : option jstr) (r : CommandRow) : CommandRow :=
  {| cd_id := cd_id r; cd_device_id := cd_device_id r; cd_issued_by := cd_issued_by r;
     cd_command_type := cd_command_type r; cd_payload := cd_payload r; cd_status := cd_status r;
     cd_created_at := cd_created_at r; cd_started_at := cd_started_at r; cd_completed_at := cd_completed_at r;
     cd_exit_code := cd_exit_code r; cd_output := v |}.
Definition ar_set_is_resolved (v : bool) (r : AlertRow) : AlertRow :=
  {| ar_id := ar_id r; ar_device_id := ar_device_id r; ar_alert_type := ar_alert_type r;
     ar_severity := ar_severity r; ar_message := ar_message r; ar_is_resolved := v;
     ar_created_at := ar_created_at r; ar_resolved_at := ar_resolved_at r |}.
Definition ar_set_resolved_at (v : option Z) (r : AlertRow) : AlertRow :=
  {| ar_id := ar_id r; ar_device_id := ar_device_id r; ar_alert_type := ar_alert_type r;
     ar_severity := ar_severity r; ar_message := ar_message r; ar_is_resolved := ar_is_resolved r;
     ar_created_at := ar_created_at r; ar_resolved_at := v |}.
Definition cf_set_config (v : list (jstr * json)) (r : ConfigRow) : ConfigRow :=
  {| cf_device_id := cf_device_id r; cf_config := v; cf_updated_at := cf_updated_at r |}.
Definition cf_set_updated_at (v : Z) (r : ConfigRow) : ConfigRow :=
  {| cf_device_id := cf_device_id r; cf_config := cf_config r; cf_updated_at := v |}.
Definition sd_set_device_id (v : option uuid) (r : ScheduledRow) : ScheduledRow :=
  {| sd_id := sd_id r; sd_org_id := sd_org_id r; sd_device_id := v; sd_command_type := sd_command_type r;
     sd_payload := sd_payload r; sd_cron_expression := sd_cron_expression r; sd_is_enabled := sd_is_enabled r;
     sd_last_run_at := sd_last_run_at r; sd_next_run_at := sd_next_run_at r; sd_created_by := sd_created_by r;
     sd_created_at := sd_created_at r |}.
Definition sd_set_command_type (v : jstr) (r : ScheduledRow) : ScheduledRow :=
  {| sd_id := sd_id r; sd_org_id := sd_org_id r; sd_device_id := sd_device_id r; sd_command_type := v;
     sd_payload := sd_payload r; sd_cron_expression := sd_cron_expression r; sd_is_enabled := sd_is_enabled r;
     sd_last_run_at := sd_last_run_at r; sd_next_run_at := sd_next_run_at r; sd_created_by := sd_created_by r;
     sd_created_at := sd_created_at r |}.
Definition sd_set_payload (v : option (list (jstr * json))) (r : ScheduledRow) : ScheduledRow :=
  {| sd_id := sd_id r; sd_org_id := sd_org_id r; sd_device_id := sd_device_id r;
     sd_command_type := sd_command_type r; sd_payload := v; sd_cron_expression := sd_cron_expression r;
     sd_is_enabled := sd_is_enabled r; sd_last_run_at := sd_last_run_at r; sd_next_run_at := sd_next_run_at r;
     sd_created_by := sd_created_by r; sd_created_at := sd_created_at r |}.
Definition sd_set_cron_expression (v : jstr) (r : ScheduledRow) : ScheduledRow :=
  {| sd_id := sd_id r; sd_org_id := sd_org_id r; sd_device_id := sd_device_id r;
     sd_command_type := sd_command_type r; sd_payload := sd_payload r; sd_cron_expression := v;
     sd_is_enabled := sd_is_enabled r; sd_last_run_at := sd_last_run_at r; sd_next_run_at := sd_next_run_at r;
     sd_created_by := sd_created_by r; sd_created_at := sd_created_at r |}.
Definition sd_set_is_enabled (v : bool) (r : ScheduledRow) : ScheduledRow :=
  {| sd_id := sd_id r; sd_org_id := sd_org_id r; sd_device_id := sd_device_id r;
     sd_command_type := sd_command_type r; sd_payload := sd_payload r;
     sd_cron_expression := sd_cron_expression r; sd_is_enabled := v; sd_last_run_at := sd_last_run_at r;
     sd_next_run_at := sd_next_run_at r; sd_created_by := sd_created_by r; sd_created_at := sd_created_at r |}.
Definition sd_set_last_run_at (v : option Z) (r : ScheduledRow) : ScheduledRow :=
  {| sd_id := sd_id r; sd_org_id := sd_org_id r; sd_device_id := sd_device_id r;
     sd_command_type := sd_command_type r; sd_payload := sd_payload r;
     sd_cron_expression := sd_cron_expression r; sd_is_enabled := sd_is_enabled r; sd_last_run_at := v;
     sd_next_run_at := sd_next_run_at r; sd_created_by := sd_created_by r; sd_created_at := sd_created_at r |}.
Definition sd_set_next_run_at (v : option Z) (r : ScheduledRow) : ScheduledRow :=
  {| sd_id := sd_id r; sd_org_id := sd_org_id r; sd_device_id := sd_device_id r;
     sd_command_type := sd_command_type r; sd_payload := sd_payload r;
     sd_cron_expression := sd_cron_expression r; sd_is_enabled := sd_is_enabled r;
     sd_last_run_at := sd_last_run_at r; sd_next_run_at := v; sd_created_by := sd_created_by r;
     sd_created_at := sd_created_at r |}.
Definition rl_set_alert_type (v : jstr) (r : RuleRow) : RuleRow :=
  {| rl_id := rl_id r; rl_org_id := rl_org_id r; rl_alert_type := v; rl_severity_min := rl_severity_min r;
     rl_channel := rl_channel r; rl_webhook_url := rl_webhook_url r; rl_email_address := rl_email_address r;
     rl_is_enabled := rl_is_enabled r; rl_created_at := rl_created_at r |}.
Definition rl_set_severity_min (v : jstr) (r : RuleRow) : RuleRow :=
  {| rl_id := rl_id r; rl_org_id := rl_org_id r; rl_alert_type := rl_alert_type r; rl_severity_min := v;
     rl_channel := rl_channel r; rl_webhook_url := rl_webhook_url r; rl_email_address := rl_email_address r;
     rl_is_enabled := rl_is_enabled r; rl_created_at := rl_created_at r |}.
Definition rl_set_channel (v : jstr) (r : RuleRow) : RuleRow :=
  {| rl_id := rl_id r; rl_org_id := rl_org_id r; rl_alert_type := rl_alert_type r;
     rl_severity_min := rl_severity_min r; rl_channel := v; rl_webhook_url := rl_webhook_url r;
     rl_email_address := rl_email_address r; rl_is_enabled := rl_is_enabled r;
     rl_created_at := rl_created_at r |}.
Definition rl_set_webhook_url (v : option jstr) (r : RuleRow) : RuleRow :=
  {| rl_id := rl_id r; rl_org_id := rl_org_id r; rl_alert_type := rl_alert_type r;
     rl_severity_min := rl_severity_min r; rl_channel := rl_channel r; rl_webhook_url := v;
     rl_email_address := rl_email_address r; rl_is_enabled := rl_is_enabled r;
     rl_created_at := rl_created_at r |}.
Definition rl_set_email_address (v : option jstr) (r : RuleRow) : RuleRow :=
  {| rl_id := rl_id r; rl_org_id := rl_org_id r; rl_alert_type := rl_alert_type r;
     rl_severity_min := rl_severity_min r; rl_channel := rl_channel r; rl_webhook_url := rl_webhook_url r;
     rl_email_address := v; rl_is_enabled := rl_is_enabled r; rl_created_at := rl_created_at r |}.
Definition rl_set_is_enabled (v : bool) (r : RuleRow) : RuleRow :=
  {| rl_id := rl_id r; rl_org_id := rl_org_id r; rl_alert_type := rl_alert_type r;
     rl_severity_min := rl_severity_min r; rl_channel := rl_channel r; rl_webhook_url := rl_webhook_url r;
     rl_email_address := rl_email_address r; rl_is_enabled := v; rl_created_at := rl_created_at r |}.
Definition pk_set_user_id (v : uuid) (r : PushTokenRow) : PushTokenRow :=
  {| pk_id := pk_id r; pk_user_id := v; pk_token := pk_token r; pk_platform := pk_platform r;
     pk_created_at := pk_created_at r; pk_last_used := pk_last_used r |}.
Definition pk_set_platform (v : option jstr) (r : PushTokenRow) : PushTokenRow :=
  {| pk_id := pk_id r; pk_user_id := pk_user_id r; pk_token := pk_token r; pk_platform := v;
     pk_created_at := pk_created_at r; pk_last_used := pk_last_used r |}.
Definition pk_set_last_used (v : option Z) (r : PushTokenRow) : PushTokenRow :=
  {| pk_id := pk_id r; pk_user_id := pk_user_id r; pk_token := pk_token r; pk_platform := pk_platform r;
     pk_created_at := pk_created_at r; pk_last_used := v |}.

(** ** The database *)

Record database := {
  users : list UserRow; organizations : list OrganizationRow; members : list MemberRow;
  devices : list DeviceRow; commands : list CommandRow; alerts : list AlertRow; events : list EventRow;
  metrics : list MetricRow; software : list SoftwareRow; network : list NetworkRow; ssh_keys : list SSHKeyRow;
  uptime_events : list UptimeRow; device_configs : list ConfigRow; scheduled_commands : list ScheduledRow;
  audit_log : list AuditRow; notification_rules : list RuleRow; push_tokens : list PushTokenRow }.
Definition empty_db : database :=
  {| users := []; organizations := []; members := []; devices := []; commands := []; alerts := []; events := [];
     metrics := []; software := []; network := []; ssh_keys := []; uptime_events := []; device_configs := [];
     scheduled_commands := []; audit_log := []; notification_rules := []; push_tokens := [] |}.

(** A table of the database: its rows, the primary key of a row, and the rows
    that a unique constraint does not allow together. *)
Class Table (R : Type) := {
  rows : database → list R;
  set_rows : list R → database → database;
  pk : R → uuid;
  conflict : R → R → bool;
  rows_set_rows : ∀ l d, rows (set_rows l d) = l;
  set_rows_rows : ∀ d, set_rows (rows d) d = d;
  set_rows_twice : ∀ l l' d, set_rows l (set_rows l' d) = set_rows l d;
  conflict_pk : ∀ r r', pk r = pk r' → conflict r r' = true }.

Definition set_users (l : list UserRow) (d : database) : database :=
  {| users := l; organizations := organizations d; members := members d; devices := devices d;
     commands := commands d; alerts := alerts d; events := events d; metrics := metrics d;
     software := software d; network := network d; ssh_keys := ssh_keys d; uptime_events := uptime_events d;
     device_configs := device_configs d; scheduled_commands := scheduled_commands d; audit_log := audit_log d;
     notification_rules := notification_rules d; push_tokens := push_tokens d |}.
Definition set_organizations (l : list OrganizationRow) (d : database) : database :=
  {| users := users d; organizations := l; members := members d; devices := devices d; commands := commands d;
     alerts := alerts d; events := events d; metrics := metrics d; software := software d; network := network d;
     ssh_keys := ssh_keys d; uptime_events := uptime_events d; device_configs := device_configs d;
     scheduled_commands := scheduled_commands d; audit_log := audit_log d;
     notification_rules := notification_rules d; push_tokens := push_tokens d |}.
Definition set_members (l : list MemberRow) (d : database) : database :=
  {| users := users d; organizations := organizations d; members := l; devices := devices d;
     commands := commands d; alerts := alerts d; events := events d; metrics := metrics d;
     software := software d; network := network d; ssh_keys := ssh_keys d; uptime_events := uptime_events d;
     device_configs := device_configs d; scheduled_commands := scheduled_commands d; audit_log := audit_log d;
     notification_rules := notification_rules d; push_tokens := push_tokens d |}.
Definition set_devices (l : list DeviceRow) (d : database) : database :=
  {| users := users d; organizations := organizations d; members := members d; devices := l;
     commands := commands d; alerts := alerts d; events := events d; metrics := metrics d;
     software := software d; network := network d; ssh_keys := ssh_keys d; uptime_events := uptime_events d;
     device_configs := device_configs d; scheduled_commands := scheduled_commands d; audit_log := audit_log d;
     notification_rules := notification_rules d; push_tokens := push_tokens d |}.
Definition set_commands (l : list CommandRow) (d : database) : database :=
  {| users := users d; organizations := organizations d; members := members d; devices := devices d;
     commands := l; alerts := alerts d; events := events d; metrics := metrics d; software := software d;
     network := network d; ssh_keys := ssh_keys d; uptime_events := uptime_events d;
     device_configs := device_configs d; scheduled_commands := scheduled_commands d; audit_log := audit_log d;
     notification_rules := notification_rules d; push_tokens := push_tokens d |}.
Definition set_alerts (l : list AlertRow) (d : database) : database :=
  {| users := users d; organizations := organizations d; members := members d; devices := devices d;
     commands := commands d; alerts := l; events := events d; metrics := metrics d; software := software d;
     network := network d; ssh_keys := ssh_keys d; uptime_events := uptime_events d;
     device_configs := device_configs d; scheduled_commands := scheduled_commands d; audit_log := audit_log d;
     notification_rules := notification_rules d; push_tokens := push_tokens d |}.
Definition set_events (l : list EventRow) (d : database) : database :=
  {| users := users d; organizations := organizations d; members := members d; devices := devices d;
     commands := commands d; alerts := alerts d; events := l; metrics := metrics d; software := software d;
     network := network d; ssh_keys := ssh_keys d; uptime_events := uptime_events d;
     device_configs := device_configs d; scheduled_commands := scheduled_commands d; audit_log := audit_log d;
     notification_rules := notification_rules d; push_tokens := push_tokens d |}.
Definition set_metrics (l : list MetricRow) (d : database) : database :=
  {| users := users d; organizations := organizations d; members := members d; devices := devices d;
     commands := commands d; alerts := alerts d; events := events d; metrics := l; software := software d;
     network := network d; ssh_keys := ssh_keys d; uptime_events := uptime_events d;
     device_configs := device_configs d; scheduled_commands := scheduled_commands d; audit_log := audit_log d;
     notification_rules := notification_rules d; push_tokens := push_tokens d |}.
Definition set_software (l : list SoftwareRow) (d : database) : database :=
  {| users := users d; organizations := organizations d; members := members d; devices := devices d;
     commands := commands d; alerts := alerts d; events := events d; metrics := metrics d; software := l;
     network := network d; ssh_keys := ssh_keys d; uptime_events := uptime_events d;
     device_configs := device_configs d; scheduled_commands := scheduled_commands d; audit_log := audit_log d;
     notification_rules := notification_rules d; push_tokens := push_tokens d |}.
Definition set_network (l : list NetworkRow) (d : database) : database :=
  {| users := users d; organizations := organizations d; members := members d; devices := devices d;
     commands := commands d; alerts := alerts d; events := events d; metrics := metrics d;
     software := software d; network := l; ssh_keys := ssh_keys d; uptime_events := uptime_events d;
     device_configs := device_configs d; scheduled_commands := scheduled_commands d; audit_log := audit_log d;
     notification_rules := notification_rules d; push_tokens := push_tokens d |}.
Definition set_ssh_keys (l : list SSHKeyRow) (d : database) : database :=
  {| users := users d; organizations := organizations d; members := members d; devices := devices d;
     commands := commands d; alerts := alerts d; events := events d; metrics := metrics d;
     software := software d; network := network d; ssh_keys := l; uptime_events := uptime_events d;
     device_configs := device_configs d; scheduled_commands := scheduled_commands d; audit_log := audit_log d;
     notification_rules := notification_rules d; push_tokens := push_tokens d |}.
Definition set_uptime_events (l : list UptimeRow) (d : database) : database :=
  {| users := users d; organizations := organizations d; members := members d; devices := devices d;
     commands := commands d; alerts := alerts d; events := events d; metrics := metrics d;
     software := software d; network := network d; ssh_keys := ssh_keys d; uptime_events := l;
     device_configs := device_configs d; scheduled_commands := scheduled_commands d; audit_log := audit_log d;
     notification_rules := notification_rules d; push_tokens := push_tokens d |}.
Definition set_device_configs (l : list ConfigRow) (d : database) : database :=
  {| users := users d; organizations := organizations d; members := members d; devices := devices d;
     commands := commands d; alerts := alerts d; events := events d; metrics := metrics d;
     software := software d; network := network d; ssh_keys := ssh_keys d; uptime_events := uptime_events d;
     device_configs := l; scheduled_commands := scheduled_commands d; audit_log := audit_log d;
     notification_rules := notification_rules d; push_tokens := push_tokens d |}.
Definition set_scheduled_commands (l : list ScheduledRow) (d : database) : database :=
  {| users := users d; organizations := organizations d; members := members d; devices := devices d;
     commands := commands d; alerts := alerts d; events := events d; metrics := metrics d;
     software := software d; network := network d; ssh_keys := ssh_keys d; uptime_events := uptime_events d;
     device_configs := device_configs d; scheduled_commands := l; audit_log := audit_log d;
     notification_rules := notification_rules d; push_tokens := push_tokens d |}.
Definition set_audit_log (l : list AuditRow) (d : database) : database :=
  {| users := users d; organizations := organizations d; members := members d; devices := devices d;
     commands := commands d; alerts := alerts d; events := events d; metrics := metrics d;
     software := software d; network := network d; ssh_keys := ssh_keys d; uptime_events := uptime_events d;
     device_configs := device_configs d; scheduled_commands := scheduled_commands d; audit_log := l;
     notification_rules := notification_rules d; push_tokens := push_tokens d |}.
Definition set_notification_rules (l : list RuleRow) (d : database) : database :=
  {| users := users d; organizations := organizations d; members := members d; devices := devices d;
     commands := commands d; alerts := alerts d; events := events d; metrics := metrics d;
     software := software d; network := network d; ssh_keys := ssh_keys d; uptime_events := uptime_events d;
     device_configs := device_configs d; scheduled_commands := scheduled_commands d; audit_log := audit_log d;
     notification_rules := l; push_tokens := push_tokens d |}.
Definition set_push_tokens (l : list PushTokenRow) (d : database) : database :=
  {| users := users d; organizations := organizations d; members := members d; devices := devices d;
     commands := commands d; alerts := alerts d; events := events d; metrics := metrics d;
     software := software d; network := network d; ssh_keys := ssh_keys d; uptime_events := uptime_events d;
     device_configs := device_configs d; scheduled_commands := scheduled_commands d; audit_log := audit_log d;
     notification_rules := notification_rules d; push_tokens := l |}.
#[global, refine] Instance users_table : Table UserRow :=
  {| rows := users; set_rows := set_users; pk := us_id;
     conflict := λ r r', (us_id r =? us_id r') || (us_username r =s us_username r') |}.
Proof. 1-3: by repeat intros []. intros r r' E. by rewrite E, Z.eqb_refl. Defined.
#[global, refine] Instance organizations_table : Table OrganizationRow :=
  {| rows := organizations; set_rows := set_organizations; pk := og_id;
     conflict := λ r r', (og_id r =? og_id r') || (og_slug r =s og_slug r') |}.
Proof. 1-3: by repeat intros []. intros r r' E. by rewrite E, Z.eqb_refl. Defined.
#[global, refine] Instance members_table : Table MemberRow :=
  {| rows := members; set_rows := set_members; pk := mb_id;
     conflict := λ r r', (mb_id r =? mb_id r') || ((mb_org_id r =? mb_org_id r') && (mb_user_id r =? mb_user_id r')) |}.
Proof. 1-3: by repeat intros []. intros r r' E. by rewrite E, Z.eqb_refl. Defined.
#[global, refine] Instance devices_table : Table DeviceRow :=
  {| rows := devices; set_rows := set_devices; pk := dv_id;
     conflict := λ r r', (dv_id r =? dv_id r') |}.
Proof. 1-3: by repeat intros []. intros r r' E. by rewrite E, Z.eqb_refl. Defined.
#[global, refine] Instance commands_table : Table CommandRow :=
  {| rows := commands; set_rows := set_commands; pk := cd_id;
     conflict := λ r r', (cd_id r =? cd_id r') |}.
Proof. 1-3: by repeat intros []. intros r r' E. by rewrite E, Z.eqb_refl. Defined.
#[global, refine] Instance alerts_table : Table AlertRow :=
  {| rows := alerts; set_rows := set_alerts; pk := ar_id;
     conflict := λ r r', (ar_id r =? ar_id r') |}.
Proof. 1-3: by repeat intros []. intros r r' E. by rewrite E, Z.eqb_refl. Defined.
#[global, refine] Instance events_table : Table EventRow :=
  {| rows := events; set_rows := set_events; pk := ev_id;
     conflict := λ r r', (ev_id r =? ev_id r') |}.
Proof. 1-3: by repeat intros []. intros r r' E. by rewrite E, Z.eqb_refl. Defined.
#[global, refine] Instance metrics_table : Table MetricRow :=
  {| rows := metrics; set_rows := set_metrics; pk := mt_id;
     conflict := λ r r', (mt_id r =? mt_id r') |}.
Proof. 1-3: by repeat intros []. intros r r' E. by rewrite E, Z.eqb_refl. Defined.
#[global, refine] Instance software_table : Table SoftwareRow :=
  {| rows := software; set_rows := set_software; pk := sw_id;
     conflict := λ r r', (sw_id r =? sw_id r') |}.
Proof. 1-3: by repeat intros []. intros r r' E. by rewrite E, Z.eqb_refl. Defined.
#[global, refine] Instance network_table : Table NetworkRow :=
  {| rows := network; set_rows := set_network; pk := nw_id;
     conflict := λ r r', (nw_id r =? nw_id r') |}.
Proof. 1-3: by repeat intros []. intros r r' E. by rewrite E, Z.eqb_refl. Defined.
#[global, refine] Instance ssh_keys_table : Table SSHKeyRow :=
  {| rows := ssh_keys; set_rows := set_ssh_keys; pk := ky_id;
     conflict := λ r r', (ky_id r =? ky_id r') |}.
Proof. 1-3: by repeat intros []. intros r r' E. by rewrite E, Z.eqb_refl. Defined.
#[global, refine] Instance uptime_events_table : Table UptimeRow :=
  {| rows := uptime_events; set_rows := set_uptime_events; pk := ut_id;
     conflict := λ r r', (ut_id r =? ut_id r') |}.
Proof. 1-3: by repeat intros []. intros r r' E. by rewrite E, Z.eqb_refl. Defined.
#[global, refine] Instance device_configs_table : Table ConfigRow :=
  {| rows := device_configs; set_rows := set_device_configs; pk := cf_device_id;
     conflict := λ r r', (cf_device_id r =? cf_device_id r') |}.
Proof. 1-3: by repeat intros []. intros r r' E. by rewrite E, Z.eqb_refl. Defined.
#[global, refine] Instance scheduled_commands_table : Table ScheduledRow :=
  {| rows := scheduled_commands; set_rows := set_scheduled_commands; pk := sd_id;
     conflict := λ r r', (sd_id r =? sd_id r') |}.
Proof. 1-3: by repeat intros []. intros r r' E. by rewrite E, Z.eqb_refl. Defined.
#[global, refine] Instance audit_log_table : Table AuditRow :=
  {| rows := audit_log; set_rows := set_audit_log; pk := lg_id;
     conflict := λ r r', (lg_id r =? lg_id r') |}.
Proof. 1-3: by repeat intros []. intros r r' E. by rewrite E, Z.eqb_refl. Defined.
#[global, refine] Instance notification_rules_table : Table RuleRow :=
  {| rows := notification_rules; set_rows := set_notification_rules; pk := rl_id;
     conflict := λ r r', (rl_id r =? rl_id r') |}.
Proof. 1-3: by repeat intros []. intros r r' E. by rewrite E, Z.eqb_refl. Defined.
#[global, refine] Instance push_tokens_table : Table PushTokenRow :=
  {| rows := push_tokens; set_rows := set_push_tokens; pk := pk_id;
     conflict := λ r r', (pk_id r =? pk_id r') || (pk_token r =s pk_token r') |}.
Proof. 1-3: by repeat intros []. intros r r' E. by rewrite E, Z.eqb_refl. Defined.

(** ** Identifiers read back *)

Definition hex_char (c : Z) : Prop := ∃ n, 0 <= n < 16 ∧ c = hex_lower n.

Lemma hex_char_range c : hex_char c → (48 <= c <= 57) ∨ (97 <= c <= 102).
Proof. intros (n & Hn & ->). unfold hex_lower. destruct (Z.ltb_spec n 10); lia. Qed.

Lemma hex_digits_chars i u : Forall hex_char (hex_digits i u).
Proof.
  revert u. induction i as [|i IH]; intros u; [constructor|]. simpl. apply Forall_app. split; [apply IH|].
  constructor; [|done]. exists (u mod 16). split; [apply Z.mod_pos_bound; lia|done].
Qed.

Lemma hex_digits_length i u : length (hex_digits i u) = i.
Proof. revert u. induction i as [|i IH]; intros u; [done|]. simpl. rewrite length_app, IH. simpl. lia. Qed.

Lemma hex_int_app acc s v t :
  Forall hex_char s → hex_int acc s = Some v → hex_int acc (s ++ t) = hex_int v t.
Proof.
  intros Hs. revert acc. induction Hs as [|c s Hc Hs IH]; intros acc; simpl; [by intros [= ->]|].
  destruct (Z.eqb_spec c 95) as [->|Hne]; [apply hex_char_range in Hc; lia|].
  destruct Hc as (k & Hk & ->). rewrite hex_lower_value by done. simpl. apply IH.
Qed.

Lemma hex_int_digits i u acc :
  0 <= u → hex_int acc (hex_digits i u) = Some (acc * 16 ^ Z.of_nat i + u mod 16 ^ Z.of_nat i).
Proof.
  revert u. induction i as [|i IH]; intros u Hu.
  { simpl. rewrite Z.mod_1_r. f_equal. lia. }
  cbn [hex_digits]. rewrite (hex_int_app _ _ _ _ (hex_digits_chars _ _) (IH (u / 16) ltac:(apply Z.div_pos; lia))).
  assert (0 <= u mod 16 < 16) as Hm by (apply Z.mod_pos_bound; lia).
  cbn [hex_int]. destruct (Z.eqb_spec (hex_lower (u mod 16)) 95) as [E|].
  { unfold hex_lower in E. destruct (Z.ltb_spec (u mod 16) 10); lia. }
  rewrite hex_lower_value by done. simpl. f_equal.
  rewrite Nat2Z.inj_succ, Z.pow_succ_r by lia.
  rewrite (Z.rem_mul_r u 16 (16 ^ Z.of_nat i)) by lia. lia.
Qed.

(** A separator with a character that does not occur. *)
Lemma startsWith_absent s p c : In c p → ¬ In c s → startsWith s p = false.
Proof.
  revert s. induction p as [|d p IH]; intros s Hc Hs; [done|]. destruct s as [|e s]; [done|]. simpl.
  destruct (Z.eqb_spec d e) as [->|]; [|done]. simpl. apply IH; [|naive_solver].
  destruct Hc as [->|Hc]; [exfalso; apply Hs; by left|done].
Qed.
Lemma remove_all_absent p s c : In c p → ¬ In c s → remove_all p s = s.
Proof.
  intros Hc Hs. unfold remove_all. assert (split_at p 0 s = [s]) as ->; [|simpl; by rewrite app_nil_r].
  induction s as [|d s IH]; [done|]. cbn [split_at]. rewrite (startsWith_absent _ _ c) by done.
  rewrite IH by naive_solver. done.
Qed.
Lemma remove_all_char c s : remove_all [c] s = bfilter (λ d, negb (d =? c)) s.
Proof.
  unfold remove_all. induction s as [|d s IH]; [done|]. cbn [split_at startsWith length pred].
  rewrite andb_true_r, Z.eqb_sym. simpl. destruct (d =? c); simpl; [done|]. rewrite <-IH.
  by destruct (split_at [c] 0 s).
Qed.

Lemma lstrip_none f s : Forall (λ c, f c = false) s → lstrip f s = s.
Proof. destruct 1 as [|c s Hc Hs]; [done|]. simpl. by rewrite Hc. Qed.
Lemma strip_chars_none f s : Forall (λ c, f c = false) s → strip_chars f s = s.
Proof.
  intros H. unfold strip_chars. rewrite (lstrip_none f s) by done.
  rewrite lstrip_none by (by apply Forall_rev). apply rev_involutive.
Qed.

Lemma int16_digits c d r m :
  Forall hex_char (c :: d :: r) → hex_int 0 (c :: d :: r) = Some m → int16 (c :: d :: r) = Some m.
Proof.
  intros H Hn. unfold int16. rewrite strip_chars_none.
  2: { eapply Forall_impl; [exact H|]. intros x Hx%hex_char_range. unfold py_space. simpl.
       repeat match goal with |- context [?a <=? ?b] => destruct (Z.leb_spec a b); try lia; simpl; try done end. }
  inversion H as [|? ? Hc H']; subst. inversion H' as [|? ? Hd _]; subst.
  pose proof (hex_char_range _ Hc). pose proof (hex_char_range _ Hd).
  destruct (Z.eqb_spec c 43); [lia|]. destruct (Z.eqb_spec c 45); [lia|].
  destruct (Z.eqb_spec d 120); [lia|]. destruct (Z.eqb_spec d 88); [lia|]. rewrite andb_false_r.
  rewrite <-Hn. cbn [hex_int]. destruct (Z.eqb_spec c 95); [lia|]. done.
Qed.

Lemma take_drop_step {A} n m (l : list A) : take m (drop n l) ++ drop (n + m) l = drop n l.
Proof. rewrite <-drop_drop. apply take_drop. Qed.

Definition uuid_ok (u : uuid) : Prop := 0 <= u < 2 ^ 128.

(** The text of an identifier denotes it. *)
Lemma UUID_str u : uuid_ok u → UUID (str_uuid u) = Some u.
Proof.
  intros Hu. unfold UUID, str_uuid. pose proof (hex_digits_chars 32 u) as Hh. pose proof (hex_digits_length 32 u) as Hl.
  pose proof (hex_int_digits 32 u 0 (proj1 Hu)) as Hi. revert Hh Hl Hi. generalize (hex_digits 32 u) as h. intros h Hh Hl Hi.
  rewrite Z.mod_small in Hi by exact Hu. change (0 * 16 ^ Z.of_nat 32 + u) with u in Hi.
  set (s := take 8 h ++ _).
  assert (Forall (λ c, hex_char c ∨ c = 45) s) as Hs.
  { assert (∀ l, Forall hex_char l → Forall (λ c, hex_char c ∨ c = 45) l) as HF.
    { intros l Hl'. eapply Forall_impl; [exact Hl'|]. tauto. }
    unfold s. repeat (apply Forall_app; split; [by apply HF, Forall_take, Forall_drop || apply HF, Forall_take|]
      || (constructor; [by right|])). by apply HF, Forall_drop. }
  assert (∀ c, In c s → c ≠ 58 ∧ c ≠ 123 ∧ c ≠ 125) as Hc.
  { rewrite List.Forall_forall in Hs. intros c [Hx%hex_char_range| ->]%Hs; lia. }
  rewrite (remove_all_absent "urn:" s 58) by (first [by cbn; tauto|intros H; apply Hc in H; lia]).
  rewrite (remove_all_absent "uuid:" s 58) by (first [by cbn; tauto|intros H; apply Hc in H; lia]).
  rewrite strip_chars_none.
  2: { apply List.Forall_forall. intros c Hx%Hc. unfold brace. destruct (Z.eqb_spec c 123), (Z.eqb_spec c 125); lia || done. }
  assert (remove_all "-" s = h) as ->.
  { change ("-") with [45]. rewrite remove_all_char. unfold s.
    assert (∀ l, Forall hex_char l → bfilter (λ d, negb (d =? 45)) l = l) as HF.
    { intros l HL. apply bfilter_all. rewrite List.Forall_forall in HL. intros c Hx%HL%hex_char_range.
      destruct (Z.eqb_spec c 45); [lia|done]. }
    assert (∀ l, bfilter (λ d, negb (d =? 45)) (45 :: l) = bfilter (λ d, negb (d =? 45)) l) as HC by done.
    rewrite !bfilter_app, !HC, !bfilter_app, !HC, !bfilter_app, !HC, !bfilter_app, !HC.
    rewrite !HF by (repeat first [apply Forall_take|apply Forall_drop]; exact Hh).
    rewrite (take_drop_step 16 4), (take_drop_step 12 4), (take_drop_step 8 4). apply take_drop. }
  rewrite Hl. change (Nat.eqb 32 32) with true. cbn iota.
  do 2 (destruct h as [|? h]; [discriminate Hl|]). rewrite (int16_digits _ _ _ u Hh Hi). cbn [mbind option_bind].
  destruct Hu as [H1 H2]. apply Z.leb_le in H1. apply Z.ltb_lt in H2. rewrite H1, H2. reflexivity.
Qed.

Lemma str_uuid_inj u v : uuid_ok u → uuid_ok v → str_uuid u = str_uuid v → u = v.
Proof. intros Hu Hv E. apply UUID_str in Hu, Hv. rewrite E in Hu. congruence. Qed.
