(* ===== verification/ServerRuntime.v ===== *)
(** The run time of the server: exceptions, Redis, the process state, and the
    monad the handlers are written in.

    A handler is a function from the state to a result and a state.  [db] is
    what the session of the running handler sees, [saved] what is committed: a
    handler that raises leaves [db] to [rollback].  Handlers run one after
    another, as on the server's event loop between two awaits of the same
    session; the clock is read once per handler and passed to it.  A SQL
    statement is the function on the rows of its table that it denotes:
    [select ... where] a filter, [update ... values] a map, [delete] a filter.
    Identifiers drawn by [uuid.uuid4] are arguments of the operations that draw
    them; adding a row that a unique constraint forbids raises [IntegrityError]. *)
From Stdlib Require Import QArith.
From S2P Require Import Prelude JsString JsNumber Types JsJson JsonText ServerModels.
Local Open Scope Z_scope.
Local Open Scope js_scope.

(** ** Settings *)

(** The settings the handlers read ([server/app/config.py]). *)
Record Settings := {
  ACCESS_TOKEN_EXPIRE_MINUTES : Z; REFRESH_TOKEN_EXPIRE_DAYS : Z; DEVICE_OFFLINE_THRESHOLD_SECONDS : Z;
  ALERT_CPU_PERCENT : Q; ALERT_RAM_PERCENT : Q; ALERT_DISK_PERCENT : Q; ALERT_CPU_TEMP_CELSIUS : Q;
  ALERT_NTP_OFFSET_MS : Q; FIRST_ADMIN_PASSWORD : jstr; LDAP_ENABLED : bool; LDAP_ADMIN_GROUP_DN : jstr;
  METRIC_RETENTION_DAYS : Z; EVENT_RETENTION_DAYS : Z; COMMAND_RETENTION_DAYS : Z; ALERT_RETENTION_DAYS : Z }.
Definition default_settings : Settings := {|
  ACCESS_TOKEN_EXPIRE_MINUTES := 60; REFRESH_TOKEN_EXPIRE_DAYS := 30; DEVICE_OFFLINE_THRESHOLD_SECONDS := 120;
  ALERT_CPU_PERCENT := 90; ALERT_RAM_PERCENT := 90; ALERT_DISK_PERCENT := 90; ALERT_CPU_TEMP_CELSIUS := 85;
  ALERT_NTP_OFFSET_MS := 500; FIRST_ADMIN_PASSWORD := "changeme"; LDAP_ENABLED := false; LDAP_ADMIN_GROUP_DN := "";
  METRIC_RETENTION_DAYS := 90; EVENT_RETENTION_DAYS := 365; COMMAND_RETENTION_DAYS := 180; ALERT_RETENTION_DAYS := 365 |}.

(** Times are in microseconds. *)
Definition seconds (n : Z) : Z := n * 1000000.
Definition days (n : Z) : Z := seconds (n * 86400).

(** ** Exceptions *)

Inductive exn :=
| HTTPException (status : Z) (detail : jstr)
| ValueError | TypeError | AttributeError | UnboundLocalError | RuntimeError
| MultipleResultsFound | IntegrityError | DataError | ResponseError.

Definition NotFoundError (detail : jstr) : exn := HTTPException 404 detail.
Definition UnauthorizedError (detail : jstr) : exn := HTTPException 401 detail.
Definition ForbiddenError (detail : jstr) : exn := HTTPException 403 detail.
Definition ConflictError (detail : jstr) : exn := HTTPException 409 detail.
Definition BadRequestError (detail : jstr) : exn := HTTPException 400 detail.
Definition TooManyRequestsError (detail : jstr) : exn := HTTPException 429 detail.

(** The status of the answer to a request whose handler raised: 500 unless the
    exception carries one. *)
Definition exn_status (e : exn) : Z := match e with HTTPException status _ => status | _ => 500 end.

Inductive result (A : Type) := Ok (a : A) | Raise (e : exn).
Arguments Ok {_} _.
Arguments Raise {_} _.

(** ** State *)

(** A Redis value with the time it expires at. *)
Inductive redis_value := RInt (n : Z) | RStr (s : jstr).
Record redis_entry := { r_value : redis_value; r_expires : option Z }.

Abbreviation socket := nat.

(** What leaves the process. *)
Inductive effect :=
| SendJson (ws : socket) (message : json)
| CloseSocket (ws : socket) (code : Z)
| WebhookTask (url : jstr) (payload : json)
| EmailTask (to alert_id device_id : jstr)
| PushRequest (messages : list json).

(** The tables seen and committed, Redis, the connection manager, the sockets
    that take messages, the device object each running WebSocket handler
    holds, the delayed offline tasks, the queues of the event streams, and
    what was sent. *)
Record server := {
  db : database; saved : database; redis : gmap jstr redis_entry; connections : list (uuid * socket);
  metadata : list (uuid * (Z * option jstr)); open_sockets : list socket; handlers : list (socket * DeviceRow);
  pending_offline : list (uuid * nat); offline_tasks : list (nat * uuid); alert_queues : list (nat * list json);
  activity_queues : list (nat * list json); sse_counts : list (uuid * Z); out : list effect }.

(** Assignment to a part of the state. *)
Definition set_db (v : database) (s : server) : server :=
  {| db := v; saved := saved s; redis := redis s; connections := connections s; metadata := metadata s;
     open_sockets := open_sockets s; handlers := handlers s; pending_offline := pending_offline s;
     offline_tasks := offline_tasks s; alert_queues := alert_queues s; activity_queues := activity_queues s;
     sse_counts := sse_counts s; out := out s |}.
Definition set_saved (v : database) (s : server) : server :=
  {| db := db s; saved := v; redis := redis s; connections := connections s; metadata := metadata s;
     open_sockets := open_sockets s; handlers := handlers s; pending_offline := pending_offline s;
     offline_tasks := offline_tasks s; alert_queues := alert_queues s; activity_queues := activity_queues s;
     sse_counts := sse_counts s; out := out s |}.
Definition set_redis (v : gmap jstr redis_entry) (s : server) : server :=
  {| db := db s; saved := saved s; redis := v; connections := connections s; metadata := metadata s;
     open_sockets := open_sockets s; handlers := handlers s; pending_offline := pending_offline s;
     offline_tasks := offline_tasks s; alert_queues := alert_queues s; activity_queues := activity_queues s;
     sse_counts := sse_counts s; out := out s |}.
Definition set_connections (v : list (uuid * socket)) (s : server) : server :=
  {| db := db s; saved := saved s; redis := redis s; connections := v; metadata := metadata s;
     open_sockets := open_sockets s; handlers := handlers s; pending_offline := pending_offline s;
     offline_tasks := offline_tasks s; alert_queues := alert_queues s; activity_queues := activity_queues s;
     sse_counts := sse_counts s; out := out s |}.
Definition set_metadata (v : list (uuid * (Z * option jstr))) (s : server) : server :=
  {| db := db s; saved := saved s; redis := redis s; connections := connections s; metadata := v;
     open_sockets := open_sockets s; handlers := handlers s; pending_offline := pending_offline s;
     offline_tasks := offline_tasks s; alert_queues := alert_queues s; activity_queues := activity_queues s;
     sse_counts := sse_counts s; out := out s |}.
Definition set_open_sockets (v : list socket) (s : server) : server :=
  {| db := db s; saved := saved s; redis := redis s; connections := connections s; metadata := metadata s;
     open_sockets := v; handlers := handlers s; pending_offline := pending_offline s;
     offline_tasks := offline_tasks s; alert_queues := alert_queues s; activity_queues := activity_queues s;
     sse_counts := sse_counts s; out := out s |}.
Definition set_handlers (v : list (socket * DeviceRow)) (s : server) : server :=
  {| db := db s; saved := saved s; redis := redis s; connections := connections s; metadata := metadata s;
     open_sockets := open_sockets s; handlers := v; pending_offline := pending_offline s;
     offline_tasks := offline_tasks s; alert_queues := alert_queues s; activity_queues := activity_queues s;
     sse_counts := sse_counts s; out := out s |}.
Definition set_pending_offline (v : list (uuid * nat)) (s : server) : server :=
  {| db := db s; saved := saved s; redis := redis s; connections := connections s; metadata := metadata s;
     open_sockets := open_sockets s; handlers := handlers s; pending_offline := v;
     offline_tasks := offline_tasks s; alert_queues := alert_queues s; activity_queues := activity_queues s;
     sse_counts := sse_counts s; out := out s |}.
Definition set_offline_tasks (v : list (nat * uuid)) (s : server) : server :=
  {| db := db s; saved := saved s; redis := redis s; connections := connections s; metadata := metadata s;
     open_sockets := open_sockets s; handlers := handlers s; pending_offline := pending_offline s;
     offline_tasks := v; alert_queues := alert_queues s; activity_queues := activity_queues s;
     sse_counts := sse_counts s; out := out s |}.
Definition set_alert_queues (v : list (nat * list json)) (s : server) : server :=
  {| db := db s; saved := saved s; redis := redis s; connections := connections s; metadata := metadata s;
     open_sockets := open_sockets s; handlers := handlers s; pending_offline := pending_offline s;
     offline_tasks := offline_tasks s; alert_queues := v; activity_queues := activity_queues s;
     sse_counts := sse_counts s; out := out s |}.
Definition set_activity_queues (v : list (nat * list json)) (s : server) : server :=
  {| db := db s; saved := saved s; redis := redis s; connections := connections s; metadata := metadata s;
     open_sockets := open_sockets s; handlers := handlers s; pending_offline := pending_offline s;
     offline_tasks := offline_tasks s; alert_queues := alert_queues s; activity_queues := v;
     sse_counts := sse_counts s; out := out s |}.
Definition set_sse_counts (v : list (uuid * Z)) (s : server) : server :=
  {| db := db s; saved := saved s; redis := redis s; connections := connections s; metadata := metadata s;
     open_sockets := open_sockets s; handlers := handlers s; pending_offline := pending_offline s;
     offline_tasks := offline_tasks s; alert_queues := alert_queues s; activity_queues := activity_queues s;
     sse_counts := v; out := out s |}.
Definition set_out (v : list effect) (s : server) : server :=
  {| db := db s; saved := saved s; redis := redis s; connections := connections s; metadata := metadata s;
     open_sockets := open_sockets s; handlers := handlers s; pending_offline := pending_offline s;
     offline_tasks := offline_tasks s; alert_queues := alert_queues s; activity_queues := activity_queues s;
     sse_counts := sse_counts s; out := v |}.

(** The state of a server that has just started. *)
Definition start (d : database) : server :=
  {| db := d; saved := d; redis := ∅; connections := []; metadata := []; open_sockets := []; handlers := [];
     pending_offline := []; offline_tasks := []; alert_queues := []; activity_queues := []; sse_counts := []; out := [] |}.

(** ** Monad *)

Definition proc (A : Type) : Type := server → result A * server.

#[global] Instance proc_ret : MRet proc := λ A a s, (Ok a, s).
#[global] Instance proc_bind : MBind proc := λ A B f m s,
  match m s with (Ok a, s') => f a s' | (Raise e, s') => (Raise e, s') end.

Definition raise {A} (e : exn) : proc A := λ s, (Raise e, s).
Definition gets {A} (f : server → A) : proc A := λ s, (Ok (f s), s).
Definition modify (f : server → server) : proc unit := λ s, (Ok tt, f s).
Definition emit (e : effect) : proc unit := modify (λ s, set_out (out s ++ [e]) s).
Definition when (b : bool) (m : proc unit) : proc unit := if b then m else mret tt.
(** [if b: raise e] *)
Definition refuse (b : bool) (e : exn) : proc unit := if b then raise e else mret tt.
(** [o] or raise *)
Definition require {A} (e : exn) (o : option A) : proc A := match o with Some a => mret a | None => raise e end.

(** [for x in l: f(x)] *)
Fixpoint for_each {A} (f : A → proc unit) (l : list A) : proc unit :=
  match l with [] => mret tt | x :: l' => f x ;; for_each f l' end.
Fixpoint map_each {A B} (f : A → proc B) (l : list A) : proc (list B) :=
  match l with [] => mret [] | x :: l' => y ← f x; ys ← map_each f l'; mret (y :: ys) end.

(** [try: m except Exception: h] *)
Definition catch {A} (m : proc A) (h : exn → proc A) : proc A := λ s,
  match m s with (Ok a, s') => (Ok a, s') | (Raise e, s') => h e s' end.

(** *** The session *)

Definition commit : proc unit := modify (λ s, set_saved (db s) s).
Definition rollback : proc unit := modify (λ s, set_db (saved s) s).
(** [async with db.begin_nested()]: a savepoint. *)
Definition begin_nested {A} (m : proc A) : proc A := λ s,
  match m s with (Ok a, s') => (Ok a, s') | (Raise e, s') => (Raise e, set_db (db s) s') end.
(** The [get_db] dependency around a handler. *)
Definition with_db {A} (m : proc A) : proc A := λ s,
  match m s with
  | (Ok a, s') => (Ok a, snd (commit s'))
  | (Raise e, s') => (Raise e, snd (rollback s'))
  end.

Section statements.
Context {R : Type} `{Table R}.

Definition modify_db (f : database → database) : proc unit := modify (λ s, set_db (f (db s)) s).

(** [select(R).where(p)] *)
Definition select (p : R → bool) : proc (list R) := gets (λ s, bfilter p (rows (db s))).
(** [select(func.count()).where(p)] *)
Definition count (p : R → bool) : proc Z := gets (λ s, Z.of_nat (length (bfilter p (rows (db s))))).
(** [result.scalar_one_or_none()] *)
Definition scalar_one_or_none (l : list R) : proc (option R) :=
  match l with [] => mret None | [r] => mret (Some r) | _ => raise MultipleResultsFound end.
(** [select(R).where(p)] with [scalar_one_or_none()] *)
Definition select_one (p : R → bool) : proc (option R) := l ← select p; scalar_one_or_none l.
Definition has_pk (u : uuid) (r : R) : bool := pk r =? u.
(** [db.get(R, u)] *)
Definition db_get (u : uuid) : proc (option R) := gets (λ s, find (has_pk u) (rows (db s))).
(** [db.add(r)], flushed *)
Definition add (r : R) : proc unit := λ s,
  if existsb (conflict r) (rows (db s)) then (Raise IntegrityError, s)
  else (Ok tt, set_db (set_rows (rows (db s) ++ [r]) (db s)) s).
(** [update(R).where(p).values(f)], and an assignment to the object of a row *)
Definition update_where (p : R → bool) (f : R → R) : proc unit :=
  modify_db (λ d, set_rows (map (λ r, if p r then f r else r) (rows d)) d).
(** [delete(R).where(p)] *)
Definition delete_where (p : R → bool) : proc unit :=
  modify_db (λ d, set_rows (bfilter (λ r, negb (p r)) (rows d)) d).
Definition update_row (u : uuid) (f : R → R) : proc unit := update_where (has_pk u) f.
Definition delete_row (u : uuid) : proc unit := delete_where (has_pk u).

End statements.

(** *** Redis *)

(** The value of a key that has not expired. *)
Definition redis_live (now : Z) (s : server) (k : jstr) : option redis_entry :=
  e ← redis s !! k;
  match r_expires e with Some t => if t <=? now then None else Some e | None => Some e end.
Definition redis_get (now : Z) (k : jstr) : proc (option redis_value) := gets (λ s, r_value <$> redis_live now s k).
Definition redis_setex (now : Z) (k : jstr) (secs : Z) (v : redis_value) : proc unit :=
  modify (λ s, set_redis (<[k := {| r_value := v; r_expires := Some (now + seconds secs) |}]> (redis s)) s).
Definition redis_delete (k : jstr) : proc unit := modify (λ s, set_redis (delete k (redis s)) s).
Definition redis_incr (now : Z) (k : jstr) : proc Z := λ s,
  match redis_live now s k with
  | None => (Ok 1, set_redis (<[k := {| r_value := RInt 1; r_expires := None |}]> (redis s)) s)
  | Some {| r_value := RInt n; r_expires := t |} =>
      (Ok (n + 1), set_redis (<[k := {| r_value := RInt (n + 1); r_expires := t |}]> (redis s)) s)
  | Some _ => (Raise ResponseError, s)
  end.
Definition redis_expire (now : Z) (k : jstr) (secs : Z) : proc unit :=
  modify (λ s, match redis_live now s k with
               | Some e => set_redis (<[k := {| r_value := r_value e; r_expires := Some (now + seconds secs) |}]> (redis s)) s
               | None => s
               end).

(** [check_rate_limit] *)
Definition check_rate_limit (now : Z) (key : jstr) (limit window_secs : Z) : proc bool :=
  current ← redis_incr now key;
  when (current =? 1) (redis_expire now key window_secs);;
  mret (current <? limit).

(** *** Python values *)

(** [v.get(k)] on a parsed JSON value; [None] and null are the same. *)
Definition py_get (k : jstr) (v : json) : proc json :=
  match v with JObj _ => mret (field k v ?? JNull) | _ => raise AttributeError end.
(** [v.get(k, d)] *)
Definition py_get_or (k : jstr) (d v : json) : proc json :=
  match v with JObj _ => mret (field k v ?? d) | _ => raise AttributeError end.
(** The truth of a value. *)
Definition py_true (v : json) : bool :=
  match v with
  | JNull => false
  | JBool b => b
  | JNum n => negb (is_zero n)
  | JStr s => truthy s
  | JArr l => match l with [] => false | _ => true end
  | JObj fs => match fs with [] => false | _ => true end
  end.
(** [for x in v] *)
Definition py_iter (v : json) : proc (list json) :=
  match v with
  | JArr l => mret l
  | JStr s => mret (map (λ c, JStr [c]) s)
  | JObj fs => mret (map (λ f, JStr (fst f)) fs)
  | _ => raise TypeError
  end.

(** The value a column takes: a nullable number, integer of [bits] bits, text
    without zero characters and surrogates, of at most [n] characters; any other
    value is refused by the database.  A number that is whole counts as an
    integer. *)
Definition as_float (v : json) : proc (option num) :=
  match v with
  | JNull => mret None
  | JNum x => mret (Some x)
  | JBool b => mret (Some (of_Z (if b then 1 else 0)))
  | _ => raise DataError
  end.
Definition in_width (bits z : Z) : bool := (- 2 ^ (bits - 1) <=? z) && (z <? 2 ^ (bits - 1)).
Definition as_int (bits : Z) (v : json) : proc (option Z) :=
  match v with
  | JNull => mret None
  | JNum (Fin q) =>
      let q := Qred q in
      if (Zpos (Qden q) =? 1) && in_width bits (Qnum q) then mret (Some (Qnum q)) else raise DataError
  | JBool b => mret (Some (if b then 1 else 0))
  | _ => raise DataError
  end.
Definition fits (n : nat) (s : jstr) : bool := Nat.leb (length s) n.
Definition storable (s : jstr) : bool := forallb (λ c, negb (c =? 0) && negb ((55296 <=? c) && (c <? 57344))) s.
(** What a JSON column takes. *)
Fixpoint jsonb_ok (v : json) : bool :=
  match v with
  | JNull | JBool _ => true
  | JNum n => match n with Fin _ => true | _ => false end
  | JStr s => storable s
  | JArr l => forallb jsonb_ok l
  | JObj fs => forallb (λ f, storable (fst f) && jsonb_ok (snd f)) fs
  end.
(** A text column of at most [n] characters, and one that may be null. *)
Definition text_column (n : nat) (s : jstr) : bool := fits n s && storable s.
Definition opt_column (n : nat) (s : option jstr) : bool := match s with Some s => text_column n s | None => true end.
Definition as_text (v : json) : proc (option jstr) :=
  match v with
  | JNull => mret None
  | JStr s => if storable s then mret (Some s) else raise DataError
  | _ => raise DataError
  end.
Definition as_varchar (n : nat) (v : json) : proc (option jstr) :=
  o ← as_text v;
  match o with Some s => if fits n s then mret o else raise DataError | None => mret None end.
Definition not_null {A} (o : option A) : proc A := require IntegrityError o.
Definition as_bool (v : json) : proc bool :=
  match v with
  | JBool b => mret b
  | JNum (Fin q) => if Qeq_bool q 0 then mret false else if Qeq_bool q 1 then mret true else raise DataError
  | JNull => raise IntegrityError
  | _ => raise DataError
  end.

(** ** Facts *)

Lemma bind_ok {A B} (m : proc A) (f : A → proc B) s a s' : m s = (Ok a, s') → (x ← m; f x) s = f a s'.
Proof. intros E. unfold mbind, proc_bind. by rewrite E. Qed.
Lemma bind_raise {A B} (m : proc A) (f : A → proc B) s e s' : m s = (Raise e, s') → (x ← m; f x) s = (Raise e, s').
Proof. intros E. unfold mbind, proc_bind. by rewrite E. Qed.

(** *** Preservation

    [preserves P m]: a run of [m], whether it returns or raises, keeps [P]. *)
Definition preserves {A} (P : server → Prop) (m : proc A) : Prop := ∀ s, P s → P (snd (m s)).

Lemma preserves_ret {A} P (a : A) : preserves P (mret a).
Proof. by intros s. Qed.
Lemma preserves_raise {A} P e : preserves P (@raise A e).
Proof. by intros s. Qed.
Lemma preserves_gets {A} P (f : server → A) : preserves P (gets f).
Proof. by intros s. Qed.
Lemma preserves_bind {A B} P (m : proc A) (f : A → proc B) :
  preserves P m → (∀ a, preserves P (f a)) → preserves P (x ← m; f x).
Proof.
  intros Hm Hf s Hs. unfold mbind, proc_bind. specialize (Hm s Hs). destruct (m s) as [[a|e] s']; [|done]. by apply Hf.
Qed.
Lemma preserves_modify P f : (∀ s, P s → P (f s)) → preserves P (modify f).
Proof. intros H s. apply H. Qed.
Lemma preserves_for_each {A} P (f : A → proc unit) l : (∀ x, preserves P (f x)) → preserves P (for_each f l).
Proof. intros Hf. induction l as [|x l IH]; [apply preserves_ret|]. by apply preserves_bind. Qed.
Lemma preserves_map_each {A B} P (f : A → proc B) l : (∀ x, preserves P (f x)) → preserves P (map_each f l).
Proof.
  intros Hf. induction l as [|x l IH]; [apply preserves_ret|]. apply preserves_bind; [done|]. intros y.
  apply preserves_bind; [done|]. intros ys. apply preserves_ret.
Qed.
Lemma preserves_catch {A} P (m : proc A) h : preserves P m → (∀ e, preserves P (h e)) → preserves P (catch m h).
Proof. intros Hm Hh s Hs. specialize (Hm s Hs). unfold catch. destruct (m s) as [[a|e] s']; [done|]. by apply Hh. Qed.
Lemma preserves_select_one {R} `{Table R} P (p : R → bool) : preserves P (select_one p).
Proof. apply preserves_bind; [apply preserves_gets|]. intros [|r [|? ?]]; [apply preserves_ret..|apply preserves_raise]. Qed.
Lemma preserves_require {A} P e (o : option A) : preserves P (require e o).
Proof. destruct o; [apply preserves_ret|apply preserves_raise]. Qed.

Lemma preserves_state {A} P (m : proc A) : (∀ s, snd (m s) = s) → preserves P m.
Proof. intros Hm s Hs. by rewrite Hm. Qed.
Lemma preserves_bind_ret {A B} P (a : A) (k : A → proc B) : preserves P (k a) → preserves P (x ← mret a; k x).
Proof. done. Qed.
(** A refusal is passed only when its condition fails. *)
Lemma preserves_refuse {A} P b e (k : proc A) : (b = false → preserves P k) → preserves P (refuse b e;; k).
Proof. intros Hk. destruct b; [by intros s|exact (Hk eq_refl)]. Qed.
(** A row that was read by its key has it. *)
Lemma preserves_get {R A} `{Table R} P u (k : option R → proc A) :
  preserves P (k None) → (∀ r, pk r = u → preserves P (k (Some r))) → preserves P (o ← db_get u; k o).
Proof.
  intros Hn Hk s Hs. unfold mbind, proc_bind, db_get, gets. simpl. destruct (find _ _) as [r|] eqn:E; [|by apply Hn].
  apply find_some in E as [_ E]. apply Hk; [|done]. by apply Z.eqb_eq.
Qed.


Create HintDb server.
#[export] Hint Resolve preserves_ret preserves_raise preserves_gets preserves_bind preserves_for_each preserves_map_each
  preserves_catch preserves_select_one preserves_require : server.

(** Walk through a handler, splitting its branches. *)
Ltac preserve_step :=
  match goal with
  | |- preserves _ (mret _) => apply preserves_ret
  | |- preserves _ (raise _) => apply preserves_raise
  | |- preserves _ (gets _) => apply preserves_gets
  | |- preserves _ (select_one _) => apply preserves_select_one
  | |- preserves _ (require _ _) => apply preserves_require
  | |- preserves _ (mbind _ _) => apply preserves_bind
  | |- preserves _ (for_each _ _) => apply preserves_for_each
  | |- preserves _ (map_each _ _) => apply preserves_map_each
  | |- preserves _ (catch _ _) => apply preserves_catch
  end.
Ltac walk :=
  repeat first
    [ progress intros
    | preserve_step
    | progress (unfold when, refuse, select, count, db_get, scalar_one_or_none, redis_get)
    | case_match
    | solve [eauto with server nocore] ].
(** The same, through the definitions that are called. *)
Ltac preserve :=
  repeat first
    [ progress intros
    | apply preserves_ret | apply preserves_raise | apply preserves_gets | apply preserves_select_one | apply preserves_require
    | apply preserves_bind | apply preserves_for_each | apply preserves_map_each | apply preserves_catch
    | progress (unfold when, refuse, select, count, db_get, scalar_one_or_none, redis_get)
    | case_match
    | solve [eauto with server nocore] ].

(** *** What the statements keep

    A statement on one table leaves the rest of the state; [on_db P] holds of
    the tables seen and of those committed. *)
Definition on_db (P : database → Prop) (s : server) : Prop := P (db s) ∧ P (saved s).

Lemma on_db_commit P : preserves (on_db P) commit.
Proof. intros s [H _]. by split. Qed.
Lemma on_db_rollback P : preserves (on_db P) rollback.
Proof. intros s [_ H]. by split. Qed.
Lemma on_db_with_db {A} P (m : proc A) : preserves (on_db P) m → preserves (on_db P) (with_db m).
Proof.
  intros Hm s Hs. specialize (Hm s Hs). unfold with_db. destruct (m s) as [[a|e] s'].
  - by apply on_db_commit.
  - by apply on_db_rollback.
Qed.
Lemma on_db_begin_nested {A} P (m : proc A) : preserves (on_db P) m → preserves (on_db P) (begin_nested m).
Proof.
  intros Hm s Hs. specialize (Hm s Hs). unfold begin_nested. destruct (m s) as [[a|e] s']; [done|].
  destruct Hs, Hm. by split.
Qed.
Lemma on_db_modify P f : (∀ s, db (f s) = db s) → (∀ s, saved (f s) = saved s) → preserves (on_db P) (modify f).
Proof. intros H1 H2 s [Hd Hs]. split; simpl; [by rewrite H1|by rewrite H2]. Qed.
Lemma on_db_modify_db P f : (∀ d, P d → P (f d)) → preserves (on_db P) (modify_db f).
Proof. intros H s [Hd Hs]. split; simpl; auto. Qed.
Lemma on_db_emit P e : preserves (on_db P) (emit e).
Proof. by apply on_db_modify. Qed.
Lemma on_db_redis_incr P now k : preserves (on_db P) (redis_incr now k).
Proof. intros s H. unfold redis_incr. by destruct (redis_live now s k) as [[[] ?]|]. Qed.
Lemma on_db_redis_expire P now k n : preserves (on_db P) (redis_expire now k n).
Proof. intros s H. unfold redis_expire, modify. simpl. by destruct (redis_live now s k). Qed.
Lemma on_db_check_rate_limit P now k l w : preserves (on_db P) (check_rate_limit now k l w).
Proof.
  apply preserves_bind; [apply on_db_redis_incr|]. intros c. apply preserves_bind; [|intros; apply preserves_ret].
  unfold when. destruct (c =? 1); [apply on_db_redis_expire|apply preserves_ret].
Qed.
Lemma on_db_add {R} `{Table R} P (r : R) :
  (∀ d, P d → (∀ r', In r' (rows d) → conflict r r' = false) → P (set_rows (rows d ++ [r]) d)) → preserves (on_db P) (add r).
Proof.
  intros Hadd s [Hd Hs]. unfold add. destruct (existsb _ _) eqn:E; [by split|]. split; [|done]. simpl. apply Hadd; [done|].
  intros r' Hr'. apply not_true_iff_false. intros E'. apply not_true_iff_false in E. apply E, existsb_exists. by exists r'.
Qed.
#[export] Hint Resolve on_db_commit on_db_rollback on_db_with_db on_db_begin_nested on_db_emit on_db_redis_incr
  on_db_redis_expire on_db_check_rate_limit : server.
Lemma on_db_redis_setex P now k n v : preserves (on_db P) (redis_setex now k n v).
Proof. by apply on_db_modify. Qed.
#[export] Hint Resolve on_db_redis_setex : server.
(** A change of another part of the state. *)
#[export] Hint Extern 2 (preserves (on_db _) (modify _)) =>
  solve [apply on_db_modify; intros; reflexivity] : server.

(** *** Queries *)

Lemma bfilter_unique {R} `{Table R} (l : list R) (r : R) (p : R → bool) :
  NoDup (map pk l) → In r l → p r = true → (∀ x, p x = true → pk x = pk r) → bfilter p l = [r].
Proof.
  intros Hn Hr Hp Hu. induction l as [|x l IH]; [done|]. simpl in Hn |- *. apply NoDup_cons in Hn as [Hx Hn].
  rewrite list_elem_of_In in Hx. destruct Hr as [->|Hr].
  - rewrite Hp. f_equal. apply bfilter_none. intros y Hy. apply not_true_iff_false. intros Hpy%Hu.
    apply Hx. rewrite <-Hpy. by apply in_map.
  - destruct (p x) eqn:E; [|by apply IH]. exfalso. apply Hx. rewrite (Hu x E). by apply in_map.
Qed.

Lemma select_one_unique {R} `{Table R} (s : server) (r : R) (p : R → bool) :
  NoDup (map pk (rows (db s))) → In r (rows (db s)) → p r = true → (∀ x, p x = true → pk x = pk r) →
  select_one p s = (Ok (Some r), s).
Proof.
  intros Hn Hr Hp Hu. unfold select_one, select, gets, mbind, proc_bind.
  by rewrite (bfilter_unique _ r p) by done.
Qed.

(** What a successful single-row query says. *)
Lemma select_one_some {R} `{Table R} (s s' : server) (r : R) (p : R → bool) :
  select_one p s = (Ok (Some r), s') → s' = s ∧ In r (rows (db s)) ∧ p r = true.
Proof.
  unfold select_one, select, gets, mbind, proc_bind, scalar_one_or_none.
  destruct (bfilter p (rows (db s))) as [|x [|y l]] eqn:E; try done. intros [= -> ->]. split; [done|].
  apply bfilter_In. rewrite E. by left.
Qed.
Lemma select_one_state {R} `{Table R} (s : server) (p : R → bool) : snd (select_one p s) = s.
Proof.
  unfold select_one, select, gets, mbind, proc_bind, scalar_one_or_none.
  by destruct (bfilter p (rows (db s))) as [|x [|y l]].
Qed.

(** Unfold the monad. *)
Ltac run_proc := unfold require, refuse, when, emit, gets, modify, raise, mbind, proc_bind, mret, proc_ret.
Tactic Notation "run_proc" "in" hyp(H) :=
  unfold require, refuse, when, emit, gets, modify, raise, mbind, proc_bind, mret, proc_ret in H.
(** Run a handler step by step. *)
Ltac step H :=
  match type of H with
  | (mbind _ ?m) ?s = _ =>
      unfold mbind in H at 1; unfold proc_bind in H at 1;
      let r := fresh "r" in let s' := fresh "s" in let E := fresh "E" in
      destruct (m s) as [[r|r] s'] eqn:E; [|try (by simplify_eq H || by injection H)]
  end.

(** *** Rows after a statement *)

Lemma update_row_rows {R} `{Table R} u (f : R → R) s :
  rows (db (snd (update_row u f s))) = map (λ r, if has_pk u r then f r else r) (rows (db s)).
Proof. simpl. by rewrite rows_set_rows. Qed.

Lemma map_update_keys {R} `{Table R} u (f : R → R) (l : list R) :
  (∀ r, pk (f r) = pk r) → map pk (map (λ r, if has_pk u r then f r else r) l) = map pk l.
Proof. intros Hf. rewrite map_map. apply map_ext. intros r. by destruct (has_pk u r). Qed.

(** *** Transactions

    A handler under [with_db]: a run that returns leaves [P] on the tables it
    sees, and any run leaves [P] on the committed ones. *)
Definition txn_at {A} (P : database → Prop) (m : proc A) (s : server) : Prop :=
  P (saved (snd (m s))) ∧ ∀ a, fst (m s) = Ok a → P (db (snd (m s))).

Lemma with_db_txn {A} P (m : proc A) : (∀ s, on_db P s → txn_at P m s) → preserves (on_db P) (with_db m).
Proof.
  intros Hm s Hs. destruct (Hm s Hs) as [H1 H2]. unfold with_db. destruct (m s) as [[a|e] s'] eqn:E; simpl in *; [|by split].
  split; simpl; eauto.
Qed.

(** A step that reads only, with what it says of its result. *)
Definition reads {A} (m : proc A) (Q : server → A → Prop) : Prop :=
  ∀ s, (∃ a, m s = (Ok a, s) ∧ Q s a) ∨ (∃ e, m s = (Raise e, s)).

Lemma reads_of {A} (m : proc A) (Q : server → A → Prop) :
  (∀ s, snd (m s) = s) → (∀ s a s', m s = (Ok a, s') → Q s a) → reads m Q.
Proof.
  intros Hs HQ s. specialize (Hs s). destruct (m s) as [[a|e] s'] eqn:E; simpl in Hs; subst; [left|right]; eauto.
Qed.
Lemma reads_select_one {R} `{Table R} (p : R → bool) :
  reads (select_one p) (λ s o, match o with
                               | Some r => In r (rows (db s)) ∧ p r = true
                               | None => ∀ r, In r (rows (db s)) → p r = false
                               end).
Proof.
  apply reads_of; [intros; apply select_one_state|]. intros s [r|] s' Hr; [by apply select_one_some in Hr as (_ & ? & ?)|].
  intros r Hr'. unfold select_one, select, gets, mbind, proc_bind, scalar_one_or_none in Hr.
  destruct (bfilter p (rows (db s))) as [|x [|y l]] eqn:E; try done. destruct (p r) eqn:Ep; [|done].
  assert (In r (bfilter p (rows (db s)))) as Hin by (by apply bfilter_In). by rewrite E in Hin.
Qed.
Lemma reads_require {A} e (o : option A) : reads (require e o) (λ _ a, o = Some a).
Proof. intros s. destruct o; [left|right]; eauto. Qed.
Lemma reads_gets {A} (f : server → A) : reads (gets f) (λ s a, a = f s).
Proof. intros s. left. eauto. Qed.
Lemma reads_db_get {R} `{Table R} u :
  reads (db_get u) (λ s (o : option R), ∀ r, o = Some r → In r (rows (db s)) ∧ pk r = u).
Proof.
  intros s. left. eexists. split; [done|]. intros r [Hr E]%find_some. split; [done|]. by apply Z.eqb_eq.
Qed.
Lemma reads_bind {A B} (m : proc A) (k : A → proc B) Q (Q' : server → B → Prop) :
  reads m Q → (∀ a, reads (k a) (λ s b, Q s a → Q' s b)) → reads (x ← m; k x) Q'.
Proof.
  intros Hm Hk s. unfold mbind, proc_bind. destruct (Hm s) as [(a & -> & Ha)|(e & ->)]; [|right; eauto].
  destruct (Hk a s) as [(b & -> & Hb)|(e & ->)]; [left|right]; eauto.
Qed.

Lemma txn_read {A B} P (m : proc A) Q (k : A → proc B) s :
  reads m Q → on_db P s → (∀ a, Q s a → txn_at P (k a) s) → txn_at P (x ← m; k x) s.
Proof.
  intros Hm [Hd Hs] Hk. unfold txn_at, mbind, proc_bind in *. destruct (Hm s) as [(a & -> & Ha)|(e & ->)]; [by apply Hk|].
  by split.
Qed.
Lemma txn_refuse {A} P b e (k : proc A) s :
  on_db P s → (b = false → txn_at P k s) → txn_at P (refuse b e;; k) s.
Proof. intros [_ Hs] Hk. destruct b; [by split|]. exact (Hk eq_refl). Qed.
Lemma txn_add {R A} `{Table R} P (r : R) (k : proc A) s :
  P (saved s) →
  ((∀ r', In r' (rows (db s)) → conflict r r' = false) → txn_at P k (set_db (set_rows (rows (db s) ++ [r]) (db s)) s)) →
  txn_at P (add r;; k) s.
Proof.
  intros Hs Hk. unfold txn_at, mbind, proc_bind, add in *. destruct (existsb (conflict r) (rows (db s))) eqn:E; [by split|].
  apply Hk. intros r' Hr'. apply not_true_iff_false. intros E'. apply not_true_iff_false in E. apply E, existsb_exists. by exists r'.
Qed.
Lemma txn_update {R A} `{Table R} P (p : R → bool) (f : R → R) (k : proc A) s :
  txn_at P k (set_db (set_rows (map (λ r, if p r then f r else r) (rows (db s))) (db s)) s) →
  txn_at P (update_where p f;; k) s.
Proof. done. Qed.
Lemma txn_delete {R A} `{Table R} P (p : R → bool) (k : proc A) s :
  txn_at P k (set_db (set_rows (bfilter (λ r, negb (p r)) (rows (db s))) (db s)) s) → txn_at P (delete_where p;; k) s.
Proof. done. Qed.
Lemma txn_commit P s : P (db s) → txn_at P commit s.
Proof. by split. Qed.
Lemma txn_commit_ret {A} P (a : A) s : P (db s) → txn_at P (commit;; mret a) s.
Proof. by split. Qed.

(** *** Statements on tables a property does not look at *)

Definition ignores (R : Type) `{Table R} (P : database → Prop) : Prop := ∀ l d, P d → P (set_rows l d).

Lemma ignored_add {R} `{Table R} P (r : R) : ignores R P → preserves (on_db P) (add r).
Proof. intros Hi. apply on_db_add. intros d Hd _. by apply Hi. Qed.
Lemma ignored_update_where {R} `{Table R} P (p : R → bool) f : ignores R P → preserves (on_db P) (update_where p f).
Proof. intros Hi. apply on_db_modify_db. intros d. apply Hi. Qed.
Lemma ignored_update_row {R} `{Table R} P u (f : R → R) : ignores R P → preserves (on_db P) (update_row u f).
Proof. apply ignored_update_where. Qed.
Lemma ignored_delete_where {R} `{Table R} P (p : R → bool) : ignores R P → preserves (on_db P) (delete_where p).
Proof. intros Hi. apply on_db_modify_db. intros d. apply Hi. Qed.
Lemma ignored_delete_row {R} `{Table R} P u : ignores R P → preserves (on_db P) (delete_row (R := R) u).
Proof. apply ignored_delete_where. Qed.
#[export] Hint Resolve ignored_add ignored_update_where ignored_update_row ignored_delete_where ignored_delete_row : server.

(** A property of one list of rows does not look at the others. *)
#[export] Hint Extern 1 (ignores _ _) => solve [intros ? ? ?; assumption] : server.

(** *** Steps that return

    [returns f m]: [m] never raises and leaves the part [f] of the state. *)
Definition returns {A B} (f : server → B) (m : proc A) : Prop := ∀ s, ∃ a s', m s = (Ok a, s') ∧ f s' = f s.

Lemma returns_ret {A B} (f : server → B) (a : A) : returns f (mret a).
Proof. intros s. by exists a, s. Qed.
Lemma returns_modify {B} (f : server → B) g : (∀ s, f (g s) = f s) → returns f (modify g).
Proof. intros Hg s. exists tt, (g s). split; [done|apply Hg]. Qed.
Lemma returns_bind {A B C} (f : server → C) (m : proc A) (k : A → proc B) :
  returns f m → (∀ a, returns f (k a)) → returns f (x ← m; k x).
Proof.
  intros Hm Hk s. destruct (Hm s) as (a & s1 & E & H1). destruct (Hk a s1) as (b & s2 & E2 & H2). exists b, s2.
  unfold mbind, proc_bind. rewrite E. split; [done|congruence].
Qed.
Lemma returns_for_each {A B} (f : server → B) (m : A → proc unit) l : (∀ x, returns f (m x)) → returns f (for_each m l).
Proof. intros Hm. induction l as [|x l IH]; [apply returns_ret|]. apply returns_bind; [done|by intros]. Qed.

(** A step that leaves the state, and what follows it. *)
Lemma read_then {A B} (P : server → Prop) (m : proc A) (k : A → proc B) s :
  (∀ s, snd (m s) = s) → P s → (∀ a, m s = (Ok a, s) → P (snd (k a s))) → P (snd ((x ← m; k x) s)).
Proof.
  intros Hm Hs Hk. unfold mbind, proc_bind. specialize (Hm s). destruct (m s) as [[a|e] s'] eqn:E; simpl in Hm; subst; [|done].
  by apply Hk.
Qed.
Lemma refuse_then {A} (P : server → Prop) b e (k : proc A) s :
  P s → (b = false → P (snd (k s))) → P (snd ((refuse b e;; k) s)).
Proof. intros Hs Hk. destruct b; [done|]. exact (Hk eq_refl). Qed.

(** *** Preservation with a postcondition

    A run of [m] keeps [P], and its result satisfies [Q]. *)
Definition keeps {A} (P : server → Prop) (m : proc A) (Q : A → Prop) : Prop :=
  ∀ s, P s → P (snd (m s)) ∧ ∀ a, fst (m s) = Ok a → Q a.

Lemma keeps_ret {A} P (a : A) (Q : A → Prop) : Q a → keeps P (mret a) Q.
Proof. intros Ha s Hs. split; [done|]. by intros b [= <-]. Qed.
Lemma keeps_raise {A} P e (Q : A → Prop) : keeps P (raise e) Q.
Proof. intros s Hs. by split. Qed.
Lemma keeps_bind {A B} P (m : proc A) (k : A → proc B) Q Q' :
  keeps P m Q → (∀ a, Q a → keeps P (k a) Q') → keeps P (x ← m; k x) Q'.
Proof.
  intros Hm Hk s Hs. unfold mbind, proc_bind. destruct (Hm s Hs) as [H1 H2]. destruct (m s) as [[a|e] s']; [|by split].
  by apply Hk; [apply H2|].
Qed.
Lemma keeps_any {A} P (m : proc A) : preserves P m → keeps P m (λ _, True).
Proof. intros Hm s Hs. split; [by apply Hm|done]. Qed.
Lemma keeps_seq {A B} P (m : proc A) (k : A → proc B) Q' :
  preserves P m → (∀ a, keeps P (k a) Q') → keeps P (x ← m; k x) Q'.
Proof. intros Hm Hk. eapply keeps_bind; [by apply keeps_any|]. intros a _. apply Hk. Qed.
Lemma keeps_preserves {A} P (m : proc A) Q : keeps P m Q → preserves P m.
Proof. intros Hm s Hs. by apply Hm. Qed.

(** *** Reading a message *)

Ltac pure := intros; apply preserves_state; intros ?; repeat case_match; done.
Lemma preserves_py_get P k v : preserves P (py_get k v).
Proof. unfold py_get. pure. Qed.
Lemma preserves_py_get_or P k d v : preserves P (py_get_or k d v).
Proof. unfold py_get_or. pure. Qed.
Lemma preserves_py_iter P v : preserves P (py_iter v).
Proof. unfold py_iter. pure. Qed.
Lemma preserves_as_float P v : preserves P (as_float v).
Proof. unfold as_float. pure. Qed.
Lemma preserves_as_int P b v : preserves P (as_int b v).
Proof. unfold as_int. pure. Qed.
Lemma preserves_as_text P v : preserves P (as_text v).
Proof. unfold as_text. pure. Qed.
Lemma preserves_as_bool P v : preserves P (as_bool v).
Proof. unfold as_bool. pure. Qed.
Lemma preserves_not_null {A} P (o : option A) : preserves P (not_null o).
Proof. apply preserves_require. Qed.
Lemma preserves_as_varchar P n v : preserves P (as_varchar n v).
Proof. apply preserves_bind; [apply preserves_as_text|]. intros o. pure. Qed.
#[export] Hint Resolve preserves_py_get preserves_py_get_or preserves_py_iter preserves_as_float preserves_as_int preserves_as_text
  preserves_as_bool preserves_not_null preserves_as_varchar : server.
