(* ===== verification/ServerAuth.v ===== *)
(** Accounts and sessions of the server: [core/security.py], [dependencies.py],
    [services/auth_service.py], [services/audit_service.py], [api/v1/auth.py]
    and the accounts part of [api/v1/admin.py].

    The signing of tokens (python-jose), the password hash (bcrypt) and the
    directory (ldap3) are parameters.  A response body is a record or an
    inductive type of its own. *)
From Stdlib Require Import QArith.
From S2P Require Import Prelude JsString JsNumber Types JsJson JsonText ServerModels ServerRuntime.
Local Open Scope Z_scope.
Local Open Scope js_scope.

(** ** Tokens *)

(** The claims of a token; [cl_exp] is in seconds. *)
Record claims := {
  cl_sub : option jstr; cl_exp : Z; cl_type : jstr; cl_role : option jstr; cl_username : option jstr;
  cl_org_id : option jstr }.

(** What the server uses of its libraries. *)
Class Crypto := {
  jwt_encode : claims → jstr;
  jwt_decode : Z → jstr → option claims;
  hashpw : jstr → jstr → jstr;
  checkpw : jstr → jstr → bool }.

(** Their documented behaviour: a token decodes to its claims until its
    expiration second is over, and a hashed password checks. *)
Class CryptoLaws `{Crypto} := {
  decode_encode : ∀ now c,
    jwt_decode now (jwt_encode c) = if now / 1000000 <=? cl_exp c then Some c else None;
  checkpw_hashpw : ∀ p salt, checkpw p (hashpw p salt) = true }.

(** The directory's part of a login. *)
Inductive ldap_answer :=
| LdapNotInstalled
| LdapBindRefused                      (* the service account; raised outside of the try *)
| LdapNothing                          (* no entry, or an exception of the user's bind *)
| LdapMember (groups : list jstr).

Section auth.
Context `{Crypto} (cfg : Settings) (ldap : jstr → jstr → ldap_answer).

Definition create_access_token (now : Z) (subject : jstr) (role username : jstr) (org_id : option jstr) : jstr :=
  jwt_encode {| cl_sub := Some subject; cl_exp := (now + seconds (ACCESS_TOKEN_EXPIRE_MINUTES cfg * 60)) / 1000000;
                cl_type := "access"; cl_role := Some role; cl_username := Some username; cl_org_id := org_id |}.
Definition create_refresh_token (now : Z) (subject : jstr) : jstr :=
  jwt_encode {| cl_sub := Some subject; cl_exp := (now + days (REFRESH_TOKEN_EXPIRE_DAYS cfg)) / 1000000;
                cl_type := "refresh"; cl_role := None; cl_username := None; cl_org_id := None |}.
Definition decode_token (now : Z) (token : jstr) : option claims := jwt_decode now token.

(** ** Dependencies *)

Definition bearer_claims (now : Z) (credentials : option jstr) : proc claims :=
  token ← require (UnauthorizedError "Missing bearer token") credentials;
  payload ← require (UnauthorizedError "Invalid or expired token") (decode_token now token);
  refuse (negb (cl_type payload =s "access")) (UnauthorizedError "Wrong token type");;
  mret payload.

Definition active_user (u : uuid) (r : UserRow) : bool := has_pk u r && us_is_active r.

Definition get_current_user (now : Z) (credentials : option jstr) : proc UserRow :=
  payload ← bearer_claims now credentials;
  refuse (negb (otruthy (cl_sub payload))) (UnauthorizedError "Unauthorized");;
  user_id ← require ValueError (UUID (cl_sub payload ?? ""));
  user ← select_one (active_user user_id);
  require (UnauthorizedError "User not found") user.

Definition require_admin (now : Z) (credentials : option jstr) : proc UserRow :=
  user ← get_current_user now credentials;
  refuse (negb (us_role user =s "admin")) (ForbiddenError "Admin role required");;
  mret user.

Definition get_current_org_id (now : Z) (credentials : option jstr) : proc uuid :=
  payload ← bearer_claims now credentials;
  refuse (negb (otruthy (cl_org_id payload))) (UnauthorizedError "Missing organization");;
  require ValueError (UUID (cl_org_id payload ?? "")).

(** ** Audit log *)

(** What the columns of the audit log take. *)
Definition audit_storable (r : AuditRow) : bool :=
  text_column 100 (lg_username r) && text_column 100 (lg_action r) && opt_column 100 (lg_resource_type r)
  && opt_column 255 (lg_resource_id r) && opt_column 64 (lg_ip_address r)
  && match lg_details r with Some d => jsonb_ok d | None => true end.
(** [log_action]; [lid] is the identifier of the entry. *)
Definition log_action (now : Z) (lid : uuid) (user : option UserRow) (action : jstr) (resource_type resource_id ip : option jstr)
    (details : option json) (username : option jstr) : proc unit :=
  let entry := {| lg_id := lid; lg_timestamp := now; lg_user_id := us_id <$> user;
                  lg_username := match username with
                                 | Some n => if truthy n then n else (us_username <$> user) ?? "anonymous"
                                 | None => (us_username <$> user) ?? "anonymous"
                                 end;
                  lg_action := action; lg_resource_type := resource_type; lg_resource_id := resource_id;
                  lg_ip_address := ip; lg_details := details |} in
  if audit_storable entry then add entry else raise DataError.

(** ** Authentication *)

(** [authenticate_ldap]; [uid] is the identifier of a new account and [pw] the
    hash of its random password. *)
Definition authenticate_ldap (now : Z) (uid : uuid) (pw : jstr) (username password : jstr) : proc (option UserRow) :=
  if negb (LDAP_ENABLED cfg) then mret None
  else match ldap username password with
  | LdapNotInstalled | LdapNothing => mret None
  | LdapBindRefused => raise ValueError
  | LdapMember groups =>
      catch
        (let role := if truthy (LDAP_ADMIN_GROUP_DN cfg) && existsb (seqb (LDAP_ADMIN_GROUP_DN cfg)) groups
                     then "admin" else "viewer" in
         user ← select_one (λ u, us_username u =s username);
         match user with
         | None =>
             refuse (negb (text_column 100 username)) DataError;;
             let user := {| us_id := uid; us_username := username; us_password_hash := pw; us_role := role;
                            us_is_active := true; us_last_login := None; us_created_at := now;
                            us_active_org_id := None |} in
             add user;; mret (Some user)
         | Some user =>
             update_row (us_id user) (λ u, us_set_is_active true (us_set_role role u));;
             mret (Some (us_set_is_active true (us_set_role role user)))
         end)
        (λ _, mret None)
  end.

Definition authenticate (now : Z) (uid : uuid) (pw : jstr) (username password : jstr) : proc UserRow :=
  ldap_user ← authenticate_ldap now uid pw username password;
  user ← match ldap_user with
         | Some u => mret u
         | None =>
             user ← select_one (λ u : UserRow, (us_username u =s username) && us_is_active u);
             match user with
             | Some u =>
                 if checkpw password (us_password_hash u) then mret u
                 else raise (UnauthorizedError "Invalid username or password")
             | None => raise (UnauthorizedError "Invalid username or password")
             end
         end;
  update_row (us_id user) (us_set_last_login (Some now));;
  mret (us_set_last_login (Some now) user).

Definition issue_tokens (now : Z) (user : UserRow) : AuthTokens :=
  {| at_access_token :=
       create_access_token now (str_uuid (us_id user)) (us_role user) (us_username user)
         (str_uuid <$> us_active_org_id user);
     at_refresh_token := create_refresh_token now (str_uuid (us_id user));
     at_token_type := "bearer" |}.

Definition refresh_access_token (now : Z) (refresh_token : jstr) : proc AuthTokens :=
  payload ← require (UnauthorizedError "Invalid refresh token") (decode_token now refresh_token);
  refuse (negb (cl_type payload =s "refresh")) (UnauthorizedError "Wrong token type");;
  sub ← require TypeError (cl_sub payload);
  user_id ← require ValueError (UUID sub);
  user ← select_one (active_user user_id);
  user ← require (UnauthorizedError "User not found") user;
  mret (issue_tokens now user).

(** ** [api/v1/auth.py] *)

Inductive login_response := TooManyAttempts | LoggedIn (tokens : AuthTokens).

Definition login (now : Z) (uid lid : uuid) (pw : jstr) (client_ip username password : jstr) : proc login_response :=
  allowed ← check_rate_limit now ("rate_limit:login:" ++ client_ip) 10 60;
  if negb allowed then mret TooManyAttempts
  else
    user ← catch (authenticate now uid pw username password) (λ e,
             match e with
             | HTTPException 401 _ =>
                 log_action now lid None "login_failed" None None (Some client_ip)
                   (Some (JObj [("username", JStr username)])) (Some username);;
                 commit;; raise e
             | _ => raise e
             end);
    let tokens := issue_tokens now user in
    log_action now lid (Some user) "login_success" None None (Some client_ip) None None;;
    commit;;
    mret (LoggedIn tokens).

Definition revoked_key (refresh_token : jstr) : jstr := "revoked:refresh:" ++ refresh_token.

Definition refresh (now : Z) (refresh_token : jstr) : proc AuthTokens :=
  revoked ← redis_get now (revoked_key refresh_token);
  refuse (match revoked with Some (RStr v) => truthy v | Some (RInt _) => true | None => false end)
    (UnauthorizedError "Refresh token revoked");;
  refresh_access_token now refresh_token.

Definition logout (now : Z) (credentials : option jstr) (refresh_token : jstr) : proc unit :=
  get_current_user now credentials;;
  payload ← require (UnauthorizedError "Invalid refresh token") (decode_token now refresh_token);
  refuse (negb (cl_type payload =s "refresh")) (UnauthorizedError "Wrong token type");;
  let ttl := if cl_exp payload =? 0 then 0 else Z.max (Z.quot (seconds (cl_exp payload) - now) 1000000) 0 in
  redis_setex now (revoked_key refresh_token) (if ttl =? 0 then 3600 else ttl) (RStr "revoked").

(** ** The accounts of [api/v1/admin.py] *)

Definition known_role (role : jstr) : bool := (role =s "admin") || (role =s "viewer").

Definition create_user (now : Z) (uid lid : uuid) (salt : jstr) (credentials : option jstr) (username password role : jstr)
    : proc UserRow :=
  current_user ← require_admin now credentials;
  refuse (negb (known_role role)) (HTTPException 400 "Role must be admin or viewer");;
  refuse (negb (fits 100 username)) DataError;;
  let user := {| us_id := uid; us_username := username; us_password_hash := hashpw password salt; us_role := role;
                 us_is_active := true; us_last_login := None; us_created_at := now; us_active_org_id := None |} in
  add user;;
  log_action now lid (Some current_user) "user_created" (Some "user") (Some (str_uuid uid)) None
    (Some (JObj [("username", JStr username); ("role", JStr role)])) None;;
  commit;;
  mret user.

Definition is_active_admin (u : UserRow) : bool := (us_role u =s "admin") && us_is_active u.

(** [update_user]: the role is checked and set first, then the activity. *)
Definition update_user (now : Z) (lid : uuid) (credentials : option jstr) (user_id : uuid) (role : option jstr)
    (active : option bool) : proc UserRow :=
  current_user ← require_admin now credentials;
  user ← db_get user_id;
  user ← require (HTTPException 404 "User not found") user;
  match role with
  | None => mret tt
  | Some role =>
      refuse (negb (known_role role)) (HTTPException 400 "Role must be admin or viewer");;
      refuse ((us_id user =? us_id current_user) && negb (role =s "admin"))
        (HTTPException 400 "Cannot remove your own admin role");;
      update_row user_id (us_set_role role)
  end;;
  let role_now := role ?? us_role user in
  match active with
  | None => mret tt
  | Some active =>
      refuse ((us_id user =? us_id current_user) && negb active) (HTTPException 400 "Cannot deactivate yourself");;
      when (negb active && (role_now =s "admin"))
        (admin_count ← count is_active_admin;
         refuse (admin_count <=? 1) (HTTPException 400 "Cannot deactivate the last admin"));;
      update_row user_id (us_set_is_active active)
  end;;
  log_action now lid (Some current_user) "user_updated" (Some "user") (Some (str_uuid user_id)) None
    (Some (JObj (match role with Some r => [("role", JStr r)] | None => [] end
                 ++ match active with Some b => [("is_active", JBool b)] | None => [] end))) None;;
  commit;;
  mret (us_set_is_active (active ?? us_is_active user) (us_set_role role_now user)).

Definition reset_user_password (now : Z) (lid : uuid) (salt : jstr) (credentials : option jstr) (user_id : uuid)
    (password : jstr) : proc unit :=
  current_user ← get_current_user now credentials;
  refuse (negb (Nat.leb 8 (length password) && Nat.leb (length password) 255)) (HTTPException 422 "password");;
  user ← db_get user_id;
  user ← require (HTTPException 404 "User not found") user;
  refuse (negb (us_role current_user =s "admin") && negb (us_id current_user =? us_id user))
    (HTTPException 403 "Not allowed to change this password");;
  update_row user_id (us_set_password_hash (hashpw password salt));;
  log_action now lid (Some current_user) "user_password_reset" (Some "user") (Some (str_uuid user_id)) None
    (Some (JObj [("username", JStr (us_username user))])) None;;
  commit.

Definition delete_user (now : Z) (lid : uuid) (credentials : option jstr) (user_id : uuid) : proc unit :=
  current_user ← require_admin now credentials;
  user ← db_get user_id;
  user ← require (HTTPException 404 "User not found") user;
  refuse (us_id user =? us_id current_user) (HTTPException 400 "Cannot delete yourself");;
  when (is_active_admin user)
    (admin_count ← count is_active_admin;
     refuse (admin_count <=? 1) (HTTPException 400 "Cannot delete the last admin"));;
  update_row user_id (us_set_is_active false);;
  log_action now lid (Some current_user) "user_deleted" (Some "user") (Some (str_uuid user_id)) None
    (Some (JObj [("username", JStr (us_username user))])) None;;
  commit.

(** [_seed_admin] of [main.py], at the start of the server. *)
Definition seed_admin (now : Z) (uid : uuid) (salt : jstr) : proc unit :=
  existing ← select_one (λ u : UserRow, us_username u =s "admin");
  match existing with
  | Some _ => mret tt
  | None =>
      catch (add {| us_id := uid; us_username := "admin"; us_password_hash := hashpw (FIRST_ADMIN_PASSWORD cfg) salt;
                    us_role := "admin"; us_is_active := true; us_last_login := None; us_created_at := now;
                    us_active_org_id := None |};; commit)
            (λ e, match e with IntegrityError => rollback | _ => raise e end)
  end.

End auth.

(** ** Facts *)

(** The accounts have distinct identifiers and names. *)
Definition users_ok (d : database) : Prop := NoDup (map us_id (users d)) ∧ Forall (λ u, uuid_ok (us_id u)) (users d).

Section facts.
Context `{Crypto} (cfg : Settings) (ldap : jstr → jstr → ldap_answer).

Lemma bearer_claims_ok now cred s c s' :
  bearer_claims now cred s = (Ok c, s') →
  s' = s ∧ ∃ token, cred = Some token ∧ jwt_decode now token = Some c ∧ cl_type c = "access".
Proof.
  unfold bearer_claims, require, decode_token, refuse, mbind, proc_bind, raise, mret, proc_ret.
  destruct cred as [token|]; [|done]. destruct (jwt_decode now token) as [c'|] eqn:E; [|done].
  destruct (cl_type c' =s "access") eqn:Et; simpl; [|done]. intros [= -> ->]. apply seqb_true in Et. eauto 6.
Qed.

(** A current user is an active account named by a valid access token. *)
(** An entry is added to the log, or refused. *)
Lemma log_action_cases now lid user a rt ri ip d n s :
  (∃ e, log_action now lid user a rt ri ip d n s = (Raise e, s)) ∨
  (∃ r, log_action now lid user a rt ri ip d n s = (Ok tt, set_db (set_audit_log (audit_log (db s) ++ [r]) (db s)) s)).
Proof.
  unfold log_action. destruct (audit_storable _); [|left; by eexists]. unfold add.
  destruct (existsb _ _); [left|right]; by eexists.
Qed.
Lemma log_action_ok now lid user a rt ri ip d n s v s' :
  log_action now lid user a rt ri ip d n s = (Ok v, s') → ∃ r, s' = set_db (set_audit_log (audit_log (db s) ++ [r]) (db s)) s.
Proof. destruct (log_action_cases now lid user a rt ri ip d n s) as [(e & ->)|(lr & ->)]; [done|]. intros [= _ <-]. by exists lr. Qed.

Lemma get_current_user_ok now cred s u s' :
  get_current_user now cred s = (Ok u, s') →
  s' = s ∧ In u (users (db s)) ∧ us_is_active u = true ∧
  ∃ token c, cred = Some token ∧ jwt_decode now token = Some c ∧ cl_type c = "access" ∧
             UUID (cl_sub c ?? "") = Some (us_id u).
Proof.
  unfold get_current_user. intros Hrun. step Hrun. apply bearer_claims_ok in E as (-> & token & -> & Hd & Ht).
  unfold refuse in Hrun. destruct (otruthy (cl_sub r)); [|done]. simpl in Hrun.
  unfold require in Hrun. destruct (UUID (cl_sub r ?? "")) as [v|] eqn:Ev; [|done].
  unfold mbind in Hrun at 1 2 3. unfold proc_bind in Hrun. simpl in Hrun.
  destruct (select_one (active_user v) s) as [[[r0|]|e] s0] eqn:Es; try done.
  apply select_one_some in Es as (-> & Hin & Hp). unfold mret, proc_ret in Hrun. simplify_eq.
  unfold active_user in Hp. apply andb_true_iff in Hp as [Hpk Ha]. apply Z.eqb_eq in Hpk. simpl in Hpk. subst v.
  eauto 10.
Qed.

Lemma get_current_user_state now cred s : snd (get_current_user now cred s) = s.
Proof.
  unfold get_current_user, bearer_claims, require, refuse, mbind, proc_bind, raise, mret, proc_ret.
  repeat (case_match; simplify_eq; try done);
    match goal with E : select_one ?p ?s = (_, ?s') |- _ => pose proof (select_one_state s p) as Hs; rewrite E in Hs end; done.
Qed.
Lemma require_admin_ok now cred s u s' :
  require_admin now cred s = (Ok u, s') → s' = s ∧ In u (users (db s)) ∧ is_active_admin u = true.
Proof.
  unfold require_admin. intros Hrun. step Hrun. apply get_current_user_ok in E as (-> & Hin & Ha & _).
  unfold refuse in Hrun. destruct (us_role r =s "admin") eqn:Er; [|done]. injection Hrun as -> ->. split; [done|]. split; [done|].
  unfold is_active_admin. by rewrite Er, Ha.
Qed.
Lemma require_admin_state now cred s : snd (require_admin now cred s) = s.
Proof.
  unfold require_admin, mbind, proc_bind. pose proof (get_current_user_state now cred s) as Hs.
  destruct (get_current_user now cred s) as [[u|e] s']; simpl in Hs; subst; [|done].
  unfold refuse. by destruct (negb _).
Qed.

End facts.

(** *** Accounts under requests *)

(** The requests on accounts and sessions, with what they draw. *)
Inductive account_request :=
| Login (now : Z) (uid lid : uuid) (pw client_ip username password : jstr)
| RefreshToken (now : Z) (token : jstr)
| Logout (now : Z) (cred : option jstr) (token : jstr)
| CreateUser (now : Z) (uid lid : uuid) (salt : jstr) (cred : option jstr) (username password role : jstr)
| UpdateUser (now : Z) (lid : uuid) (cred : option jstr) (user : uuid) (role : option jstr) (active : option bool)
| ResetPassword (now : Z) (lid : uuid) (salt : jstr) (cred : option jstr) (user : uuid) (password : jstr)
| DeleteUser (now : Z) (lid : uuid) (cred : option jstr) (user : uuid)
| SeedAdmin (now : Z) (uid : uuid) (salt : jstr).

Section accounts.
Context `{Crypto} (cfg : Settings) (ldap : jstr → jstr → ldap_answer).

Definition serve (r : account_request) : proc unit :=
  match r with
  | Login now uid lid pw ip username password => with_db (login cfg ldap now uid lid pw ip username password);; mret tt
  | RefreshToken now token => with_db (refresh cfg now token);; mret tt
  | Logout now cred token => with_db (logout now cred token)
  | CreateUser now uid lid salt cred username password role =>
      with_db (create_user now uid lid salt cred username password role);; mret tt
  | UpdateUser now lid cred user role active => with_db (update_user now lid cred user role active);; mret tt
  | ResetPassword now lid salt cred user password => with_db (reset_user_password now lid salt cred user password)
  | DeleteUser now lid cred user => with_db (delete_user now lid cred user)
  | SeedAdmin now uid salt => with_db (seed_admin cfg now uid salt)
  end.
Definition serve_all (l : list account_request) (s : server) : server := fold_left (λ s r, snd (serve r s)) l s.

Definition has_admin (d : database) : Prop := ∃ u, In u (users d) ∧ is_active_admin u = true.
(** An administrator with this identifier. *)
Definition admin_is (v : uuid) (d : database) : Prop :=
  ∃ u, In u (users d) ∧ us_id u = v ∧ is_active_admin u = true.
(** The state while the request of an administrator is served. *)
Definition while_admin (v : uuid) (s : server) : Prop :=
  NoDup (map us_id (users (db s))) ∧ admin_is v (db s) ∧ NoDup (map us_id (users (saved s))) ∧ has_admin (saved s).
Definition accounts_ok (d : database) : Prop := NoDup (map us_id (users d)) ∧ has_admin d.

Lemma while_admin_ok v s : while_admin v s → on_db accounts_ok s.
Proof. intros (H1 & (u & Hu & _ & Ha) & H3 & H4). split; (split; [done|]); [by exists u|done]. Qed.
Lemma enter_admin s u : on_db accounts_ok s → In u (users (db s)) → is_active_admin u = true → while_admin (us_id u) s.
Proof. intros [[H1 _] [H2 H3]] Hu Ha. split; [done|]. split; [by exists u|done]. Qed.

Lemma while_admin_commit v : preserves (while_admin v) commit.
Proof. intros s (H1 & (u & Hu & Hv & Ha) & H3 & H4). split_and!; simpl; try done; by exists u. Qed.

(** An update of an account other than the administrator's, or one that leaves
    an administrator active. *)
Lemma while_admin_update v u f :
  (∀ r, us_id (f r) = us_id r) → (u ≠ v ∨ ∀ r, is_active_admin r = true → is_active_admin (f r) = true) →
  preserves (while_admin v) (update_row u f).
Proof.
  intros Hid Hf s (H1 & (r & Hr & Hv & Ha) & H3 & H4). split_and!; [|exists (if has_pk u r then f r else r)|done..].
  - exact (eq_ind_r NoDup H1 (@map_update_keys UserRow users_table u f (users (db s)) Hid)).
  - simpl. split; [by apply (in_map (λ r, if has_pk u r then f r else r))|]. unfold has_pk. simpl.
    destruct (Z.eqb_spec (us_id r) u) as [E|]; [|done]. rewrite Hid. split; [done|].
    destruct Hf as [Hf|Hf]; [congruence|auto].
Qed.

Lemma while_admin_add v (r : UserRow) : preserves (while_admin v) (add r).
Proof.
  intros s (H1 & (u & Hu & Hv & Ha) & H3 & H4). unfold add. destruct (existsb _ _) eqn:E; [by split_and!; try done; exists u|].
  split; [|split; [exists u; split; [apply in_or_app; by left|done]|done]]. simpl. rewrite map_app. apply NoDup_app. split; [done|]. split; [|by apply NoDup_singleton].
  intros x Hx%list_elem_of_In Hx'%list_elem_of_singleton. subst x. apply in_map_iff in Hx as (r' & Er & Hr').
  apply not_true_iff_false in E. apply E, existsb_exists. exists r'. split; [done|]. by rewrite conflict_pk.
Qed.
Lemma while_admin_log v now lid user a rt ri ip d n : preserves (while_admin v) (log_action now lid user a rt ri ip d n).
Proof. intros s Hs. destruct (log_action_cases now lid user a rt ri ip d n s) as [(e & ->)|(lr & ->)]; done. Qed.

(** The accounts are in order after a handler that starts by asking for an
    administrator. *)
Lemma admin_handler {A} now cred (k : UserRow → proc A) :
  (∀ u, preserves (while_admin (us_id u)) (k u)) →
  preserves (on_db accounts_ok) (with_db (u ← require_admin now cred; k u)).
Proof.
  intros Hk. apply on_db_with_db. intros s Hs. unfold mbind, proc_bind.
  pose proof (require_admin_state now cred s) as Est.
  destruct (require_admin now cred s) as [[u|e] s'] eqn:E; simpl in Est; subst; [|done].
  apply require_admin_ok in E as (_ & Hu & Ha). eapply while_admin_ok, Hk. by apply enter_admin.
Qed.

Lemma accounts_ok_update u f :
  (∀ r, us_id (f r) = us_id r) → (∀ r, is_active_admin r = true → is_active_admin (f r) = true) →
  preserves (on_db accounts_ok) (update_row u f).
Proof.
  intros Hid Hf s Hs. pose proof Hs as [[_ (v & Hv & Ha)] _].
  apply (while_admin_ok (us_id v)), while_admin_update; [done|by right|]. by apply enter_admin.
Qed.
Lemma accounts_ok_add (r : UserRow) : preserves (on_db accounts_ok) (add r).
Proof.
  intros s Hs. pose proof Hs as [[_ (v & Hv & Ha)] _].
  apply (while_admin_ok (us_id v)), while_admin_add. by apply enter_admin.
Qed.
Lemma accounts_ok_log now lid user a rt ri ip d n :
  preserves (on_db accounts_ok) (log_action now lid user a rt ri ip d n).
Proof. intros s Hs. destruct (log_action_cases now lid user a rt ri ip d n s) as [(e & ->)|(lr & ->)]; done. Qed.
#[local] Hint Resolve while_admin_commit while_admin_log while_admin_add accounts_ok_log accounts_ok_add : server.

(** Refreshing and the current user only read. *)
Lemma refresh_access_token_state now token s : snd (refresh_access_token cfg now token s) = s.
Proof.
  unfold refresh_access_token, require, refuse, mbind, proc_bind, raise, mret, proc_ret.
  repeat (case_match; simplify_eq; try done);
    match goal with E : select_one ?p ?s = (_, ?s') |- _ => pose proof (select_one_state s p) as Hs; rewrite E in Hs end; done.
Qed.

Lemma serve_accounts_ok r : LDAP_ENABLED cfg = false → preserves (on_db accounts_ok) (serve r).
Proof.
  intros Hldap. destruct r; cbn [serve]; try (apply preserves_bind; [|intros; apply preserves_ret]).
  - apply on_db_with_db. unfold login. apply preserves_bind; [apply on_db_check_rate_limit|]. intros [|]; [|apply preserves_ret].
    cbn [negb]. apply preserves_bind.
    + apply preserves_catch; [|preserve]. unfold authenticate, authenticate_ldap. rewrite Hldap. cbn [negb].
      preserve; by apply accounts_ok_update.
    + preserve.
  - apply on_db_with_db. unfold refresh. apply preserves_bind; [apply preserves_gets|]. intros o.
    apply preserves_bind; [preserve|]. intros _. apply preserves_state, refresh_access_token_state.
  - apply on_db_with_db. unfold logout. apply preserves_bind; [apply preserves_state, get_current_user_state|]. preserve.
  - apply admin_handler. intros u. preserve.
  - apply admin_handler. intros u. apply preserves_get; [preserve|]. intros v Hv. simpl in Hv. apply preserves_bind_ret.
    apply preserves_bind.
    { destruct role as [role|]; [|apply preserves_ret]. apply preserves_refuse. intros _. apply preserves_refuse. intros Hself.
      apply while_admin_update; [done|]. destruct (Z.eqb_spec (us_id v) (us_id u)) as [E|]; [|left; congruence]. right.
      intros r. apply negb_false_iff, seqb_true in Hself as ->. unfold is_active_admin. simpl. by intros [_ ?]%andb_true_iff. }
    intros _. apply preserves_bind; [|preserve]. destruct active as [active|]; [|apply preserves_ret].
    apply preserves_refuse. intros Hself. apply preserves_bind; [preserve|]. intros _.
    apply while_admin_update; [done|]. destruct (Z.eqb_spec (us_id v) (us_id u)) as [E|]; [|left; congruence]. right.
    apply negb_false_iff in Hself as ->. intros r. unfold is_active_admin. simpl. intros [-> _]%andb_true_iff. done.
  - apply on_db_with_db. apply preserves_bind; [apply preserves_state, get_current_user_state|]. preserve.
    by apply accounts_ok_update.
  - apply admin_handler. intros u. apply preserves_get; [preserve|]. intros v Hv. simpl in Hv. apply preserves_bind_ret.
    apply preserves_refuse. intros Hself%Z.eqb_neq. preserve. apply while_admin_update; [done|]. left. congruence.
  - apply on_db_with_db. preserve.
Qed.
End accounts.

(** *** Tokens *)

Section tokens.
Context `{CryptoLaws} (cfg : Settings).

(** A row of an account the server knows by its identifier. *)
Definition account (s : server) (u : UserRow) : Prop :=
  NoDup (map us_id (users (db s))) ∧ In u (users (db s)) ∧ us_is_active u = true ∧ uuid_ok (us_id u).

Lemma account_selected s u : account s u → select_one (active_user (us_id u)) s = (Ok (Some u), s).
Proof.
  intros (Hn & Hu & Ha & _). apply (@select_one_unique UserRow users_table); [done|done| |].
  - unfold active_user, has_pk. simpl. by rewrite Z.eqb_refl, Ha.
  - intros x [Hx _]%andb_true_iff. by apply Z.eqb_eq.
Qed.

Definition access_expires (t : Z) : Z := (t + seconds (ACCESS_TOKEN_EXPIRE_MINUTES cfg * 60)) / 1000000.
Definition refresh_expires (t : Z) : Z := (t + days (REFRESH_TOKEN_EXPIRE_DAYS cfg)) / 1000000.

Lemma str_uuid_truthy u : truthy (str_uuid u) = true.
Proof. unfold str_uuid. pose proof (hex_digits_length 32 u). by destruct (hex_digits 32 u). Qed.

Lemma access_token_user s u t now :
  account s u →
  get_current_user now (Some (at_access_token (issue_tokens cfg t u))) s =
    (if now / 1000000 <=? access_expires t then Ok u else Raise (UnauthorizedError "Invalid or expired token"), s).
Proof.
  intros Hu. unfold get_current_user, bearer_claims, issue_tokens, create_access_token, require, refuse, decode_token,
    mbind, proc_bind, mret, proc_ret.
  cbn [at_access_token]. rewrite decode_encode. cbn [cl_exp]. fold (access_expires t).
  destruct (_ <=? _); [|done]. cbn [cl_type cl_sub otruthy negb from_null].
  change (_ =s "access") with true. cbn [negb cl_sub otruthy from_null]. rewrite str_uuid_truthy. cbn [negb].
  rewrite UUID_str by apply Hu. by rewrite account_selected.
Qed.
Lemma refresh_token_tokens s u t now :
  account s u →
  refresh_access_token cfg now (at_refresh_token (issue_tokens cfg t u)) s =
    (if now / 1000000 <=? refresh_expires t then Ok (issue_tokens cfg now u)
     else Raise (UnauthorizedError "Invalid refresh token"), s).
Proof.
  intros Hu. unfold refresh_access_token. cbn [at_refresh_token issue_tokens]. unfold create_refresh_token, decode_token, require.
  rewrite decode_encode. cbn [cl_exp]. fold (refresh_expires t). destruct (_ <=? _); [|done].
  unfold mbind, proc_bind, mret, proc_ret, refuse. cbn [cl_type cl_sub]. change (_ =s "refresh") with true. cbn [negb].
  unfold mret, proc_ret. rewrite UUID_str by apply Hu. by rewrite account_selected.
Qed.

(** The two kinds of token are not interchangeable. *)
Lemma wrong_token_kind s u t now :
  (∃ e, fst (get_current_user now (Some (at_refresh_token (issue_tokens cfg t u))) s) = Raise (UnauthorizedError e)) ∧
  (∃ e, fst (refresh_access_token cfg now (at_access_token (issue_tokens cfg t u)) s) = Raise (UnauthorizedError e)).
Proof.
  unfold get_current_user, refresh_access_token, bearer_claims, issue_tokens, create_access_token, create_refresh_token,
    decode_token. run_proc. cbn [at_refresh_token at_access_token]. rewrite !decode_encode. cbn [cl_exp].
  split; destruct (_ <=? _); eauto.
Qed.

(** *** Logins *)

(** The identifiers of the accounts are in order. *)
Definition ids_ok (s : server) : Prop :=
  NoDup (map us_id (users (db s))) ∧ Forall (λ u, uuid_ok (us_id u)) (users (db s)).

Lemma ids_ok_account s u : ids_ok s → In u (users (db s)) → us_is_active u = true → account s u.
Proof. intros [Hn Hok] Hu Ha. rewrite List.Forall_forall in Hok. split; [done|]. split; [done|]. split; [done|by apply Hok]. Qed.
Lemma ids_ok_update s i f :
  (∀ u, us_id (f u) = us_id u) → ids_ok s → ids_ok (snd (update_row (R := UserRow) i f s)).
Proof.
  intros Hf [Hn Hok]. split; simpl.
  - pose proof (@map_update_keys UserRow users_table i f (users (db s)) Hf) as E. simpl in E. by rewrite E.
  - rewrite List.Forall_forall in Hok |- *. intros u (x & <- & Hx)%in_map_iff. destruct (has_pk i x); [rewrite Hf|]; by apply Hok.
Qed.
Lemma ids_ok_add s (u : UserRow) s' :
  uuid_ok (us_id u) → ids_ok s → add u s = (Ok tt, s') → ids_ok s' ∧ In u (users (db s')).
Proof.
  intros Hu [Hn Hok]. unfold add. destruct (existsb (conflict u) (rows (db s))) eqn:E; [done|]. intros [= <-]. simpl.
  split; [|apply in_or_app; right; by left]. split; simpl.
  - rewrite map_app. apply NoDup_app. split; [done|]. split; [|by apply NoDup_singleton].
    intros x Hx%list_elem_of_In Hx'%list_elem_of_singleton. subst x. apply in_map_iff in Hx as (r & Er & Hr).
    apply not_true_iff_false in E. apply E, existsb_exists. exists r. split; [done|]. by rewrite conflict_pk.
  - apply Forall_app. by split; [|constructor].
Qed.

(** The role of a member of the directory. *)
Definition directory_role (groups : list jstr) : jstr :=
  if truthy (LDAP_ADMIN_GROUP_DN cfg) && existsb (seqb (LDAP_ADMIN_GROUP_DN cfg)) groups then "admin" else "viewer".
(** Who a login is for: a member of the directory, or an active account of the
    table whose hash checks the password. *)
Definition entitled (ldap : jstr → jstr → ldap_answer) (username password : jstr) (s : server) (u : UserRow) : Prop :=
  us_username u = username ∧ us_is_active u = true ∧
  ((LDAP_ENABLED cfg = true ∧ ∃ groups, ldap username password = LdapMember groups ∧ us_role u = directory_role groups) ∨
   (In u (users (db s)) ∧ checkpw password (us_password_hash u) = true)).

Lemma authenticate_ldap_ok ldap now uid pw username password s o s' :
  uuid_ok uid → ids_ok s → authenticate_ldap cfg ldap now uid pw username password s = (Ok o, s') →
  match o with
  | None => s' = s
  | Some u => ids_ok s' ∧ In u (users (db s')) ∧ entitled ldap username password s u
  end.
Proof.
  intros Hid Hok. unfold authenticate_ldap, entitled. destruct (LDAP_ENABLED cfg) eqn:Hl; cbn [negb]; [|by intros [= <- <-]].
  destruct (ldap username password) as [| | |groups] eqn:El; try (by intros [= <- <-]).
  fold (directory_role groups). unfold catch, mbind, proc_bind.
  pose proof (select_one_state s (λ u : UserRow, us_username u =s username)) as Hst.
  destruct (select_one _ s) as [[[u|]|e] s0] eqn:Es; simpl in Hst; subst s0; [| |by intros [= <- <-]].
  - apply select_one_some in Es as (_ & Hu & Hname). apply seqb_true in Hname.
    intros [= <- <-]. split; [|split; [|split_and!; try done; left; split; [done|by exists groups]]].
    + exact (ids_ok_update s (us_id u) (λ u, us_set_is_active true (us_set_role (directory_role groups) u)) (λ _, eq_refl) Hok).
    + simpl. apply in_map_iff. exists u. split; [|done]. unfold has_pk. simpl. by rewrite Z.eqb_refl.
  - unfold refuse. destruct (negb _); [by intros [= <- <-]|]. unfold mret at 1, proc_ret at 1.
    match goal with |- context [add ?r s] => destruct (add r s) as [[[]|e] s1] eqn:Ea end.
    + apply ids_ok_add in Ea as [H1 H2]; [|done|done]. intros [= <- <-]. split; [done|]. split; [done|].
      split_and!; try done. left. split; [done|by exists groups].
    + unfold add in Ea. destruct (existsb _ _); [|done]. injection Ea as <- <-. by intros [= <- <-].
Qed.

Lemma authenticate_ok ldap now uid pw username password s u s' :
  uuid_ok uid → ids_ok s → authenticate cfg ldap now uid pw username password s = (Ok u, s') →
  ∃ u0, u = us_set_last_login (Some now) u0 ∧ entitled ldap username password s u0 ∧ account s' u.
Proof.
  intros Hid Hok Hrun. unfold authenticate in Hrun. step Hrun. apply authenticate_ldap_ok in E; [|done|done]. step Hrun.
  assert (ids_ok s1 ∧ In r0 (users (db s1)) ∧ entitled ldap username password s r0) as (Hok1 & Hin & Hent).
  { destruct r as [u0|]; [by injection E0 as <- <-|]. subst s0. step E0. destruct r as [u0|]; [|done].
    apply select_one_some in E as (-> & Hin & Hp). destruct (checkpw password (us_password_hash u0)) eqn:Hc; [|done].
    injection E0 as <- <-. apply andb_true_iff in Hp as [Hname%seqb_true Ha]. split; [done|]. split; [done|].
    split; [done|]. split; [done|]. by right. }
  injection Hrun as <- <-. exists r0. split; [done|]. split; [done|]. apply ids_ok_account.
  - exact (ids_ok_update s1 (us_id r0) (us_set_last_login (Some now)) (λ _, eq_refl) Hok1).
  - simpl. apply in_map_iff. exists r0. split; [|done]. unfold has_pk. simpl. by rewrite Z.eqb_refl.
  - by destruct Hent as (_ & Ha & _).
Qed.

Lemma log_action_users now lid user a rt ri ip d n s :
  users (db (snd (log_action now lid user a rt ri ip d n s))) = users (db s).
Proof. destruct (log_action_cases now lid user a rt ri ip d n s) as [(e & ->)|(lr & ->)]; done. Qed.
Lemma check_rate_limit_db now k l w s : db (snd (check_rate_limit now k l w s)) = db s.
Proof.
  unfold check_rate_limit, redis_incr, redis_expire. run_proc. destruct (redis_live now s k) as [[[n|v] e]|]; try done.
  - by destruct (n + 1 =? 1); simpl; [destruct (redis_live _ _ _)|].
  - simpl. by destruct (redis_live _ _ _).
Qed.

Lemma login_ok ldap now uid lid pw ip username password s tokens s1 :
  uuid_ok uid → ids_ok s → login cfg ldap now uid lid pw ip username password s = (Ok (LoggedIn tokens), s1) →
  ∃ u0, entitled ldap username password s u0 ∧ tokens = issue_tokens cfg now (us_set_last_login (Some now) u0) ∧
        account s1 (us_set_last_login (Some now) u0).
Proof.
  intros Hid Hok Hrun. unfold login in Hrun. step Hrun.
  pose proof (check_rate_limit_db now ("rate_limit:login:" ++ ip) 10 60 s) as Hd. rewrite E in Hd. simpl in Hd.
  destruct r; [|done]. cbn [negb] in Hrun. step Hrun. unfold catch in E0.
  destruct (authenticate _ _ _ _ _ _ _ s0) as [[u|e] s3] eqn:Ea.
  2: { exfalso. destruct e as [st dt| | | | | | | | |]; try done. destruct (decide (st = 401)) as [->|]; [|by repeat case_match].
       run_proc in E0. by repeat case_match. }
  injection E0 as -> ->. apply authenticate_ok in Ea as (u0 & -> & Hent & Hacc); [|done|unfold ids_ok in *; by rewrite Hd].
  step Hrun. destruct r. apply log_action_ok in E0 as (lr & ->). run_proc in Hrun. injection Hrun as <- <-.
  exists u0. split; [|by split]. unfold entitled in *. by rewrite <-Hd.
Qed.

(** *** Revocation *)

(** The moment until which a token logged out at [t] is kept as revoked. *)
Definition revoked_until (exp t : Z) : Z :=
  let ttl := Z.quot (seconds exp - t) 1000000 in t + seconds (if ttl =? 0 then 3600 else ttl).

Lemma logout_ok now cred token c s s1 :
  jwt_decode now token = Some c → 0 < cl_exp c → now / 1000000 <= cl_exp c → logout now cred token s = (Ok tt, s1) →
  redis s1 !! revoked_key token =
    Some {| r_value := RStr "revoked"; r_expires := Some (revoked_until (cl_exp c) now) |} ∧ db s1 = db s.
Proof.
  intros Hd He Hnow Hrun. unfold logout in Hrun. step Hrun. apply get_current_user_ok in E as (-> & _).
  unfold decode_token in Hrun. rewrite Hd in Hrun. run_proc in Hrun. destruct (cl_type c =s "refresh"); [|done]. cbn [negb] in Hrun.
  unfold redis_setex in Hrun. run_proc in Hrun. injection Hrun as <-. split; [|done]. simpl. rewrite lookup_insert_eq.
  destruct (Z.eqb_spec (cl_exp c) 0); [lia|]. unfold revoked_until.
  assert (0 <= Z.quot (seconds (cl_exp c) - now) 1000000) as Hq.
  { unfold seconds. destruct (Z.le_gt_cases now (cl_exp c * 1000000)); [apply Z.quot_pos; lia|].
    rewrite <-(Z.opp_involutive (_ - _)), Z.quot_opp_l, Z.quot_small; [lia|zdiv|lia]. }
  by rewrite Z.max_l by done.
Qed.

(** The revocation may end before the token does, by less than two seconds. *)
Lemma revocation_gap exp t t' :
  0 < exp → t / 1000000 <= exp → revoked_until exp t <= t' → t' / 1000000 <= exp →
  seconds (exp - 1) < t' < seconds (exp + 1).
Proof.
  unfold revoked_until, seconds. intros He Ht Hr Ht'. split; [|zdiv].
  destruct (Z.eqb_spec (Z.quot (exp * 1000000 - t) 1000000) 0) as [E|E].
  - apply Z.quot_small_iff in E; [|lia]. zdiv.
  - destruct (Z.le_gt_cases t (exp * 1000000)).
    + rewrite Z.quot_div_nonneg in Hr by lia. zdiv.
    + exfalso. apply E. rewrite <-(Z.opp_involutive (_ - _)), Z.quot_opp_l, Z.quot_small; [lia|zdiv|lia].
Qed.
End tokens.

(** *** Attempts *)

(** The outcomes of attempts on one key, at the given times. *)
Fixpoint attempts (key : jstr) (limit window : Z) (times : list Z) (s : server) : list (result bool) * server :=
  match times with
  | [] => ([], s)
  | t :: times =>
      let (r, s) := check_rate_limit t key limit window s in
      let (rs, s) := attempts key limit window times s in (r :: rs, s)
  end.

Lemma next_attempt key limit window t s n t0 :
  redis s !! key = Some {| r_value := RInt n; r_expires := Some t0 |} → t < t0 → 1 <= n →
  ∃ s', check_rate_limit t key limit window s = (Ok (n + 1 <? limit), s') ∧
        redis s' !! key = Some {| r_value := RInt (n + 1); r_expires := Some t0 |}.
Proof.
  intros Hk Ht Hn. unfold check_rate_limit, redis_incr. run_proc. unfold redis_live at 1. rewrite Hk. simpl.
  destruct (Z.leb_spec t0 t); [lia|]. destruct (Z.eqb_spec (n + 1) 1); [lia|]. eexists. split; [done|].
  simpl. by rewrite lookup_insert_eq.
Qed.
Lemma more_attempts key limit window times s n t0 :
  redis s !! key = Some {| r_value := RInt n; r_expires := Some t0 |} → Forall (λ t, t < t0) times → 1 <= n →
  fst (attempts key limit window times s) =
    map (λ i, Ok (n + Z.of_nat i <? limit)) (seq 1 (length times)).
Proof.
  revert s n. induction times as [|t times IH]; intros s n Hk Ht Hn; [done|]. inversion Ht; subst.
  destruct (next_attempt key limit window t s n t0) as (s' & E & Hk'); [done..|]. cbn [attempts]. rewrite E.
  specialize (IH s' (n + 1) Hk' ltac:(done) ltac:(lia)). destruct (attempts _ _ _ times s') as [rs s'']. simpl in IH |- *.
  rewrite IH. f_equal. rewrite <-(seq_shift (length times) 1), map_map. apply map_ext. intros i. do 2 f_equal. lia.
Qed.
Lemma first_attempt key limit window t s :
  redis_live t s key = None → 
  ∃ s', check_rate_limit t key limit window s = (Ok (1 <? limit), s') ∧
        redis s' !! key = Some {| r_value := RInt 1; r_expires := Some (t + seconds window) |}.
Proof.
  intros Hk. unfold check_rate_limit, redis_incr, redis_expire. run_proc. rewrite Hk. change (1 =? 1) with true. cbn iota.
  unfold redis_live. simpl. rewrite lookup_insert_eq. simpl. eexists. split; [done|]. simpl. by rewrite lookup_insert_eq.
Qed.

(** ** Properties *)

Module AuthProps.
Section props.
Context `{CryptoLaws} (cfg : Settings) (ldap : jstr → jstr → ldap_answer).


(** C21: a refresh token logged out while valid is refused from then on, except in the last two seconds before it expires:
    the revocation is kept for the whole seconds that were left, and the token is valid through its last second. *)
Theorem logout_revokes now cred u t0 s s1 :
  let token := at_refresh_token (issue_tokens cfg t0 u) in
  0 < refresh_expires cfg t0 → now / 1000000 <= refresh_expires cfg t0 → account s u →
  logout now cred token s = (Ok tt, s1) →
  ∀ t, now <= t →
    fst (refresh cfg t token s1) =
      (if t <? revoked_until (refresh_expires cfg t0) now then Raise (UnauthorizedError "Refresh token revoked")
       else if t / 1000000 <=? refresh_expires cfg t0 then Ok (issue_tokens cfg t u)
       else Raise (UnauthorizedError "Invalid refresh token")) ∧
    (revoked_until (refresh_expires cfg t0) now <= t → t / 1000000 <= refresh_expires cfg t0 →
     seconds (refresh_expires cfg t0 - 1) < t < seconds (refresh_expires cfg t0 + 1)).
Proof.
  intros token He Hnow Hu Hrun t Ht. split; [|intros H1 H2; exact (revocation_gap _ now t He Hnow H1 H2)].
  assert (∃ c, jwt_decode now token = Some c ∧ cl_exp c = refresh_expires cfg t0) as (c & Hc & Hexp).
  { unfold token, issue_tokens, create_refresh_token. simpl. eexists. rewrite decode_encode. cbn [cl_exp].
    fold (refresh_expires cfg t0). apply Z.leb_le in Hnow. rewrite Hnow. split; reflexivity. }
  destruct (logout_ok now cred token c s s1 Hc ltac:(rewrite Hexp; exact He) ltac:(rewrite Hexp; exact Hnow) Hrun) as [Hk Hd].
  unfold refresh. run_proc. unfold redis_get, gets, redis_live. rewrite Hk, Hexp. simpl.
  rewrite Z.leb_antisym. destruct (t <? _); simpl; [done|].
  assert (account s1 u) as Hu1 by (unfold account in *; by rewrite Hd).
  unfold token. rewrite refresh_token_tokens by done. by destruct (_ <=? _).
Qed.

(** Of the attempts on a key within the window that the first one opens, exactly the first [limit - 1] are allowed:
    nine logins a minute from one address. *)
Theorem rate_limit_window key limit window t times s :
  redis_live t s key = None → Forall (λ t', t' < t + seconds window) times →
  fst (attempts key limit window (t :: times) s) = map (λ i, Ok (Z.of_nat i <? limit)) (seq 1 (S (length times))).
Proof.
  intros Hk Ht. destruct (first_attempt key limit window t s Hk) as (s' & E & Hk'). cbn [attempts]. rewrite E.
  pose proof (more_attempts key limit window times s' 1 _ Hk' Ht ltac:(lia)) as Hm.
  destruct (attempts key limit window times s') as [rs s'']. simpl in Hm |- *. rewrite Hm. f_equal.
  rewrite <-(seq_shift (length times) 1), map_map. apply map_ext. intros i. do 2 f_equal. lia.
Qed.

(** Whatever requests on accounts and sessions are served, with or without valid tokens, an active administrator
    remains and the accounts keep distinct identifiers, as long as logins do not go through a directory. *)
Theorem an_admin_remains requests s :
  LDAP_ENABLED cfg = false → on_db accounts_ok s → on_db accounts_ok (serve_all cfg ldap requests s).
Proof.
  intros Hl Hs. unfold serve_all. apply fold_left_invariant; [done|]. intros s' r Hs' _. by apply serve_accounts_ok.
Qed.

End props.

(** *** A concrete instance of the parameters *)

Definition put_text (s : jstr) : jstr := Z.of_nat (length s) :: s.
Definition put_opt (o : option jstr) : jstr := match o with Some s => 1 :: put_text s | None => [0] end.
Definition get_text (s : jstr) : jstr * jstr :=
  match s with n :: r => (take (Z.to_nat n) r, drop (Z.to_nat n) r) | [] => ([], []) end.
Definition get_opt (s : jstr) : option jstr * jstr :=
  match s with
  | n :: r => if n =? 1 then let (t, r') := get_text r in (Some t, r') else (None, r)
  | [] => (None, [])
  end.
Definition toy_encode (c : claims) : jstr :=
  cl_exp c :: put_text (cl_type c) ++ put_opt (cl_sub c) ++ put_opt (cl_role c) ++ put_opt (cl_username c)
  ++ put_opt (cl_org_id c).
Definition toy_decode (now : Z) (s : jstr) : option claims :=
  match s with
  | [] => None
  | exp :: r =>
      let (type, r) := get_text r in let (sub, r) := get_opt r in let (role, r) := get_opt r in
      let (username, r) := get_opt r in let (org, r) := get_opt r in
      if now / 1000000 <=? exp then
        Some {| cl_sub := sub; cl_exp := exp; cl_type := type; cl_role := role; cl_username := username; cl_org_id := org |}
      else None
  end.
Lemma get_put_text s r : get_text (put_text s ++ r) = (s, r).
Proof. simpl. rewrite Nat2Z.id. by rewrite take_app_length, drop_app_length. Qed.
Lemma get_put_opt o r : get_opt (put_opt o ++ r) = (o, r).
Proof. destruct o as [s|]; [|done]. cbn [put_opt app get_opt]. change (1 =? 1) with true. cbn iota. by rewrite get_put_text. Qed.
Lemma toy_roundtrip now c : toy_decode now (toy_encode c) = if now / 1000000 <=? cl_exp c then Some c else None.
Proof.
  unfold toy_encode, toy_decode. rewrite <-(app_nil_r (put_opt (cl_org_id c))), get_put_text, !get_put_opt.
  by destruct c.
Qed.
#[local] Instance toy_crypto : Crypto :=
  {| jwt_encode := toy_encode; jwt_decode := toy_decode; hashpw := λ p salt, p; checkpw := λ p h, p =s h |}.
#[local] Instance toy_laws : CryptoLaws.
Proof.
  split; [exact toy_roundtrip|intros p salt; apply seqb_refl].
Qed.

Definition no_ldap : jstr → jstr → ldap_answer := λ _ _, LdapNothing.
Definition seeded : server := snd (with_db (seed_admin default_settings 0 7 "") (start empty_db)).
Definition admin_row : UserRow :=
  {| us_id := 7; us_username := "admin"; us_password_hash := "changeme"; us_role := "admin"; us_is_active := true;
     us_last_login := None; us_created_at := 0; us_active_org_id := None |}.

Definition first_login : result login_response * server :=
  login default_settings no_ldap 5 1 2 "" "10.0.0.1" "admin" "changeme" seeded.
Definition first_tokens : AuthTokens := issue_tokens default_settings 5 (us_set_last_login (Some 5) admin_row).

Lemma seeded_ids : NoDup (map us_id (users (db seeded))) ∧ Forall (λ u, uuid_ok (us_id u)) (users (db seeded)).
Proof.
  assert (users (db seeded) = [admin_row]) as -> by (vm_compute; reflexivity). split; [apply NoDup_singleton|].
  constructor; [split; [discriminate|reflexivity]|constructor].
Qed.
Lemma first_login_ok : first_login = (Ok (LoggedIn first_tokens), snd first_login).
Proof. vm_compute. reflexivity. Qed.


(** A login through the directory takes the administrator's role away, also from the last one; the failed logins of a long
    user name, and all from a long forwarded address, are errors of the server. *)
Theorem directory_demotes_last_admin :
  let cfg := {| ACCESS_TOKEN_EXPIRE_MINUTES := 60; REFRESH_TOKEN_EXPIRE_DAYS := 30; DEVICE_OFFLINE_THRESHOLD_SECONDS := 120;
                ALERT_CPU_PERCENT := 90; ALERT_RAM_PERCENT := 90; ALERT_DISK_PERCENT := 90; ALERT_CPU_TEMP_CELSIUS := 85;
                ALERT_NTP_OFFSET_MS := 500; FIRST_ADMIN_PASSWORD := "changeme"; LDAP_ENABLED := true;
                LDAP_ADMIN_GROUP_DN := "admins"; METRIC_RETENTION_DAYS := 90; EVENT_RETENTION_DAYS := 365;
                COMMAND_RETENTION_DAYS := 180; ALERT_RETENTION_DAYS := 365 |} in
  existsb is_active_admin (users (saved seeded)) = true ∧
  existsb is_active_admin (users (saved (snd (with_db
    (login cfg (λ _ _, LdapMember []) 5 1 2 "" "10.0.0.1" "admin" "x") seeded)))) = false.
Proof. vm_compute. split; reflexivity. Qed.
Theorem long_names_fail_login :
  fst (login default_settings no_ldap 5 1 2 "" "10.0.0.1" (repeat 97 101) "x" seeded) = Raise DataError ∧
  fst (login default_settings no_ldap 5 1 2 "" (repeat 49 65) "admin" "changeme" seeded) = Raise DataError.
Proof. vm_compute. split; reflexivity. Qed.

Lemma logout_revokes_witness :
  let token := at_refresh_token (issue_tokens default_settings 0 admin_row) in
  let s1 := snd (logout 1 (Some (at_access_token (issue_tokens default_settings 0 admin_row))) token seeded) in
  fst (refresh default_settings 2 token s1) = Raise (UnauthorizedError "Refresh token revoked").
Proof.
  intros token s1.
  edestruct (logout_revokes default_settings 1 (Some (at_access_token (issue_tokens default_settings 0 admin_row))) admin_row 0 seeded s1)
    as [E _].
  - reflexivity.
  - vm_compute. discriminate.
  - split; [vm_compute; apply NoDup_singleton|]. split; [vm_compute; by left|]. split; [reflexivity|]. split; [discriminate|reflexivity].
  - vm_compute. reflexivity.
  - instantiate (1 := 2). lia.
  - exact E.
Defined.

Lemma rate_limit_window_witness :
  fst (attempts "rate_limit:login:10.0.0.1" 10 60 (repeat 0 11) seeded) = repeat (Ok true) 9 ++ [Ok false; Ok false].
Proof.
  change (repeat 0 11) with (0 :: repeat 0 10).
  rewrite (rate_limit_window "rate_limit:login:10.0.0.1" 10 60 0 (repeat 0 10) seeded); [reflexivity|reflexivity|].
  repeat (constructor; [reflexivity|]). constructor.
Defined.

Lemma an_admin_remains_witness :
  on_db accounts_ok (serve_all default_settings no_ldap
    [DeleteUser 1 3 (Some (at_access_token (issue_tokens default_settings 0 admin_row))) 7] seeded).
Proof.
  apply (an_admin_remains default_settings no_ldap); [reflexivity|].
  split; (split; [vm_compute; apply NoDup_singleton|exists admin_row; split; [vm_compute; by left|reflexivity]]).
Defined.

End AuthProps.
