(* ===== verification/ServerOrgs.v ===== *)
(** Organizations of the server: [api/v1/organizations.py].

    Foreign keys matter here: deleting an organization removes its members,
    schedules and notification rules ([ondelete="CASCADE"]) and is refused by
    the database while an account has it as active or a device belongs to it. *)
From Stdlib Require Import QArith.
From S2P Require Import AdminPages.
From S2P Require Import Prelude JsString JsNumber Types JsJson JsonText ServerModels ServerRuntime ServerAuth.
Local Open Scope Z_scope.
Local Open Scope js_scope.

Definition is_member (org_id user_id : uuid) (m : MemberRow) : bool := (mb_org_id m =? org_id) && (mb_user_id m =? user_id).
Definition org_role (role : jstr) : bool := (role =s "owner") || (role =s "admin") || (role =s "member").
Definition manages (m : MemberRow) : bool := (mb_role m =s "owner") || (mb_role m =s "admin").

Section orgs.
Context `{Crypto} (cfg : Settings).

Definition _require_membership (org_id user_id : uuid) : proc MemberRow :=
  member ← select_one (is_member org_id user_id);
  require (HTTPException 404 "Organization not found") member.

(** [create_org]; [oid] and [mid] are the identifiers it draws. *)
Definition create_org (now : Z) (oid mid : uuid) (cred : option jstr) (name slug : jstr) : proc OrganizationRow :=
  current_user ← get_current_user now cred;
  refuse (negb (Nat.leb 2 (length name) && Nat.leb (length name) 255
                && Nat.leb 3 (length slug) && Nat.leb (length slug) 64)) (HTTPException 422 "Unprocessable Entity");;
  slug ← require (HTTPException 400 "Invalid slug") (Organizations.validate_slug slug);
  existing ← select_one (λ o, og_slug o =s slug);
  refuse (bool_decide (existing ≠ None)) (HTTPException 409 "Organization slug already exists");;
  let org := {| og_id := oid; og_name := name; og_slug := slug; og_created_at := now; og_owner_id := Some (us_id current_user) |} in
  add org;;
  add {| mb_id := mid; mb_org_id := oid; mb_user_id := us_id current_user; mb_role := "owner"; mb_joined_at := now |};;
  when (bool_decide (us_active_org_id current_user = None))
    (update_row (us_id current_user) (us_set_active_org_id (Some oid)));;
  commit;;
  mret org.

(** [list_orgs]: the organizations of the user with the user's role, oldest first. *)
Definition list_orgs (now : Z) (cred : option jstr) : proc (list Org) :=
  current_user ← get_current_user now cred;
  orgs ← gets (λ s, organizations (db s));
  members ← gets (λ s, members (db s));
  mret (map (λ '(o, m), {| o_id := str_uuid (og_id o); o_name := og_name o; o_slug := og_slug o; o_role := mb_role m;
                           o_active := bool_decide (us_active_org_id current_user = Some (og_id o)) |})
          (stable_sort (λ '(o, _) '(o', _), og_created_at o <=? og_created_at o')
             (flat_map (λ o, map (pair o) (bfilter (is_member (og_id o) (us_id current_user)) members)) orgs))).

Definition get_org (now : Z) (cred : option jstr) (org_id : uuid) : proc OrganizationRow :=
  current_user ← get_current_user now cred;
  _require_membership org_id (us_id current_user);;
  org ← db_get org_id;
  require (HTTPException 404 "Organization not found") org.

Definition update_org (now : Z) (cred : option jstr) (org_id : uuid) (name : option jstr) : proc unit :=
  current_user ← get_current_user now cred;
  refuse (match name with Some n => negb (Nat.leb (length n) 255) | None => false end) (HTTPException 422 "Unprocessable Entity");;
  member ← _require_membership org_id (us_id current_user);
  refuse (negb (manages member)) (HTTPException 403 "Insufficient permissions");;
  org ← db_get org_id;
  org ← require (HTTPException 404 "Organization not found") org;
  when (otruthy name) (update_row org_id (og_set_name (name ?? "")));;
  commit.

(** The deletion of the row of an organization, with its foreign keys. *)
Definition delete_org_row (org_id : uuid) : proc unit :=
  in_use ← gets (λ s, existsb (λ u, bool_decide (us_active_org_id u = Some org_id)) (users (db s))
                      || existsb (λ d, bool_decide (dv_org_id d = Some org_id)) (devices (db s)));
  refuse in_use IntegrityError;;
  delete_where (λ m, mb_org_id m =? org_id);;
  delete_where (λ c, sd_org_id c =? org_id);;
  delete_where (λ r, rl_org_id r =? org_id);;
  delete_row (R := OrganizationRow) org_id.

Definition delete_org (now : Z) (cred : option jstr) (org_id : uuid) : proc unit :=
  current_user ← get_current_user now cred;
  member ← _require_membership org_id (us_id current_user);
  refuse (negb (mb_role member =s "owner")) (HTTPException 403 "Owner role required");;
  org ← db_get org_id;
  (require (HTTPException 404 "Organization not found") org : proc OrganizationRow);;
  delete_org_row org_id;;
  commit.

(** [list_members]: longest membership first. *)
Definition list_members (now : Z) (cred : option jstr) (org_id : uuid) : proc (list OrgMember) :=
  current_user ← get_current_user now cred;
  _require_membership org_id (us_id current_user);;
  members ← select (λ m, mb_org_id m =? org_id);
  users ← gets (λ s, users (db s));
  mret (flat_map (λ m, map (λ u, {| om_user_id := str_uuid (mb_user_id m); om_username := us_username u; om_role := mb_role m |})
                         (bfilter (has_pk (mb_user_id m)) users))
          (stable_sort (λ m m', mb_joined_at m <=? mb_joined_at m') members)).

Definition invite_member (now : Z) (mid : uuid) (cred : option jstr) (org_id : uuid) (username role : jstr) : proc unit :=
  current_user ← get_current_user now cred;
  member ← _require_membership org_id (us_id current_user);
  refuse (negb (manages member)) (HTTPException 403 "Insufficient permissions");;
  user ← select_one (λ u : UserRow, (us_username u =s username) && us_is_active u);
  user ← require (HTTPException 404 "User not found") user;
  let role := if org_role role then role else "member" in
  existing ← select_one (is_member org_id (us_id user));
  refuse (bool_decide (existing ≠ None)) (HTTPException 409 "User already a member");;
  add {| mb_id := mid; mb_org_id := org_id; mb_user_id := us_id user; mb_role := role; mb_joined_at := now |};;
  commit.

Definition remove_member (now : Z) (cred : option jstr) (org_id user_id : uuid) : proc unit :=
  current_user ← get_current_user now cred;
  member ← _require_membership org_id (us_id current_user);
  refuse (negb (manages member)) (HTTPException 403 "Insufficient permissions");;
  target ← select_one (is_member org_id user_id);
  target ← require (HTTPException 404 "Member not found") target;
  refuse (mb_role target =s "owner") (HTTPException 400 "Cannot remove org owner");;
  delete_row (R := MemberRow) (mb_id target);;
  commit.

Definition update_member (now : Z) (cred : option jstr) (org_id user_id : uuid) (role : jstr) : proc unit :=
  current_user ← get_current_user now cred;
  member ← _require_membership org_id (us_id current_user);
  refuse (negb (manages member)) (HTTPException 403 "Insufficient permissions");;
  target ← select_one (is_member org_id user_id);
  target ← require (HTTPException 404 "Member not found") target;
  refuse ((mb_role target =s "owner") && negb (role =s "owner")) (HTTPException 400 "Cannot demote org owner");;
  refuse (negb (org_role role)) (HTTPException 400 "Invalid role");;
  update_row (mb_id target) (mb_set_role role);;
  commit.

(** [list_org_devices]: identifier, host name and status, by host name in the
    collation of the database. *)
Definition list_org_devices (collates : jstr → jstr → bool) (now : Z) (cred : option jstr) (org_id : uuid) : proc (list (jstr * jstr * jstr)) :=
  current_user ← get_current_user now cred;
  _require_membership org_id (us_id current_user);;
  devices ← select (λ d, bool_decide (dv_org_id d = Some org_id) && negb (dv_is_revoked d));
  mret (map (λ d, (str_uuid (dv_id d), dv_hostname d, dv_status d))
          (stable_sort (λ d d', collates (dv_hostname d) (dv_hostname d')) devices)).

Definition switch_org (now : Z) (cred : option jstr) (org_id : uuid) : proc AuthTokens :=
  current_user ← get_current_user now cred;
  _require_membership org_id (us_id current_user);;
  update_row (us_id current_user) (us_set_active_org_id (Some org_id));;
  commit;;
  mret (issue_tokens cfg now (us_set_active_org_id (Some org_id) current_user)).

End orgs.

(** ** Facts *)

(** Every organization has an owner, memberships have distinct identifiers, a
    user is a member of an organization once, and with one of the known roles. *)
Definition has_owner (d : database) (org : uuid) : Prop :=
  ∃ m, In m (members d) ∧ mb_org_id m = org ∧ mb_role m = "owner".
Definition orgs_ok (d : database) : Prop :=
  NoDup (map mb_id (members d)) ∧ NoDup (map (λ m, (mb_org_id m, mb_user_id m)) (members d)) ∧
  Forall (λ m, Is_true (org_role (mb_role m))) (members d) ∧
  ∀ o, In o (organizations d) → has_owner d (og_id o).

Inductive org_request :=
| CreateOrg (now : Z) (oid mid : uuid) (cred : option jstr) (name slug : jstr)
| UpdateOrg (now : Z) (cred : option jstr) (org : uuid) (name : option jstr)
| DeleteOrg (now : Z) (cred : option jstr) (org : uuid)
| InviteMember (now : Z) (mid : uuid) (cred : option jstr) (org : uuid) (username role : jstr)
| RemoveMember (now : Z) (cred : option jstr) (org user : uuid)
| UpdateMember (now : Z) (cred : option jstr) (org user : uuid) (role : jstr)
| SwitchOrg (now : Z) (cred : option jstr) (org : uuid).

(** The credentials of a request and the time it comes. *)
Definition request_cred (r : org_request) : Z * option jstr :=
  match r with
  | CreateOrg now _ _ cred _ _ | UpdateOrg now cred _ _ | DeleteOrg now cred _ | InviteMember now _ cred _ _ _
  | RemoveMember now cred _ _ | UpdateMember now cred _ _ _ | SwitchOrg now cred _ => (now, cred)
  end.

Section facts.
Context `{Crypto} (cfg : Settings).

Definition serve_org (r : org_request) : proc unit :=
  match r with
  | CreateOrg now oid mid cred name slug => with_db (create_org now oid mid cred name slug);; mret tt
  | UpdateOrg now cred org name => with_db (update_org now cred org name)
  | DeleteOrg now cred org => with_db (delete_org now cred org)
  | InviteMember now mid cred org username role => with_db (invite_member now mid cred org username role)
  | RemoveMember now cred org user => with_db (remove_member now cred org user)
  | UpdateMember now cred org user role => with_db (update_member now cred org user role)
  | SwitchOrg now cred org => with_db (switch_org cfg now cred org);; mret tt
  end.
Definition serve_orgs (l : list org_request) (s : server) : server := fold_left (λ s r, snd (serve_org r s)) l s.

Lemma reads_current_user now cred :
  reads (get_current_user now cred) (λ s u, get_current_user now cred s = (Ok u, s) ∧ In u (users (db s))).
Proof.
  apply reads_of; [apply get_current_user_state|]. intros s u s' E. pose proof (get_current_user_state now cred s) as Hs.
  rewrite E in Hs. simpl in Hs. subst. split; [done|]. by apply get_current_user_ok in E as (_ & ? & _).
Qed.
Lemma reads_membership org u :
  reads (_require_membership org u) (λ s m, In m (members (db s)) ∧ mb_org_id m = org ∧ mb_user_id m = u).
Proof.
  eapply reads_bind; [apply reads_select_one|]. intros o. intros s. destruct o as [m|]; [left|right]; eexists; [|done].
  split; [done|]. intros [Hm Hp]. unfold is_member in Hp. apply andb_true_iff in Hp as [?%Z.eqb_eq ?%Z.eqb_eq]. done.
Qed.

(** *** Steps on the tables *)

Lemma orgs_ok_add_member d m :
  orgs_ok d → org_role (mb_role m) → (∀ m', In m' (members d) → conflict m m' = false) →
  orgs_ok (set_members (members d ++ [m]) d).
Proof.
  intros (H1 & H2 & H3 & H4) Hr Hc. split_and!; simpl.
  - rewrite map_app. apply NoDup_app. split; [done|]. split; [|apply NoDup_singleton].
    intros x (m' & <- & Hm')%list_elem_of_In%in_map_iff Hx%list_elem_of_singleton. specialize (Hc m' Hm'). simpl in Hc.
    apply orb_false_iff in Hc as [Hc _]. apply Z.eqb_neq in Hc. done.
  - rewrite map_app. apply NoDup_app. split; [done|]. split; [|apply NoDup_singleton].
    intros x (m' & <- & Hm')%list_elem_of_In%in_map_iff Hx%list_elem_of_singleton. specialize (Hc m' Hm'). simpl in Hc, Hx.
    injection Hx as Ho Hu. apply orb_false_iff in Hc as [_ Hc]. rewrite Ho, Hu, !Z.eqb_refl in Hc. done.
  - apply Forall_app. split; [done|]. by constructor.
  - intros o Ho. destruct (H4 o Ho) as (m' & Hm' & Ho' & Hr'). exists m'. split; [simpl; apply in_or_app; by left|done].
Qed.

(** The owner that creates an organization. *)
Lemma orgs_ok_create d o m :
  orgs_ok d → mb_org_id m = og_id o → mb_role m = "owner" → (∀ m', In m' (members d) → conflict m m' = false) →
  orgs_ok (set_members (members d ++ [m]) (set_organizations (organizations d ++ [o]) d)).
Proof.
  intros Hd Hm Hr Hc. destruct (orgs_ok_add_member d m Hd) as (H1 & H2 & H3 & H4); [by rewrite Hr|done|].
  split_and!; [done..|]. intros o' [Ho'|[<-|[]]]%in_app_or; [by apply H4|]. exists m.
  split; [simpl; apply in_or_app; right; by left|done].
Qed.

(** Members that are not owners may go, owners stay owners. *)
Lemma orgs_ok_members d l :
  orgs_ok d → NoDup (map mb_id l) → NoDup (map (λ m, (mb_org_id m, mb_user_id m)) l) →
  Forall (λ m, Is_true (org_role (mb_role m))) l →
  (∀ m, In m (members d) → mb_role m = "owner" → ∃ m', In m' l ∧ mb_org_id m' = mb_org_id m ∧ mb_role m' = "owner") →
  orgs_ok (set_members l d).
Proof.
  intros (_ & _ & _ & H4) H1 H2 H3 Hown. split_and!; try done. intros o Ho.
  destruct (H4 o Ho) as (m & Hm & <- & Hr). by destruct (Hown m Hm Hr) as (m' & ? & ? & ?); exists m'.
Qed.

Lemma unique_pk {R} `{Table R} (l : list R) r r' : NoDup (map pk l) → In r l → In r' l → pk r = pk r' → r = r'.
Proof.
  intros Hn Hr Hr' E. induction l as [|x l IH]; [done|]. simpl in Hn. apply NoDup_cons in Hn as [Hx Hn].
  rewrite list_elem_of_In in Hx. destruct Hr as [->|Hr], Hr' as [->|Hr']; try done; [exfalso..|by apply IH].
  - apply Hx. rewrite E. by apply in_map.
  - apply Hx. rewrite <-E. by apply in_map.
Qed.

Lemma orgs_ok_remove d t :
  orgs_ok d → In t (members d) → mb_role t ≠ "owner" → orgs_ok (set_members (bfilter (λ m, negb (has_pk (mb_id t) m)) (members d)) d).
Proof.
  intros Hd Ht Hr. pose proof Hd as (H1 & H2 & H3 & _). apply orgs_ok_members; [done|by apply NoDup_map_bfilter..| |].
  - rewrite List.Forall_forall in H3 |- *. intros m [Hm _]%bfilter_In. by apply H3.
  - intros m Hm Hown. exists m. split; [|done]. apply bfilter_In. split; [done|]. apply negb_true_iff. unfold has_pk. simpl.
    destruct (Z.eqb_spec (mb_id m) (mb_id t)) as [E|]; [|done]. exfalso.
    assert (m = t) as -> by (by apply (@unique_pk MemberRow members_table (members d))). done.
Qed.

Lemma map_role_keys {B} (g : MemberRow → B) u role l :
  (∀ m, g (mb_set_role role m) = g m) → map g (map (λ m, if has_pk u m then mb_set_role role m else m) l) = map g l.
Proof. intros Hg. rewrite map_map. apply map_ext. intros m. by destruct (has_pk u m). Qed.

Lemma orgs_ok_role d t role :
  orgs_ok d → In t (members d) → org_role role → (mb_role t = "owner" → role = "owner") →
  orgs_ok (set_members (map (λ m, if has_pk (mb_id t) m then mb_set_role role m else m) (members d)) d).
Proof.
  intros Hd Ht Hrole Hr. pose proof Hd as (H1 & H2 & H3 & _). apply orgs_ok_members; [done| | | |].
  - by rewrite map_role_keys.
  - by rewrite map_role_keys.
  - rewrite List.Forall_forall in H3 |- *. intros m (m' & <- & Hm')%in_map_iff. destruct (has_pk _ m'); [done|by apply H3].
  - intros m Hm Hown. exists (if has_pk (mb_id t) m then mb_set_role role m else m).
    split; [by apply (in_map (λ m, if has_pk (mb_id t) m then mb_set_role role m else m))|].
    unfold has_pk. simpl. destruct (Z.eqb_spec (mb_id m) (mb_id t)) as [E|]; [|done].
    assert (m = t) as -> by (by apply (@unique_pk MemberRow members_table (members d))). simpl. auto.
Qed.

Lemma orgs_ok_delete d org :
  orgs_ok d →
  orgs_ok (set_organizations (bfilter (λ o, negb (has_pk org o)) (organizations d))
             (set_members (bfilter (λ m, negb (mb_org_id m =? org)) (members d)) d)).
Proof.
  intros (H1 & H2 & H3 & H4). split_and!; simpl; [by apply NoDup_map_bfilter..| |].
  - rewrite List.Forall_forall in H3 |- *. intros m [Hm _]%bfilter_In. by apply H3.
  - intros o [Ho Hne]%bfilter_In. destruct (H4 o Ho) as (m & Hm & E & Hr). exists m. split; [|done]. simpl. apply bfilter_In.
    split; [done|]. unfold has_pk in Hne. simpl in Hne. by rewrite E.
Qed.

(** A step of a handler that reads: [rd L] uses the lemma [L] on it. *)
Ltac rd L := eapply txn_read; [apply L|done|]; cbv beta.

Lemma create_org_txn now oid mid cred name slug s :
  on_db orgs_ok s → txn_at orgs_ok (create_org now oid mid cred name slug) s.
Proof.
  intros Hs. rd reads_current_user. intros u _. apply txn_refuse; [done|]. intros _. rd @reads_require. intros sl _.
  rd @reads_select_one. intros o _. apply txn_refuse; [done|]. intros _. apply txn_add; [apply Hs|]. intros _.
  apply txn_add; [apply Hs|]. intros Hc. unfold when. case_bool_decide.
  - apply txn_update, txn_commit_ret. by apply (orgs_ok_create (db s) _ _ (proj1 Hs)).
  - apply txn_commit_ret. by apply (orgs_ok_create (db s) _ _ (proj1 Hs)).
Qed.
Lemma update_org_txn now cred org name s : on_db orgs_ok s → txn_at orgs_ok (update_org now cred org name) s.
Proof.
  intros Hs. rd reads_current_user. intros u _. apply txn_refuse; [done|]. intros _. rd reads_membership. intros m _.
  apply txn_refuse; [done|]. intros _. rd @reads_db_get. intros o _. rd @reads_require. intros o' _. unfold when.
  destruct (otruthy name); [|by apply txn_commit, Hs]. apply txn_update, txn_commit.
  destruct Hs as [(H1 & H2 & H3 & H4) _]. split_and!; try done. simpl. intros x (y & <- & Hy)%in_map_iff.
  destruct (H4 y Hy) as (m' & ? & ? & ?). exists m'. by destruct (has_pk org y).
Qed.
Lemma delete_org_txn now cred org s : on_db orgs_ok s → txn_at orgs_ok (delete_org now cred org) s.
Proof.
  intros Hs. rd reads_current_user. intros u _. rd reads_membership. intros m _. apply txn_refuse; [done|]. intros _.
  rd @reads_db_get. intros o _. rd @reads_require. intros o' _. unfold txn_at, delete_org_row. run_proc.
  destruct (_ || _); [split; [apply Hs|done]|]. by split; intros; apply orgs_ok_delete, Hs.
Qed.
Lemma invite_member_txn now mid cred org username role s :
  on_db orgs_ok s → txn_at orgs_ok (invite_member now mid cred org username role) s.
Proof.
  intros Hs. rd reads_current_user. intros u _. rd reads_membership. intros m _. apply txn_refuse; [done|]. intros _.
  rd @reads_select_one. intros o _. rd @reads_require. intros v _. rd @reads_select_one. intros o' _.
  apply txn_refuse; [done|]. intros _. apply txn_add; [apply Hs|]. intros Hc. apply txn_commit.
  apply orgs_ok_add_member; [apply Hs| |done]. simpl. by destruct (org_role role) eqn:E; [rewrite E|].
Qed.
Lemma remove_member_txn now cred org user s : on_db orgs_ok s → txn_at orgs_ok (remove_member now cred org user) s.
Proof.
  intros Hs. rd reads_current_user. intros u _. rd reads_membership. intros m _. apply txn_refuse; [done|]. intros _.
  rd @reads_select_one. intros o Ho. rd @reads_require. intros v ->. apply txn_refuse; [done|]. intros Hr%seqb_false.
  apply txn_delete, txn_commit. apply orgs_ok_remove; [apply Hs|apply Ho|done].
Qed.
Lemma update_member_txn now cred org user role s : on_db orgs_ok s → txn_at orgs_ok (update_member now cred org user role) s.
Proof.
  intros Hs. rd reads_current_user. intros u _. rd reads_membership. intros m _. apply txn_refuse; [done|]. intros _.
  rd @reads_select_one. intros o Ho. rd @reads_require. intros v ->. apply txn_refuse; [done|]. intros Hr.
  apply txn_refuse; [done|]. intros Hk%negb_false_iff. apply txn_update, txn_commit. apply orgs_ok_role; [apply Hs|apply Ho|by rewrite Hk|].
  intros Hown. rewrite Hown in Hr. by apply negb_false_iff, seqb_true in Hr.
Qed.
Lemma switch_org_txn now cred org s : on_db orgs_ok s → txn_at orgs_ok (switch_org cfg now cred org) s.
Proof.
  intros Hs. rd reads_current_user. intros u _. rd reads_membership. intros m _. apply txn_update, txn_commit_ret. apply Hs.
Qed.

Lemma serve_org_ok r : preserves (on_db orgs_ok) (serve_org r).
Proof.
  destruct r; cbn [serve_org]; try (apply preserves_bind; [|intros; apply preserves_ret]); apply with_db_txn; intros s Hs;
    eauto using create_org_txn, update_org_txn, delete_org_txn, invite_member_txn, remove_member_txn, update_member_txn, switch_org_txn.
Qed.

(** *** What outsiders leave alone *)

(** An organization with its memberships. *)
Definition org_view (org : uuid) (d : database) : list MemberRow * list OrganizationRow :=
  (bfilter (λ m, mb_org_id m =? org) (members d), bfilter (has_pk org) (organizations d)).

(** The request is not that of an owner or administrator of the organization. *)
Definition outsider (now : Z) (cred : option jstr) (org : uuid) (s : server) : Prop :=
  ∀ u m, get_current_user now cred s = (Ok u, s) → In m (members (db s)) → mb_org_id m = org → mb_user_id m = us_id u →
         manages m = false.

Section outside.
Context (org : uuid) (s : server) (Hok : on_db orgs_ok s) (Hsettled : db s = saved s)
  (Hexists : ∃ o, In o (organizations (db s)) ∧ og_id o = org).
Let P (d : database) : Prop := org_view org d = org_view org (db s).

Lemma view_start : on_db P s.
Proof. unfold on_db, P. by rewrite <-Hsettled. Qed.

(** An organization that the outsider manages is another one. *)
Lemma manages_other now cred u m :
  outsider now cred org s → get_current_user now cred s = (Ok u, s) → In m (members (db s)) → mb_user_id m = us_id u →
  manages m = true → mb_org_id m ≠ org.
Proof. intros Hout Hu Hm Hmu Hman E. by rewrite (Hout u m) in Hman. Qed.

Lemma view_members l : bfilter (λ m, mb_org_id m =? org) l = bfilter (λ m, mb_org_id m =? org) (members (db s)) →
  P (set_members l (db s)).
Proof. intros E. unfold P, org_view. simpl. by rewrite E. Qed.

Lemma outsider_create now oid mid cred name slug : txn_at P (create_org now oid mid cred name slug) s.
Proof.
  pose proof view_start as Hs. rd reads_current_user. intros u _. apply txn_refuse; [done|]. intros _. rd @reads_require. intros sl _.
  rd @reads_select_one. intros o _. apply txn_refuse; [done|]. intros _. apply txn_add; [apply Hs|]. intros Hc.
  apply txn_add; [apply Hs|]. intros _.
  assert (oid ≠ org) as Hne.
  { destruct Hexists as (x & Hx & Ex). specialize (Hc x Hx). simpl in Hc. apply orb_false_iff in Hc as [Hc%Z.eqb_neq _].
    simpl in Hc. congruence. }
  assert (P (set_members (members (db s) ++ [{| mb_id := mid; mb_org_id := oid; mb_user_id := us_id u; mb_role := "owner"; mb_joined_at := now |}])
    (set_organizations (organizations (db s) ++ [{| og_id := oid; og_name := name; og_slug := sl; og_created_at := now; og_owner_id := Some (us_id u) |}]) (db s)))) as HP.
  { unfold P, org_view. simpl. rewrite !bfilter_app. simpl. unfold has_pk. simpl. apply Z.eqb_neq in Hne. rewrite Hne.
    by rewrite !app_nil_r. }
  unfold when. case_bool_decide; [apply txn_update|]; by apply txn_commit_ret.
Qed.
Lemma outsider_update now cred org' name : outsider now cred org s → txn_at P (update_org now cred org' name) s.
Proof.
  intros Hout. pose proof view_start as Hs. rd reads_current_user. intros u [Hu _]. apply txn_refuse; [done|]. intros _.
  rd reads_membership. intros m (Hm & <- & Hmu). apply txn_refuse; [done|]. intros Hman%negb_false_iff.
  pose proof (manages_other now cred u m Hout Hu Hm Hmu Hman). rd @reads_db_get. intros o _. rd @reads_require. intros o' _.
  unfold when. destruct (otruthy name); [|by apply txn_commit, Hs]. apply txn_update, txn_commit. unfold P, org_view. simpl. f_equal.
  apply bfilter_map_other. intros x _ Hx%Z.eqb_eq. assert (has_pk org x = false) as E by (apply Z.eqb_neq; simpl in *; congruence). by split.
Qed.
Lemma outsider_delete now cred org' : outsider now cred org s → txn_at P (delete_org now cred org') s.
Proof.
  intros Hout. pose proof view_start as Hs. rd reads_current_user. intros u [Hu _].
  rd reads_membership. intros m (Hm & <- & Hmu). apply txn_refuse; [done|]. intros Hown%negb_false_iff.
  assert (manages m = true) as Hman by (unfold manages; by rewrite Hown).
  pose proof (manages_other now cred u m Hout Hu Hm Hmu Hman). rd @reads_db_get. intros o _. rd @reads_require. intros o' _.
  assert (P (set_organizations (bfilter (λ o, negb (has_pk (mb_org_id m) o)) (organizations (db s)))
             (set_members (bfilter (λ m', negb (mb_org_id m' =? mb_org_id m)) (members (db s))) (db s)))) as HP.
  { unfold P, org_view. simpl. f_equal; apply bfilter_drop_other; intros x _ Hx%Z.eqb_eq; simpl in *; unfold has_pk; simpl;
      destruct (Z.eqb_spec (mb_org_id x) org) || destruct (Z.eqb_spec (og_id x) org); congruence. }
  unfold txn_at, delete_org_row. run_proc. destruct (_ || _); [split; [apply Hs|done]|]. by split.
Qed.
Lemma outsider_invite now mid cred org' username role :
  outsider now cred org s → txn_at P (invite_member now mid cred org' username role) s.
Proof.
  intros Hout. pose proof view_start as Hs. rd reads_current_user. intros u [Hu _].
  rd reads_membership. intros m (Hm & <- & Hmu). apply txn_refuse; [done|]. intros Hman%negb_false_iff.
  pose proof (manages_other now cred u m Hout Hu Hm Hmu Hman). rd @reads_select_one. intros o _. rd @reads_require. intros v _.
  rd @reads_select_one. intros o' _. apply txn_refuse; [done|]. intros _. apply txn_add; [apply Hs|]. intros _. apply txn_commit, view_members.
  rewrite bfilter_app. simpl. destruct (Z.eqb_spec (mb_org_id m) org); [done|]. apply app_nil_r.
Qed.
Lemma member_row_unique t : In t (members (db s)) → mb_org_id t ≠ org →
  ∀ x, In x (members (db s)) → has_pk (mb_id t) x = true → (mb_org_id x =? org) = false.
Proof.
  intros Ht Hne x Hx Hpk%Z.eqb_eq. destruct Hok as [(Hn & _) _].
  assert (x = t) as -> by (by apply (@unique_pk MemberRow members_table (members (db s)))). by apply Z.eqb_neq.
Qed.
Lemma outsider_remove now cred org' user : outsider now cred org s → txn_at P (remove_member now cred org' user) s.
Proof.
  intros Hout. pose proof view_start as Hs. rd reads_current_user. intros u [Hu _].
  rd reads_membership. intros m (Hm & <- & Hmu). apply txn_refuse; [done|]. intros Hman%negb_false_iff.
  pose proof (manages_other now cred u m Hout Hu Hm Hmu Hman). rd @reads_select_one. intros o Ho. rd @reads_require. intros t ->.
  destruct Ho as [Ht Hp]. apply andb_true_iff in Hp as [Hto%Z.eqb_eq _].
  apply txn_refuse; [done|]. intros _. apply txn_delete, txn_commit, view_members. apply bfilter_drop_other.
  apply member_row_unique; [done|congruence].
Qed.
Lemma outsider_role now cred org' user role : outsider now cred org s → txn_at P (update_member now cred org' user role) s.
Proof.
  intros Hout. pose proof view_start as Hs. rd reads_current_user. intros u [Hu _].
  rd reads_membership. intros m (Hm & <- & Hmu). apply txn_refuse; [done|]. intros Hman%negb_false_iff.
  pose proof (manages_other now cred u m Hout Hu Hm Hmu Hman). rd @reads_select_one. intros o Ho. rd @reads_require. intros t ->.
  destruct Ho as [Ht Hp]. apply andb_true_iff in Hp as [Hto%Z.eqb_eq _].
  do 2 (apply txn_refuse; [done|]; intros _). apply txn_update, txn_commit, view_members. apply bfilter_map_other.
  intros x Hx Hpk. assert (mb_org_id t ≠ org) as Hne by congruence. split; exact (member_row_unique t Ht Hne x Hx Hpk).
Qed.
Lemma outsider_switch now cred org' : txn_at P (switch_org cfg now cred org') s.
Proof.
  pose proof view_start as Hs. rd reads_current_user. intros u _. rd reads_membership. intros m _. apply txn_update, txn_commit_ret. apply Hs.
Qed.

Lemma with_db_at {A} (Q : database → Prop) (m : proc A) : txn_at Q m s → on_db Q (snd (with_db m s)).
Proof.
  intros [H1 H2]. unfold with_db. destruct (m s) as [[a|e] s'] eqn:E; simpl in *; [|by split]. split; simpl; eauto.
Qed.
Lemma bind_ret_state {A} (m : proc A) s0 : snd ((m;; mret tt) s0) = snd (m s0).
Proof. run_proc. by destruct (m s0) as [[a|e] s']. Qed.
Lemma serve_org_outsider r : outsider (fst (request_cred r)) (snd (request_cred r)) org s → on_db P (snd (serve_org r s)).
Proof.
  intros Hout. destruct r; cbn [serve_org request_cred fst snd] in *; rewrite ?bind_ret_state; apply with_db_at;
    eauto using outsider_create, outsider_update, outsider_delete, outsider_invite, outsider_remove, outsider_role, outsider_switch.
Qed.
End outside.
End facts.

(** ** Properties *)

Module OrgProps.
Section props.
Context `{CryptoLaws} (cfg : Settings).

(** Whatever requests on organizations are served, every organization keeps an owner, no user is twice a member of
    one, and all roles are known ones. *)
Theorem organizations_keep_owners requests s : on_db orgs_ok s → on_db orgs_ok (serve_orgs cfg requests s).
Proof. intros Hs. unfold serve_orgs. apply fold_left_invariant; [done|]. intros s' r Hs' _. by apply serve_org_ok. Qed.

(** C22: a request of someone who neither owns nor administers an existing organization, with valid credentials or not,
    leaves the organization and its memberships as they are. *)
Theorem outsiders_change_nothing r org s :
  on_db orgs_ok s → db s = saved s → (∃ o, In o (organizations (db s)) ∧ og_id o = org) →
  outsider (fst (request_cred r)) (snd (request_cred r)) org s →
  org_view org (db (snd (serve_org cfg r s))) = org_view org (db s) ∧
  org_view org (saved (snd (serve_org cfg r s))) = org_view org (db s).
Proof. intros Hok Hsettled Hex Hout. exact (serve_org_outsider cfg org s Hok Hsettled Hex r Hout). Qed.

Lemma access_token_org s u t now org :
  us_active_org_id u = Some org → uuid_ok org → now / 1000000 <= access_expires cfg t →
  get_current_org_id now (Some (at_access_token (issue_tokens cfg t u))) s = (Ok org, s).
Proof.
  intros Ho Hok Hnow. unfold get_current_org_id, bearer_claims, issue_tokens, create_access_token, decode_token. run_proc.
  cbn [at_access_token]. rewrite decode_encode. cbn [cl_exp]. fold (access_expires cfg t). apply Z.leb_le in Hnow. rewrite Hnow.
  cbn [cl_type cl_org_id]. change (_ =s "access") with true. cbn [negb]. rewrite Ho.
  cbn [cl_org_id fmap option_fmap option_map otruthy from_null]. rewrite str_uuid_truthy. cbn [negb cl_org_id from_null].
  by rewrite (UUID_str _ Hok).
Qed.

(** The account a removal leaves alone. *)
Lemma remove_member_users now cred org user s s1 :
  remove_member now cred org user s = (Ok tt, s1) → users (db s1) = users (db s).
Proof.
  unfold remove_member. intros Hrun. step Hrun. apply get_current_user_ok in E as (-> & _). step Hrun.
  destruct (reads_membership org (us_id r) s) as [(m & Em & _)|(e & Em)]; rewrite Em in E; [|done]. injection E as <- <-.
  run_proc in Hrun. destruct (negb (manages m)); [done|].
  destruct (reads_select_one (is_member org user) s) as [(o & Eo & _)|(e & Eo)]; rewrite Eo in Hrun; [|done].
  destruct o as [t|]; [|done]. destruct (mb_role t =s "owner"); [done|]. by injection Hrun as <-.
Qed.

(** A member that was removed keeps the organization as active one: a refresh hands out an access token that is accepted
    for it. *)
Theorem removed_member_keeps_org now cred org s s1 u t0 t :
  account s u → us_active_org_id u = Some org → uuid_ok org →
  remove_member now cred org (us_id u) s = (Ok tt, s1) →
  t / 1000000 <= refresh_expires cfg t0 → t / 1000000 <= access_expires cfg t →
  ∃ tokens, refresh_access_token cfg t (at_refresh_token (issue_tokens cfg t0 u)) s1 = (Ok tokens, s1) ∧
            get_current_org_id t (Some (at_access_token tokens)) s1 = (Ok org, s1).
Proof.
  intros Hu Ho Hok Hrun Ht Ht'. apply remove_member_users in Hrun. exists (issue_tokens cfg t u). split.
  - rewrite refresh_token_tokens by (unfold account in *; by rewrite Hrun). apply Z.leb_le in Ht. by rewrite Ht.
  - by apply access_token_org.
Qed.

(** An organization that is the active one of an account cannot be deleted. *)
Theorem active_org_not_deletable now cred org s u :
  In u (users (db s)) → us_active_org_id u = Some org → ∀ s1, delete_org now cred org s ≠ (Ok tt, s1).
Proof.
  intros Hu Ho s1 Hrun. unfold delete_org in Hrun. step Hrun. apply get_current_user_ok in E as (-> & _). step Hrun.
  destruct (reads_membership org (us_id r) s) as [(m & Em & _)|(e & Em)]; rewrite Em in E; [|done]. injection E as <- <-.
  run_proc in Hrun. destruct (negb _); [done|]. unfold db_get, gets in Hrun. destruct (find _ _); [|done].
  unfold delete_org_row in Hrun. run_proc in Hrun.
  assert (existsb (λ u, bool_decide (us_active_org_id u = Some org)) (users (db s)) = true) as Hex.
  { apply existsb_exists. exists u. split; [done|]. by apply bool_decide_eq_true. }
  rewrite Hex in Hrun. done.
Qed.
End props.

(** *** Witnesses *)

Definition org_user (i : uuid) (name : jstr) : UserRow :=
  {| us_id := i; us_username := name; us_password_hash := ""; us_role := "viewer"; us_is_active := true;
     us_last_login := None; us_created_at := 0; us_active_org_id := None |}.
Definition two_users : server := start (set_users [org_user 1 "ann"; org_user 2 "bob"] empty_db).
#[local] Existing Instance AuthProps.toy_crypto.
#[local] Existing Instance AuthProps.toy_laws.
Definition token_of (u : UserRow) : option jstr := Some (at_access_token (issue_tokens default_settings 0 u)).
Definition ann : option jstr := token_of (org_user 1 "ann").
Definition bob : option jstr := token_of (org_user 2 "bob").
(** Ann creates an organization and invites Bob. *)
Definition one_org : server :=
  serve_orgs default_settings [CreateOrg 1 10 11 ann "Acme" "acme"; InviteMember 2 12 ann 10 "bob" "member"] two_users.

Lemma no_orgs_ok : on_db orgs_ok two_users.
Proof. split; (split; [constructor|split; [constructor|split; [constructor|intros o []]]]). Qed.

Lemma organizations_keep_owners_witness : on_db orgs_ok one_org ∧ length (members (db one_org)) = 2%nat.
Proof. split; [exact (organizations_keep_owners default_settings _ two_users no_orgs_ok)|vm_compute; reflexivity]. Defined.

(** A member without a managing role invites in vain. *)
Lemma outsiders_change_nothing_witness :
  org_view 10 (db (snd (serve_org default_settings (RemoveMember 3 bob 10 1) one_org))) = org_view 10 (db one_org).
Proof.
  refine (proj1 (outsiders_change_nothing default_settings (RemoveMember 3 bob 10 1) 10 one_org _ _ _ _)).
  - exact (organizations_keep_owners default_settings _ two_users no_orgs_ok).
  - vm_compute. reflexivity.
  - eexists. split; [vm_compute; left; reflexivity|reflexivity].
  - intros u m Hu Hm _ Hmu. 
    assert (u = org_user 2 "bob") as ->
      by (assert (fst (get_current_user 3 bob one_org) = Ok (org_user 2 "bob")) as E by (vm_compute; reflexivity);
          simpl in Hu; rewrite Hu in E; by injection E).
    assert (Forall (λ m, mb_user_id m = 2 → manages m = false) (members (db one_org))) as HF
      by (vm_compute; repeat (constructor; [first [discriminate|reflexivity]|]); constructor).
    rewrite List.Forall_forall in HF. exact (HF m Hm Hmu).
Defined.

End OrgProps.
