(* ===== verification/ServerConnections.v ===== *)
(** The connections of the server: the connection manager of the devices
    ([websocket/manager.py]), the event streams ([services/event_stream.py],
    [services/activity_stream.py]) and the server-sent-event endpoints
    ([api/v1/event_stream.py], [api/v1/activity_stream.py]).

    A socket that takes messages is in [open_sockets]; sending on another one,
    or closing it again, raises.  A queue of a stream is named by a number; the
    endpoint's generator is a sequence of calls of [stream_next], one per
    element or time-out, ended by [stream_end] when the browser is gone. *)
From Stdlib Require Import QArith.
From S2P Require Import Cron Sse.
From S2P Require Import Prelude JsString JsNumber Types JsJson JsonText ServerModels ServerRuntime ServerAuth.
Local Open Scope Z_scope.
Local Open Scope js_scope.

(** ** Dictionaries

    Python's dictionaries keep the order of insertion. *)
Section dict.
Context {A : Type}.
Definition dict_get (k : Z) (l : list (Z * A)) : option A := snd <$> find (λ p, fst p =? k) l.
Definition dict_pop (k : Z) (l : list (Z * A)) : list (Z * A) := bfilter (λ p, negb (fst p =? k)) l.
Definition dict_set (k : Z) (v : A) (l : list (Z * A)) : list (Z * A) :=
  match dict_get k l with
  | Some _ => map (λ p, if fst p =? k then (k, v) else p) l
  | None => l ++ [(k, v)]
  end.
End dict.

(** ** Times *)

(** [isoformat()] of a UTC time: microseconds are written when there are any. *)
Definition isoformat_date (d : Z) : jstr :=
  pad0 4 (Date.year_of d) ++ "-" ++ pad0 2 (fst (Date.civil d)) ++ "-" ++ pad0 2 (snd (Date.civil d)).
Definition isoformat (t : Z) : jstr :=
  let secs := t / 1000000 in let micros := t mod 1000000 in
  isoformat_date (secs / 86400) ++ "T" ++ pad0 2 (secs / 3600 mod 24) ++ ":" ++ pad0 2 (secs / 60 mod 60) ++ ":"
  ++ pad0 2 (secs mod 60) ++ (if micros =? 0 then "" else "." ++ pad0 6 micros) ++ "+00:00".

Example isoformat_examples :
  isoformat 0 = "1970-01-01T00:00:00+00:00" ∧ isoformat 1709251199000042 = "2024-02-29T23:59:59.000042+00:00".
Proof. done. Qed.

(** ** Sockets *)

Definition ws_open (ws : socket) (s : server) : bool := existsb (Nat.eqb ws) (open_sockets s).
Definition ws_accept (ws : socket) : proc unit := modify (λ s, set_open_sockets (open_sockets s ++ [ws]) s).
Definition ws_send (ws : socket) (message : json) : proc unit :=
  open ← gets (ws_open ws);
  refuse (negb open) RuntimeError;;
  emit (SendJson ws message).
Definition ws_close (ws : socket) (code : Z) : proc unit :=
  open ← gets (ws_open ws);
  refuse (negb open) RuntimeError;;
  modify (λ s, set_open_sockets (bfilter (λ x, negb (Nat.eqb x ws)) (open_sockets s)) s);;
  emit (CloseSocket ws code).
(** [try: ... except Exception: pass] *)
Definition ignore_errors (m : proc unit) : proc unit := catch m (λ _, mret tt).

(** ** [ConnectionManager] *)

Definition manager_connect (now : Z) (device_id : uuid) (websocket : socket) (ip : option jstr) : proc unit :=
  old_ws ← gets (λ s, dict_get device_id (connections s));
  match old_ws with Some ws => ignore_errors (ws_close ws 1000) | None => mret tt end;;
  modify (λ s, set_connections (dict_set device_id websocket (connections s)) s);;
  modify (λ s, set_metadata (dict_set device_id (now, ip) (metadata s)) s).

Definition manager_disconnect (device_id : uuid) : proc unit :=
  websocket ← gets (λ s, dict_get device_id (connections s));
  modify (λ s, set_connections (dict_pop device_id (connections s)) s);;
  modify (λ s, set_metadata (dict_pop device_id (metadata s)) s);;
  match websocket with Some ws => ignore_errors (ws_close ws 1000) | None => mret tt end.

Definition send_to_device (device_id : uuid) (message : json) : proc bool :=
  ws ← gets (λ s, dict_get device_id (connections s));
  match ws with
  | None => mret false
  | Some ws => catch (ws_send ws message;; mret true) (λ _, manager_disconnect device_id;; mret false)
  end.

Definition is_connected (device_id : uuid) (s : server) : bool := bool_decide (dict_get device_id (connections s) ≠ None).
Definition online_device_ids (s : server) : list uuid := map fst (connections s).
Definition connection_count (s : server) : nat := length (connections s).
Definition connection_snapshot (s : server) : list (uuid * Z * option jstr) :=
  map (λ '(device_id, (since, ip)), (device_id, since, ip)) (metadata s).

(** ** Event streams *)

(** [put_nowait] of a queue of at most 100 elements, giving up the oldest. *)
Definition queue_put (payload : json) (q : list json) : list json :=
  if Nat.ltb (length q) 100 then q ++ [payload]
  else let q := tail q in if Nat.ltb (length q) 100 then q ++ [payload] else q.
Definition queues_publish (payload : json) (qs : list (nat * list json)) : list (nat * list json) :=
  map (λ '(n, q), (n, queue_put payload q)) qs.
Definition queue_of (n : nat) (qs : list (nat * list json)) : option (list json) :=
  snd <$> find (λ p, Nat.eqb (fst p) n) qs.
Definition queues_set (n : nat) (q : list json) (qs : list (nat * list json)) : list (nat * list json) :=
  map (λ p, if Nat.eqb (fst p) n then (n, q) else p) qs.
Definition queues_discard (n : nat) (qs : list (nat * list json)) : list (nat * list json) :=
  bfilter (λ p, negb (Nat.eqb (fst p) n)) qs.

(** The two streams have the same code. *)
Inductive stream_kind := AlertStream | ActivityStream.
Definition queues (k : stream_kind) (s : server) : list (nat * list json) :=
  match k with AlertStream => alert_queues s | ActivityStream => activity_queues s end.
Definition set_queues (k : stream_kind) (qs : list (nat * list json)) (s : server) : server :=
  match k with AlertStream => set_alert_queues qs s | ActivityStream => set_activity_queues qs s end.

Definition subscribe (k : stream_kind) (n : nat) : proc unit := modify (λ s, set_queues k (queues k s ++ [(n, [])]) s).
Definition unsubscribe (k : stream_kind) (n : nat) : proc unit := modify (λ s, set_queues k (queues_discard n (queues k s)) s).
Definition publish (k : stream_kind) (payload : json) : proc unit :=
  modify (λ s, set_queues k (queues_publish payload (queues k s)) s).

(** ** The endpoints *)

Definition MAX_SSE_CONNECTIONS : Z := 10.
Definition sse_count (user : uuid) (s : server) : Z := dict_get user (sse_counts s) ?? 0.

Section endpoints.
Context `{Crypto}.

(** The start of [stream_alerts] and [stream_activity]; [n] names the new queue.
    The user and the organization the generator closes over are returned. *)
Definition stream_alerts (now : Z) (cred : option jstr) (n : nat) : proc (uuid * uuid) :=
  current_user ← get_current_user now cred;
  current_org_id ← get_current_org_id now cred;
  current ← gets (sse_count (us_id current_user));
  refuse (MAX_SSE_CONNECTIONS <=? current) (HTTPException 429 "Too many open event streams");;
  modify (λ s, set_sse_counts (dict_set (us_id current_user) (current + 1) (sse_counts s)) s);;
  subscribe AlertStream n;;
  mret (us_id current_user, current_org_id).
Definition stream_activity (now : Z) (cred : option jstr) (n : nat) : proc (uuid * uuid) :=
  current_user ← get_current_user now cred;
  current_org_id ← get_current_org_id now cred;
  subscribe ActivityStream n;;
  mret (us_id current_user, current_org_id).

End endpoints.

(** [payload.get("org_id") and payload.get("org_id") != str(current_org_id)] *)
Definition other_org (org_id : uuid) (payload : json) : bool :=
  let o := field "org_id" payload ?? JNull in
  py_true o && negb (match o with JStr s => s =s str_uuid org_id | _ => false end).

Definition record_text (str_float : Q → jstr) (payload : json) : jstr :=
  "data: " ++ json_dumps str_float payload ++ [10; 10].
Definition keep_alive : jstr := ": keep-alive" ++ [10; 10].

(** One iteration of the generator's loop: what it yields, if anything. *)
Definition stream_next (str_float : Q → jstr) (k : stream_kind) (org_id : uuid) (n : nat) : proc (option jstr) :=
  q ← gets (λ s, queue_of n (queues k s));
  match q with
  | Some (payload :: q) =>
      modify (λ s, set_queues k (queues_set n q (queues k s)) s);;
      mret (if other_org org_id payload then None else Some (record_text str_float payload))
  | _ => mret (Some keep_alive)
  end.

(** Its [finally] blocks. *)
Definition stream_alerts_end (user : uuid) (n : nat) : proc unit :=
  unsubscribe AlertStream n;;
  remaining ← gets (λ s, sse_count user s - 1);
  if remaining <=? 0 then modify (λ s, set_sse_counts (dict_pop user (sse_counts s)) s)
  else modify (λ s, set_sse_counts (dict_set user remaining (sse_counts s)) s).
Definition stream_activity_end (n : nat) : proc unit := unsubscribe ActivityStream n.

(** ** Facts *)

(** *** Dictionaries *)

Lemma dict_get_In {A} k (v : A) l : dict_get k l = Some v → In (k, v) l.
Proof.
  unfold dict_get. intros (p & [Hp E]%find_some & Ev)%fmap_Some. destruct p as [k' v']. apply Z.eqb_eq in E. simpl in *. by subst.
Qed.
Lemma dict_get_None {A} k (l : list (Z * A)) : dict_get k l = None ↔ ¬ In k (map fst l).
Proof.
  unfold dict_get. rewrite fmap_None. split.
  - intros E (p & <- & Hp)%in_map_iff. pose proof (find_none _ _ E p Hp) as Hn. simpl in Hn. by rewrite Z.eqb_refl in Hn.
  - intros Hn. destruct (find _ l) as [p|] eqn:E; [|done]. apply find_some in E as [Hp E]. apply Z.eqb_eq in E as <-.
    destruct Hn. by apply in_map.
Qed.
Lemma In_dict_get {A} k (v : A) l : NoDup (map fst l) → In (k, v) l → dict_get k l = Some v.
Proof.
  intros Hn Hin. unfold dict_get. induction l as [|[k' v'] l IH]; [done|]. simpl in *. apply NoDup_cons in Hn as [Hx Hn].
  destruct Hin as [[= -> ->]|Hin]; [by rewrite Z.eqb_refl|]. destruct (Z.eqb_spec k' k) as [->|]; [|by apply IH].
  destruct Hx. apply list_elem_of_In. by apply (in_map fst _ (k, v)).
Qed.
Lemma dict_set_keys {A} k (v : A) l :
  map fst (dict_set k v l) = match dict_get k l with Some _ => map fst l | None => map fst l ++ [k] end.
Proof.
  unfold dict_set. destruct (dict_get k l) eqn:E; [|by rewrite map_app].
  rewrite map_map. apply map_ext. intros [k' v']. simpl. destruct (Z.eqb_spec k' k); by subst.
Qed.
Lemma dict_set_NoDup {A} k (v : A) l : NoDup (map fst l) → NoDup (map fst (dict_set k v l)).
Proof.
  intros Hn. rewrite dict_set_keys. destruct (dict_get k l) eqn:E; [done|]. apply dict_get_None in E.
  apply NoDup_app. split; [done|]. split; [|apply NoDup_singleton].
  intros x Hx%list_elem_of_In ->%list_elem_of_singleton. done.
Qed.
Lemma dict_pop_keys {A} k (l : list (Z * A)) : map fst (dict_pop k l) = bfilter (λ x, negb (x =? k)) (map fst l).
Proof. unfold dict_pop. induction l as [|p l IH]; [done|]. simpl. destruct (negb (fst p =? k)); simpl; by rewrite IH. Qed.
Lemma dict_pop_NoDup {A} k (l : list (Z * A)) : NoDup (map fst l) → NoDup (map fst (dict_pop k l)).
Proof. apply NoDup_map_bfilter. Qed.
Lemma dict_get_set {A} k k' (v : A) l : dict_get k' (dict_set k v l) = if k' =? k then Some v else dict_get k' l.
Proof.
  unfold dict_set. destruct (dict_get k l) eqn:E.
  - unfold dict_get in *. clear -E. revert E. induction l as [|[x w] l IH]; [done|]. simpl.
    destruct (Z.eqb_spec x k) as [->|Hx]; simpl; intros E.
    + destruct (Z.eqb_spec k k') as [->|Hk]; [by rewrite Z.eqb_refl|].
      rewrite (proj2 (Z.eqb_neq k' k)) by done. clear -Hk. induction l as [|[x w'] l IH]; [done|]. simpl.
      destruct (Z.eqb_spec x k) as [->|]; simpl; [by destruct (Z.eqb_spec k k')|]. by destruct (x =? k').
    + destruct (Z.eqb_spec x k') as [->|]; [by rewrite (proj2 (Z.eqb_neq k' k))|]. by apply IH.
  - unfold dict_get in *. apply fmap_None in E. induction l as [|[x w] l IH]; simpl in *.
    + rewrite Z.eqb_sym. by destruct (k' =? k).
    + destruct (Z.eqb_spec x k) as [->|]; [done|]. destruct (Z.eqb_spec x k') as [->|]; [|by apply IH].
      by rewrite (proj2 (Z.eqb_neq k' k)).
Qed.
Lemma dict_get_pop {A} k k' (l : list (Z * A)) : dict_get k' (dict_pop k l) = if k' =? k then None else dict_get k' l.
Proof.
  unfold dict_get, dict_pop. induction l as [|[x w] l IH]; [by destruct (k' =? k)|]. simpl.
  destruct (Z.eqb_spec x k) as [->|]; simpl.
  - rewrite IH. destruct (Z.eqb_spec k' k) as [->|]; [done|]. destruct (Z.eqb_spec k k'); [by subst|done].
  - destruct (Z.eqb_spec x k') as [->|]; [|done]. simpl. by rewrite (proj2 (Z.eqb_neq k' k)).
Qed.

Lemma NoDup_fst_unique {A B} (l : list (A * B)) k v w : NoDup (map fst l) → In (k, v) l → In (k, w) l → v = w.
Proof.
  induction l as [|[k' x] l IH]; [done|]. simpl. intros [Hx Hn]%NoDup_cons. rewrite list_elem_of_In in Hx.
  intros [Hv|Hv] [Hw|Hw]; [congruence| | |by apply IH]; destruct Hx.
  - injection Hv as -> ->. by apply (in_map fst _ (k, w)).
  - injection Hw as -> ->. by apply (in_map fst _ (k, v)).
Qed.

(** *** Streams *)

(** A sequence of iterations of a generator: what they yield. *)
Fixpoint stream_pulls (str_float : Q → jstr) (k : stream_kind) (org_id : uuid) (n c : nat) : proc (list jstr) :=
  match c with
  | O => mret []
  | S c =>
      o ← stream_next str_float k org_id n;
      l ← stream_pulls str_float k org_id n c;
      mret (match o with Some t => t :: l | None => l end)
  end.

Lemma queues_set_queues k qs s : queues k (set_queues k qs s) = qs.
Proof. by destruct k. Qed.

Lemma queue_put_last p q : (length q ≤ 100)%nat → queue_put p q = slice_last 100 (q ++ [p]).
Proof.
  intros Hq. unfold queue_put, slice_last. rewrite length_app. cbn [length]. destruct (Nat.ltb_spec (length q) 100).
  - by replace (length q + 1 - 100)%nat with 0%nat by lia.
  - replace (length q + 1 - 100)%nat with 1%nat by lia. destruct q as [|x q]; [simpl in *; lia|]. simpl in Hq |- *.
    destruct (Nat.ltb_spec (length q) 100); [done|lia].
Qed.
Lemma queue_put_length p q : (length q ≤ 100)%nat → (length (queue_put p q) ≤ 100)%nat.
Proof. intros Hq. rewrite queue_put_last by done. unfold slice_last. rewrite length_drop. lia. Qed.

Lemma queue_of_publish p n qs : queue_of n (queues_publish p qs) = queue_put p <$> queue_of n qs.
Proof.
  unfold queue_of, queues_publish. induction qs as [|[m q] qs IH]; [done|]. simpl. by destruct (Nat.eqb m n).
Qed.
Lemma queue_of_set n q qs q0 : queue_of n qs = Some q0 → queue_of n (queues_set n q qs) = Some q.
Proof.
  unfold queue_of, queues_set. induction qs as [|[m q'] qs IH]; [done|]. simpl. destruct (Nat.eqb m n) eqn:E; simpl.
  - by rewrite Nat.eqb_refl.
  - rewrite E. apply IH.
Qed.

(** A queue after a series of publications. *)
Lemma publish_all k n ps s q :
  queue_of n (queues k s) = Some q → (length q ≤ 100)%nat →
  queue_of n (queues k (snd (for_each (publish k) ps s))) = Some (slice_last 100 (q ++ ps)).
Proof.
  revert s q. induction ps as [|p ps IH]; intros s q Hq Hl.
  - simpl. rewrite app_nil_r, Hq. by rewrite Activity.slice_last_short.
  - change (for_each (publish k) (p :: ps) s) with (for_each (publish k) ps (set_queues k (queues_publish p (queues k s)) s)).
    rewrite (IH _ (queue_put p q)).
    + rewrite queue_put_last by done. by rewrite Activity.slice_last_app, <-app_assoc.
    + rewrite queues_set_queues, queue_of_publish, Hq. done.
    + by apply queue_put_length.
Qed.

(** Draining a queue yields the records of the organization. *)
Lemma pulls_drain str_float k org n q s :
  queue_of n (queues k s) = Some q →
  fst (stream_pulls str_float k org n (length q) s) =
    Ok (omap (λ p, if other_org org p then None else Some (record_text str_float p)) q).
Proof.
  revert s. induction q as [|p q IH]; intros s Hq; [done|]. simpl. unfold stream_next. run_proc. rewrite Hq.
  match goal with |- context [stream_pulls _ _ _ _ _ ?s'] => specialize (IH s') end.
  rewrite queues_set_queues in IH. specialize (IH (queue_of_set _ _ _ _ Hq)).
  destruct (stream_pulls _ _ _ _ _ _) as [[l|e] s']; simpl in IH |- *; [|done]. injection IH as ->.
  by destruct (other_org org p).
Qed.

(** *** Open streams *)

(** The alert streams that are open, with the users they belong to. *)
Definition live_streams := list (nat * uuid).
Definition streams_of (u : uuid) (live : live_streams) : Z := Z.of_nat (length (bfilter (λ p, snd p =? u) live)).

Section streams.
Context `{Crypto} (str_float : Q → jstr).

Inductive stream_step : server * live_streams → server * live_streams → Prop :=
| step_open now cred n u org s s' live :
    ¬ In n (map fst live) → stream_alerts now cred n s = (Ok (u, org), s') → stream_step (s, live) (s', live ++ [(n, u)])
| step_refused now cred n e s s' live : stream_alerts now cred n s = (Raise e, s') → stream_step (s, live) (s', live)
| step_publish payload s live : stream_step (s, live) (snd (publish AlertStream payload s), live)
| step_next org n s live : stream_step (s, live) (snd (stream_next str_float AlertStream org n s), live)
| step_end n u s live :
    In (n, u) live → stream_step (s, live) (snd (stream_alerts_end u n s), bfilter (λ p, negb (Nat.eqb (fst p) n)) live).

(** The counter of a user is the number of the user's streams, there is a
    queue of at most 100 elements for each stream, and nothing else. *)
Definition streams_ok (x : server * live_streams) : Prop :=
  let '(s, live) := x in
  NoDup (map fst live) ∧ (∀ u, sse_count u s = streams_of u live ∧ streams_of u live <= MAX_SSE_CONNECTIONS) ∧
  Forall (λ p, 0 < snd p) (sse_counts s) ∧ NoDup (map fst (sse_counts s)) ∧
  map fst (alert_queues s) = map fst live ∧ Forall (λ p, (length (snd p) ≤ 100)%nat) (alert_queues s).

Lemma get_current_org_id_state now cred s : snd (get_current_org_id now cred s) = s.
Proof. unfold get_current_org_id, bearer_claims. run_proc. by repeat case_match; simplify_eq. Qed.

(** What the start of a stream changes. *)
Lemma stream_alerts_run now cred n s :
  (∃ e, stream_alerts now cred n s = (Raise e, s)) ∨
  (∃ u org, sse_count u s < MAX_SSE_CONNECTIONS ∧
     stream_alerts now cred n s =
       (Ok (u, org), set_alert_queues (alert_queues s ++ [(n, [])]) (set_sse_counts (dict_set u (sse_count u s + 1) (sse_counts s)) s))).
Proof.
  unfold stream_alerts. pose proof (get_current_user_state now cred s) as Hu. pose proof (get_current_org_id_state now cred s) as Ho.
  run_proc. destruct (get_current_user now cred s) as [[u|e] s1]; simpl in Hu; subst; [|left; eauto].
  destruct (get_current_org_id now cred s) as [[o|e] s1]; simpl in Ho; subst; [|left; eauto].
  destruct (Z.leb_spec MAX_SSE_CONNECTIONS (sse_count (us_id u) s)); [left; eauto|]. right. exists (us_id u), o. done.
Qed.

Lemma Forall_dict_set {A} (P : Z * A → Prop) k v l : P (k, v) → Forall P l → Forall P (dict_set k v l).
Proof.
  intros Hv Hl. unfold dict_set. destruct (dict_get k l); [|apply Forall_app; auto].
  apply Forall_map. eapply Forall_impl; [exact Hl|]. intros [k' v'] Hp. simpl. by destruct (k' =? k).
Qed.
Lemma Forall_bfilter {A} (P : A → Prop) f l : Forall P l → Forall P (bfilter f l).
Proof. rewrite !List.Forall_forall. intros HP x [Hx _]%bfilter_In. by apply HP. Qed.

Lemma streams_of_app u live live' : streams_of u (live ++ live') = streams_of u live + streams_of u live'.
Proof. unfold streams_of. rewrite bfilter_app, length_app. lia. Qed.

Lemma streams_of_end n u u' live :
  NoDup (map fst live) → In (n, u) live →
  streams_of u' (bfilter (λ p, negb (Nat.eqb (fst p) n)) live) = streams_of u' live - (if u' =? u then 1 else 0).
Proof.
  unfold streams_of. induction live as [|[m v] live IH]; [done|]. cbn [map fst]. intros [Hm Hn]%NoDup_cons [[= -> ->]|Hin].
  - simpl. rewrite Nat.eqb_refl. simpl. rewrite (bfilter_all _ live).
    + simpl. rewrite Z.eqb_sym. destruct (u' =? u); simpl; lia.
    + intros [m' v'] Hin. apply negb_true_iff, Nat.eqb_neq. simpl. intros ->. apply Hm, list_elem_of_In.
      by apply (in_map fst _ (n, v')).
  - specialize (IH Hn Hin). assert (m ≠ n) as Hne.
    { intros ->. apply Hm, list_elem_of_In. by apply (in_map fst _ (n, u)). }
    simpl. rewrite (proj2 (Nat.eqb_neq m n) Hne). simpl. destruct (v =? u'); simpl; lia.
Qed.

Lemma streams_ok_open now cred n u org s s' live :
  ¬ In n (map fst live) → stream_alerts now cred n s = (Ok (u, org), s') → streams_ok (s, live) →
  streams_ok (s', live ++ [(n, u)]).
Proof.
  intros Hf E (H1 & H2 & H3 & H4 & H5 & H6).
  destruct (stream_alerts_run now cred n s) as [(e & E')|(u' & o' & Hlt & E')]; rewrite E' in E; [done|]. injection E as <- <- <-.
  split_and!; simpl.
  - rewrite map_app. apply NoDup_app. split; [done|]. split; [|apply NoDup_singleton].
    intros m Hm%list_elem_of_In ->%list_elem_of_singleton. done.
  - intros v. rewrite streams_of_app. unfold sse_count in *. simpl. rewrite dict_get_set. destruct (H2 v) as [Ev Hv].
    unfold streams_of at 2 4. simpl. rewrite (Z.eqb_sym u' v). destruct (Z.eqb_spec v u') as [->|]; simpl; lia.
  - apply Forall_dict_set; [|done]. simpl. destruct (H2 u') as [-> _]. unfold streams_of. lia.
  - by apply dict_set_NoDup.
  - rewrite !map_app. by rewrite H5.
  - apply Forall_app. split; [done|]. constructor; [simpl; lia|done].
Qed.

Lemma streams_ok_next org n s live :
  streams_ok (s, live) → streams_ok (snd (stream_next str_float AlertStream org n s), live).
Proof.
  intros (H1 & H2 & H3 & H4 & H5 & H6). unfold stream_next. run_proc.
  destruct (queue_of n _) as [[|p q]|] eqn:Eq; try done. simpl. split_and!; try done; simpl in *.
  - rewrite <-H5. unfold queues_set. rewrite map_map. apply map_ext. intros [m q']. simpl.
    destruct (Nat.eqb_spec m n); by subst.
  - apply Forall_map. eapply Forall_impl; [exact H6|]. intros [m q'] Hq. simpl. destruct (Nat.eqb m n); [|done]. simpl.
    unfold queue_of in Eq. apply fmap_Some in Eq as ([m' q''] & [Hin _]%find_some & Eq). simpl in Eq. subst.
    rewrite List.Forall_forall in H6. specialize (H6 _ Hin). simpl in H6. lia.
Qed.

(** The queue of a stream that ends goes, and so does one of its user's count. *)
Lemma streams_ok_discard n u c s live :
  In (n, u) live → streams_ok (s, live) →
  (∀ v, dict_get v c ?? 0 = if v =? u then streams_of u live - 1 else streams_of v live) →
  Forall (λ p, 0 < snd p) c → NoDup (map fst c) →
  streams_ok (set_sse_counts c (set_alert_queues (queues_discard n (alert_queues s)) s),
              bfilter (λ p, negb (Nat.eqb (fst p) n)) live).
Proof.
  intros Hin (H1 & H2 & H3 & H4 & H5 & H6) Hc1 Hc2 Hc3. split_and!; simpl; try done.
  - by apply NoDup_map_bfilter.
  - intros v. unfold sse_count. simpl. rewrite Hc1, (streams_of_end n u) by done. destruct (H2 v) as [_ Hv].
    destruct (Z.eqb_spec v u); [subst|]; lia.
  - unfold queues_discard. clear -H5. revert H5. generalize (alert_queues s). intros qs. revert live.
    induction qs as [|[m q] qs IH]; intros [|[m' v] live]; try done. simpl. intros [= -> E].
    destruct (Nat.eqb m' n); simpl; [by apply IH|]. f_equal. by apply IH.
  - by apply Forall_bfilter.
Qed.

Lemma streams_of_member n u live : In (n, u) live → 1 <= streams_of u live.
Proof.
  intros Hin. unfold streams_of.
  assert (In (n, u) (bfilter (λ p, snd p =? u) live)) as Hb by (apply bfilter_In; split; [done|apply Z.eqb_refl]).
  destruct (bfilter _ live); [done|]. simpl. lia.
Qed.

Lemma streams_ok_end n u s live :
  In (n, u) live → streams_ok (s, live) →
  streams_ok (snd (stream_alerts_end u n s), bfilter (λ p, negb (Nat.eqb (fst p) n)) live).
Proof.
  intros Hin Hok. pose proof Hok as (_ & H2 & H3 & H4 & _). destruct (H2 u) as [Eu _]. pose proof (streams_of_member n u live Hin).
  assert (∀ v, v ≠ u → dict_get v (sse_counts s) ?? 0 = streams_of v live) as Hv by (intros v _; apply (H2 v)).
  unfold stream_alerts_end, unsubscribe. run_proc. cbn [set_queues queues].
  change (sse_count u (set_alert_queues _ s)) with (sse_count u s). rewrite Eu.
  destruct (Z.leb_spec (streams_of u live - 1) 0); apply (streams_ok_discard n u); try done.
  - intros v. rewrite dict_get_pop. destruct (Z.eqb_spec v u) as [->|]; [simpl; lia|by apply Hv].
  - by apply Forall_bfilter.
  - by apply dict_pop_NoDup.
  - intros v. rewrite dict_get_set. destruct (Z.eqb_spec v u) as [->|]; [done|by apply Hv].
  - by apply Forall_dict_set; [simpl; lia|].
  - by apply dict_set_NoDup.
Qed.

Lemma streams_ok_step x y : stream_step x y → streams_ok x → streams_ok y.
Proof.
  intros [now cred n u org s s' live Hf E|now cred n e s s' live E|p s live|org n s live|n u s live Hin] Hok.
  - by eapply streams_ok_open.
  - destruct (stream_alerts_run now cred n s) as [(e' & E')|(u' & o' & Hlt & E')]; rewrite E' in E; [|done]. by injection E as <- <-.
  - destruct Hok as (H1 & H2 & H3 & H4 & H5 & H6). split_and!; try done; simpl.
    + rewrite <-H5. unfold queues_publish. rewrite map_map. apply map_ext. by intros [].
    + apply Forall_map. eapply Forall_impl; [exact H6|]. intros [m q] Hq. by apply queue_put_length.
  - by apply streams_ok_next.
  - by apply streams_ok_end.
Qed.

End streams.

(** ** Properties *)

Module StreamProps.
Section props.
Context `{Crypto} (str_float : Q → jstr).

(** C25: whatever the order in which alert streams are opened, refused, fed, read and closed, a user never has more than
    ten, the counter of a user is the number of the user's open streams (so that a closed one can be opened again), a
    stream holds at most a hundred alerts that wait, and when all are closed nothing is left of them. *)
Theorem alert_streams_are_bounded d s live :
  rtc (stream_step str_float) (start d, []) (s, live) →
  (∀ u, sse_count u s = streams_of u live ∧ streams_of u live <= MAX_SSE_CONNECTIONS) ∧
  map fst (alert_queues s) = map fst live ∧ Forall (λ p, (length (snd p) ≤ 100)%nat) (alert_queues s) ∧
  (live = [] → sse_counts s = [] ∧ alert_queues s = []).
Proof.
  intros Hr.
  assert (streams_ok (s, live)) as (_ & H2 & H3 & H4 & H5 & H6).
  { revert Hr. apply (rtc_ind_r (λ x, streams_ok x)); [|intros x y _ Hs Hx; by eapply streams_ok_step].
    split_and!; try done; constructor. }
  split_and!; [done..|]. intros ->. split; [|by destruct (alert_queues s)].
  destruct (sse_counts s) as [|[u c] l] eqn:E; [done|]. inversion H3 as [|? ? Hc _]; subst. simpl in Hc.
  destruct (H2 u) as [Hu _]. unfold sse_count, dict_get in Hu. rewrite E in Hu. simpl in Hu. rewrite Z.eqb_refl in Hu.
  simpl in Hu. unfold streams_of in Hu. simpl in Hu. lia.
Qed.
End props.

(** Two streams of a user, and the end of one of them. *)
#[local] Existing Instance AuthProps.toy_crypto.
Definition org_member : UserRow :=
  {| us_id := 1; us_username := "ann"; us_password_hash := ""; us_role := "viewer"; us_is_active := true;
     us_last_login := None; us_created_at := 0; us_active_org_id := Some 10 |}.
Definition member_token : option jstr := Some (at_access_token (issue_tokens default_settings 0 org_member)).
Definition member_db : database := set_users [org_member] empty_db.

Lemma alert_streams_are_bounded_witness :
  let s2 := snd (stream_alerts 1 member_token 2 (snd (stream_alerts 1 member_token 1 (start member_db)))) in
  sse_count 1 (snd (stream_alerts_end 1 1 s2)) = 1.
Proof.
  intros s2.
  refine (eq_trans (proj1 (proj1 (alert_streams_are_bounded (λ _, []) member_db (snd (stream_alerts_end 1 1 s2)) [(2%nat, 1)] _) 1)) eq_refl).
  eapply rtc_l; [eapply (step_open _ 1 member_token 1%nat 1 10); [intros []|vm_compute; reflexivity]|].
  eapply rtc_l; [eapply (step_open _ 1 member_token 2%nat 1 10); [vm_compute; intuition discriminate|vm_compute; reflexivity]|].
  eapply rtc_l; [eapply (step_end _ 1%nat 1); vm_compute; tauto|]. apply rtc_refl.
Defined.

End StreamProps.

(** ** The tables are not touched *)

Lemma on_db_publish P k p : preserves (on_db P) (publish k p).
Proof. by apply on_db_modify; intros s; destruct k. Qed.
Lemma on_db_ignore P m : preserves (on_db P) m → preserves (on_db P) (ignore_errors m).
Proof. intros Hm. apply preserves_catch; [done|]. intros e. apply preserves_ret. Qed.
Lemma on_db_ws_send P ws m : preserves (on_db P) (ws_send ws m).
Proof. unfold ws_send. walk. Qed.
Lemma on_db_ws_close P ws c : preserves (on_db P) (ws_close ws c).
Proof. unfold ws_close. walk. Qed.
Lemma on_db_ws_accept P ws : preserves (on_db P) (ws_accept ws).
Proof. by apply on_db_modify. Qed.
#[export] Hint Resolve on_db_publish on_db_ignore on_db_ws_send on_db_ws_close on_db_ws_accept : server.
Lemma on_db_manager_connect P now d ws ip : preserves (on_db P) (manager_connect now d ws ip).
Proof. unfold manager_connect. walk. Qed.
Lemma on_db_manager_disconnect P d : preserves (on_db P) (manager_disconnect d).
Proof. unfold manager_disconnect. walk. Qed.
#[export] Hint Resolve on_db_manager_connect on_db_manager_disconnect : server.
Lemma on_db_send_to_device P d m : preserves (on_db P) (send_to_device d m).
Proof. unfold send_to_device. walk. Qed.
#[export] Hint Resolve on_db_send_to_device : server.

(** ** Sending *)

(** The connection of a device is forgotten. *)
Definition dropped (device_id : uuid) (s : server) : server :=
  set_metadata (dict_pop device_id (metadata s)) (set_connections (dict_pop device_id (connections s)) s).

(** A message is sent on the registered socket if that is open; a dead socket is
    dropped. *)
Lemma send_to_device_run d m s :
  send_to_device d m s =
    match dict_get d (connections s) with
    | Some ws => if ws_open ws s then (Ok true, set_out (out s ++ [SendJson ws m]) s) else (Ok false, dropped d s)
    | None => (Ok false, s)
    end.
Proof.
  unfold send_to_device. run_proc. unfold catch, ws_send. destruct (dict_get d (connections s)) as [ws|] eqn:E; [|done].
  run_proc. destruct (ws_open ws s) eqn:Eo; [done|]. simpl. unfold manager_disconnect. run_proc. rewrite E.
  unfold ignore_errors, catch, ws_close. run_proc. unfold ws_open in *. simpl. rewrite Eo. done.
Qed.
(** The registered socket of a device, if it is open. *)
Definition live_socket (device_id : uuid) (s : server) : option socket :=
  ws ← dict_get device_id (connections s); if ws_open ws s then Some ws else None.
Lemma send_to_device_live d m s :
  ∃ s', send_to_device d m s = (Ok (bool_decide (live_socket d s ≠ None)), s') ∧ db s' = db s ∧ saved s' = saved s ∧
    out s' = out s ++ match live_socket d s with Some ws => [SendJson ws m] | None => [] end ∧
    ∀ d', live_socket d' s' = live_socket d' s.
Proof.
  rewrite send_to_device_run. unfold live_socket. destruct (dict_get d (connections s)) as [ws|] eqn:E; simpl.
  - destruct (ws_open ws s) eqn:Eo; eexists; (split; [done|]); split_and!; try done; [by rewrite app_nil_r|].
    intros d'. unfold dropped, ws_open in *. simpl. rewrite dict_get_pop. destruct (Z.eqb_spec d' d) as [->|]; [|done].
    rewrite E. simpl. by rewrite Eo.
  - exists s. rewrite app_nil_r. done.
Qed.
Lemma send_to_device_db d m s :
  ∃ b s', send_to_device d m s = (Ok b, s') ∧ db s' = db s ∧ saved s' = saved s ∧
    (b = true → ∃ ws, dict_get d (connections s) = Some ws ∧ s' = set_out (out s ++ [SendJson ws m]) s) ∧
    (b = false → out s' = out s) ∧
    ∀ d' ws, dict_get d' (connections s') = Some ws → dict_get d' (connections s) = Some ws.
Proof.
  rewrite send_to_device_run. destruct (dict_get d (connections s)) as [ws|]; [destruct (ws_open ws s)|];
    eexists _, _; split_and!; try done; [eauto|]. intros d' ws'. simpl. rewrite dict_get_pop. by destruct (d' =? d).
Qed.
