(* ===== verification/ServerAlerts.v ===== *)
(** Alerts of the server: [services/notification_service.py],
    [services/alert_service.py], [auto_resolve_alerts] of [websocket/handler.py],
    [tasks/alert_tasks.py] and [api/v1/alerts.py].

    Parameters: the text Python writes for a float that is not an integer
    ([str_float]), and the answer of the Expo push service ([expo]: its status
    and body, [None] when the request fails).  A device object is passed and
    handed back, because the session writes to the database what was assigned to
    it: an assignment that does not change the object's value writes nothing. *)
From Stdlib Require Import QArith Qround Qabs.
From S2P Require Import Prelude JsString JsNumber Types JsJson JsonText ServerModels ServerRuntime ServerAuth ServerConnections.
Local Open Scope Z_scope.
Local Open Scope js_scope.

(** ** Numbers and texts of Python *)

(** [round] to an integer, halves to even. *)
Definition round_half_even (q : Q) : Z :=
  let f := Qfloor q in
  match ((q - inject_Z f) ?= (1 # 2))%Q with
  | Lt => f
  | Gt => f + 1
  | Eq => if Z.even f then f else f + 1
  end.
(** [f"{x:.1f}"] and [f"{x:.0f}"]: [d] decimals. *)
Definition format_fixed (d : nat) (x : num) : jstr :=
  match x with
  | NaN => "nan"
  | PInf => "inf"
  | NInf => "-inf"
  | Fin q =>
      let s := padStart (S d) 48 (string_of_Z (round_half_even (Qabs q * inject_Z (10 ^ Z.of_nat d)))) in
      (if negb (Qle_bool 0 q) then "-" else "")
      ++ match d with O => s | _ => take (length s - d) s ++ "." ++ drop (length s - d) s end
  end.
(** [str(t)] of a time. *)
Definition str_datetime (t : Z) : jstr := take 10 (isoformat t) ++ " " ++ drop 11 (isoformat t).

Example format_examples :
  format_fixed 1 (Fin (901 # 10)) = "90.1" ∧ format_fixed 1 (Fin (-1 # 4)) = "-0.2" ∧ format_fixed 0 (of_Z 7) = "7"
  ∧ str_datetime 1000000 = "1970-01-01 00:00:01+00:00".
Proof. done. Qed.

(** [x > q] and [x < q] *)
Definition above (x : num) (q : Q) : bool := match x with Fin p => negb (Qle_bool p q) | PInf => true | _ => false end.
Definition below (x : num) (q : Q) : bool := match x with Fin p => negb (Qle_bool q p) | NInf => true | _ => false end.
(** A value that is compared with a number. *)
Definition py_number (v : json) : proc (option num) :=
  match v with
  | JNull => mret None
  | JNum x => mret (Some x)
  | JBool b => mret (Some (of_Z (if b then 1 else 0)))
  | _ => raise TypeError
  end.
(** [a or b] of texts *)
Definition py_or (a : option jstr) (b : jstr) : jstr := if otruthy a then a ?? "" else b.

(** ** Assignments to a device object *)

Definition set_status (v : jstr) (device : DeviceRow) : proc DeviceRow :=
  when (negb (dv_status device =s v)) (update_row (dv_id device) (dv_set_status v));;
  mret (dv_set_status v device).
Definition set_last_seen (v : Z) (device : DeviceRow) : proc DeviceRow :=
  when (bool_decide (dv_last_seen device ≠ Some v)) (update_row (dv_id device) (dv_set_last_seen (Some v)));;
  mret (dv_set_last_seen (Some v) device).
Definition set_ip_address (v : option jstr) (device : DeviceRow) : proc DeviceRow :=
  when (bool_decide (dv_ip_address device ≠ v)) (update_row (dv_id device) (dv_set_ip_address v));;
  mret (dv_set_ip_address v device).
Definition set_agent_version (v : jstr) (device : DeviceRow) : proc DeviceRow :=
  when (bool_decide (dv_agent_version device ≠ Some v)) (update_row (dv_id device) (dv_set_agent_version (Some v)));;
  mret (dv_set_agent_version (Some v) device).

(** ** [NotificationService] *)

Definition SEVERITY_ORDER (severity : jstr) : Z :=
  if severity =s "info" then 0 else if severity =s "warning" then 1 else if severity =s "critical" then 2 else 0.

Definition _matches (rule : RuleRow) (alert : AlertRow) : bool :=
  ((rl_alert_type rule =s "*") || (rl_alert_type rule =s ar_alert_type alert))
  && (SEVERITY_ORDER (rl_severity_min rule) <=? SEVERITY_ORDER (ar_severity alert)).

Definition alert_payload (alert : AlertRow) (device : DeviceRow) : json :=
  JObj [("id", JStr (str_uuid (ar_id alert))); ("device_id", JStr (str_uuid (ar_device_id alert)));
        ("device_hostname", JStr (py_or (dv_label device) (dv_hostname device)));
        ("org_id", match dv_org_id device with Some o => JStr (str_uuid o) | None => JNull end);
        ("alert_type", JStr (ar_alert_type alert)); ("severity", JStr (ar_severity alert));
        ("message", JStr (ar_message alert)); ("is_resolved", JBool (ar_is_resolved alert));
        ("created_at", JStr (isoformat (ar_created_at alert)));
        ("resolved_at", match ar_resolved_at alert with Some t => JStr (isoformat t) | None => JNull end)].

(** The loop over the matching rules; the result is [browser_sent]. *)
Fixpoint notify_rules (payload : json) (alert : AlertRow) (device : DeviceRow) (browser_sent : bool) (rules : list RuleRow)
    : proc bool :=
  match rules with
  | [] => mret browser_sent
  | rule :: rules =>
      let browser := (rl_channel rule =s "browser") && negb browser_sent in
      when browser (publish AlertStream payload);;
      when ((rl_channel rule =s "webhook") && otruthy (rl_webhook_url rule))
        (emit (WebhookTask (rl_webhook_url rule ?? "") payload));;
      when ((rl_channel rule =s "email") && otruthy (rl_email_address rule))
        (emit (EmailTask (rl_email_address rule ?? "") (str_uuid (ar_id alert)) (str_uuid (dv_id device))));;
      notify_rules payload alert device (browser_sent || browser) rules
  end.

(** The tokens the push service refused; [None] when an element is not as
    expected, which raises. *)
Definition is_invalid (r : json) : option bool :=
  match r with
  | JObj _ =>
      if negb (match field "status" r with Some (JStr s) => s =s "error" | _ => false end) then Some false
      else match field "details" r ?? JObj [] with
           | JObj _ as details =>
               match field "error" details ?? JStr "" with
               | JStr e => Some (includes e "InvalidCredentials")
               | JArr l => Some (existsb (λ x, match x with JStr e => e =s "InvalidCredentials" | _ => false end) l)
               | JObj _ as e => Some (bool_decide (field "InvalidCredentials" e ≠ None))
               | _ => None
               end
           | _ => None
           end
  | _ => Some false
  end.
Fixpoint invalid_tokens (tokens : list PushTokenRow) (i : nat) (results : list json) : option (list jstr) :=
  match results with
  | [] => Some []
  | r :: results =>
      bad ← is_invalid r;
      if bad : bool then t ← tokens !! i; l ← invalid_tokens tokens (S i) results; Some (pk_token t :: l)
      else invalid_tokens tokens (S i) results
  end.

Section alerts.
Context (cfg : Settings) (str_float : Q → jstr) (expo : list json → option (Z * json)).

Definition push_message (title body : jstr) (pt : PushTokenRow) : json :=
  JObj [("to", JStr (pk_token pt)); ("title", JStr title); ("body", JStr body); ("sound", JStr "default")].

Definition _send_push_notifications (now : Z) (org_id : uuid) (title body : jstr) : proc unit :=
  tokens ← gets (λ s, flat_map (λ pt, map (λ _, pt) (bfilter (λ m, (mb_user_id m =? pk_user_id pt) && (mb_org_id m =? org_id))
                                                       (members (db s)))) (push_tokens (db s)));
  match tokens with
  | [] => mret tt
  | _ =>
      let messages := map (push_message title body) tokens in
      emit (PushRequest messages);;
      match expo messages with
      | Some (200, JObj _ as answer) =>
          match field "data" answer ?? JArr [] with
          | JArr results =>
              match invalid_tokens tokens 0 results with
              | Some invalid =>
                  delete_where (λ pt, existsb (seqb (pk_token pt)) invalid);;
                  for_each (λ pt, update_row (pk_id pt) (pk_set_last_used (Some now))) tokens
              | None => mret tt
              end
          | JStr _ | JObj _ => for_each (λ pt, update_row (pk_id pt) (pk_set_last_used (Some now))) tokens
          | _ => mret tt
          end
      | _ => mret tt
      end
  end.

Definition notify (now : Z) (alert : AlertRow) (device : DeviceRow) : proc unit :=
  rules ← select rl_is_enabled;
  let matching_rules := bfilter (λ rule, _matches rule alert) rules in
  let payload := alert_payload alert device in
  browser_sent ← notify_rules payload alert device false matching_rules;
  when (negb browser_sent) (publish AlertStream payload);;
  match dv_org_id device with
  | Some org_id =>
      when ((ar_severity alert =s "critical") || (ar_severity alert =s "warning"))
        (_send_push_notifications now org_id
           ("[" ++ toUpperCase (ar_severity alert) ++ "] " ++ py_or (dv_label device) (dv_hostname device))
           (ar_message alert))
  | None => mret tt
  end.

(** ** [AlertService] *)

Definition open_alert (device_id : uuid) (alert_type : jstr) (a : AlertRow) : bool :=
  (ar_device_id a =? device_id) && (ar_alert_type a =s alert_type) && negb (ar_is_resolved a).
Definition new_alert (now : Z) (aid device_id : uuid) (alert_type severity message : jstr) : AlertRow :=
  {| ar_id := aid; ar_device_id := device_id; ar_alert_type := alert_type; ar_severity := severity; ar_message := message;
     ar_is_resolved := false; ar_created_at := now; ar_resolved_at := None |}.

(** [create_alert]; [aid] is the identifier of the alert. *)
Definition create_alert (now : Z) (aid : uuid) (device : DeviceRow) (alert_type severity message : jstr) : proc DeviceRow :=
  if dv_maintenance_mode device then mret device
  else
    existing ← select_one (open_alert (dv_id device) alert_type);
    match existing with
    | Some _ => mret device
    | None =>
        let alert := new_alert now aid (dv_id device) alert_type severity message in
        refuse (negb (storable message)) DataError;;
        add alert;;
        device ← set_status "alert" device;
        notify now alert device;;
        mret device
    end.

(** A metric beyond its threshold. *)
Definition exceeds (x : option num) (threshold : Q) : option num :=
  match x with Some v => if above v threshold then Some v else None | None => None end.

Definition threshold_text (q : Q) : jstr := if (Zpos (Qden q) =? 1) then string_of_Z (Qnum q) ++ ".0" else str_float q.

Definition check_metric (now : Z) (aid : uuid) (x : option num) (threshold : Q) (alert_type severity : jstr)
    (message : num → jstr) (device : DeviceRow) : proc DeviceRow :=
  match exceeds x threshold with
  | Some v => create_alert now aid device alert_type severity (message v)
  | None => mret device
  end.

Definition evaluate_metrics (now : Z) (ids : nat → uuid) (device : DeviceRow) (metric : MetricRow) : proc DeviceRow :=
  device ← check_metric now (ids 0%nat) (mt_cpu_percent metric) (ALERT_CPU_PERCENT cfg) "high_cpu" "warning"
    (λ v, "CPU usage " ++ format_fixed 1 v ++ "% exceeds threshold " ++ threshold_text (ALERT_CPU_PERCENT cfg) ++ "%") device;
  device ← check_metric now (ids 1%nat) (mt_ram_percent metric) (ALERT_RAM_PERCENT cfg) "high_ram" "warning"
    (λ v, "RAM usage " ++ format_fixed 1 v ++ "% exceeds threshold " ++ threshold_text (ALERT_RAM_PERCENT cfg) ++ "%") device;
  device ← check_metric now (ids 2%nat) (mt_disk_percent metric) (ALERT_DISK_PERCENT cfg) "disk_full" "critical"
    (λ v, "Disk usage " ++ format_fixed 1 v ++ "% exceeds threshold " ++ threshold_text (ALERT_DISK_PERCENT cfg) ++ "%") device;
  check_metric now (ids 3%nat) (mt_cpu_temp metric) (ALERT_CPU_TEMP_CELSIUS cfg) "high_temp" "warning"
    (λ v, "CPU temperature " ++ format_fixed 1 v ++ [176] ++ "C exceeds threshold " ++ threshold_text (ALERT_CPU_TEMP_CELSIUS cfg)
          ++ [176] ++ "C") device.

Definition resolved (now : Z) (a : AlertRow) : AlertRow := ar_set_resolved_at (Some now) (ar_set_is_resolved true a).
(** [AlertService.resolve_alert] *)
Definition service_resolve_alert (now : Z) (alert_id : uuid) : proc (option AlertRow) :=
  alert ← select_one (has_pk alert_id);
  match alert with
  | Some a => update_row alert_id (resolved now);; mret (Some (resolved now a))
  | None => mret None
  end.

(** ** [auto_resolve_alerts] *)

Definition resolve_open (now : Z) (device_id : uuid) (alert_type : jstr) : proc unit :=
  update_where (open_alert device_id alert_type) (resolved now).

Definition resolve_below (now : Z) (device_id : uuid) (x : option num) (limit : Q) (alert_type : jstr) : proc unit :=
  when (match x with Some v => below v limit | None => false end) (resolve_open now device_id alert_type).

Definition auto_resolve_alerts (now : Z) (device_id : uuid) (telemetry : json) : proc unit :=
  cpu ← py_get "cpu_percent" telemetry; cpu ← py_number cpu;
  resolve_below now device_id cpu 80 "high_cpu";;
  ram ← py_get "ram_percent" telemetry; ram ← py_number ram;
  resolve_below now device_id ram 85 "high_ram";;
  disk ← py_get "disk_percent" telemetry; disk ← py_number disk;
  resolve_below now device_id disk 90 "high_disk".

(** ** [check_offline_devices] *)

(** A session in a worker process, which has the database and Redis in common
    with the server and no connections of its own: what is not committed is
    lost. *)
Definition worker {A} (m : proc A) : proc A := λ s,
  let '(r, s') := m (set_redis (redis s) (start (saved s))) in
  (r, set_redis (redis s') (set_db (saved s') (set_saved (saved s') s))).

Definition stale (now : Z) (d : DeviceRow) : bool :=
  (dv_status d =s "online")
  && (match dv_last_seen d with Some t => t <? now - seconds (DEVICE_OFFLINE_THRESHOLD_SECONDS cfg) | None => false end)
  && negb (dv_is_revoked d) && negb (dv_maintenance_mode d).

(** One stale device; [uid] and [aid] are the identifiers of its rows. *)
Definition mark_offline (now : Z) (uid aid : uuid) (device : DeviceRow) : proc unit :=
  set_status "offline" device;;
  add {| ut_id := uid; ut_device_id := dv_id device; ut_event_type := "offline"; ut_timestamp := now; ut_duration_secs := None |};;
  existing ← select_one (open_alert (dv_id device) "offline");
  when (bool_decide (existing = None))
    (add (new_alert now aid (dv_id device) "offline" "warning"
            ("Device " ++ dv_hostname device ++ " has not reported since "
             ++ match dv_last_seen device with Some t => str_datetime t | None => "None" end))).

Definition check_offline_devices (now : Z) (ids : nat → uuid) : proc unit :=
  worker (
    stale_devices ← select (stale now);
    for_each (λ '(i, device), mark_offline now (ids (2 * i)%nat) (ids (2 * i + 1)%nat) device) (imap pair stale_devices);;
    commit).

(** ** [api/v1/alerts.py] *)

Definition fmt_alert (a : AlertRow) : json :=
  JObj [("id", JStr (str_uuid (ar_id a))); ("device_id", JStr (str_uuid (ar_device_id a)));
        ("alert_type", JStr (ar_alert_type a)); ("severity", JStr (ar_severity a)); ("message", JStr (ar_message a));
        ("is_resolved", JBool (ar_is_resolved a)); ("created_at", JStr (isoformat (ar_created_at a)));
        ("resolved_at", match ar_resolved_at a with Some t => JStr (isoformat t) | None => JNull end)].

Definition device_in_org (device_id org_id : uuid) (d : DeviceRow) : bool :=
  has_pk device_id d && bool_decide (dv_org_id d = Some org_id).

(** [list_alerts]: the total of the header and the page. *)
Definition list_alerts `{Crypto} (now : Z) (cred : option jstr) (device_id : option uuid) (is_resolved : option bool)
    (severity : option jstr) (skip limit : Z) : proc (Z * list json) :=
  get_current_user now cred;;
  current_org_id ← get_current_org_id now cred;
  refuse ((skip <? 0) || (limit <? 1) || (500 <? limit)) (HTTPException 422 "Unprocessable Entity");;
  devices ← gets (λ s, devices (db s));
  alerts ← select (λ a, (match device_id with Some u => ar_device_id a =? u | None => true end)
                        && (match is_resolved with Some b => Bool.eqb (ar_is_resolved a) b | None => true end)
                        && (if otruthy severity then ar_severity a =s (severity ?? "") else true)
                        && existsb (device_in_org (ar_device_id a) current_org_id) devices);
  mret (Z.of_nat (length alerts),
        map fmt_alert (take (Z.to_nat limit) (drop (Z.to_nat skip)
          (stable_sort (λ a b, ar_created_at b <=? ar_created_at a) alerts)))).

Definition resolve_alert `{Crypto} (now : Z) (cred : option jstr) (alert_id : uuid) : proc json :=
  get_current_user now cred;;
  current_org_id ← get_current_org_id now cred;
  alert ← service_resolve_alert now alert_id;
  alert ← require AttributeError alert;
  device ← select_one (device_in_org (ar_device_id alert) current_org_id);
  refuse (bool_decide (device = None)) (HTTPException 404 "Alert not found");;
  commit;;
  mret (fmt_alert alert).

End alerts.

(** ** Facts *)

(** *** At most one open alert *)

(** A device has at most one unresolved alert of a type. *)
Definition alert_key (a : AlertRow) : uuid * jstr := (ar_device_id a, ar_alert_type a).
Definition unresolved_alerts (d : database) : list AlertRow := bfilter (λ a, negb (ar_is_resolved a)) (alerts d).
Definition one_open (d : database) : Prop := NoDup (map alert_key (unresolved_alerts d)).

Lemma one_open_alerts d d' : alerts d' = alerts d → one_open d → one_open d'.
Proof. unfold one_open, unresolved_alerts. by intros ->. Qed.

Lemma one_open_resolve d (p : AlertRow → bool) now :
  one_open d → one_open (set_alerts (map (λ a, if p a then resolved now a else a) (alerts d)) d).
Proof.
  unfold one_open, unresolved_alerts. simpl. intros Hn. eapply sublist_NoDup; [exact Hn|]. clear.
  induction (alerts d) as [|a l IH]; [constructor|]. simpl. destruct (p a) eqn:E; simpl.
  - destruct (negb (ar_is_resolved a)); [by apply sublist_cons|done].
  - destruct (negb (ar_is_resolved a)); [by apply sublist_skip|done].
Qed.
Lemma one_open_delete d (p : AlertRow → bool) : one_open d → one_open (set_alerts (bfilter p (alerts d)) d).
Proof.
  unfold one_open, unresolved_alerts. simpl. intros Hn. eapply sublist_NoDup; [exact Hn|]. clear.
  induction (alerts d) as [|a l IH]; [constructor|]. simpl. destruct (p a), (negb (ar_is_resolved a)) eqn:E; simpl; rewrite ?E; simpl;
    [by apply sublist_skip|done|by apply sublist_cons|done].
Qed.
Lemma one_open_add d a :
  one_open d → (∀ b, In b (alerts d) → open_alert (ar_device_id a) (ar_alert_type a) b = false) →
  one_open (set_alerts (alerts d ++ [a]) d).
Proof.
  unfold one_open, unresolved_alerts. simpl. intros Hn Hf. rewrite bfilter_app, map_app. apply NoDup_app. split; [done|]. split.
  - intros k (b & <- & [Hb Ho]%bfilter_In)%list_elem_of_In%in_map_iff Hk%list_elem_of_In. simpl in Hk.
    destruct (negb (ar_is_resolved a)); [|done]. destruct Hk as [[= E1 E2]|[]]. specialize (Hf b Hb). unfold open_alert in Hf.
    by rewrite E1, E2, Z.eqb_refl, seqb_refl, Ho in Hf.
  - simpl. destruct (negb (ar_is_resolved a)); [apply NoDup_singleton|constructor].
Qed.

(** The query for the open alert of a type never finds two. *)
Lemma open_alert_unique d dev ty : one_open d → (length (bfilter (open_alert dev ty) (alerts d)) ≤ 1)%nat.
Proof.
  unfold one_open, unresolved_alerts. intros Hn.
  assert (∀ l : list AlertRow, bfilter (open_alert dev ty) l
          = bfilter (λ a, (ar_device_id a =? dev) && (ar_alert_type a =s ty)) (bfilter (λ a, negb (ar_is_resolved a)) l)) as ->.
  { induction l as [|a l IH]; [done|]. simpl. unfold open_alert at 1. destruct (negb (ar_is_resolved a)); simpl.
    - rewrite andb_true_r. by destruct (_ && _); simpl; rewrite IH.
    - by rewrite andb_false_r. }
  revert Hn. generalize (bfilter (λ a, negb (ar_is_resolved a)) (alerts d)) as l. intros l Hn.
  assert (∀ k l', NoDup (map alert_key l') → (∀ a, In a l' → alert_key a = k) → (length l' ≤ 1)%nat) as Huniq.
  { intros k [|a [|b l']] Hn' Hk; simpl; [lia|lia|]. exfalso. simpl in Hn'. apply NoDup_cons in Hn' as [Hn' _]. apply Hn'.
    rewrite (Hk a), (Hk b) by (simpl; tauto). by left. }
  apply (Huniq (dev, ty)); [by apply NoDup_map_bfilter|]. intros a [_ Ha]%bfilter_In.
  apply andb_true_iff in Ha as [?%Z.eqb_eq ?%seqb_true]. unfold alert_key. by subst.
Qed.
Lemma open_alert_found s dev ty :
  one_open (db s) → ∃ o, select_one (open_alert dev ty) s = (Ok o, s) ∧
    match o with
    | Some a => In a (alerts (db s)) ∧ open_alert dev ty a = true
    | None => ∀ a, In a (alerts (db s)) → open_alert dev ty a = false
    end.
Proof.
  intros Hn. pose proof (open_alert_unique (db s) dev ty Hn) as Hl.
  destruct (reads_select_one (open_alert dev ty) s) as [(o & E & Ho)|(e & E)]; [by exists o|]. exfalso.
  unfold select_one, select, gets, mbind, proc_bind, scalar_one_or_none in E. simpl in E.
  destruct (bfilter (open_alert dev ty) (alerts (db s))) as [|a [|b l]]; simpl in *; done || lia.
Qed.

(** *** Preservation *)

Lemma preserves_py_number P v : preserves P (py_number v).
Proof. unfold py_number. pure. Qed.
#[export] Hint Resolve preserves_py_number : server.

Section preservation.
Context (cfg : Settings) (str_float : Q → jstr) (expo : list json → option (Z * json)).

Lemma on_db_set_status P v d : ignores DeviceRow P → preserves (on_db P) (set_status v d).
Proof. intros Hi. unfold set_status. walk. Qed.
Lemma on_db_set_last_seen P v d : ignores DeviceRow P → preserves (on_db P) (set_last_seen v d).
Proof. intros Hi. unfold set_last_seen. walk. Qed.
Lemma on_db_set_ip_address P v d : ignores DeviceRow P → preserves (on_db P) (set_ip_address v d).
Proof. intros Hi. unfold set_ip_address. walk. Qed.
Lemma on_db_set_agent_version P v d : ignores DeviceRow P → preserves (on_db P) (set_agent_version v d).
Proof. intros Hi. unfold set_agent_version. walk. Qed.

Lemma on_db_notify_rules P payload alert device b rules : preserves (on_db P) (notify_rules payload alert device b rules).
Proof.
  revert b. induction rules as [|r rules IH]; intros b; [apply preserves_ret|]. cbn [notify_rules].
  repeat (apply preserves_bind; [unfold when; case_match; [auto with server nocore|apply preserves_ret]|intros _]). apply IH.
Qed.
Lemma on_db_notify P now alert device : ignores PushTokenRow P → preserves (on_db P) (notify expo now alert device).
Proof.
  intros Hi. unfold notify. apply preserves_bind; [apply preserves_gets|]. intros rules.
  apply preserves_bind; [apply on_db_notify_rules|]. intros b. unfold _send_push_notifications. walk.
Qed.

(** Raising an alert keeps that a device has one open alert of a type. *)
Lemma one_open_create now aid device ty sev msg : preserves (on_db one_open) (create_alert expo now aid device ty sev msg).
Proof.
  intros s [Hd Hs]. unfold create_alert. destruct (dv_maintenance_mode device); [done|].
  destruct (open_alert_found s (dv_id device) ty Hd) as (o & E & Ho). unfold mbind, proc_bind. rewrite E.
  destruct o as [a|]; [done|]. unfold refuse. destruct (negb (storable msg)); [done|]. cbn [mret proc_ret].
  unfold add. destruct (existsb _ _); [done|].
  match goal with |- on_db _ (snd match (set_status _ _) ?s' with _ => _ end) => assert (on_db one_open s') as Hs' end.
  { split; [|done]. by apply one_open_add. }
  revert Hs'. match goal with |- _ → on_db _ (snd match (set_status _ _) ?s' with _ => _ end) => generalize s' end. intros s' Hs'.
  change (on_db one_open (snd ((d ← set_status "alert" device; notify expo now (new_alert now aid (dv_id device) ty sev msg) d;; mret d) s'))).
  revert s' Hs'. apply preserves_bind; [apply on_db_set_status; auto with server|]. intros d.
  apply preserves_bind; [apply on_db_notify; auto with server|intros; apply preserves_ret].
Qed.

Lemma one_open_check now aid x t ty sev msg device :
  preserves (on_db one_open) (check_metric expo now aid x t ty sev msg device).
Proof. unfold check_metric. destruct (exceeds x t); [apply one_open_create|apply preserves_ret]. Qed.
Lemma one_open_evaluate now ids device m : preserves (on_db one_open) (evaluate_metrics cfg str_float expo now ids device m).
Proof. unfold evaluate_metrics. repeat (apply preserves_bind; [apply one_open_check|intros ?]). apply one_open_check. Qed.
Lemma one_open_resolve_where now p : preserves (on_db one_open) (update_where p (resolved now)).
Proof. apply on_db_modify_db. intros d. apply one_open_resolve. Qed.
Lemma one_open_auto_resolve now dev data : preserves (on_db one_open) (auto_resolve_alerts now dev data).
Proof. unfold auto_resolve_alerts, resolve_below, resolve_open. walk; apply one_open_resolve_where. Qed.

Lemma one_open_mark_offline now uid aid device : preserves (on_db one_open) (mark_offline now uid aid device).
Proof.
  unfold mark_offline. apply preserves_bind; [apply on_db_set_status; auto with server|]. intros _.
  apply preserves_bind; [auto with server|]. intros _ s [Hd Hs].
  destruct (open_alert_found s (dv_id device) "offline" Hd) as (o & E & Ho). unfold mbind, proc_bind. rewrite E.
  destruct o as [a|]; [done|]. unfold when, add. simpl. destruct (existsb _ _); [done|]. split; [|done]. by apply one_open_add.
Qed.
Lemma on_db_worker {A} P (m : proc A) : preserves (on_db P) m → preserves (on_db P) (worker m).
Proof.
  intros Hm s [_ Hs]. unfold worker. specialize (Hm (set_redis (redis s) (start (saved s)))). destruct (m _) as [r s'].
  assert (on_db P s') as [_ H'] by (by apply Hm). by split.
Qed.
Lemma one_open_check_offline now ids : preserves (on_db one_open) (check_offline_devices cfg now ids).
Proof.
  apply on_db_worker. walk. apply one_open_mark_offline.
Qed.
Lemma one_open_service_resolve now u : preserves (on_db one_open) (service_resolve_alert now u).
Proof. unfold service_resolve_alert. walk. apply one_open_resolve_where. Qed.
Lemma on_db_get_current_user `{Crypto} P now cred : preserves (on_db P) (get_current_user now cred).
Proof. apply preserves_state. apply get_current_user_state. Qed.
Lemma on_db_get_current_org_id `{Crypto} P now cred : preserves (on_db P) (get_current_org_id now cred).
Proof. apply preserves_state. apply get_current_org_id_state. Qed.
Lemma one_open_resolve_alert `{Crypto} now cred u : preserves (on_db one_open) (with_db (resolve_alert now cred u)).
Proof.
  apply on_db_with_db. unfold resolve_alert. apply preserves_bind; [apply on_db_get_current_user|]. intros _.
  apply preserves_bind; [apply on_db_get_current_org_id|]. intros org. apply preserves_bind; [apply one_open_service_resolve|].
  intros o. walk.
Qed.
End preservation.
#[export] Hint Resolve on_db_set_status on_db_set_last_seen on_db_set_ip_address on_db_set_agent_version on_db_notify
  one_open_create one_open_evaluate one_open_auto_resolve one_open_resolve_where on_db_worker
  on_db_get_current_user on_db_get_current_org_id : server.

(** *** Notification *)

Definition is_browser (rule : RuleRow) : bool := rl_channel rule =s "browser".
(** The tasks that a rule hands to the workers. *)
Definition rule_tasks (payload : json) (alert : AlertRow) (device : DeviceRow) (rule : RuleRow) : list effect :=
  (if (rl_channel rule =s "webhook") && otruthy (rl_webhook_url rule) then [WebhookTask (rl_webhook_url rule ?? "") payload] else [])
  ++ (if (rl_channel rule =s "email") && otruthy (rl_email_address rule)
      then [EmailTask (rl_email_address rule ?? "") (str_uuid (ar_id alert)) (str_uuid (dv_id device))] else []).

Lemma set_out_twice v w s : set_out v (set_out w s) = set_out v s.
Proof. by destruct s. Qed.
Lemma set_out_same s : set_out (out s) s = s.
Proof. by destruct s. Qed.
Lemma when_emit b e s : when b (emit e) s = (Ok tt, set_out (out s ++ if b then [e] else []) s).
Proof. destruct b; [done|]. simpl. by rewrite app_nil_r, set_out_same. Qed.

(** The loop publishes at most once and hands out the tasks of every rule. *)
Lemma notify_rules_run payload alert device rules b s :
  notify_rules payload alert device b rules s =
    (Ok (b || existsb is_browser rules),
     set_out (out s ++ flat_map (rule_tasks payload alert device) rules)
       (if negb b && existsb is_browser rules then snd (publish AlertStream payload s) else s)).
Proof.
  revert b s. induction rules as [|r rules IH]; intros b s.
  - simpl. rewrite orb_false_r, andb_false_r, app_nil_r. by rewrite set_out_same.
  - cbn [notify_rules flat_map existsb]. unfold mbind, proc_bind.
    destruct (is_browser r) eqn:Eb; unfold is_browser in Eb; rewrite Eb; destruct b; cbn [negb andb orb when];
      unfold publish, modify; cbn [fst snd mret proc_ret]; rewrite !when_emit, IH; cbn [negb andb orb out set_out]; f_equal;
      rewrite ?set_out_twice, <-!app_assoc; unfold rule_tasks; rewrite <-?app_assoc;
      try (destruct (existsb is_browser rules); by rewrite ?set_out_twice); by rewrite ?set_out_twice.
Qed.

Section notification.
Context (expo : list json → option (Z * json)).

Lemma push_returns {B} (f : server → B) now org title body :
  (∀ l s, f (set_db (set_push_tokens l (db s)) s) = f s) → (∀ e s, f (set_out (out s ++ [e]) s) = f s) →
  returns f (_send_push_notifications expo now org title body).
Proof.
  intros Hf He. unfold _send_push_notifications.
  assert (∀ tokens : list PushTokenRow,
            returns f (for_each (λ pt, update_row (pk_id pt) (pk_set_last_used (Some now))) tokens)) as Hu
    by (intros; apply returns_for_each; intros; apply returns_modify; intros; apply Hf).
  apply returns_bind; [by intros s; eexists _, s|]. intros [|t tokens]; [apply returns_ret|].
  apply returns_bind; [apply returns_modify; intros; apply He|]. intros _.
  repeat case_match; try apply returns_ret; try apply Hu.
  apply returns_bind; [apply returns_modify; intros; apply Hf|]. intros _. apply Hu.
Qed.

(** A notification publishes the alert on the browser stream once, whatever
    the rules. *)
Lemma notify_run now alert device s :
  ∃ s', notify expo now alert device s = (Ok tt, s') ∧ alerts (db s') = alerts (db s) ∧
    alert_queues s' = queues_publish (alert_payload alert device) (alert_queues s).
Proof.
  unfold notify. run_proc. unfold select, gets. rewrite notify_rules_run. cbn [orb negb andb].
  set (rules := bfilter _ _). set (s1 := if existsb is_browser rules then _ else s).
  set (s2 := set_out _ s1).
  assert (∃ s3, (if negb (existsb is_browser rules) then publish AlertStream (alert_payload alert device) else λ s, (Ok tt, s)) s2
                = (Ok tt, s3) ∧ alerts (db s3) = alerts (db s) ∧
                alert_queues s3 = queues_publish (alert_payload alert device) (alert_queues s)) as (s3 & E & H1 & H2).
  { unfold s2, s1. destruct (existsb is_browser rules); simpl; eexists; split; done. }
  rewrite E. destruct (dv_org_id device) as [org|]; [|by exists s3].
  destruct (_ || _); [|by exists s3].
  destruct (push_returns (λ s, (alerts (db s), alert_queues s)) now org
              ("[" ++ toUpperCase (ar_severity alert) ++ "] " ++ py_or (dv_label device) (dv_hostname device))
              (ar_message alert) ltac:(done) ltac:(done) s3) as ([] & s4 & E4 & [= H3 H4]).
  exists s4. rewrite H3, H4. done.
Qed.

(** What a call of [create_alert] leaves, failed or not: the alert is stored and put into the browser streams, or neither. *)
Lemma create_alert_cases now aid device ty sev msg s :
  let alert := new_alert now aid (dv_id device) ty sev msg in
  let s' := snd (create_alert expo now aid device ty sev msg s) in
  (alerts (db s') = alerts (db s) ∧ alert_queues s' = alert_queues s) ∨
  (alerts (db s') = alerts (db s) ++ [alert] ∧ alert_queues s' = queues_publish (alert_payload alert device) (alert_queues s)).
Proof.
  cbv zeta. unfold create_alert. destruct (dv_maintenance_mode device); [by left|].
  unfold mbind, proc_bind. pose proof (select_one_state s (open_alert (dv_id device) ty)) as Hs.
  destruct (select_one _ s) as [[[a|]|e] s0]; simpl in Hs; subst s0; [by left| |by left].
  destruct (storable msg); cbn [negb refuse]; [|by left]. unfold mret, proc_ret, add.
  destruct (existsb _ _); [by left|]. right. set (alert := new_alert _ _ _ _ _ _). simpl.
  match goal with |- context [set_status "alert" device ?s1] => set (s1' := s1) end.
  assert (∃ s2, set_status "alert" device s1' = (Ok (dv_set_status "alert" device), s2) ∧ alerts (db s2) = alerts (db s1')
                ∧ alert_queues s2 = alert_queues s1') as (s2 & -> & H1 & H2).
  { unfold set_status. run_proc. destruct (negb _); by eexists. }
  change (alert_payload alert device) with (alert_payload alert (dv_set_status "alert" device)).
  destruct (notify_run now alert (dv_set_status "alert" device) s2) as (s3 & -> & H3 & H4). simpl. by rewrite H3, H1, H4, H2.
Qed.
End notification.

(** ** Properties *)

Module AlertProps.
Section props.
Context (expo : list json → option (Z * json)).

(** C17: an alert of a device that is not in maintenance and has no open one of that type is stored once and put once
    into every open browser stream, whatever the notification rules and whatever the push service answers; until it is
    resolved the same condition neither stores nor publishes anything again. *)
Theorem alert_raised_once now aid device ty sev msg s :
  one_open (db s) → dv_maintenance_mode device = false → storable msg = true →
  (∀ a, In a (alerts (db s)) → open_alert (dv_id device) ty a = false ∧ ar_id a ≠ aid) →
  let alert := new_alert now aid (dv_id device) ty sev msg in
  ∃ s', create_alert expo now aid device ty sev msg s = (Ok (dv_set_status "alert" device), s') ∧
    alerts (db s') = alerts (db s) ++ [alert] ∧
    alert_queues s' = queues_publish (alert_payload alert device) (alert_queues s) ∧
    ∀ now' aid' device' sev' msg', dv_id device' = dv_id device →
      create_alert expo now' aid' device' ty sev' msg' s' = (Ok device', s').
Proof.
  intros Hn Hm Hst Hf alert. unfold create_alert at 1. rewrite Hm.
  destruct (open_alert_found s (dv_id device) ty Hn) as (o & E & Ho). unfold mbind, proc_bind. rewrite E.
  destruct o as [a|]; [destruct Ho as [Ha Ho]; by rewrite (proj1 (Hf a Ha)) in Ho|].
  rewrite Hst. unfold add. simpl.
  assert (existsb (λ a, aid =? ar_id a) (alerts (db s)) = false) as ->.
  { apply not_true_iff_false. intros (a & Ha & E'%Z.eqb_eq)%existsb_exists. by destruct (Hf a Ha). }
  match goal with |- context [set_status "alert" device ?s1] => set (s1' := s1) end.
  assert (∃ s2, set_status "alert" device s1' = (Ok (dv_set_status "alert" device), s2) ∧ alerts (db s2) = alerts (db s1')
                ∧ alert_queues s2 = alert_queues s1') as (s2 & -> & H1 & H2).
  { unfold set_status. run_proc. destruct (negb _); by eexists. }
  change (alert_payload alert device) with (alert_payload alert (dv_set_status "alert" device)).
  destruct (notify_run expo now alert (dv_set_status "alert" device) s2) as (s3 & E3 & H3 & H4).
  unfold alert in E3. rewrite E3. exists s3.
  assert (alerts (db s3) = alerts (db s) ++ [alert]) as Hal by (by rewrite H3, H1).
  split; [done|]. split; [done|]. split; [by rewrite H4, H2|].
  intros now' aid' device' sev' msg' Hid. unfold create_alert. destruct (dv_maintenance_mode device'); [done|]. rewrite Hid.
  assert (one_open (db s3)) as Hn3.
  { apply (one_open_alerts (set_alerts (alerts (db s) ++ [alert]) (db s))); [done|]. apply one_open_add; [done|].
    intros b Hb. by destruct (Hf b Hb). }
  destruct (open_alert_found s3 (dv_id device) ty Hn3) as ([a|] & E' & Ho'); unfold mbind, proc_bind; rewrite E'; [done|].
  exfalso. assert (open_alert (dv_id device) ty alert = false) as Hfalse
    by (apply Ho'; rewrite Hal; apply in_or_app; right; by left).
  unfold open_alert in Hfalse. simpl in Hfalse. by rewrite Z.eqb_refl, seqb_refl in Hfalse.
Qed.

(** The worker that marks devices offline raises its alerts past [create_alert]: they are stored, and no stream gets them. *)
Theorem offline_alerts_not_streamed cfg now ids s : alert_queues (snd (check_offline_devices cfg now ids s)) = alert_queues s.
Proof. unfold check_offline_devices, worker. by match goal with |- context [let (_, _) := ?m in _] => destruct m end. Qed.
End props.

Definition device_of (i : uuid) (org : option uuid) : DeviceRow :=
  {| dv_id := i; dv_hostname := "srv"; dv_os_type := "linux"; dv_os_version := None; dv_arch := None; dv_ip_address := None;
     dv_fingerprint := Some "f"; dv_api_key_hash := "k"; dv_enrolled_at := 0; dv_last_seen := None; dv_status := "online";
     dv_is_revoked := false; dv_label := None; dv_notes := None; dv_tags := []; dv_serial_number := None;
     dv_manufacturer := None; dv_model_name := None; dv_purchase_date := None; dv_warranty_expires := None;
     dv_location := None; dv_assigned_to := None; dv_asset_tag := None; dv_maintenance_mode := false;
     dv_maintenance_until := None; dv_maintenance_reason := None; dv_agent_version := None; dv_org_id := org |}.
Definition sample_device : DeviceRow := device_of 7 (Some 10).
Definition one_device : server :=
  set_alert_queues [(1%nat, [])] (start (set_devices [sample_device] empty_db)).

Lemma alert_raised_once_witness :
  ∃ s', create_alert (λ _, None) 0 100 sample_device "high_cpu" "warning" "hot" one_device
        = (Ok (dv_set_status "alert" sample_device), s') ∧ length (alerts (db s')) = 1%nat ∧
        (length ∘ snd <$> alert_queues s') = [1%nat].
Proof.
  destruct (alert_raised_once (λ _, None) 0 100 sample_device "high_cpu" "warning" "hot" one_device) as (s' & E & H1 & H2 & _);
    [constructor|reflexivity|reflexivity|intros a []|].
  exists s'. split; [exact E|]. rewrite H1, H2. split; vm_compute; reflexivity.
Defined.

Example offline_alert_stored :
  let s := set_alert_queues [(1%nat, [])] (start (set_devices [dv_set_last_seen (Some 0) sample_device] empty_db)) in
  let s' := snd (check_offline_devices default_settings (seconds 121) (λ i, Z.of_nat i) s) in
  map ar_alert_type (alerts (saved s')) = ["offline"] ∧ alert_queues s' = [(1%nat, [])].
Proof. vm_compute. done. Qed.

End AlertProps.
