(* ===== verification/ServerCommands.v ===== *)
(** Commands of the server: [services/command_service.py], [api/v1/commands.py],
    [api/v1/commands_bulk.py], [api/v1/software_updates.py],
    [api/v1/scheduled_commands.py], [tasks/scheduler_tasks.py] and
    [tasks/cleanup_tasks.py].

    The cron library is a parameter: [croniter e t] is the first time after [t]
    that the expression [e] fits, [None] when it refuses the expression. *)
From Stdlib Require Import QArith.
From S2P Require Import Prelude JsString JsNumber Types JsJson JsonText ServerModels ServerRuntime ServerAuth ServerConnections ServerAlerts.
Local Open Scope Z_scope.
Local Open Scope js_scope.

(** ** Data *)

Definition ALLOWED_COMMAND_TYPES : list jstr :=
  ["shell"; "script"; "update_check"; "reboot"; "sync_time"; "request_process_list"; "diagnostics"; "update"].

Definition command_message (c : CommandRow) : json :=
  JObj [("type", JStr "command");
        ("data", JObj [("command_id", JStr (str_uuid (cd_id c))); ("command_type", JStr (cd_command_type c));
                       ("payload", JObj (cd_payload c))])].

(** A command that waits for its device. *)
Definition queued (device_id : uuid) (c : CommandRow) : bool :=
  (cd_device_id c =? device_id) && ((cd_status c =s "pending") || (cd_status c =s "sent")).
Definition usable_device (device_id : uuid) (d : DeviceRow) : bool := has_pk device_id d && negb (dv_is_revoked d).
Definition device_for_org (device_id org_id : uuid) (d : DeviceRow) : bool :=
  has_pk device_id d && bool_decide (dv_org_id d = Some org_id) && negb (dv_is_revoked d).

(** ** [CommandService] *)

Definition service_payload (now : Z) (command_type : jstr) (payload : list (jstr * json)) : list (jstr * json) :=
  if (command_type =s "sync_time") && negb (existsb (λ f, fst f =s "target_time") payload)
  then payload ++ [("target_time", JStr (isoformat now))] else payload.

(** [CommandService.dispatch_command]; [cid] is the identifier of the command.
    The text of the refusal goes on with the set of types, in no fixed order. *)
Definition service_dispatch (now : Z) (cid : uuid) (device_id : uuid) (command_type : jstr) (payload : list (jstr * json))
    (issued_by : option uuid) (fail_if_offline : bool) : proc (CommandRow * bool) :=
  refuse (negb (existsb (seqb command_type) ALLOWED_COMMAND_TYPES)) (BadRequestError "Command type must be one of: ");;
  let payload := service_payload now command_type payload in
  pending_count ← count (queued device_id);
  refuse (100 <=? pending_count) (TooManyRequestsError "Too many queued commands for this device");;
  device ← select_one (usable_device device_id);
  (require (NotFoundError ("Device " ++ str_uuid device_id ++ " not found")) device : proc DeviceRow);;
  let command := {| cd_id := cid; cd_device_id := device_id; cd_issued_by := issued_by; cd_command_type := command_type;
                    cd_payload := payload; cd_status := "pending"; cd_created_at := now; cd_started_at := None;
                    cd_completed_at := None; cd_exit_code := None; cd_output := None |} in
  refuse (negb (jsonb_ok (JObj payload))) DataError;;
  add command;;
  sent ← send_to_device device_id (command_message command);
  if sent : bool then
    update_row cid (cd_set_status "sent");; mret (cd_set_status "sent" command, true)
  else if fail_if_offline then
    let fail c := cd_set_completed_at (Some now) (cd_set_output (Some "Device not connected") (cd_set_status "failed" c)) in
    update_row cid fail;; mret (fail command, false)
  else mret (command, false).

(** [CommandService.get_command] *)
Definition service_get_command (command_id : uuid) : proc CommandRow :=
  cmd ← select_one (has_pk command_id);
  require (NotFoundError ("Command " ++ str_uuid command_id ++ " not found")) cmd.

(** ** [api/v1/commands.py] *)

Definition get_device_for_org (device_id org_id : uuid) : proc DeviceRow :=
  device ← select_one (device_for_org device_id org_id);
  require (HTTPException 404 "Device not found") device.

Definition validate_shell_payload (payload : list (jstr * json)) : bool :=
  match field "command" (JObj payload) with Some (JStr s) => Nat.leb (length s) 10000 | _ => true end.

Section commands.
Context `{Crypto}.

(** [dispatch_command]: the command as it is answered. *)
Definition dispatch_command (now : Z) (cid lid : uuid) (cred : option jstr) (device_id : uuid) (command_type : jstr)
    (payload : list (jstr * json)) : proc (uuid * jstr) :=
  current_user ← get_current_user now cred;
  current_org_id ← get_current_org_id now cred;
  refuse (negb (validate_shell_payload payload)) (HTTPException 422 "Unprocessable Entity");;
  get_device_for_org device_id current_org_id;;
  '(cmd, _) ← service_dispatch now cid device_id command_type payload (Some (us_id current_user)) true;
  log_action now lid (Some current_user) "command_dispatched" (Some "device") (Some (str_uuid device_id)) None
    (Some (JObj [("command_type", JStr command_type)])) None;;
  commit;;
  mret (cd_id cmd, cd_status cmd).

Definition opt_iso (t : option Z) : json := match t with Some t => JStr (isoformat t) | None => JNull end.
Definition opt_num (z : option Z) : json := match z with Some z => JNum (of_Z z) | None => JNull end.
Definition opt_str (s : option jstr) : json := match s with Some s => JStr s | None => JNull end.

(** A command in the answer of [list_commands]. *)
Definition fmt_command (c : CommandRow) : json :=
  JObj [("id", JStr (str_uuid (cd_id c))); ("command_type", JStr (cd_command_type c)); ("payload", JObj (cd_payload c));
        ("status", JStr (cd_status c)); ("exit_code", opt_num (cd_exit_code c));
        ("created_at", JStr (isoformat (cd_created_at c))); ("completed_at", opt_iso (cd_completed_at c));
        ("output", opt_str (cd_output c))].

Definition list_commands (now : Z) (cred : option jstr) (device_id : uuid) (skip limit : Z) : proc (Z * list json) :=
  get_current_user now cred;;
  current_org_id ← get_current_org_id now cred;
  get_device_for_org device_id current_org_id;;
  cmds ← select (λ c, cd_device_id c =? device_id);
  refuse (negb ((0 <=? skip) && in_width 64 skip && (0 <=? limit) && in_width 64 limit)) DataError;;
  mret (Z.of_nat (length cmds),
        map fmt_command (take (Z.to_nat limit) (drop (Z.to_nat skip)
          (stable_sort (λ a b, cd_created_at b <=? cd_created_at a) cmds)))).

Definition get_command (now : Z) (cred : option jstr) (device_id command_id : uuid) : proc json :=
  get_current_user now cred;;
  current_org_id ← get_current_org_id now cred;
  get_device_for_org device_id current_org_id;;
  cmd ← service_get_command command_id;
  refuse (negb (cd_device_id cmd =? device_id)) (HTTPException 404 "Command not found");;
  mret (JObj [("id", JStr (str_uuid (cd_id cmd))); ("command_type", JStr (cd_command_type cmd));
              ("payload", JObj (cd_payload cmd)); ("status", JStr (cd_status cmd)); ("exit_code", opt_num (cd_exit_code cmd));
              ("output", opt_str (cd_output cmd)); ("created_at", JStr (isoformat (cd_created_at cmd)));
              ("started_at", opt_iso (cd_started_at cmd)); ("completed_at", opt_iso (cd_completed_at cmd))]).

(** ** [api/v1/commands_bulk.py] *)

(** One device of a bulk request: the identifier of its command, or why there
    is none ([None] for a device that is not of the organization). *)
Inductive bulk_answer := BulkDispatched (device_id command_id : uuid) | BulkFailed (device_id : uuid) (error : option exn).

Definition bulk_one (now : Z) (allowed_ids : list uuid) (command_type : jstr) (payload : list (jstr * json)) (user : uuid)
    (x : uuid * uuid) : proc bulk_answer :=
  let '(cid, device_id) := x in
  if negb (existsb (Z.eqb device_id) allowed_ids) then mret (BulkFailed device_id None)
  else catch
         ('(cmd, _) ← begin_nested (service_dispatch now cid device_id command_type payload (Some user) false);
          mret (BulkDispatched device_id (cd_id cmd)))
         (λ e, mret (BulkFailed device_id (Some e))).

Definition dispatch_bulk_command (now : Z) (ids : nat → uuid) (cred : option jstr) (device_ids : list uuid) (command_type : jstr)
    (payload : list (jstr * json)) : proc (list bulk_answer) :=
  current_user ← require_admin now cred;
  current_org_id ← get_current_org_id now cred;
  refuse (Nat.eqb (length device_ids) 0 || negb (validate_shell_payload payload)) (HTTPException 422 "Unprocessable Entity");;
  allowed ← select (λ d, bool_decide (dv_org_id d = Some current_org_id) && existsb (Z.eqb (dv_id d)) device_ids);
  answers ← map_each (bulk_one now (map dv_id allowed) command_type payload (us_id current_user))
              (imap (λ i d, (ids i, d)) device_ids);
  commit;;
  mret answers.

(** ** [api/v1/software_updates.py] *)

Definition _build_update_command (os_type : jstr) (packages : list jstr) : jstr :=
  let package_list := join " " packages in
  if os_type =s "windows" then
    "powershell -Command " ++ [34] ++ "if (Get-Command winget -ErrorAction SilentlyContinue) { "
    ++ join "; " (map (λ pkg, "winget upgrade --exact --id " ++ pkg ++ " --silent") packages)
    ++ " } elseif (Get-Command choco -ErrorAction SilentlyContinue) { choco upgrade -y " ++ package_list
    ++ " } else { Write-Output 'No supported package manager found' }" ++ [34]
  else if os_type =s "macos" then "brew upgrade " ++ package_list
  else "if command -v apt-get >/dev/null 2>&1; then apt-get install -y " ++ package_list
       ++ "; elif command -v dnf >/dev/null 2>&1; then dnf update -y " ++ package_list
       ++ "; else echo 'No supported package manager found'; exit 1; fi".

Definition update_one (now : Z) (devices : list DeviceRow) (software_names : list jstr) (user : uuid) (x : uuid * uuid)
    : proc (list (uuid * uuid)) :=
  let '(cid, device_id) := x in
  match find (has_pk device_id) devices with
  | None => mret []
  | Some device =>
      '(command, _) ← service_dispatch now cid device_id "shell"
        [("command", JStr (_build_update_command (dv_os_type device) software_names))] (Some user) false;
      mret [(device_id, cd_id command)]
  end.

(** [dispatch_updates]: the devices and their commands. *)
Definition dispatch_updates (now : Z) (ids : nat → uuid) (cred : option jstr) (software_names : list jstr)
    (device_ids : list uuid) : proc (list (uuid * uuid)) :=
  current_user ← get_current_user now cred;
  current_org_id ← get_current_org_id now cred;
  devices ← select (λ d, existsb (Z.eqb (dv_id d)) device_ids && bool_decide (dv_org_id d = Some current_org_id));
  dispatched ← map_each (update_one now devices software_names (us_id current_user)) (imap (λ i d, (ids i, d)) device_ids);
  commit;;
  mret (List.concat dispatched).

End commands.

(** ** Schedules *)

Section schedules.
Context `{Crypto} (croniter : jstr → Z → option Z).

Definition _compute_next_run (now : Z) (expression : jstr) : proc Z := require ValueError (croniter expression now).

Definition fmt_scheduled_command (i : ScheduledRow) : json :=
  JObj [("id", JStr (str_uuid (sd_id i))); ("device_id", opt_str (str_uuid <$> sd_device_id i));
        ("command_type", JStr (sd_command_type i)); ("payload", match sd_payload i with Some p => JObj p | None => JNull end);
        ("cron_expression", JStr (sd_cron_expression i)); ("is_enabled", JBool (sd_is_enabled i));
        ("last_run_at", opt_iso (sd_last_run_at i)); ("next_run_at", opt_iso (sd_next_run_at i));
        ("created_by", opt_str (str_uuid <$> sd_created_by i)); ("created_at", JStr (isoformat (sd_created_at i)))].

Definition list_scheduled_commands (now : Z) (cred : option jstr) : proc (list json) :=
  require_admin now cred;;
  current_org_id ← get_current_org_id now cred;
  l ← select (λ i, sd_org_id i =? current_org_id);
  mret (map fmt_scheduled_command (stable_sort (λ a b, sd_created_at b <=? sd_created_at a) l)).

(** The checks of the database on a schedule: widths, and the device exists. *)
Definition schedule_storable (i : ScheduledRow) : proc unit :=
  refuse (negb (fits 50 (sd_command_type i) && storable (sd_command_type i) && fits 100 (sd_cron_expression i)
                && storable (sd_cron_expression i) && jsonb_ok (JObj (sd_payload i ?? [])))) DataError;;
  known ← gets (λ s, match sd_device_id i with Some u => existsb (has_pk u) (devices (db s)) | None => true end);
  refuse (negb known) IntegrityError.

Definition create_scheduled_command (now : Z) (sid lid : uuid) (cred : option jstr) (device_id : option uuid)
    (command_type : jstr) (payload : list (jstr * json)) (cron_expression : jstr) (is_enabled : bool) : proc json :=
  current_user ← require_admin now cred;
  current_org_id ← get_current_org_id now cred;
  next_run ← _compute_next_run now cron_expression;
  let scheduled := {| sd_id := sid; sd_org_id := current_org_id; sd_device_id := device_id; sd_command_type := command_type;
                      sd_payload := Some payload; sd_cron_expression := cron_expression; sd_is_enabled := is_enabled;
                      sd_last_run_at := None; sd_next_run_at := if is_enabled then Some next_run else None;
                      sd_created_by := Some (us_id current_user); sd_created_at := now |} in
  schedule_storable scheduled;;
  known ← gets (λ s, existsb (has_pk current_org_id) (organizations (db s)));
  refuse (negb known) IntegrityError;;
  add scheduled;;
  log_action now lid (Some current_user) "scheduled_command_created" (Some "scheduled_command") (Some (str_uuid sid)) None
    (Some (JObj [("command_type", JStr command_type); ("device_id", opt_str (str_uuid <$> device_id))])) None;;
  commit;;
  mret (fmt_scheduled_command scheduled).

(** The body of an update: the fields that are set, which may be null.  A null
    payload is stored as such. *)
Record schedule_update := {
  su_device_id : option (option uuid); su_command_type : option (option jstr); su_payload : option (option (list (jstr * json)));
  su_cron_expression : option (option jstr); su_is_enabled : option (option bool) }.
(** The value of an attribute after the update; [None] is null. *)
Definition updated {A} (new : option (option A)) (old : A) : option A := match new with Some v => v | None => Some old end.

(** [update_scheduled_command]; the answer is [None] when there is none. *)
Definition update_scheduled_command (now : Z) (cred : option jstr) (sid : uuid) (body : schedule_update) : proc (option json) :=
  require_admin now cred;;
  scheduled ← db_get sid;
  match scheduled with
  | None => mret None
  | Some i =>
      let enabled := updated (su_is_enabled body) (sd_is_enabled i) in
      let cron := updated (su_cron_expression body) (sd_cron_expression i) in
      next ← (if enabled ?? false then e ← require AttributeError cron; next ← _compute_next_run now e; mret (Some next)
              else mret None);
      command_type ← not_null (updated (su_command_type body) (sd_command_type i));
      cron ← not_null cron;
      enabled ← not_null enabled;
      let i' := {| sd_id := sid; sd_org_id := sd_org_id i;
                   sd_device_id := match su_device_id body with Some d => d | None => sd_device_id i end;
                   sd_command_type := command_type;
                   sd_payload := match su_payload body with Some p => p | None => sd_payload i end; sd_cron_expression := cron;
                   sd_is_enabled := enabled; sd_last_run_at := sd_last_run_at i; sd_next_run_at := next;
                   sd_created_by := sd_created_by i; sd_created_at := sd_created_at i |} in
      schedule_storable i';;
      update_row sid (λ _, i');;
      commit;;
      mret (Some (fmt_scheduled_command i'))
  end.

Definition delete_scheduled_command (now : Z) (lid : uuid) (cred : option jstr) (sid : uuid) : proc bool :=
  current_user ← require_admin now cred;
  scheduled ← db_get (R := ScheduledRow) sid;
  match scheduled with
  | None => mret false
  | Some _ =>
      delete_row (R := ScheduledRow) sid;;
      log_action now lid (Some current_user) "scheduled_command_deleted" (Some "scheduled_command") (Some (str_uuid sid))
        None None None;;
      commit;;
      mret true
  end.

(** *** [run_scheduled_commands] *)

Definition due (now : Z) (i : ScheduledRow) : bool :=
  sd_is_enabled i && match sd_next_run_at i with Some t => t <=? now | None => false end.

(** One schedule; [ids] are the identifiers of its commands. *)
Definition run_schedule (now : Z) (ids : nat → uuid) (i : ScheduledRow) : proc unit :=
  device_ids ← match sd_device_id i with
               | Some d => mret [d]
               | None => l ← select (λ d : DeviceRow, negb (dv_is_revoked d)); mret (map dv_id l)
               end;
  for_each (λ '(cid, d), service_dispatch now cid d (sd_command_type i) (sd_payload i ?? []) (sd_created_by i) false;; mret tt)
    (imap (λ n d, (ids n, d)) device_ids);;
  next ← require ValueError (croniter (sd_cron_expression i) now);
  update_row (sd_id i) (λ r, sd_set_next_run_at (Some next) (sd_set_last_run_at (Some now) r)).

Definition run_scheduled_commands (now : Z) (ids : nat → nat → uuid) : proc unit :=
  worker (
    scheduled_commands ← select (due now);
    for_each (λ '(n, i), run_schedule now (ids n) i) (imap pair scheduled_commands);;
    commit).

End schedules.

(** ** [tasks/cleanup_tasks.py] *)

Definition run_cleanup (cfg : Settings) (now : Z) : proc unit :=
  worker (
    delete_where (λ m, mt_time m <? now - days (METRIC_RETENTION_DAYS cfg));;
    delete_where (λ e, ev_time e <? now - days (EVENT_RETENTION_DAYS cfg));;
    delete_where (λ c, cd_created_at c <? now - days (COMMAND_RETENTION_DAYS cfg));;
    delete_where (λ a, (ar_created_at a <? now - days (ALERT_RETENTION_DAYS cfg)) && ar_is_resolved a);;
    commit).

Definition stale_command (now : Z) (c : CommandRow) : bool := (cd_status c =s "sent") && (cd_created_at c <? now - seconds 600).
(** [cleanup_stale_commands]: the number of commands given up. *)
Definition cleanup_stale_commands (now : Z) : proc Z :=
  worker (
    n ← count (stale_command now);
    update_where (stale_command now) (λ c,
      cd_set_completed_at (Some now) (cd_set_output (Some "Connection lost before result received") (cd_set_status "failed" c)));;
    commit;;
    mret n).

(** ** Facts *)

(** The status a command starts with. *)
Definition dispatch_status (sent fail_if_offline : bool) : jstr :=
  if sent then "sent" else if fail_if_offline then "failed" else "pending".

(** What became of a dispatch: it is refused and nothing happens, or a row is
    added, and sent if the device is connected. *)
Definition dispatched (now : Z) (cid device_id : uuid) (command_type : jstr) (payload : list (jstr * json)) (by_user : option uuid)
    (fail_if_offline : bool) (s s' : server) (c : CommandRow) (sent : bool) : Prop :=
  cd_id c = cid ∧ cd_device_id c = device_id ∧ cd_command_type c = command_type ∧
  cd_payload c = service_payload now command_type payload ∧ cd_issued_by c = by_user ∧ cd_created_at c = now ∧
  cd_status c = dispatch_status sent fail_if_offline ∧
  db s' = set_commands (commands (db s) ++ [c]) (db s) ∧ saved s' = saved s ∧
  (if sent then ∃ ws, dict_get device_id (connections s) = Some ws ∧ out s' = out s ++ [SendJson ws (command_message c)]
   else out s' = out s) ∧
  (length (bfilter (queued device_id) (commands (db s))) < 100)%nat ∧
  (∃ d, In d (devices (db s)) ∧ dv_id d = device_id ∧ dv_is_revoked d = false) ∧
  existsb (seqb command_type) ALLOWED_COMMAND_TYPES = true ∧
  ∀ d ws, dict_get d (connections s') = Some ws → dict_get d (connections s) = Some ws.

Lemma update_last (l : list CommandRow) c f :
  (∀ c', In c' l → conflict c c' = false) →
  map (λ r, if has_pk (cd_id c) r then f r else r) (l ++ [c]) = l ++ [f c].
Proof.
  intros Hf. rewrite map_app. f_equal; [|simpl; unfold has_pk; simpl; by rewrite Z.eqb_refl].
  rewrite <-(map_id l) at 2. apply map_ext_in. intros r Hr. specialize (Hf r Hr). simpl in Hf. unfold has_pk. simpl.
  by rewrite Z.eqb_sym, Hf.
Qed.

Lemma service_dispatch_run now cid dev ty payload by_user fail s :
  (∃ e, service_dispatch now cid dev ty payload by_user fail s = (Raise e, s)) ∨
  (∃ c sent s', service_dispatch now cid dev ty payload by_user fail s = (Ok (c, sent), s') ∧
     dispatched now cid dev ty payload by_user fail s s' c sent).
Proof.
  unfold service_dispatch. run_proc. destruct (existsb (seqb ty) ALLOWED_COMMAND_TYPES) eqn:Et; [|left; by eexists]. cbn [negb].
  unfold count, gets. destruct (Z.leb_spec 100 (Z.of_nat (length (bfilter (queued dev) (rows (db s)))))) as [|Hlt]; [left; by eexists|].
  destruct (reads_select_one (usable_device dev) s) as [(o & E & Ho)|(e & E)]; rewrite E; [|left; by eexists].
  destruct o as [d|]; [|left; by eexists]. destruct Ho as [Hd Hu]. destruct (negb (jsonb_ok _)); [left; by eexists|].
  unfold add. destruct (existsb (conflict _) _) eqn:Ef; [left; by eexists|].
  match goal with |- context [send_to_device dev ?m ?s1] => set (m' := m); set (s1' := s1) end.
  destruct (send_to_device_db dev m' s1') as (b & s2 & -> & H1 & H2 & H3 & H4 & H5). right.
  unfold usable_device, has_pk in Hu. apply andb_true_iff in Hu as [Hid%Z.eqb_eq Hrev%negb_true_iff]. simpl in Hlt.
  assert (∀ c', In c' (commands (db s)) → (cid =? cd_id c') = false) as Hfresh.
  { intros c' Hc'. apply not_true_iff_false. intros E'. apply not_true_iff_false in Ef. apply Ef, existsb_exists. by exists c'. }
  unfold s1' in *. simpl in H1, H2. destruct b; [|destruct fail]; eexists _, _, _; (split; [done|]); split_and!; simpl; try done.
  all: try match goal with m' := command_message ?c |- _ = set_commands _ _ =>
    rewrite H1; exact (f_equal (λ l, set_commands l (db s)) (update_last (commands (db s)) c _ Hfresh)) end.
  all: try match goal with |- ∃ d, _ => eexists; split_and!; done end. all: try lia. all: try (by apply H4).
  destruct (H3 eq_refl) as (ws & Hws & ->). exists ws. simpl. done.
Qed.

Lemma with_db_ok {A} (m : proc A) s a s' : with_db m s = (Ok a, s') → ∃ s1, m s = (Ok a, s1) ∧ s' = snd (commit s1).
Proof. unfold with_db. destruct (m s) as [[a'|e] s1]; [|done]. intros [= -> <-]. by exists s1. Qed.

(** *** What becomes of a dispatched command *)

(** What the service asks for before it stores a command. *)
Definition can_dispatch (now : Z) (cid device_id : uuid) (command_type : jstr) (payload : list (jstr * json)) (d : database) : Prop :=
  existsb (seqb command_type) ALLOWED_COMMAND_TYPES = true ∧
  (length (bfilter (queued device_id) (commands d)) < 100)%nat ∧
  (∃ r, bfilter (usable_device device_id) (devices d) = [r]) ∧
  jsonb_ok (JObj (service_payload now command_type payload)) = true ∧ ¬ In cid (map cd_id (commands d)).

(** The message of a command, on the open socket of its device. *)
Definition command_send (s : server) (c : CommandRow) : option effect :=
  (λ ws, SendJson ws (command_message c)) <$> live_socket (cd_device_id c) s.
(** How a command starts: sent if its device has an open socket, else given up at once or left waiting. *)
Definition starts (fail_if_offline : bool) (now : Z) (s : server) (c : CommandRow) : Prop :=
  match live_socket (cd_device_id c) s with
  | Some _ => cd_status c = "sent" ∧ cd_output c = None
  | None => if fail_if_offline then cd_status c = "failed" ∧ cd_output c = Some "Device not connected" ∧ cd_completed_at c = Some now
            else cd_status c = "pending" ∧ cd_output c = None
  end.
(** The commands [cs] were stored, and those of connected devices sent, in order. *)
Definition settled (fail_if_offline : bool) (now : Z) (s s' : server) (cs : list CommandRow) : Prop :=
  commands (db s') = commands (db s) ++ cs ∧ out s' = out s ++ omap (command_send s) cs ∧
  Forall (starts fail_if_offline now s) cs ∧ ∀ d, live_socket d s' = live_socket d s.

Lemma settled_none fail now s s' :
  commands (db s') = commands (db s) → out s' = out s → (∀ d, live_socket d s' = live_socket d s) → settled fail now s s' [].
Proof. intros H1 H2 H3. split_and!; [by rewrite H1, app_nil_r|by rewrite H2, app_nil_r|done|done]. Qed.
Lemma settled_trans fail now s1 s2 s3 cs cs' :
  settled fail now s1 s2 cs → settled fail now s2 s3 cs' → settled fail now s1 s3 (cs ++ cs').
Proof.
  intros (H1 & H2 & H3 & H4) (H5 & H6 & H7 & H8). split_and!.
  - by rewrite H5, H1, <-app_assoc.
  - rewrite H6, H2, <-app_assoc, omap_app. do 2 f_equal. apply list_omap_ext. rewrite Forall2_same_length_lookup.
    split; [done|]. intros i x y Hx Hy. rewrite Hx in Hy. injection Hy as ->. unfold command_send. by rewrite H4.
  - apply Forall_app. split; [done|]. eapply Forall_impl; [exact H7|]. intros c. unfold starts. by rewrite H4.
  - intros d. by rewrite H8, H4.
Qed.
(** Steps that leave the commands, the connections and what was sent. *)
Lemma settled_then fail now s s' s'' cs :
  settled fail now s s' cs → commands (db s'') = commands (db s') → out s'' = out s' → (∀ d, live_socket d s'' = live_socket d s') →
  settled fail now s s'' cs.
Proof. intros Hs H1 H2 H3. rewrite <-(app_nil_r cs). eapply settled_trans; [exact Hs|]. by apply settled_none. Qed.

(** The service refuses and nothing happens, or it stores the command and sends it. *)
Lemma service_dispatch_outcome now cid dev ty payload by_user fail s :
  (¬ can_dispatch now cid dev ty payload (db s) ∧ ∃ e, service_dispatch now cid dev ty payload by_user fail s = (Raise e, s)) ∨
  (can_dispatch now cid dev ty payload (db s) ∧
   ∃ c s', service_dispatch now cid dev ty payload by_user fail s = (Ok (c, bool_decide (live_socket dev s ≠ None)), s') ∧
     cd_id c = cid ∧ cd_device_id c = dev ∧ cd_command_type c = ty ∧ cd_payload c = service_payload now ty payload ∧
     settled fail now s s' [c] ∧ saved s' = saved s).
Proof.
  unfold can_dispatch, service_dispatch. run_proc.
  destruct (existsb (seqb ty) ALLOWED_COMMAND_TYPES) eqn:Et; [|left; split; [by intros []|by eexists]]. cbn [negb].
  unfold count, gets. destruct (Z.leb_spec 100 (Z.of_nat (length (bfilter (queued dev) (rows (db s)))))) as [Hge|Hlt];
    [left; split; [intros (_ & Hl & _); simpl in Hge; lia|by eexists]|].
  unfold select_one, select, gets. run_proc. cbn [rows devices_table]. simpl in Hlt.
  destruct (bfilter (usable_device dev) (devices (db s))) as [|d [|d' l]] eqn:Eb; cbn [scalar_one_or_none]; run_proc;
    [left; split; [by intros (_ & _ & [? ?] & _)|by eexists]| |left; split; [by intros (_ & _ & [? ?] & _)|by eexists]].
  destruct (jsonb_ok (JObj (service_payload now ty payload))) eqn:Ej; cbn [negb]; [|left; split; [by intros (_ & _ & _ & ? & _)|by eexists]].
  unfold add. destruct (existsb (conflict _) _) eqn:Ef.
  { left. split; [|by eexists]. intros (_ & _ & _ & _ & Hn). apply existsb_exists in Ef as (c' & Hc' & E%Z.eqb_eq). apply Hn.
    simpl in E, Hc'. rewrite E. by apply in_map. }
  right. assert (∀ c', In c' (commands (db s)) → (cid =? cd_id c') = false) as Hfresh.
  { intros c' Hc'. apply not_true_iff_false. intros E'. apply not_true_iff_false in Ef. apply Ef, existsb_exists. by exists c'. }
  split. { split_and!; try done; [lia|by eexists|]. intros (c' & E & Hc')%in_map_iff. specialize (Hfresh c' Hc'). simpl in E. lia. }
  match goal with |- context [send_to_device dev ?m ?s1] => set (m' := m); set (s1' := s1) end.
  destruct (send_to_device_live dev m' s1') as (s2 & -> & H1 & H2 & H3 & H4).
  assert (∀ d, live_socket d s1' = live_socket d s) as Hlive by done. rewrite Hlive in H3 |- *. unfold s1' in H1. simpl in H1.
  destruct (live_socket dev s) as [ws|] eqn:El; [|destruct fail]; eexists _, _; (split; [done|]); split_and!; try done.
  all: split_and!; simpl; try (by intros; rewrite <-Hlive, <-H4).
  all: try match goal with m' := command_message ?c |- _ = _ => rewrite H1; exact (update_last (commands (db s)) c _ Hfresh) end.
  all: try (constructor; [|done]; unfold starts; simpl; rewrite El; done).
  all: try (unfold command_send; simpl; rewrite El; simpl; by rewrite ?app_nil_r, H3, ?app_nil_r).
  by rewrite H1.
Qed.

Lemma service_dispatch_settled now cid dev ty payload by_user fail s c sent s' :
  service_dispatch now cid dev ty payload by_user fail s = (Ok (c, sent), s') →
  settled fail now s s' [c] ∧ saved s' = saved s ∧
  cd_id c = cid ∧ cd_device_id c = dev ∧ cd_command_type c = ty ∧ cd_payload c = service_payload now ty payload.
Proof.
  intros Hrun. destruct (service_dispatch_outcome now cid dev ty payload by_user fail s)
    as [(_ & e & E)|(_ & c' & s2 & E & H1 & H2 & H3 & H4 & H5 & H6)]; rewrite E in Hrun; [done|]. injection Hrun as <- _ <-. done.
Qed.

Section settled_loop.
Context {A B V : Type} (fail : bool) (now : Z) (f : A → proc B) (view : CommandRow → V) (seen : B → list V).
Hypothesis Hf : ∀ x s a s', f x s = (Ok a, s') → ∃ cs, settled fail now s s' cs ∧ map view cs = seen a.
Lemma map_each_settled l s answers s' :
  map_each f l s = (Ok answers, s') → ∃ cs, settled fail now s s' cs ∧ map view cs = flat_map seen answers.
Proof.
  revert s answers. induction l as [|x l IH]; intros s answers Hrun.
  - injection Hrun as <- <-. exists []. split; [by apply settled_none|done].
  - cbn [map_each] in Hrun. step Hrun. step Hrun. injection Hrun as <- <-. apply Hf in E as (cs & H1 & H2).
    apply IH in E0 as (cs' & H3 & H4). exists (cs ++ cs'). split; [by eapply settled_trans|]. by rewrite map_app, H2, H4.
Qed.
End settled_loop.
Lemma for_each_settled {A} fail now (f : A → proc unit) l s u s' :
  (∀ x s u s', f x s = (Ok u, s') → ∃ cs, settled fail now s s' cs) →
  for_each f l s = (Ok u, s') → ∃ cs, settled fail now s s' cs.
Proof.
  intros Hf. revert s. induction l as [|x l IH]; intros s Hrun.
  - injection Hrun as <- <-. exists []. by apply settled_none.
  - cbn [for_each] in Hrun. step Hrun. apply Hf in E as (cs & H1). apply IH in Hrun as (cs' & H3).
    exists (cs ++ cs'). by eapply settled_trans.
Qed.

(** *** At most a hundred commands wait *)

Definition queue_length (device_id : uuid) (d : database) : nat := length (bfilter (queued device_id) (commands d)).
Definition queue_ok (d : database) : Prop := ∀ device_id, (queue_length device_id d ≤ 100)%nat.

Lemma queue_ok_update d (p : CommandRow → bool) f :
  (∀ c dev, queued dev (f c) = true → queued dev c = true) → queue_ok d →
  queue_ok (set_commands (map (λ c, if p c then f c else c) (commands d)) d).
Proof.
  intros Hf Hd dev. etrans; [|apply (Hd dev)]. unfold queue_length. simpl. induction (commands d) as [|c l IH]; [done|]. simpl.
  destruct (p c); simpl.
  - destruct (queued dev (f c)) eqn:E; [rewrite (Hf _ _ E); simpl; lia|]. destruct (queued dev c); simpl; lia.
  - destruct (queued dev c); simpl; lia.
Qed.
Lemma queue_ok_delete d (p : CommandRow → bool) : queue_ok d → queue_ok (set_commands (bfilter p (commands d)) d).
Proof.
  intros Hd dev. etrans; [|apply (Hd dev)]. unfold queue_length. simpl. induction (commands d) as [|c l IH]; [done|]. simpl.
  destruct (p c); simpl; destruct (queued dev c); simpl; lia.
Qed.

Lemma queue_ok_update_where p f :
  (∀ c dev, queued dev (f c) = true → queued dev c = true) → preserves (on_db queue_ok) (update_where p f).
Proof. intros Hf. apply on_db_modify_db. intros d. by apply queue_ok_update. Qed.
Lemma queue_ok_delete_where (p : CommandRow → bool) : preserves (on_db queue_ok) (delete_where p).
Proof. apply on_db_modify_db. intros d. apply queue_ok_delete. Qed.

Lemma queue_ok_dispatch now cid dev ty payload by_user fail :
  preserves (on_db queue_ok) (service_dispatch now cid dev ty payload by_user fail).
Proof.
  intros s [Hd Hs]. destruct (service_dispatch_run now cid dev ty payload by_user fail s)
    as [(e & ->)|(c & sent & s' & -> & _ & Hc & _ & _ & _ & _ & _ & Hdb & Hsv & _ & Hlt & _)]; [done|].
  split; simpl; [|by rewrite Hsv]. rewrite Hdb. intros dev'. specialize (Hd dev'). unfold queue_length in *. simpl.
  rewrite bfilter_app, length_app. simpl. destruct (queued dev' c) eqn:E; simpl; [|lia].
  unfold queued in E. apply andb_true_iff in E as [E%Z.eqb_eq _]. assert (dev' = dev) as -> by congruence. lia.
Qed.
#[local] Hint Resolve queue_ok_dispatch queue_ok_delete_where : server.

Lemma on_db_log_action P now lid user action ty rid ip details name :
  ignores AuditRow P → preserves (on_db P) (log_action now lid user action ty rid ip details name).
Proof. intros Hi. unfold log_action. walk. Qed.
Lemma on_db_get_device_for_org P dev org : preserves (on_db P) (get_device_for_org dev org).
Proof. unfold get_device_for_org. walk. Qed.
Lemma on_db_require_admin `{Crypto} P now cred : preserves (on_db P) (require_admin now cred).
Proof. unfold require_admin. walk. Qed.
#[export] Hint Resolve on_db_log_action on_db_get_device_for_org on_db_require_admin : server.

Section queue.
Context `{Crypto} (croniter : jstr → Z → option Z) (cfg : Settings).

Lemma queue_ok_dispatch_command now cid lid cred dev ty payload :
  preserves (on_db queue_ok) (dispatch_command now cid lid cred dev ty payload).
Proof. unfold dispatch_command. walk. Qed.
Lemma queue_ok_bulk now ids cred devs ty payload : preserves (on_db queue_ok) (dispatch_bulk_command now ids cred devs ty payload).
Proof. unfold dispatch_bulk_command, bulk_one. walk. Qed.
Lemma queue_ok_updates now ids cred names devs : preserves (on_db queue_ok) (dispatch_updates now ids cred names devs).
Proof. unfold dispatch_updates, update_one. walk. Qed.
Lemma queue_ok_schedules now ids : preserves (on_db queue_ok) (run_scheduled_commands croniter now ids).
Proof. apply on_db_worker. unfold run_schedule. walk. Qed.
Lemma queue_ok_stale now : preserves (on_db queue_ok) (cleanup_stale_commands now).
Proof.
  apply on_db_worker. walk. apply queue_ok_update_where. intros c dev. unfold queued. simpl. by rewrite andb_false_r.
Qed.
Lemma queue_ok_cleanup now : preserves (on_db queue_ok) (run_cleanup cfg now).
Proof. apply on_db_worker. walk. Qed.
Lemma one_open_cleanup now : preserves (on_db one_open) (run_cleanup cfg now).
Proof.
  apply on_db_worker. walk. apply on_db_modify_db. intros d. apply one_open_delete.
Qed.
End queue.

(** *** Commands stay in the organization *)

Definition in_org (org : uuid) (l : list DeviceRow) (device_id : uuid) : Prop :=
  ∃ d, In d l ∧ dv_id d = device_id ∧ dv_org_id d = Some org.

(** Tables that differ by commands for devices of the organization. *)
Definition adds_in (org : uuid) (d0 d : database) : Prop :=
  devices d = devices d0 ∧ ∃ l, commands d = commands d0 ++ l ∧ Forall (λ c, in_org org (devices d0) (cd_device_id c)) l.
(** What was sent since [s0] went to connected devices of the organization. *)
Definition sends_in (org : uuid) (s0 s : server) : Prop :=
  (∃ es, out s = out s0 ++ es ∧
     Forall (λ e, ∃ ws m dev, e = SendJson ws m ∧ dict_get dev (connections s0) = Some ws ∧ in_org org (devices (db s0)) dev) es) ∧
  ∀ dev ws, dict_get dev (connections s) = Some ws → dict_get dev (connections s0) = Some ws.
Definition stays_in (org : uuid) (s0 s : server) : Prop := on_db (adds_in org (db s0)) s ∧ sends_in org s0 s.

Lemma sends_in_db org s0 d s : sends_in org s0 s → sends_in org s0 (set_db d s).
Proof. done. Qed.

Lemma adds_in_dispatch org d0 now cid dev ty payload by_user fail :
  in_org org (devices d0) dev → preserves (on_db (adds_in org d0)) (service_dispatch now cid dev ty payload by_user fail).
Proof.
  intros Hdev s [Hd Hs]. destruct (service_dispatch_run now cid dev ty payload by_user fail s)
    as [(e & ->)|(c & sent & s' & -> & _ & Hc & _ & _ & _ & _ & _ & Hdb & Hsv & _)]; [done|].
  split; simpl; [|by rewrite Hsv]. rewrite Hdb. destruct Hd as (H1 & l & H2 & H3). split; [done|]. exists (l ++ [c]). simpl.
  rewrite H2, <-app_assoc. split; [done|]. apply Forall_app. split; [done|]. constructor; [|done]. by rewrite Hc.
Qed.

Lemma sends_in_dispatch org s0 now cid dev ty payload by_user fail :
  in_org org (devices (db s0)) dev → preserves (sends_in org s0) (service_dispatch now cid dev ty payload by_user fail).
Proof.
  intros Hdev s [(es & He & Hes) Hc]. destruct (service_dispatch_run now cid dev ty payload by_user fail s)
    as [(e & ->)|(c & sent & s' & -> & _ & _ & _ & _ & _ & _ & _ & _ & _ & Ho & _ & _ & _ & Hc')]; [by split; [exists es|]|].
  split; simpl; [|eauto]. destruct sent; [|rewrite Ho; by exists es]. destruct Ho as (ws & Hws & Ho).
  exists (es ++ [SendJson ws (command_message c)]). rewrite Ho, He, <-app_assoc. split; [done|]. apply Forall_app. split; [done|].
  constructor; [|done]. eexists _, _, dev. split; [done|]. split; [by apply Hc|done].
Qed.

Lemma stays_in_dispatch org s0 now cid dev ty payload by_user fail :
  in_org org (devices (db s0)) dev → preserves (stays_in org s0) (service_dispatch now cid dev ty payload by_user fail).
Proof. intros Hdev s [H1 H2]. split; [by apply adds_in_dispatch|by apply sends_in_dispatch]. Qed.
Lemma stays_in_log org s0 now lid user action ty rid ip details name :
  preserves (stays_in org s0) (log_action now lid user action ty rid ip details name).
Proof.
  intros s [H1 H2]. split; [by apply on_db_log_action; [intros ? ? ?|]|].
  destruct (log_action_cases now lid user action ty rid ip details name s) as [(e & ->)|(lr & ->)]; done.
Qed.
Lemma stays_in_commit org s0 : preserves (stays_in org s0) commit.
Proof. intros s [H1 H2]. split; [by apply on_db_commit|done]. Qed.
Lemma stays_in_begin_nested {A} org s0 (m : proc A) : preserves (stays_in org s0) m → preserves (stays_in org s0) (begin_nested m).
Proof.
  intros Hm s [[Hd Hsv] H2]. specialize (Hm s (conj (conj Hd Hsv) H2)). unfold begin_nested. destruct (m s) as [[a|e] s']; [done|].
  destruct Hm as [[_ H3] H4]. by split; [split|].
Qed.
Lemma stays_in_with_db {A} org s0 (m : proc A) s : stays_in org s0 (snd (m s)) → stays_in org s0 (snd (with_db m s)).
Proof.
  unfold with_db. destruct (m s) as [[a|e] s']; intros [H1 H2]; (split; [|done]); [by apply on_db_commit|by apply on_db_rollback].
Qed.
#[local] Hint Resolve stays_in_dispatch stays_in_log stays_in_commit stays_in_begin_nested : server.

Section isolation.
Context `{Crypto}.

Inductive command_request :=
| Dispatch (now : Z) (cid lid : uuid) (cred : option jstr) (device_id : uuid) (command_type : jstr) (payload : list (jstr * json))
| BulkDispatch (now : Z) (ids : nat → uuid) (cred : option jstr) (device_ids : list uuid) (command_type : jstr)
    (payload : list (jstr * json))
| DispatchUpdates (now : Z) (ids : nat → uuid) (cred : option jstr) (names : list jstr) (device_ids : list uuid).

Definition serve_command (r : command_request) : proc unit :=
  match r with
  | Dispatch now cid lid cred dev ty payload => with_db (dispatch_command now cid lid cred dev ty payload);; mret tt
  | BulkDispatch now ids cred devs ty payload => with_db (dispatch_bulk_command now ids cred devs ty payload);; mret tt
  | DispatchUpdates now ids cred names devs => with_db (dispatch_updates now ids cred names devs);; mret tt
  end.
Definition command_cred (r : command_request) : Z * option jstr :=
  match r with
  | Dispatch now _ _ cred _ _ _ | BulkDispatch now _ cred _ _ _ | DispatchUpdates now _ cred _ _ => (now, cred)
  end.

Lemma stays_in_refl org s : db s = saved s → stays_in org s s.
Proof.
  intros E. split; [split|].
  - split; [done|]. exists []. by rewrite app_nil_r.
  - rewrite <-E. split; [done|]. exists []. by rewrite app_nil_r.
  - split; [|done]. exists []. by rewrite app_nil_r.
Qed.

Lemma reads_current_org now cred s :
  (∃ e, get_current_org_id now cred s = (Raise e, s)) ∨ (∃ org, get_current_org_id now cred s = (Ok org, s)).
Proof.
  pose proof (get_current_org_id_state now cred s) as E. destruct (get_current_org_id now cred s) as [[o|e] s']; simpl in E; subst; eauto.
Qed.

Lemma get_device_for_org_state dev org s : snd (get_device_for_org dev org s) = s.
Proof.
  unfold get_device_for_org. pose proof (select_one_state s (device_for_org dev org)) as Hs. run_proc.
  destruct (select_one _ s) as [[o|e] s']; simpl in Hs; subst; [|done]. by destruct o.
Qed.
Lemma get_device_for_org_ok dev org s d :
  get_device_for_org dev org s = (Ok d, s) → In d (devices (db s)) ∧ dv_id d = dev ∧ dv_org_id d = Some org ∧ dv_is_revoked d = false.
Proof.
  unfold get_device_for_org. intros Hrun. step Hrun. destruct r as [d'|]; [|done]. apply select_one_some in E as (-> & Hin & Hp).
  injection Hrun as <-. unfold device_for_org, has_pk in Hp. simpl in Hp.
  apply andb_true_iff in Hp as [[?%Z.eqb_eq ?%bool_decide_eq_true]%andb_true_iff ?%negb_true_iff]. done.
Qed.

(** What the credentials say goes for the whole request. *)
Lemma org_read {B} org now cred (P : server → Prop) (k : uuid → proc B) s :
  P s → (∀ o, get_current_org_id now cred s = (Ok o, s) → o = org) → (P s → P (snd (k org s))) →
  P (snd ((o ← get_current_org_id now cred; k o) s)).
Proof.
  intros Hs Ho Hk. apply read_then; [apply get_current_org_id_state|done|]. intros o E. rewrite (Ho o E). by apply Hk.
Qed.

Lemma dispatch_stays org now cid lid cred dev ty payload s :
  db s = saved s → (∀ o, get_current_org_id now cred s = (Ok o, s) → o = org) →
  stays_in org s (snd (dispatch_command now cid lid cred dev ty payload s)).
Proof.
  intros E Ho. pose proof (stays_in_refl org s E) as Hs. unfold dispatch_command.
  apply read_then; [apply get_current_user_state|done|]. intros u _. apply (org_read org); [done|done|]. intros _.
  apply refuse_then; [done|]. intros _. apply read_then; [apply get_device_for_org_state|done|].
  intros d (Hd & Hid & Horg & _)%get_device_for_org_ok.
  assert (in_org org (devices (db s)) dev) as Hin by (by exists d).
  refine ((_ : preserves (stays_in org s) _) s Hs). walk.
Qed.

Lemma bulk_stays org now ids cred devs ty payload s :
  db s = saved s → (∀ o, get_current_org_id now cred s = (Ok o, s) → o = org) →
  stays_in org s (snd (dispatch_bulk_command now ids cred devs ty payload s)).
Proof.
  intros E Ho. pose proof (stays_in_refl org s E) as Hs. unfold dispatch_bulk_command.
  apply read_then; [apply require_admin_state|done|]. intros u _. apply (org_read org); [done|done|]. intros _.
  apply refuse_then; [done|]. intros _. apply read_then; [done|done|]. intros allowed [= Hallowed].
  assert (∀ dev, existsb (Z.eqb dev) (map dv_id allowed) = true → in_org org (devices (db s)) dev) as Hin.
  { intros dev (i & (d & <- & Hd)%in_map_iff & ->%Z.eqb_eq)%existsb_exists. rewrite <-Hallowed in Hd.
    apply bfilter_In in Hd as [Hd [Hp%bool_decide_eq_true _]%andb_true_iff]. by exists d. }
  clear Hallowed. refine ((_ : preserves (stays_in org s) _) s Hs). apply preserves_bind; [|walk]. apply preserves_map_each. intros [cid dev].
  unfold bulk_one. destruct (existsb (Z.eqb dev) (map dv_id allowed)) eqn:Ed; simpl; walk.
Qed.

Lemma updates_stay org now ids cred names devs s :
  db s = saved s → (∀ o, get_current_org_id now cred s = (Ok o, s) → o = org) →
  stays_in org s (snd (dispatch_updates now ids cred names devs s)).
Proof.
  intros E Ho. pose proof (stays_in_refl org s E) as Hs. unfold dispatch_updates.
  apply read_then; [apply get_current_user_state|done|]. intros u _. apply (org_read org); [done|done|]. intros _.
  apply read_then; [done|done|]. intros l [= Hl].
  assert (∀ dev d, find (has_pk dev) l = Some d → in_org org (devices (db s)) dev) as Hin.
  { intros dev d [Hd Hp%Z.eqb_eq]%find_some. rewrite <-Hl in Hd.
    apply bfilter_In in Hd as [Hd [_ Hq%bool_decide_eq_true]%andb_true_iff]. by exists d. }
  clear Hl. refine ((_ : preserves (stays_in org s) _) s Hs). apply preserves_bind; [|walk]. apply preserves_map_each. intros [cid dev].
  unfold update_one. destruct (find (has_pk dev) l) as [d|] eqn:Ed; walk.
Qed.

(** *** What the dispatchers store and send *)

(** A dispatched device of a bulk answer, with what its command carries. *)
Definition bulk_seen (now : Z) (ty : jstr) (payload : list (jstr * json)) (a : bulk_answer) : list (uuid * uuid * jstr * list (jstr * json)) :=
  match a with BulkDispatched dev cid => [(dev, cid, ty, service_payload now ty payload)] | BulkFailed _ _ => [] end.
Definition command_view (c : CommandRow) : uuid * uuid * jstr * list (jstr * json) :=
  (cd_device_id c, cd_id c, cd_command_type c, cd_payload c).
Definition command_ref (c : CommandRow) : uuid * uuid := (cd_device_id c, cd_id c).

Lemma bulk_one_settled now allowed ty payload user x s a s' :
  bulk_one now allowed ty payload user x s = (Ok a, s') →
  ∃ cs, settled false now s s' cs ∧ map command_view cs = bulk_seen now ty payload a.
Proof.
  destruct x as [cid dev]. unfold bulk_one. destruct (negb _).
  - intros [= <- <-]. exists []. split; [by apply settled_none|done].
  - unfold catch, mbind, proc_bind, begin_nested.
    destruct (service_dispatch_outcome now cid dev ty payload (Some user) false s)
      as [(_ & e & ->)|(_ & c & s2 & -> & H1 & H2 & H3 & H4 & H5 & H6)]; intros [= <- <-].
    + exists []. split; [by apply settled_none|done].
    + exists [c]. split; [done|]. unfold command_view. simpl. by rewrite H1, H2, H3, H4.
Qed.
Lemma update_one_settled now l names user x s a s' :
  update_one now l names user x s = (Ok a, s') → ∃ cs, settled false now s s' cs ∧ map command_ref cs = a.
Proof.
  destruct x as [cid dev]. unfold update_one. destruct (find _ _) as [d|]; intros Hrun.
  - step Hrun. destruct r as [c b]. apply service_dispatch_settled in E as (H1 & _ & H2 & H3 & _). injection Hrun as <- <-.
    exists [c]. split; [done|]. unfold command_ref. simpl. by rewrite H2, H3.
  - injection Hrun as <- <-. exists []. split; [by apply settled_none|done].
Qed.

Lemma dispatch_settled now cid lid cred dev ty payload s id status s' :
  dispatch_command now cid lid cred dev ty payload s = (Ok (id, status), s') →
  ∃ c, settled true now s s' [c] ∧ id = cid ∧ status = cd_status c ∧
    command_view c = (dev, cid, ty, service_payload now ty payload).
Proof.
  intros Hrun. unfold dispatch_command in Hrun. step Hrun. apply get_current_user_ok in E as (-> & _). step Hrun.
  pose proof (get_current_org_id_state now cred s) as Hs. rewrite E in Hs. simpl in Hs. subst.
  step Hrun. destruct (negb _) in E0; [done|]. injection E0 as E0; subst. step Hrun.
  match goal with Hg : get_device_for_org dev r0 ?s0 = _ |- _ => pose proof (get_device_for_org_state dev r0 s0) as Hs end. rewrite E0 in Hs. simpl in Hs. subst.
  step Hrun. destruct r2 as [c b].
  apply service_dispatch_settled in E1 as (H1 & _ & H2 & H3 & H4 & H5).
  step Hrun. apply log_action_ok in E1 as (lr & ->). run_proc in Hrun. injection Hrun as <- <- <-.
  exists c. split; [by eapply settled_then|]. split; [done|]. split; [done|]. unfold command_view. by rewrite H2, H3, H4, H5.
Qed.
Lemma bulk_settled now ids cred devs ty payload s answers s' :
  dispatch_bulk_command now ids cred devs ty payload s = (Ok answers, s') →
  ∃ cs, settled false now s s' cs ∧ map command_view cs = flat_map (bulk_seen now ty payload) answers.
Proof.
  intros Hrun. unfold dispatch_bulk_command in Hrun. step Hrun. apply require_admin_ok in E as (-> & _). step Hrun.
  pose proof (get_current_org_id_state now cred s) as Hs. rewrite E in Hs. simpl in Hs. subst.
  step Hrun. destruct (_ || _) in E0; [done|]. injection E0 as E0; subst. step Hrun. injection E0 as E0 E1; subst.
  step Hrun. injection Hrun as <- <-.
  eapply map_each_settled in E0 as (cs & H1 & H2); [|intros; by eapply bulk_one_settled]. exists cs. split; [by eapply settled_then|done].
Qed.
Lemma updates_settled now ids cred names devs s answers s' :
  dispatch_updates now ids cred names devs s = (Ok answers, s') →
  ∃ cs, settled false now s s' cs ∧ map command_ref cs = answers.
Proof.
  intros Hrun. unfold dispatch_updates in Hrun. step Hrun. apply get_current_user_ok in E as (-> & _). step Hrun.
  pose proof (get_current_org_id_state now cred s) as Hs. rewrite E in Hs. simpl in Hs. subst.
  step Hrun. injection E0 as E0 E1; subst. step Hrun. injection Hrun as <- <-.
  eapply (map_each_settled false now _ command_ref id) in E0 as (cs & H1 & H2); [|intros; by eapply update_one_settled].
  exists cs. split; [by eapply settled_then|]. by rewrite H2, flat_map_concat_map, map_id.
Qed.

(** The worker of the schedules has no connections: its commands wait. *)
Lemma schedules_settled croniter now ids s u s' :
  run_scheduled_commands croniter now ids s = (Ok u, s') →
  ∃ cs, commands (saved s') = commands (saved s) ++ cs ∧ Forall (λ c, cd_status c = "pending") cs ∧ out s' = out s ∧ db s' = saved s'.
Proof.
  unfold run_scheduled_commands, worker.
  match goal with |- context [let '(_, _) := ?m in _] => destruct m as [[v|e] s1] eqn:Hrun end; [|done]. intros [= _ <-].
  step Hrun. injection E as <- <-. step Hrun. injection Hrun as _ <-.
  apply (for_each_settled false now) in E as (cs & H1 & _ & H3 & _).
  - exists cs. split_and!; try done. eapply Forall_impl; [exact H3|]. by intros c [? _].
  - clear. intros [n i] s u s' Hrun. unfold run_schedule in Hrun. step Hrun.
    assert (s0 = s) as -> by (destruct (sd_device_id i); by injection E). clear E. step Hrun. destruct (croniter _ _) as [next|]; [|done].
    apply (for_each_settled false now) in E as (cs & H1).
    + injection Hrun as _ <-. exists cs. by eapply settled_then.
    + clear. intros [cid d] s u s' Hrun. step Hrun. destruct r as [c b]. apply service_dispatch_settled in E as (H1 & _).
      injection Hrun as _ <-. by exists [c].
Qed.

End isolation.

(** ** Properties *)

Module CommandProps.
Section props.
Context `{Crypto}.

(** C3: a request to dispatch commands, one by one, in bulk or for software updates, only ever adds commands for
    devices of the caller's organization and only ever sends to their connections, also when it fails part of the way;
    without an organization in the token it does neither. *)
Theorem commands_stay_in_org r org s :
  db s = saved s → (∀ o, get_current_org_id (fst (command_cred r)) (snd (command_cred r)) s = (Ok o, s) → o = org) →
  stays_in org s (snd (serve_command r s)).
Proof.
  intros E Ho. destruct r; simpl in Ho; unfold serve_command, mbind, proc_bind.
  - pose proof (stays_in_with_db org s _ s (dispatch_stays org now cid lid cred device_id command_type payload s E Ho)) as Hw.
    by destruct (with_db _ s) as [[a|e] s'].
  - pose proof (stays_in_with_db org s _ s (bulk_stays org now ids cred device_ids command_type payload s E Ho)) as Hw.
    by destruct (with_db _ s) as [[a|e] s'].
  - pose proof (stays_in_with_db org s _ s (updates_stay org now ids cred names device_ids s E Ho)) as Hw.
    by destruct (with_db _ s) as [[a|e] s'].
Qed.

(** C18: what becomes of a dispatched command, by any of the four ways.  The service takes a command of a known type for a
    device that is not revoked and has fewer than a hundred waiting, and refuses any other with nothing changed.  One that
    it takes is stored, and if the registered socket of its device is open it is sent there and starts as sent;
    otherwise nothing is sent, and it starts as failed with the reason (dispatched to one device) or as pending (in bulk,
    for updates, by a schedule, whose worker has no connections).  An answered request has committed exactly the commands
    it names. *)
Theorem command_sent_or_failed s :
  db s = saved s →
  (∀ now cid dev ty payload by_user fail,
     let result := service_dispatch now cid dev ty payload by_user fail s in
     (can_dispatch now cid dev ty payload (db s) →
      ∃ c s', result = (Ok (c, bool_decide (live_socket dev s ≠ None)), s') ∧ settled fail now s s' [c] ∧
        command_view c = (dev, cid, ty, service_payload now ty payload)) ∧
     (¬ can_dispatch now cid dev ty payload (db s) → ∃ e, result = (Raise e, s))) ∧
  (∀ now cid lid cred dev ty payload id status s',
     with_db (dispatch_command now cid lid cred dev ty payload) s = (Ok (id, status), s') →
     ∃ c, settled true now s s' [c] ∧ saved s' = db s' ∧ id = cid ∧ status = cd_status c ∧
       command_view c = (dev, cid, ty, service_payload now ty payload)) ∧
  (∀ now ids cred devs ty payload answers s',
     with_db (dispatch_bulk_command now ids cred devs ty payload) s = (Ok answers, s') →
     ∃ cs, settled false now s s' cs ∧ saved s' = db s' ∧ map command_view cs = flat_map (bulk_seen now ty payload) answers) ∧
  (∀ now ids cred names devs answers s',
     with_db (dispatch_updates now ids cred names devs) s = (Ok answers, s') →
     ∃ cs, settled false now s s' cs ∧ saved s' = db s' ∧ map command_ref cs = answers) ∧
  (∀ croniter now ids s',
     run_scheduled_commands croniter now ids s = (Ok tt, s') →
     ∃ cs, commands (saved s') = commands (db s) ++ cs ∧ Forall (λ c, cd_status c = "pending") cs ∧ out s' = out s).
Proof.
  intros Hsv. split_and!.
  - intros now cid dev ty payload by_user fail. cbv zeta.
    destruct (service_dispatch_outcome now cid dev ty payload by_user fail s)
      as [(Hn & Hr)|(Hc & c & s2 & E & H1 & H2 & H3 & H4 & H5 & H6)]; (split; [|done]); [done|].
    intros _. exists c, s2. split_and!; try done. unfold command_view. by rewrite H1, H2, H3, H4.
  - intros now cid lid cred dev ty payload id status s' (s1 & Hrun & ->)%with_db_ok.
    apply dispatch_settled in Hrun as (c & H1 & ?). exists c. split; [by eapply settled_then|done].
  - intros now ids cred devs ty payload answers s' (s1 & Hrun & ->)%with_db_ok.
    apply bulk_settled in Hrun as (cs & H1 & ?). exists cs. split; [by eapply settled_then|done].
  - intros now ids cred names devs answers s' (s1 & Hrun & ->)%with_db_ok.
    apply updates_settled in Hrun as (cs & H1 & ?). exists cs. split; [by eapply settled_then|done].
  - intros croniter now ids s' Hrun. apply schedules_settled in Hrun as (cs & H1 & H2 & H3 & _). rewrite Hsv. by exists cs.
Qed.
End props.

(** *** Witnesses *)

#[local] Existing Instance AuthProps.toy_crypto.
Definition fleet_device (i org : uuid) : DeviceRow := AlertProps.device_of i (Some org).
Definition fleet_user : UserRow := us_set_role "admin" StreamProps.org_member.
(** Device 7 of organization 10 is connected, device 8 of organization 20 too. *)
Definition fleet : server :=
  set_open_sockets [1; 2]%nat (set_connections [(7, 1%nat); (8, 2%nat)]
    (start (set_users [fleet_user] (set_devices [fleet_device 7 10; fleet_device 8 20] empty_db)))).
Definition fleet_token : option jstr := Some (at_access_token (issue_tokens default_settings 0 fleet_user)).
Definition bulk_request : command_request := BulkDispatch 1 (λ i, 100 + Z.of_nat i) fleet_token [7; 8] "reboot" [].

Lemma commands_stay_in_org_witness :
  stays_in 10 fleet (snd (serve_command bulk_request fleet)) ∧
  map cd_device_id (commands (saved (snd (serve_command bulk_request fleet)))) = [7] ∧
  length (out (snd (serve_command bulk_request fleet))) = 1%nat.
Proof.
  split; [|split; vm_compute; reflexivity]. apply commands_stay_in_org; [reflexivity|]. intros o.
  change (get_current_org_id (fst (command_cred bulk_request)) (snd (command_cred bulk_request)) fleet)
    with (get_current_org_id 1 fleet_token fleet).
  assert (get_current_org_id 1 fleet_token fleet = (Ok 10, fleet)) as -> by (vm_compute; reflexivity). by intros [= <-].
Defined.

Lemma command_sent_or_failed_witness :
  ∃ c, commands (saved (snd (with_db (dispatch_command 1 100 101 fleet_token 7 "reboot" []) fleet))) = [c] ∧ cd_status c = "sent".
Proof.
  destruct (command_sent_or_failed fleet eq_refl) as (_ & Hone & _).
  destruct (Hone 1 100 101 fleet_token 7 "reboot" [] 100 "sent"
              (snd (with_db (dispatch_command 1 100 101 fleet_token 7 "reboot" []) fleet))) as (c & (Hc & _) & -> & _ & Hst & _);
    [vm_compute; reflexivity|]. exists c. split; [exact Hc|by rewrite <-Hst].
Defined.

(** *** What goes wrong *)

(** A schedule for all devices of organization 10 also queues its command on
    the device of organization 20. *)
Definition fleet_schedule : ScheduledRow :=
  {| sd_id := 50; sd_org_id := 10; sd_device_id := None; sd_command_type := "reboot"; sd_payload := Some [];
     sd_cron_expression := "* * * * *"; sd_is_enabled := true; sd_last_run_at := None; sd_next_run_at := Some 0;
     sd_created_by := Some 1; sd_created_at := 0 |}.
Definition scheduled_fleet : server :=
  let d := set_scheduled_commands [fleet_schedule] (db fleet) in set_db d (set_saved d fleet).
Theorem fleet_schedule_crosses_orgs :
  let s := snd (run_scheduled_commands (λ _ t, Some (t + 60)) 1 (λ _ i, 100 + Z.of_nat i) scheduled_fleet) in
  map (λ c, (cd_device_id c, cd_status c)) (commands (saved s)) = [(7, "pending"); (8, "pending")] ∧ out s = [].
Proof. split; vm_compute; reflexivity. Qed.

(** When one device of an update request is revoked, the request fails and its
    commands are rolled back, but the devices before it have received theirs. *)
Definition fleet_with_revoked : server :=
  let d := set_devices [fleet_device 7 10; dv_set_is_revoked true (fleet_device 9 10)] (db fleet) in set_db d (set_saved d fleet).
Theorem failed_update_request_was_sent :
  let '(r, s) := with_db (dispatch_updates 1 (λ i, 100 + Z.of_nat i) fleet_token ["vim"] [7; 9]) fleet_with_revoked in
  (∃ e, r = Raise e ∧ exn_status e = 404) ∧ commands (saved s) = [] ∧ length (out s) = 1%nat.
Proof. vm_compute. split; [eexists; split; reflexivity|]. split; reflexivity. Qed.

End CommandProps.
