(* ===== verification/ServerNotify.v ===== *)
(** Who is notified of alerts: the notification rules
    ([api/v1/notification_rules.py]) and the push tokens of the mobile client
    ([api/v1/push_tokens.py]).  [ServerAlerts] reads both tables when an alert is
    raised.

    The check of an e-mail address is that of a library and a parameter:
    [valid_email a] is the normal form of [a], [None] when it is refused. *)
From Stdlib Require Import QArith.
From S2P Require Import Prelude JsString JsNumber Types JsJson JsonText ServerModels ServerRuntime ServerAuth ServerConnections.
From S2P Require Import ServerAlerts ServerCommands.
Local Open Scope Z_scope.
Local Open Scope js_scope.

(** ** Notification rules *)

(** The body of a new rule, with its defaults filled in, and of an update: the
    fields that are set, which may be null. *)
Record rule_request := {
  rq_alert_type : jstr; rq_severity_min : jstr; rq_channel : jstr; rq_webhook_url : option jstr; rq_email_address : option jstr;
  rq_is_enabled : bool }.
Record rule_update := {
  ru_alert_type : option (option jstr); ru_severity_min : option (option jstr); ru_channel : option (option jstr);
  ru_webhook_url : option (option jstr); ru_email_address : option (option jstr); ru_is_enabled : option (option bool) }.

(** [validate_target] *)
Definition validate_target (body : rule_request) : bool :=
  negb ((rq_channel body =s "webhook") && negb (otruthy (rq_webhook_url body)))
  && negb ((rq_channel body =s "email") && negb (otruthy (rq_email_address body))).

Definition fmt_rule (r : RuleRow) : json :=
  JObj [("id", JStr (str_uuid (rl_id r))); ("alert_type", JStr (rl_alert_type r)); ("severity_min", JStr (rl_severity_min r));
        ("channel", JStr (rl_channel r)); ("webhook_url", opt_str (rl_webhook_url r));
        ("email_address", opt_str (rl_email_address r)); ("is_enabled", JBool (rl_is_enabled r));
        ("created_at", JStr (isoformat (rl_created_at r)))].

(** What the columns of a rule take. *)
Definition rule_storable (r : RuleRow) : bool :=
  text_column 50 (rl_alert_type r) && text_column 20 (rl_severity_min r) && text_column 20 (rl_channel r)
  && opt_column 500 (rl_webhook_url r) && opt_column 255 (rl_email_address r).

Section notify.
Context `{Crypto} (valid_email : jstr → option jstr).

(** The address of a body, [None] when it is refused. *)
Definition email_field (a : option jstr) : option (option jstr) :=
  match a with None => Some None | Some a => Some <$> valid_email a end.

Definition list_notification_rules (now : Z) (cred : option jstr) : proc (list json) :=
  require_admin now cred;;
  current_org_id ← get_current_org_id now cred;
  l ← select (λ r, rl_org_id r =? current_org_id);
  mret (map fmt_rule (stable_sort (λ a b, rl_created_at b <=? rl_created_at a) l)).

Definition create_notification_rule (now : Z) (rid : uuid) (cred : option jstr) (body : rule_request) : proc json :=
  require_admin now cred;;
  current_org_id ← get_current_org_id now cred;
  email ← require (HTTPException 422 "Unprocessable Entity") (email_field (rq_email_address body));
  refuse (negb (validate_target body)) (HTTPException 422 "Unprocessable Entity");;
  let rule := {| rl_id := rid; rl_org_id := current_org_id; rl_alert_type := rq_alert_type body;
                 rl_severity_min := rq_severity_min body; rl_channel := rq_channel body; rl_webhook_url := rq_webhook_url body;
                 rl_email_address := email; rl_is_enabled := rq_is_enabled body; rl_created_at := now |} in
  refuse (negb (rule_storable rule)) DataError;;
  known ← gets (λ s, existsb (has_pk current_org_id) (organizations (db s)));
  refuse (negb known) IntegrityError;;
  add rule;;
  commit;;
  mret (fmt_rule rule).

(** [update_notification_rule]; the answer is [None] when there is no rule. *)
Definition update_notification_rule (now : Z) (cred : option jstr) (rule_id : uuid) (body : rule_update) : proc (option json) :=
  require_admin now cred;;
  email ← require (HTTPException 422 "Unprocessable Entity")
    (match ru_email_address body with None => Some None | Some a => Some <$> email_field a end);
  rule ← db_get rule_id;
  match rule with
  | None => mret None
  | Some r =>
      alert_type ← not_null (updated (ru_alert_type body) (rl_alert_type r));
      severity_min ← not_null (updated (ru_severity_min body) (rl_severity_min r));
      channel ← not_null (updated (ru_channel body) (rl_channel r));
      is_enabled ← not_null (updated (ru_is_enabled body) (rl_is_enabled r));
      let r' := {| rl_id := rule_id; rl_org_id := rl_org_id r; rl_alert_type := alert_type; rl_severity_min := severity_min;
                   rl_channel := channel; rl_webhook_url := match ru_webhook_url body with Some v => v | None => rl_webhook_url r end;
                   rl_email_address := match email with Some v => v | None => rl_email_address r end;
                   rl_is_enabled := is_enabled; rl_created_at := rl_created_at r |} in
      refuse (negb (rule_storable r')) DataError;;
      update_row rule_id (λ _, r');;
      commit;;
      mret (Some (fmt_rule r'))
  end.

(** ** Push tokens *)

Definition _MAX_TOKENS_PER_USER : Z := 10.

(** The end [$] of a pattern fits before a final line feed too. *)
Definition before_end (token : jstr) : jstr :=
  match List.rev token with 10 :: rest => List.rev rest | _ => token end.
(** [_EXPO_TOKEN_RE.match] *)
Definition expo_token (token : jstr) : bool :=
  let t := before_end token in
  startsWith t "ExponentPushToken[" && (match List.rev (drop 18 t) with 93 :: rest =>
    Nat.leb 1 (length rest) && Nat.leb (length rest) 256 && forallb (λ c, negb (c =? 10)) rest | _ => false end).
(** [_RAW_TOKEN_RE.match] *)
Definition raw_token_char (c : Z) : bool :=
  ((65 <=? c) && (c <=? 90)) || ((97 <=? c) && (c <=? 122)) || ((48 <=? c) && (c <=? 57)) || (c =? 58) || (c =? 95) || (c =? 45).
Definition raw_token (token : jstr) : bool :=
  let t := before_end token in Nat.leb 8 (length t) && Nat.leb (length t) 256 && forallb raw_token_char t.
Definition _validate_token (token : jstr) : bool := expo_token token || raw_token token.

Definition platform_allowed (v : option jstr) : bool :=
  match v with Some p => (p =s "ios") || (p =s "android") | None => true end.

(** The first of the rows by the time of their creation. *)
Definition oldest (l : list PushTokenRow) : option PushTokenRow :=
  head (stable_sort (λ a b, pk_created_at a <=? pk_created_at b) l).

Definition register_push_token (now : Z) (tid : uuid) (cred : option jstr) (token : jstr) (platform : option jstr) : proc unit :=
  current_user ← get_current_user now cred;
  refuse (negb (_validate_token token && platform_allowed platform)) (HTTPException 422 "Unprocessable Entity");;
  let mine := λ p, pk_user_id p =? us_id current_user in
  token_count ← count mine;
  refuse (negb (storable token)) DataError;;
  pt ← select_one (λ p, pk_token p =s token);
  match pt with
  | None =>
      when (_MAX_TOKENS_PER_USER <=? token_count)
        (l ← select mine;
         match oldest l with Some p => delete_row (R := PushTokenRow) (pk_id p) | None => mret tt end);;
      add {| pk_id := tid; pk_user_id := us_id current_user; pk_token := token; pk_platform := platform; pk_created_at := now;
             pk_last_used := None |}
  | Some p => update_row (pk_id p) (λ p, pk_set_platform platform (pk_set_user_id (us_id current_user) p))
  end;;
  commit.

Definition unregister_push_token (now : Z) (cred : option jstr) (token : jstr) : proc unit :=
  current_user ← get_current_user now cred;
  refuse (negb (_validate_token token)) (HTTPException 400 "Invalid push token format");;
  refuse (negb (storable token)) DataError;;
  delete_where (λ p, (pk_token p =s token) && (pk_user_id p =? us_id current_user));;
  commit.

(** ** The requests together *)

Inductive notify_request :=
| CreateRule (now : Z) (rid : uuid) (cred : option jstr) (body : rule_request)
| UpdateRule (now : Z) (cred : option jstr) (rule_id : uuid) (body : rule_update)
| RegisterToken (now : Z) (tid : uuid) (cred : option jstr) (token : jstr) (platform : option jstr)
| UnregisterToken (now : Z) (cred : option jstr) (token : jstr).
Definition serve_notify (r : notify_request) : proc unit :=
  match r with
  | CreateRule now rid cred body => with_db (create_notification_rule now rid cred body);; mret tt
  | UpdateRule now cred rule_id body => with_db (update_notification_rule now cred rule_id body);; mret tt
  | RegisterToken now tid cred token platform => with_db (register_push_token now tid cred token platform)
  | UnregisterToken now cred token => with_db (unregister_push_token now cred token)
  end.

End notify.

(** ** Facts *)

Definition tokens_of (u : uuid) (d : database) : list PushTokenRow := bfilter (λ p, pk_user_id p =? u) (push_tokens d).

Section facts.
Context `{Crypto}.

Lemma bfilter_twice_length {A} (f g : A → bool) l : (length (bfilter f (bfilter g l)) ≤ length (bfilter f l))%nat.
Proof. induction l as [|x l IH]; [done|]. simpl. destruct (g x); simpl; destruct (f x); simpl; lia. Qed.
(** Dropping the row of an element makes room for one. *)
Lemma drop_one (f : PushTokenRow → bool) l (r : PushTokenRow) :
  In r l → f r = true → (length (bfilter f (bfilter (λ x, negb (has_pk (pk_id r) x)) l)) < length (bfilter f l))%nat.
Proof.
  induction l as [|x l IH]; [done|]. intros [->|Hr] Hf; simpl.
  - unfold has_pk at 1. cbn [pk push_tokens_table]. rewrite Z.eqb_refl. cbn [negb]. rewrite Hf. simpl.
    pose proof (bfilter_twice_length f (λ x, negb (has_pk (pk_id r) x)) l). lia.
  - specialize (IH Hr Hf). destruct (negb _); simpl; destruct (f x); simpl; lia.
Qed.

Lemma oldest_In l r : oldest l = Some r → In r l.
Proof.
  unfold oldest. destruct (stable_sort _ l) as [|x l'] eqn:E; [done|]. intros [= ->].
  apply (stable_sort_In (λ a b, pk_created_at a <=? pk_created_at b)). rewrite E. by left.
Qed.
Lemma oldest_None l : oldest l = None → l = [].
Proof.
  unfold oldest. destruct (stable_sort _ l) as [|x l'] eqn:E; [|done]. intros _.
  apply length_zero_iff_nil. by rewrite <-(stable_sort_length (λ a b, pk_created_at a <=? pk_created_at b)), E.
Qed.

(** Making room for a token. *)
Lemma make_room u s :
  let mine := λ p, pk_user_id p =? u in
  ∃ l, when (_MAX_TOKENS_PER_USER <=? Z.of_nat (length (tokens_of u (db s))))
         (l ← select mine; match oldest l with Some p => delete_row (R := PushTokenRow) (pk_id p) | None => mret tt end) s
       = (Ok tt, set_db (set_push_tokens l (db s)) s) ∧
    (∀ r, In r l → In r (push_tokens (db s))) ∧
    ((length (tokens_of u (db s)) ≤ 10)%nat → (length (bfilter mine l) < 10)%nat).
Proof.
  intros mine. unfold when, _MAX_TOKENS_PER_USER. destruct (Z.leb_spec 10 (Z.of_nat (length (tokens_of u (db s))))) as [Hc|Hc].
  - unfold select, gets, mbind, proc_bind. cbn [rows push_tokens_table]. change (bfilter mine (push_tokens (db s))) with (tokens_of u (db s)).
    destruct (oldest (tokens_of u (db s))) as [r|] eqn:Eo; [|apply oldest_None in Eo; rewrite Eo in Hc; simpl in Hc; lia].
    apply oldest_In in Eo. eexists. split; [reflexivity|]. cbn [rows push_tokens_table]. unfold tokens_of in Eo.
    apply bfilter_In in Eo as [Hin Hm]. split; [by intros x [Hx _]%bfilter_In|]. intros Hl.
    pose proof (drop_one mine (push_tokens (db s)) r Hin Hm) as Hd. unfold tokens_of in *. fold mine in Hl, Hc. lia.
  - exists (push_tokens (db s)). split; [|split; [done|unfold tokens_of in *; fold mine in Hc |- *; lia]].
    unfold mret, proc_ret. f_equal. destruct s as [d ?]. by destruct d.
Qed.

Lemma register_cases now tid cred token platform s s' :
  register_push_token now tid cred token platform s = (Ok tt, s') →
  ∃ u, In u (users (db s)) ∧ us_is_active u = true ∧ saved s' = db s' ∧
    ((∃ p, In p (push_tokens (db s)) ∧ pk_token p = token ∧
        push_tokens (db s') = map (λ x, if has_pk (pk_id p) x then pk_set_platform platform (pk_set_user_id (us_id u) x) else x)
                                  (push_tokens (db s))) ∨
     (∃ l, push_tokens (db s') = l ++ [{| pk_id := tid; pk_user_id := us_id u; pk_token := token; pk_platform := platform;
                                          pk_created_at := now; pk_last_used := None |}] ∧
        (∀ r, In r l → In r (push_tokens (db s))) ∧
        ((length (tokens_of (us_id u) (db s)) ≤ 10)%nat → (length (bfilter (λ p, Z.eqb (pk_user_id p) (us_id u)) l) < 10)%nat))).
Proof.
  unfold register_push_token. intros Hrun. step Hrun. apply get_current_user_ok in E as (-> & Hin & Ha & _). exists r.
  split; [done|]. split; [done|]. unfold refuse in Hrun. destruct (negb (_ && _)) eqn:Ev; [done|]. step Hrun. injection E as <- <-.
  step Hrun. injection E as <- <-. destruct (negb (storable token)) eqn:Es; [done|]. step Hrun. injection E as <- <-.
  step Hrun. destruct r0 as [p|].
  - apply select_one_some in E as (-> & Hp & Ht). apply seqb_true in Ht. step Hrun. injection E as <- <-.
    unfold commit, modify in Hrun. injection Hrun as <-. split; [done|]. left. by exists p.
  - pose proof (select_one_state s (λ p, pk_token p =s token)) as Hs. rewrite E in Hs. simpl in Hs. subst s0.
    destruct (make_room (us_id r) s) as (l & El & Hl1 & Hl2). unfold mbind in Hrun at 1. unfold proc_bind in Hrun at 1.
    unfold mbind in Hrun at 1. unfold proc_bind in Hrun at 1. cbn [rows push_tokens_table] in Hrun.
    unfold tokens_of in El. rewrite El in Hrun. unfold add in Hrun. destruct (existsb _ _); [done|].
    unfold commit, modify in Hrun. injection Hrun as <-. split; [done|]. right. by exists l.
Qed.

End facts.

Module NotifyProps.
Section props.
Context `{Crypto}.

(** A token that is registered is the caller's, with the platform of the request; the tokens of others stay as they are,
    except that the token itself may have been one of theirs; and a token that is new leaves the caller with at most ten. *)
Theorem push_token_registered now tid cred token platform s s' :
  register_push_token now tid cred token platform s = (Ok tt, s') →
  ∃ u, In u (users (db s)) ∧ us_is_active u = true ∧ saved s' = db s' ∧
    (∃ r, In r (tokens_of (us_id u) (db s')) ∧ pk_token r = token ∧ pk_platform r = platform) ∧
    (∀ r, In r (push_tokens (db s')) → pk_user_id r ≠ us_id u → In r (push_tokens (db s))) ∧
    ((∀ r, In r (push_tokens (db s)) → pk_token r ≠ token) → (length (tokens_of (us_id u) (db s)) ≤ 10)%nat →
     (length (tokens_of (us_id u) (db s')) ≤ 10)%nat).
Proof.
  intros (u & Hin & Ha & Hs & Hcases)%register_cases. exists u. split; [done|]. split; [done|]. split; [done|]. unfold tokens_of.
  destruct Hcases as [(p & Hp & Ht & ->)|(l & -> & Hl & Hroom)].
  - split; [|split; [|by intros Hnew; destruct (Hnew p Hp)]].
    + exists (pk_set_platform platform (pk_set_user_id (us_id u) p)). split; [|done]. apply bfilter_In. split; [|apply Z.eqb_refl].
      apply in_map_iff. exists p. split; [|done]. unfold has_pk. cbn [pk push_tokens_table]. by rewrite Z.eqb_refl.
    + intros r (x & <- & Hx)%in_map_iff Hu. destruct (has_pk _ x); [by destruct Hu|done].
  - split; [|split].
    + eexists. split; [apply bfilter_In; split; [apply in_app_iff; right; by left|apply Z.eqb_refl]|done].
    + intros r [Hr|[<-|[]]]%in_app_iff Hu; [by apply Hl|by destruct Hu].
    + intros _ H10%Hroom. rewrite bfilter_app, length_app. cbn [bfilter List.filter pk_user_id]. rewrite Z.eqb_refl. simpl. lia.
Qed.
End props.

(** *** Examples *)

#[local] Existing Instance AuthProps.toy_crypto.

(** Devices named as the libraries of the phones name them, and names that are not. *)
Example token_formats :
  map _validate_token ["ExponentPushToken[abc]"; "ExponentPushToken[a]b]"; "abcd:EF-1_"; "ExponentPushToken[]"; "short"; "with space"]
  = [true; true; true; false; false; false].
Proof. vm_compute. reflexivity. Qed.

(** The limit is checked on new tokens only: ten tokens and one taken over from
    another account make eleven. *)
Definition token_row (i user : Z) : PushTokenRow :=
  {| pk_id := i; pk_user_id := user; pk_token := "phone-token-" ++ string_of_Z i; pk_platform := None; pk_created_at := i;
     pk_last_used := None |}.
Definition ten_tokens : server :=
  start (set_push_tokens (token_row 11 2 :: map (λ i, token_row (Z.of_nat i) 1) (seq 1 10)) StreamProps.member_db).
Theorem push_limit_bypassed :
  let s' := snd (with_db (register_push_token 1 50 StreamProps.member_token "phone-token-11" None) ten_tokens) in
  length (tokens_of 1 (saved ten_tokens)) = 10%nat ∧ length (tokens_of 1 (saved s')) = 11%nat.
Proof. vm_compute. split; reflexivity. Qed.
(** The eleventh new token takes the place of the oldest. *)
Example oldest_replaced :
  let s' := snd (with_db (register_push_token 1 50 StreamProps.member_token "phone-token-12" None) ten_tokens) in
  map pk_id (tokens_of 1 (saved s')) = [2; 3; 4; 5; 6; 7; 8; 9; 10; 50].
Proof. vm_compute. reflexivity. Qed.

(** A rule is changed by its identifier: an administrator of another
    organization changes it. *)
Definition other_admin : UserRow :=
  {| us_id := 3; us_username := "eve"; us_password_hash := ""; us_role := "admin"; us_is_active := true; us_last_login := None;
     us_created_at := 0; us_active_org_id := Some 11 |}.
Definition some_rule : RuleRow :=
  {| rl_id := 20; rl_org_id := 10; rl_alert_type := "*"; rl_severity_min := "info"; rl_channel := "webhook";
     rl_webhook_url := Some "https://a"; rl_email_address := None; rl_is_enabled := true; rl_created_at := 0 |}.
Definition ruled : server := start (set_notification_rules [some_rule] (set_users [other_admin] empty_db)).
Theorem foreign_rule_changed :
  let body := {| ru_alert_type := None; ru_severity_min := None; ru_channel := None; ru_webhook_url := Some (Some "https://e");
                 ru_email_address := None; ru_is_enabled := None |} in
  let cred := Some (at_access_token (issue_tokens default_settings 0 other_admin)) in
  notification_rules (saved (snd (with_db (update_notification_rule Some 1 cred 20 body) ruled)))
  = [rl_set_webhook_url (Some "https://e" : option jstr) some_rule].
Proof. vm_compute. reflexivity. Qed.
End NotifyProps.
