(* ===== verification/ServerMessages.v ===== *)
(** The messages of the device agents: [websocket/handler.py].

    Every handler gets the device object the connection holds and hands it back.
    Parameters: [py_str], Python's [str] of a parsed JSON value that is not a
    string, and those of the alerts. *)
From Stdlib Require Import QArith Qabs.
From S2P Require Import Prelude JsString JsNumber Types JsJson JsonText ServerModels ServerRuntime ServerAuth ServerConnections.
From S2P Require Import ServerAlerts ServerCommands.
Local Open Scope Z_scope.
Local Open Scope js_scope.

(** ** Addresses *)

(** The parts of [ipaddress] that are used, as of Python 3.12.  An IPv4 address
    is its number. *)
Definition all_digits (s : jstr) : bool := truthy s && forallb is_digit s.
Definition decimal_value (s : jstr) : Z := fold_left (λ n c, n * 10 + (c - 48)) s 0.
Definition octet (s : jstr) : option Z :=
  if all_digits s && Nat.leb (length s) 3 && ((s =s "0") || negb (startsWith s "0")) && (decimal_value s <=? 255)
  then Some (decimal_value s) else None.
Definition parse_ipv4 (s : jstr) : option Z :=
  match split "." s with
  | [a; b; c; d] =>
      a ← octet a; b ← octet b; c ← octet c; d ← octet d; Some (((a * 256 + b) * 256 + c) * 256 + d)
  | _ => None
  end.
Definition str_ipv4 (n : Z) : jstr :=
  string_of_Z (n / 16777216) ++ "." ++ string_of_Z (n / 65536 mod 256) ++ "." ++ string_of_Z (n / 256 mod 256) ++ "."
  ++ string_of_Z (n mod 256).

(** Ones followed by zeros: the number of a netmask. *)
Definition is_netmask (n : Z) : bool := existsb (λ k, n =? 2 ^ 32 - 2 ^ Z.of_nat k) (seq 0 33).
Definition mask_ok (s : jstr) : bool :=
  if all_digits s && (decimal_value s <=? 32) then true
  else match parse_ipv4 s with Some n => is_netmask n || is_netmask (2 ^ 32 - 1 - n) | None => false end.

(** The networks of [is_private], and the addresses in them that are not. *)
Definition private_networks : list (jstr * Z) :=
  [("0.0.0.0", 8); ("10.0.0.0", 8); ("127.0.0.0", 8); ("169.254.0.0", 16); ("172.16.0.0", 12); ("192.0.0.0", 24);
   ("192.0.0.170", 31); ("192.0.2.0", 24); ("192.168.0.0", 16); ("198.18.0.0", 15); ("198.51.100.0", 24);
   ("203.0.113.0", 24); ("240.0.0.0", 4); ("255.255.255.255", 32)].
Definition private_exceptions : list (jstr * Z) := [("192.0.0.9", 32); ("192.0.0.10", 32)].
Definition in_network (n : Z) (net : jstr * Z) : bool :=
  match parse_ipv4 (fst net) with Some b => n / 2 ^ (32 - snd net) =? b / 2 ^ (32 - snd net) | None => false end.
Definition is_private (n : Z) : bool :=
  existsb (in_network n) private_networks && negb (existsb (in_network n) private_exceptions).

(** [_extract_ip]: the address of an IPv4 interface. *)
Definition _extract_ip (value : jstr) : option Z :=
  match split "/" value with
  | [a] => parse_ipv4 a
  | [a; m] => if mask_ok m then parse_ipv4 a else None
  | _ => None
  end.

Example extract_ip_examples :
  _extract_ip "10.1.2.3/24" = Some 167838211 ∧ _extract_ip "8.8.8.8" = Some 134744072 ∧ _extract_ip "1.2.3.04" = None
  ∧ _extract_ip "1.2.3.4/33" = None ∧ _extract_ip "1.2.3.4/255.255.255.0" = Some 16909060 ∧ _extract_ip "fe80::1/64" = None
  ∧ is_private 167838211 = true ∧ is_private 134744072 = false ∧ str_ipv4 167838211 = "10.1.2.3".
Proof. by vm_compute. Qed.

(** ** The handlers *)

Definition MAX_EVENT_MESSAGE_LEN : nat := 2048.
Definition MAX_EVENT_SOURCE_LEN : nat := 256.
Definition MAX_RAW_DATA_BYTES : nat := 4096.
Definition MAX_SCREENSHOT_B64 : Z := 2000000.
Definition MAX_PROCESS_COUNT : nat := 50.

(** [len(v)] *)
Definition py_len (v : json) : proc Z :=
  match v with
  | JStr s => mret (Z.of_nat (length s))
  | JArr l => mret (Z.of_nat (length l))
  | JObj fs => mret (Z.of_nat (length fs))
  | _ => raise TypeError
  end.

(** [v == 0] *)
Definition py_zero (v : json) : bool :=
  match v with JNum n => is_zero n | JBool b => negb b | _ => false end.

Section handlers.
Context (cfg : Settings) (str_float : Q → jstr) (py_str : json → jstr) (expo : list json → option (Z * json)).

Definition str_value (v : json) : jstr := match v with JStr s => s | _ => py_str v end.
Definition _truncate (value : json) (limit : nat) : jstr := if negb (py_true value) then "" else take limit (str_value value).

Definition float_field (k : jstr) (data : json) : proc (option num) := v ← py_get k data; as_float v.

(** [_handle_telemetry]; [ids 0] is the identifier of the metric, the next ones
    those of the alerts. *)
Definition _handle_telemetry (now : Z) (ids : nat → uuid) (device : DeviceRow) (data : json) : proc DeviceRow :=
  cpu_percent ← float_field "cpu_percent" data; ram_percent ← float_field "ram_percent" data;
  disk_percent ← float_field "disk_percent" data; cpu_temp ← float_field "cpu_temp" data;
  uptime_secs ← py_get "uptime_secs" data; uptime_secs ← as_int 64 uptime_secs;
  ram_total_mb ← float_field "ram_total_mb" data; ram_used_mb ← float_field "ram_used_mb" data;
  disk_total_gb ← float_field "disk_total_gb" data; disk_used_gb ← float_field "disk_used_gb" data;
  disk_read_mbps ← float_field "disk_read_mbps" data; disk_write_mbps ← float_field "disk_write_mbps" data;
  net_sent_mbps ← float_field "net_sent_mbps" data; net_recv_mbps ← float_field "net_recv_mbps" data;
  let metric := {| mt_id := ids 0%nat; mt_time := now; mt_device_id := dv_id device; mt_cpu_percent := cpu_percent;
                   mt_ram_percent := ram_percent; mt_disk_percent := disk_percent; mt_cpu_temp := cpu_temp;
                   mt_uptime_secs := uptime_secs; mt_ram_total_mb := ram_total_mb; mt_ram_used_mb := ram_used_mb;
                   mt_disk_total_gb := disk_total_gb; mt_disk_used_gb := disk_used_gb; mt_disk_read_mbps := disk_read_mbps;
                   mt_disk_write_mbps := disk_write_mbps; mt_net_sent_mbps := net_sent_mbps;
                   mt_net_recv_mbps := net_recv_mbps |} in
  device ← set_last_seen now device;
  device ← set_status "online" device;
  add metric;;
  device ← evaluate_metrics cfg str_float expo now (λ i, ids (S i)) device metric;
  auto_resolve_alerts now (dv_id device) data;;
  mret device.

(** [_handle_software] *)
Definition add_package (now : Z) (device : DeviceRow) (x : uuid * json) : proc unit :=
  let '(sid, pkg) := x in
  name ← py_get_or "name" (JStr "") pkg; name ← as_varchar 500 name; name ← not_null name;
  version ← py_get "version" pkg; version ← as_varchar 100 version;
  update_available ← py_get_or "update_available" (JBool false) pkg; update_available ← as_bool update_available;
  latest_version ← py_get "latest_version" pkg; latest_version ← as_varchar 100 latest_version;
  add {| sw_id := sid; sw_device_id := dv_id device; sw_name := name; sw_version := version;
         sw_update_available := update_available; sw_latest_version := latest_version; sw_last_scanned := now |}.
Definition _handle_software (now : Z) (ids : nat → uuid) (device : DeviceRow) (data : json) : proc DeviceRow :=
  delete_where (λ r, sw_device_id r =? dv_id device);;
  packages ← py_get_or "packages" (JArr []) data; packages ← py_iter packages;
  for_each (add_package now device) (imap (λ i p, (ids i, p)) packages);;
  mret device.

(** [_handle_event]; [ids 0] is the event, [ids 1] the alert of a crash. *)
Definition limit_raw_data (raw_data : json) : option json :=
  match raw_data with
  | JNull => None
  | v => Some (if Nat.ltb MAX_RAW_DATA_BYTES (length (json_dumps str_float v)) then JObj [("truncated", JBool true)] else v)
  end.
Definition activity_payload (now : Z) (device : DeviceRow) (event : EventRow) : json :=
  JObj [("device_id", JStr (str_uuid (dv_id device)));
        ("device_hostname", JStr (py_or (dv_label device) (dv_hostname device)));
        ("org_id", match dv_org_id device with Some o => JStr (str_uuid o) | None => JNull end);
        ("event_type", JStr (ev_event_type event)); ("message", JStr (ev_message event));
        ("source", opt_str (ev_source event)); ("time", JStr (isoformat now))].
Definition _handle_event (now : Z) (ids : nat → uuid) (device : DeviceRow) (data : json) : proc DeviceRow :=
  let key := "event_rate:" ++ str_uuid (dv_id device) in
  n ← redis_incr now key;
  when (n =? 1) (redis_expire now key 30);;
  if 100 <? n then mret device
  else
    message ← py_get_or "message" (JStr "") data;
    let message := _truncate message MAX_EVENT_MESSAGE_LEN in
    source ← py_get_or "source" (JStr "") data;
    let source := _truncate source MAX_EVENT_SOURCE_LEN in
    raw_data ← py_get "raw_data" data;
    let raw_data := limit_raw_data raw_data in
    event_type ← py_get_or "event_type" (JStr "info") data;
    event_type ← as_varchar 50 event_type; event_type ← not_null event_type;
    source ← as_varchar 255 (if truthy source then JStr source else JNull);
    refuse (negb (storable message) || negb (match raw_data with Some v => jsonb_ok v | None => true end)) DataError;;
    let event := {| ev_id := ids 0%nat; ev_time := now; ev_device_id := dv_id device; ev_event_type := event_type;
                    ev_source := source; ev_message := message; ev_raw_data := raw_data |} in
    add event;;
    publish ActivityStream (activity_payload now device event);;
    if event_type =s "crash" then create_alert expo now (ids 1%nat) device "crash" "critical" ("Crash detected: " ++ message)
    else mret device.

(** [_handle_ntp] *)
Definition num_abs (x : num) : num :=
  match x with Fin q => Fin (Qabs q) | NaN => NaN | PInf | NInf => PInf end.
Definition num_thousandth (x : num) : num := match x with Fin q => Fin (q / 1000)%Q | _ => x end.
Definition py_abs (v : json) : proc num :=
  match v with
  | JNum x => mret (num_abs x)
  | JBool b => mret (of_Z (if b then 1 else 0))
  | _ => raise TypeError
  end.
Definition _handle_ntp (now : Z) (ids : nat → uuid) (device : DeviceRow) (data : json) : proc DeviceRow :=
  offset ← py_get_or "offset_ms" (JNum (of_Z 0)) data;
  offset ← py_get_or "estimated_offset_ms" offset data;
  offset_ms ← py_abs offset;
  device ← (if above offset_ms (ALERT_NTP_OFFSET_MS cfg) then
              create_alert expo now (ids 0%nat) device "time_drift" "warning"
                ("NTP offset is " ++ format_fixed 1 offset_ms ++ "ms (threshold: "
                 ++ threshold_text str_float (ALERT_NTP_OFFSET_MS cfg) ++ "ms)")
            else mret device);
  clock_usable ← py_get_or "clock_usable" (JBool true) data;
  if negb (py_true clock_usable) then
    create_alert expo now (ids 1%nat) device "clock_skew" "warning"
      ("System clock is off by ~" ++ format_fixed 0 (num_thousandth offset_ms) ++ "s " ++ [8212] ++ " run Sync Time to fix")
  else resolve_open now (dv_id device) "clock_skew";; mret device.

(** [uuid.UUID(v)] *)
Definition py_uuid (v : json) : proc uuid :=
  match v with JStr s => require ValueError (UUID s) | _ => raise AttributeError end.

Definition _handle_command_output (device : DeviceRow) (data : json) : proc DeviceRow :=
  cmd_id ← py_get "command_id" data;
  when (py_true cmd_id) (
    cid ← py_uuid cmd_id;
    output ← py_get_or "output" (JStr "") data; output ← as_text output;
    update_row cid (λ c, cd_set_output output (cd_set_status "running" c)));;
  mret device.

Definition _handle_command_result (now : Z) (device : DeviceRow) (data : json) : proc DeviceRow :=
  cmd_id ← py_get "command_id" data;
  if negb (py_true cmd_id) then mret device
  else
    cid ← py_uuid cmd_id;
    command ← db_get cid;
    match command with
    | None => mret device
    | Some command =>
        exit_code ← py_get_or "exit_code" (JNum (of_Z 1)) data;
        let ok := py_zero exit_code in
        output ← py_get_or "output" (JStr "") data;
        code ← as_int 32 exit_code;
        output ← as_text output;
        update_row cid (λ c, cd_set_completed_at (Some now) (cd_set_output output (cd_set_exit_code code
                               (cd_set_status (if ok then "completed" else "failed") c))));;
        when ((cd_command_type command =s "sync_time") && ok) (resolve_open now (dv_id device) "time_drift");;
        mret device
    end.

(** [_handle_network_info] *)
Definition text_list (v : json) : proc (list (option jstr)) :=
  match v with JArr l => map_each as_text l | _ => raise DataError end.
Definition best_ip (best : option Z * option Z) (raw_ip : option jstr) : option Z * option Z :=
  match raw_ip ≫= _extract_ip with
  | None => best
  | Some ip =>
      (match fst best with None => if is_private ip then None else Some ip | b => b end,
       match snd best with None => Some ip | b => b end)
  end.
(** One interface: its row, and its IPv4 addresses. *)
Definition add_interface (now : Z) (device : DeviceRow) (x : uuid * json) : proc (list (option jstr)) :=
  let '(nid, iface) := x in
  ipv4 ← py_get "ipv4" iface; ipv4 ← text_list (if py_true ipv4 then ipv4 else JArr []);
  ipv6 ← py_get "ipv6" iface; ipv6 ← text_list (if py_true ipv6 then ipv6 else JArr []);
  name ← py_get_or "name" (JStr "") iface; name ← as_varchar 255 name; name ← not_null name;
  mac_address ← py_get "mac_address" iface; mac_address ← as_varchar 64 mac_address;
  is_up ← py_get_or "is_up" (JBool false) iface; is_up ← as_bool is_up;
  mtu ← py_get "mtu" iface; mtu ← as_int 32 mtu;
  add {| nw_id := nid; nw_device_id := dv_id device; nw_interface_name := name; nw_mac_address := mac_address; nw_ipv4 := ipv4;
         nw_ipv6 := ipv6; nw_is_up := is_up; nw_mtu := mtu; nw_updated_at := now |};;
  mret ipv4.
Definition _handle_network_info (now : Z) (ids : nat → uuid) (device : DeviceRow) (data : json) : proc DeviceRow :=
  interfaces ← py_get_or "interfaces" (JArr []) data;
  delete_where (λ r, nw_device_id r =? dv_id device);;
  device ← set_last_seen now device;
  device ← set_status "online" device;
  interfaces ← py_iter interfaces;
  addresses ← map_each (add_interface now device) (imap (λ i x, (ids i, x)) interfaces);
  let '(preferred_ip, fallback_ip) := fold_left best_ip (List.concat addresses) (None, None) in
  match (match preferred_ip with Some ip => Some ip | None => fallback_ip end) with
  | Some ip => set_ip_address (Some (str_ipv4 ip)) device
  | None => mret device
  end.

Definition _handle_screenshot_result (now : Z) (device : DeviceRow) (data : json) : proc DeviceRow :=
  image_b64 ← py_get "image_b64" data;
  size ← (if py_true image_b64 then py_len image_b64 else mret 0);
  if MAX_SCREENSHOT_B64 <? size then mret device
  else
    width ← py_get "width" data; height ← py_get "height" data; error ← py_get "error" data;
    redis_setex now ("screenshot:" ++ str_uuid (dv_id device)) 300
      (RStr (json_dumps str_float (JObj [("image_b64", image_b64); ("captured_at", JStr (isoformat now)); ("width", width);
                                         ("height", height); ("error", error)])));;
    mret device.

Definition _handle_process_list (now : Z) (device : DeviceRow) (data : json) : proc DeviceRow :=
  processes ← py_get_or "processes" (JArr []) data;
  let processes := match processes with JArr l => JArr (take MAX_PROCESS_COUNT l) | v => v end in
  redis_setex now ("process_list:" ++ str_uuid (dv_id device)) 600
    (RStr (json_dumps str_float (JObj [("processes", processes); ("captured_at", JStr (isoformat now))])));;
  mret device.

Definition _handle_agent_info (now : Z) (device : DeviceRow) (data : json) : proc DeviceRow :=
  version ← py_get "version" data;
  device ← (if py_true version then
              let v := take 50 (str_value version) in refuse (negb (storable v)) DataError;; set_agent_version v device
            else mret device);
  device ← set_last_seen now device;
  set_status "online" device.

Definition add_key (now : Z) (device : DeviceRow) (x : uuid * json) : proc unit :=
  let '(kid, key) := x in
  key_type ← py_get_or "type" (JStr "") key; key_type ← as_varchar 50 key_type; key_type ← not_null key_type;
  public_key ← py_get_or "public_key" (JStr "") key; public_key ← as_text public_key; public_key ← not_null public_key;
  fingerprint ← py_get_or "fingerprint" (JStr "") key; fingerprint ← as_varchar 255 fingerprint;
  fingerprint ← not_null fingerprint;
  comment ← py_get "comment" key; comment ← as_varchar 255 comment;
  add {| ky_id := kid; ky_device_id := dv_id device; ky_key_type := key_type; ky_public_key := public_key;
         ky_fingerprint := fingerprint; ky_comment := comment; ky_discovered_at := now |}.
Definition _handle_ssh_keys (now : Z) (ids : nat → uuid) (device : DeviceRow) (data : json) : proc DeviceRow :=
  delete_where (λ r, ky_device_id r =? dv_id device);;
  keys ← py_get_or "keys" (JArr []) data; keys ← py_iter keys;
  for_each (add_key now device) (imap (λ i k, (ids i, k)) keys);;
  mret device.

(** [handle]: messages of other types are ignored. *)
Definition handle (now : Z) (ids : nat → uuid) (device : DeviceRow) (message : json) : proc DeviceRow :=
  msg_type ← py_get "type" message;
  payload ← py_get_or "data" (JObj []) message;
  let is_type t := match msg_type with JStr s => s =s t | _ => false end in
  if is_type "telemetry" then _handle_telemetry now ids device payload
  else if is_type "software_inventory" then _handle_software now ids device payload
  else if is_type "event_report" then _handle_event now ids device payload
  else if is_type "ntp_status" then _handle_ntp now ids device payload
  else if is_type "network_info" then _handle_network_info now ids device payload
  else if is_type "ssh_keys" then _handle_ssh_keys now ids device payload
  else if is_type "process_list" then _handle_process_list now device payload
  else if is_type "agent_info" then _handle_agent_info now device payload
  else if is_type "command_output" then _handle_command_output device payload
  else if is_type "command_result" then _handle_command_result now device payload
  else if is_type "screenshot_result" then _handle_screenshot_result now device payload
  else mret device.

End handlers.

(** ** Facts *)

Lemma preserves_py_len P v : preserves P (py_len v).
Proof. unfold py_len. pure. Qed.
Lemma preserves_py_abs P v : preserves P (py_abs v).
Proof. unfold py_abs. pure. Qed.
Lemma preserves_py_uuid P v : preserves P (py_uuid v).
Proof. unfold py_uuid. case_match; first [apply preserves_require|apply preserves_raise]. Qed.
Lemma preserves_float_field P k v : preserves P (float_field k v).
Proof. unfold float_field. walk. Qed.
Lemma preserves_text_list P v : preserves P (text_list v).
Proof. unfold text_list. walk. Qed.
#[export] Hint Resolve preserves_py_len preserves_py_abs preserves_py_uuid preserves_float_field preserves_text_list : server.

(** *** The result is the object of the same device *)

Definition same_device (dev : uuid) (org : option uuid) (device : DeviceRow) : Prop := dv_id device = dev ∧ dv_org_id device = org.

(** The data of a message, and the command it names. *)
Definition message_data (message : json) : json := field "data" message ?? JObj [].
Definition named_command (data : json) : option uuid :=
  match field "command_id" data with Some (JStr s) => UUID s | _ => None end.

(** A row that belongs to a device. *)
Class Owned (R : Type) := owner : R → uuid.
#[export] Instance owned_device : Owned DeviceRow := dv_id.
#[export] Instance owned_metric : Owned MetricRow := mt_device_id.
#[export] Instance owned_software : Owned SoftwareRow := sw_device_id.
#[export] Instance owned_network : Owned NetworkRow := nw_device_id.
#[export] Instance owned_ssh_key : Owned SSHKeyRow := ky_device_id.
#[export] Instance owned_event : Owned EventRow := ev_device_id.
#[export] Instance owned_alert : Owned AlertRow := ar_device_id.

(** The rows of the other devices. *)
Definition others {R} `{Owned R} (dev : uuid) (l : list R) : list R := bfilter (λ r, negb (owner r =? dev)) l.

(** A property that looks at a table only through the rows of other devices. *)
Definition looks_at_others (R : Type) `{Table R} `{Owned R} (dev : uuid) (P : database → Prop) : Prop :=
  ∀ l d, P d → others dev l = others dev (rows d) → P (set_rows l d).

Section others.
Context {R : Type} `{Table R} `{Owned R} (dev : uuid) (P : database → Prop).
Hypothesis (HP : looks_at_others R dev P).

Lemma others_add (r : R) : owner r = dev → preserves (on_db P) (add r).
Proof.
  intros Hr. apply on_db_add. intros d Hd _. apply HP; [done|]. unfold others. rewrite bfilter_app. simpl.
  rewrite Hr, Z.eqb_refl. by rewrite app_nil_r.
Qed.
Lemma others_delete (p : R → bool) : (∀ r, p r = true → owner r = dev) → preserves (on_db P) (delete_where p).
Proof.
  intros Hp. apply on_db_modify_db. intros d Hd. apply HP; [done|]. apply bfilter_drop_other.
  intros r _ Hr. by rewrite (Hp r Hr), Z.eqb_refl.
Qed.
Lemma others_update (p : R → bool) f :
  (∀ r, p r = true → owner r = dev ∧ owner (f r) = dev) → preserves (on_db P) (update_where p f).
Proof.
  intros Hp. apply on_db_modify_db. intros d Hd. apply HP; [done|]. apply bfilter_map_other.
  intros r _ Hr. destruct (Hp r Hr) as [E1 E2]. by rewrite E1, E2, Z.eqb_refl.
Qed.
End others.

(** What every handler keeps, a message keeps. *)
Lemma keeps_handle cfg str_float py_str expo P Q now ids device message :
  (∀ data, keeps P (_handle_telemetry cfg str_float expo now ids device data) Q) →
  (∀ data, keeps P (_handle_software now ids device data) Q) →
  (∀ data, keeps P (_handle_event str_float py_str expo now ids device data) Q) →
  (∀ data, keeps P (_handle_ntp cfg str_float expo now ids device data) Q) →
  (∀ data, keeps P (_handle_network_info now ids device data) Q) →
  (∀ data, keeps P (_handle_ssh_keys now ids device data) Q) →
  (∀ data, keeps P (_handle_process_list str_float now device data) Q) →
  (∀ data, keeps P (_handle_agent_info py_str now device data) Q) →
  keeps P (_handle_command_output device (message_data message)) Q →
  keeps P (_handle_command_result now device (message_data message)) Q →
  (∀ data, keeps P (_handle_screenshot_result str_float now device data) Q) →
  Q device → keeps P (handle cfg str_float py_str expo now ids device message) Q.
Proof.
  intros. unfold handle. apply keeps_seq; [walk|]. intros ty. destruct message as [| | | | |fs]; try (apply (keeps_bind _ _ _ (λ _, False)); [apply keeps_raise|done]).
  match goal with |- keeps _ (mbind ?k _) _ => change (keeps P (k (message_data (JObj fs))) Q) end. cbv beta zeta.
  repeat match goal with |- keeps _ (if ?b then _ else _) _ => destruct b; [done|] end. by apply keeps_ret.
Qed.
Lemma preserves_handle cfg str_float py_str expo P now ids device message :
  (∀ data, preserves P (_handle_telemetry cfg str_float expo now ids device data)) →
  (∀ data, preserves P (_handle_software now ids device data)) →
  (∀ data, preserves P (_handle_event str_float py_str expo now ids device data)) →
  (∀ data, preserves P (_handle_ntp cfg str_float expo now ids device data)) →
  (∀ data, preserves P (_handle_network_info now ids device data)) →
  (∀ data, preserves P (_handle_ssh_keys now ids device data)) →
  (∀ data, preserves P (_handle_process_list str_float now device data)) →
  (∀ data, preserves P (_handle_agent_info py_str now device data)) →
  (∀ data, preserves P (_handle_command_output device data)) →
  (∀ data, preserves P (_handle_command_result now device data)) →
  (∀ data, preserves P (_handle_screenshot_result str_float now device data)) →
  preserves P (handle cfg str_float py_str expo now ids device message).
Proof. intros. eapply keeps_preserves, (keeps_handle _ _ _ _ _ (λ _, True)); intros; by apply keeps_any || done. Qed.

(** *** A message touches the rows of its device only *)

(** What of a command a message does not change. *)
Definition command_identity (c : CommandRow) :=
  (cd_id c, cd_device_id c, cd_issued_by c, cd_command_type c, cd_payload c, cd_created_at c, cd_started_at c).

Section local.
Context (cfg : Settings) (str_float : Q → jstr) (py_str : json → jstr) (expo : list json → option (Z * json)).
Context (dev : uuid) (org named : option uuid) (P : database → Prop).
#[local] Notation same_device := (same_device dev org).
Hypothesis (Hdevices : looks_at_others DeviceRow dev P) (Hmetrics : looks_at_others MetricRow dev P)
  (Hsoftware : looks_at_others SoftwareRow dev P) (Hnetwork : looks_at_others NetworkRow dev P)
  (Hkeys : looks_at_others SSHKeyRow dev P) (Hevents : looks_at_others EventRow dev P)
  (Halerts : looks_at_others AlertRow dev P)
  (Hcommands : ∀ cid f, named = Some cid → (∀ c, command_identity (f c) = command_identity c) → preserves (on_db P) (update_row cid f))
  (Hnotify : ∀ now alert device, same_device device → preserves (on_db P) (notify expo now alert device)).

Lemma local_device_write b f device :
  same_device device → (∀ d, dv_id (f d) = dv_id d) → preserves (on_db P) (when b (update_row (dv_id device) f)).
Proof.
  intros Hd Hf. unfold when. destruct b; [|apply preserves_ret]. apply (others_update dev P Hdevices).
  intros r Hr%Z.eqb_eq. unfold owner, owned_device. rewrite Hf. destruct Hd as [Hd _]. simpl in Hr. split; congruence.
Qed.
Lemma local_set_status v device : same_device device → keeps (on_db P) (set_status v device) same_device.
Proof. intros Hd. apply keeps_seq; [by apply local_device_write|]. intros _. by apply keeps_ret. Qed.
Lemma local_set_last_seen v device : same_device device → keeps (on_db P) (set_last_seen v device) same_device.
Proof. intros Hd. apply keeps_seq; [by apply local_device_write|]. intros _. by apply keeps_ret. Qed.
Lemma local_set_ip_address v device : same_device device → keeps (on_db P) (set_ip_address v device) same_device.
Proof. intros Hd. apply keeps_seq; [by apply local_device_write|]. intros _. by apply keeps_ret. Qed.
Lemma local_set_agent_version v device : same_device device → keeps (on_db P) (set_agent_version v device) same_device.
Proof. intros Hd. apply keeps_seq; [by apply local_device_write|]. intros _. by apply keeps_ret. Qed.

Lemma local_create now aid device ty sev msg :
  same_device device → keeps (on_db P) (create_alert expo now aid device ty sev msg) same_device.
Proof.
  intros Hd. unfold create_alert. destruct (dv_maintenance_mode device); [by apply keeps_ret|].
  apply keeps_seq; [apply preserves_select_one|]. intros [a|]; [by apply keeps_ret|].
  apply keeps_seq; [walk|]. intros _. apply keeps_seq; [apply (others_add dev P Halerts), Hd|]. intros _.
  eapply keeps_bind; [by apply local_set_status|]. intros d Hd'. apply keeps_seq; [by apply Hnotify|]. intros _. by apply keeps_ret.
Qed.
Lemma local_check now aid x t ty sev msg device :
  same_device device → keeps (on_db P) (check_metric expo now aid x t ty sev msg device) same_device.
Proof. intros Hd. unfold check_metric. destruct (exceeds x t); [by apply local_create|by apply keeps_ret]. Qed.
Lemma local_evaluate now ids device m :
  same_device device → keeps (on_db P) (evaluate_metrics cfg str_float expo now ids device m) same_device.
Proof.
  intros Hd. unfold evaluate_metrics. do 3 (eapply keeps_bind; [by apply local_check|]; clear device Hd; intros device Hd).
  by apply local_check.
Qed.
Lemma local_resolve now ty : preserves (on_db P) (resolve_open now dev ty).
Proof.
  apply (others_update dev P Halerts). unfold open_alert. intros a [[E%Z.eqb_eq _]%andb_true_iff _]%andb_true_iff. done.
Qed.
Lemma local_auto_resolve now data : preserves (on_db P) (auto_resolve_alerts now dev data).
Proof. unfold auto_resolve_alerts, resolve_below. walk; apply local_resolve. Qed.

Lemma local_telemetry now ids device data :
  same_device device →
  keeps (on_db P) (_handle_telemetry cfg str_float expo now ids device data) same_device.
Proof.
  intros Hd. unfold _handle_telemetry. repeat (apply keeps_seq; [solve [walk]|intros ?]).
  eapply keeps_bind; [by apply local_set_last_seen|]. intros d1 H1.
  eapply keeps_bind; [by apply local_set_status|]. intros d2 H2.
  apply keeps_seq; [apply (others_add dev P Hmetrics), Hd|]. intros _.
  eapply keeps_bind; [by apply local_evaluate|]. intros d3 H3.
  apply keeps_seq; [rewrite (proj1 H3); apply local_auto_resolve|]. intros _. by apply keeps_ret.
Qed.

Lemma local_software now ids device data :
  same_device device → keeps (on_db P) (_handle_software now ids device data) same_device.
Proof.
  intros Hd. unfold _handle_software, add_package.
  apply keeps_seq; [apply (others_delete dev P Hsoftware); intros r E%Z.eqb_eq; exact (eq_trans E (proj1 Hd))|]. intros _.
  do 2 (apply keeps_seq; [solve [walk]|intros ?]). apply keeps_seq; [|intros; by apply keeps_ret].
  apply preserves_for_each. intros [sid pkg]. walk. apply (others_add dev P Hsoftware), Hd.
Qed.
Lemma local_ssh_keys now ids device data :
  same_device device → keeps (on_db P) (_handle_ssh_keys now ids device data) same_device.
Proof.
  intros Hd. unfold _handle_ssh_keys, add_key.
  apply keeps_seq; [apply (others_delete dev P Hkeys); intros r E%Z.eqb_eq; exact (eq_trans E (proj1 Hd))|]. intros _.
  do 2 (apply keeps_seq; [solve [walk]|intros ?]). apply keeps_seq; [|intros; by apply keeps_ret].
  apply preserves_for_each. intros [sid pkg]. walk. apply (others_add dev P Hkeys), Hd.
Qed.
Lemma local_network now ids device data :
  same_device device → keeps (on_db P) (_handle_network_info now ids device data) same_device.
Proof.
  intros Hd. unfold _handle_network_info, add_interface.
  apply keeps_seq; [solve [walk]|intros ?]. apply keeps_seq; [apply (others_delete dev P Hnetwork); intros r E%Z.eqb_eq; exact (eq_trans E (proj1 Hd))|]. intros _.
  eapply keeps_bind; [by apply local_set_last_seen|]. clear device Hd. intros device Hd.
  eapply keeps_bind; [by apply local_set_status|]. clear device Hd. intros device Hd.
  apply keeps_seq; [solve [walk]|intros ?]. apply keeps_seq.
  { apply preserves_map_each. intros [nid iface]. walk. apply (others_add dev P Hnetwork), Hd. }
  intros addresses. destruct (fold_left _ _ _) as [p f].
  destruct (match p with Some ip => Some ip | None => f end); [by apply local_set_ip_address|by apply keeps_ret].
Qed.
Lemma local_event now ids device data :
  same_device device →
  keeps (on_db P) (_handle_event str_float py_str expo now ids device data) same_device.
Proof.
  intros Hd. unfold _handle_event. do 2 (apply keeps_seq; [solve [walk]|intros ?]). destruct (100 <? a); [by apply keeps_ret|].
  do 8 (apply keeps_seq; [solve [walk]|intros ?]). apply keeps_seq; [apply (others_add dev P Hevents), Hd|]. intros _.
  apply keeps_seq; [walk|]. intros _. destruct (_ =s "crash"); [by apply local_create|by apply keeps_ret].
Qed.
Lemma local_ntp now ids device data :
  same_device device → keeps (on_db P) (_handle_ntp cfg str_float expo now ids device data) same_device.
Proof.
  intros Hd. unfold _handle_ntp. do 3 (apply keeps_seq; [solve [walk]|intros ?]).
  eapply (keeps_bind _ _ _ same_device); [destruct (above _ _); [by apply local_create|by apply keeps_ret]|].
  clear device Hd. intros device Hd. apply keeps_seq; [solve [walk]|intros ?]. destruct (negb _); [by apply local_create|].
  apply keeps_seq; [rewrite (proj1 Hd); apply local_resolve|]. intros _. by apply keeps_ret.
Qed.
(** The command of the data, if it is read. *)
Lemma local_named {A} data (k : uuid → proc A) (Q : A → Prop) :
  named_command data = named → (∀ cid, named = Some cid → keeps (on_db P) (k cid) Q) →
  keeps (on_db P) (cid ← py_uuid (field "command_id" data ?? JNull); k cid) Q.
Proof.
  intros Hn Hk. unfold named_command in Hn.
  assert (keeps (on_db P) (cid ← (raise AttributeError : proc uuid); k cid) Q) as Hraise
    by (apply (keeps_bind _ _ _ (λ _, False)); [apply keeps_raise|done]).
  destruct (field "command_id" data) as [[| | |s| |]|]; try exact Hraise.
  change (keeps (on_db P) (cid ← require ValueError (UUID s); k cid) Q).
  destruct (UUID s) as [cid|]; [exact (Hk cid (eq_sym Hn))|]. apply (keeps_bind _ _ _ (λ _, False)); [apply keeps_raise|done].
Qed.
Lemma local_command_output device data :
  named_command data = named → same_device device → keeps (on_db P) (_handle_command_output device data) same_device.
Proof.
  intros Hn Hd. unfold _handle_command_output. destruct data as [| | | | |fs]; try (apply (keeps_bind _ _ _ (λ _, False)); [apply keeps_raise|done]).
  match goal with |- keeps _ (mbind ?k _) _ => change (keeps (on_db P) (k (field "command_id" (JObj fs) ?? JNull)) same_device) end. cbv beta.
  apply keeps_seq; [|intros; by apply keeps_ret]. unfold when. destruct (py_true _); [|apply preserves_ret].
  eapply keeps_preserves, (local_named _ _ (λ _, True)); [done|]. intros cid Hcid. apply keeps_any. walk. by apply Hcommands.
Qed.
Lemma local_command_result now device data :
  named_command data = named → same_device device → keeps (on_db P) (_handle_command_result now device data) same_device.
Proof.
  intros Hn Hd. unfold _handle_command_result. destruct data as [| | | | |fs]; try (apply (keeps_bind _ _ _ (λ _, False)); [apply keeps_raise|done]).
  match goal with |- keeps _ (mbind ?k _) _ => change (keeps (on_db P) (k (field "command_id" (JObj fs) ?? JNull)) same_device) end. cbv beta.
  destruct (negb _); [by apply keeps_ret|]. apply local_named; [done|]. intros cid Hcid.
  apply keeps_seq; [solve [walk]|intros ?]. case_match; [|by apply keeps_ret].
  do 4 (apply keeps_seq; [solve [walk]|intros ?]). apply keeps_seq; [by apply Hcommands|]. intros _.
  apply keeps_seq; [|intros; by apply keeps_ret].
  unfold when. case_match; [rewrite (proj1 Hd); apply local_resolve|apply preserves_ret].
Qed.
Lemma local_agent_info now device data :
  same_device device → keeps (on_db P) (_handle_agent_info py_str now device data) same_device.
Proof.
  intros Hd. unfold _handle_agent_info. apply keeps_seq; [walk|]. intros v. eapply (keeps_bind _ _ _ same_device).
  { destruct (py_true v); [|by apply keeps_ret]. apply keeps_seq; [walk|]. intros _. by apply local_set_agent_version. }
  clear device Hd. intros device Hd. eapply keeps_bind; [by apply local_set_last_seen|]. clear device Hd. intros device Hd.
  by apply local_set_status.
Qed.
Lemma local_handle now ids device message :
  named_command (message_data message) = named → same_device device → keeps (on_db P) (handle cfg str_float py_str expo now ids device message) same_device.
Proof.
  intros Hn Hd. apply keeps_handle; [intros data..| | |intros data|done].
  - by apply local_telemetry.
  - by apply local_software.
  - by apply local_event.
  - by apply local_ntp.
  - by apply local_network.
  - by apply local_ssh_keys.
  - unfold _handle_process_list. do 2 (apply keeps_seq; [solve [walk]|intros ?]). by apply keeps_ret.
  - by apply local_agent_info.
  - by apply local_command_output.
  - by apply local_command_result.
  - unfold _handle_screenshot_result. do 2 (apply keeps_seq; [solve [walk]|intros ?]). case_match; [by apply keeps_ret|].
    do 4 (apply keeps_seq; [solve [walk]|intros ?]). by apply keeps_ret.
Qed.

End local.

(** *** The tokens a notification may change *)

(** The token of a member of the organization. *)
Definition member_token (org : option uuid) (d : database) (t : PushTokenRow) : bool :=
  existsb (λ m, (mb_user_id m =? pk_user_id t) && bool_decide (Some (mb_org_id m) = org)) (members d).
(** A row that is one of [d], but for the time it was last used. *)
Definition was_token (d : database) (t : PushTokenRow) : Prop :=
  ∃ t0, In t0 (push_tokens d) ∧ t = pk_set_last_used (pk_last_used t) t0.
(** The tokens of the other users are as they were; those of members may be gone or newly used. *)
Definition tokens_local (org : option uuid) (d0 d : database) : Prop :=
  members d = members d0 ∧ (∀ t, In t (push_tokens d) → was_token d0 t) ∧
  bfilter (λ t, negb (member_token org d t)) (push_tokens d) = bfilter (λ t, negb (member_token org d0 t)) (push_tokens d0).
(** Identifiers and tokens are unique. *)
Definition tokens_unique (d : database) : Prop :=
  ∀ t t', In t (push_tokens d) → In t' (push_tokens d) → pk_id t = pk_id t' ∨ pk_token t = pk_token t' → t = t'.

Section tokens.
Context (expo : list json → option (Z * json)) (R : database → Prop) (d0 : database) (org : option uuid).
Hypothesis (HR : ignores PushTokenRow R) (Hunique : tokens_unique d0).
#[local] Notation P := (λ d, R d ∧ tokens_local org d0 d).

(** A row that agrees with the token of a member in a unique column is that token's. *)
Lemma member_agrees t t' :
  was_token d0 t → was_token d0 t' → pk_id t = pk_id t' ∨ pk_token t = pk_token t' → member_token org d0 t = true →
  member_token org d0 t' = true.
Proof.
  intros (t0 & H0 & ->) (t1 & H1 & ->) E Hm. assert (t0 = t1) as <- by (apply Hunique; [done|done|exact E]). exact Hm.
Qed.

Definition addressed (t : PushTokenRow) : Prop := was_token d0 t ∧ member_token org d0 t = true.

Lemma tokens_delete (p : PushTokenRow → bool) :
  (∀ t, p t = true → ∃ t', addressed t' ∧ pk_token t' = pk_token t) → preserves (on_db P) (delete_where p).
Proof.
  intros Hp. apply on_db_modify_db. intros d (Hr & Hm & Hw & Ho). split; [by apply HR|]. split_and!; [done| |].
  - intros t [Ht _]%bfilter_In. by apply Hw.
  - rewrite <-Ho. apply bfilter_drop_other. intros t Ht Hpt. destruct (Hp t Hpt) as (t' & [H1 H2] & E).
    unfold member_token in *. simpl. rewrite Hm. apply negb_false_iff. eapply member_agrees; [exact H1|by apply Hw|by right|exact H2].
Qed.
Lemma tokens_used now t : addressed t → preserves (on_db P) (update_row (pk_id t) (pk_set_last_used (Some now))).
Proof.
  intros [H1 H2]. apply on_db_modify_db. intros d (Hr & Hm & Hw & Ho). split; [by apply HR|]. split_and!; [done| |].
  - intros t' (t1 & <- & Ht1)%in_map_iff. destruct (Hw t1 Ht1) as (t0 & H0 & E0). exists t0. split; [done|].
    destruct (has_pk _ _); [|done]. by rewrite E0.
  - rewrite <-Ho. apply bfilter_map_other. intros t' Ht' E%Z.eqb_eq.
    assert (member_token org d0 t' = true) as Hmem.
    { eapply member_agrees; [exact H1|by apply Hw|left; simpl in E; by rewrite E|exact H2]. }
    unfold member_token in *. simpl. rewrite Hm. by rewrite Hmem.
Qed.

Lemma invalid_tokens_of tokens i results l :
  invalid_tokens tokens i results = Some l → ∀ x, In x l → ∃ t, In t tokens ∧ pk_token t = x.
Proof.
  revert i l. induction results as [|r results IH]; intros i l; cbn [invalid_tokens]; [by intros [= <-] x []|].
  destruct (is_invalid r) as [[]|]; cbn [mbind option_bind]; [|apply IH|done].
  destruct (tokens !! i) as [t|] eqn:Et; cbn [mbind option_bind]; [|done]. destruct (invalid_tokens _ _ _) as [l'|] eqn:E; [|done].
  intros [= <-] x [<-|Hx]; [|by eapply IH]. exists t. split; [|done]. by apply list_elem_of_In, (list_elem_of_lookup_2 _ i).
Qed.

Lemma push_local now o title body : org = Some o → preserves (on_db P) (_send_push_notifications expo now o title body).
Proof.
  intros Ho s Hs. unfold _send_push_notifications. unfold mbind at 1, proc_bind at 1, gets.
  set (tokens := flat_map _ _).
  assert (∀ t, In t tokens → addressed t) as Ht.
  { destruct Hs as [(_ & Hm & Hw & _) _]. intros t (t1 & Ht1 & (m & <- & Hin)%in_map_iff)%in_flat_map. split; [by apply Hw|].
    apply bfilter_In in Hin as [Hin [H1 H2%Z.eqb_eq]%andb_true_iff]. apply existsb_exists. exists m. rewrite <-Hm. split; [done|].
    rewrite H1. simpl. apply bool_decide_eq_true. by rewrite H2. }
  assert (preserves (on_db P) (for_each (λ pt, update_row (pk_id pt) (pk_set_last_used (Some now))) tokens)) as Hused.
  { clear -Ht HR Hunique. induction tokens as [|t l IH]; [apply preserves_ret|]. cbn [for_each].
    apply preserves_bind; [apply tokens_used, Ht; by left|]. intros _. apply IH. intros t' Ht'. apply Ht. by right. }
  clearbody tokens. cbv beta iota. revert s Hs. match goal with |- ∀ s, on_db _ s → on_db _ (snd (?m s)) => change (preserves (on_db P) m) end.
  destruct tokens as [|t tokens']; [apply preserves_ret|]. set (tokens := t :: tokens') in *. cbv zeta. apply preserves_bind; [walk|]. intros _.
  repeat (case_match; try exact Hused; try apply preserves_ret).
  apply preserves_bind; [|intros _; exact Hused]. apply tokens_delete. intros t' (x & Hx & E%seqb_true)%existsb_exists.
  eapply invalid_tokens_of in Hx as (t1 & Ht1 & Et1); [|done]. exists t1. split; [by apply Ht|congruence].
Qed.
Lemma notify_local now alert device :
  dv_org_id device = org → preserves (on_db P) (notify expo now alert device).
Proof.
  intros Ho. unfold notify. apply preserves_bind; [apply preserves_gets|]. intros rules.
  apply preserves_bind; [apply on_db_notify_rules|]. intros b. apply preserves_bind; [walk|]. intros _.
  destruct (dv_org_id device) as [o|] eqn:E; [|apply preserves_ret]. unfold when. case_match; [|apply preserves_ret]. by apply push_local.
Qed.
End tokens.

(** The definition of one handler. *)
Ltac unfold_handler := first
  [ progress unfold _handle_telemetry | progress unfold _handle_software, add_package | progress unfold _handle_event
  | progress unfold _handle_ntp | progress unfold _handle_network_info, add_interface | progress unfold _handle_ssh_keys, add_key
  | progress unfold _handle_process_list | progress unfold _handle_agent_info | progress unfold _handle_command_output
  | progress unfold _handle_command_result | progress unfold _handle_screenshot_result ].

(** *** The invariants of the tables *)

Section invariants.
Context (cfg : Settings) (str_float : Q → jstr) (py_str : json → jstr) (expo : list json → option (Z * json)).

Lemma one_open_resolve_open now dev ty : preserves (on_db one_open) (resolve_open now dev ty).
Proof. apply one_open_resolve_where. Qed.
#[local] Hint Resolve one_open_resolve_open : server.

(** A property of the alerts that raising and resolving them keeps. *)
Lemma one_open_handle now ids device message :
  preserves (on_db one_open) (handle cfg str_float py_str expo now ids device message).
Proof. apply preserves_handle; intros data. all: unfold_handler. all: walk. Qed.

Lemma on_db_create_alert P now aid device ty sev msg :
  ignores AlertRow P → ignores DeviceRow P → ignores PushTokenRow P →
  preserves (on_db P) (create_alert expo now aid device ty sev msg).
Proof. intros. unfold create_alert. walk. Qed.
Lemma on_db_evaluate P now ids device m :
  ignores AlertRow P → ignores DeviceRow P → ignores PushTokenRow P →
  preserves (on_db P) (evaluate_metrics cfg str_float expo now ids device m).
Proof.
  intros. unfold evaluate_metrics, check_metric.
  repeat (apply preserves_bind; [case_match; [by apply on_db_create_alert|apply preserves_ret]|intros ?]).
  case_match; [by apply on_db_create_alert|apply preserves_ret].
Qed.
Lemma on_db_auto_resolve P now dev data : ignores AlertRow P → preserves (on_db P) (auto_resolve_alerts now dev data).
Proof. intros. unfold auto_resolve_alerts, resolve_below, resolve_open. walk. Qed.
#[local] Hint Resolve on_db_create_alert on_db_evaluate on_db_auto_resolve : server.

Lemma queue_ok_status p status g :
  (status = "running" ∨ status = "completed" ∨ status = "failed") → (∀ c, cd_status (g c) = cd_status c) →
  preserves (on_db queue_ok) (update_where p (λ c, g (cd_set_status status c))).
Proof.
  intros Hs Hg. apply queue_ok_update_where. intros c dev. unfold queued. rewrite Hg. simpl.
  destruct Hs as [->|[->| ->]]; by rewrite andb_false_r.
Qed.

Lemma queue_ok_handle now ids device message :
  preserves (on_db queue_ok) (handle cfg str_float py_str expo now ids device message).
Proof.
  apply preserves_handle; intros data. all: unfold_handler. all: unfold resolve_open. all: walk.
  1: refine (queue_ok_status _ "running" (cd_set_output _) _ _); auto.
  all: refine (queue_ok_status _ _ (λ c, cd_set_completed_at _ (cd_set_output _ (cd_set_exit_code _ c))) _ _); [|done].
  all: try case_match; auto.
Qed.
End invariants.

(** *** The reported addresses *)

(** The address a device is given: the first public one it reports, else the
    first of all. *)
Definition chosen_ip (reported : list (option jstr)) : option Z :=
  let ips := omap (λ o, o ≫= _extract_ip) reported in
  match find (λ ip, negb (is_private ip)) ips with Some ip => Some ip | None => head ips end.

Lemma best_ip_fold l a b :
  fold_left best_ip l (a, b) =
    (match a with Some _ => a | None => find (λ ip, negb (is_private ip)) (omap (λ o, o ≫= _extract_ip) l) end,
     match b with Some _ => b | None => head (omap (λ o, o ≫= _extract_ip) l) end).
Proof.
  revert a b. induction l as [|x l IH]; intros a b; [by destruct a, b|]. simpl. unfold best_ip at 2.
  destruct (x ≫= _extract_ip) as [ip|]; [|apply IH]. rewrite IH. simpl. by destruct a, b, (is_private ip).
Qed.

(** A nullable text in a message. *)
Definition null_text (o : option jstr) : json := match o with Some s => JStr s | None => JNull end.
(** A nullable integer in a message: a whole number, or a truth value. *)
Definition int_value (v : json) (o : option Z) : Prop :=
  match v, o with
  | JNull, None => True
  | JNum (Fin q), Some z => (q == inject_Z z)%Q
  | JBool b, Some z => z = if b then 1 else 0
  | _, _ => False
  end.

(** What a value that was read tells of the message. *)
Lemma py_get_ok k v s x s' : py_get k v s = (Ok x, s') → s' = s ∧ x = field k v ?? JNull.
Proof. destruct v; try done. by intros [= <- <-]. Qed.
Lemma py_get_or_ok k d v s x s' : py_get_or k d v s = (Ok x, s') → s' = s ∧ x = field k v ?? d.
Proof. destruct v; try done. by intros [= <- <-]. Qed.
Lemma as_text_ok v s o s' : as_text v s = (Ok o, s') → s' = s ∧ v = null_text o.
Proof. destruct v as [| | |t| |]; try done; cbn [as_text]; [by intros [= <- <-]|]. destruct (storable t); [|done]. by intros [= <- <-]. Qed.
Lemma as_varchar_ok n v s o s' : as_varchar n v s = (Ok o, s') → s' = s ∧ v = null_text o.
Proof.
  unfold as_varchar. intros Hrun. step Hrun. apply as_text_ok in E as [-> ->]. destruct r as [t|]; [|by injection Hrun as <- <-].
  destruct (fits n t); [|done]. by injection Hrun as <- <-.
Qed.
Lemma not_null_ok {A} (o : option A) s a s' : not_null o s = (Ok a, s') → s' = s ∧ o = Some a.
Proof. destruct o; [|done]. by intros [= <- <-]. Qed.
Lemma as_bool_ok v s b s' : as_bool v s = (Ok b, s') → s' = s ∧ b = py_true v.
Proof.
  destruct v as [|b'|[q| | |]| | |]; try done; cbn [as_bool]; [by intros [= <- <-]|]. destruct (Qeq_bool q 0) eqn:E0; [|destruct (Qeq_bool q 1)];
    intros [= <- <-]; (split; [done|]); unfold py_true, is_zero; by rewrite E0.
Qed.
Lemma as_int_ok n v s o s' : as_int n v s = (Ok o, s') → s' = s ∧ int_value v o.
Proof.
  destruct v as [|b'|[q| | |]| | |]; try done; cbn [as_int]; [by intros [= <- <-]|by intros [= <- <-]|].
  destruct (_ && _) eqn:E; [|done]. intros [= <- <-]. split; [done|]. simpl. apply andb_true_iff in E as [E%Z.eqb_eq _].
  rewrite <-(Qred_correct q) at 1. destruct (Qred q) as [n' d']. simpl in *. by injection E as ->.
Qed.
Lemma text_list_ok v s l s' : text_list v s = (Ok l, s') → s' = s ∧ v = JArr (map null_text l).
Proof.
  destruct v as [| | | |vs|]; try done. cbn [text_list]. intros Hrun.
  assert (s' = s ∧ vs = map null_text l) as [-> ->]; [|done]. revert s l s' Hrun.
  induction vs as [|v vs IH]; intros s l s' Hrun; cbn [map_each] in Hrun; [by injection Hrun as <- <-|].
  step Hrun. apply as_text_ok in E as [-> ->]. step Hrun. apply IH in E as [-> ->]. by injection Hrun as <- <-.
Qed.

(** The row of an interface of a report. *)
Definition interface_of (now : Z) (dev : uuid) (x : uuid * json) (r : NetworkRow) : Prop :=
  let '(nid, iface) := x in
  let listed k := let v := field k iface ?? JNull in if py_true v then v else JArr [] in
  nw_id r = nid ∧ nw_device_id r = dev ∧ nw_updated_at r = now ∧
  field "name" iface ?? JStr "" = JStr (nw_interface_name r) ∧ field "mac_address" iface ?? JNull = null_text (nw_mac_address r) ∧
  listed "ipv4" = JArr (map null_text (nw_ipv4 r)) ∧ listed "ipv6" = JArr (map null_text (nw_ipv6 r)) ∧
  nw_is_up r = py_true (field "is_up" iface ?? JBool false) ∧ int_value (field "mtu" iface ?? JNull) (nw_mtu r).

(** One interface adds one row, with the addresses that are handed back. *)
Lemma add_interface_ok now device x s a s' :
  add_interface now device x s = (Ok a, s') →
  (∃ fs, snd x = JObj fs) ∧
  ∃ r, s' = set_db (set_network (network (db s) ++ [r]) (db s)) s ∧ nw_ipv4 r = a ∧ interface_of now (dv_id device) x r.
Proof.
  destruct x as [nid iface]. unfold add_interface. intros Hrun.
  assert (∃ fs, iface = JObj fs) as Hobj by (destruct iface; try done; by eexists). split; [done|].
  step Hrun. apply py_get_ok in E as [-> ->]. step Hrun. apply text_list_ok in E as [-> H4].
  step Hrun. apply py_get_ok in E as [-> ->]. step Hrun. apply text_list_ok in E as [-> H6].
  step Hrun. apply py_get_or_ok in E as [-> ->]. step Hrun. apply as_varchar_ok in E as [-> Hname].
  step Hrun. apply not_null_ok in E as [-> ->].
  step Hrun. apply py_get_ok in E as [-> ->]. step Hrun. apply as_varchar_ok in E as [-> Hmac].
  step Hrun. apply py_get_or_ok in E as [-> ->]. step Hrun. apply as_bool_ok in E as [-> ->].
  step Hrun. apply py_get_ok in E as [-> ->]. step Hrun. apply as_int_ok in E as [-> Hmtu].
  step Hrun. unfold add in E. destruct (existsb _ _); [done|]. injection E as <-. injection Hrun as <- <-. subst.
  eexists. split; [done|]. split; [done|]. by split_and!.
Qed.
Lemma add_interfaces_ok now device xs s l s' :
  map_each (add_interface now device) xs s = (Ok l, s') →
  Forall (λ x, ∃ fs, snd x = JObj fs) xs ∧
  ∃ rs, s' = set_db (set_network (network (db s) ++ rs) (db s)) s ∧ map nw_ipv4 rs = l ∧
    Forall2 (interface_of now (dv_id device)) xs rs.
Proof.
  revert s l s'. induction xs as [|x xs IH]; intros s l s' Hrun; cbn [map_each] in Hrun.
  - injection Hrun as <- <-. split; [done|]. exists []. rewrite app_nil_r. split; [by destruct s as [[]]|done].
  - step Hrun. apply add_interface_ok in E as (Hx & r' & -> & H1 & H2). step Hrun.
    apply IH in E as (Hxs & rs & -> & H3 & H4). injection Hrun as <- <-. split; [by constructor|]. exists (r' :: rs). simpl.
    rewrite <-app_assoc. simpl. split; [done|]. split; [congruence|]. by constructor.
Qed.

(** The interfaces of a report that is accepted. *)
Definition reported_interfaces (data : json) : list json :=
  match field "interfaces" data with Some (JArr l) => l | _ => [] end.
Lemma py_iter_reported data (ids : nat → uuid) l s s' :
  py_iter (field "interfaces" data ?? JArr []) s = (Ok l, s') →
  Forall (λ x, ∃ fs, snd x = JObj fs) (imap (λ i x, (ids i, x)) l) → s' = s ∧ l = reported_interfaces data.
Proof.
  unfold reported_interfaces. destruct (field "interfaces" data) as [[| | |t|vs|fs]|]; cbn [from_option py_iter]; try done;
    intros [= <- <-]; try done.
  - destruct t; [done|]. simpl. intros H%Forall_cons. by destruct H as [(? & ?) _].
  - destruct fs; [done|]. simpl. intros H%Forall_cons. by destruct H as [(? & ?) _].
Qed.

(** The device object is that of the stored row. *)
Definition object_stored (device : DeviceRow) (s : server) : Prop :=
  ∀ r, In r (devices (db s)) → dv_id r = dv_id device → r = device.
Definition replace_device (device : DeviceRow) (l : list DeviceRow) : list DeviceRow :=
  map (λ r, if dv_id r =? dv_id device then device else r) l.
Lemma replace_device_twice d d' l : dv_id d = dv_id d' → replace_device d' (replace_device d l) = replace_device d' l.
Proof.
  intros E. unfold replace_device. rewrite map_map. apply map_ext. intros r. rewrite E.
  destruct (Z.eqb_spec (dv_id r) (dv_id d')) as [_|Hne]; [by rewrite E, Z.eqb_refl|]. by destruct (Z.eqb_spec (dv_id r) (dv_id d')).
Qed.

(** Assignments to the device object reach its row, and leave the interfaces. *)
Definition assigned (device device' : DeviceRow) (s s' : server) : Prop :=
  network (db s') = network (db s) ∧ devices (db s') = replace_device device' (devices (db s)) ∧
  dv_id device' = dv_id device ∧ object_stored device' s'.
Lemma assign_run (b : bool) f device s :
  object_stored device s → (∀ d, dv_id (f d) = dv_id d) → (b = false → f device = device) →
  ∃ s', (when b (update_row (dv_id device) f);; mret (f device)) s = (Ok (f device), s') ∧ assigned device (f device) s s'.
Proof.
  intros Ho Hf Hb.
  assert (∀ s', devices (db s') = replace_device (f device) (devices (db s)) → object_stored (f device) s') as Hst.
  { intros s' E r Hr Hid. rewrite E in Hr. apply in_map_iff in Hr as (r0 & <- & _). by destruct (Z.eqb_spec (dv_id r0) (dv_id (f device))). }
  unfold when. run_proc. destruct b.
  - eexists. split; [done|]. assert (devices (db (snd (update_row (dv_id device) f s))) = replace_device (f device) (devices (db s))) as E.
    { apply map_ext_in. intros r Hr. unfold has_pk. simpl. rewrite Hf.
      destruct (Z.eqb_spec (dv_id r) (dv_id device)) as [Hid|]; [|done]. by rewrite (Ho r Hr Hid). }
    split_and!; [done|exact E|done|by apply Hst].
  - eexists. split; [done|]. assert (devices (db s) = replace_device (f device) (devices (db s))) as E.
    { rewrite <-(map_id (devices (db s))) at 1. apply map_ext_in. intros r Hr. rewrite Hb by done.
      destruct (Z.eqb_spec (dv_id r) (dv_id device)) as [Hid|]; [|done]. by rewrite (Ho r Hr Hid). }
    split_and!; [done|exact E|done|by apply Hst].
Qed.
Lemma assigned_trans d1 d2 d3 s1 s2 s3 : assigned d1 d2 s1 s2 → assigned d2 d3 s2 s3 → assigned d1 d3 s1 s3.
Proof.
  intros (H1 & H2 & H3 & H4) (H5 & H6 & H7 & H8). split_and!; [congruence| |congruence|done].
  rewrite H6, H2. by apply replace_device_twice.
Qed.
Lemma set_last_seen_run v device s :
  object_stored device s → ∃ s', set_last_seen v device s = (Ok (dv_set_last_seen (Some v) device), s') ∧
    assigned device (dv_set_last_seen (Some v) device) s s'.
Proof.
  intros Ho. apply (assign_run _ (dv_set_last_seen (Some v))); [done|done|]. intros E%bool_decide_eq_false. apply dec_stable in E.
  destruct device. simpl in *. by subst.
Qed.
Lemma set_status_run v device s :
  object_stored device s → ∃ s', set_status v device s = (Ok (dv_set_status v device), s') ∧ assigned device (dv_set_status v device) s s'.
Proof.
  intros Ho. apply (assign_run _ (dv_set_status v)); [done|done|]. intros E%negb_false_iff%seqb_true. destruct device. simpl in *. by subst.
Qed.
Lemma set_ip_address_run v device s :
  object_stored device s → ∃ s', set_ip_address v device s = (Ok (dv_set_ip_address v device), s') ∧
    assigned device (dv_set_ip_address v device) s s'.
Proof.
  intros Ho. apply (assign_run _ (dv_set_ip_address v)); [done|done|]. intros E%bool_decide_eq_false. apply dec_stable in E.
  destruct device. simpl in *. by subst.
Qed.

(** ** Properties *)

Module MessageProps.
Section props.
Context (cfg : Settings) (str_float : Q → jstr) (py_str : json → jstr) (expo : list json → option (Z * json)).

(** Everything but what belongs to the device and the command that is named; of the commands also what names them. *)
Definition view_without (dev : uuid) (named : option uuid) (d : database) :=
  (others dev (devices d), others dev (metrics d), others dev (software d), others dev (network d), others dev (ssh_keys d),
   others dev (events d), others dev (alerts d),
   (bfilter (λ c, bool_decide (Some (cd_id c) ≠ named)) (commands d), map command_identity (commands d)),
   (users d, organizations d, members d, uptime_events d, device_configs d, scheduled_commands d, audit_log d,
    notification_rules d)).

Lemma view_named dev named org d0 v cid f :
  named = Some cid → (∀ c, command_identity (f c) = command_identity c) →
  preserves (on_db (λ d, view_without dev named d = v ∧ tokens_local org d0 d)) (update_row cid f).
Proof.
  intros Hn Hf. apply on_db_modify_db. intros d [Hd Ht]. split; [|done]. rewrite <-Hd. unfold view_without. simpl.
  rewrite bfilter_map_other, map_map; [do 2 f_equal; f_equal; apply map_ext; intros c; by destruct (has_pk cid c)|].
  intros c _ Hc%Z.eqb_eq. simpl in Hc. specialize (Hf c). injection Hf as Hid _.
  rewrite Hid, Hn, Hc. rewrite bool_decide_eq_false_2; [done|]. intros E. by apply E.
Qed.

(** C19: whatever an agent sends, and whether the message is accepted or fails, nothing is changed but what is its own: the
    rows of its device, the state of the one command that the message names by its identifier (of any device; the commands
    stay the same in number, order and request), and the push tokens of members of the device's organization, which a
    notification marks as used or deletes when the push service refuses them.  The metrics, software, interfaces, keys,
    events and alerts of the other devices, their rows, the other commands and tokens, the accounts, organizations,
    schedules, rules and the audit log stay as they are. *)
Theorem agent_message_is_local now ids device message s s' r :
  db s = saved s → tokens_unique (db s) → handle cfg str_float py_str expo now ids device message s = (r, s') →
  let named := named_command (message_data message) in
  on_db (λ d, view_without (dv_id device) named d = view_without (dv_id device) named (db s) ∧
              tokens_local (dv_org_id device) (db s) d) s'.
Proof.
  intros Hs Hu Hrun named. set (v := view_without (dv_id device) named (db s)). change s' with (snd (r, s')). rewrite <-Hrun.
  apply (keeps_preserves _ _ (same_device (dv_id device) (dv_org_id device))); [eapply local_handle|];
    try (intros l d [Hd Ht] Ho; split; [unfold view_without in *; simpl in *; congruence|done]).
  - intros cid f. apply view_named.
  - intros now' alert device' [_ Hd]. apply notify_local; [|done|done]. intros l d Hd'. exact Hd'.
  - done.
  - done.
  - assert (tokens_local (dv_org_id device) (db s) (db s)) as Ht.
    { split_and!; [done| |done]. intros t Ht. exists t. split; [done|]. by destruct t. }
    split; [done|]. by rewrite <-Hs.
Qed.

(** C26: a network report that is accepted replaces the interfaces of the device by those it lists, one row each, in order
    and with the values reported, and leaves those of the other devices.  The device, whose object is that of its row, is
    seen now and online, and its address, in the object and in the row, is the first public IPv4 address reported, the
    first one when none is public, and unchanged when none is reported; the rows of the other devices stay. *)
Theorem network_report_replaces now ids device data s device' s' :
  object_stored device s → _handle_network_info now ids device data s = (Ok device', s') →
  ∃ rs, Forall2 (interface_of now (dv_id device)) (imap (λ i x, (ids i, x)) (reported_interfaces data)) rs ∧
    network (db s') = others (dv_id device) (network (db s)) ++ rs ∧
    device' = dv_set_ip_address (match chosen_ip (List.concat (map nw_ipv4 rs)) with
                                 | Some ip => Some (str_ipv4 ip)
                                 | None => dv_ip_address device
                                 end) (dv_set_status "online" (dv_set_last_seen (Some now) device)) ∧
    devices (db s') = replace_device device' (devices (db s)).
Proof.
  intros Hobj. unfold _handle_network_info. intros Hrun. step Hrun. apply py_get_or_ok in E as [-> ->].
  step Hrun. injection E as E; subst.
  match type of Hrun with (mbind _ (set_last_seen now device)) ?s1 = _ =>
    destruct (set_last_seen_run now device s1 Hobj) as (s2 & E2 & H2) end.
  rewrite (bind_ok _ _ _ _ _ E2) in Hrun.
  match type of Hrun with (mbind _ (set_status ?v ?d)) _ = _ =>
    destruct (set_status_run v d s2 (proj2 (proj2 (proj2 H2)))) as (s3 & E3 & H3) end.
  rewrite (bind_ok _ _ _ _ _ E3) in Hrun. pose proof (assigned_trans _ _ _ _ _ _ H2 H3) as (Hn & Hd & _ & Ho). step Hrun. step Hrun.
  apply add_interfaces_ok in E0 as (Hobjs & rs & -> & Hl & Hrows). eapply py_iter_reported in E as [-> ->]; [|exact Hobjs].
  exists rs. split; [exact Hrows|]. rewrite best_ip_fold in Hrun. simpl in Hrun.
  match type of Hrun with context [find ?f ?l] =>
    assert (chosen_ip (List.concat (map nw_ipv4 rs)) = match find f l with Some ip => Some ip | None => head l end) as -> by (by rewrite Hl) end.
  destruct (match find _ _ with Some ip => Some ip | None => _ end) as [ip|].
  - match type of Hrun with set_ip_address ?v ?d ?s5 = _ => destruct (set_ip_address_run v d s5 Ho) as (s6 & E6 & H6 & H7 & _) end.
    rewrite E6 in Hrun. injection Hrun as <- <-. rewrite H6, H7. simpl. rewrite Hn, Hd. split; [done|]. split; [done|].
    by apply replace_device_twice.
  - injection Hrun as <- <-. simpl. rewrite Hn, Hd. split; [done|]. split; [by destruct device|]. f_equal; by destruct device.
Qed.

(** An alert about a full disk is not resolved by telemetry: the automatic resolution looks for another type. *)
Theorem disk_alert_not_auto_resolved now dev data s a :
  In a (alerts (db s)) → ar_alert_type a = "disk_full" → In a (alerts (db (snd (auto_resolve_alerts now dev data s)))).
Proof.
  intros Ha Hty. revert s Ha.
  assert (∀ ty, ty ≠ "disk_full" → preserves (λ s, In a (alerts (db s))) (resolve_open now dev ty)) as Hr.
  { intros ty Hne s Ha. simpl. apply in_map_iff. exists a. split; [|done]. unfold open_alert. rewrite Hty.
    destruct ("disk_full" =s ty) eqn:E; [apply seqb_true in E; congruence|]. by rewrite andb_false_r. }
  change (preserves (λ s, In a (alerts (db s))) (auto_resolve_alerts now dev data)).
  unfold auto_resolve_alerts, resolve_below. walk; by apply Hr.
Qed.
End props.

(** *** Witnesses *)

Definition quiet_cfg : Settings := default_settings.
Definition agent (i : uuid) : DeviceRow := AlertProps.device_of i (Some 10).
Definition handle_ (now : Z) (i : uuid) (message : json) : proc DeviceRow :=
  handle quiet_cfg (λ _, []) (λ _, []) (λ _, None) now (λ n, 1000 + Z.of_nat n) (agent i) message.
Definition message (ty : jstr) (data : list (jstr * json)) : json := JObj [("type", JStr ty); ("data", JObj data)].
Definition two_agents : server := start (set_devices [agent 7; agent 8] empty_db).
Definition hot : json := message "telemetry" [("cpu_percent", JNum (of_Z 99))].

Lemma agent_message_is_local_witness :
  on_db (λ d, view_without 7 None d = view_without 7 None (db two_agents) ∧ tokens_local (Some 10) (db two_agents) d)
    (snd (handle_ 5 7 hot two_agents)) ∧
  (ar_device_id <$> alerts (db (snd (handle_ 5 7 hot two_agents)))) = [7].
Proof.
  split; [|vm_compute; reflexivity]. destruct (handle_ 5 7 hot two_agents) as [r s'] eqn:E.
  refine (agent_message_is_local quiet_cfg (λ _, []) (λ _, []) (λ _, None) 5 (λ n, 1000 + Z.of_nat n) (agent 7) hot two_agents s' r
           eq_refl _ E). intros t t' [].
Defined.

Definition interfaces : json :=
  JObj [("interfaces", JArr [JObj [("name", JStr "lo"); ("ipv4", JArr [JStr "127.0.0.1/8"])];
                             JObj [("name", JStr "eth0"); ("ipv4", JArr [JStr "10.0.0.5/24"; JStr "8.8.4.4/32"])]])].
Lemma network_report_replaces_witness :
  ∃ device' s', _handle_network_info 5 (λ n, 1000 + Z.of_nat n) (agent 7) interfaces two_agents = (Ok device', s') ∧
    dv_ip_address device' = Some "8.8.4.4" ∧ length (network (db s')) = 2%nat.
Proof.
  destruct (_handle_network_info 5 (λ n, 1000 + Z.of_nat n) (agent 7) interfaces two_agents) as [[device'|e] s'] eqn:E;
    [|vm_compute in E; discriminate].
  destruct (network_report_replaces 5 (λ n, 1000 + Z.of_nat n) (agent 7) interfaces two_agents device' s') as (rs & Hrows & Hn & _).
  - intros r [<-|[<-|[]]] Hid; [reflexivity|discriminate Hid].
  - exact E.
  - exists device', s'. split; [reflexivity|]. split; [vm_compute in E; injection E as <- <-; reflexivity|].
    rewrite Hn. apply Forall2_length in Hrows. rewrite length_app, <-Hrows. reflexivity.
Defined.

(** *** What goes wrong *)

Definition command_7 : CommandRow :=
  {| cd_id := 100; cd_device_id := 7; cd_issued_by := None; cd_command_type := "reboot"; cd_payload := []; cd_status := "sent";
     cd_created_at := 0; cd_started_at := None; cd_completed_at := None; cd_exit_code := None; cd_output := None |}.
Definition with_command : server := start (set_devices [agent 7; agent 8] (set_commands [command_7] empty_db)).
Definition result_of (i : uuid) : json :=
  message "command_result" [("command_id", JStr (str_uuid i)); ("exit_code", JNum (of_Z 0)); ("output", JStr "done")].

(** Any agent can complete the command of another device by its identifier. *)
Theorem foreign_result_accepted :
  (λ c, (cd_device_id c, cd_status c, cd_output c)) <$> commands (db (snd (handle_ 5 8 (result_of 100) with_command)))
  = [(7, "completed", Some "done")].
Proof. vm_compute. reflexivity. Qed.

(** Output that arrives after the result makes a completed command run again. *)
Theorem late_output_reopens :
  let s := snd (handle_ 5 7 (result_of 100) with_command) in
  cd_status <$> commands (db (snd (handle_ 6 7 (message "command_output" [("command_id", JStr (str_uuid 100))]) s))) = ["running"].
Proof. vm_compute. reflexivity. Qed.

(** An event whose source has 256 characters is within the limit of the handler but not of its column. *)
Theorem long_source_refused :
  fst (handle_ 5 7 (message "event_report" [("source", JStr (replicate 256 97)); ("message", JStr "m")]) two_agents)
  = Raise DataError.
Proof. vm_compute. reflexivity. Qed.

End MessageProps.
