(* ===== verification/ServerLink.v ===== *)
(** The device connections of the server: [websocket/router.py].

    The endpoint is cut at its awaits on the socket: [device_websocket] runs from
    the request to the read loop, [ws_receive] is one iteration of the loop (and
    its [finally] block when it ends), [offline_fire] the end of the delay of
    [_schedule_offline].  [handlers] holds the device object of every running
    endpoint.  The endpoint's session comes from [get_db], which commits when the
    endpoint returns; after an error of the database the transaction is lost. *)
From Stdlib Require Import QArith.
From S2P Require Import Prelude JsString JsNumber Types JsJson JsonText ServerModels ServerRuntime ServerAuth ServerConnections.
From S2P Require Import ServerAlerts ServerCommands ServerMessages.
Local Open Scope Z_scope.
Local Open Scope js_scope.

(** ** Offline tasks *)

(** A task is named by a number, and has the device as argument. *)
Definition remove_task (t : nat) (device_id : uuid) (l : list (nat * uuid)) : list (nat * uuid) :=
  bfilter (λ p, negb (Nat.eqb (fst p) t && (snd p =? device_id))) l.

(** [_cancel_pending_offline].  The cancelled task runs its [finally] block at
    the next turn of the event loop: it pops the entry, which is gone. *)
Definition _cancel_pending_offline (device_id : uuid) : proc unit :=
  task ← gets (λ s, dict_get device_id (pending_offline s));
  modify (λ s, set_pending_offline (dict_pop device_id (pending_offline s)) s);;
  match task with
  | Some t =>
      modify (λ s, set_offline_tasks (remove_task t device_id (offline_tasks s)) s);;
      modify (λ s, set_pending_offline (dict_pop device_id (pending_offline s)) s)
  | None => mret tt
  end.
(** [if device_id not in _pending_offline: ... create_task(_schedule_offline(device_id))];
    [t] names the task. *)
Definition start_offline_task (t : nat) (device_id : uuid) : proc unit :=
  pending ← gets (λ s, dict_get device_id (pending_offline s));
  when (bool_decide (pending = None)) (
    modify (λ s, set_pending_offline (dict_set device_id t (pending_offline s)) s);;
    modify (λ s, set_offline_tasks (offline_tasks s ++ [(t, device_id)]) s)).
(** The rest of [_schedule_offline] after its sleep, unless it was cancelled. *)
Definition offline_fire (t : nat) (device_id : uuid) : proc unit :=
  running ← gets (λ s, existsb (λ p, Nat.eqb (fst p) t && (snd p =? device_id)) (offline_tasks s));
  when running (
    connected ← gets (is_connected device_id);
    when (negb connected) (update_row device_id (dv_set_status "offline");; commit);;
    modify (λ s, set_offline_tasks (remove_task t device_id (offline_tasks s)) s);;
    modify (λ s, set_pending_offline (dict_pop device_id (pending_offline s)) s)).

(** [_ping_loop], one round *)
Definition ping (ws : socket) : proc unit := ignore_errors (ws_send ws (JObj [("type", JStr "ping")])).

(** ** The endpoint *)

Definition loopback (ip : jstr) : bool := (ip =s "127.0.0.1") || (ip =s "::1") || (ip =s "localhost").
Definition attempts_key (client_ip : jstr) : jstr := "ws_attempts:" ++ client_ip.

(** The last time the device was recorded as offline. *)
Definition last_offline (device_id : uuid) (l : list UptimeRow) : option UptimeRow :=
  head (stable_sort (λ a b, ut_timestamp b <=? ut_timestamp a)
          (bfilter (λ e, (ut_device_id e =? device_id) && (ut_event_type e =s "offline")) l)).

Definition resend (now : Z) (device_id : uuid) (c : CommandRow) : bool :=
  (cd_device_id c =? device_id) && (cd_status c =s "sent") && (now - seconds 3600 <=? cd_created_at c).

Inductive connection := RateLimited | AuthFailed | Connected.

Section link.
Context `{Crypto} (cfg : Settings) (str_float : Q → jstr) (py_str : json → jstr) (expo : list json → option (Z * json)).

(** What follows the registration; [uid] is the identifier of the uptime event. *)
Definition ws_greet (now : Z) (uid : uuid) (ws : socket) (device : DeviceRow) : proc unit :=
  let device_id := dv_id device in
  _cancel_pending_offline device_id;;
  let online d := dv_set_last_seen (Some now) (dv_set_status "online" d) in
  update_row device_id online;;
  offline ← gets (λ s, last_offline device_id (uptime_events (db s)));
  add {| ut_id := uid; ut_device_id := device_id; ut_event_type := "online"; ut_timestamp := now;
         ut_duration_secs := (λ e, Z.max 0 ((now - ut_timestamp e) / 1000000)) <$> offline |};;
  commit;;
  config_row ← db_get device_id;
  match config_row with
  | Some row => send_to_device device_id (JObj [("type", JStr "config_update"); ("data", JObj (cf_config row))]);; mret tt
  | None => mret tt
  end;;
  pending_cmds ← select (resend now device_id);
  for_each (λ cmd, send_to_device device_id (command_message cmd);; mret tt) pending_cmds;;
  modify (λ s, set_handlers (handlers s ++ [(ws, online device)]) s).

Definition ws_connected (now : Z) (uid : uuid) (ws : socket) (client_ip : jstr) (device : DeviceRow) : proc unit :=
  ws_accept ws;;
  manager_connect now (dv_id device) ws (Some client_ip);;
  ws_greet now uid ws device.

(** The web server closes the socket of an endpoint that raises. *)
Definition closing_on_error {A} (ws : socket) (m : proc A) : proc A :=
  catch m (λ e, ignore_errors (ws_close ws 1011);; raise e).

Definition device_websocket (now : Z) (uid : uuid) (ws : socket) (client_ip : jstr) (device_id : uuid) (token : jstr)
    : proc connection :=
  closing_on_error ws (with_db (
    allowed ← (if loopback client_ip then mret true
               else attempts ← redis_incr now (attempts_key client_ip);
                    when (attempts =? 1) (redis_expire now (attempts_key client_ip) 60);;
                    mret (attempts <=? 30));
    if negb allowed then emit (CloseSocket ws 4029);; mret RateLimited
    else
      device ← select_one (usable_device device_id);
      match device with
      | Some device =>
          if negb (checkpw token (dv_api_key_hash device)) then emit (CloseSocket ws 4001);; mret AuthFailed
          else
            refuse (loopback client_ip) UnboundLocalError;;
            redis_delete (attempts_key client_ip);;
            ws_connected now uid ws client_ip device;;
            mret Connected
      | None => emit (CloseSocket ws 4001);; mret AuthFailed
      end)).

(** What the socket delivers to the read loop. *)
Inductive ws_input := TooLarge | NotJson | Message (message : json) | Disconnected.

Definition device_of (ws : socket) (s : server) : option DeviceRow :=
  snd <$> find (λ p, Nat.eqb (fst p) ws) (handlers s).

(** Errors of the database, after which the transaction is lost. *)
Definition db_error (e : exn) : bool := match e with DataError | IntegrityError => true | _ => false end.

(** The [finally] block, and [get_db]. *)
Definition ws_end (t : nat) (ws : socket) (device : DeviceRow) (lost : bool) : proc unit :=
  manager_disconnect (dv_id device);;
  start_offline_task t (dv_id device);;
  (if lost then rollback else commit);;
  modify (λ s, set_handlers (bfilter (λ p, negb (Nat.eqb (fst p) ws)) (handlers s)) s).

(** One message: handled, committed and acknowledged. *)
Definition ws_message (now : Z) (ids : nat → uuid) (ws : socket) (device : DeviceRow) (message : json) : proc unit :=
  device ← handle cfg str_float py_str expo now ids device message;
  commit;;
  modify (λ s, set_handlers (map (λ p, if Nat.eqb (fst p) ws then (ws, device) else p) (handlers s)) s);;
  ws_send ws (JObj [("type", JStr "ack")]).

Definition ws_receive (now : Z) (ids : nat → uuid) (t : nat) (ws : socket) (i : ws_input) : proc unit :=
  device ← gets (device_of ws);
  match device with
  | None => mret tt
  | Some device =>
      match i with
      | TooLarge => ignore_errors (ws_close ws 1009);; ws_end t ws device false
      | NotJson => mret tt
      | Message message => catch (ws_message now ids ws device message) (λ e, ws_end t ws device (db_error e))
      | Disconnected =>
          modify (λ s, set_open_sockets (bfilter (λ x, negb (Nat.eqb x ws)) (open_sockets s)) s);;
          ws_end t ws device false
      end
  end.

(** A connection that dies without the server noticing. *)
Definition socket_dies (ws : socket) : proc unit :=
  modify (λ s, set_open_sockets (bfilter (λ x, negb (Nat.eqb x ws)) (open_sockets s)) s).

End link.

(** ** Facts *)

(** *** The connections

    Every open socket is the registered one of the device its endpoint serves,
    every running delay is the registered one of its device. *)
Definition delays_ok (s : server) : Prop :=
  ∀ t dev, In (t, dev) (offline_tasks s) ↔ dict_get dev (pending_offline s) = Some t.
Definition links_ok (s : server) : Prop :=
  (∀ ws, In ws (open_sockets s) → ∃ d, In (ws, d) (handlers s) ∧ dict_get (dv_id d) (connections s) = Some ws) ∧
  NoDup (map fst (handlers s)) ∧ delays_ok s.

(** The part of the state that the connections consist of. *)
Definition link_view (s : server) := (open_sockets s, handlers s, connections s, offline_tasks s, pending_offline s).
Lemma links_ok_view s s' : link_view s' = link_view s → links_ok s → links_ok s'.
Proof. unfold link_view, links_ok, delays_ok. by intros [= -> -> -> -> ->]. Qed.

Lemma In_remove ws ws' l : In ws (bfilter (λ x, negb (Nat.eqb x ws')) l) ↔ In ws l ∧ ws ≠ ws'.
Proof. rewrite bfilter_In, negb_true_iff, Nat.eqb_neq. done. Qed.

(** A socket closes. *)
Lemma links_ok_dies ws s :
  links_ok s → links_ok (set_open_sockets (bfilter (λ x, negb (Nat.eqb x ws)) (open_sockets s)) s).
Proof. intros (H1 & H2 & H3). split; [|done]. intros ws' [Hw _]%In_remove. by apply H1. Qed.
Lemma ws_close_cases ws code s :
  (ws_open ws s = false ∧ ws_close ws code s = (Raise RuntimeError, s)) ∨
  (ws_open ws s = true ∧ ws_close ws code s =
     (Ok tt, set_out (out s ++ [CloseSocket ws code]) (set_open_sockets (bfilter (λ x, negb (Nat.eqb x ws)) (open_sockets s)) s))).
Proof. unfold ws_close. run_proc. destruct (ws_open ws s); [right|left]; done. Qed.
Lemma ws_open_In ws s : ws_open ws s = true ↔ In ws (open_sockets s).
Proof.
  unfold ws_open. rewrite existsb_exists. split; [intros (x & Hx & ->%Nat.eqb_eq); done|]. intros Hw. exists ws.
  by rewrite Nat.eqb_refl.
Qed.
(** After an attempt to close it a socket is closed, and nothing else has changed. *)
Lemma ignore_close ws code s :
  ∃ s', ignore_errors (ws_close ws code) s = (Ok tt, s') ∧
    link_view s' = (bfilter (λ x, negb (Nat.eqb x ws)) (open_sockets s), handlers s, connections s, offline_tasks s, pending_offline s).
Proof.
  unfold ignore_errors, catch. destruct (ws_close_cases ws code s) as [[Ho ->]|[Ho ->]]; eexists; (split; [done|]); [|done].
  unfold link_view. do 4 f_equal. symmetry. apply bfilter_all. intros x Hx. apply negb_true_iff, Nat.eqb_neq. intros ->.
  apply ws_open_In in Hx. congruence.
Qed.

(** *** Handlers leave the connections *)

Section quiet.
Context (cfg : Settings) (str_float : Q → jstr) (py_str : json → jstr) (expo : list json → option (Z * json)).
Context (P : server → Prop).
Hypothesis (Pdb : ∀ d s, P s → P (set_db d s)) (Predis : ∀ r s, P s → P (set_redis r s)) (Pout : ∀ o s, P s → P (set_out o s))
  (Palerts : ∀ q s, P s → P (set_alert_queues q s)) (Pactivity : ∀ q s, P s → P (set_activity_queues q s)).

Lemma quiet_add {R} `{Table R} (r : R) : preserves P (add r).
Proof. intros s Hs. unfold add. destruct (existsb _ _); [done|]. by apply Pdb. Qed.
Lemma quiet_update {R} `{Table R} (p : R → bool) f : preserves P (update_where p f).
Proof. intros s Hs. by apply Pdb. Qed.
Lemma quiet_update_row {R} `{Table R} u (f : R → R) : preserves P (update_row u f).
Proof. apply quiet_update. Qed.
Lemma quiet_delete {R} `{Table R} (p : R → bool) : preserves P (delete_where p).
Proof. intros s Hs. by apply Pdb. Qed.
Lemma quiet_emit e : preserves P (emit e).
Proof. intros s Hs. by apply Pout. Qed.
Lemma quiet_publish k p : preserves P (publish k p).
Proof. intros s Hs. destruct k; [by apply Palerts|by apply Pactivity]. Qed.
Lemma quiet_redis_incr now k : preserves P (redis_incr now k).
Proof. intros s Hs. unfold redis_incr. destruct (redis_live now s k) as [[[] ?]|]; simpl; auto. Qed.
Lemma quiet_redis_expire now k n : preserves P (redis_expire now k n).
Proof. intros s Hs. unfold redis_expire, modify. simpl. destruct (redis_live now s k); auto. Qed.
Lemma quiet_redis_setex now k n v : preserves P (redis_setex now k n v).
Proof. intros s Hs. by apply Predis. Qed.
#[local] Hint Resolve quiet_add quiet_update quiet_update_row quiet_delete quiet_emit quiet_publish quiet_redis_incr
  quiet_redis_expire quiet_redis_setex : server.

Lemma quiet_notify_rules payload alert device b rules : preserves P (notify_rules payload alert device b rules).
Proof. revert b. induction rules as [|r rules IH]; intros b; [apply preserves_ret|]. cbn [notify_rules]. walk. Qed.
#[local] Hint Resolve quiet_notify_rules : server.
Lemma quiet_notify now alert device : preserves P (notify expo now alert device).
Proof. unfold notify, _send_push_notifications. walk. Qed.
#[local] Hint Resolve quiet_notify : server.
Lemma quiet_set_status v d : preserves P (set_status v d).
Proof. unfold set_status. walk. Qed.
Lemma quiet_set_last_seen v d : preserves P (set_last_seen v d).
Proof. unfold set_last_seen. walk. Qed.
Lemma quiet_set_ip_address v d : preserves P (set_ip_address v d).
Proof. unfold set_ip_address. walk. Qed.
Lemma quiet_set_agent_version v d : preserves P (set_agent_version v d).
Proof. unfold set_agent_version. walk. Qed.
#[local] Hint Resolve quiet_set_status quiet_set_last_seen quiet_set_ip_address quiet_set_agent_version : server.
Lemma quiet_create now aid device ty sev msg : preserves P (create_alert expo now aid device ty sev msg).
Proof. unfold create_alert. walk. Qed.
Lemma quiet_auto_resolve now dev data : preserves P (auto_resolve_alerts now dev data).
Proof. unfold auto_resolve_alerts, resolve_below, resolve_open. walk. Qed.
#[local] Hint Resolve quiet_create quiet_auto_resolve : server.
Lemma quiet_evaluate now ids device m : preserves P (evaluate_metrics cfg str_float expo now ids device m).
Proof.
  unfold evaluate_metrics, check_metric.
  repeat (apply preserves_bind; [case_match; [apply quiet_create|apply preserves_ret]|intros ?]).
  case_match; [apply quiet_create|apply preserves_ret].
Qed.
#[local] Hint Resolve quiet_evaluate : server.
Lemma quiet_handle now ids device message : preserves P (handle cfg str_float py_str expo now ids device message).
Proof. apply preserves_handle; intros data. all: unfold_handler. all: unfold resolve_open. all: walk. Qed.

End quiet.

(** *** What the operations do to the connections *)

Definition without (ws : socket) (l : list socket) : list socket := bfilter (λ x, negb (Nat.eqb x ws)) l.

Lemma manager_disconnect_view dev s :
  ∃ s', manager_disconnect dev s = (Ok tt, s') ∧
    link_view s' = (match dict_get dev (connections s) with Some ws => without ws (open_sockets s) | None => open_sockets s end,
                    handlers s, dict_pop dev (connections s), offline_tasks s, pending_offline s).
Proof.
  unfold manager_disconnect. run_proc. destruct (dict_get dev (connections s)) as [ws|]; [|by eexists].
  match goal with |- context [ignore_errors _ ?s1] => destruct (ignore_close ws 1000 s1) as (s' & -> & Hv) end.
  by exists s'.
Qed.
(** Nothing of the device stays open. *)
Lemma links_ok_disconnect dev s s' :
  manager_disconnect dev s = (Ok tt, s') → links_ok s →
  links_ok s' ∧ handlers s' = handlers s ∧ offline_tasks s' = offline_tasks s ∧ pending_offline s' = pending_offline s ∧
  ∀ ws d, In (ws, d) (handlers s) → dv_id d = dev → ¬ In ws (open_sockets s').
Proof.
  intros E (H1 & H2 & H3). destruct (manager_disconnect_view dev s) as (s1 & E' & [= Ho Hh Hc Ht Hp]).
  rewrite E' in E. injection E as ->.
  assert (∀ ws, In ws (open_sockets s') → In ws (open_sockets s) ∧ dict_get dev (connections s) ≠ Some ws) as Hopen.
  { rewrite Ho. intros ws. destruct (dict_get dev (connections s)) as [w|]; [|done]. intros [Hw Hne]%In_remove. split; [done|congruence]. }
  split; [|split; [done|split; [done|split; [done|]]]].
  - split; [|unfold delays_ok; rewrite Hh, Ht, Hp; done]. intros ws [Hw Hne]%Hopen. destruct (H1 ws Hw) as (d & Hd & Hdc). exists d. rewrite Hh, Hc.
    split; [done|]. rewrite dict_get_pop. destruct (Z.eqb_spec (dv_id d) dev) as [E|]; [|done]. rewrite E in Hdc. done.
  - intros ws d Hd Hid [Hw Hne]%Hopen. destruct (H1 ws Hw) as (d' & Hd' & Hdc). apply Hne.
    assert (d' = d) as -> by (by eapply NoDup_fst_unique). by rewrite <-Hid.
Qed.

(** While a socket is being accepted it has no endpoint yet. *)
Definition links_but (dev : uuid) (ws : socket) (s : server) : Prop :=
  (∀ ws', In ws' (open_sockets s) → ws' ≠ ws → ∃ d, In (ws', d) (handlers s) ∧ dict_get (dv_id d) (connections s) = Some ws') ∧
  NoDup (map fst (handlers s)) ∧ ¬ In ws (map fst (handlers s)) ∧
  delays_ok s ∧ (In ws (open_sockets s) → dict_get dev (connections s) = Some ws).
Definition fresh_socket (ws : socket) (s : server) : Prop := ¬ In ws (open_sockets s) ∧ ¬ In ws (map fst (handlers s)).

Lemma links_but_view dev ws s s' : link_view s' = link_view s → links_but dev ws s → links_but dev ws s'.
Proof. unfold link_view, links_but, delays_ok. by intros [= -> -> -> -> ->]. Qed.
Lemma links_but_start dev ws s : fresh_socket ws s → links_ok s → links_but dev ws s.
Proof. intros [Hf1 Hf2] (H1 & H2 & H3). split; [by intros ws' Hw _; apply H1|]. split_and!; done. Qed.
Lemma links_but_close dev ws s : links_but dev ws s → ¬ In ws (open_sockets s) → links_ok s.
Proof.
  intros (H1 & H2 & _ & H4 & _) Hn. split; [|done]. intros ws' Hw. apply H1; [done|]. intros ->. done.
Qed.
Lemma links_but_serve dev ws d s :
  links_but dev ws s → dv_id d = dev → links_ok (set_handlers (handlers s ++ [(ws, d)]) s).
Proof.
  intros (H1 & H2 & H3 & H4 & H5) Hd. split; [|split]; simpl; [| |done].
  - intros ws' Hw. destruct (Nat.eq_dec ws' ws) as [->|Hne].
    + exists d. split; [apply in_or_app; right; by left|]. rewrite Hd. by apply H5.
    + destruct (H1 ws' Hw Hne) as (d' & Hd' & Hc). exists d'. split; [apply in_or_app; by left|done].
  - rewrite map_app. apply NoDup_app. split; [done|]. split; [|apply NoDup_singleton].
    intros x Hx%list_elem_of_In ->%list_elem_of_singleton. done.
Qed.

(** The socket of an earlier connection is closed when the new one is registered. *)
Lemma links_but_connect now dev ws ip :
  ∀ s, links_but dev ws s → ¬ In ws (open_sockets s) → links_but dev ws (snd ((ws_accept ws;; manager_connect now dev ws ip) s)).
Proof.
  intros s (H1 & H2 & H3 & H4 & _) Hn. unfold ws_accept, manager_connect. run_proc.
  match goal with |- context [dict_get dev (connections ?s1)] => set (s1' := s1) end.
  assert (∃ s2, match dict_get dev (connections s1') with
                | Some w => ignore_errors (ws_close w 1000)
                | None => λ s, (Ok tt, s)
                end s1' = (Ok tt, s2) ∧
          link_view s2 = (match dict_get dev (connections s) with
                          | Some w => without w (open_sockets s ++ [ws])
                          | None => open_sockets s ++ [ws]
                          end, handlers s, connections s, offline_tasks s, pending_offline s)) as (s2 & E & [= Ho Hh Hc Ht Hp]).
  { unfold s1'. simpl. destruct (dict_get dev (connections s)) as [w|]; [|by eexists].
    match goal with |- context [ignore_errors _ ?s1] => destruct (ignore_close w 1000 s1) as (s2 & -> & Hv) end. by exists s2. }
  rewrite E. simpl. split_and!; unfold delays_ok; simpl; rewrite ?Hh, ?Ht, ?Hp; try done.
  - intros ws' Hw Hne. assert (In ws' (open_sockets s) ∧ dict_get dev (connections s) ≠ Some ws') as [Hw' Hnd].
    { rewrite Ho in Hw. destruct (dict_get dev (connections s)) as [w|].
      - apply In_remove in Hw as [[Hw|[->|[]]]%in_app_or Hne']; [|done]. split; [done|congruence].
      - apply in_app_or in Hw as [Hw|[->|[]]]; done. }
    destruct (H1 ws' Hw' Hne) as (d & Hd & Hdc). exists d. split; [done|]. rewrite Hc, dict_get_set.
    destruct (Z.eqb_spec (dv_id d) dev) as [E'|]; [|done]. rewrite E' in Hdc. done.
  - intros _. by rewrite Hc, dict_get_set, Z.eqb_refl.
Qed.

Lemma links_but_send dev ws d m : preserves (links_but dev ws) (send_to_device d m).
Proof.
  intros s Hs. rewrite send_to_device_run. destruct (dict_get d (connections s)) as [w|] eqn:E; [|done].
  destruct (ws_open w s) eqn:Eo; [done|]. destruct Hs as (H1 & H2 & H3 & H4 & H5). simpl.
  assert (¬ In w (open_sockets s)) as Hw by (intros Hw%ws_open_In; congruence).
  split_and!; simpl; try done.
  - intros ws' Ho Hne. destruct (H1 ws' Ho Hne) as (x & Hx & Hc). exists x. split; [done|]. rewrite dict_get_pop.
    destruct (Z.eqb_spec (dv_id x) d) as [E'|]; [|done]. rewrite E' in Hc. congruence.
  - intros Ho. specialize (H5 Ho). rewrite dict_get_pop. destruct (Z.eqb_spec dev d) as [->|]; [congruence|done].
Qed.
Lemma In_remove_task t dev t' dev' l : In (t', dev') (remove_task t dev l) ↔ In (t', dev') l ∧ ¬ (t' = t ∧ dev' = dev).
Proof.
  unfold remove_task. rewrite bfilter_In, negb_true_iff, andb_false_iff, Nat.eqb_neq, Z.eqb_neq. simpl. tauto || (split; intros [H1 H2]; (split; [done|]); [naive_solver|destruct (Nat.eq_dec t' t); [right|left]; naive_solver]).
Qed.
(** The delay of a device ends. *)
Lemma delays_ok_end t dev s s' :
  delays_ok s → In (t, dev) (offline_tasks s) → offline_tasks s' = remove_task t dev (offline_tasks s) →
  pending_offline s' = dict_pop dev (pending_offline s) → delays_ok s' ∧ ∀ t', ¬ In (t', dev) (offline_tasks s').
Proof.
  intros Hs Hin Ht Hp. pose proof Hin as Htd%Hs. split.
  - intros t' d. rewrite Ht, Hp, In_remove_task, (Hs t' d), dict_get_pop. destruct (Z.eqb_spec d dev) as [->|]; [|naive_solver].
    split; [|done]. intros [E Hne]. destruct Hne. split; [congruence|done].
  - intros t'. rewrite Ht, In_remove_task, (Hs t' dev). intros [E Hne]. apply Hne. split; [congruence|done].
Qed.
Lemma dict_pop_twice {A} k (l : list (Z * A)) : dict_pop k (dict_pop k l) = dict_pop k l.
Proof. apply bfilter_all. by intros p [_ H]%bfilter_In. Qed.
(** Cancelling leaves no delay of the device. *)
Lemma cancel_run dev s :
  delays_ok s → ∃ s', _cancel_pending_offline dev s = (Ok tt, s') ∧ delays_ok s' ∧ (∀ t, ¬ In (t, dev) (offline_tasks s')) ∧
    open_sockets s' = open_sockets s ∧ handlers s' = handlers s ∧ connections s' = connections s ∧ db s' = db s.
Proof.
  intros Hs. unfold _cancel_pending_offline. run_proc. destruct (dict_get dev (pending_offline s)) as [t|] eqn:E.
  - match goal with |- ∃ s', (Ok tt, ?s1) = _ ∧ _ => destruct (delays_ok_end t dev s s1 Hs) as [H1 H2] end;
      [by apply Hs|done|apply dict_pop_twice|]. by eexists.
  - eexists. split; [done|]. assert (∀ t, ¬ In (t, dev) (offline_tasks s)) as Hn by (intros t Ht%Hs; congruence). split; [|done].
    intros t d. simpl. rewrite (Hs t d), dict_get_pop. destruct (Z.eqb_spec d dev) as [->|]; [|done]. by rewrite E.
Qed.
Lemma links_but_cancel dev ws d : preserves (links_but dev ws) (_cancel_pending_offline d).
Proof.
  intros s (H1 & H2 & H3 & H4 & H5). destruct (cancel_run d s H4) as (s' & -> & Hd & _ & Ho & Hh & Hc & _). simpl.
  split_and!; rewrite ?Ho, ?Hh, ?Hc; done.
Qed.

(** *** Accepting a device *)

Definition ends_ok {A} (dev : uuid) (ws : socket) (x : result A * server) : Prop :=
  match fst x with Ok _ => links_ok (snd x) | Raise _ => links_but dev ws (snd x) end.
Lemma ends_bind {A B} dev ws (m : proc A) (k : A → proc B) s :
  preserves (links_but dev ws) m → (∀ a s, links_but dev ws s → ends_ok dev ws (k a s)) → links_but dev ws s →
  ends_ok dev ws ((x ← m; k x) s).
Proof.
  intros Hm Hk Hs. specialize (Hm s Hs). unfold mbind, proc_bind. destruct (m s) as [[a|e] s']; [by apply Hk|done].
Qed.
Lemma links_but_commit dev ws : preserves (links_but dev ws) commit.
Proof. by intros s Hs. Qed.

Lemma ws_connected_links now uid ws ip device s :
  links_but (dv_id device) ws s → ¬ In ws (open_sockets s) → ends_ok (dv_id device) ws (ws_connected now uid ws ip device s).
Proof.
  intros Hs Hn. pose proof (links_but_connect now (dv_id device) ws (Some ip) s Hs Hn) as Hc.
  unfold ws_connected. unfold mbind at 1, proc_bind at 1. cbn [ws_accept modify]. unfold mbind, proc_bind in Hc |- *.
  cbn [ws_accept modify] in Hc. destruct (manager_connect _ _ _ _ _) as [[a|e] s0]; [|done]. simpl in Hc.
  unfold ws_greet. cbv zeta. apply ends_bind; [apply links_but_cancel| |done]. intros _ s1 Hs1.
  apply ends_bind; [apply quiet_update_row; intros; by eapply links_but_view| |done]. intros _ s2 Hs2.
  apply ends_bind; [apply preserves_gets| |done]. intros o s3 Hs3.
  apply ends_bind; [apply quiet_add; intros; by eapply links_but_view| |done]. intros _ s4 Hs4.
  apply ends_bind; [apply links_but_commit| |done]. intros _ s5 Hs5.
  apply ends_bind; [apply preserves_gets| |done]. intros row s6 Hs6.
  apply ends_bind; [destruct row; walk; apply links_but_send| |done]. intros _ s7 Hs7.
  apply ends_bind; [apply preserves_gets| |done]. intros cmds s8 Hs8.
  apply ends_bind; [walk; apply links_but_send| |done]. intros _ s9 Hs9. by apply (links_but_serve (dv_id device)).
Qed.

Lemma fresh_view ws s s' : link_view s' = link_view s → fresh_socket ws s → fresh_socket ws s'.
Proof. unfold link_view, fresh_socket. intros [= E1 E2 E3 E4 E5]. by rewrite E1, E2. Qed.

(** What comes before the acceptance leaves the connections. *)
Definition unaccepted (ws : socket) (s : server) : Prop := links_ok s ∧ fresh_socket ws s.
Lemma unaccepted_view ws f : (∀ s, link_view (f s) = link_view s) → ∀ s, unaccepted ws s → unaccepted ws (f s).
Proof. intros Hv s [H1 H2]. split; [exact (links_ok_view _ _ (Hv s) H1)|exact (fresh_view _ _ _ (Hv s) H2)]. Qed.
Lemma unaccepted_bind {A B} dev ws (m : proc A) (k : A → proc B) s :
  preserves (unaccepted ws) m → (∀ a s, unaccepted ws s → ends_ok dev ws (k a s)) → unaccepted ws s →
  ends_ok dev ws ((x ← m; k x) s).
Proof.
  intros Hm Hk Hs. specialize (Hm s Hs). unfold mbind, proc_bind. destruct (m s) as [[a|e] s1]; [by apply Hk|].
  destruct Hm. by apply links_but_start.
Qed.
Lemma unaccepted_emit {A} dev ws e (a : A) s : unaccepted ws s → ends_ok dev ws ((emit e;; mret a) s).
Proof. intros [H1 _]. simpl. by eapply links_ok_view. Qed.

Lemma with_db_ends {A} dev ws (m : proc A) s : ends_ok dev ws (m s) → ends_ok dev ws (with_db m s).
Proof.
  unfold with_db, ends_ok. destruct (m s) as [[a|e] s']; simpl; [intros; by eapply links_ok_view|intros; by eapply links_but_view].
Qed.
Lemma closing_ends {A} dev ws (m : proc A) s : ends_ok dev ws (m s) → links_ok (snd (closing_on_error ws m s)).
Proof.
  unfold closing_on_error, catch, ends_ok. destruct (m s) as [[a|e] s']; simpl; [done|]. intros Hb.
  unfold mbind, proc_bind. destruct (ignore_close ws 1011 s') as (s1 & -> & [= Ho Hh Hc Ht Hp]). simpl.
  destruct Hb as (H1 & H2 & _ & H4 & _). split; [|unfold delays_ok; by rewrite Hh, Ht, Hp]. intros ws'. rewrite Ho, Hh, Hc.
  intros [Hw Hne]%In_remove. by apply H1.
Qed.

(** A socket that is refused, or fails, is closed; one that is accepted is the
    only one of its device. *)
Lemma device_websocket_links `{Crypto} now uid ws ip dev token s :
  links_ok s → fresh_socket ws s → links_ok (snd (device_websocket now uid ws ip dev token s)).
Proof.
  intros Hs Hf. apply (closing_ends dev), with_db_ends. apply unaccepted_bind; [|intros allowed s1 Hs1|done].
  { destruct (loopback ip); walk; [apply quiet_redis_incr|apply quiet_redis_expire]; intros; by apply (unaccepted_view ws). }
  destruct (negb allowed); [by apply unaccepted_emit|]. unfold mbind at 1, proc_bind at 1.
  destruct (reads_select_one (usable_device dev) s1) as [(o & -> & Ho)|(e & ->)]; [|destruct Hs1; by apply links_but_start].
  destruct o as [device|]; [|by apply unaccepted_emit]. destruct Ho as [_ Ho]. unfold usable_device, has_pk in Ho.
  apply andb_true_iff in Ho as [Hid%Z.eqb_eq _]. simpl in Hid. subst dev.
  destruct (negb _); [by apply unaccepted_emit|].
  apply unaccepted_bind; [destruct (loopback ip); walk|intros _ s2 Hs2|done].
  apply unaccepted_bind; [intros s' Hs'; by apply (unaccepted_view ws)|intros _ s3 [H3 Hf3]|done].
  pose proof (ws_connected_links now uid ws ip device s3 (links_but_start _ _ _ Hf3 H3) (proj1 Hf3)) as Hc.
  unfold mbind, proc_bind. by destruct (ws_connected _ _ _ _ _ s3) as [[a|e] s4].
Qed.

(** *** The end of an endpoint *)

Lemma start_offline_view t dev s :
  delays_ok s → ∃ s', start_offline_task t dev s = (Ok tt, s') ∧ delays_ok s' ∧ (∃ t', In (t', dev) (offline_tasks s')) ∧
    open_sockets s' = open_sockets s ∧ handlers s' = handlers s ∧ connections s' = connections s.
Proof.
  intros Hs. unfold start_offline_task. run_proc. destruct (dict_get dev (pending_offline s)) as [p|] eqn:E.
  - rewrite bool_decide_false by done. exists s. split_and!; try done. exists p. by apply Hs.
  - rewrite bool_decide_true by done. eexists. split; [done|]. split_and!; try done; simpl.
    + intros t' d. simpl. rewrite dict_get_set, in_app_iff, (Hs t' d). simpl. destruct (Z.eqb_spec d dev) as [->|]; [|naive_solver].
      rewrite E. naive_solver.
    + exists t. apply in_or_app. right. by left.
Qed.

Lemma ws_end_links t ws device lost s :
  links_ok s → (∃ d, In (ws, d) (handlers s) ∧ dv_id d = dv_id device) → links_ok (snd (ws_end t ws device lost s)).
Proof.
  intros Hs (d0 & Hin & Hd0). unfold ws_end, mbind, proc_bind.
  destruct (manager_disconnect_view (dv_id device) s) as (s1 & E1 & _). rewrite E1.
  destruct (links_ok_disconnect _ _ _ E1 Hs) as ((H1 & H2 & H3) & Hh & Ht & Hp & Hclosed).
  destruct (start_offline_view t (dv_id device) s1 H3) as (s2 & -> & H3' & _ & Ho2 & Hh2 & Hc2).
  assert (∃ s3, (if lost then rollback else commit) s2 = (Ok tt, s3) ∧ link_view s3 = link_view s2) as (s3 & -> & [= Ho3 Hh3 Hc3 Ht3 Hp3])
    by (destruct lost; by eexists).
  simpl. split; [|split]; simpl.
  - intros ws' Hw. rewrite Ho3, Ho2 in Hw. destruct (H1 ws' Hw) as (d & Hd & Hc). exists d. rewrite Hc3, Hc2. split; [|done].
    apply bfilter_In. rewrite Hh3, Hh2. split; [done|]. apply negb_true_iff, Nat.eqb_neq. simpl. intros ->.
    exact (Hclosed ws d0 Hin Hd0 Hw).
  - rewrite Hh3, Hh2. by apply NoDup_map_bfilter.
  - unfold delays_ok. simpl. by rewrite Ht3, Hp3.
Qed.

(** The endpoint is gone, the device has no connection, and a delay for it runs. *)
Lemma ws_end_delay t ws device lost s :
  delays_ok s → let s1 := snd (ws_end t ws device lost s) in
  device_of ws s1 = None ∧ is_connected (dv_id device) s1 = false ∧ ∃ t', In (t', dv_id device) (offline_tasks s1).
Proof.
  intros Hs. unfold ws_end, mbind, proc_bind.
  destruct (manager_disconnect_view (dv_id device) s) as (s1 & -> & [= Ho Hh Hc Ht Hp]).
  assert (delays_ok s1) as H1 by (unfold delays_ok in *; by rewrite Ht, Hp).
  destruct (start_offline_view t (dv_id device) s1 H1) as (s2 & -> & _ & (t' & Ht') & Ho2 & Hh2 & Hc2).
  assert (∃ s3, (if lost then rollback else commit) s2 = (Ok tt, s3) ∧ link_view s3 = link_view s2) as (s3 & -> & [= _ Hh3 Hc3 Ht3 _])
    by (destruct lost; by eexists).
  cbn [snd]. unfold modify. cbn [snd]. split_and!.
  - unfold device_of. cbn [handlers set_handlers]. destruct (find _ _) as [[w d]|] eqn:E; [|done].
    apply find_some in E as [[_ Hw]%bfilter_In E]. simpl in *. by rewrite E in Hw.
  - unfold is_connected. cbn [connections set_handlers]. rewrite Hc3, Hc2, Hc, dict_get_pop, Z.eqb_refl. done.
  - exists t'. cbn [offline_tasks set_handlers]. by rewrite Ht3.
Qed.

Lemma device_of_In ws s d : device_of ws s = Some d → In (ws, d) (handlers s).
Proof.
  unfold device_of. intros ([w d'] & [Hin E%Nat.eqb_eq]%find_some & Ed)%fmap_Some. simpl in *. by subst.
Qed.

Section steps.
Context `{Crypto} (cfg : Settings) (str_float : Q → jstr) (py_str : json → jstr) (expo : list json → option (Z * json)).

Lemma handle_link_view now ids device message s :
  link_view (snd (handle cfg str_float py_str expo now ids device message s)) = link_view s.
Proof.
  apply (quiet_handle cfg str_float py_str expo (λ s', link_view s' = link_view s)); intros; done.
Qed.
Lemma handlers_replace ws d (l : list (socket * DeviceRow)) :
  map fst (map (λ p, if Nat.eqb (fst p) ws then (ws, d) else p) l) = map fst l.
Proof. rewrite map_map. apply map_ext. intros [w d']. simpl. destruct (Nat.eqb_spec w ws); by subst. Qed.

(** A message leaves the connections; the object may have changed, not its
    device. *)
Lemma handle_same_device now ids device message s d s' :
  handle cfg str_float py_str expo now ids device message s = (Ok d, s') → dv_id d = dv_id device.
Proof.
  intros E. assert (keeps (on_db (λ _, True)) (handle cfg str_float py_str expo now ids device message)
    (same_device (dv_id device) (dv_org_id device))) as Hk.
  { eapply local_handle; done. }
  destruct (Hk s) as [_ Hd]; [by split|]. apply Hd. by rewrite E.
Qed.

(** The endpoint of a device, with whatever object it holds. *)
Definition serves (ws : socket) (dev : uuid) (s : server) : Prop := ∃ d, In (ws, d) (handlers s) ∧ dv_id d = dev.
Definition linked (ws : socket) (dev : uuid) (s : server) : Prop := links_ok s ∧ serves ws dev s.

Lemma links_ok_replace ws d s :
  links_ok s → serves ws (dv_id d) s →
  linked ws (dv_id d) (set_handlers (map (λ p, if Nat.eqb (fst p) ws then (ws, d) else p) (handlers s)) s).
Proof.
  intros (H1 & H2 & H3) (d0 & Hd0 & Hid). split; [split; [|split]|]; simpl.
  - intros ws' Hw. destruct (H1 ws' Hw) as (d' & Hd' & Hc). destruct (Nat.eqb_spec ws' ws) as [->|Hne].
    + assert (d' = d0) as -> by (by eapply NoDup_fst_unique). exists d. split; [|by rewrite <-Hid].
      apply in_map_iff. exists (ws, d0). by rewrite Nat.eqb_refl.
    + exists d'. split; [|done]. apply in_map_iff. exists (ws', d'). simpl. by rewrite (proj2 (Nat.eqb_neq ws' ws)).
  - by rewrite handlers_replace.
  - done.
  - exists d. split; [|done]. simpl. apply in_map_iff. exists (ws, d0). by rewrite Nat.eqb_refl.
Qed.

Lemma ws_message_links now ids ws device message s :
  links_ok s → serves ws (dv_id device) s →
  linked ws (dv_id device) (snd (ws_message cfg str_float py_str expo now ids ws device message s)).
Proof.
  intros Hs Hserve. unfold ws_message. unfold mbind at 1, proc_bind at 1.
  pose proof (handle_link_view now ids device message s) as Hv.
  destruct (handle cfg str_float py_str expo now ids device message s) as [[d|e] s1] eqn:E; simpl in Hv.
  2: { simpl. split; [by eapply links_ok_view|]. unfold serves. injection Hv as _ Hh _ _ _. by rewrite Hh. }
  assert (dv_id d = dv_id device) as Hd by (by eapply handle_same_device).
  destruct (links_ok_replace ws d (set_saved (db s1) s1)) as [H1 H2].
  { eapply links_ok_view; [|exact Hs]. exact Hv. }
  { unfold serves in *. simpl. injection Hv as _ Hh _ _ _. rewrite Hh, Hd. done. }
  rewrite Hd in H2. unfold ws_send. run_proc. simpl in *. destruct (negb _); [done|]. split; [|done]. by eapply links_ok_view.
Qed.

Lemma ws_receive_links now ids t ws i s :
  links_ok s → links_ok (snd (ws_receive cfg str_float py_str expo now ids t ws i s)).
Proof.
  intros Hs. unfold ws_receive. unfold mbind at 1, proc_bind at 1, gets. destruct (device_of ws s) as [device|] eqn:Ed; [|done].
  apply device_of_In in Ed. assert (serves ws (dv_id device) s) as Hserve by (by exists device). destruct i as [| |message|].
  - unfold mbind, proc_bind. destruct (ignore_close ws 1009 s) as (s1 & -> & Hv). apply ws_end_links.
    + eapply links_ok_view; [|exact (links_ok_dies ws s Hs)]. done.
    + injection Hv as _ Hh _ _ _. by rewrite Hh.
  - done.
  - destruct (ws_message_links now ids ws device message s Hs Hserve) as [H1 H2]. unfold catch.
    destruct (ws_message _ _ _ _ _ _ _ _ _ s) as [[a|e] s1]; [done|]. simpl in *. by apply ws_end_links.
  - unfold mbind at 1, proc_bind at 1, modify. apply ws_end_links; [by apply links_ok_dies|done].
Qed.

(** How the endpoint ends. *)
Lemma ws_receive_served now ids t ws i device s :
  device_of ws s = Some device →
  ws_receive cfg str_float py_str expo now ids t ws i s =
    match i with
    | TooLarge => (ignore_errors (ws_close ws 1009);; ws_end t ws device false) s
    | NotJson => (Ok tt, s)
    | Message m => catch (ws_message cfg str_float py_str expo now ids ws device m) (λ e, ws_end t ws device (db_error e)) s
    | Disconnected =>
        ws_end t ws device false (set_open_sockets (bfilter (λ x, negb (Nat.eqb x ws)) (open_sockets s)) s)
    end.
Proof. intros Hd. unfold ws_receive. unfold mbind at 1, proc_bind at 1, gets. rewrite Hd. by destruct i. Qed.
Lemma ws_receive_ends now ids t ws i device s :
  links_ok s → device_of ws s = Some device → let s1 := snd (ws_receive cfg str_float py_str expo now ids t ws i s) in
  device_of ws s1 = None → is_connected (dv_id device) s1 = false ∧ ∃ t', In (t', dv_id device) (offline_tasks s1).
Proof.
  intros Hs Hd. cbv zeta. rewrite (ws_receive_served now ids t ws i device s Hd). destruct i as [| |message|].
  - unfold mbind, proc_bind. destruct (ignore_close ws 1009 s) as (s1 & -> & [= _ _ _ Ht Hp]). intros _.
    apply (ws_end_delay t ws device false s1). destruct Hs as (_ & _ & H3). unfold delays_ok in *. by rewrite Ht, Hp.
  - simpl. by rewrite Hd.
  - pose proof (device_of_In _ _ _ Hd) as Hin. assert (serves ws (dv_id device) s) as Hserve by (by exists device).
    destruct (ws_message_links now ids ws device message s Hs Hserve) as [(_ & _ & H3) (d & Hd' & _)]. unfold catch.
    destruct (ws_message _ _ _ _ _ _ _ _ _ s) as [[a|e] s1]; simpl in H3, Hd' |- *;
      [|intros _; by apply (ws_end_delay t ws device (db_error e) s1)].
    unfold device_of. destruct (find _ _) eqn:E; [done|]. apply (find_none _ _ E) in Hd'. simpl in Hd'. by rewrite Nat.eqb_refl in Hd'.
  - intros _. eapply (ws_end_delay t ws device false). by destruct Hs as (_ & _ & H3).
Qed.
Lemma ws_end_devices t ws device s : devices (db (snd (ws_end t ws device false s))) = devices (db s).
Proof.
  unfold ws_end, manager_disconnect, start_offline_task, ignore_errors, catch, ws_close. run_proc.
  destruct (dict_get (dv_id device) (connections s)) as [w|]; simpl; [destruct (negb _)|]; simpl; by destruct (bool_decide _).
Qed.
Lemma ws_receive_closed now ids t ws i device s :
  links_ok s → device_of ws s = Some device → let s1 := snd (ws_receive cfg str_float py_str expo now ids t ws i s) in
  i = Disconnected ∨ i = TooLarge → device_of ws s1 = None ∧ devices (db s1) = devices (db s).
Proof.
  intros (_ & _ & H3) Hd. cbv zeta. rewrite (ws_receive_served now ids t ws i device s Hd). intros [-> | ->].
  - rewrite ws_end_devices. split; [by eapply (ws_end_delay t ws device false)|done].
  - unfold mbind, proc_bind, ignore_errors, catch. destruct (ws_close_cases ws 1009 s) as [[_ ->]|[_ ->]]; simpl;
      rewrite ws_end_devices; (split; [by eapply (ws_end_delay t ws device false)|done]).
Qed.
End steps.

(** *** All that happens to connections *)

Section link_steps.
Context `{Crypto} (cfg : Settings) (str_float : Q → jstr) (py_str : json → jstr) (expo : list json → option (Z * json)).

Inductive link_step : server → server → Prop :=
| link_connect now uid ws ip dev token s :
    fresh_socket ws s → link_step s (snd (device_websocket now uid ws ip dev token s))
| link_receive now ids t ws i s : link_step s (snd (ws_receive cfg str_float py_str expo now ids t ws i s))
| link_fire t dev s : link_step s (snd (offline_fire t dev s))
| link_ping ws s : link_step s (snd (ping ws s))
| link_dies ws s : link_step s (snd (socket_dies ws s))
| link_send dev m s : link_step s (snd (send_to_device dev m s))
| link_disconnect dev s : link_step s (snd (manager_disconnect dev s)).

Lemma links_ok_send dev m s : links_ok s → links_ok (snd (send_to_device dev m s)).
Proof.
  intros (H1 & H2 & H3). rewrite send_to_device_run. destruct (dict_get dev (connections s)) as [w|] eqn:E; [|done].
  destruct (ws_open w s) eqn:Eo; [done|]. split; [|done]. simpl. intros ws' Ho. destruct (H1 ws' Ho) as (d & Hd & Hc).
  exists d. split; [done|]. rewrite dict_get_pop. destruct (Z.eqb_spec (dv_id d) dev) as [E'|]; [|done].
  rewrite E', E in Hc. injection Hc as ->. apply ws_open_In in Ho. congruence.
Qed.

(** A delay that is over: the device is marked if it is not connected. *)
Lemma offline_fire_run t dev s :
  In (t, dev) (offline_tasks s) →
  offline_fire t dev s =
    (Ok tt, let s1 := if is_connected dev s then s else snd ((update_row dev (dv_set_status "offline");; commit) s) in
            set_pending_offline (dict_pop dev (pending_offline s)) (set_offline_tasks (remove_task t dev (offline_tasks s)) s1)).
Proof.
  intros Hin. unfold offline_fire. run_proc.
  assert (existsb (λ p, Nat.eqb (fst p) t && (snd p =? dev)) (offline_tasks s) = true) as ->.
  { apply existsb_exists. exists (t, dev). simpl. by rewrite Nat.eqb_refl, Z.eqb_refl. }
  by destruct (is_connected dev s).
Qed.
Lemma offline_fire_links t dev s : links_ok s → links_ok (snd (offline_fire t dev s)).
Proof.
  intros (H1 & H2 & H3). destruct (existsb (λ p, Nat.eqb (fst p) t && (snd p =? dev)) (offline_tasks s)) eqn:E.
  2: { unfold offline_fire. run_proc. by rewrite E. }
  apply existsb_exists in E as ([t' d'] & Hin & [E1%Nat.eqb_eq E2%Z.eqb_eq]%andb_true_iff). simpl in E1, E2. subst t' d'.
  rewrite offline_fire_run by done.
  split; [|split]; [by simpl; destruct (is_connected dev s)..|].
  eapply (delays_ok_end t dev s); [done|done|by simpl; destruct (is_connected dev s)..].
Qed.

Lemma links_ok_step s s' : link_step s s' → links_ok s → links_ok s'.
Proof.
  intros [now uid ws ip dev token s0 Hf|now ids t ws i s0|t dev s0|ws s0|ws s0|dev m s0|dev s0] Hs.
  - by apply device_websocket_links.
  - by apply ws_receive_links.
  - by apply offline_fire_links.
  - unfold ping, ignore_errors, catch, ws_send. run_proc. destruct (negb _); [done|]. by eapply links_ok_view.
  - by apply links_ok_dies.
  - by apply links_ok_send.
  - destruct (manager_disconnect_view dev s0) as (s1 & E & _). rewrite E. by destruct (links_ok_disconnect _ _ _ E Hs).
Qed.
End link_steps.

(** *** Online and offline *)

Definition rows_of (dev : uuid) (p : DeviceRow → Prop) (d : database) : Prop := ∀ r, In r (devices d) → dv_id r = dev → p r.
Definition online_at (now : Z) (r : DeviceRow) : Prop := dv_status r = "online" ∧ dv_last_seen r = Some now.
Definition no_delay (dev : uuid) (s : server) : Prop := ∀ t, ¬ In (t, dev) (offline_tasks s).
Definition greeted (now : Z) (dev : uuid) (s : server) : Prop := no_delay dev s ∧ on_db (rows_of dev (online_at now)) s.

Lemma no_delay_send dev d m : preserves (no_delay dev) (send_to_device d m).
Proof.
  intros s Hs. rewrite send_to_device_run. destruct (dict_get d (connections s)) as [w|]; [|done]. by destruct (ws_open w s).
Qed.
Lemma greeted_send now dev d m : preserves (greeted now dev) (send_to_device d m).
Proof. intros s [H1 H2]. split; [by apply no_delay_send|by apply on_db_send_to_device]. Qed.

Lemma ws_greet_online now uid ws device s s' :
  delays_ok s → ws_greet now uid ws device s = (Ok tt, s') → greeted now (dv_id device) s'.
Proof.
  intros H3 Hrun. unfold ws_greet in Hrun. cbv zeta in Hrun.
  destruct (cancel_run (dv_id device) s H3) as (s1 & E1 & _ & Hn & _). rewrite (bind_ok _ _ _ _ _ E1) in Hrun.
  step Hrun. injection E as E; subst. step Hrun. injection E as <- <-. step Hrun.
  unfold add in E. destruct (existsb _ _); [done|]. injection E as E; subst. step Hrun. injection E as E; subst.
  match type of Hrun with ?m ?s2 = _ => assert (greeted now (dv_id device) s2) as Hg; [|assert (preserves (greeted now (dv_id device)) m) as Hm] end.
  - assert (rows_of (dv_id device) (online_at now) (set_devices (map (λ r, if has_pk (dv_id device) r then
      dv_set_last_seen (Some now) (dv_set_status "online" r) else r) (devices (db s1))) (db s1))) as Hrows.
    { intros r (r0 & <- & Hr0)%in_map_iff Hid. unfold has_pk in *. simpl in *. destruct (Z.eqb_spec (dv_id r0) (dv_id device)); done. }
    split; [done|]. by split.
  - apply preserves_bind; [apply preserves_gets|]. intros row. apply preserves_bind; [destruct row; walk; apply greeted_send|]. intros _.
    apply preserves_bind; [apply preserves_gets|]. intros cmds. apply preserves_bind; [walk; apply greeted_send|]. intros _.
    intros s2 Hs2. done.
  - specialize (Hm _ Hg). by rewrite Hrun in Hm.
Qed.

Lemma connect_keeps_delays now dev ws ip s s' :
  (ws_accept ws;; manager_connect now dev ws ip) s = (Ok tt, s') →
  offline_tasks s' = offline_tasks s ∧ pending_offline s' = pending_offline s.
Proof.
  unfold ws_accept, manager_connect. run_proc. cbn [connections set_open_sockets].
  destruct (dict_get dev (connections s)) as [w|]; [|by intros [= <-]].
  match goal with |- context [ignore_errors _ ?s1] => destruct (ignore_close w 1000 s1) as (s2 & -> & Hv) end.
  injection Hv as _ _ _ Ht Hp. by intros [= <-].
Qed.

(** ** Properties *)

Module LinkProps.
Section props.
Context `{Crypto} (cfg : Settings) (str_float : Q → jstr) (py_str : json → jstr) (expo : list json → option (Z * json)).

(** Whatever devices connect, reconnect, send, fail and disconnect, in any order, a socket that is open is served by
    an endpoint and is the one registered for the endpoint's device, so that a device never has two open connections and
    what is sent to it goes to the open one. *)
Theorem one_connection_per_device d s :
  rtc (link_step cfg str_float py_str expo) (start d) s →
  (∀ ws, In ws (open_sockets s) → ∃ dev, serves ws dev s ∧ dict_get dev (connections s) = Some ws) ∧
  (∀ ws1 ws2 dev, In ws1 (open_sockets s) → In ws2 (open_sockets s) → serves ws1 dev s → serves ws2 dev s → ws1 = ws2).
Proof.
  intros Hr. assert (links_ok s) as (H1 & H2 & _).
  { revert Hr. apply (rtc_ind_r links_ok); [|intros x y _ Hs Hx; by eapply links_ok_step].
    split_and!; [intros ? []|constructor|done]. }
  split.
  - intros ws Hw. destruct (H1 ws Hw) as (x & Hx & Hc). exists (dv_id x). split; [by exists x|done].
  - intros ws1 ws2 dev Hw1 Hw2 (d1 & Hd1 & <-) (d2 & Hd2 & Hid).
    destruct (H1 ws1 Hw1) as (x1 & Hx1 & Hc1). destruct (H1 ws2 Hw2) as (x2 & Hx2 & Hc2).
    assert (x1 = d1) as -> by (by eapply NoDup_fst_unique). assert (x2 = d2) as -> by (by eapply NoDup_fst_unique). congruence.
Qed.

(** C23: a device whose connection is accepted is stored as online and seen now, and no delay that a former connection
    started is left to mark it offline. *)
Theorem connected_device_is_online now uid ws ip dev token s s' :
  links_ok s → device_websocket now uid ws ip dev token s = (Ok Connected, s') → greeted now dev s'.
Proof.
  intros (_ & _ & H3) Hrun. unfold device_websocket, closing_on_error, catch, with_db in Hrun.
  match type of Hrun with context [?m s] => destruct (m s) as [[c|e] s1] eqn:E end;
    [injection Hrun as -> <-|simpl in Hrun; destruct ((ignore_errors _;; _) _) as [[|] ?] eqn:E'; [|done];
      unfold mbind, proc_bind in E'; by destruct (ignore_errors _ _) as [[|] ?]].
  assert (greeted now dev s1) as [Hg1 [Hg2 _]]; [|by split].
  step E. rename E0 into Ea. assert (offline_tasks s0 = offline_tasks s ∧ pending_offline s0 = pending_offline s) as [Ht Hp].
  { change s0 with (snd (Ok r, s0)). rewrite <-Ea.
    assert (preserves (λ s', offline_tasks s' = offline_tasks s ∧ pending_offline s' = pending_offline s)
      (if loopback ip then mret true
       else attempts ← redis_incr now (attempts_key ip); when (attempts =? 1) (redis_expire now (attempts_key ip) 60);; mret (attempts <=? 30))) as Hq
      by (clear; destruct (loopback ip); walk; first [apply quiet_redis_incr|apply quiet_redis_expire]; by intros).
    by apply Hq. }
  destruct (negb r); [done|]. step E.
  destruct r0 as [device|]; [|done]. apply select_one_some in E0 as (-> & Hin & Hu). destruct (negb (checkpw _ _)); [done|].
  step E. assert (s2 = s0) as -> by (destruct (loopback ip); by injection E0). clear E0. step E. injection E0 as E0; subst.
  unfold usable_device, has_pk in Hu. apply andb_true_iff in Hu as [Hid%Z.eqb_eq _]. simpl in Hid. subst dev. step E.
  injection E as ->. unfold ws_connected in E0.
  assert (((ws_accept ws;; manager_connect now (dv_id device) ws (Some ip));; ws_greet now uid ws device)
            (set_redis (delete (attempts_key ip) (redis s0)) s0) = (Ok tt, s1)) as Hc.
  { match type of E0 with _ = (Ok ?x, _) => destruct x end. rewrite <-E0. unfold mbind, proc_bind. cbn [ws_accept modify].
    by destruct (manager_connect _ _ _ _ _) as [[[]|] ?]. }
  step Hc. match type of E with _ = (Ok ?x, _) => destruct x end. apply connect_keeps_delays in E as [Ht' Hp']. apply ws_greet_online in Hc; [done|].
  unfold delays_ok. rewrite Ht', Hp'. cbn [offline_tasks pending_offline set_redis]. by rewrite Ht, Hp.
Qed.

(** C24: when the endpoint of a device's connection ends, be it that the client left, sent too large a message or one that
    fails, the device has no connection, also none that came after it, and a delay for it is running; when the client
    left, the stored rows are those of before.  Once the delay is over the device is stored as offline if it is not
    connected at that moment, and left alone if it is, and the delay is forgotten. *)
Theorem disconnected_device_goes_offline now ids t ws i device s :
  links_ok s → device_of ws s = Some device →
  let dev := dv_id device in
  let s1 := snd (ws_receive cfg str_float py_str expo now ids t ws i s) in
  (i = Disconnected ∨ i = TooLarge → device_of ws s1 = None ∧ devices (db s1) = devices (db s)) ∧
  (device_of ws s1 = None →
   is_connected dev s1 = false ∧
   ∃ t', In (t', dev) (offline_tasks s1) ∧
    ∀ s2, links_ok s2 → In (t', dev) (offline_tasks s2) →
      let s3 := snd (offline_fire t' dev s2) in
      (is_connected dev s2 = false → rows_of dev (λ r, dv_status r = "offline") (saved s3)) ∧
      (is_connected dev s2 = true → db s3 = db s2 ∧ saved s3 = saved s2) ∧ no_delay dev s3).
Proof.
  intros Hs Hd dev s1.
  assert (device_of ws s1 = None → is_connected dev s1 = false ∧ ∃ t', In (t', dev) (offline_tasks s1)) as Hend.
  { by apply (ws_receive_ends cfg str_float py_str expo). }
  split; [by apply (ws_receive_closed cfg str_float py_str expo now ids t ws i device)|]. intros [Hc (t' & Ht')]%Hend. split; [done|].
  exists t'. split; [done|]. intros s2 (_ & _ & H3) Hin. cbv zeta. rewrite offline_fire_run by done. cbn [snd].
  split; [|split].
  - intros ->. intros r Hr. simpl in Hr. apply in_map_iff in Hr as (r0 & <- & _). unfold has_pk. simpl.
    by destruct (Z.eqb_spec (dv_id r0) dev).
  - by intros ->.
  - intros t2. simpl. rewrite In_remove_task. intros [Ht2 Hne]. apply Hne. split; [|done]. apply H3 in Ht2, Hin. congruence.
Qed.

(** No client on the same host gets a connection: the key of its attempts is not set when it is deleted. *)
Theorem loopback_never_connects now uid ws ip dev token s s' :
  loopback ip = true → device_websocket now uid ws ip dev token s ≠ (Ok Connected, s').
Proof.
  intros Hl Hrun. unfold device_websocket, closing_on_error, catch, with_db in Hrun.
  match type of Hrun with context [?m s] => destruct (m s) as [[c|e] s1] eqn:E end.
  - injection Hrun as -> _. rewrite Hl in E. step E. injection E0 as <- <-. cbn [negb] in E. step E.
    destruct r as [device|]; [|done]. by destruct (negb (checkpw _ _)).
  - simpl in Hrun. unfold mbind, proc_bind in Hrun. by destruct (ignore_errors _ _) as [[|] ?].
Qed.
End props.

(** *** Witnesses *)

#[local] Existing Instance AuthProps.toy_crypto.
Definition link_device : DeviceRow := dv_set_api_key_hash "key" AlertProps.sample_device.
Definition link_db : database := set_devices [link_device] empty_db.
Definition connect_at (now : Z) (ws : socket) : proc connection := device_websocket now (1000 + now) ws "10.0.0.9" 7 "key".
Definition receive_at (now : Z) (ws : socket) (i : ws_input) : proc unit :=
  ws_receive default_settings (λ _, []) (λ _, []) (λ _, None) now (λ n, 2000 + Z.of_nat n) 1 ws i.
Definition linked_once : server := snd (connect_at 1 1 (start link_db)).
(** The device connects again before the server has noticed the end of the first connection. *)
Definition linked_twice : server := snd (connect_at 2 2 linked_once).

Lemma one_connection_per_device_witness :
  open_sockets linked_twice = [2%nat] ∧ ∃ dev, serves 2 dev linked_twice ∧ dict_get dev (connections linked_twice) = Some 2%nat.
Proof.
  split; [vm_compute; reflexivity|].
  apply (one_connection_per_device default_settings (λ _, []) (λ _, []) (λ _, None) link_db linked_twice);
    [|vm_compute; left; reflexivity].
  eapply rtc_l; [apply (link_connect _ _ _ _ 1 1001 1%nat "10.0.0.9" 7 "key"); split; intros []|].
  eapply rtc_l; [apply (link_connect _ _ _ _ 2 1002 2%nat "10.0.0.9" 7 "key"); split; vm_compute; intuition discriminate|].
  apply rtc_refl.
Defined.

Lemma no_links : links_ok (start link_db).
Proof. split_and!; [intros ? []|constructor|done]. Qed.
Lemma one_link : links_ok linked_once.
Proof. apply device_websocket_links; [apply no_links|]. split; intros []. Qed.

Lemma connected_device_is_online_witness : greeted 1 7 linked_once.
Proof.
  apply (connected_device_is_online 1 1001 1 "10.0.0.9" 7 "key" (start link_db)); [apply no_links|].
  vm_compute. reflexivity.
Defined.

Lemma disconnected_device_goes_offline_witness :
  let s1 := snd (receive_at 5 1 Disconnected linked_once) in
  (dv_status <$> devices (db s1)) = ["online"] ∧
  rows_of 7 (λ r, dv_status r = "offline") (saved (snd (offline_fire 1 7 s1))).
Proof.
  intros s1. split; [vm_compute; reflexivity|].
  destruct (disconnected_device_goes_offline default_settings (λ _, []) (λ _, []) (λ _, None) 5 (λ n, 2000 + Z.of_nat n) 1 1%nat
              Disconnected (snd (List.last (handlers linked_once) (1%nat, link_device))) linked_once one_link) as [_ Hend];
    [vm_compute; reflexivity|].
  destruct Hend as (_ & t' & Ht' & Hfire); [vm_compute; reflexivity|].
  assert (t' = 1%nat) as -> by (vm_compute in Ht'; destruct Ht' as [[= <-]|[]]; reflexivity).
  apply (proj1 (Hfire s1 (ws_receive_links default_settings (λ _, []) (λ _, []) (λ _, None) 5 _ 1 1%nat Disconnected linked_once one_link) Ht')).
  vm_compute. reflexivity.
Defined.

(** *** What goes wrong *)

(** The endpoint of the replaced connection, when it ends, takes the new connection with it, and marks the device
    offline after the delay. *)
Theorem reconnect_loses_new_connection :
  let s := snd (receive_at 3 1 Disconnected linked_twice) in
  connections linked_twice = [(7, 2%nat)] ∧ connections s = [] ∧ open_sockets s = [] ∧
  (dv_status <$> devices (saved (snd (offline_fire 1 7 s)))) = ["offline"].
Proof. vm_compute. done. Qed.

(** A command that was left pending is not sent when its device connects. *)
Definition pending_command : CommandRow := cd_set_status "pending" MessageProps.command_7.
Theorem pending_command_not_sent :
  out (snd (connect_at 1 1 (start (set_commands [pending_command] link_db)))) = [] ∧
  length (out (snd (connect_at 1 1 (start (set_commands [MessageProps.command_7] link_db))))) = 1%nat.
Proof. vm_compute. done. Qed.

End LinkProps.
