(* ===== verification/ServerDevices.v ===== *)
(** Devices on the server: [services/device_service.py], [api/v1/enroll.py],
    [api/v1/devices.py] and the enrollment tokens of [api/v1/admin.py].

    A fresh API key and the salt of its hash are arguments.  [ilike pattern s] is
    the database's case-insensitive match; rows that are listed without an order
    come in the order of insertion.  The floating-point statistics of
    [get_uptime_history] are left out. *)
From Stdlib Require Import QArith.
From S2P Require Import Prelude JsString JsNumber Types JsJson JsonText ServerModels ServerRuntime ServerAuth ServerConnections.
From S2P Require Import ServerOrgs ServerAlerts ServerCommands ServerMessages ServerLink.
Local Open Scope Z_scope.
Local Open Scope js_scope.

(** ** Enrollment *)

Definition enrollment_key (token : jstr) : jstr := "enrollment:" ++ token.

(** [str.strip] on ASCII text *)
Definition py_strip (s : jstr) : jstr := strip_chars py_space s.

Definition _get_client_ip (forwarded_for client : option jstr) : jstr :=
  if otruthy forwarded_for then py_strip (head (split "," (forwarded_for ?? "")) ?? "")
  else client ?? "unknown".

(** The body of a registration. *)
Record enroll_request := {
  en_hostname : jstr; en_os_type : jstr; en_os_version : option jstr; en_arch : option jstr; en_fingerprint : jstr;
  en_ip_address : option jstr; en_enrollment_token : jstr }.

(** The organization in the value of a token.  The text is one the server wrote,
    on which [json.loads] and [JSON.parse] agree. *)
Definition token_org (py_str : json → jstr) (value : redis_value) : option uuid :=
  match value with
  | RInt _ => None
  | RStr text =>
      match JSON_parse text with
      | Some (JObj fs) =>
          let org_raw := field "org_id" (JObj fs) ?? JNull in
          if py_true org_raw then UUID (match org_raw with JStr s => s | v => py_str v end) else None
      | _ => None
      end
  end.

Section devices.
Context `{Crypto} (str_float : Q → jstr) (py_str : json → jstr) (ilike : jstr → jstr → bool).

(** [generate_enrollment_token]; [token] is what [secrets.token_urlsafe] draws. *)
Definition generate_enrollment_token (now : Z) (cred : option jstr) (token : jstr) : proc jstr :=
  current_user ← require_admin now cred;
  org ← require (HTTPException 400 "No active organization for user") (us_active_org_id current_user);
  redis_setex now (enrollment_key token) 3600 (RStr (json_dumps str_float (JObj [("org_id", JStr (str_uuid org))])));;
  mret token.

(** [DeviceService.register_device] *)
Definition service_register_device (now : Z) (did : uuid) (raw_key salt : jstr) (body : enroll_request) (org_id : option uuid)
    : proc DeviceRow :=
  existing ← select_one (λ d, bool_decide (dv_fingerprint d = Some (en_fingerprint body)));
  refuse (match existing with Some d => negb (dv_is_revoked d) | None => false end)
    (ConflictError ("Device with fingerprint already registered (id=" ++ str_uuid (from_option dv_id 0 existing) ++ ")"));;
  refuse (negb (text_column 255 (en_hostname body) && text_column 50 (en_os_type body) && opt_column 255 (en_os_version body)
                && opt_column 50 (en_arch body) && text_column 64 (en_fingerprint body) && opt_column 45 (en_ip_address body)))
    DataError;;
  known ← gets (λ s, match org_id with Some o => existsb (has_pk o) (organizations (db s)) | None => true end);
  refuse (negb known) IntegrityError;;
  let device := {| dv_id := did; dv_hostname := en_hostname body; dv_os_type := en_os_type body;
                   dv_os_version := en_os_version body; dv_arch := en_arch body; dv_ip_address := en_ip_address body;
                   dv_fingerprint := Some (en_fingerprint body); dv_api_key_hash := hashpw raw_key salt; dv_enrolled_at := now;
                   dv_last_seen := None; dv_status := "offline"; dv_is_revoked := false; dv_label := None; dv_notes := None;
                   dv_tags := []; dv_serial_number := None; dv_manufacturer := None; dv_model_name := None;
                   dv_purchase_date := None; dv_warranty_expires := None; dv_location := None; dv_assigned_to := None;
                   dv_asset_tag := None; dv_maintenance_mode := false; dv_maintenance_until := None;
                   dv_maintenance_reason := None; dv_agent_version := None; dv_org_id := org_id |} in
  add device;;
  mret device.

(** The two endpoints have the same code after their rate limits. *)
Definition enroll_with_token (now : Z) (did : uuid) (raw_key salt : jstr) (body : enroll_request) : proc (uuid * jstr) :=
  let token_key := enrollment_key (en_enrollment_token body) in
  token_value ← redis_get now token_key;
  token_value ← require (HTTPException 400 "Invalid or expired enrollment token") token_value;
  device ← service_register_device now did raw_key salt body (token_org py_str token_value);
  commit;;
  redis_delete token_key;;
  mret (dv_id device, raw_key).

(** The endpoint also carries slowapi's limiter, a library that keeps its own count of 30 a minute: it is left out. *)
Definition enroll_device (now : Z) (did : uuid) (raw_key salt client_ip : jstr) (body : enroll_request) : proc (uuid * jstr) :=
  allowed ← check_rate_limit now ("rate_limit:enroll:" ++ client_ip) 30 60;
  refuse (negb allowed) (HTTPException 429 "Too many enrollment attempts");;
  enroll_with_token now did raw_key salt body.

Definition register_device (now : Z) (did : uuid) (raw_key salt : jstr) (forwarded_for client : option jstr)
    (body : enroll_request) : proc (uuid * jstr) :=
  allowed ← check_rate_limit now ("rate_limit:register:" ++ _get_client_ip forwarded_for client) 5 3600;
  refuse (negb allowed) (HTTPException 429 "Too many registration attempts");;
  enroll_with_token now did raw_key salt body.

(** ** Reading *)

Definition opt_date (d : option Z) : json := match d with Some d => JStr (isoformat_date d) | None => JNull end.

(** A device in the answers of [list_devices] and [get_device]. *)
Definition fmt_device (s : server) (d : DeviceRow) : json :=
  JObj [("id", JStr (str_uuid (dv_id d))); ("hostname", JStr (dv_hostname d)); ("os_type", JStr (dv_os_type d));
        ("os_version", opt_str (dv_os_version d)); ("arch", opt_str (dv_arch d)); ("ip_address", opt_str (dv_ip_address d));
        ("status", JStr (dv_status d)); ("last_seen", opt_iso (dv_last_seen d));
        ("enrolled_at", JStr (isoformat (dv_enrolled_at d))); ("label", opt_str (dv_label d)); ("notes", opt_str (dv_notes d));
        ("tags", JArr (map JStr (dv_tags d))); ("serial_number", opt_str (dv_serial_number d));
        ("manufacturer", opt_str (dv_manufacturer d)); ("model_name", opt_str (dv_model_name d));
        ("purchase_date", opt_date (dv_purchase_date d)); ("warranty_expires", opt_date (dv_warranty_expires d));
        ("location", opt_str (dv_location d)); ("assigned_to", opt_str (dv_assigned_to d));
        ("asset_tag", opt_str (dv_asset_tag d)); ("maintenance_mode", JBool (dv_maintenance_mode d));
        ("maintenance_until", opt_iso (dv_maintenance_until d)); ("maintenance_reason", opt_str (dv_maintenance_reason d));
        ("agent_version", opt_str (dv_agent_version d)); ("is_online", JBool (is_connected (dv_id d) s))].

(** The conditions of [DeviceService.list_devices] and [count_devices]. *)
Definition listed (org_id : uuid) (tag search : option jstr) (d : DeviceRow) : bool :=
  negb (dv_is_revoked d) && bool_decide (dv_org_id d = Some org_id)
  && (negb (otruthy tag) || existsb (seqb (tag ?? "")) (dv_tags d))
  && (negb (otruthy search)
      || (let term := "%" ++ (search ?? "") ++ "%" in
          ilike term (dv_hostname d) || (match dv_label d with Some l => ilike term l | None => false end)
          || (match dv_ip_address d with Some l => ilike term l | None => false end))).

(** [list_devices]: the total and the page. *)
Definition list_devices (now : Z) (cred : option jstr) (skip limit : Z) (tag search : option jstr) : proc (Z * list json) :=
  (get_current_user now cred : proc UserRow);;
  current_org_id ← get_current_org_id now cred;
  refuse (negb ((0 <=? skip) && (1 <=? limit) && (limit <=? 500))) (HTTPException 422 "Unprocessable Entity");;
  total ← count (listed current_org_id tag search);
  refuse (negb (in_width 64 skip)) DataError;;
  l ← select (listed current_org_id tag search);
  page ← gets (λ s, map (fmt_device s) (take (Z.to_nat limit) (drop (Z.to_nat skip) l)));
  mret (total, page).

Definition get_device_by_fingerprint (now : Z) (cred : option jstr) (fingerprint : jstr) : proc json :=
  require_admin now cred;;
  current_org_id ← get_current_org_id now cred;
  device ← select_one (λ d, bool_decide (dv_fingerprint d = Some fingerprint) && bool_decide (dv_org_id d = Some current_org_id)
                            && negb (dv_is_revoked d));
  d ← require (HTTPException 404 "Device not found") device;
  mret (JObj [("id", JStr (str_uuid (dv_id d))); ("hostname", JStr (dv_hostname d)); ("label", opt_str (dv_label d));
              ("fingerprint", opt_str (dv_fingerprint d)); ("status", JStr (dv_status d))]).

(** [DeviceService.get_device] with an organization; a revoked device is found too. *)
Definition service_get_device (device_id org_id : uuid) : proc DeviceRow :=
  device ← select_one (λ d, has_pk device_id d && bool_decide (dv_org_id d = Some org_id));
  require (NotFoundError ("Device " ++ str_uuid device_id ++ " not found")) device.

Definition get_device (now : Z) (cred : option jstr) (device_id : uuid) : proc json :=
  (get_current_user now cred : proc UserRow);;
  current_org_id ← get_current_org_id now cred;
  d ← service_get_device device_id current_org_id;
  gets (λ s, fmt_device s d).

(** [_get_device_for_org] of [api/v1/devices.py], the same code as in [api/v1/commands.py] *)
Definition _get_device_for_org (device_id org_id : uuid) : proc DeviceRow := get_device_for_org device_id org_id.

Definition fmt_interface (i : NetworkRow) : json :=
  JObj [("id", JStr (str_uuid (nw_id i))); ("interface_name", JStr (nw_interface_name i));
        ("mac_address", opt_str (nw_mac_address i)); ("ipv4", JArr (map opt_str (nw_ipv4 i)));
        ("ipv6", JArr (map opt_str (nw_ipv6 i))); ("is_up", JBool (nw_is_up i)); ("mtu", opt_num (nw_mtu i));
        ("updated_at", JStr (isoformat (nw_updated_at i)))].
(** [get_device_network]; [collate] is the order of the database on names. *)
Definition get_device_network (collate : jstr → jstr → bool) (now : Z) (cred : option jstr) (device_id : uuid) : proc json :=
  (get_current_user now cred : proc UserRow);;
  current_org_id ← get_current_org_id now cred;
  _get_device_for_org device_id current_org_id;;
  l ← select (λ i, nw_device_id i =? device_id);
  mret (JObj [("interfaces",
    JArr (map fmt_interface (stable_sort (λ a b, collate (nw_interface_name a) (nw_interface_name b)) l)))]).

Definition fmt_ssh_key (k : SSHKeyRow) : json :=
  JObj [("id", JStr (str_uuid (ky_id k))); ("key_type", JStr (ky_key_type k)); ("public_key", JStr (ky_public_key k));
        ("fingerprint", JStr (ky_fingerprint k)); ("comment", opt_str (ky_comment k));
        ("discovered_at", JStr (isoformat (ky_discovered_at k)))].
Definition get_device_ssh_keys (now : Z) (cred : option jstr) (device_id : uuid) : proc (list json) :=
  (get_current_user now cred : proc UserRow);;
  current_org_id ← get_current_org_id now cred;
  _get_device_for_org device_id current_org_id;;
  l ← select (λ k, ky_device_id k =? device_id);
  mret (map fmt_ssh_key (stable_sort (λ a b, ky_discovered_at b <=? ky_discovered_at a) l)).

Definition agent_log (device_id : uuid) (e : EventRow) : bool :=
  (ev_device_id e =? device_id)
  && ((match ev_source e with Some s => take 6 s =s "agent/" | None => false end) || (ev_event_type e =s "agent_log")).
Definition get_agent_logs (now : Z) (cred : option jstr) (device_id : uuid) (limit : Z) : proc (list json) :=
  (get_current_user now cred : proc UserRow);;
  current_org_id ← get_current_org_id now cred;
  refuse (negb ((1 <=? limit) && (limit <=? 1000))) (HTTPException 422 "Unprocessable Entity");;
  _get_device_for_org device_id current_org_id;;
  l ← select (agent_log device_id);
  mret (map (λ e, JObj [("id", JStr (str_uuid (ev_id e))); ("time", JStr (isoformat (ev_time e)));
                        ("event_type", JStr (ev_event_type e)); ("source", opt_str (ev_source e)); ("message", JStr (ev_message e))])
          (take (Z.to_nat limit) (stable_sort (λ a b, ev_time b <=? ev_time a) l))).

(** The values that the agent's messages left in Redis. *)
Definition redis_text (v : redis_value) : jstr := match v with RStr t => t | RInt n => string_of_Z n end.
Definition get_screenshot (now : Z) (cred : option jstr) (device_id : uuid) : proc json :=
  (get_current_user now cred : proc UserRow);;
  current_org_id ← get_current_org_id now cred;
  _get_device_for_org device_id current_org_id;;
  payload ← redis_get now ("screenshot:" ++ str_uuid device_id);
  match payload with
  | None => mret (JObj [("image_b64", JNull); ("captured_at", JNull); ("status", JStr "not_captured")])
  | Some v =>
      data ← require ValueError (JSON_parse (redis_text v));
      match data with
      | JObj fs => mret (match field "status" data with Some _ => data | None => JObj (fs ++ [("status", JStr "captured")]) end)
      | _ => raise AttributeError
      end
  end.
Definition get_device_processes (now : Z) (cred : option jstr) (device_id : uuid) : proc json :=
  (get_current_user now cred : proc UserRow);;
  current_org_id ← get_current_org_id now cred;
  _get_device_for_org device_id current_org_id;;
  payload ← redis_get now ("process_list:" ++ str_uuid device_id);
  v ← require (HTTPException 404 "Process list not found") payload;
  require ValueError (JSON_parse (redis_text v)).

(** ** Changing *)

(** The fields of an update that are set; a set field may be null. *)
Record device_update := {
  up_label : option (option jstr); up_notes : option (option jstr); up_tags : option (option (list jstr));
  up_serial_number : option (option jstr); up_manufacturer : option (option jstr); up_model_name : option (option jstr);
  up_purchase_date : option (option Z); up_warranty_expires : option (option Z); up_location : option (option jstr);
  up_assigned_to : option (option jstr); up_asset_tag : option (option jstr) }.

(** [TAG_PATTERN.fullmatch] *)
Definition tag_char (c : Z) : bool :=
  ((65 <=? c) && (c <=? 90)) || ((97 <=? c) && (c <=? 122)) || ((48 <=? c) && (c <=? 57)) || (c =? 95) || (c =? 45).
Definition tag_ok (tag : jstr) : bool := Nat.leb 1 (length tag) && Nat.leb (length tag) 50 && forallb tag_char tag.

(** The order of Python on strings. *)
Fixpoint str_le (a b : jstr) : bool :=
  match a, b with
  | [], _ => true
  | _ :: _, [] => false
  | x :: a', y :: b' => (x <? y) || ((x =? y) && str_le a' b')
  end.
(** [sorted(set(tag.strip() for tag in tags if tag.strip()))] *)
Definition normal_tags (tags : list jstr) : list jstr := stable_sort str_le (remove_dups (bfilter truthy (map py_strip tags))).

Definition short {A} (n : nat) (f : option (option (list A))) : bool :=
  match f with Some (Some s) => Nat.leb (length s) n | _ => true end.
Definition update_valid (body : device_update) : bool :=
  short 255 (up_label body) && short 5000 (up_notes body)
  && (match up_tags body with Some (Some tags) => forallb tag_ok tags | _ => true end)
  && short 100 (up_serial_number body) && short 100 (up_manufacturer body) && short 100 (up_model_name body)
  && short 255 (up_location body) && short 255 (up_assigned_to body) && short 100 (up_asset_tag body).
Definition update_storable (body : device_update) : bool :=
  forallb (λ f, match f with Some (Some s) => storable s | _ => true end)
    [up_label body; up_notes body; up_serial_number body; up_manufacturer body; up_model_name body; up_location body;
     up_assigned_to body; up_asset_tag body].

(** [if field in updates: setattr(device, field, value)] *)
Definition assign {A} (set : A → DeviceRow → DeviceRow) (v : option A) (d : DeviceRow) : DeviceRow :=
  match v with Some v => set v d | None => d end.
Definition apply_update (body : device_update) (d : DeviceRow) : DeviceRow :=
  assign dv_set_asset_tag (up_asset_tag body) (assign dv_set_assigned_to (up_assigned_to body)
  (assign dv_set_location (up_location body) (assign dv_set_warranty_expires (up_warranty_expires body)
  (assign dv_set_purchase_date (up_purchase_date body) (assign dv_set_model_name (up_model_name body)
  (assign dv_set_manufacturer (up_manufacturer body) (assign dv_set_serial_number (up_serial_number body)
  (assign (λ tags, dv_set_tags (normal_tags (tags ?? []))) (up_tags body)
  (assign dv_set_notes (up_notes body) (assign dv_set_label (up_label body) d)))))))))).

Definition update_device (now : Z) (cred : option jstr) (device_id : uuid) (body : device_update) : proc unit :=
  (get_current_user now cred : proc UserRow);;
  current_org_id ← get_current_org_id now cred;
  refuse (negb (update_valid body)) (HTTPException 422 "Unprocessable Entity");;
  _get_device_for_org device_id current_org_id;;
  refuse (negb (update_storable body)) DataError;;
  update_row device_id (apply_update body);;
  commit.

(** [until] is a time with a time zone. *)
Definition set_device_maintenance (now : Z) (cred : option jstr) (device_id : uuid) (enabled : bool) (until : option Z)
    (reason : option jstr) : proc unit :=
  (get_current_user now cred : proc UserRow);;
  current_org_id ← get_current_org_id now cred;
  refuse (negb (match reason with Some r => Nat.leb (length r) 500 | None => true end)) (HTTPException 422 "Unprocessable Entity");;
  _get_device_for_org device_id current_org_id;;
  let reason := if enabled then reason else None in
  refuse (negb (opt_column 500 reason)) DataError;;
  update_row device_id (λ d, dv_set_maintenance_reason reason (dv_set_maintenance_until (if enabled then until else None)
                               (dv_set_maintenance_mode enabled d)));;
  commit.

Definition _default_device_config : list (jstr * json) :=
  [("telemetry_interval_secs", JNum (of_Z 60)); ("software_scan_interval_m", JNum (of_Z 60));
   ("event_poll_interval_secs", JNum (of_Z 120))].
Definition get_device_config (now : Z) (cred : option jstr) (device_id : uuid) : proc json :=
  (get_current_user now cred : proc UserRow);;
  current_org_id ← get_current_org_id now cred;
  _get_device_for_org device_id current_org_id;;
  config_row ← db_get device_id;
  mret (JObj [("device_id", JStr (str_uuid device_id));
              ("config", JObj (match config_row with Some r => cf_config r | None => _default_device_config end));
              ("updated_at", match config_row with Some r => JStr (isoformat (cf_updated_at r)) | None => JNull end)]).

Definition config_payload (telemetry software event : Z) : list (jstr * json) :=
  [("telemetry_interval_secs", JNum (of_Z telemetry)); ("software_scan_interval_m", JNum (of_Z software));
   ("event_poll_interval_secs", JNum (of_Z event))].
(** Equal dictionaries of numbers. *)
Definition same_config (a b : list (jstr * json)) : bool :=
  Nat.eqb (length a) (length b)
  && forallb (λ '(k, v), match v, field k (JObj b) with
                         | JNum (Fin x), Some (JNum (Fin y)) => Qeq_bool x y
                         | _, _ => false
                         end) a.
Definition config_message (payload : list (jstr * json)) : json :=
  JObj [("type", JStr "config_update"); ("data", JObj payload)].
(** [update_device_config]: whether the device was told.  An assignment that
    changes nothing is not written. *)
Definition update_device_config (now : Z) (cred : option jstr) (device_id : uuid) (telemetry software event : Z) : proc bool :=
  (get_current_user now cred : proc UserRow);;
  current_org_id ← get_current_org_id now cred;
  _get_device_for_org device_id current_org_id;;
  let payload := config_payload telemetry software event in
  config_row ← db_get (R := ConfigRow) device_id;
  match config_row with
  | None => add {| cf_device_id := device_id; cf_config := payload; cf_updated_at := now |}
  | Some r => when (negb (same_config (cf_config r) payload))
                (update_row device_id (λ r, cf_set_updated_at now (cf_set_config payload r)))
  end;;
  commit;;
  connected ← gets (is_connected device_id);
  if connected : bool then send_to_device device_id (config_message payload) else mret false.

(** [DeviceService.revoke_device] and its endpoint *)
Definition service_revoke_device (device_id org_id : uuid) : proc unit :=
  service_get_device device_id org_id;;
  update_row device_id (λ d, dv_set_status "offline" (dv_set_is_revoked true d)).
Definition revoke_device (now : Z) (lid : uuid) (cred : option jstr) (device_id : uuid) : proc unit :=
  current_user ← require_admin now cred;
  current_org_id ← get_current_org_id now cred;
  service_revoke_device device_id current_org_id;;
  log_action now lid (Some current_user) "device_revoked" (Some "device") (Some (str_uuid device_id)) None None None;;
  commit.

Definition rotate_device_key (now : Z) (lid : uuid) (raw_key salt : jstr) (cred : option jstr) (device_id : uuid)
    : proc (uuid * jstr) :=
  current_user ← require_admin now cred;
  current_org_id ← get_current_org_id now cred;
  _get_device_for_org device_id current_org_id;;
  update_row device_id (dv_set_api_key_hash (hashpw raw_key salt));;
  log_action now lid (Some current_user) "device_key_rotated" (Some "device") (Some (str_uuid device_id)) None None None;;
  commit;;
  mret (device_id, raw_key).

(** [request_screenshot]; [cid] names the request. *)
Definition request_screenshot (now : Z) (cid : uuid) (cred : option jstr) (device_id : uuid) : proc unit :=
  (get_current_user now cred : proc UserRow);;
  current_org_id ← get_current_org_id now cred;
  device ← _get_device_for_org device_id current_org_id;
  refuse (dv_is_revoked device) (HTTPException 404 "Device not found");;
  connected ← gets (is_connected device_id);
  refuse (negb connected) (HTTPException 409 "Device is offline");;
  send_to_device device_id
    (JObj [("type", JStr "screenshot_request"); ("data", JObj [("command_id", JStr (str_uuid cid))])]);;
  mret tt.

Definition delete_device_ssh_key (now : Z) (cred : option jstr) (device_id key_id : uuid) : proc unit :=
  (get_current_user now cred : proc UserRow);;
  current_org_id ← get_current_org_id now cred;
  _get_device_for_org device_id current_org_id;;
  key ← db_get (R := SSHKeyRow) key_id;
  refuse (match key with Some k => negb (ky_device_id k =? device_id) | None => true end) (HTTPException 404 "SSH key not found");;
  delete_row (R := SSHKeyRow) key_id;;
  commit.

Definition disconnect_device (now : Z) (cred : option jstr) (device_id : uuid) : proc unit :=
  require_admin now cred;;
  current_org_id ← get_current_org_id now cred;
  _get_device_for_org device_id current_org_id;;
  manager_disconnect device_id.

End devices.

(** ** Facts *)

(** *** Redis *)

Lemma check_rate_limit_run now k l w s :
  ∃ r rd, check_rate_limit now k l w s = (r, set_redis rd s) ∧ ∀ k', k' ≠ k → rd !! k' = redis s !! k'.
Proof.
  unfold check_rate_limit, redis_incr, redis_expire. run_proc.
  destruct (redis_live now s k) as [[[n|t] e]|].
  - destruct (n + 1 =? 1).
    + match goal with |- context [redis_live now ?s1 k] => destruct (redis_live now s1 k) end; simpl;
        eexists _, _; (split; [done|]); intros k' Hk; simpl; by rewrite ?lookup_insert_ne.
    + eexists _, _. split; [done|]. intros k' Hk. simpl. by rewrite lookup_insert_ne.
  - exists (Raise ResponseError), (redis s). split; [by destruct s|done].
  - change (1 =? 1) with true. cbv iota beta.
    match goal with |- context [redis_live now ?s1 k] => destruct (redis_live now s1 k) end; simpl;
      eexists _, _; (split; [done|]); intros k' Hk; simpl; by rewrite ?lookup_insert_ne.
Qed.

(** *** Enrollment tokens *)

Lemma take_In {A} n (l : list A) x : In x (take n l) → In x l.
Proof. intros H. rewrite <-(take_drop n l). apply in_or_app. by left. Qed.
Lemma drop_In {A} n (l : list A) x : In x (drop n l) → In x l.
Proof. intros H. rewrite <-(take_drop n l). apply in_or_app. by right. Qed.


Lemma str_uuid_ascii u c : In c (str_uuid u) → 45 <= c <= 126.
Proof.
  intros Hc. assert (hex_char c ∨ c = 45) as [H%hex_char_range| ->]; [|lia..].
  pose proof (hex_digits_chars 32 u) as Hh. unfold str_uuid in Hc. revert Hh Hc. generalize (hex_digits 32 u) as h.
  intros h Hh Hc. rewrite List.Forall_forall in Hh.
  repeat first [apply in_app_or in Hc as [Hc|Hc] | apply in_inv in Hc as [<-|Hc]]; try (by right); left; apply Hh.
  all: repeat first [exact Hc | apply take_In in Hc | apply drop_In in Hc].
Qed.
Lemma utf16_ascii s : (∀ c, In c s → 0 <= c < 128) → utf16 s = s.
Proof.
  induction s as [|c s IH]; intros Hs; [done|]. unfold utf16 in *. cbn [flat_map]. rewrite IH by (intros; apply Hs; by right).
  unfold utf16_units. specialize (Hs c (or_introl eq_refl)). destruct (Z.ltb_spec c 65536); [done|lia].
Qed.

Section tokens.
Context (str_float : Q → jstr) (py_str : json → jstr).
(** The organization survives the trip of a token through Redis. *)
Lemma token_org_dumps o :
  uuid_ok o → token_org py_str (RStr (json_dumps str_float (JObj [("org_id", JStr (str_uuid o))]))) = Some o.
Proof.
  intros Ho. pose proof (UUID_str o Ho) as Hu. pose proof (str_uuid_ascii o) as Ha. revert Hu Ha.
  generalize (str_uuid o) as u. intros u Hu Ha.
  unfold token_org. rewrite dumps_round_trip.
  - cbn [json_read map fst snd field]. rewrite (utf16_ascii u) by (intros c Hc%Ha; lia).
    change (utf16 "org_id") with ("org_id" : jstr). destruct u as [|c u]; [done|]. exact Hu.
  - apply plain_obj. split; [apply NoDup_singleton|]. intros f [<-|[]]. split.
    + intros c Hc. simpl in Hc. left. repeat (destruct Hc as [<-|Hc]; [lia|]). done.
    + intros c Hc%Ha. left. lia.
Qed.
End tokens.

(** *** Steps that succeed

    From a state with [P], [m] returns in a state with [P]. *)
Definition succeeds {A} (P : server → Prop) (m : proc A) : Prop := ∀ s, P s → ∃ a s', m s = (Ok a, s') ∧ P s'.

Lemma succeeds_ret {A} P (a : A) : succeeds P (mret a).
Proof. intros s Hs. by exists a, s. Qed.
Lemma succeeds_gets {A} P (f : server → A) : succeeds P (gets f).
Proof. intros s Hs. by exists (f s), s. Qed.
Lemma succeeds_modify P f : (∀ s, P s → P (f s)) → succeeds P (modify f).
Proof. intros Hf s Hs. exists tt, (f s). auto. Qed.
Lemma succeeds_bind {A B} P (m : proc A) (k : A → proc B) : succeeds P m → (∀ a, succeeds P (k a)) → succeeds P (x ← m; k x).
Proof.
  intros Hm Hk s Hs. destruct (Hm s Hs) as (a & s1 & E & H1). destruct (Hk a s1 H1) as (b & s2 & E2 & H2). exists b, s2.
  unfold mbind, proc_bind. by rewrite E.
Qed.
Lemma succeeds_for_each {A} P (f : A → proc unit) l : (∀ x, succeeds P (f x)) → succeeds P (for_each f l).
Proof. intros Hf. induction l as [|x l IH]; [apply succeeds_ret|]. by apply succeeds_bind. Qed.

(** A device with an open connection. *)
Definition reachable_on (dev : uuid) (ws : socket) (s : server) : Prop :=
  dict_get dev (connections s) = Some ws ∧ ws_open ws s = true.

Lemma succeeds_send dev ws m : succeeds (reachable_on dev ws) (send_to_device dev m).
Proof. intros s [Hc Ho]. rewrite send_to_device_run, Hc, Ho. by eexists _, _. Qed.

(** The greeting of a device that is connected does not fail. *)
Lemma ws_greet_succeeds now uid ws device s :
  ¬ In uid (map ut_id (uptime_events (db s))) → reachable_on (dv_id device) ws s →
  ∃ s', ws_greet now uid ws device s = (Ok tt, s') ∧ reachable_on (dv_id device) ws s'.
Proof.
  intros Hu Hs. set (P s := reachable_on (dv_id device) ws s). unfold ws_greet. cbv zeta.
  assert (∃ s1, _cancel_pending_offline (dv_id device) s = (Ok tt, s1) ∧ db s1 = db s ∧ P s1) as (s1 & E1 & Hd1 & H1).
  { unfold _cancel_pending_offline. run_proc. destruct (dict_get (dv_id device) (pending_offline s)); by eexists. }
  rewrite (bind_ok _ _ _ _ _ E1). unfold mbind at 1, proc_bind at 1. cbn [update_row update_where modify_db modify].
  unfold mbind at 1, proc_bind at 1, gets. unfold mbind at 1, proc_bind at 1, add.
  match goal with |- context [existsb ?f ?l] => assert (existsb f l = false) as -> end.
  { apply not_true_iff_false. intros (x & Hx & E)%existsb_exists. simpl in Hx, E. rewrite Hd1 in Hx. apply Z.eqb_eq in E.
    apply Hu. rewrite E. by apply in_map. }
  match goal with |- ∃ s', ?m ?s2 = _ ∧ _ => assert (P s2) as H2; [done|]; assert (succeeds P m) as Hm end.
  { apply succeeds_bind; [by apply succeeds_modify|]. intros _. apply succeeds_bind; [apply succeeds_gets|]. intros row.
    apply succeeds_bind; [destruct row; [apply succeeds_bind; [apply succeeds_send|intros; apply succeeds_ret]|apply succeeds_ret]|].
    intros _. apply succeeds_bind; [apply succeeds_gets|]. intros cmds. apply succeeds_bind; [|intros; by apply succeeds_modify].
    apply succeeds_for_each. intros c. apply succeeds_bind; [apply succeeds_send|intros; apply succeeds_ret]. }
  destruct (Hm _ H2) as ([] & s' & -> & H'). by exists s'.
Qed.

(** A new socket is the connection of its device. *)
Lemma connect_reachable now dev ws ip s :
  ¬ In ws (open_sockets s) → dict_get dev (connections s) ≠ Some ws →
  ∃ s', (ws_accept ws;; manager_connect now dev ws ip) s = (Ok tt, s') ∧ db s' = db s ∧ reachable_on dev ws s'.
Proof.
  intros Hn Hne. unfold ws_accept, manager_connect. run_proc. cbn [connections set_open_sockets].
  assert (∃ s2, match dict_get dev (connections s) with
                | Some w => ignore_errors (ws_close w 1000)
                | None => λ s, (Ok tt, s)
                end (set_open_sockets (open_sockets s ++ [ws]) s) = (Ok tt, s2) ∧ db s2 = db s ∧ In ws (open_sockets s2))
    as (s2 & -> & Hd & Hw).
  { destruct (dict_get dev (connections s)) as [w|] eqn:Ew.
    - unfold ignore_errors, catch. match goal with |- context [ws_close w 1000 ?s1] =>
        destruct (ws_close_cases w 1000 s1) as [[_ ->]|[_ ->]] end; eexists; (split; [done|]); (split; [done|]); simpl.
      + apply in_or_app. right. by left.
      + apply In_remove. split; [apply in_or_app; right; by left|congruence].
    - eexists. split; [done|]. split; [done|]. simpl. apply in_or_app. right. by left. }
  eexists. split; [done|]. split; [done|]. split; simpl; [by rewrite dict_get_set, Z.eqb_refl|]. by apply ws_open_In.
Qed.

(** The number of attempts of the address that are counted. *)
Definition attempts_counted (now : Z) (ip : jstr) (s : server) (n : Z) : Prop :=
  match redis_live now s (attempts_key ip) with
  | None => n = 0
  | Some e => r_value e = RInt n
  end.

Lemma attempts_counted_run now ip s n :
  attempts_counted now ip s n →
  ∃ rd, (attempts ← redis_incr now (attempts_key ip); when (attempts =? 1) (redis_expire now (attempts_key ip) 60);;
         mret (attempts <=? 30)) s = (Ok (n <? 30), set_redis rd s).
Proof.
  unfold attempts_counted, redis_incr, redis_expire. run_proc. generalize (attempts_key ip) as k. intros k.
  assert (∀ m, (m + 1 <=? 30) = (m <? 30)) as Hm by (intros m; destruct (Z.leb_spec (m + 1) 30), (Z.ltb_spec m 30); lia).
  destruct (redis_live now s k) as [[[m|t] e]|]; simpl; try done.
  - intros [= ->]. rewrite Hm. destruct (n + 1 =? 1); [|by eexists]. case_match; by eexists.
  - intros ->. case_match; by eexists.
Qed.

(** *** Requests on a device *)

#[export] Instance owned_config : Owned ConfigRow := cf_device_id.

Inductive device_request :=
| UpdateDevice (now : Z) (cred : option jstr) (body : device_update)
| SetMaintenance (now : Z) (cred : option jstr) (enabled : bool) (until : option Z) (reason : option jstr)
| UpdateConfig (now : Z) (cred : option jstr) (telemetry software event : Z)
| RevokeDevice (now : Z) (lid : uuid) (cred : option jstr)
| RotateKey (now : Z) (lid : uuid) (raw_key salt : jstr) (cred : option jstr)
| RequestScreenshot (now : Z) (cid : uuid) (cred : option jstr)
| DeleteKey (now : Z) (cred : option jstr) (key_id : uuid)
| DisconnectDevice (now : Z) (cred : option jstr).

Definition device_cred (r : device_request) : Z * option jstr :=
  match r with
  | UpdateDevice now cred _ | SetMaintenance now cred _ _ _ | UpdateConfig now cred _ _ _ | RevokeDevice now _ cred
  | RotateKey now _ _ _ cred | RequestScreenshot now _ cred | DeleteKey now cred _ | DisconnectDevice now cred => (now, cred)
  end.

Section requests.
Context `{Crypto}.

(** The request [r] on the device [dev]. *)
Definition serve_device (dev : uuid) (r : device_request) : proc unit :=
  match r with
  | UpdateDevice now cred body => with_db (update_device now cred dev body)
  | SetMaintenance now cred enabled until reason => with_db (set_device_maintenance now cred dev enabled until reason)
  | UpdateConfig now cred telemetry software event => with_db (update_device_config now cred dev telemetry software event);; mret tt
  | RevokeDevice now lid cred => with_db (revoke_device now lid cred dev)
  | RotateKey now lid raw_key salt cred => with_db (rotate_device_key now lid raw_key salt cred dev);; mret tt
  | RequestScreenshot now cid cred => with_db (request_screenshot now cid cred dev)
  | DeleteKey now cred key_id => with_db (delete_device_ssh_key now cred dev key_id)
  | DisconnectDevice now cred => with_db (disconnect_device now cred dev)
  end.

(** *** Outside of the organization *)

(** The run stops with an exception and has changed nothing. *)
Definition fails_at {A} (s : server) (m : proc A) : Prop := ∃ e, m s = (Raise e, s).

Lemma fails_read {A B} s (m : proc A) (k : A → proc B) :
  snd (m s) = s → (∀ a, m s = (Ok a, s) → fails_at s (k a)) → fails_at s (x ← m; k x).
Proof.
  intros Hm Hk. unfold fails_at, mbind, proc_bind. destruct (m s) as [[a|e] s'] eqn:E; simpl in Hm; subst; [|by exists e].
  by apply Hk.
Qed.
Lemma fails_refuse {A} s b e (k : proc A) : (b = false → fails_at s k) → fails_at s (refuse b e;; k).
Proof. intros Hk. destruct b; [by exists e|exact (Hk eq_refl)]. Qed.
Lemma fails_with_db {A} s (m : proc A) : db s = saved s → fails_at s m → fails_at s (with_db m).
Proof. intros Hs (e & E). exists e. unfold with_db. rewrite E. simpl. rewrite <-Hs. by destruct s. Qed.
Lemma fails_then {A B} s (m : proc A) (k : A → proc B) : fails_at s m → fails_at s (x ← m; k x).
Proof. intros (e & E). exists e. by rewrite (bind_raise _ _ _ _ _ E). Qed.

Lemma get_device_for_org_outside dev org s : ¬ in_org org (devices (db s)) dev → fails_at s (get_device_for_org dev org).
Proof.
  intros Hout. apply fails_read; [apply select_one_state|]. intros [d|] E; [|by eexists].
  apply select_one_some in E as (_ & Hin & Hp). unfold device_for_org, has_pk in Hp. simpl in Hp.
  apply andb_true_iff in Hp as [[?%Z.eqb_eq ?%bool_decide_eq_true]%andb_true_iff _]. destruct Hout. by exists d.
Qed.
Lemma service_get_device_outside dev org s : ¬ in_org org (devices (db s)) dev → fails_at s (service_get_device dev org).
Proof.
  intros Hout. apply fails_read; [apply select_one_state|]. intros [d|] E; [|by eexists].
  apply select_one_some in E as (_ & Hin & Hp). unfold has_pk in Hp. simpl in Hp.
  apply andb_true_iff in Hp as [?%Z.eqb_eq ?%bool_decide_eq_true]. destruct Hout. by exists d.
Qed.

Lemma serve_device_outside dev r org s :
  db s = saved s → (∀ o, fst (get_current_org_id (fst (device_cred r)) (snd (device_cred r)) s) = Ok o → o = org) →
  ¬ in_org org (devices (db s)) dev → fails_at s (serve_device dev r).
Proof.
  intros Hs Horg Hout. destruct r; simpl in Horg; cbn [serve_device]; try apply fails_then; apply fails_with_db; try done.
  all: apply fails_read; [first [apply get_current_user_state|apply require_admin_state]|intros user _].
  all: apply fails_read; [apply get_current_org_id_state|intros o Ho; rewrite Ho in Horg; specialize (Horg o eq_refl) as ->].
  all: repeat (apply fails_refuse; intros _). all: apply fails_then.
  all: first [by apply get_device_for_org_outside|apply fails_then; by apply service_get_device_outside].
Qed.

(** *** The other devices *)

Section local.
Context (dev : uuid) (P : database → Prop).
Hypothesis (Hdevices : looks_at_others DeviceRow dev P) (Hconfigs : looks_at_others ConfigRow dev P) (Haudit : ignores AuditRow P)
  (Hkey : ∀ d k, P d → In k (ssh_keys d) → ky_device_id k = dev →
          P (set_ssh_keys (bfilter (λ r, negb (has_pk (ky_id k) r)) (ssh_keys d)) d)).

Lemma local_device_row f : (∀ d, dv_id (f d) = dv_id d) → preserves (on_db P) (update_row (R := DeviceRow) dev f).
Proof. intros Hf. apply (others_update dev P Hdevices). intros d E%Z.eqb_eq. simpl in E. by rewrite Hf. Qed.
Lemma on_db_org_id now cred : preserves (on_db P) (get_current_org_id now cred).
Proof. apply preserves_state, get_current_org_id_state. Qed.
Lemma on_db_user now cred : preserves (on_db P) (get_current_user now cred).
Proof. apply preserves_state, get_current_user_state. Qed.
Lemma on_db_service_get d o : preserves (on_db P) (service_get_device d o).
Proof. unfold service_get_device. walk. Qed.
#[local] Hint Resolve on_db_org_id on_db_user on_db_service_get on_db_send_to_device on_db_log_action : server.

Lemma apply_update_id body d : dv_id (apply_update body d) = dv_id d.
Proof. unfold apply_update. destruct body. cbn. by repeat match goal with |- context [assign _ ?o _] => destruct o; cbn [assign] end. Qed.

Lemma local_serve r : preserves (on_db P) (serve_device dev r).
Proof.
  destruct r; cbn [serve_device]; try (apply preserves_bind; [|intros; apply preserves_ret]); apply on_db_with_db.
  - unfold update_device, _get_device_for_org. walk. apply local_device_row. apply apply_update_id.
  - unfold set_device_maintenance, _get_device_for_org. walk; by apply local_device_row.
  - unfold update_device_config, _get_device_for_org. walk.
    + apply (others_update dev P Hconfigs). intros ? ?%Z.eqb_eq. done.
    + by apply (others_add dev P Hconfigs).
  - unfold revoke_device, service_revoke_device. walk. by apply local_device_row.
  - unfold rotate_device_key, _get_device_for_org. walk. by apply local_device_row.
  - unfold request_screenshot, _get_device_for_org. walk.
  - unfold delete_device_ssh_key, _get_device_for_org. do 3 (apply preserves_bind; [walk|intros ?]). intros s [Hd Hs].
    unfold mbind at 1, proc_bind at 1, db_get, gets. simpl. destruct (find _ _) as [k|] eqn:E; [|done].
    apply find_some in E as [Hin E%Z.eqb_eq]. simpl in E. subst key_id. destruct (Z.eqb_spec (ky_device_id k) dev) as [Eo|]; [|done].
    by split; apply Hkey.
  - unfold disconnect_device, _get_device_for_org. walk.
Qed.
End local.
End requests.

(** ** Properties *)

Module DeviceProps.
Section enrollment.
Context `{CryptoLaws} (str_float : Q → jstr) (py_str : json → jstr).

(** The rows of the machine that registers: they are looked up by fingerprint, which no constraint keeps unique. *)
Definition machine_rows (body : enroll_request) (d : database) : list DeviceRow :=
  bfilter (λ r, bool_decide (dv_fingerprint r = Some (en_fingerprint body))) (devices d).
Lemma machine_lookup {A} body s (k : option DeviceRow → proc A) :
  (existing ← select_one (λ d, bool_decide (dv_fingerprint d = Some (en_fingerprint body))); k existing) s
  = (existing ← scalar_one_or_none (machine_rows body (db s)); k existing) s.
Proof. reflexivity. Qed.
(** What a registration needs of the tables: at most one row of the machine, revoked; an unused identifier; the
    organization; and values that fit. *)
Definition can_enroll (did : uuid) (body : enroll_request) (org : uuid) (d : database) : Prop :=
  (machine_rows body d = [] ∨ ∃ r, machine_rows body d = [r] ∧ dv_is_revoked r = true) ∧ ¬ In did (map dv_id (devices d)) ∧
  (∃ o, In o (organizations d) ∧ og_id o = org) ∧
  text_column 255 (en_hostname body) && text_column 50 (en_os_type body) && opt_column 255 (en_os_version body)
  && opt_column 50 (en_arch body) && text_column 64 (en_fingerprint body) && opt_column 45 (en_ip_address body) = true.

Lemma service_register_run now did key salt body org s :
  can_enroll did body org (db s) →
  ∃ r, service_register_device now did key salt body (Some org) s = (Ok r, set_db (set_devices (devices (db s) ++ [r]) (db s)) s) ∧
    dv_id r = did ∧ dv_org_id r = Some org ∧ dv_api_key_hash r = hashpw key salt ∧ dv_is_revoked r = false ∧
    dv_fingerprint r = Some (en_fingerprint body).
Proof.
  intros (Hf & Hid & (o & Ho & Hoid) & Hc). unfold service_register_device. rewrite machine_lookup.
  assert (∃ x, scalar_one_or_none (machine_rows body (db s)) s = (Ok x, s) ∧
               match x with Some d => negb (dv_is_revoked d) | None => false end = false) as (x & E & Ex).
  { destruct Hf as [->|(r & -> & Hr)]; eexists; (split; [done|]); [done|]. simpl. by rewrite Hr. }
  rewrite (bind_ok _ _ _ _ _ E). rewrite Ex. run_proc. rewrite Hc. cbn [negb].
  assert (existsb (has_pk org) (organizations (db s)) = true) as ->.
  { apply existsb_exists. exists o. split; [done|]. by apply Z.eqb_eq. }
  cbn [negb]. unfold add. match goal with |- context [existsb ?f ?l] => assert (existsb f l = false) as -> end.
  { apply not_true_iff_false. intros (y & Hy & Ey)%existsb_exists. simpl in Hy, Ey. apply Z.eqb_eq in Ey. apply Hid. rewrite Ey.
    by apply in_map. }
  eexists. split; [done|]. done.
Qed.
(** The refusals of a machine that is registered. *)
Lemma service_register_refused now did key salt body org s :
  (∀ r, machine_rows body (db s) = [r] → dv_is_revoked r = false →
   service_register_device now did key salt body org s
   = (Raise (ConflictError ("Device with fingerprint already registered (id=" ++ str_uuid (dv_id r) ++ ")")), s)) ∧
  ((2 ≤ length (machine_rows body (db s)))%nat →
   service_register_device now did key salt body org s = (Raise MultipleResultsFound, s)).
Proof.
  unfold service_register_device. split.
  - intros r E Hr. rewrite machine_lookup, E. run_proc. simpl. by rewrite Hr.
  - intros Hl. rewrite machine_lookup. destruct (machine_rows body (db s)) as [|? [|? ?]]; simpl in Hl; [lia|lia|done].
Qed.

(** A token that is gone enrolls nobody. *)
Lemma no_token_no_device now did key salt ip body s a s' :
  redis s !! enrollment_key (en_enrollment_token body) = None → enroll_device py_str now did key salt ip body s ≠ (Ok a, s').
Proof.
  intros Hk Hrun. unfold enroll_device in Hrun.
  destruct (check_rate_limit_run now ("rate_limit:enroll:" ++ ip) 30 60 s) as (r & rd & E & Hrd).
  unfold mbind at 1, proc_bind at 1 in Hrun. rewrite E in Hrun. destruct r as [allowed|]; [|done]. destruct allowed; [|done].
  cbn [negb] in Hrun. unfold enroll_with_token, redis_get, redis_live, refuse in Hrun. run_proc in Hrun.
  cbn [redis set_redis] in Hrun. rewrite Hrd, Hk in Hrun; [done|]. unfold enrollment_key. discriminate.
Qed.

(** A registration that leaves the tables and the token. *)
Definition keeps_token (token : jstr) (s s' : server) : Prop :=
  db s' = db s ∧ saved s' = saved s ∧ redis s' !! enrollment_key token = redis s !! enrollment_key token.

(** A registration that passes the rate limit and finds its token, up to the service. *)
Lemma enroll_device_run now did key salt ip body s v expires :
  fst (check_rate_limit now ("rate_limit:enroll:" ++ ip) 30 60 s) = Ok true →
  redis s !! enrollment_key (en_enrollment_token body) = Some {| r_value := v; r_expires := Some expires |} → now < expires →
  ∃ rd, rd !! enrollment_key (en_enrollment_token body) = redis s !! enrollment_key (en_enrollment_token body) ∧
    enroll_device py_str now did key salt ip body s
    = (device ← service_register_device now did key salt body (token_org py_str v); commit;;
       redis_delete (enrollment_key (en_enrollment_token body));; mret (dv_id device, key)) (set_redis rd s).
Proof.
  intros Hrate Hk Ht. unfold enroll_device. destruct (check_rate_limit_run now ("rate_limit:enroll:" ++ ip) 30 60 s) as (al & rd & E & Hrd).
  assert (rd !! enrollment_key (en_enrollment_token body) = redis s !! enrollment_key (en_enrollment_token body)) as Hr
    by (apply Hrd; unfold enrollment_key; discriminate).
  exists rd. split; [done|]. rewrite E in Hrate. simpl in Hrate. subst al. rewrite (bind_ok _ _ _ _ _ E). cbn [negb].
  unfold enroll_with_token, redis_get, redis_live, refuse. run_proc. cbn [redis set_redis]. rewrite Hr, Hk. simpl.
  by rewrite (proj2 (Z.leb_gt expires now)).
Qed.

(** C6: the life of an enrollment token.  Until an hour after an administrator drew it, and while its organization exists,
    an agent that presents it within the rate limit and with values that fit is registered as a new device of that
    organization, with a key that checks against the stored hash, when no row has its fingerprint or the only one is
    revoked; the token is then spent: no registration with it succeeds afterwards.  A machine with an active row is refused
    with 409, one with two rows (revoked or not) fails with an unhandled error, and both leave the tables and the token. *)
Theorem enrollment_joins_org now cred token s t s1 :
  Forall (λ u, ∀ o, us_active_org_id u = Some o → uuid_ok o) (users (db s)) →
  generate_enrollment_token str_float now cred token s = (Ok t, s1) →
  ∃ u org, In u (users (db s)) ∧ is_active_admin u = true ∧ us_active_org_id u = Some org ∧
  ∀ now' did key salt ip body s2,
    redis s2 !! enrollment_key token = redis s1 !! enrollment_key token → now' < now + seconds 3600 →
    en_enrollment_token body = token → fst (check_rate_limit now' ("rate_limit:enroll:" ++ ip) 30 60 s2) = Ok true →
    let result := enroll_device py_str now' did key salt ip body s2 in
    (can_enroll did body org (db s2) →
     ∃ r s3, result = (Ok (did, key), s3) ∧
      devices (db s3) = devices (db s2) ++ [r] ∧ saved s3 = db s3 ∧ dv_id r = did ∧ dv_org_id r = Some org ∧
      dv_is_revoked r = false ∧ checkpw key (dv_api_key_hash r) = true ∧
      ∀ now2 did2 key2 salt2 ip2 body2 a s4,
        en_enrollment_token body2 = token → enroll_device py_str now2 did2 key2 salt2 ip2 body2 s3 ≠ (Ok a, s4)) ∧
    (∀ r, machine_rows body (db s2) = [r] → dv_is_revoked r = false →
     ∃ detail, fst result = Raise (ConflictError detail) ∧ keeps_token token s2 (snd result)) ∧
    ((2 ≤ length (machine_rows body (db s2)))%nat →
     fst result = Raise MultipleResultsFound ∧ keeps_token token s2 (snd result)).
Proof.
  intros Hok Hrun. unfold generate_enrollment_token in Hrun. step Hrun. apply require_admin_ok in E as (-> & Hin & Ha).
  destruct (us_active_org_id r) as [org|] eqn:Eo; [|done]. exists r, org. do 3 (split; [done|]).
  unfold redis_setex in Hrun. run_proc in Hrun. apply (f_equal snd) in Hrun. cbn [snd] in Hrun. subst s1. cbn [redis set_redis].
  rewrite lookup_insert_eq.
  assert (uuid_ok org) as Horg by (rewrite List.Forall_forall in Hok; by eapply Hok).
  intros now' did key salt ip body s2 Hk Ht Hb Hrate.
  destruct (enroll_device_run now' did key salt ip body s2 _ _ Hrate ltac:(by rewrite Hb) Ht) as (rd & Hrd & E).
  rewrite (token_org_dumps str_float py_str org Horg) in E. rewrite Hb in Hrd, E. cbv zeta. rewrite E.
  destruct (service_register_refused now' did key salt body (Some org) (set_redis rd s2)) as [Hone Htwo]. split_and!.
  - intros Hcan. destruct (service_register_run now' did key salt body org (set_redis rd s2) Hcan) as (d & E2 & Hd & Hdo & Hdh & Hdr & _).
    rewrite (bind_ok _ _ _ _ _ E2). exists d. eexists. rewrite Hd. split; [done|]. split_and!; try done; [by rewrite Hdh, checkpw_hashpw|].
    intros now2 did2 key2 salt2 ip2 body2 a s4 Hb2. apply no_token_no_device. rewrite Hb2. simpl. by rewrite lookup_delete_eq.
  - intros d Ed Hd. rewrite (bind_raise _ _ _ _ _ (Hone d Ed Hd)). eexists. split; [done|]. by split_and!.
  - intros Hl. rewrite (bind_raise _ _ _ _ _ (Htwo Hl)). split; [done|]. by split_and!.
Qed.
End enrollment.

Section connect.
Context `{Crypto}.

(** C16: what becomes of a device that is not revoked and presents its key on a new socket.  From another host it gets a
    connection, on which it can be sent messages, unless thirty attempts of the address are counted in the last minute;
    then the socket is closed with 4029.  From the same host the endpoint raises and there is no connection. *)
Theorem issued_key_connects now uid ws ip r key s n :
  NoDup (map dv_id (devices (db s))) → In r (devices (db s)) → dv_is_revoked r = false → checkpw key (dv_api_key_hash r) = true →
  ¬ In uid (map ut_id (uptime_events (db s))) → ¬ In ws (open_sockets s) → dict_get (dv_id r) (connections s) ≠ Some ws →
  attempts_counted now ip s n →
  (loopback ip = false → n < 30 →
   ∃ s', device_websocket now uid ws ip (dv_id r) key s = (Ok Connected, s') ∧ reachable_on (dv_id r) ws s') ∧
  (loopback ip = false → 30 <= n →
   ∃ s', device_websocket now uid ws ip (dv_id r) key s = (Ok RateLimited, s') ∧ out s' = out s ++ [CloseSocket ws 4029] ∧
     connections s' = connections s) ∧
  (loopback ip = true → fst (device_websocket now uid ws ip (dv_id r) key s) = Raise UnboundLocalError).
Proof.
  intros Hn Hr Hrev Hkey Hu Hws Hc Hatt.
  assert (∀ s1, db s1 = db s → select_one (usable_device (dv_id r)) s1 = (Ok (Some r), s1)) as Hsel.
  { intros s1 Hd. apply (select_one_unique (R := DeviceRow)); rewrite ?Hd; [done|done| |].
    - unfold usable_device, has_pk. simpl. by rewrite Z.eqb_refl, Hrev.
    - intros x [Hx _]%andb_true_iff. by apply Z.eqb_eq. }
  unfold device_websocket. split_and!.
  - intros -> Hlt. destruct (attempts_counted_run now ip s n Hatt) as (rd & E). apply Z.ltb_lt in Hlt. rewrite Hlt in E.
    unfold closing_on_error, catch, with_db. rewrite (bind_ok _ _ _ _ _ E). cbn [negb].
    rewrite (bind_ok _ _ _ _ _ (Hsel (set_redis rd s) eq_refl)). rewrite Hkey. cbn [negb refuse].
    unfold mbind at 1, proc_bind at 1, mret, proc_ret. unfold mbind at 1, proc_bind at 1, redis_delete, modify.
    match goal with |- context [mbind _ _ ?s1] => set (s1' := s1) end.
    destruct (connect_reachable now (dv_id r) ws (Some ip) s1') as (s2 & E2 & Hd2 & H2); [done|done|].
    destruct (ws_greet_succeeds now uid ws r s2) as (s3 & E3 & H3); [by rewrite Hd2|done|].
    assert (ws_connected now uid ws ip r s1' = (Ok tt, s3)) as E4.
    { rewrite <-E3. unfold ws_connected. unfold mbind, proc_bind in E2 |- *. cbn [ws_accept modify] in E2 |- *.
      destruct (manager_connect _ _ _ _ _) as [[[]|] ?]; by simplify_eq. }
    rewrite (bind_ok _ _ _ _ _ E4). eexists. split; [done|]. done.
  - intros -> Hge. destruct (attempts_counted_run now ip s n Hatt) as (rd & E). apply Z.ltb_ge in Hge. rewrite Hge in E.
    unfold closing_on_error, catch, with_db. rewrite (bind_ok _ _ _ _ _ E). by eexists.
  - intros Hl. unfold closing_on_error, catch, with_db. rewrite Hl. unfold mbind at 1, proc_bind at 1, mret at 1, proc_ret at 1.
    cbn [negb]. rewrite (bind_ok _ _ _ _ _ (Hsel s eq_refl)). rewrite Hkey. cbn [negb refuse].
    unfold mbind at 1, proc_bind at 1, raise. simpl. unfold mbind, proc_bind, ignore_errors, catch.
    destruct (ws_close_cases ws 1011 (set_db (saved s) s)) as [[_ E]|[_ E]]; unfold rollback, modify; simpl; by rewrite E.
Qed.
End connect.

Section isolation.
Context `{Crypto}.

(** Everything but the audit log and what belongs to the device. *)
Definition device_view (dev : uuid) (d : database) :=
  (others dev (devices d), others dev (device_configs d), others dev (ssh_keys d),
   (users d, organizations d, members d, commands d, alerts d, events d),
   (metrics d, software d, network d, uptime_events d, scheduled_commands d, notification_rules d, push_tokens d)).

(** C4: a request on a device changes nothing but the device, its configuration, its keys and the audit log, whether it
    succeeds or fails; and nothing at all, with nothing sent or disconnected, when the device is not one of the
    organization of the request's credentials. *)
Theorem device_requests_stay_in_org dev r org s :
  db s = saved s → NoDup (map ky_id (ssh_keys (db s))) →
  (∀ o, fst (get_current_org_id (fst (device_cred r)) (snd (device_cred r)) s) = Ok o → o = org) →
  on_db (λ d, device_view dev d = device_view dev (db s)) (snd (serve_device dev r s)) ∧
  (¬ in_org org (devices (db s)) dev → snd (serve_device dev r s) = s).
Proof.
  intros Hs Hn Horg. split.
  - assert (on_db (λ d, device_view dev d = device_view dev (db s) ∧ NoDup (map ky_id (ssh_keys d))) (snd (serve_device dev r s))) as [[? _] [? _]];
      [|by split].
    apply local_serve; [by intros l d [Hd Hk] Ho; unfold device_view in *; simpl in *; split; [congruence|]..|by intros l d Hd| |].
    + intros d k [Hd Hk] Hin Ho. split; [|by apply NoDup_map_bfilter]. unfold device_view in *. simpl.
      enough (others dev (bfilter (λ r, negb (has_pk (ky_id k) r)) (ssh_keys d)) = others dev (ssh_keys d)) by congruence.
      apply bfilter_drop_other. intros x Hx E%Z.eqb_eq. rewrite (@unique_pk SSHKeyRow ssh_keys_table (ssh_keys d) x k); [|done..].
      unfold owner, owned_ssh_key. by rewrite Ho, Z.eqb_refl.
    + split; [by split|]. by rewrite <-Hs.
  - intros Hout. destruct (serve_device_outside dev r org s Hs Horg Hout) as (e & ->). done.
Qed.
End isolation.

(** *** Witnesses *)

#[local] Existing Instance AuthProps.toy_crypto.
#[local] Existing Instance AuthProps.toy_laws.
Definition admin_of (org : uuid) : UserRow := us_set_active_org_id (Some org) AuthProps.admin_row.
Definition org_cred (org : uuid) : option jstr := Some (at_access_token (issue_tokens default_settings 0 (admin_of org))).
Definition org_db : database :=
  set_organizations [{| og_id := 5; og_name := "Acme"; og_slug := "acme"; og_created_at := 0; og_owner_id := None |}]
    (set_users [admin_of 5] empty_db).
Definition agent_body : enroll_request :=
  {| en_hostname := "host"; en_os_type := "linux"; en_os_version := None; en_arch := None; en_fingerprint := "f";
     en_ip_address := None; en_enrollment_token := "t" |}.
Definition with_token : server := snd (generate_enrollment_token (λ _, []) 1 (org_cred 5) "t" (start org_db)).
Definition enrolled : server := snd (enroll_device (λ _, []) 2 7 "key" "" "10.0.0.9" agent_body with_token).

Lemma enrollment_joins_org_witness :
  ∃ r s3, enroll_device (λ _, []) 2 7 "key" "" "10.0.0.9" agent_body with_token = (Ok (7, "key" : jstr), s3) ∧
    dv_org_id r = Some 5 ∧ devices (db s3) = [r].
Proof.
  destruct (enrollment_joins_org (λ _, []) (λ _, []) 1 (org_cred 5) "t" (start org_db) "t" with_token)
    as (u & org & Hu & _ & Horg & Hen).
  - constructor; [|constructor]. intros o [= <-]. split; [discriminate|reflexivity].
  - vm_compute. reflexivity.
  - destruct Hu as [<-|[]]. injection Horg as <-.
    destruct (Hen 2 7 "key" "" "10.0.0.9" agent_body with_token) as [Hnew _].
    + reflexivity.
    + reflexivity.
    + reflexivity.
    + vm_compute. reflexivity.
    + destruct Hnew as (r & s3 & E & Hd & _ & _ & Ho & _).
      * split; [left; reflexivity|]. split; [intros []|]. split; [eexists; split; [left; reflexivity|reflexivity]|reflexivity].
      * exists r, s3. split; [exact E|]. split; [exact Ho|exact Hd].
Defined.

Lemma issued_key_connects_witness :
  ∃ r s', In r (devices (db enrolled)) ∧ device_websocket 3 9 1 "10.0.0.9" (dv_id r) "key" enrolled = (Ok Connected, s') ∧
    reachable_on (dv_id r) 1 s'.
Proof.
  destruct (devices (db enrolled)) as [|r l] eqn:E; [vm_compute in E; discriminate|].
  assert (l = []) as -> by (vm_compute in E; injection E as <- <-; reflexivity).
  destruct (issued_key_connects 3 9 1%nat "10.0.0.9" r "key" enrolled 0) as [Hconnect _].
  - rewrite E. apply NoDup_singleton.
  - rewrite E. by left.
  - vm_compute in E. injection E as <-. reflexivity.
  - vm_compute in E. injection E as <-. reflexivity.
  - vm_compute. intros [].
  - vm_compute. intros [].
  - vm_compute. discriminate.
  - vm_compute. reflexivity.
  - destruct Hconnect as (s' & H1 & H2); [reflexivity|lia|].
    exists r, s'. split; [by left|]. split; [exact H1|exact H2].
Defined.

(** A connected device of the organization 10, and an administrator of [org]. *)
Definition fleet (org : uuid) : server :=
  snd (LinkProps.connect_at 1 1 (start (set_users [admin_of org] (set_devices [LinkProps.link_device] empty_db)))).

Lemma device_requests_stay_in_org_witness :
  in_org 10 (devices (db (fleet 5))) 7 ∧ snd (serve_device 7 (RevokeDevice 2 9 (org_cred 5)) (fleet 5)) = fleet 5.
Proof.
  split; [vm_compute; eexists; split; [left; reflexivity|split; reflexivity]|].
  eapply (device_requests_stay_in_org 7 (RevokeDevice 2 9 (org_cred 5)) 5 (fleet 5)).
  - vm_compute. reflexivity.
  - vm_compute. constructor.
  - intros o. vm_compute. intros [= <-]. reflexivity.
  - vm_compute. intros (d & [<-|[]] & _ & Hd). discriminate Hd.
Defined.

(** A device that is revoked keeps its connection, and what it sends is stored. *)
Theorem revoked_device_still_served :
  let revoked := serve_device 7 (RevokeDevice 2 9 (org_cred 10)) (fleet 10) in
  let after := snd (LinkProps.receive_at 3 1 (Message (JObj [("type", JStr "telemetry"); ("data", JObj [])])) (snd revoked)) in
  fst revoked = Ok tt ∧ open_sockets after = [1%nat] ∧
  map dv_is_revoked (devices (saved after)) = [true] ∧ length (metrics (saved after)) = 1%nat.
Proof. vm_compute. done. Qed.
End DeviceProps.
