(* ===== verification/ServerSystem.v ===== *)
(** The server as a whole: every request, message and task that changes its
    state, in any order, and what holds whatever happens.

    An [event] is one of the operations of the other files with what it draws
    and receives; [run] is its effect.  An invariant looks at few tables; the
    others may change freely, which [Frame] states once for every invariant. *)
From Stdlib Require Import QArith.
From S2P Require Import Prelude JsString JsNumber Types JsJson JsonText ServerModels ServerRuntime ServerAuth ServerConnections.
From S2P Require Import ServerOrgs ServerAlerts ServerCommands ServerNotify ServerMessages ServerLink ServerDevices.
Local Open Scope Z_scope.
Local Open Scope js_scope.

(** ** Events *)

Inductive event :=
| AccountEvent (r : account_request)
| OrgEvent (r : org_request)
| CommandEvent (r : command_request)
| ScheduleCreated (now : Z) (sid lid : uuid) (cred : option jstr) (device_id : option uuid) (command_type : jstr)
    (payload : list (jstr * json)) (cron : jstr) (is_enabled : bool)
| ScheduleUpdated (now : Z) (cred : option jstr) (sid : uuid) (body : schedule_update)
| ScheduleDeleted (now : Z) (lid : uuid) (cred : option jstr) (sid : uuid)
| AlertResolved (now : Z) (cred : option jstr) (alert_id : uuid)
| TokenDrawn (now : Z) (cred : option jstr) (token : jstr)
| Enrolled (now : Z) (did : uuid) (raw_key salt client_ip : jstr) (body : enroll_request)
| Registered (now : Z) (did : uuid) (raw_key salt : jstr) (forwarded_for client : option jstr) (body : enroll_request)
| DeviceEvent (dev : uuid) (r : device_request)
| NotifyEvent (r : notify_request)
| StreamOpened (k : stream_kind) (now : Z) (cred : option jstr) (n : nat)
| StreamRead (k : stream_kind) (org : uuid) (n : nat)
| StreamClosed (k : stream_kind) (user : uuid) (n : nat)
| DeviceConnects (now : Z) (uid : uuid) (ws : socket) (ip : jstr) (dev : uuid) (token : jstr)
| DeviceSends (now : Z) (ids : nat → uuid) (t : nat) (ws : socket) (i : ws_input)
| DelayOver (t : nat) (dev : uuid)
| Pinged (ws : socket)
| SocketDies (ws : socket)
| OfflineCheck (now : Z) (ids : nat → uuid)
| SchedulesRun (now : Z) (ids : nat → nat → uuid)
| CleanupRun (now : Z)
| StaleCommands (now : Z).

Section system.
Context `{Crypto} (cfg : Settings) (ldap : jstr → jstr → ldap_answer) (str_float : Q → jstr) (py_str : json → jstr)
  (expo : list json → option (Z * json)) (croniter : jstr → Z → option Z)
  (valid_email : jstr → option jstr).

Definition run (e : event) : proc unit :=
  match e with
  | AccountEvent r => serve cfg ldap r
  | OrgEvent r => serve_org cfg r
  | CommandEvent r => serve_command r
  | ScheduleCreated now sid lid cred device_id ty payload cron enabled =>
      with_db (create_scheduled_command croniter now sid lid cred device_id ty payload cron enabled);; mret tt
  | ScheduleUpdated now cred sid body => with_db (update_scheduled_command croniter now cred sid body);; mret tt
  | ScheduleDeleted now lid cred sid => with_db (delete_scheduled_command now lid cred sid);; mret tt
  | AlertResolved now cred alert_id => with_db (resolve_alert now cred alert_id);; mret tt
  | TokenDrawn now cred token => with_db (generate_enrollment_token str_float now cred token);; mret tt
  | Enrolled now did raw_key salt ip body => with_db (enroll_device py_str now did raw_key salt ip body);; mret tt
  | Registered now did raw_key salt forwarded client body =>
      with_db (register_device py_str now did raw_key salt forwarded client body);; mret tt
  | DeviceEvent dev r => serve_device dev r
  | NotifyEvent r => serve_notify valid_email r
  | StreamOpened AlertStream now cred n => with_db (stream_alerts now cred n);; mret tt
  | StreamOpened ActivityStream now cred n => with_db (stream_activity now cred n);; mret tt
  | StreamRead k org n => stream_next str_float k org n;; mret tt
  | StreamClosed AlertStream user n => stream_alerts_end user n
  | StreamClosed ActivityStream _ n => stream_activity_end n
  | DeviceConnects now uid ws ip dev token => device_websocket now uid ws ip dev token;; mret tt
  | DeviceSends now ids t ws i => ws_receive cfg str_float py_str expo now ids t ws i
  | DelayOver t dev => offline_fire t dev
  | Pinged ws => ping ws
  | SocketDies ws => socket_dies ws
  | OfflineCheck now ids => check_offline_devices cfg now ids
  | SchedulesRun now ids => run_scheduled_commands croniter now ids
  | CleanupRun now => run_cleanup cfg now
  | StaleCommands now => cleanup_stale_commands now;; mret tt
  end.

(** A connection comes on a new socket. *)
Definition enabled (e : event) (s : server) : Prop :=
  match e with DeviceConnects _ _ ws _ _ _ => fresh_socket ws s | _ => True end.
Inductive system_step : server → server → Prop :=
| system_event e s : enabled e s → system_step s (snd (run e s)).

End system.

(** ** Frames *)

(** An update of devices that leaves their identifiers and revokes none of them
    back. *)
Definition keeps_ident (f : DeviceRow → DeviceRow) : Prop :=
  ∀ r, dv_id (f r) = dv_id r ∧ (dv_is_revoked r = true → dv_is_revoked (f r) = true).

(** A property that does not look at the tables that no invariant looks at. *)
Class Frame (P : database → Prop) : Prop := {
  frame_device p f : keeps_ident f → preserves (on_db P) (update_where (R := DeviceRow) p f);
  frame_new_device (r : DeviceRow) : preserves (on_db P) (add r);
  frame_events : ignores EventRow P; frame_metrics : ignores MetricRow P; frame_software : ignores SoftwareRow P;
  frame_network : ignores NetworkRow P; frame_keys : ignores SSHKeyRow P; frame_uptime : ignores UptimeRow P;
  frame_configs : ignores ConfigRow P; frame_schedules : ignores ScheduledRow P; frame_audit : ignores AuditRow P;
  frame_rules : ignores RuleRow P; frame_tokens : ignores PushTokenRow P }.
#[local] Hint Resolve frame_device frame_new_device frame_events frame_metrics frame_software frame_network frame_keys frame_uptime
  frame_configs frame_schedules frame_audit frame_rules frame_tokens : server.
#[local] Hint Extern 1 (keeps_ident _) => solve [intros ?; split; [reflexivity|intros; first [assumption|reflexivity]]] : server.

Section frames.
Context `{Crypto} (cfg : Settings) (ldap : jstr → jstr → ldap_answer) (str_float : Q → jstr) (py_str : json → jstr)
  (expo : list json → option (Z * json)) (croniter : jstr → Z → option Z)
  (valid_email : jstr → option jstr).
Context (P : database → Prop) `{!Frame P}.

Lemma frame_device_row u f : keeps_ident f → preserves (on_db P) (update_row (R := DeviceRow) u f).
Proof. apply frame_device. Qed.
#[local] Hint Resolve frame_device_row : server.
Lemma frame_set_status v d : preserves (on_db P) (set_status v d).
Proof. unfold set_status. walk. Qed.
Lemma frame_set_last_seen v d : preserves (on_db P) (set_last_seen v d).
Proof. unfold set_last_seen. walk. Qed.
Lemma frame_set_ip_address v d : preserves (on_db P) (set_ip_address v d).
Proof. unfold set_ip_address. walk. Qed.
Lemma frame_set_agent_version v d : preserves (on_db P) (set_agent_version v d).
Proof. unfold set_agent_version. walk. Qed.
#[local] Hint Resolve frame_set_status frame_set_last_seen frame_set_ip_address frame_set_agent_version on_db_get_current_user
  on_db_get_current_org_id : server.

(** *** Requests that touch no sensitive table *)

Lemma frame_schedule_storable i : preserves (on_db P) (schedule_storable i).
Proof. unfold schedule_storable. walk. Qed.
Lemma frame_next_run now e : preserves (on_db P) (_compute_next_run croniter now e).
Proof. unfold _compute_next_run. walk. Qed.
#[local] Hint Resolve frame_schedule_storable frame_next_run : server.
Lemma frame_create_schedule now sid lid cred dev ty payload cron enabled :
  preserves (on_db P) (create_scheduled_command croniter now sid lid cred dev ty payload cron enabled).
Proof. unfold create_scheduled_command. walk. Qed.
Lemma frame_update_schedule now cred sid body : preserves (on_db P) (update_scheduled_command croniter now cred sid body).
Proof. unfold update_scheduled_command. walk. Qed.
Lemma frame_delete_schedule now lid cred sid : preserves (on_db P) (delete_scheduled_command now lid cred sid).
Proof. unfold delete_scheduled_command. walk. Qed.

Lemma frame_redis_delete k : preserves (on_db P) (redis_delete k).
Proof. unfold redis_delete. walk. Qed.
#[local] Hint Resolve frame_redis_delete : server.
Lemma frame_register now did key salt body org : preserves (on_db P) (service_register_device now did key salt body org).
Proof. unfold service_register_device. walk. Qed.
#[local] Hint Resolve frame_register : server.
Lemma frame_enroll now did key salt ip body : preserves (on_db P) (enroll_device py_str now did key salt ip body).
Proof. unfold enroll_device, enroll_with_token. walk. Qed.
Lemma frame_register_device now did key salt fwd client body :
  preserves (on_db P) (register_device py_str now did key salt fwd client body).
Proof. unfold register_device, enroll_with_token. walk. Qed.
Lemma frame_token now cred token : preserves (on_db P) (generate_enrollment_token str_float now cred token).
Proof. unfold generate_enrollment_token. walk. Qed.

Lemma keeps_apply_update body : keeps_ident (apply_update body).
Proof.
  intros r. unfold apply_update. destruct body. cbn.
  repeat match goal with |- context [assign _ ?o _] => destruct o; cbn [assign] end; done.
Qed.
Lemma frame_service_get_device d o : preserves (on_db P) (service_get_device d o).
Proof. unfold service_get_device. walk. Qed.
#[local] Hint Resolve keeps_apply_update frame_service_get_device : server.
Lemma frame_device_request dev r : preserves (on_db P) (serve_device dev r).
Proof.
  destruct r; cbn [serve_device]; try (apply preserves_bind; [|intros; apply preserves_ret]); apply on_db_with_db.
  - unfold update_device, _get_device_for_org. walk.
  - unfold set_device_maintenance, _get_device_for_org. walk.
  - unfold update_device_config, _get_device_for_org. walk.
  - unfold revoke_device, service_revoke_device. walk.
  - unfold rotate_device_key, _get_device_for_org. walk.
  - unfold request_screenshot, _get_device_for_org. walk.
  - unfold delete_device_ssh_key, _get_device_for_org. walk.
  - unfold disconnect_device, _get_device_for_org. walk.
Qed.

Lemma frame_notify r : preserves (on_db P) (serve_notify valid_email r).
Proof.
  destruct r; cbn [serve_notify]; try (apply preserves_bind; [|intros; apply preserves_ret]); apply on_db_with_db.
  - unfold create_notification_rule. walk.
  - unfold update_notification_rule, not_null. walk.
  - unfold register_push_token. walk.
  - unfold unregister_push_token. walk.
Qed.

Lemma frame_set_queues k n : preserves (on_db P) (modify (λ s, set_queues k (n s) s)).
Proof. by apply on_db_modify; destruct k. Qed.
Lemma frame_stream_opened k now cred n :
  preserves (on_db P) (match k with AlertStream => stream_alerts now cred n | ActivityStream => stream_activity now cred n end).
Proof. destruct k; [unfold stream_alerts|unfold stream_activity]; unfold subscribe; walk. Qed.
Lemma frame_stream_read k org n : preserves (on_db P) (stream_next str_float k org n).
Proof. unfold stream_next. walk. apply frame_set_queues. Qed.
Lemma frame_stream_closed k u n :
  preserves (on_db P) (match k with AlertStream => stream_alerts_end u n | ActivityStream => stream_activity_end n end).
Proof. destruct k; [unfold stream_alerts_end|unfold stream_activity_end]; unfold unsubscribe; walk. Qed.

(** *** Accounts and organizations *)

Lemma frame_account r : ignores UserRow P → preserves (on_db P) (serve cfg ldap r).
Proof.
  intros Hu. destruct r; cbn [serve]; try (apply preserves_bind; [|intros; apply preserves_ret]); apply on_db_with_db.
  - unfold login, authenticate, authenticate_ldap. walk.
  - unfold refresh. apply preserves_bind; [apply preserves_gets|]. intros o. apply preserves_bind; [walk|]. intros _.
    apply preserves_state, refresh_access_token_state.
  - unfold logout. walk.
  - unfold create_user. walk.
  - unfold update_user. walk.
  - unfold reset_user_password. walk.
  - unfold delete_user. walk.
  - unfold seed_admin. walk.
Qed.

Lemma frame_membership org u : preserves (on_db P) (_require_membership org u).
Proof. unfold _require_membership. walk. Qed.
#[local] Hint Resolve frame_membership : server.
(** The requests on organizations change which one a user has active. *)
Lemma frame_org r :
  (∀ u o, preserves (on_db P) (update_row u (us_set_active_org_id o))) → ignores OrganizationRow P → ignores MemberRow P →
  preserves (on_db P) (serve_org cfg r).
Proof.
  intros Hu Ho Hm. destruct r; cbn [serve_org]; try (apply preserves_bind; [|intros; apply preserves_ret]); apply on_db_with_db.
  - unfold create_org. walk.
  - unfold update_org. walk.
  - unfold delete_org, delete_org_row. walk.
  - unfold invite_member. walk.
  - unfold remove_member. walk.
  - unfold update_member. walk.
  - unfold switch_org. walk.
Qed.

(** *** Commands and alerts *)

Lemma frame_dispatch now cid dev ty payload u f :
  ignores CommandRow P → preserves (on_db P) (service_dispatch now cid dev ty payload u f).
Proof. intros Hc. unfold service_dispatch. walk. Qed.
#[local] Hint Resolve frame_dispatch : server.
Lemma frame_command r : ignores CommandRow P → preserves (on_db P) (serve_command r).
Proof.
  intros Hc. destruct r; cbn [serve_command]; apply preserves_bind; try (intros; apply preserves_ret); apply on_db_with_db.
  - unfold dispatch_command. walk.
  - unfold dispatch_bulk_command, bulk_one. walk.
  - unfold dispatch_updates, update_one. walk.
Qed.
Lemma frame_resolve_alert now cred u : ignores AlertRow P → preserves (on_db P) (resolve_alert now cred u).
Proof. intros Ha. unfold resolve_alert, service_resolve_alert. walk. Qed.

(** *** Workers *)

Lemma frame_offline_check now ids : ignores AlertRow P → preserves (on_db P) (check_offline_devices cfg now ids).
Proof. intros Ha. apply on_db_worker. unfold mark_offline. walk. Qed.
Lemma frame_schedules_run now ids : ignores CommandRow P → preserves (on_db P) (run_scheduled_commands croniter now ids).
Proof. intros Hc. apply on_db_worker. unfold run_schedule. walk. Qed.
Lemma frame_cleanup now : ignores CommandRow P → ignores AlertRow P → preserves (on_db P) (run_cleanup cfg now).
Proof. intros Hc Ha. apply on_db_worker. walk. Qed.
Lemma frame_stale now : ignores CommandRow P → preserves (on_db P) (cleanup_stale_commands now).
Proof. intros Hc. apply on_db_worker. walk. Qed.

(** *** Device connections *)

Lemma frame_cancel d : preserves (on_db P) (_cancel_pending_offline d).
Proof. unfold _cancel_pending_offline. walk. Qed.
#[local] Hint Resolve frame_cancel : server.
Lemma frame_connects now uid ws ip dev token : preserves (on_db P) (device_websocket now uid ws ip dev token).
Proof.
  unfold device_websocket, closing_on_error. apply preserves_catch; [|intros; walk]. apply on_db_with_db.
  unfold ws_connected, ws_greet. walk.
Qed.
Lemma frame_ws_end t ws device lost : preserves (on_db P) (ws_end t ws device lost).
Proof. unfold ws_end, start_offline_task. walk. Qed.
#[local] Hint Resolve frame_ws_end : server.
Lemma frame_sends now ids t ws i :
  (∀ device message, preserves (on_db P) (handle cfg str_float py_str expo now ids device message)) →
  preserves (on_db P) (ws_receive cfg str_float py_str expo now ids t ws i).
Proof. intros Hh. unfold ws_receive, ws_message. walk. Qed.
Lemma frame_delay_over t dev : preserves (on_db P) (offline_fire t dev).
Proof. unfold offline_fire. walk. Qed.
Lemma frame_ping ws : preserves (on_db P) (ping ws).
Proof. unfold ping. walk. Qed.
Lemma frame_dies ws : preserves (on_db P) (socket_dies ws).
Proof. unfold socket_dies. walk. Qed.

Lemma frame_create_alert now aid device ty sev msg :
  ignores AlertRow P → preserves (on_db P) (create_alert expo now aid device ty sev msg).
Proof. intros Ha. unfold create_alert. walk. Qed.
#[local] Hint Resolve frame_create_alert : server.
Lemma frame_evaluate now ids device m :
  ignores AlertRow P → preserves (on_db P) (evaluate_metrics cfg str_float expo now ids device m).
Proof.
  intros Ha. unfold evaluate_metrics, check_metric.
  repeat (apply preserves_bind; [case_match; [by apply frame_create_alert|apply preserves_ret]|intros ?]).
  case_match; [by apply frame_create_alert|apply preserves_ret].
Qed.
Lemma frame_auto_resolve now dev data : ignores AlertRow P → preserves (on_db P) (auto_resolve_alerts now dev data).
Proof. intros. unfold auto_resolve_alerts, resolve_below, resolve_open. walk. Qed.
#[local] Hint Resolve frame_evaluate frame_auto_resolve : server.
Lemma frame_handle now ids device message :
  ignores AlertRow P → ignores CommandRow P → preserves (on_db P) (handle cfg str_float py_str expo now ids device message).
Proof. intros Ha Hc. apply preserves_handle; intros data. all: unfold_handler. all: unfold resolve_open. all: walk. Qed.

(** *** All events

    What an invariant has to show itself: the events on the tables it looks at. *)
Lemma frame_run e :
  (∀ r, preserves (on_db P) (serve cfg ldap r)) → (∀ r, preserves (on_db P) (serve_org cfg r)) →
  (∀ r, preserves (on_db P) (serve_command r)) → (∀ now cred u, preserves (on_db P) (with_db (resolve_alert now cred u))) →
  (∀ now ids device message, preserves (on_db P) (handle cfg str_float py_str expo now ids device message)) →
  (∀ now ids, preserves (on_db P) (check_offline_devices cfg now ids)) →
  (∀ now ids, preserves (on_db P) (run_scheduled_commands croniter now ids)) →
  (∀ now, preserves (on_db P) (run_cleanup cfg now)) → (∀ now, preserves (on_db P) (cleanup_stale_commands now)) →
  preserves (on_db P) (run cfg ldap str_float py_str expo croniter valid_email e).
Proof.
  intros Haccount Horg Hcommand Hresolve Hhandle Hoffline Hschedules Hcleanup Hstale.
  destruct e; try destruct k; cbn [run]; try (apply preserves_bind; [|intros; apply preserves_ret]); try done; try apply on_db_with_db.
  - apply frame_create_schedule.
  - apply frame_update_schedule.
  - apply frame_delete_schedule.
  - apply frame_token.
  - apply frame_enroll.
  - apply frame_register_device.
  - apply frame_device_request.
  - apply frame_notify.
  - apply (frame_stream_opened AlertStream).
  - apply (frame_stream_opened ActivityStream).
  - apply frame_stream_read.
  - apply frame_stream_read.
  - apply (frame_stream_closed AlertStream).
  - apply (frame_stream_closed ActivityStream user).
  - apply frame_connects.
  - apply frame_sends. apply Hhandle.
  - apply frame_delay_over.
  - apply frame_ping.
  - apply frame_dies.
Qed.

End frames.

(** ** Invariants of the tables *)

(** A property of the tables that are left is a frame. *)
Lemma frame_of P :
  ignores DeviceRow P → ignores EventRow P → ignores MetricRow P → ignores SoftwareRow P → ignores NetworkRow P →
  ignores SSHKeyRow P → ignores UptimeRow P → ignores ConfigRow P → ignores ScheduledRow P → ignores AuditRow P →
  ignores RuleRow P → ignores PushTokenRow P → Frame P.
Proof. intros Hd. intros. constructor; try done; intros; [by apply ignored_update_where|by apply ignored_add]. Qed.
Ltac ignored := intros ? ? ?; assumption.
#[export] Instance accounts_frame : Frame accounts_ok.
Proof. apply frame_of; ignored. Qed.
#[export] Instance orgs_frame : Frame orgs_ok.
Proof. apply frame_of; ignored. Qed.
#[export] Instance alerts_frame : Frame one_open.
Proof. apply frame_of; ignored. Qed.
#[export] Instance queue_frame : Frame queue_ok.
Proof. apply frame_of; ignored. Qed.

(** A device that is revoked, and whose identifier cannot be used again. *)
Definition revoked (dev : uuid) (d : database) : Prop :=
  In dev (map dv_id (devices d)) ∧ ∀ r, In r (devices d) → dv_id r = dev → dv_is_revoked r = true.
#[export] Instance revoked_frame dev : Frame (revoked dev).
Proof.
  constructor; try ignored.
  - intros p f Hf. apply on_db_modify_db. intros d [Hin Hall]. split; simpl.
    + rewrite map_map. erewrite map_ext; [exact Hin|]. intros r. destruct (p r); [apply Hf|done].
    + intros r (r0 & <- & Hr0)%in_map_iff. destruct (p r0); [|by apply Hall]. destruct (Hf r0) as [E1 E2]. rewrite E1. intros Hid.
      apply E2. by apply Hall.
  - intros r. apply on_db_add. intros d [Hin Hall] Hc. split; simpl; [rewrite map_app; apply in_or_app; by left|].
    intros r' [Hr'|[<-|[]]]%in_app_or Hid; [by apply Hall|]. apply in_map_iff in Hin as (r0 & E0 & Hr0). specialize (Hc r0 Hr0).
    simpl in Hc. apply Z.eqb_neq in Hc. congruence.
Qed.

Section invariants.
Context `{Crypto} (cfg : Settings) (ldap : jstr → jstr → ldap_answer) (str_float : Q → jstr) (py_str : json → jstr)
  (expo : list json → option (Z * json)) (croniter : jstr → Z → option Z)
  (valid_email : jstr → option jstr).
Let run := run cfg ldap str_float py_str expo croniter valid_email.

(** The events on tables that the property does not look at. *)
Ltac framed :=
  solve [match goal with
    | |- preserves _ (serve _ _ _) => apply frame_account
    | |- preserves _ (serve_org _ _) => apply frame_org
    | |- preserves _ (serve_command _) => apply frame_command
    | |- preserves _ (with_db (resolve_alert _ _ _)) => apply on_db_with_db, frame_resolve_alert
    | |- preserves _ (handle _ _ _ _ _ _ _ _) => apply frame_handle
    | |- preserves _ (check_offline_devices _ _ _) => apply frame_offline_check
    | |- preserves _ (run_scheduled_commands _ _ _) => apply frame_schedules_run
    | |- preserves _ (run_cleanup _ _) => apply frame_cleanup
    | |- preserves _ (cleanup_stale_commands _) => apply frame_stale
    end; first [apply _ | ignored | intros; apply ignored_update_row; ignored]].

Lemma run_accounts e : LDAP_ENABLED cfg = false → preserves (on_db accounts_ok) (run e).
Proof.
  intros Hl. apply frame_run; [apply _|intros; try framed..].
  - by apply serve_accounts_ok.
  - apply frame_org; [apply _| |ignored..]. intros. by apply accounts_ok_update.
Qed.
Lemma run_orgs e : preserves (on_db orgs_ok) (run e).
Proof. apply frame_run; [apply _|intros; try framed..]. apply serve_org_ok. Qed.
Lemma run_revoked dev e : preserves (on_db (revoked dev)) (run e).
Proof. apply frame_run; [apply _|intros; framed..]. Qed.
Lemma run_one_open e : preserves (on_db one_open) (run e).
Proof.
  apply frame_run; [apply _|intros; try framed..];
    [apply one_open_resolve_alert|apply one_open_handle|apply one_open_check_offline|apply one_open_cleanup].
Qed.
Lemma run_queue e : preserves (on_db queue_ok) (run e).
Proof.
  apply frame_run; [apply _|intros; try framed..]; [|apply queue_ok_handle|apply queue_ok_schedules|apply queue_ok_cleanup|apply queue_ok_stale].
  destruct r; cbn [serve_command]; apply preserves_bind; try (intros; apply preserves_ret); apply on_db_with_db;
    [apply queue_ok_dispatch_command|apply queue_ok_bulk|apply queue_ok_updates].
Qed.
End invariants.

(** ** The connections *)

(** Only the operations on connections change them. *)
Section links.
Context `{Crypto} (cfg : Settings) (ldap : jstr → jstr → ldap_answer) (str_float : Q → jstr) (py_str : json → jstr)
  (expo : list json → option (Z * json)) (croniter : jstr → Z → option Z)
  (valid_email : jstr → option jstr).

Lemma links_modify f : (∀ s, link_view (f s) = link_view s) → preserves links_ok (modify f).
Proof. intros Hf s. apply links_ok_view, Hf. Qed.
Lemma links_add {R} `{Table R} (r : R) : preserves links_ok (add r).
Proof. intros s Hs. unfold add. by destruct (existsb _ _). Qed.
Lemma links_update {R} `{Table R} (p : R → bool) f : preserves links_ok (update_where p f).
Proof. by apply links_modify. Qed.
Lemma links_update_row {R} `{Table R} u (f : R → R) : preserves links_ok (update_row u f).
Proof. apply links_update. Qed.
Lemma links_delete {R} `{Table R} (p : R → bool) : preserves links_ok (delete_where p).
Proof. by apply links_modify. Qed.
Lemma links_delete_row {R} `{Table R} u : preserves links_ok (delete_row (R := R) u).
Proof. apply links_delete. Qed.
Lemma links_commit : preserves links_ok commit.
Proof. by apply links_modify. Qed.
Lemma links_rollback : preserves links_ok rollback.
Proof. by apply links_modify. Qed.
Lemma links_with_db {A} (m : proc A) : preserves links_ok m → preserves links_ok (with_db m).
Proof. intros Hm s Hs. specialize (Hm s Hs). unfold with_db. destruct (m s) as [[a|e] s']; by apply links_commit || by apply links_rollback. Qed.
Lemma links_begin_nested {A} (m : proc A) : preserves links_ok m → preserves links_ok (begin_nested m).
Proof. intros Hm s Hs. specialize (Hm s Hs). unfold begin_nested. destruct (m s) as [[a|e] s']; [done|]. by eapply links_ok_view. Qed.
Lemma links_redis_incr now k : preserves links_ok (redis_incr now k).
Proof. intros s Hs. unfold redis_incr. by destruct (redis_live now s k) as [[[] ?]|]. Qed.
Lemma links_redis_expire now k n : preserves links_ok (redis_expire now k n).
Proof. apply links_modify. intros s. by destruct (redis_live now s k). Qed.
Lemma links_send dev m : preserves links_ok (send_to_device dev m).
Proof. intros s. apply links_ok_send. Qed.
Lemma links_disconnect dev : preserves links_ok (manager_disconnect dev).
Proof. intros s Hs. eapply links_ok_step; [apply (link_disconnect cfg str_float py_str expo)|done]. Qed.
Lemma links_user now cred : preserves links_ok (get_current_user now cred).
Proof. apply preserves_state, get_current_user_state. Qed.
Lemma links_org_id now cred : preserves links_ok (get_current_org_id now cred).
Proof. apply preserves_state, get_current_org_id_state. Qed.
Lemma links_worker {A} (m : proc A) : preserves links_ok (worker m).
Proof. intros s Hs. unfold worker. by destruct (m _) as [r s']. Qed.
#[local] Hint Extern 2 (preserves links_ok (modify _)) => solve [apply links_modify; intros; reflexivity] : server.
#[local] Hint Resolve links_add links_update links_update_row links_delete links_delete_row links_commit links_rollback
  links_begin_nested links_redis_incr links_redis_expire links_send links_disconnect links_user links_org_id : server.

Lemma links_admin now cred : preserves links_ok (require_admin now cred).
Proof. unfold require_admin. walk. Qed.
Lemma links_log now lid user a rt ri ip d n : preserves links_ok (log_action now lid user a rt ri ip d n).
Proof. unfold log_action. walk. Qed.
Lemma links_device_for_org d o : preserves links_ok (get_device_for_org d o).
Proof. unfold get_device_for_org. walk. Qed.
Lemma links_rate_limit now k l w : preserves links_ok (check_rate_limit now k l w).
Proof. unfold check_rate_limit. walk. Qed.
Lemma links_membership o u : preserves links_ok (_require_membership o u).
Proof. unfold _require_membership. walk. Qed.
Lemma links_dispatch now cid dev ty payload u f : preserves links_ok (service_dispatch now cid dev ty payload u f).
Proof. unfold service_dispatch. walk. Qed.
#[local] Hint Resolve links_admin links_log links_device_for_org links_rate_limit links_membership links_dispatch : server.

Lemma links_account r : preserves links_ok (serve cfg ldap r).
Proof.
  destruct r; cbn [serve]; try (apply preserves_bind; [|intros; apply preserves_ret]); apply links_with_db.
  - unfold login, authenticate, authenticate_ldap. walk.
  - unfold refresh. apply preserves_bind; [apply preserves_gets|]. intros o. apply preserves_bind; [walk|]. intros _.
    apply preserves_state, refresh_access_token_state.
  - unfold logout, redis_setex. walk.
  - unfold create_user. walk.
  - unfold update_user. walk.
  - unfold reset_user_password. walk.
  - unfold delete_user. walk.
  - unfold seed_admin. walk.
Qed.
Lemma links_org r : preserves links_ok (serve_org cfg r).
Proof.
  destruct r; cbn [serve_org]; try (apply preserves_bind; [|intros; apply preserves_ret]); apply links_with_db.
  - unfold create_org. walk.
  - unfold update_org. walk.
  - unfold delete_org, delete_org_row. walk.
  - unfold invite_member. walk.
  - unfold remove_member. walk.
  - unfold update_member. walk.
  - unfold switch_org. walk.
Qed.
Lemma links_command r : preserves links_ok (serve_command r).
Proof.
  destruct r; cbn [serve_command]; apply preserves_bind; try (intros; apply preserves_ret); apply links_with_db.
  - unfold dispatch_command. walk.
  - unfold dispatch_bulk_command, bulk_one. walk.
  - unfold dispatch_updates, update_one. walk.
Qed.
Lemma links_device dev r : preserves links_ok (serve_device dev r).
Proof.
  destruct r; cbn [serve_device]; try (apply preserves_bind; [|intros; apply preserves_ret]); apply links_with_db.
  - unfold update_device, _get_device_for_org. walk.
  - unfold set_device_maintenance, _get_device_for_org. walk.
  - unfold update_device_config, _get_device_for_org. walk.
  - unfold revoke_device, service_revoke_device, service_get_device. walk.
  - unfold rotate_device_key, _get_device_for_org. walk.
  - unfold request_screenshot, _get_device_for_org. walk.
  - unfold delete_device_ssh_key, _get_device_for_org. walk.
  - unfold disconnect_device, _get_device_for_org. walk.
Qed.

Lemma links_notify r : preserves links_ok (serve_notify valid_email r).
Proof.
  destruct r; cbn [serve_notify]; try (apply preserves_bind; [|intros; apply preserves_ret]); apply links_with_db.
  - unfold create_notification_rule. walk.
  - unfold update_notification_rule, not_null. walk.
  - unfold register_push_token. walk.
  - unfold unregister_push_token. walk.
Qed.

Lemma connects_or_not e :
  (∃ now uid ws ip dev token, e = DeviceConnects now uid ws ip dev token) ∨
  (∀ now uid ws ip dev token, e ≠ DeviceConnects now uid ws ip dev token).
Proof. destruct e; try (right; done). left. eauto 10. Qed.
Lemma run_links e s : enabled e s → links_ok s → links_ok (snd (run cfg ldap str_float py_str expo croniter valid_email e s)).
Proof.
  destruct (connects_or_not e) as [(now & uid & ws & ip & dev & token & ->)|Hne].
  { intros Hf Hs. cbn [run]. pose proof (device_websocket_links now uid ws ip dev token s Hs Hf) as Hc. unfold mbind, proc_bind.
    by destruct (device_websocket now uid ws ip dev token s) as [[a|x] s']. }
  intros _. revert s. change (preserves links_ok (run cfg ldap str_float py_str expo croniter valid_email e)).
  destruct e; try destruct k; cbn [run]; try (apply preserves_bind; [|intros; apply preserves_ret]).
  - apply links_account.
  - apply links_org.
  - apply links_command.
  - apply links_with_db. unfold create_scheduled_command, schedule_storable, _compute_next_run. walk.
  - apply links_with_db. unfold update_scheduled_command, schedule_storable, _compute_next_run. walk.
  - apply links_with_db. unfold delete_scheduled_command. walk.
  - apply links_with_db. unfold resolve_alert, service_resolve_alert. walk.
  - apply links_with_db. unfold generate_enrollment_token, redis_setex. walk.
  - apply links_with_db. unfold enroll_device, enroll_with_token, service_register_device, redis_delete. walk.
  - apply links_with_db. unfold register_device, enroll_with_token, service_register_device, redis_delete. walk.
  - apply links_device.
  - apply links_notify.
  - apply links_with_db. unfold stream_alerts, subscribe. walk.
  - apply links_with_db. unfold stream_activity, subscribe. walk.
  - unfold stream_next. walk.
  - unfold stream_next. walk.
  - unfold stream_alerts_end, unsubscribe. walk.
  - unfold stream_activity_end, unsubscribe. walk.
  - by edestruct Hne.
  - intros s. apply ws_receive_links.
  - intros s. apply offline_fire_links.
  - intros s. eapply links_ok_step, (link_ping cfg str_float py_str expo).
  - intros s. apply links_ok_dies.
  - apply links_worker.
  - apply links_worker.
  - apply links_worker.
  - apply links_worker.
Qed.
End links.

(** ** Properties *)

Module SystemProps.
Section props.
Context `{Crypto} (cfg : Settings) (ldap : jstr → jstr → ldap_answer) (str_float : Q → jstr) (py_str : json → jstr)
  (expo : list json → option (Z * json)) (croniter : jstr → Z → option Z)
  (valid_email : jstr → option jstr).
Let step := system_step cfg ldap str_float py_str expo croniter valid_email.

Definition tables_ok (d : database) : Prop := orgs_ok d ∧ one_open d ∧ queue_ok d.

(** What every event preserves holds in every state that is reached. *)
Lemma reached_preserves (P : server → Prop) s s' :
  (∀ e, preserves P (run cfg ldap str_float py_str expo croniter valid_email e)) → P s → rtc step s s' → P s'.
Proof. intros HP Hs Hr. revert s' Hr. apply (rtc_ind_r P); [done|]. intros s1 s2 _ [e s0 He] H1. by apply HP. Qed.
Lemma reached_links s s' : links_ok s → rtc step s s' → links_ok s'.
Proof. intros Hs Hr. revert s' Hr. apply (rtc_ind_r links_ok); [done|]. intros s1 s2 _ [e s0 He] H1. by apply run_links. Qed.

(** C1: from tables in order, whatever requests, messages, connections, streams and tasks the server goes through, in
    any order and whether they succeed or fail: every organization has an owner and its members once each, a device has at
    most one open alert of a type and at most a hundred waiting commands, and every open socket is the registered
    connection of the device it serves; and, unless logins go through a directory, which may take the role away, an active
    administrator remains. *)
Theorem system_invariant d s :
  tables_ok d → rtc step (start d) s →
  on_db tables_ok s ∧ links_ok s ∧ (LDAP_ENABLED cfg = false → accounts_ok d → on_db accounts_ok s).
Proof.
  intros (H1 & H2 & H3) Hr. split; [|split].
  - destruct (reached_preserves (on_db orgs_ok) (start d) s) as [B1 B2]; [apply run_orgs|done|done|].
    destruct (reached_preserves (on_db one_open) (start d) s) as [C1 C2]; [apply run_one_open|done|done|].
    destruct (reached_preserves (on_db queue_ok) (start d) s) as [D1 D2]; [apply run_queue|done|done|].
    unfold on_db, tables_ok. tauto.
  - eapply reached_links, Hr. split_and!; [intros ? []|constructor|done].
  - intros Hl Ha. apply (reached_preserves (on_db accounts_ok) (start d) s); [|done|done]. intros e. by apply run_accounts.
Qed.

(** A revocation takes effect at once. *)
Lemma revoke_revokes dev now lid cred s s1 :
  serve_device dev (RevokeDevice now lid cred) s = (Ok tt, s1) → on_db (revoked dev) s1.
Proof.
  cbn [serve_device]. unfold with_db. destruct (revoke_device now lid cred dev s) as [[[]|e] s'] eqn:E; [|done]. intros [= <-].
  assert (revoked dev (db s')) as Hr; [|done]. unfold revoke_device in E. step E. step E.
  step E. unfold service_revoke_device in E2. step E2. unfold service_get_device in E3. step E3. destruct r3 as [d|]; [|done].
  apply select_one_some in E4 as (-> & Hin & Hp). apply (f_equal snd) in E3, E2. simpl in E3, E2. subst. step E.
  apply log_action_ok in E2 as (lr & ->). apply (f_equal snd) in E. simpl in E. subst.
  apply andb_true_iff in Hp as [Hid%Z.eqb_eq _]. simpl in Hid, Hin. split; simpl.
  - rewrite map_map. apply in_map_iff. exists d. split; [|done]. by destruct (has_pk dev d).
  - intros r' (x & <- & Hx)%in_map_iff. unfold has_pk. simpl. by destruct (Z.eqb_spec (dv_id x) dev).
Qed.
Lemma revoked_not_connected dev now uid ws ip token s s' :
  on_db (revoked dev) s → device_websocket now uid ws ip dev token s ≠ (Ok Connected, s').
Proof.
  intros Hr Hrun. unfold device_websocket, closing_on_error, catch, with_db in Hrun.
  match type of Hrun with context [?m s] => destruct (m s) as [[c|e] s1] eqn:E end.
  2: { simpl in Hrun. unfold mbind, proc_bind in Hrun. by destruct (ignore_errors _ _) as [[|] ?]. }
  injection Hrun as -> _. step E.
  assert (on_db (revoked dev) s0) as [[_ Hall] _].
  { change s0 with (snd (Ok r, s0)). rewrite <-E0. revert s Hr E E0. intros s Hr _ _. revert s Hr.
    change (preserves (on_db (revoked dev)) (if loopback ip then mret true
      else attempts ← redis_incr now (attempts_key ip); when (attempts =? 1) (redis_expire now (attempts_key ip) 60);; mret (attempts <=? 30))).
    walk. }
  destruct (negb r); [done|]. step E. destruct r0 as [device|]; [|done]. apply select_one_some in E1 as (-> & Hin & Hu).
  unfold usable_device in Hu. apply andb_true_iff in Hu as [Hid%Z.eqb_eq Hrev]. simpl in Hid, Hin.
  by rewrite (Hall device Hin Hid) in Hrev.
Qed.

(** C5: once a device is revoked, whatever happens afterwards, no connection is accepted for its identifier: not with its
    key, nor after the key is rotated or another device is enrolled. *)
Theorem revoked_stays_out dev now lid cred s s1 s2 :
  serve_device dev (RevokeDevice now lid cred) s = (Ok tt, s1) → rtc step s1 s2 →
  ∀ now' uid ws ip token s', device_websocket now' uid ws ip dev token s2 ≠ (Ok Connected, s').
Proof.
  intros Hrev%revoke_revokes Hr now' uid ws ip token s'. apply revoked_not_connected. revert s2 Hr.
  apply (rtc_ind_r (on_db (revoked dev))); [done|]. intros x y _ [e s0 _] Hs0. by apply run_revoked.
Qed.
End props.

(** *** Witnesses *)

#[local] Existing Instance AuthProps.toy_crypto.
Definition no_float : Q → jstr := λ _, [].
Definition no_str : json → jstr := λ _, [].
Definition no_push : list json → option (Z * json) := λ _, None.
Definition no_cron : jstr → Z → option Z := λ _ _, None.
Definition no_email : jstr → option jstr := λ a, Some a.
Definition first_db : database := set_users [DeviceProps.admin_of 10] (set_devices [LinkProps.link_device] empty_db).
Definition run_all (l : list event) (s : server) : server :=
  fold_left (λ s e, snd (run default_settings AuthProps.no_ldap no_float no_str no_push no_cron no_email e s)) l s.
Definition some_events : list event :=
  [DeviceConnects 1 1001 1 "10.0.0.9" 7 "key";
   CommandEvent (Dispatch 2 50 51 (DeviceProps.org_cred 10) 7 "reboot" []);
   DeviceSends 3 (λ n, 100 + Z.of_nat n) 1 1
     (Message (JObj [("type", JStr "telemetry"); ("data", JObj [("cpu_percent", JNum (of_Z 99))])]));
   SocketDies 1; OfflineCheck (seconds 1000) (λ n, 200 + Z.of_nat n)].

Lemma some_events_step : rtc (system_step default_settings AuthProps.no_ldap no_float no_str no_push no_cron no_email)
  (start first_db) (run_all some_events (start first_db)).
Proof.
  unfold run_all, some_events. cbn [fold_left].
  do 5 (eapply rtc_r; [|apply system_event; first [exact I|split; intros []]]). apply rtc_refl.
Qed.

Lemma system_invariant_witness :
  let s := run_all some_events (start first_db) in
  (on_db tables_ok s ∧ links_ok s ∧ on_db accounts_ok s) ∧
  map (λ a, (ar_alert_type a, ar_is_resolved a)) (alerts (saved s)) = [("high_cpu" : jstr, false)] ∧ length (commands (saved s)) = 1%nat.
Proof.
  split; [|vm_compute; split; reflexivity].
  edestruct (system_invariant default_settings AuthProps.no_ldap no_float no_str no_push no_cron no_email first_db)
    as (H1 & H2 & H3); [|apply some_events_step|].
  - split; [split_and!; [constructor..|intros ? []]|]. split; [constructor|]. intros dev. vm_compute. lia.
  - split; [exact H1|]. split; [exact H2|]. apply H3; [reflexivity|].
    split; [apply NoDup_singleton|]. exists (DeviceProps.admin_of 10). split; [by left|reflexivity].
Defined.

Definition revoked_fleet : server := snd (serve_device 7 (RevokeDevice 2 9 (DeviceProps.org_cred 10)) (DeviceProps.fleet 10)).
Lemma revoked_stays_out_witness :
  let s2 := run_all [SocketDies 1] revoked_fleet in
  (dv_is_revoked <$> devices (db s2)) = [true] ∧ ¬ fst (device_websocket 3 9 2 "10.0.0.9" 7 "key" s2) = Ok Connected.
Proof.
  intros s2. split; [vm_compute; reflexivity|]. intros E.
  refine (revoked_stays_out default_settings AuthProps.no_ldap no_float no_str no_push no_cron no_email 7 2 9 (DeviceProps.org_cred 10)
    (DeviceProps.fleet 10) revoked_fleet s2 _ _ 3 9 2%nat "10.0.0.9" "key" (snd (device_websocket 3 9 2 "10.0.0.9" 7 "key" s2)) _).
  - vm_compute. reflexivity.
  - eapply rtc_l; [|apply rtc_refl]. apply (system_event _ _ _ _ _ _ _ (SocketDies 1) revoked_fleet). exact I.
  - rewrite <-E. by destruct (device_websocket _ _ _ _ _ _ _).
Defined.
End SystemProps.
