(* ===== verification/EndToEnd.v ===== *)
(** From the server to the browser: the alerts that [create_alert] stores are
    those that the store of the web client gets.

    The alert service ([ServerAlerts]), the server's queue, generator and [json.dumps] ([ServerConnections],
    [JsonText]) meet the client's record loop and [JSON.parse] ([Sse],
    [JsJson]); the network may cut the text anywhere.  The text is ASCII, so
    that its bytes are its characters. *)
From Stdlib Require Import QArith.
From S2P Require Import Api Sse.
From S2P Require Import Prelude JsString JsNumber Types JsJson JsonText Stores Sse ServerModels ServerRuntime ServerConnections.
From S2P Require Import ServerAlerts ServerCommands ServerDevices.
Local Open Scope Z_scope.
Local Open Scope js_scope.

(** ** The client's reading of an alert *)

Definition severity_of (s : jstr) : option Severity :=
  if s =s "info" then Some Info else if s =s "warning" then Some Warning else if s =s "critical" then Some Critical else None.
Definition str_field (k : jstr) (v : json) : option jstr := match field k v with Some (JStr s) => Some s | _ => None end.

(** [JSON.parse(text) as Alert]: the fields that the type names. *)
Definition alert_of_json (v : json) : option Alert :=
  i ← str_field "id" v; dev ← str_field "device_id" v; ty ← str_field "alert_type" v;
  sev ← str_field "severity" v ≫= severity_of; msg ← str_field "message" v;
  res ← match field "is_resolved" v with Some (JBool b) => Some b | _ => None end;
  created ← str_field "created_at" v;
  Some {| a_id := i; a_device_id := dev; a_alert_type := ty; a_severity := sev; a_message := msg; a_is_resolved := res;
          a_created_at := created; a_resolved_at := str_field "resolved_at" v |}.
Definition decode_alert (text : jstr) : option Alert := JSON_parse text ≫= alert_of_json.

(** The alert of the client for a row of the server. *)
Definition client_alert (sev : Severity) (a : AlertRow) : Alert :=
  {| a_id := str_uuid (ar_id a); a_device_id := str_uuid (ar_device_id a); a_alert_type := utf16 (ar_alert_type a);
     a_severity := sev; a_message := utf16 (ar_message a); a_is_resolved := ar_is_resolved a;
     a_created_at := isoformat (ar_created_at a); a_resolved_at := isoformat <$> ar_resolved_at a |}.

(** ** The text *)

Definition printable (c : Z) : Prop := 32 <= c <= 126.

Ltac chars := repeat (constructor; [first [unfold printable; lia|eassumption]|]); try done.

Lemma hex_lower_printable n : 0 <= n < 16 → printable (hex_lower n).
Proof. unfold hex_lower, printable. destruct (Z.ltb_spec n 10); lia. Qed.
Lemma unicode_escape_printable c : 0 <= c < 65536 → Forall printable (unicode_escape c).
Proof.
  intros Hc. unfold unicode_escape. do 2 (constructor; [unfold printable; lia|]).
  repeat (constructor; [apply hex_lower_printable; zdiv|]). done.
Qed.
Lemma py_escape_printable c : code_point c → Forall printable (py_escape c).
Proof.
  intros Hc. unfold py_escape. destruct (short_escape c) as [e|] eqn:E.
  - unfold short_escape in E. constructor; [by unfold printable; lia|].
    repeat (case_match; [injection E as <-; chars|]). done.
  - destruct (Z.leb_spec 32 c), (Z.leb_spec c 126); cbn [andb]; try (by chars).
    all: unfold code_point in Hc; destruct (Z.ltb_spec c 65536);
      [apply unicode_escape_printable; lia|apply Forall_app; split; apply unicode_escape_printable; zdiv].
Qed.
Lemma py_quote_printable s : text_ok s → Forall printable (py_quote s).
Proof.
  intros Hs. unfold py_quote. constructor; [by unfold printable; lia|]. apply Forall_app. split; [|by chars].
  induction s as [|c s IH]; [done|]. cbn [flat_map]. apply Forall_app. split; [apply py_escape_printable, Hs; by left|].
  apply IH. intros d Hd. apply Hs. by right.
Qed.
Lemma string_of_Z_printable z : Forall printable (string_of_Z z).
Proof.
  apply List.Forall_forall. intros c. unfold string_of_Z. destruct (Z.ltb_spec z 0).
  - intros [<-|Hc]; [by unfold printable; lia|]. apply digits_In in Hc; [unfold printable; lia|lia].
  - intros Hc%digits_In; [unfold printable; lia|lia].
Qed.
Lemma join_printable sep l : Forall printable sep → Forall (Forall printable) l → Forall printable (join sep l).
Proof.
  intros Hsep Hl. induction Hl as [|x [|y l] Hx Hl IH]; [done|done|]. cbn [join]. repeat (apply Forall_app; split); done.
Qed.

(** What [json.dumps] writes is printable ASCII. *)
Lemma dumps_printable str_float v : plain_for text_ok v → Forall printable (json_dumps str_float v).
Proof.
  unfold json_dumps. induction v as [|b|n|s|l IH|fs IH] using json_nested_ind; intros Hp.
  - by chars.
  - destruct b; by chars.
  - destruct Hp as (z & -> & _). apply string_of_Z_printable.
  - by apply py_quote_printable.
  - rewrite plain_arr in Hp. cbn [json_text]. constructor; [by unfold printable; lia|]. apply Forall_app. split; [|by chars].
    apply join_printable; [by chars|]. apply List.Forall_forall. intros t (x & <- & Hx)%in_map_iff. by apply IH, Hp.
  - rewrite plain_obj in Hp. destruct Hp as [_ Hp]. cbn [json_text]. constructor; [by unfold printable; lia|].
    apply Forall_app. split; [|by chars]. apply join_printable; [by chars|].
    apply List.Forall_forall. intros t (f & <- & Hf)%in_map_iff. destruct (Hp f Hf) as [Hk Hv].
    apply Forall_app. split; [by apply py_quote_printable|]. constructor; [by unfold printable; lia|]. cbn [app].
    constructor; [by unfold printable; lia|]. by apply IH.
Qed.

(** ** Records *)

(** A record without line breaks is read back as it was written. *)
Lemma records_cons t r : (∀ c, In c t → c ≠ 10) → records (t ++ blank_line ++ r) = t :: records r.
Proof.
  intros Ht. assert (split blank_line (t ++ blank_line ++ r) = t :: split blank_line r) as E.
  { unfold split. induction t as [|c t IH]; [done|]. cbn [app split_at].
    assert (startsWith (c :: t ++ blank_line ++ r) blank_line = false) as ->.
    { cbn [startsWith blank_line]. destruct (Z.eqb_spec 10 c) as [<-|]; [|done]. by destruct (Ht 10 (or_introl eq_refl)). }
    rewrite IH by (intros d Hd; apply Ht; by right). done. }
  unfold records. rewrite E. pose proof (split_at_nonnil blank_line 0 r) as Hn. unfold split in *.
  destruct (split_at blank_line 0 r); [done|]. done.
Qed.
Lemma printable_line t : Forall printable t → ∀ c, In c t → c ≠ 10.
Proof. rewrite List.Forall_forall. intros Ht c Hc%Ht. unfold printable in Hc. lia. Qed.

Lemma payload_data t : Forall printable t → payload_text ("data: " ++ t) = Some t.
Proof.
  intros Ht. unfold payload_text, dataLine. rewrite (split1_none 10).
  - reflexivity.
  - apply printable_line. repeat (constructor; [by unfold printable; lia|]). done.
Qed.
Lemma payload_keep_alive : payload_text ": keep-alive" = None.
Proof. reflexivity. Qed.

(** What a generator yields: a record, or the sign of life. *)
Definition item_text (str_float : Q → jstr) (o : option json) : jstr :=
  match o with Some p => record_text str_float p | None => keep_alive end.

Lemma alerts_of_items str_float items :
  Forall (plain_for text_ok) (omap id items) →
  LiveAlerts.alerts_of decode_alert (records (@List.concat Z (map (item_text str_float) items)))
  = mapM (λ p, alert_of_json (json_read utf16 p)) (omap id items).
Proof.
  induction items as [|[p|] items IH]; intros Hq; [done| |].
  - inversion Hq as [|? ? Hp Hq']; subst. cbn [map List.concat item_text]. unfold record_text.
    rewrite <-!app_assoc. change ([10; 10] ++ ?x) with (blank_line ++ x).
    pose proof (dumps_printable str_float p Hp) as Hd. rewrite app_assoc, records_cons.
    + cbn [LiveAlerts.alerts_of]. rewrite payload_data by done.
      assert (decode_alert (json_dumps str_float p) = alert_of_json (json_read utf16 p)) as ->
        by (unfold decode_alert; by rewrite dumps_round_trip). rewrite IH by done. done.
    + apply printable_line. apply Forall_app. split; [|done]. chars.
  - cbn [map List.concat item_text]. unfold keep_alive. rewrite <-app_assoc. change ([10; 10] ++ ?x) with (blank_line ++ x).
    rewrite records_cons by (apply printable_line; chars). cbn [LiveAlerts.alerts_of]. rewrite payload_keep_alive. by apply IH.
Qed.

(** ** A stream at work *)

(** A call of [create_alert]. *)
Record alert_call := { al_now : Z; al_id : uuid; al_device : DeviceRow; al_type : jstr; al_severity : jstr; al_message : jstr }.
Definition called_alert (r : alert_call) : AlertRow :=
  new_alert (al_now r) (al_id r) (dv_id (al_device r)) (al_type r) (al_severity r) (al_message r).
Definition payload_of (x : AlertRow * DeviceRow) : json := alert_payload x.1 x.2.

(** The stream of an organization while [create_alert] is called, with whatever outcome, and the generator of the stream is
    asked for more, in any order. *)
Inductive stream_act := Raised (r : alert_call) | Pulled.
Fixpoint stream_acts (expo : list json → option (Z * json)) (str_float : Q → jstr) (org : uuid) (n : nat) (acts : list stream_act)
    : proc (list jstr) :=
  match acts with
  | [] => mret []
  | Raised r :: acts => λ s,
      stream_acts expo str_float org n acts
        (snd (create_alert expo (al_now r) (al_id r) (al_device r) (al_type r) (al_severity r) (al_message r) s))
  | Pulled :: acts =>
      o ← stream_next str_float AlertStream org n;
      l ← stream_acts expo str_float org n acts;
      mret (match o with Some t => t :: l | None => l end)
  end.
(** The queue, with [k] payloads in it, never has more than 100 waiting. *)
Fixpoint has_room (k : nat) (acts : list stream_act) : Prop :=
  match acts with
  | [] => True
  | Raised _ :: acts => (k < 100)%nat ∧ has_room (S k) acts
  | Pulled :: acts => has_room (pred k) acts
  end.
Lemma has_room_le k k' acts : (k ≤ k')%nat → has_room k' acts → has_room k acts.
Proof.
  revert k k'. induction acts as [|[r|] acts IH]; intros k k' Hk; [done| |]; simpl.
  - intros [Hlt Hr]. split; [lia|]. apply (IH _ (S k')); [lia|done].
  - apply IH. lia.
Qed.

Lemma queue_put_sublist p q : queue_put p q `sublist_of` q ++ [p].
Proof.
  unfold queue_put. destruct (Nat.ltb _ 100); [done|]. destruct (Nat.ltb _ 100).
  - apply sublist_app; [|done]. destruct q; [done|]. by apply sublist_cons.
  - apply sublist_inserts_r. destruct q; [done|]. by apply sublist_cons.
Qed.

(** The alerts stored were published in that order; what was taken out of the queue was yielded, if it is of the
    organization; the rest is still there, less what an overflow gave up. *)
Lemma stream_acts_run expo str_float org n acts s q :
  queue_of n (alert_queues s) = Some q →
  ∃ items taken left added s', stream_acts expo str_float org n acts s = (Ok (map (item_text str_float) items), s') ∧
    queue_of n (alert_queues s') = Some left ∧ alerts (db s') = alerts (db s) ++ map fst added ∧
    Forall (λ x, ∃ r, In (Raised r) acts ∧ x = (called_alert r, al_device r)) added ∧
    taken ++ left `sublist_of` q ++ map payload_of added ∧
    (has_room (length q) acts → taken ++ left = q ++ map payload_of added) ∧
    omap id items = bfilter (λ p, negb (other_org org p)) taken.
Proof.
  revert s q. induction acts as [|[r|] acts IH]; intros s q Hq.
  - exists [], [], q, [], s. cbn [map]. rewrite !app_nil_r. done.
  - cbn [stream_acts].
    destruct (create_alert_cases expo (al_now r) (al_id r) (al_device r) (al_type r) (al_severity r) (al_message r) s) as [[Ha Hp]|[Ha Hp]];
      set (s1 := snd (create_alert _ _ _ _ _ _ _ s)) in *.
    + destruct (IH s1 q) as (items & taken & left & added & s' & E & H1 & H2 & H3 & H4 & H5 & H6); [by rewrite Hp|].
      exists items, taken, left, added, s'. rewrite H2, Ha. split_and!; try done.
      * eapply Forall_impl; [exact H3|]. intros x (r' & Hr & Hx). exists r'. split; [by right|done].
      * intros [_ Hroom]. apply H5. eapply has_room_le; [|exact Hroom]. lia.
    + destruct (IH s1 (queue_put (payload_of (called_alert r, al_device r)) q))
        as (items & taken & left & added & s' & E & H1 & H2 & H3 & H4 & H5 & H6); [by rewrite Hp, queue_of_publish, Hq|].
      exists items, taken, left, ((called_alert r, al_device r) :: added), s'. rewrite H2, Ha, <-app_assoc. cbn [map].
      split_and!; try done.
      * constructor; [exists r; split; [by left|done]|]. eapply Forall_impl; [exact H3|]. intros x (r' & Hr & Hx). exists r'.
        split; [by right|done].
      * etrans; [exact H4|]. rewrite cons_middle, app_assoc. apply sublist_app; [apply queue_put_sublist|done].
      * intros [Hlt Hroom]. unfold queue_put in H5. rewrite (proj2 (Nat.ltb_lt _ _)) in H5 by done.
        rewrite length_app, Nat.add_comm in H5. rewrite H5 by done. by rewrite <-app_assoc.
  - cbn [stream_acts]. unfold stream_next. run_proc. cbn [queues set_queues]. rewrite Hq.
    destruct q as [|p q].
    + destruct (IH s [] Hq) as (items & taken & left & added & s' & -> & H1 & H2 & H3 & H4 & H5 & H6).
      exists (None :: items), taken, left, added, s'. split_and!; try done. eapply Forall_impl; [exact H3|].
      intros x (r' & Hr & Hx). exists r'. split; [by right|done].
    + destruct (IH (set_alert_queues (queues_set n q (alert_queues s)) s) q)
        as (items & taken & left & added & s' & -> & H1 & H2 & H3 & H4 & H5 & H6); [by eapply queue_of_set|].
      exists (if other_org org p then items else Some p :: items), (p :: taken), left, added, s'.
      change (bfilter ?f (p :: taken)) with (if f p then p :: bfilter f taken else bfilter f taken). cbv beta.
      split_and!; [by destruct (other_org org p)|done|done| | | |].
      * eapply Forall_impl; [exact H3|]. intros x (r' & Hr & Hx). exists r'. split; [by right|done].
      * cbn [app]. by apply sublist_skip.
      * intros Hroom. cbn [app]. f_equal. by apply H5.
      * destruct (other_org org p); cbn [negb]; [done|]. cbn [omap list_omap id]. by rewrite H6.
Qed.

Lemma sublist_map {A B} (f : A → B) l k : l `sublist_of` map f k → ∃ k', l = map f k' ∧ k' `sublist_of` k.
Proof.
  revert l. induction k as [|x k IH]; intros l Hl; [exists []; by apply sublist_nil_r in Hl|].
  cbn [map] in Hl. inversion Hl as [|? l' ? Hl'|? ? ? Hl']; subst; destruct (IH _ Hl') as (k' & -> & Hk).
  - exists (x :: k'). split; [done|]. by apply sublist_skip.
  - exists k'. split; [done|]. by apply sublist_cons.
Qed.
Lemma sublist_full {A} (l k : list A) : l `sublist_of` k → length l = length k → l = k.
Proof.
  induction 1 as [|x l k _ IH|x l k Hl IH]; intros Hlen; [done| |]; simpl in Hlen; [f_equal; apply IH; lia|].
  apply sublist_length in Hl. lia.
Qed.
Lemma sublist_omap {A B} (f : A → option B) l k : l `sublist_of` k → omap f l `sublist_of` omap f k.
Proof.
  induction 1 as [|x l k _ IH|x l k _ IH]; [done| |]; cbn [omap list_omap]; destruct (f x);
    [by apply sublist_skip|done|by apply sublist_cons|done].
Qed.

(** ** The payload of an alert *)

Lemma printable_text s : Forall printable s → text_ok s.
Proof. rewrite List.Forall_forall. intros Hs c Hc%Hs. unfold printable in Hc. left. lia. Qed.
Lemma printable_utf16 s : Forall printable s → utf16 s = s.
Proof. rewrite List.Forall_forall. intros Hs. apply utf16_ascii. intros c Hc%Hs. unfold printable in Hc. lia. Qed.


Lemma str_uuid_printable u : Forall printable (str_uuid u).
Proof. apply List.Forall_forall. intros c Hc%str_uuid_ascii. unfold printable. lia. Qed.
Lemma pad0_printable n z : Forall printable (pad0 n z).
Proof.
  unfold pad0, padStart. apply Forall_app. split; [|apply string_of_Z_printable]. apply Forall_replicate. unfold printable. lia.
Qed.
Lemma isoformat_printable t : Forall printable (isoformat t).
Proof.
  unfold isoformat, isoformat_date. cbv zeta.
  repeat first [apply pad0_printable | apply Forall_app; split | case_match | by chars].
Qed.

(** An alert and its device with texts of characters. *)
Definition sendable (sev : Severity) (a : AlertRow) (d : DeviceRow) : Prop :=
  text_ok (ar_alert_type a) ∧ text_ok (ar_message a) ∧ text_ok (py_or (dv_label d) (dv_hostname d)) ∧
  severity_of (ar_severity a) = Some sev.

Lemma severity_text s sev : severity_of s = Some sev → Forall printable s.
Proof.
  unfold severity_of. repeat match goal with |- context [s =s ?x] => destruct (s =s x) eqn:?E end; try done; intros _;
    match goal with H : (s =s _) = true |- _ => apply seqb_true in H as -> end; chars.
Qed.

Lemma payload_plain sev a d : sendable sev a d → plain_for text_ok (alert_payload a d).
Proof.
  intros (Ht & Hm & Hh & Hs%severity_text). apply plain_obj. split.
  - cbn [map fst]. apply (bool_decide_unpack _). vm_compute. exact I.
  - assert (∀ k v, Forall printable k → plain_for text_ok v → text_ok (fst (k, v)) ∧ plain_for text_ok (snd (k, v))) as Hf
      by (intros; split; [by apply printable_text|done]).
    intros f Hin. simpl in Hin.
    repeat (destruct Hin as [<-|Hin]; [apply Hf; [chars|]|]); try done; cbn [plain_for];
      try (by apply printable_text, str_uuid_printable); try (by apply printable_text, isoformat_printable); try (by apply printable_text).
    + destruct (dv_org_id d); [by apply printable_text, str_uuid_printable|done].
    + destruct (ar_resolved_at a); [by apply printable_text, isoformat_printable|done].
Qed.

(** The client reads the alert of the row. *)
Lemma payload_decodes sev a d : sendable sev a d → alert_of_json (json_read utf16 (alert_payload a d)) = Some (client_alert sev a).
Proof.
  intros (Ht & Hm & Hh & Hs). pose proof (severity_text _ _ Hs) as Hp. unfold alert_of_json.
  assert (str_field "resolved_at" (json_read utf16 (alert_payload a d)) = isoformat <$> ar_resolved_at a) as ->.
  { unfold str_field, alert_payload. simpl. destruct (ar_resolved_at a) as [t|]; [|done]. simpl.
    by rewrite (printable_utf16 _ (isoformat_printable t)). }
  set (p := json_read utf16 (alert_payload a d)).
  assert (str_field "id" p = Some (utf16 (str_uuid (ar_id a)))) as -> by reflexivity.
  assert (str_field "device_id" p = Some (utf16 (str_uuid (ar_device_id a)))) as -> by reflexivity.
  assert (str_field "alert_type" p = Some (utf16 (ar_alert_type a))) as -> by reflexivity.
  assert (str_field "severity" p = Some (utf16 (ar_severity a))) as -> by reflexivity.
  assert (str_field "message" p = Some (utf16 (ar_message a))) as -> by reflexivity.
  assert (field "is_resolved" p = Some (JBool (ar_is_resolved a))) as -> by reflexivity.
  assert (str_field "created_at" p = Some (utf16 (isoformat (ar_created_at a)))) as -> by reflexivity.
  rewrite (printable_utf16 _ (str_uuid_printable (ar_id a))), (printable_utf16 _ (str_uuid_printable (ar_device_id a))),
    (printable_utf16 _ (isoformat_printable (ar_created_at a))), (printable_utf16 _ Hp). cbn [mbind option_bind]. rewrite Hs. done.
Qed.

(** An alert that the stream of the organization passes on: one of a device of
    the organization, or of no organization. *)
Definition passes (org : uuid) (d : DeviceRow) : bool := match dv_org_id d with Some o => o =? org | None => true end.
Lemma other_org_payload org a d :
  uuid_ok org → (∀ o, dv_org_id d = Some o → uuid_ok o) → other_org org (alert_payload a d) = negb (passes org d).
Proof.
  intros Horg Ho. unfold other_org, passes.
  assert (field "org_id" (alert_payload a d) = Some (match dv_org_id d with Some o => JStr (str_uuid o) | None => JNull end)) as -> by reflexivity.
  destruct (dv_org_id d) as [o|]; [|done]. cbn [from_null py_true]. specialize (Ho o eq_refl).
  assert (truthy (str_uuid o) = true) as ->.
  { pose proof (UUID_str o Ho) as Hu. destruct (str_uuid o); [done|reflexivity]. }
  cbn [andb]. f_equal. destruct (Z.eqb_spec o org) as [->|Hne]; [apply seqb_refl|]. apply seqb_false. intros E. apply Hne.
  by apply str_uuid_inj.
Qed.

(** ** Properties *)

Module EndToEndProps.

(** What the browser is to hold for an alert of a device: nothing if it is another organization's. *)
Definition delivery (org : uuid) (x : AlertRow * DeviceRow) : option Alert :=
  sev ← severity_of (ar_severity x.1); if passes org x.2 then Some (client_alert sev x.1) else None.
(** A call whose texts are of characters and whose severity is one of the three. *)
Definition call_ok (x : stream_act) : Prop :=
  match x with
  | Raised r => (∃ sev, sendable sev (called_alert r) (al_device r)) ∧ ∀ o, dv_org_id (al_device r) = Some o → uuid_ok o
  | Pulled => True
  end.

Lemma deliveries_decode org l :
  uuid_ok org → Forall (λ x, (∃ sev, sendable sev x.1 x.2) ∧ ∀ o, dv_org_id x.2 = Some o → uuid_ok o) l →
  Forall (plain_for text_ok) (map payload_of l) ∧
  mapM (λ p, alert_of_json (json_read utf16 p)) (bfilter (λ p, negb (other_org org p)) (map payload_of l)) = Some (omap (delivery org) l).
Proof.
  intros Horg. induction 1 as [|[a d] l [[sev Hs] Ho] Hl [IH1 IH2]]; [done|]. cbn [fst snd] in *. cbn [map omap list_omap].
  unfold payload_of at 1 3. unfold delivery at 1. cbn [fst snd]. split; [by constructor; [eapply payload_plain|]|].
  change (bfilter ?f (?p :: ?q)) with (if f p then p :: bfilter f q else bfilter f q). cbv beta.
  rewrite other_org_payload by done. rewrite negb_involutive. pose proof Hs as (_ & _ & _ & ->). cbn [mbind option_bind].
  destruct (passes org d); [|done]. cbn [mapM]. rewrite (payload_decodes sev) by done. cbn [mbind option_bind]. by rewrite IH2.
Qed.

(** C2: the alerts the alert service stores reach the browsers of their organization.  While [create_alert] is called, with
    any outcome, and an open stream is served, in any order, the web client reads the text, however the network cuts it,
    into some of the alerts stored meanwhile for devices of the organization (or of none), in order, each with the fields
    of its row: it puts them in front of those it had, once each, and asks for their notifications.  They are all of
    them once the queue is empty, if never more than 100 were waiting. *)
Theorem alerts_reach_the_browser expo str_float org n acts s texts s1 permitted st cs :
  queue_of n (alert_queues s) = Some [] → uuid_ok org → Forall call_ok acts →
  stream_acts expo str_float org n acts s = (Ok texts, s1) → @List.concat Z cs = @List.concat Z texts →
  LiveAlerts.mounted st = true → LiveAlerts.in_sync st → LiveAlerts.st_phase st = LiveAlerts.Reading [] →
  ∃ added delivered st',
    alerts (db s1) = alerts (db s) ++ map fst added ∧
    Forall (λ x, ∃ r, In (Raised r) acts ∧ x = (called_alert r, al_device r)) added ∧
    LiveAlerts.sse_run decode_alert permitted st (map LiveAlerts.Read cs)
    = (st', flat_map (LiveAlerts.notify permitted) delivered) ∧
    alertStore.unresolved (LiveAlerts.store st') = fold_left LiveAlerts.add_new delivered (LiveAlerts.prevAlerts st) ∧
    delivered `sublist_of` omap (delivery org) added ∧
    (has_room 0 acts → queue_of n (alert_queues s1) = Some [] → delivered = omap (delivery org) added).
Proof.
  intros Hq Horg Hok Hrun Hcs Hm Hsync Hph.
  destruct (stream_acts_run expo str_float org n acts s [] Hq) as (items & taken & left & added & s' & E & H1 & H2 & H3 & H4 & H5 & H6).
  rewrite E in Hrun. injection Hrun as Ht <-. cbn [app length] in H4, H5.
  apply sublist_app_l in H4 as H4'. destruct H4' as (k1 & k2 & Ek & Hk1 & _).
  assert (taken `sublist_of` map payload_of added) as Htaken by (rewrite Ek; by apply sublist_inserts_r).
  apply sublist_map in Htaken as (sent & -> & Hsent).
  assert (∀ x, In x added → (∃ sev, sendable sev x.1 x.2) ∧ ∀ o, dv_org_id x.2 = Some o → uuid_ok o) as Hadded.
  { intros x Hx. rewrite List.Forall_forall in H3, Hok. destruct (H3 x Hx) as (r & Hr & ->). exact (Hok _ Hr). }
  destruct (deliveries_decode org sent Horg) as [Hplain Hal].
  { apply List.Forall_forall. intros x Hx. apply Hadded. apply list_elem_of_In. eapply elem_of_sublist; [|exact Hsent].
    by apply list_elem_of_In. }
  assert (LiveAlerts.alerts_of decode_alert (records (@List.concat Z cs)) = Some (omap (delivery org) sent)) as Hof.
  { rewrite Hcs, <-Ht, alerts_of_items; rewrite H6; [done|]. rewrite List.Forall_forall in Hplain |- *.
    intros p [Hp _]%bfilter_In. by apply Hplain. }
  exists added, (omap (delivery org) sent).
  rewrite (LiveAlerts.sse_run_reads decode_alert permitted cs st [] (omap (delivery org) sent)) by done. eexists.
  split_and!; try done; [by apply sublist_omap|]. intros Hroom Hq1. rewrite H1 in Hq1. injection Hq1 as ->. f_equal.
  specialize (H5 Hroom). rewrite app_nil_r in H5. apply (f_equal length) in H5. rewrite !length_map in H5.
  by apply sublist_full.
Qed.

(** Of the commands of the mobile library the command service knows two. *)
Theorem mobile_library_allowed :
  map mobileCommandsApi.lib_type (bfilter (λ c, existsb (seqb (mobileCommandsApi.lib_type c)) ALLOWED_COMMAND_TYPES)
    mobileCommandsApi.COMMAND_LIBRARY) =
  ["sync_time"; "reboot"].
Proof. vm_compute. reflexivity. Qed.

(** *** Witness *)

Definition hot (aid : uuid) (d : DeviceRow) : alert_call :=
  {| al_now := 0; al_id := aid; al_device := d; al_type := "high_cpu"; al_severity := "warning"; al_message := "hot" |}.
Definition foreign : DeviceRow := AlertProps.device_of 8 (Some 11).
(** The third call finds the alert of the first one open. *)
Definition some_acts : list stream_act :=
  [Pulled; Raised (hot 100 AlertProps.sample_device); Raised (hot 101 foreign); Raised (hot 102 AlertProps.sample_device); Pulled; Pulled].
Definition streamed : result (list jstr) * server :=
  stream_acts (λ _, None) (λ _, []) 10 1 some_acts AlertProps.one_device.
Definition streamed_text : jstr := match fst streamed with Ok texts => @List.concat Z texts | Raise _ => [] end.
Definition reading : LiveAlerts.sse_state :=
  fst (LiveAlerts.sse_step decode_alert None (fst (LiveAlerts.sse_start alertStore.alert_initial)) (LiveAlerts.Response 200 true)).

Lemma alerts_reach_the_browser_witness :
  ∃ added delivered st',
    alerts (db (snd streamed)) = map fst added ∧ length added = 2%nat ∧
    LiveAlerts.sse_run decode_alert None reading (map LiveAlerts.Read [take 50 streamed_text; drop 50 streamed_text]) = (st', []) ∧
    alertStore.unresolved (LiveAlerts.store st') = fold_left LiveAlerts.add_new delivered [] ∧ delivered = omap (delivery 10) added.
Proof.
  destruct (fst streamed) as [texts|e] eqn:Et; [|vm_compute in Et; discriminate Et].
  destruct (alerts_reach_the_browser (λ _, None) (λ _, []) 10 1%nat some_acts AlertProps.one_device texts (snd streamed) None reading
    [take 50 streamed_text; drop 50 streamed_text]) as (added & delivered & st' & Ha & _ & Hr & Hst & _ & Hall).
  - reflexivity.
  - split; [discriminate|reflexivity].
  - assert (∀ s : jstr, forallb (λ c, (0 <=? c) && (c <? 128)) s = true → text_ok s) as Htext.
    { intros s Hs c Hc. rewrite forallb_forall in Hs. apply Hs in Hc. left. apply andb_true_iff in Hc as [?%Z.leb_le ?%Z.ltb_lt]. lia. }
    repeat (constructor; [first [exact I|split; [exists Warning; split_and!; [apply Htext; reflexivity..|reflexivity]|]]|]); [..|constructor].
    all: intros o [= <-]; split; [discriminate|reflexivity].
  - rewrite <-Et. unfold streamed. by destruct (stream_acts _ _ _ _ _ _).
  - unfold streamed_text. rewrite Et. cbn [List.concat]. rewrite app_nil_r. apply take_drop.
  - reflexivity.
  - reflexivity.
  - reflexivity.
  - exists added, delivered, st'. rewrite Ha, Hr, Hst. split; [reflexivity|]. split_and!.
    + apply (f_equal length) in Ha. rewrite length_app, length_map in Ha. simpl in Ha. rewrite <-Ha. vm_compute. reflexivity.
    + f_equal. clear. induction delivered as [|x l IH]; [reflexivity|]. exact IH.
    + reflexivity.
    + apply Hall; [repeat split; lia|vm_compute; reflexivity].
Defined.
End EndToEndProps.
